(* ===== verification/_CoqProject ===== *)
-Q . S2P
Prelude.v
Memory.v
Ctype.v
Str.v
Mem.v
PageAlloc.v
Malloc.v
Convert.v
Sort.v
Bits.v
Io.v
Intr.v
Timer.v
Ring.v
Keyb.v
Psaux.v
Serial.v
Contty.v
Int86.v
Stdio.v
Dma.v
AuSb.v
Rand.v
Video.v
Pci.v
Kmain.v
Init.v
Time.v
Rtc.v
Part.v
Bootdev.v
FsPath.v
FsMem.v
FsTree.v
FsFile.v
FsDir.v
Mtab.v
Fs.v
FsMount.v
File.v
FileMem.v
Fat.v
FatFile.v
FatName.v
FatDir.v
BootFat.v
Kernel.v
Vbetest.v
Report.v
