(* ===== verification/Prelude.v ===== *)
(** * pcboot: a verification library

    pcboot is a kernel for programs that run on a PC without an operating
    system: a boot loader enters it in protected mode, it sets up the machine
    and offers drivers, memory, file systems and a C library. This library
    models its C sources (src/) as functions and proves what they promise, or,
    where the code does something else than it means to, what it does instead.

    ** The program and its parts

    The kernel is one address space and one thread with interrupts. At the
    bottom are port access (asmops.h) and calls of the BIOS (int86.h), which are
    the world outside of the program. On them sit the drivers: interrupts and
    segments (intr.c, segm.c), timer, keyboard, mouse, serial ports, text
    console, DMA, Sound Blaster, video modes, PCI, the clock chip, the boot
    drive. Memory comes in pages from a bitmap (mem.c), which malloc cuts into
    blocks. File systems, one in memory (fsmem.c) and one for FAT volumes on the
    boot drive (fsfat.c), are called through tables of functions by fs.c, which
    keeps the mounts (mtab.c) and the working directory; file.c, dirent.c and
    unistd.c are the C library's functions on top of it. kmain.c starts all
    drivers and then shows the keys that were pressed.

    ** How code is modelled

    Prelude.v (this file) has what all share: [res], the outcome of code that may
    panic, fault (an access out of bounds or through a dangling or null pointer,
    a division by zero) or run out of fuel; state monads [SM S] over it; the
    wrap-around of the integer types ([u8], [u16], [u32], [u64], [s8], [s32]);
    lists indexed by Z, where an index out of range is [None]; the hint database
    [words] and the tactics [mlia], [wsimpl], [zcases].

    - Memory that the code addresses by numbers (malloc, string.c, the BIOS's
      buffers) is a map from addresses to bytes (Memory.v); objects that the code
      reaches by typed pointers (nodes of file systems, FILE, timer events) are
      in stores indexed by the pointer, so that a use after free is a [Fault].
    - A driver runs in the monad [IO] of Io.v over the trace of port accesses and
      the interrupt flag. What a port returns is the class [Device], a function
      of everything that happened before: theorems hold for every device, or for
      those that satisfy a stated class or predicate.
    - Loops are structural where they count, else take fuel. Every theorem that
      needs fuel says how much is enough: the length of a list or path, the size
      of a heap in blocks, the polls a device may take. None of the properties
      holds only because fuel ran out.
    - What the code only calls is a parameter: the BIOS, other file systems
      behind the table, callbacks, the contents of uninitialised memory.

    ** Files

    Memory and C library:
    - Memory.v: byte memory, loads and stores. Str.v: string.c and
      string_asm.s. Ctype.v: ctype.c. Convert.v: atoi, strtol, itoa of stdlib.c.
      Sort.v: qsort of stdlib.c. Rand.v: rand.c. Time.v: time.c. Stdio.v: the
      printf family of stdio.c over sinks (buffer, console, serial port).
    - Mem.v: the page allocator of mem.c. PageAlloc.v: the class [PageAlloc] with
      the law [PageAllocSpec] that malloc relies on, discharged by Mem.v.
      Malloc.v: malloc.c (the single pool that is compiled in).
    Drivers:
    - Bits.v: bit fields by computation. Io.v: asmops.h. Int86.v: int86.h.
      Intr.v: intr.c and segm.c. Timer.v: timer.c. Ring.v: the input queues, with
      the class [RingSize]. Keyb.v: keyb.c and power.c. Psaux.v: psaux.c.
      Serial.v: serial.c. Contty.v: contty.c. Dma.v: dma.c. AuSb.v: au_sb.c and
      audio.c. Video.v: video.c and vbe.c, class [VbeBios]. Pci.v: pci.c, class
      [PciHost]. Rtc.v: rtc.c. Part.v: part.c. Bootdev.v: bootdev.c and floppy.c,
      class [BiosDrive].
    - Kmain.v: the main loop of kmain.c. Init.v: what comes before it. Kernel.v:
      both together with the entry points of intr_asm.S: a schedule is a list of
      steps, pieces of the loop and interrupts of every IRQ in any order.
    - Report.v: what is only shown: the screen of panic.c, the tables of part.c,
      vbe.c, pci.c and mem.c, asctime of time.c. Vbetest.v: src/test/vbetest.c,
      the demonstration with a picture and a mouse cursor.
    File systems:
    - FsPath.v: paths. FsMem.v: the code of fsmem.c, with the data of files in
      blocks of the sizes that malloc.c gives; FsTree.v, FsFile.v, FsDir.v: its
      invariant, its files, its paths and directories. Mtab.v: mtab.c. Fs.v:
      fs.c, against the class [FsWorld] of what a file system provides.
      FsMount.v: the memory file system as an instance of it. File.v: file.c,
      dirent.c and unistd.c, against the class [FileView]; FileMem.v: memory
      files as an instance of it.
    - Fat.v: volumes, tables and clusters of fsfat.c, against the class
      [DiskRange] of a disk; FatFile.v: open files; FatName.v: directory entries
      and long names; FatDir.v: directories and [open]. BootFat.v: the boot drive
      as an instance of [DiskRange], and a file of a volume on it.

    Definitions have the names of the C functions; names of the C code that are
    taken are changed as the comment of the file says. A function that changes a
    static variable takes and returns the record of the file's variables.

    ** What is proved

    - Heap: [malloc_correct] and [free_correct] keep the invariant of the free
      list (sorted, disjoint, merged, inside of pages of the allocator), a block
      is as large as asked for and aligned, and free gives back what malloc took;
      [alloc_ppages_first_fit] for the pages below.
    - Memory file system: [memfs_invariant] (the stores are a forest, under every
      operation), [file_refines] (an open file is a list of bytes with a position,
      up to the first read or write outside of its block), [open_spec] against a
      walk of the tree and the closed handles it meets, [create_then_open],
      [remove_correct]; [vfs_invariant] (every sequence of calls on memory disks),
      [mount_crossing], [chdir_up_down] and [mtab_refines] for fs.c;
      [fwrite_fread] and [fgets_lines] for streams.
    - FAT: [open_volume_correct], [mount_root_ok] (the root directory of a volume
      of 12, 16 or 32 bits), [fat_open_spec] against a walk
      of the disk, [fat_file_refines], [long_name_listed]; [boot_file_reads] goes
      from the sectors of a drive behind the BIOS to what a program reads from a
      file, with [boot_reads_pure] (successive reads do not disturb each other).
    - Boot drive: [bdev_read_range_correct] with both kinds of BIOS functions and
      their retries, [bdev_write_read].
    - Timer: [set_alarm_correct], [cancel_alarm_correct] and
      [timer_handler_exact] against a list of absolute times.
    - The whole kernel: [pcboot_init_correct] (all drivers start, then interrupts
      are enabled), and from there under every schedule of interrupts:
      [kernel_safe] (the invariants of all drivers hold, every IRQ is
      acknowledged and returns, nothing faults), [kernel_keys] (the keys shown
      and those waiting are the keys pressed, in order), [kernel_settles] (the
      loop catches up and sleeps). [con_putchar_shows] is against a screen of
      lines.
    - Formatted output: [snprintf_standard] against the format of the C standard,
      [snprintf_no_limit] for what the code does with the size.
    - [qsort_sorts], [rand_bounds], [mktime_gmtime] (a round trip),
      [find_video_mode_idx_correct], [init_pci_count], [start_transfer],
      [draw_cursor_keeps] (the cursor never damages the picture).

    Each property's comment has its number. Theorems without a number support
    them or state a deviation of the code (for instance [fat12_wrong_entry],
    [bdev_read_sect_wrong_cylinder], [memset_small_overruns]). A property with
    hypotheses is followed, at the end of its file, by a lemma named after it
    with the ending _witness, which applies it to concrete data.

    ** Bounds

    The delays of alarms are below 2^31 ticks, files below 2^31 bytes, volumes
    below 2^32 sectors; where the code's types wrap before that the theorems say
    so. FAT clusters are up to 64 KB, through the BIOS up to 32 KB, because it
    transfers 127 sectors at a time.

    ** Not modelled

    - math.c, strtod and atof (floating point), setjmp.c and most of the assembly
      (start-up, the boot sectors, the gate to the BIOS, segment reloads): outside
      of what C-level functions can state; int86 is a parameter. Of intr_asm.S the
      common entry, the entries of IRQ 7 and 15 and the flag functions are
      modelled; saving the registers is not.
    - Interrupts in the middle of a function: Kernel.v takes them between the
      pieces of the main loop (the keyboard, the clock, the sleep). That a driver
      disables them where it shares data with its handler is part of the
      theorems on the single operations.
    - Code that the configuration compiles out: the power-of-two pools and the
      debugging of malloc, the GDB hooks of serial.c, moving the stack.
    - What drivers print while they start. The functions that exist only to
      print are in Report.v.
    - Headers that only declare, and constants that no code uses.
    - Memory file systems and FAT volumes in one tree: each has a memory of its
      own, and FsMount.v mounts memory disks only.
    - Failure of malloc inside of fsfat.c, which panics; destroy of a FAT volume,
      which only frees.
    - The main loop takes the demonstrations behind F1 and F2 as a parameter; the
      one behind F2 is Vbetest.v, the one behind F1 is assembly (startup.s). *)
From stdpp Require Export base numbers list gmap strings.
From Stdlib Require Export ZArith Lia Bool.
#[global] Open Scope Z_scope.

(** ** Machine integers *)

(** [lia] with the defining equations of [/] and [mod]. *)
Ltac mlia := Z.to_euclidean_division_equations; lia.

(** Wrap-around of the integer types of the 32-bit target. *)
Definition u8 (x : Z) : Z := x mod 256.
Definition u16 (x : Z) : Z := x mod 65536.
Definition u32 (x : Z) : Z := x mod 4294967296.
Definition u64 (x : Z) : Z := x mod 18446744073709551616.
Definition s8 (x : Z) : Z := (x + 128) mod 256 - 128.
Definition s32 (x : Z) : Z := (x + 2147483648) mod 4294967296 - 2147483648.

Create HintDb words.

Lemma u8_range x : 0 <= u8 x < 256.
Proof. unfold u8. mlia. Qed.
Lemma u16_range x : 0 <= u16 x < 65536.
Proof. unfold u16. mlia. Qed.
Lemma u32_range x : 0 <= u32 x < 4294967296.
Proof. unfold u32. mlia. Qed.
Lemma s32_range x : -2147483648 <= s32 x < 2147483648.
Proof. unfold s32. mlia. Qed.
Lemma s8_range x : -128 <= s8 x < 128.
Proof. unfold s8. mlia. Qed.

Lemma u8_small x : 0 <= x < 256 -> u8 x = x.
Proof. unfold u8. mlia. Qed.
Lemma u16_small x : 0 <= x < 65536 -> u16 x = x.
Proof. unfold u16. mlia. Qed.
Lemma u32_small x : 0 <= x < 4294967296 -> u32 x = x.
Proof. unfold u32. mlia. Qed.
Lemma s32_small x : -2147483648 <= x < 2147483648 -> s32 x = x.
Proof. unfold s32. mlia. Qed.
Lemma s8_small x : -128 <= x < 128 -> s8 x = x.
Proof. unfold s8. mlia. Qed.
Lemma u32_idemp x : u32 (u32 x) = u32 x.
Proof. unfold u32. mlia. Qed.
Lemma u32_add_l x y : u32 (u32 x + y) = u32 (x + y).
Proof. unfold u32. apply Zplus_mod_idemp_l. Qed.

Lemma s32_congr x y : x mod 4294967296 = y mod 4294967296 -> s32 x = s32 y.
Proof. intros E. unfold s32. rewrite <- (Zplus_mod_idemp_l x), <- (Zplus_mod_idemp_l y). by rewrite E. Qed.
Lemma s32_mod x : s32 x mod 4294967296 = x mod 4294967296.
Proof. unfold s32. rewrite Zminus_mod_idemp_l. f_equal. lia. Qed.
Lemma s32_add_l x y : s32 (s32 x + y) = s32 (x + y).
Proof. apply s32_congr. by rewrite <- (Zplus_mod_idemp_l (s32 x)), s32_mod, Zplus_mod_idemp_l. Qed.
Lemma s32_add_r x y : s32 (x + s32 y) = s32 (x + y).
Proof. by rewrite Z.add_comm, s32_add_l, Z.add_comm. Qed.
Lemma s32_mul_l x y : s32 (s32 x * y) = s32 (x * y).
Proof. apply s32_congr. by rewrite <- (Zmult_mod_idemp_l (s32 x)), s32_mod, Zmult_mod_idemp_l. Qed.
Lemma s32_opp x : s32 (- s32 x) = s32 (- x).
Proof. replace (- s32 x) with (s32 x * -1) by lia. rewrite s32_mul_l. f_equal. lia. Qed.
Lemma s32_idemp x : s32 (s32 x) = s32 x.
Proof. apply s32_congr, s32_mod. Qed.

#[export] Hint Resolve u8_range u16_range u32_range s32_range s8_range : words.
#[export] Hint Rewrite u8_small u16_small u32_small s32_small s8_small using lia : words.

(** [wsimpl] removes the wraps whose argument is in range. *)
Ltac wsimpl := autorewrite with words in *.

(** ** Bits *)

Lemma land_pow2_testbit w k :
  0 <= k -> (Z.land w (Z.shiftl 1 k) =? 0) = negb (Z.testbit w k).
Proof.
  intros Hk. destruct (Z.testbit w k) eqn:E; simpl.
  - apply Z.eqb_neq. intros H.
    assert (Z.testbit (Z.land w (Z.shiftl 1 k)) k = true) as H1.
    { rewrite Z.land_spec, Z.shiftl_spec, E by lia. by rewrite Z.sub_diag. }
    rewrite H, Z.bits_0 in H1. done.
  - apply Z.eqb_eq, Z.bits_inj'. intros n Hn.
    rewrite Z.land_spec, Z.shiftl_spec, Z.bits_0 by lia.
    destruct (decide (n = k)) as [->|]; [by rewrite E|].
    destruct (decide (n < k)).
    + rewrite (Z.testbit_neg_r _ (n - k)) by lia. by rewrite andb_false_r.
    + replace 1 with (2 ^ 0) by done.
      rewrite Z.pow2_bits_false by lia. by rewrite andb_false_r.
Qed.

Lemma shiftl1_bits k n :
  0 <= k -> 0 <= n -> Z.testbit (Z.shiftl 1 k) n = bool_decide (n = k).
Proof.
  intros Hk Hn. rewrite Z.shiftl_spec by lia.
  case_bool_decide as H.
  - subst. by rewrite Z.sub_diag.
  - destruct (decide (n < k)); [by rewrite Z.testbit_neg_r by lia|].
    replace 1 with (2 ^ 0) by done. by rewrite Z.pow2_bits_false by lia.
Qed.

Lemma u32_bits x n : 0 <= n -> Z.testbit (u32 x) n = (n <? 32) && Z.testbit x n.
Proof.
  intros Hn. unfold u32. change 4294967296 with (2 ^ 32).
  destruct (Z.ltb_spec n 32).
  - by rewrite Z.mod_pow2_bits_low by lia.
  - by rewrite Z.mod_pow2_bits_high by lia.
Qed.

Lemma u16_bits x n : 0 <= n -> Z.testbit (u16 x) n = (n <? 16) && Z.testbit x n.
Proof.
  intros Hn. unfold u16. change 65536 with (2 ^ 16).
  destruct (Z.ltb_spec n 16).
  - by rewrite Z.mod_pow2_bits_low by lia.
  - by rewrite Z.mod_pow2_bits_high by lia.
Qed.

Lemma u8_bits x n : 0 <= n -> Z.testbit (u8 x) n = (n <? 8) && Z.testbit x n.
Proof.
  intros Hn. unfold u8. change 256 with (2 ^ 8).
  destruct (Z.ltb_spec n 8).
  - by rewrite Z.mod_pow2_bits_low by lia.
  - by rewrite Z.mod_pow2_bits_high by lia.
Qed.

Lemma land_mask x k : 0 <= k -> Z.land x (Z.ones k) = x mod 2 ^ k.
Proof. intros. by rewrite Z.land_ones. Qed.

(** Bits put below a multiple of a power of two. *)
Lemma lor_low k a b : 0 <= k -> 0 <= b < 2 ^ k -> Z.lor (a * 2 ^ k) b = a * 2 ^ k + b.
Proof.
  intros Hk Hb. assert (Z.land (a * 2 ^ k) b = 0) as Hl.
  { apply Z.bits_inj'. intros n Hn. rewrite Z.land_spec, Z.bits_0. destruct (Z.lt_ge_cases n k).
    - by rewrite Z.mul_pow2_bits_low by lia.
    - rewrite <- (Z.mod_small b (2 ^ k)) by lia. by rewrite Z.mod_pow2_bits_high, andb_false_r by lia. }
  pose proof (Z.add_lor_land (a * 2 ^ k) b). lia.
Qed.

Lemma land_31 x : Z.land x 31 = x mod 32.
Proof. apply (land_mask x 5). lia. Qed.
Lemma land_63 x : Z.land x 63 = x mod 64.
Proof. apply (land_mask x 6). lia. Qed.
Lemma land_255 x : Z.land x 255 = x mod 256.
Proof. apply (land_mask x 8). lia. Qed.
Lemma land_4095 x : Z.land x 4095 = x mod 4096.
Proof. apply (land_mask x 12). lia. Qed.
Lemma land_65535 x : Z.land x 65535 = x mod 65536.
Proof. apply (land_mask x 16). lia. Qed.

(** Rounding down to a multiple of a power of two with a 32-bit mask. *)
Lemma land_clear_low k x :
  0 <= k -> 0 <= x < 4294967296 -> Z.land x (Z.ldiff (Z.ones 32) (Z.ones k)) = x - x mod 2 ^ k.
Proof.
  intros Hk Hx. assert (0 < 2 ^ k) by (apply Z.pow_pos_nonneg; lia).
  transitivity (x / 2 ^ k * 2 ^ k); [|pose proof (Z.div_mod x (2 ^ k)); lia].
  rewrite <- Z.shiftr_div_pow2, <- Z.shiftl_mul_pow2, <- Z.ldiff_ones_r by lia.
  apply Z.bits_inj'. intros n Hn. rewrite Z.land_spec, !Z.ldiff_spec.
  rewrite !Z.testbit_ones_nonneg by lia.
  destruct (Z.ltb_spec n 32); [done|].
  rewrite <- (Z.mod_small x (2 ^ 32)) by lia. by rewrite Z.mod_pow2_bits_high by lia.
Qed.
Lemma land_fffffffc x : 0 <= x < 4294967296 -> Z.land x 0xfffffffc = x - x mod 4.
Proof. apply (land_clear_low 2). lia. Qed.
Lemma land_fffffff0 x : 0 <= x < 4294967296 -> Z.land x 0xfffffff0 = x - x mod 16.
Proof. apply (land_clear_low 4). lia. Qed.

(** ** Outcome of a computation

    [Ok] carries the result; [Panic] is a call of [panic] (which never
    returns); [Fault] is an access the C program has no right to make (out of
    bounds, null or stale pointer); [NoFuel] means the fuel of a loop ran
    out. *)
Inductive res (A : Type) : Type :=
| Ok (a : A)
| Panic
| Fault
| NoFuel.
Arguments Ok {A} a.
Arguments Panic {A}.
Arguments Fault {A}.
Arguments NoFuel {A}.

Definition res_bind {A B} (f : A -> res B) (r : res A) : res B :=
  match r with
  | Ok a => f a
  | Panic => Panic
  | Fault => Fault
  | NoFuel => NoFuel
  end.
#[global] Instance res_mret : MRet res := fun _ a => Ok a.
#[global] Instance res_mbind : MBind res := fun _ _ f r => res_bind f r.

Definition of_option {A} (o : option A) : res A :=
  match o with Some a => Ok a | None => Fault end.

(** Computations on a state [S]. *)
Definition SM (S A : Type) : Type := S -> res (A * S).
#[global] Instance sm_mret S : MRet (SM S) := fun _ a s => Ok (a, s).
#[global] Instance sm_mbind S : MBind (SM S) := fun _ _ f m s =>
  match m s with
  | Ok (a, s) => f a s
  | Panic => Panic
  | Fault => Fault
  | NoFuel => NoFuel
  end.
Definition sm_lift {S A} (r : res A) : SM S A := fun s => a ← r; Ok (a, s).
Definition sm_get {S} : SM S S := fun s => Ok (s, s).
Definition sm_upd {S} (f : S -> S) : SM S unit := fun s => Ok (tt, f s).

Lemma sm_bind_ok {S A B} (m : SM S A) (f : A -> SM S B) s a s' :
  m s = Ok (a, s') -> (m ≫= f) s = f a s'.
Proof. intros E. unfold mbind, sm_mbind. by rewrite E. Qed.

(** A bind that ends well went through both parts. *)
Lemma sm_bind_inv {S A B} (m : SM S A) (f : A -> SM S B) s b s'' :
  (m ≫= f) s = Ok (b, s'') -> exists a s', m s = Ok (a, s') /\ f a s' = Ok (b, s'').
Proof. unfold mbind, sm_mbind. destruct (m s) as [[a s']| | |]; try done. by eexists _, _. Qed.

Lemma sm_get_inv {S} (s : S) x s' : sm_get s = Ok (x, s') -> x = s /\ s' = s.
Proof. by intros [= <- <-]. Qed.
Lemma mret_inv {S A} (a r : A) (s s' : S) : (mret a : SM S A) s = Ok (r, s') -> r = a /\ s' = s.
Proof. by intros [= -> ->]. Qed.
Lemma sm_upd_inv {S} (f : S -> S) s u s' : sm_upd f s = Ok (u, s') -> s' = f s.
Proof. by intros [= _ <-]. Qed.
Lemma sm_lift_inv {S A} (r : res A) (s : S) x s' : sm_lift r s = Ok (x, s') -> r = Ok x /\ s' = s.
Proof. unfold sm_lift. destruct r; [|done..]. by intros [= <- <-]. Qed.

(** ** Lists indexed by C integers *)
Definition zlookup {A} (l : list A) (i : Z) : option A :=
  if i <? 0 then None else l !! Z.to_nat i.
Definition zinsert {A} (l : list A) (i : Z) (x : A) : option (list A) :=
  if (i <? 0) || (Z.of_nat (length l) <=? i) then None else Some (<[Z.to_nat i := x]> l).

Lemma zlookup_nat {A} (l : list A) (n : nat) : zlookup l (Z.of_nat n) = l !! n.
Proof. unfold zlookup. destruct (Z.ltb_spec (Z.of_nat n) 0); [lia|]. by rewrite Nat2Z.id. Qed.

Lemma zlookup_is_Some {A} (l : list A) i :
  0 <= i < Z.of_nat (length l) -> is_Some (zlookup l i).
Proof.
  intros H. unfold zlookup. destruct (Z.ltb_spec i 0); [lia|].
  apply lookup_lt_is_Some. lia.
Qed.

Lemma zlookup_zinsert {A} (l l' : list A) i j x :
  zinsert l i x = Some l' -> zlookup l' j = if decide (j = i) then Some x else zlookup l j.
Proof.
  unfold zinsert, zlookup. intros H.
  destruct (Z.ltb_spec i 0), (Z.leb_spec (Z.of_nat (length l)) i); simpl in H; simplify_eq.
  destruct (Z.ltb_spec j 0); [by case_decide; [lia|]|].
  case_decide as E; [subst; apply list_lookup_insert_eq; lia|].
  by rewrite list_lookup_insert_ne by lia.
Qed.

(** Bytes and little-endian words of a block of bytes. *)
Definition sb (s : list Z) (i : Z) : Z := u8 (default 0 (zlookup s i)).
Definition sw (s : list Z) (i : Z) : Z := sb s i + 256 * sb s (i + 1).
Definition sl (s : list Z) (i : Z) : Z := sw s i + 65536 * sw s (i + 2).

Lemma sb_range s i : 0 <= sb s i < 256.
Proof. apply u8_range. Qed.
Lemma sw_range s i : 0 <= sw s i < 65536.
Proof. unfold sw. pose proof (sb_range s i). pose proof (sb_range s (i + 1)). lia. Qed.
Lemma sl_range s i : 0 <= sl s i < 4294967296.
Proof.
  unfold sl, sw. pose proof (sb_range s i). pose proof (sb_range s (i + 1)).
  pose proof (sb_range s (i + 2)). pose proof (sb_range s (i + 2 + 1)). lia.
Qed.

(** Consecutive integers [a, a+1, ..., a+n-1]. *)
Fixpoint zseq (a : Z) (n : nat) : list Z :=
  match n with O => [] | S n => a :: zseq (a + 1) n end.

Lemma elem_of_zseq a n x : x ∈ zseq a n <-> a <= x < a + Z.of_nat n.
Proof.
  revert a. induction n as [|n IH]; intros a; simpl.
  - rewrite elem_of_nil. lia.
  - rewrite elem_of_cons, IH. lia.
Qed.

Lemma length_zseq a n : length (zseq a n) = n.
Proof. revert a. induction n; intros; simpl; auto. Qed.

Lemma lookup_zseq a n k : (k < n)%nat -> zseq a n !! k = Some (a + Z.of_nat k).
Proof.
  revert a k. induction n as [|n IH]; intros a k Hk; [lia|]. destruct k as [|k]; cbn; [f_equal; lia|].
  rewrite IH by lia. f_equal. lia.
Qed.

Lemma zseq_app a n k : zseq a (n + k) = zseq a n ++ zseq (a + Z.of_nat n) k.
Proof.
  revert a. induction n as [|n IH]; intros a; cbn [zseq Nat.add app]; [f_equal; lia|].
  rewrite IH. do 3 f_equal. lia.
Qed.

(** A property of all bytes, by computation. *)
Lemma byte_cases (P : Z -> bool) :
  forallb P (zseq 0 256) = true -> forall c, 0 <= c < 256 -> P c = true.
Proof.
  intros H c Hc. rewrite forallb_forall in H. apply H, list_elem_of_In, elem_of_zseq. lia.
Qed.

(** Case analysis on the boolean comparisons of the goal or a hypothesis. *)
Ltac zcase :=
  match goal with
  | |- context [?a <? ?b] => destruct (Z.ltb_spec a b)
  | |- context [?a <=? ?b] => destruct (Z.leb_spec a b)
  | |- context [?a =? ?b] => destruct (Z.eqb_spec a b)
  | H : context [?a <? ?b] |- _ => destruct (Z.ltb_spec a b)
  | H : context [?a <=? ?b] |- _ => destruct (Z.leb_spec a b)
  | H : context [?a =? ?b] |- _ => destruct (Z.eqb_spec a b)
  end.
Ltac zcases := repeat (zcase; cbn [andb orb negb] in *; try lia; try congruence); try lia.

(** The characters of a string literal. *)
Definition codes (s : string) : list Z :=
  (fun a => Z.of_N (Ascii.N_of_ascii a)) <$> String.list_ascii_of_string s.

(** ** First match in a list *)
Lemma find_app {A} (f : A -> bool) l1 l2 :
  List.find f (l1 ++ l2) =
  match List.find f l1 with Some x => Some x | None => List.find f l2 end.
Proof. induction l1 as [|x l1 IH]; simpl; [done|]. destruct (f x); auto. Qed.

Lemma find_none_intro {A} (f : A -> bool) l :
  (forall x, x ∈ l -> f x = false) -> List.find f l = None.
Proof.
  induction l as [|x l IH]; simpl; intros H; [done|].
  rewrite H by set_solver. apply IH. set_solver.
Qed.

Lemma find_ext {A} (f g : A -> bool) l :
  (forall x, x ∈ l -> f x = g x) -> List.find f l = List.find g l.
Proof.
  induction l as [|x l IH]; simpl; intros H; [done|].
  rewrite H by set_solver. destruct (g x); [done|]. apply IH. set_solver.
Qed.

Lemma find_Some_elem {A} (f : A -> bool) l x :
  List.find f l = Some x -> x ∈ l /\ f x = true.
Proof.
  induction l as [|y l IH]; simpl; [done|]. destruct (f y) eqn:E; intros H.
  - simplify_eq. split; [set_solver|done].
  - destruct (IH H). split; [set_solver|done].
Qed.

Lemma find_None_elem {A} (f : A -> bool) l x :
  List.find f l = None -> x ∈ l -> f x = false.
Proof.
  intros H Hx. apply (find_none f l H). by apply list_elem_of_In.
Qed.

(** [a, a+d, ..., a+(n-1)d]: the indices a C loop with step [d] visits. *)
Fixpoint stride (a d : Z) (n : nat) : list Z :=
  match n with O => [] | S n => a :: stride (a + d) d n end.

Lemma stride_app a d n m :
  stride a d (n + m) = stride a d n ++ stride (a + d * Z.of_nat n) d m.
Proof.
  revert a. induction n as [|n IH]; intros a.
  - simpl. f_equal. lia.
  - cbn [stride Nat.add app]. rewrite IH. do 3 f_equal. lia.
Qed.

Lemma elem_of_stride a d n x :
  x ∈ stride a d n <-> exists k, 0 <= k < Z.of_nat n /\ x = a + d * k.
Proof.
  revert a. induction n as [|n IH]; intros a.
  - simpl. rewrite elem_of_nil. split; [done|]. intros (k & ? & _). lia.
  - cbn [stride]. rewrite elem_of_cons, IH. split.
    + intros [->|(k & ? & ->)]; [exists 0 | exists (k + 1)]; lia.
    + intros (k & Hk & ->). destruct (decide (k = 0)) as [->|]; [left; lia|].
      right. exists (k - 1). lia.
Qed.

(** Joining blocks of [k] elements. *)
Lemma drop_blocks {A} (k i : nat) (bs : list (list A)) :
  Forall (fun b => length b = k) bs -> drop (i * k) (mjoin bs) = mjoin (drop i bs).
Proof.
  revert i. induction bs as [|b bs IH]; intros i Hb; [change (mjoin []) with (@nil A); by rewrite !drop_nil|].
  apply Forall_cons in Hb as [Hk Hb]. destruct i as [|i]; [done|]. cbn [drop].
  change (mjoin (b :: bs)) with (b ++ mjoin bs). rewrite drop_app_ge by lia.
  replace (S i * k - length b)%nat with (i * k)%nat by lia. by apply IH.
Qed.
Lemma length_blocks {A} (k : nat) (bs : list (list A)) :
  Forall (fun b => length b = k) bs -> length (mjoin bs) = (length bs * k)%nat.
Proof.
  induction 1 as [|b bs Hb _ IH]; [done|]. change (mjoin (b :: bs)) with (b ++ mjoin bs).
  rewrite length_app, IH, Hb. done.
Qed.
(** A piece of one block. *)
Lemma take_drop_block {A} (k i o n : nat) (bs : list (list A)) b :
  Forall (fun b => length b = k) bs -> bs !! i = Some b -> (o + n <= k)%nat ->
  take n (drop (i * k + o) (mjoin bs)) = take n (drop o b).
Proof.
  intros Hb Hi Ho. rewrite <- drop_drop, drop_blocks by done.
  assert (length b = k) as Hk by (by eapply Forall_lookup_1 in Hb).
  rewrite (drop_S _ b i) by done. change (mjoin (b :: drop (S i) bs)) with (b ++ mjoin (drop (S i) bs)).
  rewrite drop_app_le by lia. rewrite take_app_le; [done|]. rewrite length_drop. lia.
Qed.
