(* ===== verification/Memory.v ===== *)
(** * Byte memory

    The flat physical memory of the machine: a map from address to byte, with
    the little-endian 32-bit accesses of the i386. A byte that was never
    written reads as 0. *)
From S2P Require Import Prelude.

Definition mem := gmap Z Z.

Definition ld8 (m : gmap Z Z) (a : Z) : Z := u8 (default 0 (m !! a)).
Definition st8 (m : gmap Z Z) (a v : Z) : gmap Z Z := <[a := u8 v]> m.

Definition ld32 (m : gmap Z Z) (a : Z) : Z :=
  ld8 m a + 256 * ld8 m (a + 1) + 65536 * ld8 m (a + 2) + 16777216 * ld8 m (a + 3).
Definition st32 (m : gmap Z Z) (a v : Z) : gmap Z Z :=
  st8 (st8 (st8 (st8 m a v) (a + 1) (v / 256)) (a + 2) (v / 65536)) (a + 3) (v / 16777216).

Definition ld16 (m : gmap Z Z) (a : Z) : Z := ld8 m a + 256 * ld8 m (a + 1).
Definition st16 (m : gmap Z Z) (a v : Z) : gmap Z Z := st8 (st8 m a v) (a + 1) (v / 256).

(** The [n] bytes from [a] on. *)
Definition bytes_at (m : gmap Z Z) (a : Z) (n : nat) : list Z := ld8 m <$> zseq a n.

(** [n] bytes of value [c] from [a] on. *)
Fixpoint fill (m : gmap Z Z) (a : Z) (n : nat) (c : Z) : gmap Z Z :=
  match n with O => m | S n => fill (st8 m a c) (a + 1) n c end.

(** [n] bytes copied in ascending address order. *)
Fixpoint copy_up (m : gmap Z Z) (d s : Z) (n : nat) : gmap Z Z :=
  match n with O => m | S n => copy_up (st8 m d (ld8 m s)) (d + 1) (s + 1) n end.

(** [n] bytes copied in descending address order, starting at [d] and [s]. *)
Fixpoint copy_down (m : gmap Z Z) (d s : Z) (n : nat) : gmap Z Z :=
  match n with O => m | S n => copy_down (st8 m d (ld8 m s)) (d - 1) (s - 1) n end.

(** The bytes of a list stored from [a] on. *)
Fixpoint store_list (m : gmap Z Z) (a : Z) (l : list Z) : gmap Z Z :=
  match l with [] => m | c :: l => store_list (st8 m a c) (a + 1) l end.

Lemma ld8_range m a : 0 <= ld8 m a < 256.
Proof. apply u8_range. Qed.

Lemma ld8_st8 m a v b : ld8 (st8 m a v) b = if decide (b = a) then u8 v else ld8 m b.
Proof.
  unfold ld8, st8. rewrite lookup_insert. repeat case_decide; simplify_eq; try done.
  simpl. unfold u8. by rewrite Z.mod_mod by lia.
Qed.

Lemma ld32_range m a : 0 <= ld32 m a < 4294967296.
Proof.
  unfold ld32. pose proof (ld8_range m a). pose proof (ld8_range m (a + 1)).
  pose proof (ld8_range m (a + 2)). pose proof (ld8_range m (a + 3)). lia.
Qed.

(** Byte [b] of memory after a 32-bit store. *)
Lemma ld8_st32_ne m a v b : b < a \/ a + 4 <= b -> ld8 (st32 m a v) b = ld8 m b.
Proof. intros H. unfold st32. rewrite !ld8_st8. repeat case_decide; try lia; done. Qed.

Lemma ld32_st32_eq m a v : 0 <= v < 4294967296 -> ld32 (st32 m a v) a = v.
Proof.
  intros Hv. unfold ld32, st32. rewrite !ld8_st8.
  repeat (case_decide; try lia).
  unfold u8. change 65536 with (256 * 256). change 16777216 with (256 * 256 * 256).
  rewrite <- !Z.div_div by lia. mlia.
Qed.

Lemma ld32_st32_ne m a v b : b + 4 <= a \/ a + 4 <= b -> ld32 (st32 m a v) b = ld32 m b.
Proof. intros H. unfold ld32. by rewrite !ld8_st32_ne by lia. Qed.

Lemma ld32_ext m m' a : (forall b, a <= b < a + 4 -> ld8 m b = ld8 m' b) -> ld32 m a = ld32 m' a.
Proof. intros H. unfold ld32. by rewrite !H by lia. Qed.

(** Two words are equal exactly when their four bytes are. *)
Lemma ld32_eq_bytes m a b :
  ld32 m a = ld32 m b <->
  ld8 m a = ld8 m b /\ ld8 m (a + 1) = ld8 m (b + 1) /\
  ld8 m (a + 2) = ld8 m (b + 2) /\ ld8 m (a + 3) = ld8 m (b + 3).
Proof.
  unfold ld32.
  pose proof (ld8_range m a). pose proof (ld8_range m (a + 1)).
  pose proof (ld8_range m (a + 2)). pose proof (ld8_range m (a + 3)).
  pose proof (ld8_range m b). pose proof (ld8_range m (b + 1)).
  pose proof (ld8_range m (b + 2)). pose proof (ld8_range m (b + 3)). lia.
Qed.

Lemma ld8_fill m a n c b :
  ld8 (fill m a n c) b = if decide (a <= b < a + Z.of_nat n) then u8 c else ld8 m b.
Proof.
  revert m a. induction n as [|n IH]; intros m a; cbn [fill].
  - case_decide; [lia|done].
  - rewrite IH, ld8_st8. repeat case_decide; try lia; done.
Qed.

(** An ascending copy is right when the destination does not start inside
    the source; a descending one when it does not end inside it. *)
Lemma ld8_copy_up m d s n b :
  d <= s \/ s + Z.of_nat n <= d ->
  ld8 (copy_up m d s n) b =
  if decide (d <= b < d + Z.of_nat n) then ld8 m (b - d + s) else ld8 m b.
Proof.
  revert m d s. induction n as [|n IH]; intros m d s H; cbn [copy_up].
  - case_decide; [lia|done].
  - rewrite IH by lia. rewrite !ld8_st8. rewrite u8_small by apply ld8_range.
    repeat case_decide; try lia; try (f_equal; lia).
Qed.

Lemma ld8_copy_down m d s n b :
  s <= d \/ d <= s - Z.of_nat n ->
  ld8 (copy_down m d s n) b =
  if decide (d - Z.of_nat n < b <= d) then ld8 m (b - d + s) else ld8 m b.
Proof.
  revert m d s. induction n as [|n IH]; intros m d s H; cbn [copy_down].
  - case_decide; [lia|done].
  - rewrite IH by lia. rewrite !ld8_st8. rewrite u8_small by apply ld8_range.
    repeat case_decide; try lia; try (f_equal; lia).
Qed.

Lemma ld8_store_list m a l b :
  ld8 (store_list m a l) b =
  if decide (a <= b < a + Z.of_nat (length l))
  then u8 (default 0 (l !! Z.to_nat (b - a))) else ld8 m b.
Proof.
  revert m a. induction l as [|c l IH]; intros m a; cbn [store_list length].
  - case_decide; [lia|done].
  - rewrite IH, ld8_st8. repeat case_decide; try lia; try done.
    + replace (Z.to_nat (b - a)) with (S (Z.to_nat (b - (a + 1)))) by lia. done.
    + subst. by rewrite Z.sub_diag.
Qed.

Lemma ld16_st16_eq m a v : 0 <= v < 65536 -> ld16 (st16 m a v) a = v.
Proof.
  intros Hv. unfold ld16, st16. rewrite !ld8_st8. repeat (case_decide; try lia).
  unfold u8. mlia.
Qed.
Lemma ld8_st16_ne m a v b : b < a \/ a + 2 <= b -> ld8 (st16 m a v) b = ld8 m b.
Proof. intros H. unfold st16. rewrite !ld8_st8. repeat case_decide; try lia; done. Qed.
Lemma ld16_ext m m' a : ld8 m a = ld8 m' a -> ld8 m (a + 1) = ld8 m' (a + 1) -> ld16 m a = ld16 m' a.
Proof. intros H1 H2. unfold ld16. by rewrite H1, H2. Qed.

Lemma bytes_at_ext m m' a a' n :
  (forall k, 0 <= k < Z.of_nat n -> ld8 m (a + k) = ld8 m' (a' + k)) ->
  bytes_at m a n = bytes_at m' a' n.
Proof.
  unfold bytes_at. revert a a'. induction n as [|n IH]; intros a a' H; [done|].
  cbn [zseq fmap list_fmap]. f_equal.
  - specialize (H 0). rewrite !Z.add_0_r in H. apply H. lia.
  - apply IH. intros k Hk. specialize (H (k + 1)).
    replace (a + 1 + k) with (a + (k + 1)) by lia. replace (a' + 1 + k) with (a' + (k + 1)) by lia.
    apply H. lia.
Qed.

Lemma length_bytes_at m a n : length (bytes_at m a n) = n.
Proof. unfold bytes_at. by rewrite length_fmap, length_zseq. Qed.

Lemma sb_bytes_at m a n k : 0 <= k < Z.of_nat n -> sb (bytes_at m a n) k = ld8 m (a + k).
Proof.
  intros Hk. unfold sb, zlookup, bytes_at. destruct (Z.ltb_spec k 0); [lia|]. rewrite list_lookup_fmap, lookup_zseq by lia.
  cbn. rewrite Z2Nat.id by lia. apply u8_small, ld8_range.
Qed.
Lemma bytes_at_store m a l :
  Forall (fun c => 0 <= c < 256) l -> bytes_at (store_list m a l) a (length l) = l.
Proof.
  intros Hl. unfold bytes_at. revert m a. induction Hl as [|c l Hc Hl IH]; intros m a; [done|].
  cbn [store_list zseq fmap list_fmap length]. rewrite IH. f_equal.
  rewrite ld8_store_list, ld8_st8. rewrite !decide_False by lia. rewrite decide_True by lia. by apply u8_small.
Qed.

Lemma ld16_st16_ne m a v b : b + 2 <= a \/ a + 2 <= b -> ld16 (st16 m a v) b = ld16 m b.
Proof. intros H. unfold ld16. by rewrite !ld8_st16_ne by lia. Qed.
Lemma ld16_st32_ne m a v b : b + 2 <= a \/ a + 4 <= b -> ld16 (st32 m a v) b = ld16 m b.
Proof. intros H. unfold ld16. by rewrite !ld8_st32_ne by lia. Qed.
Lemma ld32_st16_ne m a v b : b + 4 <= a \/ a + 2 <= b -> ld32 (st16 m a v) b = ld32 m b.
Proof. intros H. unfold ld32. by rewrite !ld8_st16_ne by lia. Qed.

Lemma bytes_at_app m a n k : bytes_at m a (n + k) = bytes_at m a n ++ bytes_at m (a + Z.of_nat n) k.
Proof. unfold bytes_at. by rewrite zseq_app, fmap_app. Qed.

(** Memory in pieces of [d] bytes. *)
Lemma concat_bytes_at m (f : Z -> list Z) b l n d :
  (forall k, l <= k < l + Z.of_nat n -> f k = bytes_at m (b + (k - l) * Z.of_nat d) d) ->
  concat (f <$> zseq l n) = bytes_at m b (n * d).
Proof.
  revert b l. induction n as [|n IH]; intros b l Hf; [done|].
  cbn [zseq fmap list_fmap concat Nat.mul]. rewrite bytes_at_app. rewrite (IH (b + Z.of_nat d)).
  - f_equal. rewrite Hf by lia. f_equal. lia.
  - intros k Hk. rewrite Hf by lia. f_equal. lia.
Qed.
