(* ===== verification/Ctype.v ===== *)
(** * Character classes (src/libc/ctype.c)

    A predicate returns a C truth value; only its being zero or not matters,
    so it is a boolean here. *)
From S2P Require Import Prelude.

Definition isdigit (c : Z) : bool := (48 <=? c) && (c <=? 57).
Definition isupper (c : Z) : bool := (65 <=? c) && (c <=? 90).
Definition islower (c : Z) : bool := (97 <=? c) && (c <=? 122).
Definition isalpha (c : Z) : bool := isupper c || islower c.
Definition isalnum (c : Z) : bool := isalpha c || isdigit c.
Definition isblank (c : Z) : bool := (c =? 32) || (c =? 9).
Definition isgraph (c : Z) : bool := (32 <? c) && (c <=? 126).
Definition isprint (c : Z) : bool := isgraph c || (c =? 32).
Definition isspace (c : Z) : bool :=
  isblank c || (c =? 12) || (c =? 10) || (c =? 13) || (c =? 11).
Definition toupper (c : Z) : Z := if islower c then c + (65 - 97) else c.
Definition tolower (c : Z) : Z := if isupper c then c - (65 - 97) else c.

Ltac ctype := unfold isalnum, isalpha, isprint, isgraph, isspace, isblank, toupper, tolower,
  isdigit, isupper, islower in *; zcases; try done; try lia.

Lemma tolower_idemp c : tolower (tolower c) = tolower c.
Proof. ctype. Qed.
Lemma toupper_tolower c : isupper c = true -> toupper (tolower c) = c.
Proof. ctype. Qed.
Lemma tolower_toupper c : islower c = true -> tolower (toupper c) = c.
Proof. ctype. Qed.
Lemma isdigit_tolower c : isdigit (tolower c) = isdigit c.
Proof. ctype. Qed.
Lemma tolower_zero c : tolower c = 0 <-> c = 0.
Proof. split; [|by intros ->]. ctype. Qed.

(** Every printable character is exactly one of: a letter, a digit, a blank
    or punctuation. *)
Lemma isalnum_isgraph c : isalnum c = true -> isgraph c = true.
Proof. ctype. Qed.
Lemma isspace_not_graph c : isspace c = true -> isgraph c = false.
Proof. ctype. Qed.
