(* ===== verification/Str.v ===== *)
(** * C strings and memory blocks (src/libc/string.c, src/libc/string_asm.s)

    [memmove], [memcmp], [memset] and [memcpy] work on addresses of the byte
    memory. The functions on NUL-terminated strings work on the list of the
    characters that precede the terminator: reading at the end of the list
    gives the terminator, advancing the pointer is taking the tail. A [char]
    is signed on this target. *)
From S2P Require Import Prelude Memory Ctype.

(** ** Memory blocks *)

Definition memmove (m : gmap Z Z) (dest src n : Z) : gmap Z Z :=
  if dest <=? src then copy_up m dest src (Z.to_nat n)
  else copy_down m (dest + n - 1) (src + n - 1) (Z.to_nat n).

(** [memcpy] of string_asm.s: [n >> 2] words, then [n & 3] bytes. *)
Definition memcpy (m : gmap Z Z) (dest src n : Z) : gmap Z Z :=
  let words := Z.shiftr n 2 in
  let m := copy_up m dest src (Z.to_nat (4 * words)) in
  copy_up m (dest + 4 * words) (src + 4 * words) (Z.to_nat (Z.land n 3)).

(** [memset] of string_asm.s: one [stosb] per [dest & 3] (the jump table
    enters the sequence at that many stores), then [n >> 2] words, then
    [n & 3] bytes, with [ecx] decremented modulo 2^32 and tested for zero
    only after the last of the leading stores. *)
Definition memset (m : gmap Z Z) (dest c n : Z) : gmap Z Z :=
  if n =? 0 then m else
  let pre := Z.land dest 3 in
  let m := fill m dest (Z.to_nat pre) c in
  let ecx := u32 (n - pre) in
  if (0 <? pre) && (ecx =? 0) then m else
  let words := Z.shiftr ecx 2 in
  let m := fill m (dest + pre) (Z.to_nat (4 * words)) c in
  fill m (dest + pre + 4 * words) (Z.to_nat (Z.land ecx 3)) c.

(** Bytes compared one at a time: the [while(n-- > 0)] tail of [memcmp]. *)
Fixpoint cmp_bytes (m : gmap Z Z) (a b : Z) (n : nat) : Z :=
  match n with
  | O => 0
  | S n =>
      let diff := ld8 m a - ld8 m b in
      if negb (diff =? 0) then diff else cmp_bytes m (a + 1) (b + 1) n
  end.

(** [for(i=0; i<startoffs; i++)]: [inl] is the value returned from inside the
    loop, [inr] the pointers and the count after it. *)
Fixpoint cmp_head (m : gmap Z Z) (a b n : Z) (startoffs : nat) : Z + (Z * Z * Z) :=
  match startoffs with
  | O => inr (a, b, n)
  | S k =>
      let diff := ld8 m a - ld8 m b in
      if negb (diff =? 0) then inl diff
      else
        let n := u32 (n - 1) in
        if n =? 0 then inl diff else cmp_head m (a + 1) (b + 1) n k
  end.

(** [while(n >= 4)] over 32-bit words; [fuel] is at least [n / 4]. *)
Fixpoint cmp_words (fuel : nat) (m : gmap Z Z) (a b n : Z) : Z * Z * Z :=
  match fuel with
  | O => (a, b, n)
  | S fuel =>
      if 4 <=? n then
        if negb (ld32 m a =? ld32 m b) then (a, b, n)
        else cmp_words fuel m (a + 4) (b + 4) (n - 4)
      else (a, b, n)
  end.

Definition align4 (a : Z) : Z := Z.land (a + 3) 0xfffffffc.

Definition memcmp (m : gmap Z Z) (a b n : Z) : Z :=
  let startoffs := align4 a - a in
  if startoffs =? align4 b - b then
    match cmp_head m a b n (Z.to_nat startoffs) with
    | inl r => r
    | inr (a, b, n) =>
        let '(a, b, n) := cmp_words (Z.to_nat (n / 4)) m a b n in
        cmp_bytes m a b (Z.to_nat n)
    end
  else cmp_bytes m a b (Z.to_nat n).

(** ** Strings *)

(** [*s], and [s + 1]. *)
Definition chr (s : list Z) : Z := match s with [] => 0 | c :: _ => c end.

Definition strlen (s : list Z) : Z := Z.of_nat (length s).

(** The suffix that starts at the first [c]; [None] is a null pointer. *)
Fixpoint strchr (s : list Z) (c : Z) : option (list Z) :=
  match s with
  | [] => None
  | x :: s' => if x =? c then Some s else strchr s' c
  end.

(** Backwards search from the end: [n] characters of [s] remain. *)
Fixpoint strrchr_from (s : list Z) (n : nat) (c : Z) : option (list Z) :=
  match n with
  | O => None
  | S k => if chr (drop k s) =? c then Some (drop k s) else strrchr_from s k c
  end.
Definition strrchr (s : list Z) (c : Z) : option (list Z) := strrchr_from s (length s) c.

(** Advances both strings while [s1] is not at its end and the characters,
    mapped by [f], agree: what is left of both. *)
Fixpoint skip_common (f : Z -> Z) (s1 s2 : list Z) : list Z * list Z :=
  match s1 with
  | [] => (s1, s2)
  | c1 :: t1 => if f c1 =? f (chr s2) then skip_common f t1 (tail s2) else (s1, s2)
  end.

Fixpoint strstr_by (f : Z -> Z) (str substr : list Z) : option (list Z) :=
  match str with
  | [] => None
  | _ :: str' =>
      let '(_, s2) := skip_common f str substr in
      if chr s2 =? 0 then Some str else strstr_by f str' substr
  end.
Definition strstr (str substr : list Z) : option (list Z) := strstr_by (fun c => c) str substr.
Definition strcasestr (str substr : list Z) : option (list Z) := strstr_by tolower str substr.

Definition strcmp (s1 s2 : list Z) : Z :=
  let '(s1, s2) := skip_common (fun c => c) s1 s2 in chr s1 - chr s2.
Definition strcasecmp (s1 s2 : list Z) : Z :=
  let '(s1, s2) := skip_common tolower s1 s2 in tolower (chr s1) - tolower (chr s2).

(** The same with a countdown [n-- > 0] and both ends tested; the result
    includes the value of [n] after the loop. *)
Fixpoint skip_common_n (f : Z -> Z) (fuel : nat) (n : Z) (s1 s2 : list Z) : Z * list Z * list Z :=
  match fuel with
  | O => (n - 1, s1, s2)
  | S fuel =>
      if (0 <? n) && negb (chr s1 =? 0) && negb (chr s2 =? 0) && (f (chr s1) =? f (chr s2))
      then skip_common_n f fuel (n - 1) (tail s1) (tail s2)
      else (n - 1, s1, s2)
  end.

Definition strncmp_by (f : Z -> Z) (s1 s2 : list Z) (n : Z) : Z :=
  if n <=? 0 then 0 else
  let '(n, s1, s2) := skip_common_n f (S (length s1)) n s1 s2 in
  if n <=? 0 then 0 else f (chr s1) - f (chr s2).
Definition strncmp (s1 s2 : list Z) (n : Z) : Z := strncmp_by (fun c => c) s1 s2 n.
Definition strncasecmp (s1 s2 : list Z) (n : Z) : Z := strncmp_by tolower s1 s2 n.

(** Writing a string to memory; source and destination do not overlap. *)
Definition strcpy (m : gmap Z Z) (dest : Z) (src : list Z) : gmap Z Z :=
  store_list m dest (src ++ [0]).
Definition strcat (m : gmap Z Z) (dest : Z) (old src : list Z) : gmap Z Z :=
  strcpy m (dest + strlen old) src.
Definition strncpy (m : gmap Z Z) (dest : Z) (src : list Z) (n : Z) : gmap Z Z :=
  store_list m dest (take (Z.to_nat n) (src ++ [0])).

(** ** Memory block theorems *)

(** [memmove] is right for every overlap of source and destination:
    afterwards the [n] destination bytes hold what the source bytes held
    before the call and every other byte is unchanged. *)
Theorem memmove_correct m dest src n b :
  0 <= n ->
  ld8 (memmove m dest src n) b =
  if decide (dest <= b < dest + n) then ld8 m (b - dest + src) else ld8 m b.
Proof.
  intros Hn. unfold memmove. destruct (Z.leb_spec dest src).
  - rewrite ld8_copy_up by lia. repeat case_decide; try lia; done.
  - rewrite ld8_copy_down by lia. repeat case_decide; try lia; f_equal; lia.
Qed.

Definition ex_mem : gmap Z Z := store_list ∅ 100 [1; 2; 3; 4; 5].

Lemma memmove_correct_witness : ld8 (memmove ex_mem 102 100 3) 104 = 3.
Proof. rewrite memmove_correct by lia. by vm_compute. Defined.

Lemma shiftr2_land3 n : 0 <= n -> n = 4 * Z.shiftr n 2 + Z.land n 3 /\ 0 <= Z.land n 3 /\ 0 <= Z.shiftr n 2.
Proof.
  intros Hn. change 3 with (Z.ones 2). rewrite Z.land_ones, Z.shiftr_div_pow2 by lia.
  change (2 ^ 2) with 4. mlia.
Qed.

Lemma memcpy_correct m dest src n b :
  0 <= n -> dest + n <= src \/ src + n <= dest ->
  ld8 (memcpy m dest src n) b =
  if decide (dest <= b < dest + n) then ld8 m (b - dest + src) else ld8 m b.
Proof.
  intros Hn Hd. destruct (shiftr2_land3 n Hn) as (E & H1 & H2). unfold memcpy.
  rewrite ld8_copy_up, !ld8_copy_up by lia. repeat case_decide; try lia; f_equal; lia.
Qed.

Lemma land3_mod x : Z.land x 3 = x mod 4.
Proof. apply (land_mask x 2). lia. Qed.

(** [memset] writes exactly the [n] bytes at [dest] when [dest] is
    word-aligned or there are at least as many bytes as leading stores. *)
Theorem memset_correct m dest c n b :
  0 <= n < 4294967296 -> dest mod 4 = 0 \/ dest mod 4 <= n ->
  ld8 (memset m dest c n) b = if decide (dest <= b < dest + n) then u8 c else ld8 m b.
Proof.
  intros Hn Ha. unfold memset. destruct (Z.eqb_spec n 0) as [->|]; [case_decide; [lia|done]|].
  rewrite land3_mod. assert (0 <= dest mod 4 < 4) by mlia.
  rewrite u32_small by lia. destruct (shiftr2_land3 (n - dest mod 4)) as (E & H1 & H2); [lia|].
  destruct (Z.ltb_spec 0 (dest mod 4)), (Z.eqb_spec (n - dest mod 4) 0); cbn [andb];
    rewrite !ld8_fill; repeat case_decide; try lia; done.
Qed.

Lemma memset_correct_witness : ld8 (memset ex_mem 101 7 2) 103 = 4.
Proof. rewrite memset_correct by mlia. by vm_compute. Defined.

(** [memset] tests the count for zero only after the last leading store:
    with fewer bytes than leading stores the count wraps around, and the
    bytes after the block are overwritten, for almost 4 GB. *)
Theorem memset_small_overruns m dest c n k :
  0 < n < dest mod 4 -> n <= k < 4294967296 -> ld8 (memset m dest c n) (dest + k) = u8 c.
Proof.
  intros Hn Hk. unfold memset. destruct (Z.eqb_spec n 0); [lia|].
  rewrite land3_mod. assert (0 <= dest mod 4 < 4) by mlia.
  assert (u32 (n - dest mod 4) = n - dest mod 4 + 4294967296) as -> by (unfold u32; mlia).
  destruct (shiftr2_land3 (n - dest mod 4 + 4294967296)) as (E & H1 & H2); [lia|].
  destruct (Z.eqb_spec (n - dest mod 4 + 4294967296) 0); [lia|]. rewrite andb_false_r.
  rewrite !ld8_fill. repeat case_decide; try lia; done.
Qed.

Lemma memset_small_overruns_witness : ld8 (memset ex_mem 103 7 1) (103 + 1000) = 7.
Proof. rewrite memset_small_overruns by mlia. done. Defined.

(** ** [memcmp] *)

Lemma cmp_bytes_app m a b n k :
  cmp_bytes m a b (n + k) =
  if cmp_bytes m a b n =? 0 then cmp_bytes m (a + Z.of_nat n) (b + Z.of_nat n) k
  else cmp_bytes m a b n.
Proof.
  revert a b. induction n as [|n IH]; intros a b; cbn [Nat.add cmp_bytes].
  - by rewrite Z.eqb_refl, !Z.add_0_r.
  - destruct (Z.eqb_spec (ld8 m a - ld8 m b) 0) as [E|E]; cbn [negb].
    + rewrite IH. destruct (cmp_bytes _ _ _ n =? 0); [|done]. f_equal; lia.
    + by destruct (Z.eqb_spec (ld8 m a - ld8 m b) 0).
Qed.

Lemma cmp_head_spec m a b n k :
  0 < n < 4294967296 ->
  match cmp_head m a b n k with
  | inl r => cmp_bytes m a b (Z.to_nat n) = r
  | inr (a', b', n') =>
      0 <= n' <= n /\ cmp_bytes m a b (Z.to_nat n) = cmp_bytes m a' b' (Z.to_nat n')
  end.
Proof.
  revert a b n. induction k as [|k IH]; intros a b n Hn; cbn [cmp_head]; [lia|].
  replace (Z.to_nat n) with (S (Z.to_nat (n - 1))) by lia. cbn [cmp_bytes].
  destruct (Z.eqb_spec (ld8 m a - ld8 m b) 0) as [E|E]; cbn [negb]; [|done].
  rewrite u32_small by lia. destruct (Z.eqb_spec (n - 1) 0) as [E1|E1].
  - by rewrite E1, E.
  - specialize (IH (a + 1) (b + 1) (n - 1) ltac:(lia)).
    destruct (cmp_head m (a + 1) (b + 1) (n - 1) k) as [r|[[a' b'] n']]; [done|].
    destruct IH. split; [lia|done].
Qed.

Lemma cmp_words_spec fuel m a b n :
  0 <= n ->
  let '(a', b', n') := cmp_words fuel m a b n in
  0 <= n' /\ cmp_bytes m a b (Z.to_nat n) = cmp_bytes m a' b' (Z.to_nat n').
Proof.
  revert a b n. induction fuel as [|fuel IH]; intros a b n Hn; cbn [cmp_words]; [done|].
  destruct (Z.leb_spec 4 n); [|done].
  destruct (Z.eqb_spec (ld32 m a) (ld32 m b)) as [E|E]; cbn [negb]; [|done].
  specialize (IH (a + 4) (b + 4) (n - 4) ltac:(lia)).
  destruct (cmp_words fuel m (a + 4) (b + 4) (n - 4)) as [[a' b'] n'].
  destruct IH as [? <-]. split; [done|].
  apply ld32_eq_bytes in E as (E0 & E1 & E2 & E3).
  replace (Z.to_nat n) with (4 + Z.to_nat (n - 4))%nat by lia. rewrite cmp_bytes_app.
  assert (cmp_bytes m a b 4 = 0) as ->; [|done].
  cbn [cmp_bytes]. rewrite <- !Z.add_assoc. change (1 + (1 + 1)) with 3. change (1 + 1) with 2.
  by rewrite E0, E1, E2, E3, !Z.sub_diag.
Qed.

(** Equivalence of the word-at-a-time [memcmp] with the byte-by-byte
    comparison, for every alignment of the two blocks and every non-zero
    length. *)
Theorem memcmp_bytewise m a b n :
  0 < n < 4294967296 -> memcmp m a b n = cmp_bytes m a b (Z.to_nat n).
Proof.
  intros Hn. unfold memcmp. destruct (_ =? _); [|done].
  pose proof (cmp_head_spec m a b n (Z.to_nat (align4 a - a)) Hn) as H.
  destruct (cmp_head _ _ _ _ _) as [r|[[a' b'] n']]; [done|]. destruct H as [Hn' ->].
  pose proof (cmp_words_spec (Z.to_nat (n' / 4)) m a' b' n' ltac:(lia)) as H.
  destruct (cmp_words _ _ _ _ _) as [[a2 b2] n2]. by destruct H.
Qed.

Lemma memcmp_bytewise_witness : memcmp (memmove ex_mem 204 100 5) 100 204 5 = 0.
Proof. rewrite memcmp_bytewise by lia. by vm_compute. Defined.

(** What the byte-by-byte comparison returns. *)
Lemma cmp_bytes_spec m a b n :
  (cmp_bytes m a b n = 0 <-> forall i, 0 <= i < Z.of_nat n -> ld8 m (a + i) = ld8 m (b + i)).
Proof.
  revert a b. induction n as [|n IH]; intros a b; cbn [cmp_bytes]; [split; [lia|done]|].
  destruct (Z.eqb_spec (ld8 m a - ld8 m b) 0) as [E|E]; cbn [negb].
  - rewrite IH. split; intros H i Hi.
    + destruct (decide (i = 0)) as [->|]; [rewrite !Z.add_0_r; lia|].
      specialize (H (i - 1) ltac:(lia)). by rewrite <- !Z.add_assoc, !Zplus_minus in H.
    + rewrite <- !Z.add_assoc. apply H. lia.
  - split; [lia|]. intros H. specialize (H 0 ltac:(lia)). rewrite !Z.add_0_r in H. lia.
Qed.

Lemma align4_sub a : 0 <= a < 4294967292 -> align4 a - a = (- a) mod 4.
Proof. intros H. unfold align4. rewrite land_fffffffc by lia. mlia. Qed.

(** Zero length: on two blocks with the same misalignment [memcmp] still
    compares the first byte, so comparing no bytes at all can return non-zero. *)
Theorem memcmp_zero_length m a b :
  0 <= a < 4294967292 -> 0 <= b < 4294967292 -> a mod 4 = b mod 4 -> a mod 4 <> 0 ->
  ld8 m a <> ld8 m b -> memcmp m a b 0 = ld8 m a - ld8 m b.
Proof.
  intros Ha Hb E1 E2 Hne. unfold memcmp. rewrite !align4_sub by done.
  destruct (Z.eqb_spec ((- a) mod 4) ((- b) mod 4)); [|mlia].
  destruct (Z.to_nat ((- a) mod 4)) eqn:En; [mlia|]. cbn [cmp_head].
  destruct (Z.eqb_spec (ld8 m a - ld8 m b) 0); [lia|done].
Qed.

Lemma memcmp_zero_length_witness : memcmp (store_list ex_mem 201 [9]) 101 201 0 = -7.
Proof. rewrite memcmp_zero_length; by vm_compute. Defined.

(** ** String theorems *)

(** The characters of a C string: none is the terminator. *)
Definition cstr (s : list Z) : Prop := Forall (fun c => c <> 0) s.

Lemma cstr_chr s : cstr s -> chr s = 0 -> s = [].
Proof. intros Hs. destruct Hs; [done|]. simpl. by intros ->. Qed.

(** A character map that fixes the terminator and only the terminator. *)
Class CharMap (f : Z -> Z) := charmap_zero : forall c, f c = 0 <-> c = 0.
Arguments charmap_zero f {_} c.
#[export] Instance charmap_id : CharMap (fun c => c).
Proof. by intros c. Qed.
#[export] Instance charmap_tolower : CharMap tolower := tolower_zero.

Section compare.
Context (f : Z -> Z) `{!CharMap f}.

(** Lexicographic comparison of the mapped strings. *)
Fixpoint lex_cmp (s1 s2 : list Z) : Z :=
  match s1, s2 with
  | c1 :: t1, c2 :: t2 => if f c1 =? f c2 then lex_cmp t1 t2 else f c1 - f c2
  | _, _ => f (chr s1) - f (chr s2)
  end.

Lemma skip_common_lex s1 s2 : cstr s1 -> cstr s2 ->
  let '(r1, r2) := skip_common f s1 s2 in f (chr r1) - f (chr r2) = lex_cmp s1 s2.
Proof using CharMap0.
  intros H1. revert s2. induction H1 as [|c1 t1 Hc1 H1 IH]; intros s2 H2; cbn [skip_common lex_cmp].
  - done.
  - destruct H2 as [|c2 t2 Hc2 H2]; cbn [chr tail].
    + destruct (Z.eqb_spec (f c1) (f 0)) as [E|E]; [|done].
      rewrite (proj2 (charmap_zero f 0)) in E by done. apply (proj1 (charmap_zero f c1)) in E. destruct (Hc1 E).
    + destruct (Z.eqb_spec (f c1) (f c2)); [by apply IH|done].
Qed.

Lemma lex_cmp_zero s1 s2 : cstr s1 -> cstr s2 -> lex_cmp s1 s2 = 0 <-> map f s1 = map f s2.
Proof using CharMap0.
  intros H1. revert s2. assert (f 0 = 0) as E0 by (by apply (charmap_zero f)).
  induction H1 as [|c1 t1 Hc1 H1 IH]; intros s2 H2; destruct H2 as [|c2 t2 Hc2 H2]; cbn [lex_cmp map chr].
  - split; [done|]. rewrite E0. lia.
  - split; [|done]. rewrite E0. intros E. exfalso. apply Hc2, (proj1 (charmap_zero f c2)). lia.
  - split; [|done]. rewrite E0. intros E. exfalso. apply Hc1, (proj1 (charmap_zero f c1)). lia.
  - destruct (Z.eqb_spec (f c1) (f c2)) as [E|E].
    + rewrite IH by done. split; [by intros ->; rewrite E|by intros [= _ ->]].
    + split; [lia|]. by intros [= ? _].
Qed.

Lemma lex_cmp_antisym s1 s2 : lex_cmp s1 s2 = - lex_cmp s2 s1.
Proof.
  revert s2. induction s1 as [|c1 t1 IH]; intros [|c2 t2]; cbn [lex_cmp chr]; try lia.
  rewrite (Z.eqb_sym (f c2)). destruct (_ =? _); [apply IH|lia].
Qed.

(** The counted comparison looks at one character less than asked. *)
Lemma skip_common_n_spec fuel n s1 s2 :
  cstr s1 -> cstr s2 -> (length s1 < fuel)%nat -> 0 <= n ->
  let '(n', r1, r2) := skip_common_n f fuel n s1 s2 in
  (if n' <=? 0 then 0 else f (chr r1) - f (chr r2)) =
  lex_cmp (take (Z.to_nat (n - 1)) s1) (take (Z.to_nat (n - 1)) s2).
Proof using CharMap0.
  revert n s1 s2. induction fuel as [|fuel IH]; intros n s1 s2 H1 H2 Hl Hn; [lia|].
  cbn [skip_common_n]. assert (f 0 = 0) as E0 by (by apply (charmap_zero f)).
  destruct (Z.ltb_spec 0 n); cbn [andb].
  2:{ assert (n = 0) as -> by lia. change (Z.to_nat (0 - 1)) with O. rewrite !take_0.
      cbn [lex_cmp chr]. by rewrite Z.sub_diag. }
  destruct (decide (n = 1)) as [->|Hn1].
  { change (Z.to_nat (1 - 1)) with O. rewrite !take_0. cbn [lex_cmp chr]. rewrite (Z.sub_diag (f 0)).
    match goal with |- context [if ?b then skip_common_n _ _ _ _ _ else _] => destruct b end; [|done].
    destruct fuel as [|fuel]; cbn [skip_common_n]; [done|].
    change (0 <? 1 - 1) with false. done. }
  replace (Z.to_nat (n - 1)) with (S (Z.to_nat (n - 1 - 1))) by lia.
  destruct H1 as [|c1 t1 Hc1 H1], H2 as [|c2 t2 Hc2 H2]; cbn [chr tail negb andb take lex_cmp];
    rewrite ?Z.eqb_refl, ?andb_false_r; cbn [negb andb].
  - zcase; [lia|done].
  - zcase; [lia|done].
  - rewrite ?andb_false_r. zcase; [lia|done].
  - destruct (Z.eqb_spec c1 0), (Z.eqb_spec c2 0); try done; cbn [negb andb].
    destruct (Z.eqb_spec (f c1) (f c2)); [|zcase; [lia|done]].
    apply IH; try done; cbn [length] in Hl; lia.
Qed.

Lemma strncmp_by_lex s1 s2 n : cstr s1 -> cstr s2 -> 0 < n ->
  strncmp_by f s1 s2 n = lex_cmp (take (Z.to_nat (n - 1)) s1) (take (Z.to_nat (n - 1)) s2).
Proof using CharMap0.
  intros H1 H2 Hn. unfold strncmp_by. destruct (Z.leb_spec n 0); [lia|].
  pose proof (skip_common_n_spec (S (length s1)) n s1 s2 H1 H2 ltac:(lia) ltac:(lia)) as Hsc.
  by destruct (skip_common_n _ _ _ _ _) as [[n' r1] r2].
Qed.
End compare.

Lemma lex_cmp_id_zero s1 s2 : cstr s1 -> cstr s2 -> lex_cmp (fun c => c) s1 s2 = 0 <-> s1 = s2.
Proof. intros H1 H2. rewrite (lex_cmp_zero _ s1 s2 H1 H2). by rewrite !map_id. Qed.

Lemma strcmp_lex s1 s2 : cstr s1 -> cstr s2 -> strcmp s1 s2 = lex_cmp (fun c => c) s1 s2.
Proof.
  intros H1 H2. unfold strcmp. pose proof (skip_common_lex (fun c => c) s1 s2 H1 H2) as H.
  by destruct (skip_common _ s1 s2).
Qed.

Lemma strcasecmp_lex s1 s2 : cstr s1 -> cstr s2 -> strcasecmp s1 s2 = lex_cmp tolower s1 s2.
Proof.
  intros H1 H2. unfold strcasecmp. pose proof (skip_common_lex tolower s1 s2 H1 H2) as H.
  by destruct (skip_common _ s1 s2).
Qed.

(** [strcmp] is zero on equal strings only, and [strcasecmp] on strings
    equal up to case only; both are antisymmetric. *)
Theorem strcmp_correct s1 s2 :
  cstr s1 -> cstr s2 ->
  (strcmp s1 s2 = 0 <-> s1 = s2) /\
  (strcasecmp s1 s2 = 0 <-> map tolower s1 = map tolower s2) /\
  strcmp s1 s2 = - strcmp s2 s1 /\ strcasecmp s1 s2 = - strcasecmp s2 s1.
Proof.
  intros H1 H2. rewrite !strcmp_lex, !strcasecmp_lex by done. split_and!.
  - by apply lex_cmp_id_zero.
  - by apply (lex_cmp_zero tolower).
  - apply lex_cmp_antisym.
  - apply lex_cmp_antisym.
Qed.

Lemma strcmp_correct_witness : strcasecmp [70; 111; 79] [102; 79; 111] = 0.
Proof.
  destruct (strcmp_correct [70; 111; 79] [102; 79; 111]) as (_ & [_ H] & _); [by repeat constructor..|].
  by apply H.
Defined.

(** [strncmp(s1, s2, n)] compares only the first [n - 1] characters: the
    countdown has already reached zero when the last of the [n] characters
    is looked at, and a zero count is reported as equality. *)
Theorem strncmp_ignores_last s1 s2 n :
  cstr s1 -> cstr s2 -> 0 < n ->
  (strncmp s1 s2 n = 0 <-> take (Z.to_nat (n - 1)) s1 = take (Z.to_nat (n - 1)) s2).
Proof.
  intros H1 H2 Hn. unfold strncmp. rewrite strncmp_by_lex by done.
  apply lex_cmp_id_zero; by apply Forall_take.
Qed.

Lemma strncmp_ignores_last_witness : strncmp [97; 98] [97; 99] 2 = 0.
Proof. apply strncmp_ignores_last; [by repeat constructor..|done|done]. Defined.

(** ** Searching *)

Lemma skip_common_prefix s1 s2 : cstr s1 -> cstr s2 ->
  (chr (snd (skip_common (fun c => c) s1 s2)) = 0 <-> s2 `prefix_of` s1).
Proof.
  intros H1. revert s2. induction H1 as [|c1 t1 Hc1 H1 IH]; intros s2 H2; cbn [skip_common].
  - split.
    + intros E. by rewrite (cstr_chr s2 H2 E).
    + intros E%prefix_nil_inv. by subst.
  - destruct H2 as [|c2 t2 Hc2 H2]; cbn [chr tail].
    + split; [intros _; apply prefix_nil|intros _].
      destruct (Z.eqb_spec c1 0); [done|done].
    + destruct (Z.eqb_spec c1 c2) as [->|Hne]; cbn [snd].
      * rewrite IH by done. split; [apply prefix_cons|apply prefix_cons_inv_2].
      * split; [done|]. intros E%prefix_cons_inv_1. done.
Qed.

(** [strstr] returns the first suffix of [str] that starts with [substr],
    and null exactly when there is none (or [str] is empty). *)
Theorem strstr_correct str substr :
  cstr str -> cstr substr ->
  match strstr str substr with
  | Some r => exists k, (k < length str)%nat /\ r = drop k str /\ substr `prefix_of` r /\
      forall j, (j < k)%nat -> ~ substr `prefix_of` drop j str
  | None => forall j, (j < length str)%nat -> ~ substr `prefix_of` drop j str
  end.
Proof.
  intros Hs Hsub. unfold strstr. induction Hs as [|c str Hc Hs IH]; cbn [strstr_by]; [simpl; lia|].
  pose proof (skip_common_prefix (c :: str) substr ltac:(by constructor) Hsub) as Hp.
  destruct (skip_common _ (c :: str) substr) as [r1 r2]. cbn [snd] in Hp.
  destruct (Z.eqb_spec (chr r2) 0) as [E|E].
  - exists O. split_and!; [simpl; lia|done|by apply Hp|lia].
  - assert (forall j, (j < 1)%nat -> ~ substr `prefix_of` drop j (c :: str)) as H0.
    { intros j Hj. replace j with O by lia. rewrite drop_0, <- Hp. done. }
    destruct (strstr_by (fun c => c) str substr) as [r|].
    + destruct IH as (k & Hk & -> & Hpre & Hfirst). exists (S k).
      split_and!; [simpl; lia|done|done|]. intros [|j] Hj; [apply H0; lia|].
      apply Hfirst. lia.
    + intros [|j] Hj; [apply H0; lia|]. apply IH. simpl in Hj. lia.
Qed.

Lemma strstr_correct_witness :
  exists k, (k < 4)%nat /\ [98; 97; 98] = drop k [97; 98; 97; 98] /\ [98] `prefix_of` [98; 97; 98].
Proof.
  pose proof (strstr_correct [97; 98; 97; 98] [98] ltac:(by repeat constructor) ltac:(by repeat constructor)) as H.
  destruct H as (k & H1 & H2 & H3 & _). by exists k.
Defined.

Lemma strchr_spec s c :
  match strchr s c with
  | Some r => exists pre, s = pre ++ r /\ chr r = c /\ c ∉ pre
  | None => c ∉ s
  end.
Proof.
  induction s as [|x s IH]; cbn [strchr]; [set_solver|].
  destruct (Z.eqb_spec x c) as [->|Hx].
  - exists []. split_and!; [done|done|set_solver].
  - destruct (strchr s c) as [r|].
    + destruct IH as (pre & -> & ? & ?). exists (x :: pre). split_and!; [done|done|set_solver].
    + set_solver.
Qed.

(** A copied string reads back, terminator included, and nothing beyond it
    changes. *)
Lemma strcpy_spec m dest src b :
  Forall (fun c => 0 <= c < 256) src ->
  ld8 (strcpy m dest src) b =
  if decide (dest <= b <= dest + strlen src)
  then default 0 ((src ++ [0]) !! Z.to_nat (b - dest)) else ld8 m b.
Proof.
  intros Hs. unfold strcpy, strlen. rewrite ld8_store_list, length_app. cbn [length].
  repeat case_decide; try lia.
  destruct ((src ++ [0]) !! Z.to_nat (b - dest)) as [c|] eqn:E; simpl; [|done].
  apply u8_small. apply list_elem_of_lookup_2, elem_of_app in E as [E|E].
  - rewrite Forall_forall in Hs. by apply Hs.
  - apply list_elem_of_singleton in E. lia.
Qed.
