(* ===== verification/Mem.v ===== *)
(** * The physical page allocator (src/mem.c, src/mem.h)

    The bitmap lives in memory right after the kernel image and is indexed
    without bounds checks, so it is a map from word index to 32-bit word that
    is defined on every index: a word that was never written reads as 0.
    [iflag] is the interrupt flag that [get_intr_flag], [disable_intr] and
    [set_intr_flag] access. *)
From S2P Require Import Prelude.

Record pmem := mk_pmem {
  bitmap : gmap Z Z;
  bmsize : Z;
  last_alloc_idx : Z;
  iflag : bool
}.

Definition MEM_HEAP : Z := 0.
Definition MEM_STACK : Z := 1.
Definition FREE : Z := 0.
Definition USED : Z := 1.
Definition MAX_MAP_SIZE : Z := 16.

Definition ADDR_TO_PAGE (x : Z) : Z := Z.shiftr (u32 x) 12.
Definition PAGE_TO_ADDR (x : Z) : Z := u32 (Z.shiftl (u32 x) 12).
Definition BYTES_TO_PAGES (x : Z) : Z := Z.shiftr (u32 (u32 x + 4095)) 12.

Definition BM_IDX (pg : Z) : Z := Z.quot pg 32.
Definition BM_BIT (pg : Z) : Z := Z.land pg 31.

Definition bmword (st : pmem) (i : Z) : Z := default 0 (bitmap st !! i).

Definition IS_FREE (st : pmem) (pg : Z) : bool :=
  Z.land (bmword st (BM_IDX pg)) (Z.shiftl 1 (BM_BIT pg)) =? 0.

Definition set_intr_flag (f : bool) (st : pmem) : pmem :=
  mk_pmem (bitmap st) (bmsize st) (last_alloc_idx st) f.
Definition disable_intr (st : pmem) : pmem := set_intr_flag false st.
Definition set_last_alloc_idx (i : Z) (st : pmem) : pmem :=
  mk_pmem (bitmap st) (bmsize st) i (iflag st).
Definition set_bmsize (n : Z) (st : pmem) : pmem :=
  mk_pmem (bitmap st) n (last_alloc_idx st) (iflag st).

(** [mark_page]: maps a page as used or free. *)
Definition mark_page (st : pmem) (pg used : Z) : pmem :=
  let idx := BM_IDX pg in
  let bit := BM_BIT pg in
  let w := if used =? 0
           then Z.land (bmword st idx) (u32 (Z.lnot (Z.shiftl 1 bit)))
           else Z.lor (bmword st idx) (Z.shiftl 1 bit) in
  mk_pmem (<[idx := w]> (bitmap st)) (bmsize st) (last_alloc_idx st) (iflag st).

(** [for(i=0; i<n; i++) mark_page(pg++, used)] *)
Fixpoint mark_pages (st : pmem) (pg : Z) (n : nat) (used : Z) : pmem :=
  match n with
  | O => st
  | S n => mark_pages (mark_page st pg used) (pg + 1) n used
  end.

(** [for(i=0; i<size; i++) { if(!IS_FREE(pg)) return -1; ++pg; }] *)
Fixpoint check_free (st : pmem) (pg : Z) (n : nat) : bool :=
  match n with
  | O => true
  | S n => if IS_FREE st pg then check_free st (pg + 1) n else false
  end.

(** The failing path returns without restoring the interrupt flag. *)
Definition alloc_ppage_range (st : pmem) (start size : Z) : Z * pmem :=
  let intr_state := iflag st in
  let st := disable_intr st in
  if check_free st start (Z.to_nat size)
  then (0, set_intr_flag intr_state (mark_pages st start (Z.to_nat size) USED))
  else (-1, st).

(** Body of the [for(i=0; i<32; i++)] loop of [alloc_ppages]; the first
    component is the page found, if any. *)
Fixpoint scan_word (n : nat) (st : pmem) (idx pg dir count : Z) (found_free : bool)
  : option Z * bool * pmem :=
  match n with
  | O => (None, found_free, st)
  | S n =>
      if IS_FREE st pg then
        let upd := negb found_free && (0 <? dir) in
        let st := if upd then set_last_alloc_idx idx st else st in
        let found_free := found_free || upd in
        let '(r, st) := alloc_ppage_range st pg count in
        if negb (r =? -1) then (Some pg, found_free, st)
        else scan_word n st idx (pg + dir) dir count found_free
      else scan_word n st idx (pg + dir) dir count found_free
  end.

(** The [while(idx != max)] loop; [fuel] bounds the number of words visited. *)
Fixpoint scan_bitmap (fuel : nat) (st : pmem) (idx max dir count : Z) (found_free : bool)
  : res (option Z * pmem) :=
  if idx =? max then Ok (None, st) else
  match fuel with
  | O => NoFuel
  | S fuel =>
      if bmword st idx =? 4294967295
      then scan_bitmap fuel st (idx + dir) max dir count found_free
      else
        let pg := idx * 32 + (if dir <? 0 then 31 else 0) in
        match scan_word 32 st idx pg dir count found_free with
        | (Some pg, _, st) => Ok (Some pg, st)
        | (None, found_free, st) => scan_bitmap fuel st (idx + dir) max dir count found_free
        end
  end.

Definition alloc_ppages (fuel : nat) (st : pmem) (count area : Z) : res (Z * pmem) :=
  let intr_state := iflag st in
  let st := disable_intr st in
  let '(idx, max, dir) :=
    if area =? MEM_STACK then (Z.quot (bmsize st - 1) 4, -1, -1)
    else (last_alloc_idx st, Z.quot (bmsize st) 4, 1) in
  '(r, st) ← scan_bitmap fuel st idx max dir count false;
  mret (default (-1) r, set_intr_flag intr_state st).

Definition alloc_ppage (fuel : nat) (st : pmem) (area : Z) : res (Z * pmem) :=
  alloc_ppages fuel st 1 area.

Definition free_ppage (st : pmem) (pg : Z) : res pmem :=
  let bmidx := BM_IDX pg in
  let intr_state := iflag st in
  let st := disable_intr st in
  if IS_FREE st pg then Panic
  else
    let st := mark_page st pg FREE in
    let st := if bmidx <? last_alloc_idx st then set_last_alloc_idx bmidx st else st in
    Ok (set_intr_flag intr_state st).

Fixpoint free_loop (n : nat) (st : pmem) (pg : Z) : res pmem :=
  match n with
  | O => Ok st
  | S n => st ← free_ppage st pg; free_loop n st (pg + 1)
  end.

Definition free_ppages (st : pmem) (pg0 count : Z) : res pmem :=
  free_loop (Z.to_nat count) st pg0.

Definition free_ppage_range (st : pmem) (start size : Z) : res (Z * pmem) :=
  st ← free_loop (Z.to_nat size) st start; mret (0, st).

(** ** Initialisation *)

Record mem_range := mk_range { r_start : Z; r_size : Z }.

Definition add_memory (st : pmem) (start sz : Z) : pmem :=
  let szpg := ADDR_TO_PAGE (u32 (sz + 4095)) in
  let pg := ADDR_TO_PAGE start in
  mark_pages st pg (Z.to_nat szpg) FREE.

(** The pages one entry of the memory map adds: [None] when it is skipped,
    otherwise [start], [sz] as passed to [add_memory], and [end]. *)
Definition clip_range (mem_start : Z) (r : mem_range) : option (Z * Z * Z) :=
  let start := u32 (r_start r) in
  let sz := Z.land (u32 (r_size r)) 0xfffffffc in
  let fin := u32 (start + sz) in
  let '(fin, sz) := if fin <? sz then (0xfffffffc, u32 (0xfffffffc - start)) else (fin, sz) in
  if fin <? mem_start then None
  else Some (if start <? mem_start then mem_start else start, sz, fin).

Fixpoint add_ranges (mem_start : Z) (rs : list mem_range) (st : pmem) (end_pg : Z) : pmem * Z :=
  match rs with
  | [] => (st, end_pg)
  | r :: rs =>
      match clip_range mem_start r with
      | None => add_ranges mem_start rs st end_pg
      | Some (start, sz, fin) =>
          let st := add_memory st start sz in
          let pg := ADDR_TO_PAGE fin in
          add_ranges mem_start rs st (if end_pg <? pg then pg else end_pg)
      end
  end.

(** [memset(bitmap, 0xff, 1024 * 1024 / 8)] *)
Definition fill_used (st : pmem) (n : nat) : pmem :=
  mk_pmem (foldr (fun i m => <[i := 4294967295]> m) (bitmap st) (zseq 0 n))
          (bmsize st) (last_alloc_idx st) (iflag st).

(** [1024 * 1024 / 8] bytes are 32768 words. *)
Definition bitmap_words : Z := 1024 * 1024 / 8 / 4.

Definition init_mem (mem_start : Z) (boot_mem_map : list mem_range) (boot_mem_map_size : Z)
    (st : pmem) : res pmem :=
  let st := set_last_alloc_idx 0 st in
  let st := fill_used st (Z.to_nat bitmap_words) in
  if (boot_mem_map_size <=? 0) || (MAX_MAP_SIZE <? boot_mem_map_size) then Panic
  else
    let '(st, end_pg) :=
      add_ranges mem_start (take (Z.to_nat boot_mem_map_size) boot_mem_map) st 0 in
    let st := set_bmsize (Z.quot end_pg 32 * 4) st in
    let used_end := u32 (mem_start + bmsize st - 1) in
    let max_used_pg := ADDR_TO_PAGE used_end in
    Ok (mark_pages st 0 (Z.to_nat (max_used_pg + 1)) USED).

(** ** Pages and bits *)

Lemma IS_FREE_testbit st pg :
  0 <= pg -> IS_FREE st pg = negb (Z.testbit (bmword st (pg / 32)) (pg mod 32)).
Proof.
  intros H. unfold IS_FREE, BM_IDX, BM_BIT.
  rewrite land_31, land_pow2_testbit by mlia. by rewrite Z.quot_div_nonneg by lia.
Qed.

Lemma bmword_mark st pg used i :
  bmword (mark_page st pg used) i =
  if decide (i = BM_IDX pg)
  then (if used =? 0
        then Z.land (bmword st i) (u32 (Z.lnot (Z.shiftl 1 (BM_BIT pg))))
        else Z.lor (bmword st i) (Z.shiftl 1 (BM_BIT pg)))
  else bmword st i.
Proof.
  unfold bmword, mark_page; simpl.
  destruct (decide (i = BM_IDX pg)) as [->|].
  - rewrite lookup_insert_eq. by destruct (used =? 0).
  - by rewrite lookup_insert_ne by done.
Qed.

Lemma mark_page_IS_FREE st pg used q :
  0 <= pg -> 0 <= q ->
  IS_FREE (mark_page st pg used) q =
  if decide (q = pg) then used =? 0 else IS_FREE st q.
Proof.
  intros Hpg Hq. rewrite !IS_FREE_testbit by lia. rewrite bmword_mark.
  unfold BM_IDX, BM_BIT. rewrite Z.quot_div_nonneg, land_31 by lia.
  assert (0 <= q mod 32 < 32) by mlia. assert (0 <= pg mod 32 < 32) by mlia.
  assert (q = pg <-> q / 32 = pg / 32 /\ q mod 32 = pg mod 32) as Heq.
  { split; [by intros ->|]. intros [? ?]. mlia. }
  destruct (decide (q / 32 = pg / 32)) as [E|E].
  - destruct (used =? 0).
    + rewrite Z.land_spec, u32_bits, Z.lnot_spec, shiftl1_bits by lia.
      destruct (Z.ltb_spec (q mod 32) 32); [|lia]. simpl.
      case_bool_decide; case_decide; try tauto; simpl.
      * by rewrite andb_false_r.
      * by rewrite andb_true_r.
    + rewrite Z.lor_spec, shiftl1_bits by lia.
      case_bool_decide; case_decide; try tauto; simpl.
      * by rewrite orb_true_r.
      * by rewrite orb_false_r.
  - case_decide; [tauto|done].
Qed.

Lemma full_word_IS_FREE st pg :
  0 <= pg -> bmword st (pg / 32) = 4294967295 -> IS_FREE st pg = false.
Proof.
  intros H E. rewrite IS_FREE_testbit, E by lia.
  change 4294967295 with (Z.ones 32). rewrite Z.ones_spec_low by mlia. done.
Qed.

Lemma mark_pages_IS_FREE st pg n used q :
  0 <= pg -> 0 <= q ->
  IS_FREE (mark_pages st pg n used) q =
  if decide (pg <= q < pg + Z.of_nat n) then used =? 0 else IS_FREE st q.
Proof.
  revert st pg. induction n as [|n IH]; intros st pg Hpg Hq; simpl.
  - case_decide; [lia|done].
  - rewrite IH, mark_page_IS_FREE by lia.
    repeat case_decide; try lia; done.
Qed.

Lemma check_free_spec st pg n :
  check_free st pg n = true <-> forall q, pg <= q < pg + Z.of_nat n -> IS_FREE st q = true.
Proof.
  revert pg. induction n as [|n IH]; intros pg; simpl.
  - split; [lia|done].
  - destruct (IS_FREE st pg) eqn:E.
    + rewrite IH. split; intros H q Hq.
      * destruct (decide (q = pg)) as [->|]; [done|]. apply H. lia.
      * apply H. lia.
    + split; [done|]. intros H. rewrite <- E. apply H. lia.
Qed.

Lemma mark_pages_fields st pg n used :
  bmsize (mark_pages st pg n used) = bmsize st /\
  last_alloc_idx (mark_pages st pg n used) = last_alloc_idx st /\
  iflag (mark_pages st pg n used) = iflag st.
Proof.
  revert st pg. induction n as [|n IH]; intros st pg; simpl; [done|].
  destruct (IH (mark_page st pg used) (pg + 1)) as (? & ? & ?). done.
Qed.

(** Changing the other fields does not change which pages are free. *)
Lemma IS_FREE_ext st st' pg : bitmap st = bitmap st' -> IS_FREE st pg = IS_FREE st' pg.
Proof. intros H. unfold IS_FREE, bmword. by rewrite H. Qed.

Lemma check_free_ext st st' pg n :
  bitmap st = bitmap st' -> check_free st pg n = check_free st' pg n.
Proof.
  intros H. revert pg. induction n as [|n IH]; intros pg; simpl; [done|].
  by rewrite (IS_FREE_ext _ _ _ H), IH.
Qed.

(** ** The search of [alloc_ppages] is a first-fit search *)

(** A run of [count] pages can be allocated at [pg]. *)
Definition fits (st : pmem) (count pg : Z) : bool :=
  IS_FREE st pg && check_free st pg (Z.to_nat count).

Lemma set_intr_flag_same st f : iflag st = f -> set_intr_flag f st = st.
Proof. destruct st; simpl. by intros ->. Qed.

Lemma alloc_ppage_range_masked st p count :
  iflag st = false ->
  alloc_ppage_range st p count =
  if check_free st p (Z.to_nat count)
  then (0, mark_pages st p (Z.to_nat count) USED) else (-1, st).
Proof.
  intros Hi. unfold alloc_ppage_range, disable_intr.
  rewrite Hi, set_intr_flag_same by done.
  destruct (check_free _ _ _); [|done].
  rewrite set_intr_flag_same; [done|].
  by rewrite (proj2 (proj2 (mark_pages_fields _ _ _ _))).
Qed.

Lemma fits_ext st st' count p : bitmap st = bitmap st' -> fits st count p = fits st' count p.
Proof. intros H. unfold fits. by rewrite (IS_FREE_ext _ _ _ H), (check_free_ext _ _ _ _ H). Qed.

Lemma scan_word_spec n st idx pg dir count ff :
  iflag st = false -> (ff = true -> 0 < dir -> last_alloc_idx st <= idx) ->
  exists last ff',
    scan_word n st idx pg dir count ff =
    (let r := List.find (fits st count) (stride pg dir n) in
     (r, ff', match r with
              | Some p => mark_pages (set_last_alloc_idx last st) p (Z.to_nat count) USED
              | None => set_last_alloc_idx last st
              end)) /\
    (last = last_alloc_idx st /\ ff' = ff \/ last = idx /\ ff = false /\ ff' = true /\ 0 < dir) /\
    (ff' = false -> 0 < dir -> forall p, p ∈ stride pg dir n -> IS_FREE st p = false).
Proof.
  revert st pg ff. induction n as [|n IH]; intros st pg ff Hi Hff; cbn [scan_word stride List.find].
  - exists (last_alloc_idx st), ff. split_and!; [by destruct st|by left|set_solver].
  - assert (fits st count pg = IS_FREE st pg && check_free st pg (Z.to_nat count)) as -> by done.
    destruct (IS_FREE st pg) eqn:Ef; cbn [andb].
    2:{ destruct (IH st (pg + dir) ff Hi Hff) as (last & ff' & -> & H1 & H2).
        exists last, ff'. split_and!; [done|done|]. intros ? ? p.
        rewrite elem_of_cons. intros [->|]; eauto. }
    assert (exists upd, upd = negb ff && (0 <? dir) /\
      (upd = true /\ ff = false /\ 0 < dir \/ upd = false /\ (ff = true \/ dir <= 0)))
      as (upd & <- & Hupd).
    { eexists. split; [done|]. destruct ff; simpl; [by right; auto|]. zcases; auto. }
    assert (exists last1, (if upd then set_last_alloc_idx idx st else st) = set_last_alloc_idx last1 st
      /\ last1 = if upd then idx else last_alloc_idx st) as (last1 & -> & Hl1).
    { eexists. split; [|done]. destruct upd; [done|]. by destruct st. }
    rewrite alloc_ppage_range_masked by done.
    rewrite (check_free_ext (set_last_alloc_idx last1 st) st) by done.
    assert (ff || upd = false -> 0 < dir -> False) as Hno.
    { destruct Hupd as [(-> & -> & ?)|(-> & [-> | ?])]; simpl; [done|done|lia]. }
    assert (last1 = last_alloc_idx st /\ ff || upd = ff \/
            last1 = idx /\ ff = false /\ ff || upd = true /\ 0 < dir) as Hcase.
    { destruct Hupd as [(-> & -> & ?)|(-> & _)]; [right; auto|left].
      by rewrite orb_false_r. }
    destruct (check_free st pg (Z.to_nat count)) eqn:Ec; simpl.
    + exists last1, (ff || upd). split_and!; [done|done|]. intros. exfalso; auto.
    + destruct (IH (set_last_alloc_idx last1 st) (pg + dir) (ff || upd)) as (last & ff' & -> & H1 & H2).
      { done. }
      { simpl. intros Hf Hd. destruct Hcase as [[-> E]|(-> & _)]; [|lia].
        rewrite E in Hf. auto. }
      erewrite (find_ext (fits (set_last_alloc_idx last1 st) count) (fits st count))
        by (intros; by apply fits_ext).
      simpl in H1. exists last, ff'. split_and!; [done| |].
      * destruct H1 as [[-> ->]|(-> & E & -> & ?)]; [done|].
        destruct Hcase as [[_ E']|(_ & _ & E' & _)]; [|congruence].
        right. split_and!; congruence.
      * intros Hf Hd. exfalso. apply Hno; [|done].
        destruct H1 as [[_ <-]|(_ & _ & -> & _)]; done.
Qed.

(** No page below the search hint is free: what the comment on
    [last_alloc_idx] guarantees. *)
Definition hint_ok (st : pmem) (last : Z) : Prop :=
  forall p, 0 <= p < 32 * last -> IS_FREE st p = false.

Definition first_page (dir idx : Z) : Z := idx * 32 + (if dir <? 0 then 31 else 0).

Lemma word_pages dir idx p :
  dir = 1 \/ dir = -1 -> p ∈ stride (first_page dir idx) dir 32 -> p / 32 = idx.
Proof.
  intros Hd (k & Hk & ->)%elem_of_stride. unfold first_page.
  destruct Hd as [-> | ->]; simpl; mlia.
Qed.

Lemma pages_of_word idx p : p / 32 = idx -> p ∈ stride (first_page 1 idx) 1 32.
Proof.
  intros <-. apply elem_of_stride. exists (p mod 32). unfold first_page; simpl. mlia.
Qed.

Lemma stride_word dir idx k :
  dir = 1 \/ dir = -1 ->
  stride (first_page dir idx) dir (32 * S k) =
  stride (first_page dir idx) dir 32 ++ stride (first_page dir (idx + dir)) dir (32 * k).
Proof.
  intros Hd. replace (32 * S k)%nat with (32 + 32 * k)%nat by lia.
  rewrite stride_app. do 2 f_equal. unfold first_page. destruct Hd as [-> | ->]; simpl; lia.
Qed.

(** The scan at its end. *)
Lemma scan_bitmap_nil fuel st max dir count ff : hint_ok st (last_alloc_idx st) ->
  exists last, scan_bitmap fuel st max max dir count ff = Ok (None, set_last_alloc_idx last st) /\
    hint_ok st last /\ last = last_alloc_idx st.
Proof.
  intros Hh. exists (last_alloc_idx st). destruct fuel; cbn [scan_bitmap]; rewrite Z.eqb_refl; (split_and!; [by destruct st|done|done]).
Qed.

Lemma scan_bitmap_spec fuel k st idx max dir count ff :
  dir = 1 \/ dir = -1 -> (k <= fuel)%nat -> max = idx + dir * Z.of_nat k ->
  (0 < dir -> 0 <= idx) -> (dir < 0 -> -1 <= max) ->
  iflag st = false ->
  hint_ok st (last_alloc_idx st) ->
  (0 < dir -> last_alloc_idx st <= idx /\ (ff = false -> hint_ok st idx)) ->
  exists last,
    scan_bitmap fuel st idx max dir count ff =
    (let r := List.find (fits st count) (stride (first_page dir idx) dir (32 * k)) in
     Ok (r, match r with
            | Some p => mark_pages (set_last_alloc_idx last st) p (Z.to_nat count) USED
            | None => set_last_alloc_idx last st
            end)) /\
    hint_ok st last /\ (last = last_alloc_idx st \/ 0 < dir /\ idx <= last < max).
Proof.
  intros Hd. revert k st idx ff.
  induction fuel as [|fuel IH]; intros k st idx ff Hk Hmax Hlo Hhi Hi Hh Hdir.
  all: destruct k as [|k]; [rewrite Z.mul_0_r, Z.add_0_r in Hmax; subst max; rewrite Nat.mul_0_r;
    match goal with |- context [scan_bitmap ?f] => destruct (scan_bitmap_nil f st idx dir count ff Hh) as (last & -> & ? & ->) end; by eexists; split_and!; [..|left]|].
  - lia.
  - cbn [scan_bitmap].
    assert (0 <= idx) as Hidx by (destruct Hd as [-> | ->]; lia).
    destruct (Z.eqb_spec idx max) as [E|_]; [destruct Hd as [-> | ->]; lia|].
    rewrite stride_word, find_app by done.
    assert (forall st', bitmap st = bitmap st' ->
      List.find (fits st' count) (stride (first_page dir (idx + dir)) dir (32 * k)) =
      List.find (fits st count) (stride (first_page dir (idx + dir)) dir (32 * k))) as Hext.
    { intros st' E. apply find_ext. intros. symmetry. by apply fits_ext. }
    assert (forall p, 0 <= p < 32 * (idx + 1) -> p < 32 * idx \/ p ∈ stride (first_page 1 idx) 1 32) as Hsplit.
    { intros p Hp. destruct (decide (p < 32 * idx)); [auto|]. right. apply pages_of_word. mlia. }
    destruct (Z.eqb_spec (bmword st idx) 4294967295) as [E|E].
    + assert (forall p, p ∈ stride (first_page dir idx) dir 32 -> IS_FREE st p = false) as Hfull.
      { intros p Hp. pose proof (word_pages _ _ _ Hd Hp) as Hp'.
        apply full_word_IS_FREE; [mlia|]. by rewrite Hp'. }
      rewrite (find_none_intro _ (stride (first_page dir idx) dir 32))
        by (intros p Hp; unfold fits; by rewrite Hfull).
      destruct (IH k st (idx + dir) ff) as (last & -> & H1 & H2); try lia; try done.
      { intros Hd'. destruct (Hdir Hd') as [? Hff]. split; [lia|].
        intros Hf p Hp. assert (dir = 1) as -> by lia.
        destruct (Hsplit p Hp); [apply Hff; [done|lia]|by apply Hfull]. }
      exists last. split_and!; [done|done|]. destruct H2; [auto|right; lia].
    + fold (first_page dir idx).
      destruct (scan_word_spec 32 st idx (first_page dir idx) dir count ff Hi)
        as (last & ff' & -> & H1 & H2).
      { intros _ ?. by apply Hdir. }
      cbv zeta. destruct (List.find _ (stride (first_page dir idx) dir 32)) as [p|] eqn:Ef.
      { exists last. split_and!; [done| |].
        - destruct H1 as [[-> _]|(-> & Hf & _ & Hd')]; [done|]. by apply Hdir.
        - destruct H1 as [[-> _]|(-> & _ & _ & Hd')]; [auto|]. right. split; [done|].
          destruct Hd as [-> | ->]; lia. }
      assert (hint_ok st last) as Hlast.
      { destruct H1 as [[-> _]|(-> & Hf & _ & Hd')]; [done|]. by apply Hdir. }
      destruct (IH k (set_last_alloc_idx last st) (idx + dir) ff') as (last' & -> & H3 & H4);
        try lia; try done.
      { intros Hd'. destruct (Hdir Hd') as [? Hff]. simpl. split.
        - destruct H1 as [[-> _]|(-> & _)]; lia.
        - intros Hf p Hp. assert (dir = 1) as -> by lia.
          destruct H1 as [[_ ->]|(_ & _ & Hx & _)]; [|congruence].
          destruct (Hsplit p Hp); [apply Hff; [done|lia]|].
          rewrite <- (H2 Hf Hd' p) by done. by apply IS_FREE_ext. }
      exists last'. rewrite Hext by done. split_and!; [done|done|].
      destruct H4 as [-> | ?]; [|right; lia]. simpl.
      destruct H1 as [[-> _]|(-> & _ & _ & Hd')]; [auto|right].
      split; [done|]. destruct Hd as [-> | ->]; lia.
Qed.

(** ** Well-formed allocator states and the specification *)

Record pmem_ok (st : pmem) : Prop := {
  ok_bmsize : 0 <= bmsize st;
  ok_align : bmsize st mod 4 = 0;
  ok_last : 0 <= last_alloc_idx st <= bmsize st / 4;
  ok_hint : hint_ok st (last_alloc_idx st)
}.

(** Index of the last bitmap word: [(bmsize - 1) / 4] in C. *)
Definition top_word (st : pmem) : Z := Z.quot (bmsize st - 1) 4.

(** The pages an allocation may start at, in the order they are preferred. *)
Definition candidates (st : pmem) (area : Z) : list Z :=
  if area =? MEM_STACK
  then stride (first_page (-1) (top_word st)) (-1) (32 * Z.to_nat (top_word st + 1))
  else stride 0 1 (32 * Z.to_nat (bmsize st / 4)).

(** Abstract allocator: the first candidate that starts a free run. *)
Definition first_fit (st : pmem) (count area : Z) : option Z :=
  List.find (fits st count) (candidates st area).

(** The state after the abstract allocation, up to the search hint. *)
Definition after_alloc (st : pmem) (last : Z) (r : option Z) (count : Z) : pmem :=
  match r with
  | Some p => mark_pages (set_last_alloc_idx last st) p (Z.to_nat count) USED
  | None => set_last_alloc_idx last st
  end.

Lemma hint_ok_ext st st' last : bitmap st = bitmap st' -> hint_ok st last -> hint_ok st' last.
Proof. intros E H p Hp. rewrite <- (IS_FREE_ext _ _ p E). auto. Qed.

Lemma top_word_range st : pmem_ok st -> 0 <= top_word st /\ top_word st <= bmsize st / 4.
Proof.
  intros [? ? _ _]. unfold top_word.
  destruct (decide (bmsize st = 0)) as [->|]; [done|].
  rewrite Z.quot_div_nonneg by lia. mlia.
Qed.

Lemma candidates_nonneg st area p : pmem_ok st -> p ∈ candidates st area -> 0 <= p.
Proof.
  intros Hok. pose proof (top_word_range st Hok). unfold candidates, first_page.
  destruct (area =? MEM_STACK); intros (k & Hk & ->)%elem_of_stride; simpl; lia.
Qed.

Lemma candidates_heap st : pmem_ok st ->
  candidates st MEM_HEAP =
  stride 0 1 (32 * Z.to_nat (last_alloc_idx st)) ++
  stride (first_page 1 (last_alloc_idx st)) 1 (32 * Z.to_nat (bmsize st / 4 - last_alloc_idx st)).
Proof.
  intros [? ? ? _]. unfold candidates. change (MEM_HEAP =? MEM_STACK) with false. cbv iota.
  replace (32 * Z.to_nat (bmsize st / 4))%nat with
    (32 * Z.to_nat (last_alloc_idx st) + 32 * Z.to_nat (bmsize st / 4 - last_alloc_idx st))%nat by lia.
  rewrite stride_app. f_equal. f_equal. unfold first_page. change (1 <? 0) with false. cbv iota. lia.
Qed.

Lemma after_alloc_ok st last r count :
  pmem_ok st -> 0 <= last <= bmsize st / 4 -> hint_ok st last ->
  (forall p, r = Some p -> 0 <= p) -> pmem_ok (after_alloc st last r count).
Proof.
  intros [H1 H2 _ _] Hl Hh Hr. destruct r as [p|]; simpl.
  - destruct (mark_pages_fields (set_last_alloc_idx last st) p (Z.to_nat count) USED) as (E1 & E2 & _).
    split; rewrite ?E1, ?E2; try done. intros q Hq.
    rewrite mark_pages_IS_FREE by (first [apply Hr; done | simpl in Hq; lia]).
    case_decide; [done|]. by apply Hh.
  - by split.
Qed.

(** The scan of either area computes [first_fit]. *)
Lemma scan_first_fit fuel st count area :
  pmem_ok st -> iflag st = false -> bmsize st / 4 + 1 <= Z.of_nat fuel ->
  let '(idx, max, dir) :=
    if area =? MEM_STACK then (top_word st, -1, -1)
    else (last_alloc_idx st, Z.quot (bmsize st) 4, 1) in
  exists last,
    scan_bitmap fuel st idx max dir count false =
      Ok (first_fit st count area, after_alloc st last (first_fit st count area) count) /\
    pmem_ok (after_alloc st last (first_fit st count area) count).
Proof.
  intros Hok Hi Hf. pose proof (top_word_range st Hok) as Htw.
  assert (forall p, first_fit st count area = Some p -> 0 <= p) as Hpos.
  { intros p [Hp _]%find_Some_elem. by eapply candidates_nonneg. }
  unfold first_fit in *. destruct (Z.eqb_spec area MEM_STACK) as [->|Ha].
  - destruct (scan_bitmap_spec fuel (Z.to_nat (top_word st + 1)) st (top_word st) (-1) (-1) count false)
      as (last & E & H1 & H2); try lia; try done; [by apply ok_hint|].
    exists last. split; [exact E|]. destruct Hok.
    destruct H2 as [-> |]; [|lia]. by apply after_alloc_ok.
  - rewrite (Z.quot_div_nonneg (bmsize st) 4) by (destruct Hok; lia).
    destruct (scan_bitmap_spec fuel (Z.to_nat (bmsize st / 4 - last_alloc_idx st)) st
      (last_alloc_idx st) (bmsize st / 4) 1 count false)
      as (last & E & H1 & H2); try (destruct Hok; lia); try done; [by apply ok_hint| |].
    { intros _. split; [lia|]. intros _. by apply ok_hint. }
    assert (candidates st area = candidates st MEM_HEAP) as Hc.
    { unfold candidates. by destruct (Z.eqb_spec area MEM_STACK). }
    assert (List.find (fits st count) (stride 0 1 (32 * Z.to_nat (last_alloc_idx st))) = None) as Hn.
    { apply find_none_intro. intros p (k & Hk & ->)%elem_of_stride.
      unfold fits. rewrite (ok_hint st Hok) by lia. done. }
    rewrite Hc, candidates_heap, find_app, Hn in * by done.
    exists last. split; [exact E|]. apply after_alloc_ok; try done.
    destruct Hok. destruct H2 as [-> | [_ ?]]; lia.
Qed.

(** ** Properties of the allocator *)

Lemma mark_pages_ok st p n last :
  pmem_ok st -> 0 <= p -> 0 <= last <= bmsize st / 4 -> hint_ok st last ->
  pmem_ok (mark_pages (set_last_alloc_idx last st) p n USED).
Proof.
  intros Hok Hp Hl Hh.
  pose proof (after_alloc_ok st last (Some p) (Z.of_nat n) Hok Hl Hh) as H. simpl in H.
  rewrite Nat2Z.id in H. apply H. by intros ? [= <-].
Qed.

Lemma pmem_ok_iflag st f : pmem_ok st -> pmem_ok (set_intr_flag f st).
Proof. intros [? ? ? H]. by split. Qed.

Lemma IS_FREE_set_flag st f q : IS_FREE (set_intr_flag f st) q = IS_FREE st q.
Proof. done. Qed.
Lemma IS_FREE_set_last st l q : IS_FREE (set_last_alloc_idx l st) q = IS_FREE st q.
Proof. done. Qed.
#[local] Hint Rewrite IS_FREE_set_flag IS_FREE_set_last : pages.

Lemma pages_heap_elem st pg :
  0 <= pg < 32 * (bmsize st / 4) -> pg ∈ candidates st MEM_HEAP.
Proof.
  intros H. unfold candidates. change (MEM_HEAP =? MEM_STACK) with false. cbv iota.
  apply elem_of_stride. exists pg. lia.
Qed.

Lemma alloc_ppages_spec fuel st count area :
  pmem_ok st -> bmsize st / 4 + 1 <= Z.of_nat fuel ->
  exists st',
    alloc_ppages fuel st count area = Ok (default (-1) (first_fit st count area), st') /\
    pmem_ok st' /\ iflag st' = iflag st /\ bmsize st' = bmsize st /\
    forall q, 0 <= q ->
      IS_FREE st' q =
      match first_fit st count area with
      | Some p => if decide (p <= q < p + count) then false else IS_FREE st q
      | None => IS_FREE st q
      end.
Proof.
  intros Hok Hf.
  pose proof (scan_first_fit fuel (disable_intr st) count area
    (pmem_ok_iflag _ _ Hok) eq_refl Hf) as Hs.
  assert (first_fit (disable_intr st) count area = first_fit st count area) as Hff.
  { apply find_ext. intros. by apply fits_ext. }
  rewrite Hff in Hs.
  assert (exists last, alloc_ppages fuel st count area =
    Ok (default (-1) (first_fit st count area),
        set_intr_flag (iflag st) (after_alloc (disable_intr st) last (first_fit st count area) count)) /\
    pmem_ok (after_alloc (disable_intr st) last (first_fit st count area) count)) as (last & -> & Hok').
  { unfold alloc_ppages. change (Z.quot (bmsize (disable_intr st) - 1) 4) with (top_word (disable_intr st)).
    destruct (area =? MEM_STACK); destruct Hs as (last & E & H); exists last; by rewrite E. }
  eexists. split; [done|]. split; [by apply pmem_ok_iflag|]. split; [done|].
  destruct (first_fit st count area) as [p|] eqn:Ep; simpl.
  - destruct (mark_pages_fields (set_last_alloc_idx last (disable_intr st)) p (Z.to_nat count) USED) as (-> & _).
    split; [done|]. intros q Hq.
    assert (0 <= p). { apply find_Some_elem in Ep as [Hp _]. exact (candidates_nonneg st area p Hok Hp). }
    rewrite IS_FREE_set_flag, mark_pages_IS_FREE by lia.
    repeat case_decide; try lia; done.
  - split; [done|]. intros q Hq. by apply IS_FREE_ext.
Qed.

(** C28. [alloc_ppages] with fuel for one visit of every bitmap word always
    returns, whatever the area: it implements the abstract first-fit
    allocator. The page it returns is the first candidate (lowest page for
    the heap, highest for the stack) that starts a run of [count] free pages,
    or -1 when there is none; exactly that run becomes used, the interrupt
    flag is restored and the allocator invariant (the search hint included)
    is preserved. *)
Theorem alloc_ppages_first_fit fuel st count area :
  pmem_ok st -> bmsize st / 4 + 1 <= Z.of_nat fuel ->
  exists st',
    alloc_ppages fuel st count area = Ok (default (-1) (first_fit st count area), st') /\
    pmem_ok st' /\ iflag st' = iflag st /\ bmsize st' = bmsize st /\
    forall q, 0 <= q ->
      IS_FREE st' q =
      match first_fit st count area with
      | Some p => if decide (p <= q < p + count) then false else IS_FREE st q
      | None => IS_FREE st q
      end.
Proof. apply alloc_ppages_spec. Qed.

Definition ex_pmem : pmem := mk_pmem {[ 0 := 0xfffffff0; 1 := 0; 2 := 0xffffffff ]} 8 0 true.

Lemma ex_pmem_ok : pmem_ok ex_pmem.
Proof. split; try done. intros p Hp. simpl in Hp. lia. Qed.

Lemma alloc_ppages_first_fit_witness :
  first_fit ex_pmem 5 MEM_HEAP = Some 32 /\
  exists st', alloc_ppages 3 ex_pmem 5 MEM_HEAP = Ok (32, st') /\ IS_FREE st' 32 = false.
Proof.
  split; [by vm_compute|].
  destruct (alloc_ppages_first_fit 3 ex_pmem 5 MEM_HEAP ex_pmem_ok ltac:(done)) as (st' & E & _ & _ & _ & H).
  exists st'. split; [by rewrite E; vm_compute|]. rewrite H by done. by vm_compute.
Defined.

(** Completeness: when [alloc_ppages] fails for the heap, no run of
    [count] free pages starts anywhere in the managed range
    [0, 8 * bmsize). *)
Theorem alloc_ppages_complete fuel st count st' :
  pmem_ok st -> 0 < count -> bmsize st / 4 + 1 <= Z.of_nat fuel ->
  alloc_ppages fuel st count MEM_HEAP = Ok (-1, st') ->
  forall pg, 0 <= pg < 8 * bmsize st ->
  exists q, pg <= q < pg + count /\ IS_FREE st q = false.
Proof.
  intros Hok Hc Hf E pg Hpg.
  destruct (scan_first_fit fuel (disable_intr st) count MEM_HEAP
    (pmem_ok_iflag _ _ Hok) eq_refl Hf) as (last & Es & _).
  unfold alloc_ppages in E. change (MEM_HEAP =? MEM_STACK) with false in E. cbv iota in E.
  rewrite Es in E. simpl in E. injection E as E _.
  destruct (first_fit (disable_intr st) count MEM_HEAP) as [p|] eqn:Ep; simpl in E.
  { apply find_Some_elem in Ep as [Hp _]. apply candidates_nonneg in Hp; [lia|by apply pmem_ok_iflag]. }
  pose proof (find_None_elem _ _ pg Ep) as Hn.
  assert (fits (disable_intr st) count pg = false) as Hfit.
  { apply Hn. apply pages_heap_elem. destruct Hok as [? ? _ _]. simpl. mlia. }
  rewrite (fits_ext _ st) in Hfit by done. unfold fits in Hfit.
  destruct (IS_FREE st pg) eqn:Ef; [|by exists pg; split; [lia|]]. simpl in Hfit.
  destruct (existsb (fun q => negb (IS_FREE st q)) (zseq pg (Z.to_nat count))) eqn:Ex.
  - apply existsb_exists in Ex as (q & Hq%list_elem_of_In & Hq').
    apply elem_of_zseq in Hq. exists q. split; [lia|]. by destruct (IS_FREE st q).
  - exfalso. enough (check_free st pg (Z.to_nat count) = true) by congruence.
    apply check_free_spec. intros q Hq. destruct (IS_FREE st q) eqn:Eq; [done|].
    enough (existsb (fun q => negb (IS_FREE st q)) (zseq pg (Z.to_nat count)) = true) by congruence.
    apply existsb_exists. exists q. rewrite Eq. split; [|done].
    apply list_elem_of_In, elem_of_zseq. lia.
Qed.

Lemma alloc_ppages_complete_witness :
  exists q, 32 <= q < 32 + 33 /\ IS_FREE ex_pmem q = false.
Proof.
  refine (alloc_ppages_complete 3 ex_pmem 33
    (match alloc_ppages 3 ex_pmem 33 MEM_HEAP with Ok (_, s) => s | _ => ex_pmem end)
    ex_pmem_ok _ _ _ 32 _); [lia|by vm_compute|by vm_compute|by vm_compute].
Defined.

Lemma free_ppage_spec st pg :
  pmem_ok st -> 0 <= pg ->
  (IS_FREE st pg = true -> free_ppage st pg = Panic) /\
  (IS_FREE st pg = false ->
   exists st', free_ppage st pg = Ok st' /\ pmem_ok st' /\ iflag st' = iflag st /\
     bmsize st' = bmsize st /\
     forall q, 0 <= q -> IS_FREE st' q = if decide (q = pg) then true else IS_FREE st q).
Proof.
  intros Hok Hpg. unfold free_ppage.
  change (IS_FREE (disable_intr st) pg) with (IS_FREE st pg).
  destruct (IS_FREE st pg) eqn:E; split; intros H; try done.
  set (st1 := mark_page (disable_intr st) pg FREE).
  assert (forall q, 0 <= q -> IS_FREE st1 q = if decide (q = pg) then true else IS_FREE st q) as Hst1.
  { intros q Hq. unfold st1. by rewrite mark_page_IS_FREE by lia. }
  change (last_alloc_idx st1) with (last_alloc_idx st).
  destruct Hok as [Hb Ha Hl Hh].
  assert (BM_IDX pg = pg / 32) as Hidx by (unfold BM_IDX; by rewrite Z.quot_div_nonneg by lia).
  rewrite Hidx.
  assert (forall last, last <= last_alloc_idx st -> last <= pg / 32 -> hint_ok st1 last) as Hh1.
  { intros last H1 H2 q Hq. rewrite Hst1 by lia. case_decide; [mlia|]. apply Hh. lia. }
  destruct (Z.ltb_spec (pg / 32) (last_alloc_idx st)); eexists; (split; [done|]);
    split_and!; try done.
  - split; try done; simpl; [mlia|]. apply (Hh1 (pg / 32)); lia.
  - split; try done. apply (Hh1 (last_alloc_idx st)); lia.
Qed.

Lemma free_loop_spec n st pg :
  pmem_ok st -> 0 <= pg ->
  (forall q, pg <= q < pg + Z.of_nat n -> IS_FREE st q = false) ->
  exists st', free_loop n st pg = Ok st' /\ pmem_ok st' /\ iflag st' = iflag st /\
    bmsize st' = bmsize st /\
    forall q, 0 <= q ->
      IS_FREE st' q = if decide (pg <= q < pg + Z.of_nat n) then true else IS_FREE st q.
Proof.
  revert st pg. induction n as [|n IH]; intros st pg Hok Hpg Hused; cbn [free_loop].
  - exists st. split_and!; try done. intros q _. case_decide; [lia|done].
  - destruct (proj2 (free_ppage_spec st pg Hok Hpg)) as (st1 & E & Hok1 & Hi1 & Hb1 & H1).
    { apply Hused. lia. }
    destruct (IH st1 (pg + 1)) as (st2 & E2 & Hok2 & Hi2 & Hb2 & H2); [done|lia| |].
    { intros q Hq. rewrite H1 by lia. case_decide; [lia|]. apply Hused. lia. }
    exists st2. rewrite E. simpl. split_and!; try done; try congruence.
    intros q Hq. rewrite H2, H1 by lia. repeat case_decide; try lia; done.
Qed.

(** Allocation and release are inverse: after a successful [alloc_ppages]
    of [count] pages, [free_ppages] on the returned run succeeds and gives
    back exactly the free pages of the initial state, with the allocator
    invariant and the interrupt flag intact. *)
Theorem alloc_free_roundtrip fuel st count area p st' :
  pmem_ok st -> 0 <= count -> bmsize st / 4 + 1 <= Z.of_nat fuel ->
  alloc_ppages fuel st count area = Ok (p, st') -> p <> -1 ->
  exists st'', free_ppages st' p count = Ok st'' /\ pmem_ok st'' /\ iflag st'' = iflag st /\
    forall q, 0 <= q -> IS_FREE st'' q = IS_FREE st q.
Proof.
  intros Hok Hc Hf E Hp.
  destruct (alloc_ppages_spec fuel st count area Hok Hf) as (st1 & E1 & Hok1 & Hi1 & Hb1 & H1).
  rewrite E in E1. injection E1 as Ep <-.
  destruct (first_fit st count area) as [p'|] eqn:Ef; simpl in Ep; [subst p'|done].
  apply find_Some_elem in Ef as [Hin Hfit].
  assert (0 <= p) by exact (candidates_nonneg st area p Hok Hin).
  destruct (free_loop_spec (Z.to_nat count) st' p) as (st2 & E2 & Hok2 & Hi2 & Hb2 & H2); [done|done| |].
  { intros q Hq. rewrite H1 by lia. by rewrite decide_True by lia. }
  exists st2. split_and!; [done|done|congruence|].
  intros q Hq. rewrite H2, H1 by lia.
  unfold fits in Hfit. apply andb_prop in Hfit as [_ Hfit].
  rewrite check_free_spec in Hfit.
  repeat case_decide; try lia; try done. symmetry. apply Hfit. lia.
Qed.

Lemma alloc_free_roundtrip_witness :
  exists st'', free_ppages
    (match alloc_ppages 3 ex_pmem 5 MEM_STACK with Ok (_, s) => s | _ => ex_pmem end) 59 5 = Ok st''
    /\ IS_FREE st'' 59 = IS_FREE ex_pmem 59.
Proof.
  refine (let '(ex_intro _ s (conj E (conj _ (conj _ H)))) :=
    alloc_free_roundtrip 3 ex_pmem 5 MEM_STACK 59
      (match alloc_ppages 3 ex_pmem 5 MEM_STACK with Ok (_, s) => s | _ => ex_pmem end)
      ex_pmem_ok _ _ _ _ in ex_intro _ s (conj E (H 59 _))); try lia; by vm_compute.
Defined.

(** The failing path of [alloc_ppage_range] returns without restoring the
    interrupt flag: a caller that runs with interrupts enabled continues with
    interrupts disabled, while the successful path restores them. *)
Theorem alloc_ppage_range_intr st start size :
  iflag (snd (alloc_ppage_range st start size)) =
  if check_free st start (Z.to_nat size) then iflag st else false.
Proof.
  unfold alloc_ppage_range. rewrite (check_free_ext (disable_intr st) st) by done.
  by destruct (check_free st start (Z.to_nat size)).
Qed.

(** ** What [init_mem] makes available *)

(** The bytes of an entry of the memory map: from its start, in whole words, cut
    off at the last word below four gigabytes. *)
Definition region_start (r : mem_range) : Z := r_start r mod 4294967296.
Definition region_end (r : mem_range) : Z :=
  let size := r_size r mod 4294967296 in
  let e := region_start r + (size - size mod 4) in
  if e <? 4294967296 then e else 4294967292.
(** The pages that hold this many bytes. A number so large that adding 4095
    overflows gives no page. *)
Definition pages_for (size : Z) : Z := if size <? 4294963201 then (size + 4095) / 4096 else 0.

(** Pages that an entry makes free, with an image of the kernel that ends at
    [mem_start]: none when the region ends below, and otherwise as many as the
    region has from the page its start is in - or the page the image ends in,
    when the region starts below: it is moved up whole, not cut. *)
Definition range_pages (mem_start : Z) (pg : Z) (r : mem_range) : bool :=
  let first := u32 (Z.max (region_start r) mem_start) / 4096 in
  (mem_start <=? region_end r) && (first <=? pg) &&
  (pg <? first + pages_for (region_end r - region_start r)).

Lemma ADDR_TO_PAGE_range x : 0 <= ADDR_TO_PAGE x < 1048576.
Proof.
  unfold ADDR_TO_PAGE. pose proof (u32_range x).
  rewrite Z.shiftr_div_pow2 by lia. change (2 ^ 12) with 4096. mlia.
Qed.

Lemma ADDR_TO_PAGE_u32 x : ADDR_TO_PAGE x = u32 x / 4096.
Proof. unfold ADDR_TO_PAGE. by rewrite Z.shiftr_div_pow2. Qed.

Lemma pages_for_spec sz : -4 <= sz < 4294967296 -> ADDR_TO_PAGE (u32 (u32 sz + 4095)) = pages_for sz.
Proof.
  intros H. rewrite ADDR_TO_PAGE_u32. unfold pages_for, u32. rewrite Z.mod_mod by done.
  destruct (Z.ltb_spec sz 4294963201); [|mlia]. destruct (Z.ltb_spec sz 0).
  - mlia.
  - rewrite (Z.mod_small sz), Z.mod_small by lia. done.
Qed.

(** What [init_mem] computes of an entry, and its bytes. *)
Lemma clip_range_spec ms r :
  clip_range ms r = if region_end r <? ms then None
    else Some (Z.max (region_start r) ms, u32 (region_end r - region_start r), region_end r).
Proof.
  unfold clip_range, region_end, region_start, u32. set (a := r_start r mod _). set (s := r_size r mod _).
  assert (0 <= a < 4294967296) by (apply Z.mod_pos_bound; done). assert (0 <= s < 4294967296) by (apply Z.mod_pos_bound; done).
  rewrite land_fffffffc by done. set (z := s - s mod 4). assert (0 <= z < 4294967296) by (unfold z; mlia).
  destruct (Z.ltb_spec (a + z) 4294967296) as [Hlt|Hge].
  - rewrite (Z.mod_small (a + z)) by lia. destruct (Z.ltb_spec (a + z) z); [lia|]. replace (a + z - a) with z by lia.
    rewrite (Z.mod_small z) by done. destruct (a + z <? ms); [done|]. destruct (Z.ltb_spec a ms); repeat f_equal; lia.
  - replace ((a + z) mod 4294967296) with (a + z - 4294967296) by mlia. destruct (Z.ltb_spec (a + z - 4294967296) z); [|lia].
    destruct (4294967292 <? ms); [done|]. destruct (Z.ltb_spec a ms); repeat f_equal; lia.
Qed.

Lemma region_size_range r : -4 <= region_end r - region_start r < 4294967296.
Proof.
  unfold region_end, region_start. pose proof (Z.mod_pos_bound (r_start r) 4294967296 eq_refl).
  pose proof (Z.mod_pos_bound (r_size r) 4294967296 eq_refl). set (s := r_size r mod _) in *.
  destruct (Z.ltb_spec (r_start r mod 4294967296 + (s - s mod 4)) 4294967296); mlia.
Qed.

(** Of whole pages behind the image it is these pages. *)
Lemma range_pages_aligned ms a n pg :
  ms <= 4096 * a -> 0 <= a -> 0 <= n < 1048575 -> a + n < 1048576 ->
  range_pages ms pg (mk_range (4096 * a) (4096 * n)) = (a <=? pg) && (pg <? a + n).
Proof.
  intros. unfold range_pages, region_end, region_start, pages_for, u32. cbn [r_start r_size].
  rewrite (Z.mod_small (4096 * a)), (Z.mod_small (4096 * n)) by lia. rewrite Z.max_l, (Z.mod_small (4096 * a)) by lia.
  replace (4096 * n - (4096 * n) mod 4) with (4096 * n) by mlia. zcases; try done; mlia.
Qed.

Lemma add_memory_IS_FREE st start sz q : 0 <= q ->
  IS_FREE (add_memory st start sz) q =
  ((ADDR_TO_PAGE start <=? q) && (q <? ADDR_TO_PAGE start + ADDR_TO_PAGE (u32 (sz + 4095))))
  || IS_FREE st q.
Proof.
  intros Hq. unfold add_memory.
  pose proof (ADDR_TO_PAGE_range start). pose proof (ADDR_TO_PAGE_range (u32 (sz + 4095))).
  rewrite mark_pages_IS_FREE, Z2Nat.id by lia.
  case_decide; zcases; done.
Qed.

Lemma add_ranges_spec ms rs st end_pg :
  0 <= end_pg ->
  let '(st', e) := add_ranges ms rs st end_pg in
  0 <= e /\ last_alloc_idx st' = last_alloc_idx st /\ iflag st' = iflag st /\
  forall q, 0 <= q ->
    IS_FREE st' q = existsb (range_pages ms q) rs || IS_FREE st q.
Proof.
  revert st end_pg. induction rs as [|r rs IH]; intros st end_pg He; cbn [add_ranges existsb]; [done|].
  rewrite clip_range_spec. unfold range_pages at 1. destruct (Z.ltb_spec (region_end r) ms) as [Hlt|Hge].
  { destruct (Z.leb_spec ms (region_end r)); [lia|]. by apply IH. }
  apply Z.leb_le in Hge as ->. cbn [andb]. rewrite <- ADDR_TO_PAGE_u32, <- pages_for_spec by apply region_size_range.
  set (start := Z.max _ ms). set (sz := u32 _). set (fin := region_end r).
  set (e1 := if end_pg <? ADDR_TO_PAGE fin then ADDR_TO_PAGE fin else end_pg).
  assert (0 <= e1) as He1.
  { unfold e1. pose proof (ADDR_TO_PAGE_range fin). destruct (_ <? _); lia. }
  specialize (IH (add_memory st start sz) e1 He1).
  destruct (add_ranges ms rs (add_memory st start sz) e1) as [st' e].
  destruct IH as (? & Hl & Hi & H). split_and!; [done| | |].
  - rewrite Hl. by apply mark_pages_fields.
  - rewrite Hi. by apply mark_pages_fields.
  - intros q Hq. rewrite H, add_memory_IS_FREE by done.
    rewrite orb_assoc. f_equal. apply orb_comm.
Qed.

Lemma fill_used_word st n i :
  0 <= i -> bmword (fill_used st n) i = if decide (i < Z.of_nat n) then 4294967295 else bmword st i.
Proof.
  intros Hi. unfold bmword, fill_used; cbn [bitmap].
  assert (forall a, a <= i ->
    foldr (fun i m => <[i := 4294967295]> m) (bitmap st) (zseq a n) !! i =
    if decide (i < a + Z.of_nat n) then Some 4294967295 else bitmap st !! i) as H.
  { induction n as [|n IH]; intros a Ha; cbn [zseq foldr].
    - case_decide; [lia|done].
    - destruct (decide (a = i)) as [->|].
      + rewrite lookup_insert_eq. case_decide; [done|lia].
      + rewrite lookup_insert_ne, IH by lia. repeat case_decide; try lia; done. }
  rewrite H by lia. repeat case_decide; try lia; done.
Qed.

Lemma fill_used_IS_FREE st n q :
  0 <= q < 32 * Z.of_nat n -> IS_FREE (fill_used st n) q = false.
Proof.
  intros Hq. apply full_word_IS_FREE; [lia|].
  rewrite fill_used_word by mlia. rewrite decide_True by mlia. done.
Qed.

Lemma init_mem_pages ms rs n st :
  ((n <= 0 \/ 16 < n) -> init_mem ms rs n st = Panic) /\
  (0 < n <= 16 ->
   exists st', init_mem ms rs n st = Ok st' /\ pmem_ok st' /\ iflag st' = iflag st /\
     forall pg, 0 <= pg < 1048576 ->
       IS_FREE st' pg =
       existsb (range_pages ms pg) (take (Z.to_nat n) rs) &&
       (ADDR_TO_PAGE (u32 (ms + bmsize st' - 1)) <? pg)).
Proof.
  unfold init_mem, MAX_MAP_SIZE. split; intros Hn.
  - destruct (Z.leb_spec n 0); [done|]. destruct (Z.ltb_spec 16 n); [done|lia].
  - destruct (Z.leb_spec n 0); [lia|]. destruct (Z.ltb_spec 16 n); [lia|]. cbn [orb].
    set (st0 := fill_used (set_last_alloc_idx 0 st) (Z.to_nat bitmap_words)).
    pose proof (add_ranges_spec ms (take (Z.to_nat n) rs) st0 0 ltac:(lia)) as Hadd.
    destruct (add_ranges ms (take (Z.to_nat n) rs) st0 0) as [st1 e].
    destruct Hadd as (He & Hl & Hi & Hfree).
    set (mx := ADDR_TO_PAGE (u32 (ms + bmsize (set_bmsize (Z.quot e 32 * 4) st1) - 1))).
    destruct (mark_pages_fields (set_bmsize (Z.quot e 32 * 4) st1) 0 (Z.to_nat (mx + 1)) USED)
      as (Hf1 & Hf2 & Hf3).
    eexists. split; [reflexivity|].
    assert (last_alloc_idx st1 = 0) as Hl0 by exact Hl.
    assert (0 <= mx) by apply ADDR_TO_PAGE_range.
    split_and!.
    + split; rewrite ?Hf1, ?Hf2; cbn [bmsize last_alloc_idx set_bmsize]; rewrite ?Hl0;
        rewrite ?Z.quot_div_nonneg by lia; try mlia.
      intros q Hq. lia.
    + rewrite Hf3. cbn. rewrite Hi. done.
    + intros pg Hpg. rewrite Hf1. fold mx. rewrite mark_pages_IS_FREE by lia.
      change (IS_FREE (set_bmsize (Z.quot e 32 * 4) st1) pg) with (IS_FREE st1 pg).
      rewrite Hfree by lia. unfold st0.
      rewrite fill_used_IS_FREE by (change bitmap_words with 32768; lia).
      rewrite orb_false_r. case_decide as Hd; zcase; try lia.
      * by rewrite andb_false_r.
      * by rewrite andb_true_r.
Qed.

(** Initialisation. With a memory map of 1 to 16 entries [init_mem]
    succeeds in a well-formed allocator state in which a page is free exactly
    when some entry of the map adds it and it lies above the kernel image and
    the bitmap; with any other map size it panics. *)
Theorem init_mem_spec ms rs n st :
  ((n <= 0 \/ 16 < n) -> init_mem ms rs n st = Panic) /\
  (0 < n <= 16 ->
   exists st', init_mem ms rs n st = Ok st' /\ pmem_ok st' /\ iflag st' = iflag st /\
     forall pg, 0 <= pg < 1048576 ->
       IS_FREE st' pg =
       existsb (range_pages ms pg) (take (Z.to_nat n) rs) &&
       (ADDR_TO_PAGE (u32 (ms + bmsize st' - 1)) <? pg)).
Proof. apply init_mem_pages. Qed.

Lemma ADDR_TO_PAGE_div x : 0 <= x < 4294967296 -> ADDR_TO_PAGE x = x / 4096.
Proof.
  intros H. unfold ADDR_TO_PAGE. rewrite u32_small, Z.shiftr_div_pow2 by lia. done.
Qed.

(** A region of page-aligned RAM that starts below the end of the kernel
    image, and how [clip_range] treats it. *)
Lemma clip_range_straddle ms a b :
  0 < a -> 4096 * a < ms -> ms <= 4096 * (a + b) -> 4096 * (a + b) < 4294967296 -> 0 < b ->
  clip_range ms (mk_range (4096 * a) (4096 * b)) = Some (ms, 4096 * b, 4096 * (a + b)).
Proof.
  intros. unfold clip_range; cbn [r_start r_size].
  rewrite (u32_small (4096 * a)), (u32_small (4096 * b)), land_fffffffc by mlia.
  replace ((4096 * b) mod 4) with 0 by mlia. rewrite Z.sub_0_r.
  replace (4096 * a + 4096 * b) with (4096 * (a + b)) by lia. rewrite u32_small by lia.
  destruct (Z.ltb_spec (4096 * (a + b)) (4096 * b)); [lia|].
  destruct (Z.ltb_spec (4096 * (a + b)) ms); [lia|].
  destruct (Z.ltb_spec (4096 * a) ms); [done|lia].
Qed.

Lemma init_mem_bmsize a b c st st' :
  0 < a < c -> c < a + b -> a + b <= 1048575 ->
  init_mem (4096 * c) [mk_range (4096 * a) (4096 * b)] 1 st = Ok st' ->
  bmsize st' = Z.quot (a + b) 32 * 4.
Proof.
  intros Ha Hc Hb E. unfold init_mem in E.
  change ((1 <=? 0) || (MAX_MAP_SIZE <? 1)) with false in E. cbv iota in E.
  change (Z.to_nat 1) with 1%nat in E. cbn [take add_ranges] in E.
  rewrite clip_range_straddle in E by lia. cbn [add_ranges] in E.
  rewrite (ADDR_TO_PAGE_div (4096 * (a + b))) in E by lia.
  replace (4096 * (a + b) / 4096) with (a + b) in E by mlia.
  destruct (Z.ltb_spec 0 (a + b)); [|lia]. injection E as <-.
  by rewrite (proj1 (mark_pages_fields _ _ _ _)).
Qed.

(** A RAM region that starts below the end of the kernel image is clipped
    at its start only: [init_mem] moves [start] up to [mem_start] and keeps
    the full size, so the pages following the end of the region - which are
    no RAM - become free. Here the map is one region of pages [a, a+b) with
    the kernel ending at page [c] inside it: page [a+b] is free afterwards. *)
Theorem init_mem_frees_past_region a b c st :
  0 < a < c -> c + 32 < a + b -> c + b <= 1048575 ->
  exists st', init_mem (4096 * c) [mk_range (4096 * a) (4096 * b)] 1 st = Ok st' /\
    IS_FREE st' (a + b) = true.
Proof.
  intros Ha Hc Hb.
  destruct (proj2 (init_mem_pages (4096 * c) [mk_range (4096 * a) (4096 * b)] 1 st) ltac:(lia))
    as (st' & E & _ & _ & H).
  exists st'. split; [done|]. rewrite H by lia. cbn [take existsb].
  change (Z.to_nat 1) with 1%nat. cbn [take existsb]. rewrite orb_false_r.
  rewrite (init_mem_bmsize a b c st st'), Z.quot_div_nonneg by (done || lia).
  rewrite ADDR_TO_PAGE_div by (rewrite ?u32_small; mlia). rewrite u32_small by mlia.
  unfold range_pages, region_end, region_start, pages_for, u32. cbn [r_start r_size].
  rewrite (Z.mod_small (4096 * a)), (Z.mod_small (4096 * b)) by lia. rewrite Z.max_r, (Z.mod_small (4096 * c)) by lia.
  replace (4096 * b - (4096 * b) mod 4) with (4096 * b) by mlia. zcases; try done; mlia.
Qed.

Lemma init_mem_frees_past_region_witness :
  exists st', init_mem 0x200000 [mk_range 0x100000 0x400000] 1 ex_pmem = Ok st' /\
    IS_FREE st' 0x500 = true.
Proof. apply (init_mem_frees_past_region 0x100 0x400 0x200 ex_pmem); lia. Defined.

Lemma init_mem_spec_witness :
  exists st', init_mem (4096 * 0x200) [mk_range (4096 * 0x100) (4096 * 0x400)] 1 ex_pmem = Ok st' /\
    IS_FREE st' 0x300 = true.
Proof.
  destruct (proj2 (init_mem_spec (4096 * 0x200) [mk_range (4096 * 0x100) (4096 * 0x400)] 1 ex_pmem) ltac:(lia))
    as (st' & E & _ & _ & H).
  exists st'. split; [exact E|]. rewrite H by lia.
  by rewrite (init_mem_bmsize 0x100 0x400 0x200 ex_pmem st') by (exact E || lia).
Defined.
