(* ===== verification/PageAlloc.v ===== *)
(** * What the heap relies on from the page allocator

    [PageAlloc] is the interface [malloc] uses (src/mem.h), [PageAllocSpec]
    states what it promises, and the instance shows that the bitmap allocator
    of Mem keeps the promise. *)
From S2P Require Import Prelude Mem.

(** Operations on a state [P] of physical pages. *)
Class PageAlloc (P : Type) := {
  pa_alloc : P -> Z -> Z -> res (Z * P);
  pa_free : P -> Z -> bool
}.

Class PageAllocSpec (P : Type) `{PageAlloc P} := {
  pa_ok : P -> Prop;
  pa_alloc_total : forall p count area, pa_ok p -> 0 < count ->
    exists r p', pa_alloc p count area = Ok (r, p') /\ pa_ok p' /\
      ((r = -1 /\ forall q, 0 <= q -> pa_free p' q = pa_free p q) \/
       (0 <= r /\ r + count <= 1048575 /\ (forall q, r <= q < r + count -> pa_free p q = true) /\
        forall q, 0 <= q ->
          pa_free p' q = if decide (r <= q < r + count) then false else pa_free p q))
}.

(** Fuel for one visit of every word of the bitmap. *)
Definition words_fuel (st : pmem) : nat := Z.to_nat (bmsize st / 4 + 1).

#[export] Instance pmem_alloc : PageAlloc pmem := {
  pa_alloc st count area := alloc_ppages (words_fuel st) st count area;
  pa_free st q := IS_FREE st q
}.

Lemma fits_run st count p :
  fits st count p = true -> forall q, p <= q < p + count -> IS_FREE st q = true.
Proof.
  intros H q Hq. apply andb_prop in H as [_ H]. rewrite check_free_spec in H. apply H. lia.
Qed.

(** The bitmap is searched without a bound, so the last page of the
    address space must read as used for a run never to reach it. *)
Definition bounded (st : pmem) : Prop :=
  pmem_ok st /\ bmsize st <= 131072 /\ IS_FREE st 1048575 = false.

Lemma candidates_bound st area p :
  pmem_ok st -> bmsize st <= 131072 -> p ∈ candidates st area -> p < 1048576.
Proof.
  intros Hok Hb. pose proof (top_word_range st Hok) as Ht. destruct Hok.
  assert (bmsize st / 4 <= 32768) by mlia.
  unfold candidates, first_page.
  destruct (area =? MEM_STACK); intros (k & Hk & ->)%elem_of_stride; simpl.
  - unfold top_word in *. assert (Z.quot (bmsize st - 1) 4 <= 32767).
    { destruct (decide (bmsize st = 0)) as [->|]; [done|].
      rewrite Z.quot_div_nonneg by lia. mlia. }
    lia.
  - lia.
Qed.

#[export] Program Instance pmem_alloc_spec : PageAllocSpec pmem := {
  pa_ok := bounded
}.
Next Obligation.
  intros st count area (Hok & Hb & Hl) Hc.
  destruct (alloc_ppages_spec (words_fuel st) st count area Hok) as (st' & E & Hok' & _ & Hs & H).
  { unfold words_fuel. destruct Hok. mlia. }
  eexists _, st'. split; [exact E|].
  destruct (first_fit st count area) as [p|] eqn:Ep; simpl in *.
  - apply find_Some_elem in Ep as [Hin Hfit].
    pose proof (candidates_nonneg st area p Hok Hin).
    pose proof (candidates_bound st area p Hok Hb Hin).
    pose proof (fits_run _ _ _ Hfit) as Hrun.
    assert (p + count <= 1048575).
    { apply Z.nlt_ge. intros Hlt. rewrite Hrun in Hl by lia. done. }
    split; [|right; by split_and!].
    split_and!; [done|lia|]. rewrite H by lia. by case_decide.
  - split; [|by left]. split_and!; [done|lia|]. by rewrite H by lia.
Qed.
