(* ===== verification/Malloc.v ===== *)
(** * The heap (src/libc/malloc.c, single pool)

    [hmem] is the byte memory in which the block descriptors live; [pool] is
    the head of the free list, 0 when empty. A descriptor at [b] holds the
    block size at [b], the magic at [b + 4] and the [next] pointer at
    [b + 8]. Searching the list keeps a pointer to the previous link: [None]
    is the [dummy] descriptor on the stack, whose [next] field is passed
    along. Loops over the list take fuel; more than the number of free
    blocks is enough. *)
From S2P Require Import Prelude Memory Str Mem PageAlloc.

Definition MAGIC_USED : Z := 0xdeadf00d.
Definition MAGIC_FREE : Z := 0x1ee7d00d.
Definition DESC_SIZE : Z := 12.
Definition MIN_BLOCK_SIZE : Z := DESC_SIZE * 2.
Definition ENOMEM : Z := 6.

Definition DESC_PTR (b : Z) : Z := u32 (b + DESC_SIZE).
Definition PTR_DESC (p : Z) : Z := u32 (p - DESC_SIZE).

Definition d_size (m : gmap Z Z) (b : Z) : Z := ld32 m b.
Definition d_magic (m : gmap Z Z) (b : Z) : Z := ld32 m (b + 4).
Definition d_next (m : gmap Z Z) (b : Z) : Z := ld32 m (b + 8).
Definition set_size (m : gmap Z Z) (b v : Z) : gmap Z Z := st32 m b v.
Definition set_magic (m : gmap Z Z) (b v : Z) : gmap Z Z := st32 m (b + 4) v.
Definition set_next (m : gmap Z Z) (b v : Z) : gmap Z Z := st32 m (b + 8) v.

(** [prev->next], with [dummy.next] = [d]. *)
Definition link_get (m : gmap Z Z) (d : Z) (prev : option Z) : Z :=
  match prev with None => d | Some p => d_next m p end.
Definition link_set (m : gmap Z Z) (d : Z) (prev : option Z) (v : Z) : gmap Z Z * Z :=
  match prev with None => (m, v) | Some p => (set_next m p v, d) end.

Section heap.
Context {P : Type} `{PageAlloc P}.

Record heap := mk_heap { hmem : gmap Z Z; pool : Z; pages : P; errno : Z }.

(** The [while(prev->next)] loop of [malloc]: the block found, if any. *)
Fixpoint malloc_scan (fuel : nat) (m : gmap Z Z) (d : Z) (prev : option Z) (total_sz : Z)
  : res (option Z * gmap Z Z * Z) :=
  let mem := link_get m d prev in
  if mem =? 0 then Ok (None, m, d) else
  match fuel with
  | O => NoFuel
  | S fuel =>
      if (total_sz <=? d_size m mem) && (d_size m mem <? u32 (total_sz + MIN_BLOCK_SIZE)) then
        let '(m, d) := link_set m d prev (d_next m mem) in Ok (Some mem, m, d)
      else if total_sz <? d_size m mem then
        let ptr := u32 (mem + d_size m mem - total_sz) in
        Ok (Some ptr, set_size m mem (u32 (d_size m mem - total_sz)), d)
      else malloc_scan fuel m d (Some mem) total_sz
  end.

(** The [while(prev->next)] loop of [free] for the block [mem], and the
    append that follows it. *)
Fixpoint free_scan (fuel : nat) (m : gmap Z Z) (d : Z) (prev : option Z) (mem fin : Z)
  : res (gmap Z Z * Z) :=
  let cur := link_get m d prev in
  if cur =? 0 then
    match prev with
    | None => Fault
    | Some p =>
        if u32 (p + d_size m p) =? mem then
          let m := set_magic m mem 0 in
          Ok (set_size m p (u32 (d_size m p + d_size m mem)), d)
        else Ok (link_set m d prev mem)
    end
  else
  match fuel with
  | O => NoFuel
  | S fuel =>
      if cur =? fin then
        let m := set_size m mem (u32 (d_size m mem + d_size m cur)) in
        let m := set_next m mem (d_next m cur) in
        let m := set_magic m cur 0 in
        Ok (link_set m d prev mem)
      else if fin <? cur then
        let m := set_next m mem cur in
        Ok (link_set m d prev mem)
      else free_scan fuel m d (Some cur) mem fin
  end.

Definition free (fuel : nat) (h : heap) (p : Z) : res heap :=
  if p =? 0 then Ok h else
  let mem := PTR_DESC p in
  if negb (d_magic (hmem h) mem =? MAGIC_USED) then Panic else
  let m := set_magic (hmem h) mem MAGIC_FREE in
  let m := set_next m mem 0 in
  if pool h =? 0 then Ok (mk_heap m mem (pages h) (errno h)) else
  let fin := u32 (mem + d_size m mem) in
  '(m, d) ← free_scan fuel m (pool h) None mem fin;
  Ok (mk_heap m d (pages h) (errno h)).

(** The descriptor of a block handed out. *)
Definition init_desc (m : gmap Z Z) (mem size : Z) : gmap Z Z :=
  set_next (set_magic (set_size m mem size) mem MAGIC_USED) mem 0.

Definition malloc (fuel : nat) (h : heap) (sz : Z) : res (Z * heap) :=
  let total_sz := Z.land (u32 (sz + DESC_SIZE + 3)) 0xfffffffc in
  '(found, m, d) ← malloc_scan fuel (hmem h) (pool h) None total_sz;
  match found with
  | Some mem => Ok (DESC_PTR mem, mk_heap (init_desc m mem total_sz) d (pages h) (errno h))
  | None =>
      let npages := BYTES_TO_PAGES total_sz in
      '(pg0, pg') ← pa_alloc (pages h) npages 0;
      if pg0 =? -1 then Ok (0, mk_heap m d pg' ENOMEM) else
      let mem := PAGE_TO_ADDR pg0 in
      let m := set_magic (set_next (set_size m mem total_sz) mem 0) mem MAGIC_USED in
      let rest_sz := u32 (npages * 4096 - total_sz) in
      if 0 <? rest_sz then
        let rest := u32 (mem + total_sz) in
        let m := set_magic (set_next (set_size m rest rest_sz) rest 0) rest MAGIC_USED in
        h ← free fuel (mk_heap m d pg' (errno h)) (DESC_PTR rest);
        Ok (DESC_PTR mem, h)
      else Ok (DESC_PTR mem, mk_heap m d pg' (errno h))
  end.

Definition calloc (fuel : nat) (h : heap) (num size : Z) : res (Z * heap) :=
  '(ptr, h) ← malloc fuel h (u32 (num * size));
  if ptr =? 0 then Ok (ptr, h) else
  Ok (ptr, mk_heap (memset (hmem h) ptr 0 (u32 (num * size))) (pool h) (pages h) (errno h)).

Definition realloc (fuel : nat) (h : heap) (ptr size : Z) : res (Z * heap) :=
  if ptr =? 0 then malloc fuel h size else
  let mem := PTR_DESC ptr in
  if size <=? d_size (hmem h) mem then Ok (ptr, h) else
  '(newp, h) ← malloc fuel h size;
  if newp =? 0 then Ok (0, h) else
  let h := mk_heap (memcpy (hmem h) newp ptr (d_size (hmem h) mem)) (pool h) (pages h) (errno h) in
  h ← free fuel h ptr;
  Ok (newp, h).

End heap.
Arguments heap P : clear implicits.

(** ** Free lists as lists of blocks *)

(** A block: address of its descriptor and size, descriptor included. *)
Notation block := (Z * Z)%type.

(** The descriptors reachable from [p] are those of [l], in order. *)
Fixpoint chain (m : gmap Z Z) (p : Z) (l : list block) : Prop :=
  match l with
  | [] => p = 0
  | (a, s) :: l =>
      p = a /\ a <> 0 /\ d_size m a = s /\ d_magic m a = MAGIC_FREE /\ chain m (d_next m a) l
  end.

(** Sorted by address, disjoint, each large enough for a descriptor. *)
Fixpoint blocks (lo hi : Z) (l : list block) : Prop :=
  match l with
  | [] => True
  | (a, s) :: l => lo <= a /\ 12 <= s /\ a + s <= hi /\ blocks (a + s) hi l
  end.

Definition disj (b c : block) : Prop := b.1 + b.2 <= c.1 \/ c.1 + c.2 <= b.1.
Definition covers (l : list block) (x : Z) : Prop :=
  exists b, b ∈ l /\ b.1 <= x < b.1 + b.2.

(** First fit: the block taken and the list that is left. *)
Fixpoint take_block (total : Z) (l : list block) : option (Z * list block) :=
  match l with
  | [] => None
  | (a, s) :: l =>
      if (total <=? s) && (s <? total + 24) then Some (a, l)
      else if total <? s then Some (a + s - total, (a, s - total) :: l)
      else '(b, l) ← take_block total l; Some (b, (a, s) :: l)
  end.

(** Insertion in address order behind the block [(p, t)]; the block is merged
    with the one that follows it, and with the last one it follows. *)
Fixpoint put_after (p t a s : Z) (l : list block) : list block :=
  match l with
  | [] => if p + t =? a then [(p, t + s)] else [(p, t); (a, s)]
  | (c, u) :: l =>
      if c =? a + s then (p, t) :: (a, s + u) :: l
      else if a + s <? c then (p, t) :: (a, s) :: (c, u) :: l
      else (p, t) :: put_after c u a s l
  end.

Definition put_block (a s : Z) (l : list block) : list block :=
  match l with
  | [] => [(a, s)]
  | (c, u) :: l =>
      if c =? a + s then (a, s + u) :: l
      else if a + s <? c then (a, s) :: (c, u) :: l
      else put_after c u a s l
  end.

Lemma blocks_elem lo hi l b :
  blocks lo hi l -> b ∈ l -> lo <= b.1 /\ 12 <= b.2 /\ b.1 + b.2 <= hi.
Proof.
  revert lo. induction l as [|[a s] l IH]; intros lo; [set_solver|].
  intros (? & ? & ? & Hl) [-> |Hb]%elem_of_cons; [done|].
  destruct (IH _ Hl Hb). simpl in *. lia.
Qed.

Lemma blocks_weaken lo lo' hi l : blocks lo hi l -> lo' <= lo -> blocks lo' hi l.
Proof. destruct l as [|[a s] l]; simpl; [done|]. intros (? & ? & ? & ?) ?. split_and!; (done || lia). Qed.

Lemma chain_agree m m' p l :
  chain m p l ->
  (forall b x, b ∈ l -> b.1 <= x < b.1 + 12 -> ld8 m' x = ld8 m x) ->
  chain m' p l.
Proof.
  revert p. induction l as [|[a s] l IH]; intros p; simpl; [done|].
  intros (-> & Ha & Hs & Hm & Hc) Hx.
  assert (forall o, 0 <= o <= 8 -> ld32 m' (a + o) = ld32 m (a + o)) as Hw.
  { intros o Ho. apply ld32_ext. intros x Hx'. apply (Hx (a, s)); [set_solver|]. simpl. lia. }
  pose proof (Hw 0 ltac:(lia)) as H0. rewrite Z.add_0_r in H0.
  unfold d_size, d_magic, d_next in *. rewrite H0, !Hw by lia.
  split_and!; try done. apply IH; [done|]. intros b x Hb. apply Hx. set_solver.
Qed.

Lemma chain_nonzero m p l b : chain m p l -> b ∈ l -> b.1 <> 0.
Proof.
  revert p. induction l as [|[a s] l IH]; intros p; simpl; [set_solver|].
  intros (_ & Ha & _ & _ & Hc) [-> |Hb]%elem_of_cons; [done|]. by eapply IH.
Qed.

(** Memory is unchanged outside the descriptors of [l]. *)
Definition same_but (l : list block) (m m' : gmap Z Z) : Prop :=
  forall x, (forall b, b ∈ l -> ~ b.1 <= x < b.1 + 12) -> ld8 m' x = ld8 m x.

(** [desc] evaluates descriptor fields of an updated memory, [tail_chain H]
    carries the chain [H] over to it. *)
Ltac desc :=
  unfold d_size, d_magic, d_next, set_size, set_magic, set_next, MAGIC_USED, MAGIC_FREE in *;
  repeat match goal with
  | |- context [ld32 (st32 ?m ?a ?v) ?b] =>
      first [rewrite (ld32_st32_eq m a v) by first [lia | apply ld32_range] | rewrite (ld32_st32_ne m a v b) by lia]
  | |- context [ld8 (st32 ?m ?a ?v) ?b] => rewrite (ld8_st32_ne m a v b) by lia
  | E : ld32 ?m ?a = _ |- context [ld32 ?m ?a] => rewrite E
  | |- context [u32 ?x] => rewrite (u32_small x) by lia
  end.
Ltac tail_chain H :=
  eapply chain_agree; [exact H|];
  let b := fresh "b" in let x := fresh "x" in let Hb := fresh "Hb" in
  intros b x Hb ?;
  repeat match goal with
  | Hl : blocks _ _ ?l |- _ => pose proof (blocks_elem _ _ _ _ Hl Hb); clear Hl
  | Hd : forall c, c ∈ ?l -> disj _ c |- _ =>
      let Hb' := fresh in pose proof (Hd b Hb) as Hb'; unfold disj in Hb'; simpl in Hb'; clear Hd
  end;
  desc; try done.

Lemma put_after_blocks lo hi p t a s l :
  lo <= p -> 12 <= t -> 12 <= s -> p + t <= a -> a + s <= hi -> blocks (p + t) hi l ->
  (forall b, b ∈ l -> disj (a, s) b) -> blocks lo hi (put_after p t a s l).
Proof.
  revert lo p t. induction l as [|[c u] l IH]; intros lo p t H1 H2 H3 H4 H5 Hl Hd; simpl.
  - destruct (Z.eqb_spec (p + t) a); simpl; split_and!; (done || lia).
  - destruct Hl as (? & ? & ? & Hl).
    destruct (Hd (c, u)) as [?|?]; [set_solver| |]; simpl in *.
    + destruct (Z.eqb_spec c (a + s)); simpl.
      { split_and!; try lia. replace (a + (s + u)) with (c + u) by lia. done. }
      destruct (Z.ltb_spec (a + s) c); [|lia]. simpl. split_and!; (done || lia).
    + destruct (Z.eqb_spec c (a + s)); [lia|]. destruct (Z.ltb_spec (a + s) c); [lia|]. simpl.
      split_and!; try lia. apply IH; try done; try lia. intros b Hb. apply Hd. set_solver.
Qed.

Lemma put_block_blocks lo hi a s l :
  lo <= a -> 12 <= s -> a + s <= hi -> blocks lo hi l ->
  (forall b, b ∈ l -> disj (a, s) b) -> blocks lo hi (put_block a s l).
Proof.
  destruct l as [|[c u] l]; simpl; intros H1 H2 H3 Hl Hd; [done|].
  destruct Hl as (? & ? & ? & Hl).
  destruct (Hd (c, u)) as [?|?]; [set_solver| |]; simpl in *.
  - destruct (Z.eqb_spec c (a + s)); simpl.
    { split_and!; try lia. replace (a + (s + u)) with (c + u) by lia. done. }
    destruct (Z.ltb_spec (a + s) c); [|lia]. simpl. split_and!; (done || lia).
  - destruct (Z.eqb_spec c (a + s)); [lia|]. destruct (Z.ltb_spec (a + s) c); [lia|].
    apply put_after_blocks; try done; try lia. intros b Hb. apply Hd. set_solver.
Qed.

Lemma covers_cons b l x : covers (b :: l) x <-> b.1 <= x < b.1 + b.2 \/ covers l x.
Proof.
  unfold covers. split.
  - intros (c & [-> |Hc]%elem_of_cons & Hx); eauto.
  - intros [Hx|(c & Hc & Hx)]; [exists b | exists c]; split; try done; set_solver.
Qed.
Lemma covers_nil x : ~ covers [] x.
Proof. intros (b & Hb & _). set_solver. Qed.

Lemma put_after_covers p t a s l x :
  0 <= t -> 0 <= s -> (forall b, b ∈ l -> 0 <= b.2) ->
  covers (put_after p t a s l) x <-> covers ((p, t) :: (a, s) :: l) x.
Proof.
  revert p t. induction l as [|[c u] l IH]; intros p t Ht Hs Hl; simpl.
  - destruct (Z.eqb_spec (p + t) a); [|done]. rewrite !covers_cons. simpl.
    pose proof (covers_nil x). naive_solver lia.
  - assert (0 <= u) by (apply (Hl (c, u)); set_solver).
    destruct (Z.eqb_spec c (a + s)); [|destruct (Z.ltb_spec (a + s) c); [done|]].
    + rewrite !covers_cons. simpl. naive_solver lia.
    + rewrite covers_cons, IH by (first [lia | intros b Hb; apply Hl; set_solver]).
      rewrite !covers_cons. naive_solver.
Qed.

Lemma put_block_covers a s l x :
  0 <= s -> (forall b, b ∈ l -> 0 <= b.2) ->
  covers (put_block a s l) x <-> covers ((a, s) :: l) x.
Proof.
  destruct l as [|[c u] l]; simpl; intros Hs Hl; [done|].
  assert (0 <= u) by (apply (Hl (c, u)); set_solver).
  destruct (Z.eqb_spec c (a + s)); [|destruct (Z.ltb_spec (a + s) c); [done|]].
  - rewrite !covers_cons. simpl. naive_solver lia.
  - rewrite put_after_covers by (first [lia | intros b Hb; apply Hl; set_solver]).
    rewrite !covers_cons. naive_solver.
Qed.

(** ** The loops compute the list functions *)

Lemma free_scan_after fuel m d p t a s l hi :
  chain m p ((p, t) :: l) -> blocks (p + t) hi l -> hi <= 4294967296 ->
  0 <= p -> 12 <= t -> 12 <= s -> p + t <= a -> a + s < hi -> a <> 0 ->
  (forall b, b ∈ l -> disj (a, s) b) ->
  d_size m a = s -> d_magic m a = MAGIC_FREE -> d_next m a = 0 ->
  (length l <= fuel)%nat ->
  exists m', free_scan fuel m d (Some p) a (a + s) = Ok (m', d) /\
    chain m' p (put_after p t a s l) /\
    same_but ((p, t) :: (a, s) :: l) m m' /\ d_magic m' a <> MAGIC_USED.
Proof.
  revert fuel m p t. induction l as [|[c u] l IH]; intros fuel m p t
    (_ & Hp0 & Hps & Hpm & Hpn) Hbl Hhi Hp Ht Hs Hpa Ha Ha0 Hd Has Ham Han Hf.
  - destruct fuel as [|fuel]; simpl; simpl in Hpn; rewrite Hpn; simpl;
      rewrite Hps, u32_small by lia;
      (destruct (Z.eqb_spec (p + t) a) as [E|E]; eexists; (split; [reflexivity|]));
      (split_and!; [simpl; split_and!|intros x Hx|]);
      try (pose proof (Hx (p, t) ltac:(set_solver)); pose proof (Hx (a, s) ltac:(set_solver)));
      simpl in *; desc; done.
  - destruct Hbl as (? & ? & ? & Hbl). destruct Hpn as (Hpc & Hc0 & Hcs & Hcm & Hc).
    pose proof (Hd (c, u) ltac:(set_solver)) as Hdc. unfold disj in Hdc. simpl in Hdc.
    assert (forall b, b ∈ l -> disj (a, s) b) as Hd' by (intros b Hb; apply Hd; set_solver).
    destruct fuel as [|fuel]; [simpl in Hf; lia|].
    cbn [free_scan put_after link_get link_set]. rewrite Hpc.
    destruct (Z.eqb_spec c 0); [done|].
    destruct (Z.eqb_spec c (a + s)) as [->|]; [|destruct (Z.ltb_spec (a + s) c)].
    + eexists. split; [reflexivity|]. split_and!; [simpl; split_and!|intros x Hx|].
      all: try (pose proof (Hx (p, t) ltac:(set_solver)); pose proof (Hx (a, s) ltac:(set_solver));
        pose proof (Hx (a + s, u) ltac:(set_solver))); simpl in *; desc; try done; try lia.
      all: tail_chain Hc.
    + eexists. split; [reflexivity|]. split_and!; [simpl; split_and!|intros x Hx|].
      all: try (pose proof (Hx (p, t) ltac:(set_solver)); pose proof (Hx (a, s) ltac:(set_solver)));
        simpl in *; desc; try done.
      all: tail_chain Hc.
    + simpl in Hf. destruct (IH fuel m c u) as (m' & E & Hch & Hsb & Hmg); try done; try lia.
      eexists. split; [exact E|]. split_and!; [|intros x Hx; apply Hsb; intros b Hb; apply Hx; set_solver|done].
      assert (forall x, p <= x < p + 12 -> ld8 m' x = ld8 m x) as Hpx.
      { intros x Hx. apply Hsb. intros b Hb.
        assert (b = (c, u) \/ b = (a, s) \/ b ∈ l) as [-> |[-> |Hb']] by set_solver; simpl; try lia.
        pose proof (blocks_elem _ _ _ _ Hbl Hb'). lia. }
      simpl. split_and!; try done.
      * unfold d_size in *. rewrite <- Hps. apply ld32_ext. intros. apply Hpx. lia.
      * unfold d_magic in *. rewrite <- Hpm. apply ld32_ext. intros. apply Hpx. lia.
      * replace (d_next m' p) with c; [done|]. unfold d_next in *. rewrite <- Hpc.
        symmetry. apply ld32_ext. intros. apply Hpx. lia.
Qed.

(** [free] on a block that is disjoint from the free ones. *)
Lemma free_scan_spec fuel m d a s l hi :
  chain m d l -> l <> [] -> blocks 0 hi l -> hi <= 4294967296 ->
  0 < a -> 12 <= s -> a + s < hi ->
  (forall b, b ∈ l -> disj (a, s) b) ->
  d_size m a = s -> d_magic m a = MAGIC_FREE -> d_next m a = 0 ->
  (length l <= fuel)%nat ->
  exists m' d', free_scan fuel m d None a (a + s) = Ok (m', d') /\
    chain m' d' (put_block a s l) /\
    same_but ((a, s) :: l) m m' /\ d_magic m' a <> MAGIC_USED.
Proof.
  destruct l as [|[c u] l]; [done|].
  intros Hch _ (? & ? & ? & Hbl) Hhi Ha Hs Hah Hd Has Ham Han Hf.
  pose proof Hch as (-> & Hc0 & Hcs & Hcm & Hc).
  pose proof (Hd (c, u) ltac:(set_solver)) as Hdc. unfold disj in Hdc. simpl in Hdc.
  assert (forall b, b ∈ l -> disj (a, s) b) as Hd' by (intros b Hb; apply Hd; set_solver).
  destruct fuel as [|fuel]; [simpl in Hf; lia|].
  cbn [free_scan put_block link_get link_set].
  destruct (Z.eqb_spec c 0); [done|].
  destruct (Z.eqb_spec c (a + s)) as [->|]; [|destruct (Z.ltb_spec (a + s) c)].
  - eexists _, _. split; [reflexivity|]. split_and!; [simpl; split_and!|intros x Hx|].
    all: try (pose proof (Hx (a, s) ltac:(set_solver));
      pose proof (Hx (a + s, u) ltac:(set_solver))); simpl in *; desc; try done; try lia.
    all: tail_chain Hc.
  - eexists _, _. split; [reflexivity|]. split_and!; [simpl; split_and!|intros x Hx|].
    all: try (pose proof (Hx (a, s) ltac:(set_solver))); simpl in *; desc; try done; try lia.
    all: tail_chain Hc.
  - simpl in Hf.
    destruct (free_scan_after fuel m c c u a s l hi) as (m' & E & ? & Hsb & ?); try done; try lia.
    eexists _, _. split; [exact E|]. split_and!; [done| |done].
    intros x Hx. apply Hsb. intros b Hb. apply Hx. set_solver.
Qed.

Lemma blocks_not_covered lo hi l x : blocks lo hi l -> x < lo -> ~ covers l x.
Proof. intros Hl Hx (b & Hb & ?). pose proof (blocks_elem _ _ _ _ Hl Hb). lia. Qed.

Lemma take_block_spec lo hi total l b l' :
  12 <= total -> blocks lo hi l -> take_block total l = Some (b, l') ->
  exists s, total <= s < total + 24 /\ (s = total \/ total < s) /\
  blocks lo hi l' /\ lo <= b /\ b + total <= hi /\
  (forall c, c ∈ l' -> disj (b, total) c) /\
  (forall x, covers l' x -> covers l x) /\
  (forall x, b <= x < b + total -> covers l x).
Proof.
  intros Ht. revert lo b l'. induction l as [|[a s] l IH]; intros lo b l' Hl; simpl; [done|].
  destruct Hl as (H1 & H2 & H3 & Hl).
  destruct (Z.leb_spec total s), (Z.ltb_spec s (total + 24)), (Z.ltb_spec total s); simpl;
    try lia; intros Htake; simplify_eq.
  1,2: exists s; split_and!; try lia; [apply (blocks_weaken _ _ _ _ Hl); lia | | |].
  1,4: intros c Hc; pose proof (blocks_elem _ _ _ _ Hl Hc); left; simpl; lia.
  1-4: intros x Hx; rewrite covers_cons; simpl; first [by right | left; lia].
  - exists total; split_and!; try lia; simpl.
    + split_and!; try lia. apply (blocks_weaken _ _ _ _ Hl); lia.
    + intros c [-> |Hc]%elem_of_cons; [right; simpl; lia|].
      pose proof (blocks_elem _ _ _ _ Hl Hc). left; simpl; lia.
    + intros x. rewrite !covers_cons. simpl. intros [?|?]; [left; lia|by right].
    + intros x Hx. rewrite covers_cons. left. simpl. lia.
  - destruct (take_block total l) as [[b0 l0]|] eqn:E; simpl in Htake; [|done]. simplify_eq.
    destruct (IH _ _ _ Hl eq_refl) as (s' & ? & ? & ? & ? & ? & Hdj & Hc1 & Hc2).
    exists s'. split_and!; try lia.
    + simpl. split_and!; (done || lia).
    + intros c [-> |Hc]%elem_of_cons; [right; simpl; lia|]. by apply Hdj.
    + intros x. rewrite !covers_cons. naive_solver.
    + intros x Hx. rewrite covers_cons. right. by apply Hc2.
Qed.

(** The search touches only the [next] field of the previous descriptor and
    the descriptors of the list. *)
Definition scan_frame (prev : option Z) (l : list block) (m m' : gmap Z Z) : Prop :=
  forall x, (match prev with Some p => ~ p + 8 <= x < p + 12 | None => True end) ->
    (forall b, b ∈ l -> ~ b.1 <= x < b.1 + 12) -> ld8 m' x = ld8 m x.

Lemma malloc_scan_head fuel m d p total r m' d' :
  malloc_scan fuel m d (Some p) total = Ok (r, m', d') -> d' = d.
Proof.
  revert m p. induction fuel as [|fuel IH]; intros m p; simpl;
    destruct (d_next m p =? 0); try congruence.
  destruct (_ && _); [congruence|]. destruct (_ <? _); [congruence|]. apply IH.
Qed.

Lemma malloc_scan_spec fuel m d prev total l lo :
  12 <= total < 4294967272 ->
  (match prev with Some p => p + 12 <= lo | None => True end) ->
  chain m (link_get m d prev) l -> blocks lo 4294967295 l -> 0 <= lo ->
  (length l <= fuel)%nat ->
  exists m' d', malloc_scan fuel m d prev total = Ok (fst <$> take_block total l, m', d') /\
    chain m' (link_get m' d' prev) (default l (snd <$> take_block total l)) /\
    scan_frame prev l m m'.
Proof.
  intros Ht. revert fuel m d prev lo. induction l as [|[a s] l IH]; intros fuel m d prev lo Hp Hc Hl Hlo Hf.
  - destruct fuel; simpl in *; rewrite Hc; simpl; exists m, d; by rewrite ?Hc.
  - destruct Hc as (Ha & Ha0 & Hs & Hm & Hc). destruct Hl as (H1 & H2 & H3 & Hl).
    destruct fuel as [|fuel]; [simpl in Hf; lia|]. simpl in Hf.
    cbn [malloc_scan take_block]. rewrite Ha. destruct (Z.eqb_spec a 0); [done|].
    rewrite (u32_small (total + MIN_BLOCK_SIZE)) by (unfold MIN_BLOCK_SIZE, DESC_SIZE; lia).
    rewrite Hs. change MIN_BLOCK_SIZE with 24.
    destruct (Z.leb_spec total s), (Z.ltb_spec s (total + 24)), (Z.ltb_spec total s); cbn [andb]; try lia.
    1,2: destruct prev as [p|]; simpl; eexists _, _; (split; [reflexivity|]); split.
    all: try (intros x Hx Hx'; simpl in *; desc; done).
    all: try done.
    1,2: desc; tail_chain Hc.
    + rewrite (u32_small (a + s - total)) by lia. eexists _, d. split; [reflexivity|]. split.
      * assert (link_get (set_size m a (u32 (s - total))) d prev = a) as ->.
        { destruct prev; simpl in *; desc; done. }
        simpl. split_and!; try (desc; done). desc. tail_chain Hc.
      * intros x _ Hx. pose proof (Hx (a, s) ltac:(set_solver)). simpl in *. desc. done.
    + destruct (IH fuel m d (Some a) (a + s)) as (m' & d' & E & Hch & Hfr); try done; try lia.
      eexists m', d'. split; [rewrite E; by destruct (take_block total l) as [[b l']|]|].
      assert (d' = d) as ->.
      { by eapply malloc_scan_head. }
      assert (forall x, a <= x < a + 8 -> ld8 m' x = ld8 m x) as Hax.
      { intros x Hx. apply Hfr; [lia|]. intros b Hb. pose proof (blocks_elem _ _ _ _ Hl Hb). lia. }
      split.
      * assert (link_get m' d prev = a) as ->.
        { rewrite <- Ha. destruct prev as [p|]; simpl; [|done]. apply ld32_ext. intros x Hx. symmetry.
          symmetry. apply Hfr; [lia|]. intros b Hb. pose proof (blocks_elem _ _ _ _ Hl Hb). lia. }
        destruct (take_block total l) as [[b l']|]; simpl in *; split_and!; try done;
          unfold d_size, d_magic in *; first [rewrite <- Hs | rewrite <- Hm]; apply ld32_ext; intros; apply Hax; lia.
      * intros x Hx Hx'. apply Hfr; [|intros b Hb; apply Hx'; set_solver].
        pose proof (Hx' (a, s) ltac:(set_solver)). simpl in *. lia.
Qed.

(** ** The heap invariant *)

Lemma disj_not_covers lo hi a s l :
  blocks lo hi l -> 0 < s ->
  (forall b, b ∈ l -> disj (a, s) b) <-> (forall x, a <= x < a + s -> ~ covers l x).
Proof.
  intros Hl Hs. split.
  - intros Hd x Hx (b & Hb & ?). destruct (Hd b Hb); simpl in *; lia.
  - intros Hn b Hb. pose proof (blocks_elem _ _ _ _ Hl Hb). unfold disj; simpl.
    destruct (decide (a + s <= b.1)); [by left|]. right.
    apply Z.nlt_ge. intros Hlt. apply (Hn (Z.max a b.1)); [lia|]. exists b. split; [done|lia].
Qed.

(** End of the last page that can be handed out. *)
Definition HEAP_END : Z := 4294963200.

Lemma blocks_weaken_hi lo hi hi' l : blocks lo hi l -> hi <= hi' -> blocks lo hi' l.
Proof.
  revert lo. induction l as [|[a s] l IH]; intros lo; simpl; [done|].
  intros (? & ? & ? & ?) ?. split_and!; try lia. by apply IH.
Qed.

Section heap_facts.
Context {P : Type} `{PageAllocSpec P}.
Implicit Types (h : heap P) (fl : list block) (ul : gmap Z Z).

(** [fl] are the free blocks in list order, [ul] maps the blocks handed out
    to their sizes. *)
Record heap_ok h fl ul : Prop := {
  hk_chain : chain (hmem h) (pool h) fl;
  hk_free : blocks 0 HEAP_END fl;
  hk_used : forall a s, ul !! a = Some s ->
    0 < a /\ 12 <= s /\ a + s <= HEAP_END /\
    d_size (hmem h) a = s /\ d_magic (hmem h) a = MAGIC_USED;
  hk_used_free : forall a s x, ul !! a = Some s -> a <= x < a + s -> ~ covers fl x;
  hk_used_used : forall a s b t, ul !! a = Some s -> ul !! b = Some t -> a <> b ->
    disj (a, s) (b, t);
  hk_pages_free : forall x, covers fl x -> pa_free (pages h) (x / 4096) = false;
  hk_pages_used : forall a s x, ul !! a = Some s -> a <= x < a + s ->
    pa_free (pages h) (x / 4096) = false;
  hk_pa : pa_ok (pages h);
  hk_zero : pa_free (pages h) 0 = false
}.

Lemma same_but_used m m' l a s :
  same_but l m m' -> 12 <= s -> (forall b, b ∈ l -> 12 <= b.2 /\ disj (a, s) b) ->
  forall x, a <= x < a + s -> ld8 m' x = ld8 m x.
Proof.
  intros Hsb Hs Hd x Hx. apply Hsb. intros b Hb. destruct (Hd b Hb) as [? [?|?]]; simpl in *; lia.
Qed.

Lemma hk_disj h fl ul a s b : heap_ok h fl ul -> ul !! a = Some s -> b ∈ fl -> disj (a, s) b.
Proof.
  intros Hk E. destruct (hk_used _ _ _ Hk a s E) as (? & ? & _). revert b.
  apply (disj_not_covers _ _ _ _ _ (hk_free _ _ _ Hk)); [lia|].
  intros x. by apply (hk_used_free _ _ _ Hk).
Qed.

Lemma heap_ok_change h fl ul m' d' e fl' ul' :
  heap_ok h fl ul -> chain m' d' fl' -> blocks 0 HEAP_END fl' ->
  (forall x, covers fl' x -> pa_free (pages h) (x / 4096) = false) ->
  (forall a s, ul' !! a = Some s -> ul !! a = Some s /\
    forall x, a <= x < a + s -> ld8 m' x = ld8 (hmem h) x /\ ~ covers fl' x) ->
  heap_ok (mk_heap m' d' (pages h) e) fl' ul'.
Proof.
  intros Hk Hc Hb Hp Hu. split; simpl; try done.
  - intros a s E. destruct (Hu a s E) as [E' Hx].
    destruct (hk_used _ _ _ Hk a s E') as (? & ? & ? & Hsa & Hma). split_and!; try done.
    + rewrite <- Hsa. apply ld32_ext. intros x ?. apply Hx. lia.
    + rewrite <- Hma. apply ld32_ext. intros x ?. apply Hx. lia.
  - intros a s x E ?. destruct (Hu a s E) as [_ Hx]. by apply Hx.
  - intros a s b t E E'. apply (hk_used_used _ _ _ Hk); [apply (Hu a s E)|apply (Hu b t E')].
  - intros a s x E ?. eapply (hk_pages_used _ _ _ Hk); [apply (Hu a s E)|done].
  - apply Hk.
  - apply Hk.
Qed.

(** Pages may only become used. *)
Lemma heap_ok_pages h fl ul pg' e :
  heap_ok h fl ul -> pa_ok pg' ->
  (forall q, 0 <= q -> pa_free (pages h) q = false -> pa_free pg' q = false) ->
  heap_ok (mk_heap (hmem h) (pool h) pg' e) fl ul.
Proof.
  intros Hk Hpa Hpg. split; simpl; try apply Hk; [| |done|apply Hpg; [done|apply Hk]].
  - intros x Hx. pose proof Hx as (c & Hc & Hcx).
    pose proof (blocks_elem _ _ _ _ (hk_free _ _ _ Hk) Hc).
    apply Hpg; [apply Z.div_pos; lia|]. by apply (hk_pages_free _ _ _ Hk).
  - intros a s x E Hx. destruct (hk_used _ _ _ Hk a s E).
    apply Hpg; [apply Z.div_pos; lia|]. by apply (hk_pages_used _ _ _ Hk a s).
Qed.

Lemma heap_ok_add h fl ul b t m' e :
  heap_ok h fl ul -> 0 < b -> 12 <= t -> b + t <= HEAP_END ->
  (forall x, b <= x < b + t -> ~ covers fl x) ->
  (forall a s, ul !! a = Some s -> disj (b, t) (a, s)) ->
  (forall x, ~ b <= x < b + 12 -> ld8 m' x = ld8 (hmem h) x) ->
  d_size m' b = t -> d_magic m' b = MAGIC_USED ->
  (forall x, b <= x < b + t -> pa_free (pages h) (x / 4096) = false) ->
  heap_ok (mk_heap m' (pool h) (pages h) e) fl (<[b := t]> ul).
Proof.
  intros Hk Hb Ht Hbt Hf Hu Hm Hs Hmg Hpt.
  assert (forall a s x, ul !! a = Some s -> a <= x < a + s -> ld8 m' x = ld8 (hmem h) x) as Hsame.
  { intros a s x E Hx. apply Hm. destruct (Hu a s E); simpl in *; lia. }
  split; simpl; try done.
  - eapply chain_agree; [apply Hk|]. intros c x Hc Hx. apply Hm. intros ?.
    apply (Hf x); [lia|]. exists c. split; [done|].
    pose proof (blocks_elem _ _ _ _ (hk_free _ _ _ Hk) Hc). lia.
  - apply Hk.
  - intros a s. rewrite lookup_insert_Some. intros [[<- <-]|[Hne E]]; [by split_and!|].
    destruct (hk_used _ _ _ Hk a s E) as (? & ? & ? & Hsa & Hma). split_and!; try done.
    + rewrite <- Hsa. apply ld32_ext. intros x ?. apply (Hsame a s); [done|lia].
    + rewrite <- Hma. apply ld32_ext. intros x ?. apply (Hsame a s); [done|lia].
  - intros a s x. rewrite lookup_insert_Some. intros [[<- <-]|[Hne E]]; [apply Hf|by apply (hk_used_free _ _ _ Hk)].
  - intros a s c u. rewrite !lookup_insert_Some.
    intros [[<- <-]|[Ha E]] [[<- <-]|[Hc E']] Hne; try done.
    + by apply Hu.
    + destruct (Hu a s E); [by right|by left].
    + by apply (hk_used_used _ _ _ Hk).
  - apply Hk.
  - intros a s x. rewrite lookup_insert_Some. intros [[<- <-]|[Hne E]] Hx; [by apply Hpt|].
    by apply (hk_pages_used _ _ _ Hk a s).
  - apply Hk.
  - apply Hk.
Qed.

(** Putting a block that is marked free into the pool, empty or not. *)
Lemma free_insert fuel m h fl a s :
  chain m (pool h) fl -> blocks 0 HEAP_END fl -> (forall b, b ∈ fl -> disj (a, s) b) ->
  0 < a -> 12 <= s -> a + s <= HEAP_END -> (length fl <= fuel)%nat ->
  d_size m a = s -> d_magic m a = MAGIC_FREE -> d_next m a = 0 ->
  exists m' d', (if pool h =? 0 then Ok (mk_heap m a (pages h) (errno h)) else
      '(m, d) ← free_scan fuel m (pool h) None a (u32 (a + d_size m a));
      Ok (mk_heap m d (pages h) (errno h))) = Ok (mk_heap m' d' (pages h) (errno h)) /\
    chain m' d' (put_block a s fl) /\ same_but ((a, s) :: fl) m m' /\ d_magic m' a <> MAGIC_USED.
Proof.
  unfold HEAP_END. intros Hch Hbl Hd Ha Hs Has Hf Es Em En. destruct fl as [|b fl].
  - rewrite Hch. exists m, a. split_and!; try done; [simpl; rewrite Es, Em, En; split_and!; (done || lia)|].
    rewrite Em. done.
  - assert (pool h <> 0) as Hp by (destruct b; simpl in Hch; by destruct Hch as (-> & ? & _)).
    destruct (Z.eqb_spec (pool h) 0); [done|]. rewrite Es, u32_small by lia.
    destruct (free_scan_spec fuel m (pool h) a s (b :: fl) 4294967295) as (m' & d' & -> & ?);
      try done; try lia; [by apply (blocks_weaken_hi _ _ _ _ Hbl)|].
    exists m', d'. done.
Qed.

(** [free] puts the block back and leaves the other used blocks alone. *)
Lemma free_spec fuel h fl ul a s :
  heap_ok h fl ul -> ul !! a = Some s -> (length fl <= fuel)%nat ->
  exists h', free fuel h (a + 12) = Ok h' /\
    heap_ok h' (put_block a s fl) (delete a ul) /\
    pages h' = pages h /\ errno h' = errno h /\
    same_but ((a, s) :: fl) (hmem h) (hmem h') /\ d_magic (hmem h') a <> MAGIC_USED.
Proof.
  intros Hk E Hf. destruct (hk_used _ _ _ Hk a s E) as (Ha & Hs & Has & Hsz & Hmg).
  pose proof (hk_free _ _ _ Hk) as Hbl. unfold HEAP_END in *.
  assert (forall b, b ∈ fl -> disj (a, s) b) as Hd.
  { intros b. by apply (hk_disj _ _ _ _ _ _ Hk E). }
  unfold free. destruct (Z.eqb_spec (a + 12) 0); [lia|].
  assert (PTR_DESC (a + 12) = a) as ->.
  { unfold PTR_DESC, DESC_SIZE. rewrite u32_small by lia. lia. }
  rewrite Hmg. cbn [negb Z.eqb]. change (MAGIC_USED =? MAGIC_USED) with true. cbv iota zeta. cbn [negb].
  set (m := set_next (set_magic (hmem h) a MAGIC_FREE) a 0).
  assert (d_size m a = s /\ d_magic m a = MAGIC_FREE /\ d_next m a = 0) as (Es & Em & En).
  { unfold m. split_and!; desc; done. }
  assert (same_but [(a, s)] (hmem h) m) as Hm.
  { intros x Hx. pose proof (Hx (a, s) ltac:(set_solver)). simpl in *. unfold m. desc. done. }
  assert (chain m (pool h) fl) as Hch.
  { eapply chain_agree; [apply Hk|]. intros b x Hb Hx. apply Hm.
    intros c ->%list_elem_of_singleton. pose proof (blocks_elem _ _ _ _ Hbl Hb).
    destruct (Hd b Hb); simpl in *; lia. }
  destruct (free_insert fuel m h fl a s Hch Hbl) as (m' & d' & -> & Hch' & Hsb & Hmg'); try done; try (unfold HEAP_END; lia).
  assert (same_but ((a, s) :: fl) (hmem h) m') as Hsb'.
  { intros x Hx. rewrite Hsb by done. apply Hm. intros b Hb. apply Hx. set_solver. }
  eexists. split; [reflexivity|]. split_and!; try done.
  assert (forall x, covers (put_block a s fl) x -> covers ((a, s) :: fl) x) as Hcov.
  { intros x. rewrite put_block_covers; [done|lia|]. intros b Hb.
    pose proof (blocks_elem _ _ _ _ Hbl Hb). lia. }
  apply heap_ok_change with fl ul; try done.
  - apply put_block_blocks; try done; unfold HEAP_END; lia.
  - intros x [Hx|Hx]%Hcov%covers_cons; [by apply (hk_pages_used _ _ _ Hk a s)|by apply (hk_pages_free _ _ _ Hk)].
  - intros c t [Hne Ec]%lookup_delete_Some. split; [done|].
    destruct (hk_used _ _ _ Hk c t Ec) as (? & ? & ? & _).
    pose proof (hk_used_used _ _ _ Hk c t a s Ec E (not_eq_sym Hne)) as Hca.
    intros x Hx. split.
    + apply (same_but_used _ _ _ c t Hsb'); try done. intros b [-> |Hb]%elem_of_cons; [done|].
      pose proof (blocks_elem _ _ _ _ Hbl Hb). split; [lia|]. by apply (hk_disj _ _ _ _ _ _ Hk Ec).
    + intros [?|?]%Hcov%covers_cons; [destruct Hca; simpl in *; lia|].
      by apply (hk_used_free _ _ _ Hk c t x).
Qed.


(** The size [malloc] looks for. *)
Definition rounded (sz : Z) : Z := Z.land (u32 (sz + DESC_SIZE + 3)) 0xfffffffc.

Lemma rounded_spec sz : 0 <= sz -> sz + 15 < 4294967296 ->
  sz + 12 <= rounded sz < sz + 16 /\ rounded sz mod 4 = 0.
Proof.
  intros. unfold rounded, DESC_SIZE. rewrite u32_small by lia.
  rewrite land_fffffffc by lia. mlia.
Qed.

Lemma BYTES_TO_PAGES_spec n : 0 <= n -> n + 4095 < 4294967296 ->
  BYTES_TO_PAGES n * 4096 - 4095 <= n <= BYTES_TO_PAGES n * 4096.
Proof.
  intros. unfold BYTES_TO_PAGES. rewrite (u32_small n), (u32_small (n + 4095)) by lia.
  rewrite Z.shiftr_div_pow2 by lia. change (2 ^ 12) with 4096. mlia.
Qed.

Lemma PAGE_TO_ADDR_spec r : 0 <= r < 1048576 -> PAGE_TO_ADDR r = r * 4096.
Proof.
  intros. unfold PAGE_TO_ADDR. rewrite (u32_small r) by lia.
  rewrite Z.shiftl_mul_pow2 by lia. change (2 ^ 12) with 4096. rewrite u32_small; lia.
Qed.

(** What [malloc] promises: a fresh block of [t] bytes at [p - 12]. *)
Definition malloc_post h ul sz (p : Z) h' : Prop :=
  (forall b t x, ul !! b = Some t -> b <= x < b + t -> ld8 (hmem h') x = ld8 (hmem h) x) /\
  ((p = 0 /\ errno h' = ENOMEM /\ exists fl', heap_ok h' fl' ul) \/
   (12 < p /\ ul !! (p - 12) = None /\
    exists t fl', sz + 12 <= t < sz + 16 /\ heap_ok h' fl' (<[p - 12 := t]> ul))).

Lemma init_desc_fields m b t : 0 <= t < 4294967296 ->
  (forall x, ~ b <= x < b + 12 -> ld8 (init_desc m b t) x = ld8 m x) /\
  d_size (init_desc m b t) b = t /\ d_magic (init_desc m b t) b = MAGIC_USED.
Proof. intros Ht. unfold init_desc. split_and!; [intros x Hx|..]; desc; done. Qed.

(** The search leaves a well-formed heap, without the block found. *)
Lemma malloc_scan_heap fuel h fl ul total :
  heap_ok h fl ul -> 12 <= total < 4294967272 -> (length fl <= fuel)%nat ->
  exists m' d',
    malloc_scan fuel (hmem h) (pool h) None total = Ok (fst <$> take_block total fl, m', d') /\
    (forall e, heap_ok (mk_heap m' d' (pages h) e) (default fl (snd <$> take_block total fl)) ul) /\
    (forall a s x, ul !! a = Some s -> a <= x < a + s -> ld8 m' x = ld8 (hmem h) x).
Proof.
  intros Hk Ht Hf. pose proof (hk_free _ _ _ Hk) as Hbl.
  destruct (malloc_scan_spec fuel (hmem h) (pool h) None total fl 0) as (m' & d' & E & Hch & Hfr);
    try done; try lia; [apply Hk|by apply (blocks_weaken_hi _ _ _ _ Hbl)|].
  assert (forall a s x, ul !! a = Some s -> a <= x < a + s -> ld8 m' x = ld8 (hmem h) x) as Hu.
  { intros a s x Ea. destruct (hk_used _ _ _ Hk a s Ea) as (? & ? & _).
    revert x. apply (same_but_used _ _ fl); [|done|].
    - intros x Hx. by apply Hfr.
    - intros c Hc. pose proof (blocks_elem _ _ _ _ Hbl Hc).
      split; [lia|]. by apply (hk_disj _ _ _ _ _ _ Hk Ea). }
  exists m', d'. split; [done|]. split; [|done]. intros e.
  set (fl' := default fl (snd <$> take_block total fl)) in *.
  assert (blocks 0 HEAP_END fl' /\ forall x, covers fl' x -> covers fl x) as [Hbl' Hc].
  { unfold fl'. destruct (take_block total fl) as [[b l]|] eqn:Htk; [|done].
    destruct (take_block_spec 0 HEAP_END total fl b l) as (t & ? & ? & ? & ? & ? & ? & ? & ?); try done; lia. }
  apply heap_ok_change with fl ul; try done.
  - intros x Hx. apply (hk_pages_free _ _ _ Hk). by apply Hc.
  - intros a s Ea. split; [done|]. intros x Hx. split; [by apply (Hu a s)|].
    intros Hx'. eapply (hk_used_free _ _ _ Hk a s); [done|done|]. by apply Hc.
Qed.

Lemma fresh_used h fl ul b t :
  heap_ok h fl ul -> 0 < t ->
  (forall a s, ul !! a = Some s -> disj (b, t) (a, s)) -> ul !! b = None.
Proof.
  intros Hk Ht Hd. destruct (ul !! b) as [s|] eqn:Ea; [|done].
  destruct (hk_used _ _ _ Hk b s Ea) as (? & ? & _). destruct (Hd b s Ea); simpl in *; lia.
Qed.

(** The block found in the free list. *)
Lemma malloc_found fuel h fl ul sz b fl' :
  heap_ok h fl ul -> 0 <= sz -> sz + 15 < HEAP_END -> (length fl <= fuel)%nat ->
  take_block (rounded sz) fl = Some (b, fl') ->
  exists p h', malloc fuel h sz = Ok (p, h') /\ malloc_post h ul sz p h'.
Proof.
  unfold HEAP_END. intros Hk Hsz Hsz' Hf Htk.
  pose proof (rounded_spec sz Hsz ltac:(lia)) as [Hr _].
  pose proof (hk_free _ _ _ Hk) as Hbl.
  destruct (malloc_scan_heap fuel h fl ul (rounded sz)) as (m' & d' & E & Hk' & Hu); try done; try lia.
  rewrite Htk in E, Hk'. simpl in E, Hk'. specialize (Hk' (errno h)).
  destruct (take_block_spec 0 HEAP_END (rounded sz) fl b fl')
    as (t & Ht & _ & Hbl' & Hb0 & Hbt & Hd & Hc1 & Hc2); try done; try lia. unfold HEAP_END in *.
  assert (forall a s, ul !! a = Some s -> disj (b, rounded sz) (a, s)) as Hdu.
  { intros a s Ea. destruct (hk_used _ _ _ Hk a s Ea) as (? & ? & _). unfold disj; simpl.
    destruct (decide (b + rounded sz <= a)); [by left|]. right. apply Z.nlt_ge. intros Hlt.
    apply (hk_used_free _ _ _ Hk a s (Z.max a b) Ea); [lia|]. apply Hc2. lia. }
  destruct (init_desc_fields m' b (rounded sz) ltac:(lia)) as (Hi1 & Hi2 & Hi3).
  assert (b <> 0).
  { intros ->. assert (covers fl 0) as (c & Hc & ?) by (apply Hc2; lia).
    pose proof (chain_nonzero _ _ _ _ (hk_chain _ _ _ Hk) Hc).
    pose proof (blocks_elem _ _ _ _ Hbl Hc). lia. }
  unfold malloc. fold (rounded sz). rewrite E. simpl.
  assert (DESC_PTR b = b + 12) as -> by (unfold DESC_PTR, DESC_SIZE; rewrite u32_small; lia).
  eexists _, _. split; [reflexivity|]. split.
  - intros a s x Ea Hx. simpl. rewrite Hi1; [by eapply Hu|].
    destruct (Hdu a s Ea); simpl in *; lia.
  - right. replace (b + 12 - 12) with b by lia. split_and!; [lia| |].
    + apply (fresh_used _ _ _ b (rounded sz) Hk); [lia|done].
    + exists (rounded sz), fl'. split; [lia|].
      apply (heap_ok_add _ _ _ b (rounded sz) _ _ Hk'); try done; try (unfold HEAP_END; lia); simpl.
      * intros x Hx (c & Hc & ?). destruct (Hd c Hc); simpl in *; lia.
      * intros x Hx. apply (hk_pages_free _ _ _ Hk). by apply Hc2.
Qed.

(** Blocks inside pages that were free are new. *)
Lemma pages_fresh h fl ul b t :
  heap_ok h fl ul -> 12 <= t -> 0 <= b ->
  (forall x, b <= x < b + t -> pa_free (pages h) (x / 4096) = true) ->
  (forall x, b <= x < b + t -> ~ covers fl x) /\
  (forall a s, ul !! a = Some s -> disj (b, t) (a, s)).
Proof.
  intros Hk Ht Hb Hp. split.
  - intros x Hx Hc. specialize (Hp x Hx). by rewrite (hk_pages_free _ _ _ Hk x Hc) in Hp.
  - intros a s Ea. unfold disj; simpl. destruct (hk_used _ _ _ Hk a s Ea) as (? & ? & _).
    destruct (decide (b + t <= a)); [by left|]. right. apply Z.nlt_ge. intros Hlt.
    specialize (Hp (Z.max a b) ltac:(lia)).
    rewrite (hk_pages_used _ _ _ Hk a s (Z.max a b) Ea) in Hp by lia. done.
Qed.

(** A new block written as used and freed at once joins the free list. *)
Lemma free_rest fuel h fl ul b t :
  let m := set_magic (set_next (set_size (hmem h) b t) b 0) b MAGIC_USED in
  heap_ok h fl ul -> 0 < b -> 12 <= t -> b + t <= HEAP_END -> (length fl <= fuel)%nat ->
  (forall x, b <= x < b + t -> ~ covers fl x) ->
  (forall a s, ul !! a = Some s -> disj (b, t) (a, s)) ->
  (forall x, b <= x < b + t -> pa_free (pages h) (x / 4096) = false) ->
  exists h', free fuel (mk_heap m (pool h) (pages h) (errno h)) (DESC_PTR b) = Ok h' /\
    heap_ok h' (put_block b t fl) ul /\
    forall a s x, ul !! a = Some s -> a <= x < a + s -> ld8 (hmem h') x = ld8 (hmem h) x.
Proof.
  intros m. unfold HEAP_END. intros Hk Hb Ht Hbt Hf Hd1 Hd2 Hp.
  assert (heap_ok (mk_heap m (pool h) (pages h) (errno h)) fl (<[b := t]> ul)) as Hk2.
  { apply (heap_ok_add _ _ _ b t m (errno h) Hk); try done.
    - intros x Hx. unfold m. desc. done.
    - unfold m. desc. done.
    - unfold m. desc. done. }
  destruct (free_spec fuel _ fl _ b t Hk2) as (h' & E' & Hk3 & _ & _ & Hsb & _);
    [by rewrite lookup_insert_eq|done|].
  assert (DESC_PTR b = b + 12) as -> by (unfold DESC_PTR, DESC_SIZE; rewrite u32_small; lia).
  exists h'. split; [done|]. split.
  - rewrite delete_insert_id in Hk3; [done|]. apply (fresh_used _ _ _ b t Hk); [lia|done].
  - intros a s x Ea Hx. destruct (hk_used _ _ _ Hk a s Ea) as (? & ? & ? & _).
    pose proof (Hd2 a s Ea) as Hdis.
    rewrite (same_but_used _ _ _ a s Hsb); [|lia| |done].
    + unfold m. cbn [hmem]. unfold disj in Hdis. cbn [fst snd] in Hdis. desc. done.
    + intros c [-> |Hc]%elem_of_cons.
      * split; [done|]. unfold disj in *. simpl in *. lia.
      * pose proof (blocks_elem _ _ _ _ (hk_free _ _ _ Hk) Hc). split; [lia|].
        by apply (hk_disj _ _ _ _ _ _ Hk Ea).
Qed.

(** A block of [T] bytes at the start of [np] pages that were free. *)
Lemma grow_block h fl ul r np T pg' :
  heap_ok h fl ul -> 0 < r -> 12 <= T <= np * 4096 -> r + np <= 1048575 -> pa_ok pg' ->
  (forall q, r <= q < r + np -> pa_free (pages h) q = true) ->
  (forall q, 0 <= q -> pa_free pg' q = if decide (r <= q < r + np) then false else pa_free (pages h) q) ->
  let b := r * 4096 in
  let m := set_magic (set_next (set_size (hmem h) b T) b 0) b MAGIC_USED in
  heap_ok (mk_heap m (pool h) pg' (errno h)) fl (<[b := T]> ul) /\
  (forall a s x, ul !! a = Some s -> a <= x < a + s -> ld8 m x = ld8 (hmem h) x) /\ ul !! b = None /\
  (forall x, b <= x < b + np * 4096 -> ~ covers fl x) /\
  (forall a s, ul !! a = Some s -> disj (b, np * 4096) (a, s)) /\
  (forall x, b <= x < b + np * 4096 -> pa_free pg' (x / 4096) = false).
Proof.
  intros Hk Hr HT Hr1 Hpa Hrf Hru b m.
  assert (forall x, b <= x < b + np * 4096 -> r <= x / 4096 < r + np) as Hdiv by (intros; mlia).
  destruct (pages_fresh _ _ _ b (np * 4096) Hk ltac:(lia) ltac:(lia)) as [Hf1 Hf2].
  { intros x Hx. apply Hrf, Hdiv. lia. }
  assert (forall x, b <= x < b + np * 4096 -> pa_free pg' (x / 4096) = false) as Hpt.
  { intros x Hx. rewrite Hru by (apply Z.div_pos; lia). specialize (Hdiv x Hx). case_decide; [done|lia]. }
  pose proof Hk as Hk0. apply (heap_ok_pages _ _ _ pg' (errno h)) in Hk; [|done|].
  2: { intros q Hq Hqf. rewrite Hru by done. by case_decide. }
  destruct (init_desc_fields (hmem h) b T ltac:(lia)) as (Hi1 & Hi2 & Hi3).
  split_and!; [| | |done..].
  - apply (heap_ok_add _ _ _ b T m (errno h) Hk); simpl; try (unfold HEAP_END; lia).
    + intros x Hx. apply Hf1. lia.
    + intros a s Ea. destruct (Hf2 a s Ea); [left|right]; simpl in *; lia.
    + intros x Hx. unfold m. desc. done.
    + unfold m. desc. done.
    + unfold m. desc. done.
    + intros x Hx. apply Hpt. lia.
  - intros a s x Ea Hx. unfold m. destruct (Hf2 a s Ea); simpl in *; desc; done.
  - apply (fresh_used _ _ _ _ (np * 4096) Hk0); [lia|done].
Qed.

(** The block at the start of freshly allocated pages. *)
Lemma malloc_grow fuel h fl ul sz :
  heap_ok h fl ul -> 0 <= sz -> sz + 15 < HEAP_END -> (length fl <= fuel)%nat ->
  take_block (rounded sz) fl = None ->
  rounded sz mod 4096 = 0 \/ rounded sz mod 4096 <= 4096 - 12 ->
  exists p h', malloc fuel h sz = Ok (p, h') /\ malloc_post h ul sz p h'.
Proof.
  unfold HEAP_END. intros Hk0 Hsz Hsz' Hf Htk Hrest.
  pose proof (rounded_spec sz Hsz ltac:(lia)) as [Hr _].
  pose proof (BYTES_TO_PAGES_spec (rounded sz) ltac:(lia) ltac:(lia)) as Hn.
  destruct (malloc_scan_heap fuel h fl ul (rounded sz)) as (m' & d' & E & Hk' & Hu); try done; try lia.
  rewrite Htk in E, Hk'. simpl in E, Hk'.
  unfold malloc. fold (rounded sz). rewrite E. cbn [mbind res_mbind res_bind].
  set (np := BYTES_TO_PAGES (rounded sz)) in *. set (T := rounded sz) in *.
  destruct (pa_alloc_total (pages h) np 0 (hk_pa _ _ _ Hk0) ltac:(lia)) as (r & pg' & -> & Hpa & Hcase).
  cbn [mbind res_mbind res_bind]. destruct Hcase as [[-> Hsame]|(Hr0 & Hr1 & Hrf & Hru)].
  { simpl. eexists _, _. split; [reflexivity|]. split; [by intros; eapply Hu|].
    left. split_and!; try done. exists fl. apply (heap_ok_pages _ _ _ pg' ENOMEM (Hk' 0)); [done|].
    intros q Hq. by rewrite Hsame. }
  destruct (Z.eqb_spec r (-1)); [lia|]. rewrite PAGE_TO_ADDR_spec by lia.
  assert (DESC_PTR (r * 4096) = r * 4096 + 12) as ->.
  { unfold DESC_PTR, DESC_SIZE. rewrite u32_small; lia. }
  rewrite (u32_small (np * 4096 - T)) by lia.
  set (m1 := set_magic (set_next (set_size m' (r * 4096) T) (r * 4096) 0) (r * 4096) MAGIC_USED).
  assert (r <> 0).
  { intros ->. pose proof (hk_zero _ _ _ Hk0) as Hz. rewrite Hrf in Hz by lia. done. }
  destruct (grow_block _ fl ul r np T pg' (Hk' (errno h))) as (Hk1 & Hu1 & Hnone & Hf1 & Hf2 & Hpt); cbn [pages]; try done; try lia.
  cbn [hmem pool pages errno] in Hk1, Hu1. fold m1 in Hk1, Hu1.
  assert (forall a s x, ul !! a = Some s -> a <= x < a + s -> ld8 m1 x = ld8 (hmem h) x) as Hu1'.
  { intros a s x Ea Hx. rewrite <- (Hu a s x Ea Hx). by eapply Hu1. }
  destruct (Z.ltb_spec 0 (np * 4096 - T)) as [Hlt|Hge]; cycle 1.
  { eexists _, _. split; [reflexivity|]. split; [done|]. right.
    replace (r * 4096 + 12 - 12) with (r * 4096) by lia.
    split_and!; [lia|done|]. exists T, fl. split; [lia|done]. }
  rewrite (u32_small (r * 4096 + T)) by lia.
  assert (12 <= np * 4096 - T) by mlia.
  destruct (free_rest fuel _ _ _ (r * 4096 + T) (np * 4096 - T) Hk1) as (h' & E' & Hk3 & Hu3);
    cbn [hmem pool pages errno]; try (unfold HEAP_END; lia); try done.
  { intros x Hx. apply Hf1. lia. }
  { intros a s. rewrite lookup_insert_Some. intros [[<- <-]|[_ Ea]]; [right; simpl; lia|].
    destruct (Hf2 a s Ea); [left|right]; simpl in *; lia. }
  { intros x Hx. apply Hpt. lia. }
  cbn [hmem pool pages errno] in E'. rewrite E'. cbn [mbind res_mbind res_bind].
  eexists _, _. split; [reflexivity|]. split.
  - intros a s x Ea Hx. rewrite (Hu3 a s x); [by eapply Hu1'| |done].
    rewrite lookup_insert_ne; [done|]. congruence.
  - right. replace (r * 4096 + 12 - 12) with (r * 4096) by lia. split_and!; [lia|done|].
    exists T, (put_block (r * 4096 + T) (np * 4096 - T) fl). split; [lia|done].
Qed.


Lemma malloc_spec fuel h fl ul sz :
  heap_ok h fl ul -> 0 <= sz -> sz + 15 < HEAP_END -> (length fl <= fuel)%nat ->
  (take_block (rounded sz) fl = None ->
   rounded sz mod 4096 = 0 \/ rounded sz mod 4096 <= 4096 - 12) ->
  exists p h', malloc fuel h sz = Ok (p, h') /\ malloc_post h ul sz p h'.
Proof.
  intros. destruct (take_block (rounded sz) fl) as [[b l]|] eqn:E;
    [by eapply malloc_found|eapply malloc_grow; eauto].
Qed.

(** ** Theorems *)

(** C1. [malloc] terminates and either fails with ENOMEM, or returns a block
    of at least [sz] bytes that overlaps no free block and no block in use;
    the contents of the blocks in use do not change, and the heap stays well
    formed. The size with its descriptor must be below the end of the heap's
    address space, and when pages have to be added, the rest of the last page must
    hold a descriptor. *)
Theorem malloc_correct fuel h fl ul sz :
  heap_ok h fl ul -> 0 <= sz -> sz + 15 < HEAP_END -> (length fl <= fuel)%nat ->
  (take_block (rounded sz) fl = None ->
   rounded sz mod 4096 = 0 \/ rounded sz mod 4096 <= 4096 - 12) ->
  exists p h', malloc fuel h sz = Ok (p, h') /\
    (forall b t x, ul !! b = Some t -> b <= x < b + t -> ld8 (hmem h') x = ld8 (hmem h) x) /\
    ((p = 0 /\ errno h' = ENOMEM /\ exists fl', heap_ok h' fl' ul) \/
     (12 < p /\ ul !! (p - 12) = None /\
      exists t fl', sz + 12 <= t < sz + 16 /\ heap_ok h' fl' (<[p - 12 := t]> ul))).
Proof. apply malloc_spec. Qed.

(** C5. [free] of a block in use returns exactly its bytes to the free list,
    leaves the contents of the other blocks in use alone and keeps the heap
    well formed; freeing the same pointer again panics. *)
Theorem free_correct fuel h fl ul a s :
  heap_ok h fl ul -> ul !! a = Some s -> (length fl <= fuel)%nat ->
  exists h' fl', free fuel h (a + 12) = Ok h' /\ heap_ok h' fl' (delete a ul) /\
    (forall x, covers fl' x <-> covers fl x \/ a <= x < a + s) /\
    (forall b t x, delete a ul !! b = Some t -> b <= x < b + t ->
       ld8 (hmem h') x = ld8 (hmem h) x) /\
    forall fuel', free fuel' h' (a + 12) = Panic.
Proof.
  intros Hk E Hf. destruct (hk_used _ _ _ Hk a s E) as (Ha & Hs & Hah & _).
  destruct (free_spec fuel h fl ul a s Hk E Hf) as (h' & E' & Hk' & _ & _ & Hsb & Hmg).
  exists h', (put_block a s fl). split_and!; try done.
  - intros x. rewrite put_block_covers, covers_cons; [simpl; tauto|lia|].
    intros b Hb. pose proof (blocks_elem _ _ _ _ (hk_free _ _ _ Hk) Hb). lia.
  - intros b t x [Hne Eb]%lookup_delete_Some. destruct (hk_used _ _ _ Hk b t Eb) as (? & ? & _).
    revert x. apply (same_but_used _ _ _ b t Hsb); [done|].
    intros c [-> |Hc]%elem_of_cons; [split; [done|by apply (hk_used_used _ _ _ Hk)]|].
    pose proof (blocks_elem _ _ _ _ (hk_free _ _ _ Hk) Hc). split; [lia|].
    by apply (hk_disj _ _ _ _ _ _ Hk Eb).
  - intros fuel'. unfold free. unfold HEAP_END in *. destruct (Z.eqb_spec (a + 12) 0); [lia|].
    assert (PTR_DESC (a + 12) = a) as -> by (unfold PTR_DESC, DESC_SIZE; rewrite u32_small; lia).
    by rewrite (proj2 (Z.eqb_neq _ _) Hmg).
Qed.


(** [realloc] compares the requested payload with the block size, which
    includes the descriptor: up to 12 bytes too little are handed back. *)
Lemma realloc_too_small fuel h fl ul a s size :
  heap_ok h fl ul -> ul !! a = Some s -> s - 12 < size <= s ->
  realloc fuel h (a + 12) size = Ok (a + 12, h).
Proof.
  intros Hk E Hs. destruct (hk_used _ _ _ Hk a s E) as (Ha & ? & ? & Hsz & _).
  unfold realloc, HEAP_END in *. destruct (Z.eqb_spec (a + 12) 0); [lia|].
  assert (PTR_DESC (a + 12) = a) as -> by (unfold PTR_DESC, DESC_SIZE; rewrite u32_small; lia).
  rewrite Hsz. destruct (Z.leb_spec size s); [done|lia].
Qed.

(** A request of more than 2^32 - 16 bytes wraps around: the rounded size is
    at most 12, so the block returned has no room for data at all. *)
Lemma malloc_wraps fuel h a s fl ul sz :
  heap_ok h ((a, s) :: fl) ul -> (0 < fuel)%nat -> 36 <= s -> 4294967281 <= sz < 4294967296 ->
  exists p h', malloc fuel h sz = Ok (p, h') /\ p <> 0 /\ d_size (hmem h') (p - 12) <= 12.
Proof.
  intros Hk Hf Hs Hsz. destruct fuel as [|fuel]; [lia|].
  destruct (hk_chain _ _ _ Hk) as (Hp & Ha & Hsz' & _). destruct (hk_free _ _ _ Hk) as (? & ? & Has & _).
  assert (0 <= rounded sz <= 12) as Hr.
  { unfold rounded, DESC_SIZE. replace (u32 (sz + 12 + 3)) with (sz + 15 - 4294967296) by (unfold u32; mlia).
    rewrite land_fffffffc by lia. mlia. }
  unfold malloc. fold (rounded sz). cbn [malloc_scan link_get]. rewrite Hp.
  destruct (Z.eqb_spec a 0); [done|]. rewrite Hsz'. change MIN_BLOCK_SIZE with 24.
  rewrite (u32_small (rounded sz + 24)) by lia. unfold HEAP_END in *.
  destruct (Z.leb_spec (rounded sz) s), (Z.ltb_spec s (rounded sz + 24)), (Z.ltb_spec (rounded sz) s);
    try lia. cbn [andb mbind res_mbind res_bind].
  rewrite (u32_small (a + s - rounded sz)) by lia.
  assert (DESC_PTR (a + s - rounded sz) = a + s - rounded sz + 12) as ->
    by (unfold DESC_PTR, DESC_SIZE; rewrite u32_small; lia).
  eexists _, _. split; [reflexivity|]. split; [lia|]. cbn [hmem].
  replace (a + s - rounded sz + 12 - 12) with (a + s - rounded sz) by lia.
  unfold init_desc. desc. lia.
Qed.

(** A whole block that is a little larger than the request gets the
    requested size: the bytes behind it belong to no block any more. *)
Lemma malloc_loses_slack fuel h b s fl ul sz :
  heap_ok h ((b, s) :: fl) ul -> 0 <= sz -> sz + 15 < HEAP_END -> (0 < fuel)%nat ->
  rounded sz < s < rounded sz + 24 ->
  exists h', malloc fuel h sz = Ok (b + 12, h') /\ d_size (hmem h') b = rounded sz /\
    pool h' = d_next (hmem h) b.
Proof.
  unfold HEAP_END. intros Hk Hsz Hsz2 Hf Hs. destruct fuel as [|fuel]; [lia|].
  pose proof (rounded_spec sz Hsz ltac:(lia)) as [Hr _].
  destruct (hk_chain _ _ _ Hk) as (Hp & Ha & Hsz' & _). destruct (hk_free _ _ _ Hk) as (? & ? & Has & _).
  unfold HEAP_END in *.
  unfold malloc. fold (rounded sz). cbn [malloc_scan link_get]. rewrite Hp.
  destruct (Z.eqb_spec b 0); [done|]. rewrite Hsz'. change MIN_BLOCK_SIZE with 24.
  rewrite (u32_small (rounded sz + 24)) by lia.
  destruct (Z.leb_spec (rounded sz) s), (Z.ltb_spec s (rounded sz + 24)); try lia.
  cbn [andb link_set mbind res_mbind res_bind].
  assert (DESC_PTR b = b + 12) as -> by (unfold DESC_PTR, DESC_SIZE; rewrite u32_small; lia).
  eexists. split; [reflexivity|]. cbn [hmem pool]. split; [|done]. unfold init_desc. desc. done.
Qed.


(** When 4 bytes of the last page remain, [malloc] still writes a
    descriptor of 12 bytes there: the first 8 bytes of the page after the
    allocation are overwritten, whoever owns it. *)
Theorem malloc_rest_overflow fuel h sz r pg' :
  pool h = 0 -> 4077 <= sz <= 4080 ->
  pa_alloc (pages h) 1 0 = Ok (r, pg') -> 0 < r < 1048574 ->
  exists h', malloc fuel h sz = Ok (r * 4096 + 12, h') /\
    ld32 (hmem h') ((r + 1) * 4096) = MAGIC_FREE /\ ld32 (hmem h') ((r + 1) * 4096 + 4) = 0.
Proof.
  intros Hp Hsz Epa Hr.
  assert (rounded sz = 4092) as HT.
  { pose proof (rounded_spec sz ltac:(lia) ltac:(lia)). mlia. }
  unfold malloc. fold (rounded sz). rewrite HT, Hp.
  assert (malloc_scan fuel (hmem h) 0 None 4092 = Ok (None, hmem h, 0)) as -> by by destruct fuel.
  change (BYTES_TO_PAGES 4092) with 1. cbn [mbind res_mbind res_bind]. rewrite Epa.
  cbn [mbind res_mbind res_bind]. destruct (Z.eqb_spec r (-1)); [lia|].
  rewrite PAGE_TO_ADDR_spec by lia. rewrite (u32_small (1 * 4096 - 4092)) by lia.
  rewrite (u32_small (r * 4096 + 4092)) by lia.
  change (0 <? 1 * 4096 - 4092) with true. cbv iota.
  assert (DESC_PTR (r * 4096) = r * 4096 + 12) as -> by (unfold DESC_PTR, DESC_SIZE; rewrite u32_small; lia).
  assert (DESC_PTR (r * 4096 + 4092) = r * 4096 + 4104) as -> by (unfold DESC_PTR, DESC_SIZE; rewrite u32_small; lia).
  unfold free. destruct (Z.eqb_spec (r * 4096 + 4104) 0); [lia|].
  assert (PTR_DESC (r * 4096 + 4104) = r * 4096 + 4092) as -> by (unfold PTR_DESC, DESC_SIZE; rewrite u32_small; lia).
  cbn [hmem pool]. unfold d_magic at 1, set_magic at 1. rewrite ld32_st32_eq by (unfold MAGIC_USED; lia).
  rewrite Z.eqb_refl. cbn [negb mbind res_mbind res_bind]. change (0 =? 0) with true. cbv iota.
  eexists. split; [reflexivity|]. cbn [hmem].
  replace ((r + 1) * 4096) with (r * 4096 + 4092 + 4) by lia.
  split; [desc; done|]. replace (r * 4096 + 4092 + 4 + 4) with (r * 4096 + 4092 + 8) by lia.
  desc. done.
Qed.

End heap_facts.

(** ** Witnesses: a heap on the bitmap allocator *)

Definition pages0 : pmem := mk_pmem {[ 0 := 3; 32767 := 2147483648 ]} 8 0 true.
Definition heap0 : heap pmem := mk_heap ∅ 0 pages0 0.
Definition heap1 : heap pmem := mk_heap (init_desc ∅ 4096 64) 0 pages0 0.

Lemma pages0_ok : bounded pages0.
Proof.
  split_and!; [split; simpl|simpl; lia|by vm_compute]; try lia; try done.
  all: by intros p Hp; simpl in Hp; lia.
Qed.

Lemma heap0_ok : heap_ok heap0 [] ∅.
Proof.
  split; simpl; try done; try (intros ? ?; rewrite lookup_empty; done);
    try (intros ? ? ?; rewrite lookup_empty; done).
  - intros x Hx. by apply covers_nil in Hx.
  - apply pages0_ok.
Qed.

Lemma heap1_ok : heap_ok heap1 [] {[ 4096 := 64 ]}.
Proof.
  change {[ 4096 := 64 ]} with (<[4096 := 64]> (∅ : gmap Z Z)).
  apply (heap_ok_add heap0 [] ∅ 4096 64 (init_desc ∅ 4096 64) 0 heap0_ok); try done.
  - intros x _. apply covers_nil.
  - intros x Hx. simpl. by apply init_desc_fields.
  - intros x Hx. simpl. replace (x / 4096) with 1 by mlia. done.
Qed.

Lemma malloc_correct_witness :
  exists p h', malloc 1 heap1 100 = Ok (p, h') /\
    (forall b t x, ({[ 4096 := 64 ]} : gmap Z Z) !! b = Some t -> b <= x < b + t ->
       ld8 (hmem h') x = ld8 (hmem heap1) x) /\
    ((p = 0 /\ errno h' = ENOMEM /\ exists fl', heap_ok h' fl' {[ 4096 := 64 ]}) \/
     (12 < p /\ ({[ 4096 := 64 ]} : gmap Z Z) !! (p - 12) = None /\
      exists t fl', 112 <= t < 116 /\ heap_ok h' fl' (<[p - 12 := t]> {[ 4096 := 64 ]}))).
Proof.
  apply (malloc_correct 1 heap1 [] {[ 4096 := 64 ]} 100 heap1_ok); [lia|unfold HEAP_END; lia|simpl; lia|].
  intros _. right. vm_compute. done.
Defined.

Lemma free_correct_witness :
  exists h' fl', free 1 heap1 (4096 + 12) = Ok h' /\ heap_ok h' fl' (delete 4096 {[ 4096 := 64 ]}) /\
    (forall x, covers fl' x <-> covers [] x \/ 4096 <= x < 4096 + 64) /\
    (forall b t x, delete 4096 ({[ 4096 := 64 ]} : gmap Z Z) !! b = Some t -> b <= x < b + t ->
       ld8 (hmem h') x = ld8 (hmem heap1) x) /\
    forall fuel', free fuel' h' (4096 + 12) = Panic.
Proof. apply (free_correct 1 heap1 [] {[ 4096 := 64 ]} 4096 64 heap1_ok); [done|simpl; lia]. Defined.

Lemma malloc_rest_overflow_witness :
  exists h', malloc 1 heap0 4080 = Ok (2 * 4096 + 12, h') /\
    ld32 (hmem h') (3 * 4096) = MAGIC_FREE /\ ld32 (hmem h') (3 * 4096 + 4) = 0.
Proof.
  assert (exists pg', pa_alloc (pages heap0) 1 0 = Ok (2, pg')) as [pg' E]
    by (eexists; vm_compute; reflexivity).
  apply (malloc_rest_overflow 1 heap0 4080 2 pg'); [done|lia|exact E|lia].
Defined.
