(* ===== verification/Convert.v ===== *)
(** * Numbers and text (src/libc/stdlib.c: atoi, atol, strtol, itoa, utoa)

    Strings are the lists of their characters before the terminator.
    [strtol] returns the value and the string that [endp] is set to. The conversions to
    text fill the static [rbuf] of 16 bytes backwards; more characters than
    that are a [Fault]. *)
From S2P Require Import Prelude Ctype Str.

Definition LONG_MAX : Z := 2147483647.
Definition RBUF_SIZE : Z := 16.

Definition digit_val (ch : Z) : Z :=
  let c := tolower ch in
  if isdigit c then ch - 48
  else if (97 <=? c) && (c <=? 102) then 10 + c - 97
  else LONG_MAX.

(** The loop over the digits: accumulated value, rest of the string, [valid]. *)
Fixpoint strtol_loop (str : list Z) (base acc : Z) (valid : bool) : Z * list Z * bool :=
  match str with
  | [] => (acc, [], valid)
  | ch :: rest =>
      let val := digit_val ch in
      if base <=? val then (acc, str, valid)
      else strtol_loop rest base (s32 (s32 (acc * base) + val)) true
  end.

Fixpoint skip_space (str : list Z) : list Z :=
  match str with
  | ch :: rest => if isspace ch then skip_space rest else str
  | [] => []
  end.

Definition strtol_base (str : list Z) (base : Z) : Z :=
  if base =? 0 then
    if chr str =? 48 then
      if (chr (tail str) =? 120) || (chr (tail str) =? 88) then 16 else 8
    else 10
  else base.

Definition strtol_sign (str : list Z) : Z * list Z :=
  if chr str =? 43 then (1, tail str)
  else if chr str =? 45 then (-1, tail str)
  else (1, str).

Definition strtol (start : list Z) (base : Z) : Z * list Z :=
  let str := skip_space start in
  let base := strtol_base str base in
  let '(sign, str) := strtol_sign str in
  let '(acc, str, valid) := strtol_loop str base 0 false in
  (if 0 <? sign then acc else s32 (- acc), if valid then str else start).

Definition atoi (str : list Z) : Z := fst (strtol str 10).
Definition atol (str : list Z) : Z := fst (strtol str 10).

Definition digit_char (digit : Z) : Z := if digit <? 10 then digit + 48 else digit - 10 + 97.

(** [while(val)]: the digits, least significant first. *)
Fixpoint digits (fuel : nat) (val base : Z) : res (list Z) :=
  if val =? 0 then Ok [] else
  match fuel with
  | O => NoFuel
  | S fuel =>
      ds ← digits fuel (Z.quot val base) base;
      Ok (digit_char (Z.rem val base) :: ds)
  end.

(** Copy of [rbuf] to [buf] in reverse. *)
Definition unreverse (rbuf : list Z) : res (list Z) :=
  if RBUF_SIZE <? Z.of_nat (length rbuf) then Fault else Ok (rev rbuf).

Definition itoa (val base : Z) : res (list Z) :=
  let neg := val <? 0 in
  let val := if neg then s32 (- val) else val in
  ds ← digits 32 val base;
  unreverse ((if val =? 0 then [48] else []) ++ ds ++ (if neg then [45] else [])).

Definition utoa (val base : Z) : res (list Z) :=
  ds ← digits 32 val base;
  unreverse ((if val =? 0 then [48] else []) ++ ds).

(** ** Positional notation *)

(** The value of a digit string in a base, most significant digit first. *)
Definition value (base : Z) (ds : list Z) : Z :=
  fold_left (fun acc ch => acc * base + digit_val ch) ds 0.

Lemma digit_val_char d : 0 <= d < 16 -> digit_val (digit_char d) = d.
Proof.
  intros Hd. unfold digit_char, digit_val, tolower, isdigit, isupper. zcases.
Qed.

Lemma fold_value_s32 base ds acc :
  s32 (fold_left (fun acc ch => acc * base + digit_val ch) ds (s32 acc)) =
  s32 (fold_left (fun acc ch => acc * base + digit_val ch) ds acc).
Proof.
  revert acc. induction ds as [|c ds IH]; intros acc; cbn [fold_left]; [apply s32_idemp|].
  rewrite <- IH. rewrite <- (IH (acc * base + _)). do 2 f_equal.
  by rewrite <- s32_add_l, s32_mul_l, s32_add_l.
Qed.

Lemma strtol_loop_spec base ds rest acc valid :
  Forall (fun ch => digit_val ch < base) ds ->
  (forall ch rest', rest = ch :: rest' -> base <= digit_val ch) ->
  strtol_loop (ds ++ rest) base (s32 acc) valid =
    (s32 (fold_left (fun acc ch => acc * base + digit_val ch) ds acc), rest,
     valid || negb (bool_decide (ds = []))).
Proof.
  intros Hds Hrest. revert acc valid. induction Hds as [|c ds Hc Hds IH]; intros acc valid.
  - rewrite orb_false_r. destruct rest as [|x r]; [done|]. simpl.
    specialize (Hrest x r eq_refl). destruct (Z.leb_spec base (digit_val x)); [done|lia].
  - cbn [app strtol_loop fold_left]. destruct (Z.leb_spec base (digit_val c)); [lia|].
    rewrite s32_mul_l, s32_add_l, IH. f_equal. simpl. by rewrite orb_true_r.
Qed.

(** [digits] yields the positional notation of a natural number. *)
Lemma digits_spec fuel val base :
  2 <= base <= 16 -> 0 <= val < 2 ^ Z.of_nat fuel ->
  exists ds, digits fuel val base = Ok ds /\
    Forall (fun ch => digit_val ch < base) (rev ds) /\ value base (rev ds) = val /\
    (ds = [] <-> val = 0) /\ (forall n, val < base ^ Z.of_nat n -> (length ds <= n)%nat) /\
    Forall (fun ch => 48 <= ch <= 57 \/ 97 <= ch <= 102) ds.
Proof.
  intros Hb. revert val. induction fuel as [|fuel IH]; intros val Hv.
  - assert (val = 0) as -> by (simpl in Hv; lia). exists []. split_and!; try done. intros; simpl; lia.
  - cbn [digits]. destruct (Z.eqb_spec val 0) as [->|Hne].
    { exists []. split_and!; try done. intros; simpl; lia. }
    rewrite Z.quot_div_nonneg, Z.rem_mod_nonneg by lia.
    rewrite Nat2Z.inj_succ, Z.pow_succ_r in Hv by lia.
    destruct (IH (val / base)) as (ds & -> & H1 & H2 & _ & H4 & H5).
    { split; [apply Z.div_pos; lia|]. apply Z.div_lt_upper_bound; nia. }
    pose proof (Z.mod_pos_bound val base ltac:(lia)).
    exists (digit_char (val mod base) :: ds). cbn [mbind res_mbind res_bind]. split_and!; try done.
    + simpl. apply Forall_app. split; [done|]. constructor; [|done].
      rewrite digit_val_char by lia. lia.
    + unfold value in *. simpl. rewrite fold_left_app, H2. simpl.
      rewrite digit_val_char by lia. rewrite (Z.div_mod val base) at 3 by lia. lia.
    + intros n Hn. destruct n as [|n]; [simpl in Hn; lia|]. simpl. apply le_n_S, H4.
      rewrite Nat2Z.inj_succ, Z.pow_succ_r in Hn by lia. apply Z.div_lt_upper_bound; lia.
    + constructor; [|done]. unfold digit_char. zcases.
Qed.

Lemma skip_space_digit str : (forall ch r, str = ch :: r -> isspace ch = false) -> skip_space str = str.
Proof. destruct str as [|c r]; intros H; [done|]. simpl. by rewrite (H c r eq_refl). Qed.

Lemma sign_digits c r : 48 <= c <= 57 \/ 97 <= c <= 102 ->
  isspace c = false /\ strtol_sign (c :: r) = (1, c :: r).
Proof.
  intros Hc. split.
  - unfold isspace, isblank. zcases.
  - unfold strtol_sign. cbn [chr]. zcases.
Qed.

(** What [strtol] reads from an unsigned digit string. *)
Lemma strtol_digits base ds rest :
  2 <= base <= 16 -> ds <> [] ->
  Forall (fun ch => 48 <= ch <= 57 \/ 97 <= ch <= 102) ds ->
  Forall (fun ch => digit_val ch < base) ds ->
  (forall ch rest', rest = ch :: rest' -> base <= digit_val ch) ->
  strtol (ds ++ rest) base = (s32 (value base ds), rest) /\
  strtol (45 :: ds ++ rest) base = (s32 (- value base ds), rest).
Proof.
  intros Hb Hne Hch Hds Hrest. pose proof (strtol_loop_spec base ds rest 0 false Hds Hrest) as Hl.
  change (s32 0) with 0 in Hl. rewrite bool_decide_eq_false_2 in Hl by done.
  assert (forall str, strtol_base str base = base) as Hbase.
  { intros. unfold strtol_base. destruct (Z.eqb_spec base 0); [lia|done]. }
  unfold strtol. rewrite !Hbase. split.
  - destruct ds as [|c ds]; [done|]. apply Forall_cons in Hch as [Hc _].
    destruct (sign_digits c (ds ++ rest) Hc) as [Hs Hg]. cbn [app] in *.
    rewrite skip_space_digit by (intros ? ? [= <- _]; done). by rewrite Hg, Hl.
  - rewrite skip_space_digit; [|by intros ? ? [= <- _]]. change (strtol_sign _) with (-1, ds ++ rest). cbv iota beta. rewrite Hl.
    cbn. by rewrite s32_opp.
Qed.

(** ** Theorems *)

(** [strtol] reads back what [itoa] wrote, for every base up to 16 and
    every [int] except the most negative one. *)
Theorem strtol_itoa base val s :
  2 <= base <= 16 -> -2147483648 < val < 2147483648 ->
  itoa val base = Ok s -> strtol s base = (val, []).
Proof.
  intros Hb Hv. unfold itoa.
  assert ((if val <? 0 then s32 (- val) else val) = Z.abs val) as ->.
  { destruct (Z.ltb_spec val 0); [rewrite s32_small by lia|]; lia. }
  destruct (digits_spec 32 (Z.abs val) base Hb) as (ds & -> & H1 & H2 & H3 & _ & H5); [simpl; lia|].
  cbn [mbind res_mbind res_bind]. unfold unreverse. destruct (_ <? _); [done|]. intros [= <-].
  destruct (Z.eqb_spec (Z.abs val) 0) as [Hz|Hz].
  - assert (val = 0) as -> by lia. rewrite (proj2 H3 eq_refl).
    apply (strtol_digits base [48] [] Hb); try done; repeat constructor.
    all: first [lia | change (digit_val 48) with 0; lia].
  - destruct (strtol_digits base (rev ds) [] Hb) as [E1 E2]; try done.
    { intros E. apply Hz, H3. destruct ds; [done|]. simpl in E. by destruct (rev ds). }
    { by apply Forall_rev. }
    rewrite app_nil_r in E1, E2. rewrite H2 in E1, E2. cbn [app].
    destruct (Z.ltb_spec val 0).
    + rewrite rev_app_distr. cbn [rev app]. rewrite E2, s32_small by lia. f_equal. lia.
    + rewrite app_nil_r, E1, s32_small by lia. f_equal. lia.
Qed.

Lemma strtol_itoa_witness : strtol [45; 51; 97] 16 = (-58, []).
Proof. apply (strtol_itoa 16 (-58) [45; 51; 97]); [lia|lia|reflexivity]. Defined.

Lemma value_bound base ds : 2 <= base ->
  Forall (fun ch => digit_val ch < base) (rev ds) ->
  value base (rev ds) < base ^ Z.of_nat (length ds).
Proof.
  intros Hb. induction ds as [|c ds IH]; intros Hds; [done|].
  simpl in Hds. apply Forall_app in Hds as [Hds Hc]. apply Forall_cons in Hc as [Hc _].
  unfold value in *. simpl rev. rewrite fold_left_app. cbn [fold_left].
  change (length (c :: ds)) with (S (length ds)). rewrite Nat2Z.inj_succ, Z.pow_succ_r by lia.
  specialize (IH Hds). nia.
Qed.

(** For bases from 5 to 16 the 16 bytes of [rbuf] are enough for every
    value and [itoa] returns; in base 2 every value from 65536 on overflows
    them. *)
Theorem itoa_buffer base val :
  (5 <= base <= 16 -> -2147483648 < val < 2147483648 -> exists s, itoa val base = Ok s) /\
  (65536 <= val < 2147483648 -> itoa val 2 = Fault).
Proof.
  split; intros Hb.
  - intros Hv. unfold itoa.
    assert ((if val <? 0 then s32 (- val) else val) = Z.abs val) as ->.
    { destruct (Z.ltb_spec val 0); [rewrite s32_small by lia|]; lia. }
    destruct (digits_spec 32 (Z.abs val) base) as (ds & -> & _ & _ & H3 & H4 & _); [lia|simpl; lia|].
    cbn [mbind res_mbind res_bind]. unfold unreverse, RBUF_SIZE.
    assert (length ds <= 14)%nat.
    { apply H4. apply Z.lt_le_trans with (5 ^ 14); [lia|]. apply Z.pow_le_mono_l. lia. }
    set (rbuf := (if Z.abs val =? 0 then [48] else []) ++ ds ++ (if val <? 0 then [45] else [])).
    assert (Z.of_nat (length rbuf) <= 16).
    { unfold rbuf. rewrite !length_app. destruct (Z.abs val =? 0), (val <? 0); simpl; lia. }
    destruct (Z.ltb_spec 16 (Z.of_nat (length rbuf))); [lia|]. by eexists.
  - unfold itoa. destruct (Z.ltb_spec val 0); [lia|].
    destruct (digits_spec 32 val 2) as (ds & -> & H1 & H2 & _ & _ & _); [lia|simpl; lia|].
    cbn [mbind res_mbind res_bind]. destruct (Z.eqb_spec val 0); [lia|].
    assert (16 < Z.of_nat (length ds)).
    { pose proof (value_bound 2 ds ltac:(lia) H1) as Hlt. rewrite H2 in Hlt.
      apply (Z.pow_lt_mono_r_iff 2); [lia|lia|]. change (2 ^ 16) with 65536. lia. }
    cbn [app]. unfold unreverse, RBUF_SIZE. rewrite app_nil_r.
    destruct (Z.ltb_spec 16 (Z.of_nat (length ds))); [done|lia].
Qed.

Lemma itoa_buffer_witness : (exists s, itoa (-2147483647) 10 = Ok s) /\ itoa 65536 2 = Fault.
Proof.
  split; [apply (proj1 (itoa_buffer 10 (-2147483647))); lia|apply (proj2 (itoa_buffer 2 65536)); lia].
Defined.

(** With base 0 the prefix [0x] selects base 16 but is not skipped: the
    conversion stops at the [x]. The same happens with base 16. *)
Lemma strtol_hex_prefix rest base :
  base = 0 \/ base = 16 -> strtol (48 :: 120 :: rest) base = (0, 120 :: rest).
Proof. by intros [-> | ->]. Qed.

(** The most negative value is its own negation, so the digits are negative
    and what [itoa] writes is not a number. *)
Lemma itoa_int_min : itoa (-2147483648) 10 = Ok [45; 46; 47; 44; 41; 44; 40; 45; 42; 44; 40].
Proof. by vm_compute. Qed.
