(* ===== verification/Sort.v ===== *)
(** * Sorting (src/libc/stdlib.c: ins_sort, qsort)

    The array is the list of its items, [cmp] the comparison the caller
    passes. [lo] is the index [arr] points to, because [qsort] calls itself on
    parts of the array. Reading past either end of the array is a [Fault].
    The loops over pointers take fuel. *)
From S2P Require Import Prelude.

Definition QSORT_THRESHOLD : Z := 4.

Section sort.
Context {A : Type} (cmp : A -> A -> Z).
Implicit Types arr : list A.

Definition item arr (i : Z) : res A := of_option (zlookup arr i).

(** [cmp(ITEM(i), ITEM(j)) < 0] *)
Definition less arr (i j : Z) : res bool :=
  x ← item arr i; y ← item arr j; Ok (cmp x y <? 0).

Definition SWAP arr (i j : Z) : res (list A) :=
  x ← item arr i; y ← item arr j;
  Ok (<[Z.to_nat j := x]> (<[Z.to_nat i := y]> arr)).

(** [while(a > arr && cmp(a, (b = a - itemsz)) < 0)], with [a] = [lo + k]. *)
Fixpoint sink arr (lo : Z) (k : nat) : res (list A) :=
  match k with
  | O => Ok arr
  | S k' =>
      b ← less arr (lo + Z.of_nat k) (lo + Z.of_nat k');
      if b : bool then arr ← SWAP arr (lo + Z.of_nat k) (lo + Z.of_nat k'); sink arr lo k' else Ok arr
  end.

(** [n] rounds of the loop [for(i=1; i<count; i++)], from [i] on. *)
Fixpoint ins_loop arr (lo : Z) (i n : nat) : res (list A) :=
  match n with
  | O => Ok arr
  | S n => arr ← sink arr lo i; ins_loop arr lo (S i) n
  end.

Definition ins_sort arr (lo count : Z) : res (list A) :=
  if count <=? 1 then Ok arr else ins_loop arr lo 1 (Z.to_nat (count - 1)).

(** [while(cmp(left, ma) < 0) left += itemsz] *)
Fixpoint scan_left (fuel : nat) arr (ma left : Z) : res Z :=
  b ← less arr left ma;
  if negb b then Ok left else
  match fuel with O => NoFuel | S fuel => scan_left fuel arr ma (left + 1) end.

(** [while(cmp(ma, right) < 0) right -= itemsz] *)
Fixpoint scan_right (fuel : nat) arr (ma right : Z) : res Z :=
  b ← less arr ma right;
  if negb b then Ok right else
  match fuel with O => NoFuel | S fuel => scan_right fuel arr ma (right - 1) end.

(** The [for(;;)] loop: the array and [right] when it ends. *)
Fixpoint partition (fuel : nat) arr (ma left right : Z) : res (list A * Z) :=
  left ← scan_left (length arr) arr ma left;
  right ← scan_right (length arr) arr ma right;
  if right <=? left then Ok (arr, right) else
  arr ← SWAP arr left right;
  match fuel with O => NoFuel | S fuel => partition fuel arr ma left right end.

Definition order arr (i j : Z) : res (list A) :=
  b ← less arr i j; if b : bool then SWAP arr i j else Ok arr.

Fixpoint qsort (fuel : nat) arr (lo count : Z) : res (list A) :=
  if count <=? 1 then Ok arr else
  if count <? QSORT_THRESHOLD then ins_sort arr lo count else
  match fuel with
  | O => NoFuel
  | S fuel =>
      let ma := lo in
      let mb := lo + count / 2 in
      let mc := lo + (count - 1) in
      arr ← order arr ma mb;
      arr ← order arr mc ma;
      '(arr, sep) ← partition fuel arr ma (ma + 1) (mc - 1);
      arr ← SWAP arr ma sep;
      let nleft := sep - lo in
      let nright := count - nleft - 1 in
      arr ← qsort fuel arr ma nleft;
      qsort fuel arr (sep + 1) nright
  end.

(** ** Key view of the array *)

Variable key : A -> Z.
Hypothesis cmp_key : forall x y, cmp x y < 0 <-> key x < key y.

Definition keyat arr (i : Z) : Z := default 0 (key <$> zlookup arr i).
Definition inside arr (i : Z) : Prop := 0 <= i < Z.of_nat (length arr).

Lemma item_inside arr i : inside arr i -> exists x, zlookup arr i = Some x /\ item arr i = Ok x /\ keyat arr i = key x.
Proof.
  intros H. destruct (zlookup_is_Some arr i H) as [x E]. exists x.
  unfold item, keyat. by rewrite E.
Qed.

Lemma less_inside arr i j : inside arr i -> inside arr j ->
  less arr i j = Ok (keyat arr i <? keyat arr j).
Proof.
  intros Hi Hj. destruct (item_inside arr i Hi) as (x & _ & Ex & ->).
  destruct (item_inside arr j Hj) as (y & _ & Ey & ->).
  unfold less. rewrite Ex, Ey. simpl. f_equal. pose proof (cmp_key x y).
  destruct (Z.ltb_spec (cmp x y) 0), (Z.ltb_spec (key x) (key y)); tauto || lia.
Qed.

(** [arr'] is [arr] with the items from [lo] to [lo + n - 1] rearranged. *)
Record rearranged (lo n : Z) arr arr' : Prop := {
  re_perm : arr' ≡ₚ arr;
  re_out : forall i, ~ lo <= i < lo + n -> zlookup arr' i = zlookup arr i;
  re_in : forall i, lo <= i < lo + n -> inside arr i ->
    exists j, lo <= j < lo + n /\ inside arr j /\ keyat arr' i = keyat arr j
}.

Lemma re_length lo n arr arr' : rearranged lo n arr arr' -> length arr' = length arr.
Proof. intros H. apply Permutation_length, H. Qed.

Lemma re_inside lo n arr arr' i : rearranged lo n arr arr' -> inside arr' i <-> inside arr i.
Proof. intros H. unfold inside. by rewrite (re_length _ _ _ _ H). Qed.

Lemma re_keyat_out lo n arr arr' i :
  rearranged lo n arr arr' -> ~ lo <= i < lo + n -> keyat arr' i = keyat arr i.
Proof. intros H Hi. unfold keyat. by rewrite (re_out _ _ _ _ H). Qed.

#[local] Instance rearranged_preorder lo n : PreOrder (rearranged lo n).
Proof.
  split.
  - intros arr. split; [done|done|]. intros i Hi Hin. by exists i.
  - intros a b c H1 H2. split.
    + by rewrite (re_perm _ _ _ _ H2), (re_perm _ _ _ _ H1).
    + intros i Hi. by rewrite (re_out _ _ _ _ H2), (re_out _ _ _ _ H1).
    + intros i Hi Hin. destruct (re_in _ _ _ _ H2 i Hi) as (j & Hj & Hjn & ->).
      { by apply (re_inside _ _ _ _ _ H1). }
      apply (re_in _ _ _ _ H1 j Hj). by apply (re_inside _ _ _ _ _ H1).
Qed.

Lemma re_widen lo n lo' n' arr arr' :
  rearranged lo n arr arr' -> lo' <= lo -> lo + n <= lo' + n' -> rearranged lo' n' arr arr'.
Proof.
  intros H Hl Hn. split; [apply H| |].
  - intros i Hi. apply H. lia.
  - intros i Hi Hin. destruct (decide (lo <= i < lo + n)) as [Hr|Hr].
    + destruct (re_in _ _ _ _ H i Hr Hin) as (j & ? & ? & ->). exists j. split; [lia|done].
    + exists i. rewrite (re_keyat_out _ _ _ _ _ H Hr). done.
Qed.

Lemma SWAP_inside arr i j lo n :
  inside arr i -> inside arr j -> lo <= i < lo + n -> lo <= j < lo + n ->
  exists arr', SWAP arr i j = Ok arr' /\ rearranged lo n arr arr' /\
    forall k, keyat arr' k = if decide (k = i) then keyat arr j
                             else if decide (k = j) then keyat arr i else keyat arr k.
Proof.
  intros Hi Hj Hli Hlj. destruct (item_inside arr i Hi) as (x & Ex & Ex' & Kx).
  destruct (item_inside arr j Hj) as (y & Ey & Ey' & Ky).
  unfold SWAP. rewrite Ex', Ey'. cbn [mbind res_mbind res_bind].
  eexists. split; [reflexivity|].
  assert (forall k, zlookup (<[Z.to_nat j:=x]> (<[Z.to_nat i:=y]> arr)) k =
    if decide (k = j) then Some x else if decide (k = i) then Some y else zlookup arr k) as Hlk.
  { intros k. unfold inside, zlookup in *. zcases.
    - destruct (Z.ltb_spec k 0); [|lia]. repeat (case_decide; try lia). done.
    - destruct (decide (k = j)) as [->|]; [apply list_lookup_insert_eq; rewrite length_insert; lia|].
      rewrite list_lookup_insert_ne by lia.
      destruct (decide (k = i)) as [->|]; [apply list_lookup_insert_eq; lia|].
      by rewrite list_lookup_insert_ne by lia. }
  assert (forall k, keyat (<[Z.to_nat j:=x]> (<[Z.to_nat i:=y]> arr)) k = if decide (k = i) then keyat arr j
                             else if decide (k = j) then keyat arr i else keyat arr k) as Hk.
  { intros k. rewrite Kx, Ky. unfold keyat. rewrite Hlk.
    repeat case_decide; subst; try done. by simplify_eq. }
  split; [|done]. split.
  - apply Permutation_insert_swap.
    + unfold inside, zlookup in *. destruct (Z.ltb_spec i 0); [lia|done].
    + unfold inside, zlookup in *. destruct (Z.ltb_spec j 0); [lia|done].
  - intros k Hk'. rewrite Hlk. repeat case_decide; try lia; done.
  - intros k Hk' Hin. rewrite Hk. repeat case_decide; eauto.
Qed.

(** Weakly sorted from [lo] up to [hi - 1]. *)
Definition sorted arr (lo hi : Z) : Prop :=
  forall i j, lo <= i < j -> j < hi -> keyat arr i <= keyat arr j.

Definition within arr (lo hi : Z) : Prop := 0 <= lo /\ hi <= Z.of_nat (length arr).

Lemma within_inside arr lo hi i : within arr lo hi -> lo <= i < hi -> inside arr i.
Proof. unfold within, inside. lia. Qed.
Lemma re_within lo n arr arr' a b : rearranged lo n arr arr' -> within arr' a b <-> within arr a b.
Proof. intros H. unfold within. by rewrite (re_length _ _ _ _ H). Qed.

(** ** Insertion sort *)

Lemma sink_spec arr lo n k :
  within arr lo (lo + n) -> Z.of_nat k < n ->
  (forall i j, lo <= i < j -> j < lo + n -> j <> lo + Z.of_nat k -> keyat arr i <= keyat arr j) ->
  exists arr', sink arr lo k = Ok arr' /\ rearranged lo n arr arr' /\ sorted arr' lo (lo + n).
Proof.
  revert arr. induction k as [|k IH]; intros arr Hw Hk Hs.
  - exists arr. split_and!; [done|reflexivity|]. intros i j Hi Hj. apply Hs; lia.
  - cbn [sink]. rewrite less_inside by (eapply within_inside; [done|lia]).
    cbn [mbind res_mbind res_bind].
    destruct (Z.ltb_spec (keyat arr (lo + Z.of_nat (S k))) (keyat arr (lo + Z.of_nat k))) as [Hlt|Hge].
    + destruct (SWAP_inside arr (lo + Z.of_nat (S k)) (lo + Z.of_nat k) lo n)
        as (arr' & -> & Hr & Hat); try lia; [eapply within_inside; [done|lia]..|].
      cbn [mbind res_mbind res_bind].
      destruct (IH arr') as (arr'' & E & Hr' & Hs'); [by rewrite re_within|lia| |].
      { intros i j Hi Hj Hne. rewrite !Hat.
        repeat (case_decide; try lia); subst; try (apply Hs; lia). }
      exists arr''. split_and!; [done|by transitivity arr'|done].
    + exists arr. split_and!; [done|reflexivity|]. intros i j Hi Hj.
      destruct (decide (j = lo + Z.of_nat (S k))) as [->|]; [|by apply Hs].
      destruct (decide (i = lo + Z.of_nat k)) as [->|]; [done|].
      transitivity (keyat arr (lo + Z.of_nat k)); [apply Hs; lia|done].
Qed.

Lemma ins_loop_spec arr lo i n :
  within arr lo (lo + Z.of_nat (i + n)) -> sorted arr lo (lo + Z.of_nat i) ->
  exists arr', ins_loop arr lo i n = Ok arr' /\
    rearranged lo (Z.of_nat (i + n)) arr arr' /\ sorted arr' lo (lo + Z.of_nat (i + n)).
Proof.
  revert arr i. induction n as [|n IH]; intros arr i Hw Hs.
  - rewrite Nat.add_0_r in *. exists arr. by split_and!.
  - cbn [ins_loop]. destruct (sink_spec arr lo (Z.of_nat (S i)) i) as (arr' & -> & Hr & Hs').
    + unfold within in *. lia.
    + lia.
    + intros a b Ha Hb Hne. apply Hs; lia.
    + cbn [mbind res_mbind res_bind].
      destruct (IH arr' (S i)) as (arr'' & -> & Hr' & Hs''); try done.
      { rewrite re_within by exact Hr. by replace (S i + n)%nat with (i + S n)%nat by lia. }
      replace (S i + n)%nat with (i + S n)%nat in * by lia.
      exists arr''. split_and!; [done| |done]. transitivity arr'; [|done].
      apply (re_widen _ _ _ _ _ _ Hr); lia.
Qed.

Lemma ins_sort_spec arr lo count :
  within arr lo (lo + count) -> 0 <= count ->
  exists arr', ins_sort arr lo count = Ok arr' /\
    rearranged lo count arr arr' /\ sorted arr' lo (lo + count).
Proof.
  intros Hw Hc. unfold ins_sort. destruct (Z.leb_spec count 1).
  - exists arr. split_and!; [done|reflexivity|]. intros i j. lia.
  - destruct (ins_loop_spec arr lo 1 (Z.to_nat (count - 1))) as (arr' & -> & Hr & Hs).
    + by replace (Z.of_nat (1 + Z.to_nat (count - 1))) with count by lia.
    + intros i j. lia.
    + replace (Z.of_nat (1 + Z.to_nat (count - 1))) with count in * by lia. by exists arr'.
Qed.

(** ** Partition *)

Lemma scan_left_spec fuel arr ma left stop :
  left <= stop -> (forall i, left <= i <= stop -> inside arr i) -> inside arr ma ->
  keyat arr ma <= keyat arr stop -> stop - left <= Z.of_nat fuel ->
  exists j, scan_left fuel arr ma left = Ok j /\ left <= j <= stop /\
    keyat arr ma <= keyat arr j /\ forall i, left <= i < j -> keyat arr i < keyat arr ma.
Proof.
  revert left. induction fuel as [|fuel IH]; intros left Hl Hin Hma Hst Hf;
    cbn [scan_left]; rewrite less_inside by (done || (apply Hin; lia)); cbn [mbind res_mbind res_bind];
    destruct (Z.ltb_spec (keyat arr left) (keyat arr ma)) as [Hlt|Hge]; cbn [negb].
  2,4: exists left; split_and!; (done || lia).
  - assert (left = stop) as -> by lia. lia.
  - destruct (IH (left + 1)) as (j & -> & Hj & Hk & Hall); try done.
    + destruct (decide (left = stop)) as [->|]; lia.
    + intros i Hi. apply Hin. lia.
    + lia.
    + exists j. split_and!; try done; try lia. intros i Hi.
      destruct (decide (i = left)) as [->|]; [done|]. apply Hall. lia.
Qed.

Lemma scan_right_spec fuel arr ma right stop :
  stop <= right -> (forall i, stop <= i <= right -> inside arr i) -> inside arr ma ->
  keyat arr stop <= keyat arr ma -> right - stop <= Z.of_nat fuel ->
  exists j, scan_right fuel arr ma right = Ok j /\ stop <= j <= right /\
    keyat arr j <= keyat arr ma /\ forall i, j < i <= right -> keyat arr ma < keyat arr i.
Proof.
  revert right. induction fuel as [|fuel IH]; intros right Hl Hin Hma Hst Hf;
    cbn [scan_right]; rewrite less_inside by (done || (apply Hin; lia)); cbn [mbind res_mbind res_bind];
    destruct (Z.ltb_spec (keyat arr ma) (keyat arr right)) as [Hlt|Hge]; cbn [negb].
  2,4: exists right; split_and!; (done || lia).
  - assert (right = stop) as -> by lia. lia.
  - destruct (IH (right - 1)) as (j & -> & Hj & Hk & Hall); try done.
    + destruct (decide (right = stop)) as [->|]; lia.
    + intros i Hi. apply Hin. lia.
    + lia.
    + exists j. split_and!; try done; try lia. intros i Hi.
      destruct (decide (i = right)) as [->|]; [done|]. apply Hall. lia.
Qed.

(** Distinct keys in a part of the array. *)
Definition distinct arr (lo hi : Z) : Prop :=
  forall i j, lo <= i < j -> j < hi -> keyat arr i <> keyat arr j.

Lemma re_distinct lo hi arr arr' p q :
  distinct arr lo hi -> lo <= p < hi -> lo <= q < hi ->
  (forall k, keyat arr' k = if decide (k = p) then keyat arr q
                            else if decide (k = q) then keyat arr p else keyat arr k) ->
  distinct arr' lo hi.
Proof.
  intros Hd Hp Hq Hat i j Hi Hj. rewrite !Hat.
  assert (forall a b, lo <= a < hi -> lo <= b < hi -> a <> b -> keyat arr a <> keyat arr b) as Hd'.
  { intros a b Ha Hb Hab. destruct (Z.lt_total a b) as [?|[?|?]]; [|done|]; [|apply not_eq_sym]; apply Hd; lia. }
  repeat case_decide; subst; try lia; apply Hd'; lia.
Qed.

(** One round of the two scans. *)
Lemma scan_round arr lo hi left right l0 r0 :
  within arr lo hi ->
  lo < left <= l0 -> l0 <= r0 + 1 -> r0 <= right < hi - 1 ->
  (forall i, lo < i < l0 -> keyat arr i < keyat arr lo) ->
  (forall i, r0 < i < hi -> keyat arr lo < keyat arr i) ->
  exists j k, scan_left (length arr) arr lo left = Ok j /\
    scan_right (length arr) arr lo right = Ok k /\
    l0 <= j <= r0 + 1 /\ lo <= k <= r0 /\ l0 - 1 <= k /\
    keyat arr lo <= keyat arr j /\ keyat arr k <= keyat arr lo /\
    (forall i, lo < i < j -> keyat arr i < keyat arr lo) /\
    (forall i, k < i < hi -> keyat arr lo < keyat arr i).
Proof.
  intros Hw Hl Hlr Hr Hlt Hgt.
  pose proof (fun i => within_inside arr lo hi i Hw) as Hin. unfold within in Hw.
  destruct (scan_left_spec (length arr) arr lo left (r0 + 1)) as (j & Ej & Hj & Hkj & Hallj);
    [lia|intros; apply Hin; lia|apply Hin; lia|apply Z.lt_le_incl, Hgt; lia|lia|].
  destruct (scan_right_spec (length arr) arr lo right (l0 - 1)) as (k & Ek & Hk & Hkk & Hallk);
    [lia|intros; apply Hin; lia|apply Hin; lia
    |destruct (decide (l0 - 1 = lo)) as [->|]; [done|apply Z.lt_le_incl, Hlt; lia]|lia|].
  assert (l0 <= j). { apply Z.nlt_ge. intros H. specialize (Hlt j). lia. }
  assert (k <= r0). { apply Z.nlt_ge. intros H'. specialize (Hgt k). lia. }
  exists j, k. split_and!; try done; try lia.
  - intros i Hi. destruct (decide (i < l0)); [apply Hlt; lia|apply Hallj; lia].
  - intros i Hi. destruct (decide (r0 < i)); [apply Hgt; lia|apply Hallk; lia].
Qed.

(** [l0] and [r0] bound the items not yet known to be on their side. *)
Lemma partition_spec fuel arr lo hi left right l0 r0 :
  within arr lo hi -> distinct arr lo hi ->
  lo < left <= l0 -> l0 <= r0 + 1 -> r0 <= right < hi - 1 -> r0 - l0 + 1 <= Z.of_nat fuel ->
  (forall i, lo < i < l0 -> keyat arr i < keyat arr lo) ->
  (forall i, r0 < i < hi -> keyat arr lo < keyat arr i) ->
  exists arr' r, partition fuel arr lo left right = Ok (arr', r) /\ lo <= r < hi - 1 /\
    rearranged (lo + 1) (hi - 1 - lo) arr arr' /\ distinct arr' lo hi /\
    (forall i, lo < i <= r -> keyat arr' i < keyat arr' lo) /\
    (forall i, r < i < hi -> keyat arr' lo < keyat arr' i).
Proof.
  revert arr left right l0 r0. induction fuel as [|fuel IH];
    intros arr left right l0 r0 Hw Hd Hl Hlr Hr Hf Hlt Hgt;
    destruct (scan_round arr lo hi left right l0 r0)
      as (j & k & Ej & Ek & Hj & Hk & Hk' & Hkj & Hkk & Hallj & Hallk); try done;
    cbn [partition]; rewrite Ej; cbn [mbind res_mbind res_bind]; rewrite Ek; cbn [mbind res_mbind res_bind];
    (destruct (Z.leb_spec k j);
     [exists arr, k; split_and!; try done; try lia; intros i Hi;
      destruct (decide (i < j)); [apply Hallj; lia|];
      assert (i = j) as -> by lia; assert (k = j) as -> by lia; exfalso; apply (Hd lo j); lia|]).
  - lia.
  - destruct (SWAP_inside arr j k (lo + 1) (hi - 1 - lo)) as (arr' & -> & Hre & Hat); try lia.
    1,2: eapply within_inside; [done|lia].
    cbn [mbind res_mbind res_bind].
    assert (distinct arr' lo hi) as Hd' by (eapply re_distinct; [exact Hd| | |exact Hat]; lia).
    destruct (IH arr' j k (j + 1) (k - 1)) as (arr'' & r & -> & Hr' & Hre' & Hrest); try done; try lia.
    + by rewrite re_within.
    + assert (keyat arr k < keyat arr lo) as Hs.
      { assert (keyat arr lo <> keyat arr k); [apply Hd; lia|lia]. }
      intros i Hi. rewrite !Hat. repeat (case_decide; try lia). apply Hallj. lia.
    + assert (keyat arr lo < keyat arr j) as Hs.
      { assert (keyat arr lo <> keyat arr j); [apply Hd; lia|lia]. }
      intros i Hi. rewrite !Hat. repeat (case_decide; try lia). apply Hallk. lia.
    + exists arr'', r. split_and!; try done; [lia|lia|by transitivity arr'|apply Hrest..].
Qed.

Lemma order_spec arr i j lo n :
  inside arr i -> inside arr j -> i <> j -> lo <= i < lo + n -> lo <= j < lo + n ->
  distinct arr lo (lo + n) ->
  exists arr', order arr i j = Ok arr' /\ rearranged lo n arr arr' /\
    distinct arr' lo (lo + n) /\ keyat arr' j <= keyat arr' i /\
    (keyat arr' i = Z.max (keyat arr i) (keyat arr j)).
Proof.
  intros Hi Hj Hij Hi' Hj' Hd. unfold order. rewrite less_inside by done. cbn [mbind res_mbind res_bind].
  destruct (Z.ltb_spec (keyat arr i) (keyat arr j)).
  - destruct (SWAP_inside arr i j lo n) as (arr' & -> & Hre & Hat); try done.
    exists arr'. split_and!; try done.
    + eapply re_distinct; [exact Hd| | |exact Hat]; lia.
    + rewrite !Hat. repeat (case_decide; try lia).
    + rewrite !Hat. repeat (case_decide; try lia).
  - exists arr. split_and!; (done || lia).
Qed.

(** A rearrangement of a part keeps distinctness and what holds of all its
    keys. *)
Lemma re_forall lo n arr arr' (P : Z -> Prop) :
  rearranged lo n arr arr' -> within arr lo (lo + n) ->
  (forall i, lo <= i < lo + n -> P (keyat arr i)) ->
  forall i, lo <= i < lo + n -> P (keyat arr' i).
Proof.
  intros Hre Hw HP i Hi. destruct (re_in _ _ _ _ Hre i Hi) as (j & Hj & _ & ->).
  - eapply within_inside; done.
  - by apply HP.
Qed.

(** Sorting both sides of the separator sorts the whole. *)
Lemma sides_sorted arr a1 a2 lo hi r pv :
  within arr lo hi -> lo <= r < hi -> keyat arr r = pv ->
  (forall i, lo <= i < r -> keyat arr i < pv) ->
  (forall i, r < i < hi -> pv < keyat arr i) ->
  rearranged lo (r - lo) arr a1 -> sorted a1 lo r ->
  rearranged (r + 1) (hi - r - 1) a1 a2 -> sorted a2 (r + 1) hi ->
  rearranged lo (hi - lo) arr a2 /\ sorted a2 lo hi.
Proof.
  intros Hw Hr Hp Hlt Hgt H1 Hs1 H2 Hs2.
  assert (forall i, lo <= i < r -> keyat a2 i = keyat a1 i) as Hl by (intros; eapply re_keyat_out; [exact H2|lia]).
  assert (keyat a2 r = pv) as Hpv.
  { rewrite (re_keyat_out _ _ _ _ _ H2), (re_keyat_out _ _ _ _ _ H1); (done || lia). }
  assert (forall i, lo <= i < r -> keyat a1 i < pv) as Hlt1.
  { intros i Hi. apply (re_forall _ _ _ _ (fun k => k < pv) H1); [unfold within in *; lia| |lia].
    intros; apply Hlt; lia. }
  assert (forall i, r < i < hi -> pv < keyat a2 i) as Hgt2.
  { intros i Hi. apply (re_forall _ _ _ _ (fun k => pv < k) H2); [|intros j Hj|lia].
    - apply (re_within _ _ _ _ _ _ H1). unfold within in *. lia.
    - rewrite (re_keyat_out _ _ _ _ _ H1) by lia. apply Hgt. lia. }
  split.
  - transitivity a1; [apply (re_widen _ _ _ _ _ _ H1)|apply (re_widen _ _ _ _ _ _ H2)]; lia.
  - intros i j Hi Hj. destruct (Z.lt_total j r) as [Hjr|[->|Hjr]].
    + rewrite !Hl by lia. apply Hs1; lia.
    + rewrite Hpv, Hl by lia. specialize (Hlt1 i). lia.
    + destruct (Z.lt_total i r) as [Hir|[->|Hir]].
      * rewrite Hl by lia. specialize (Hlt1 i). specialize (Hgt2 j). lia.
      * specialize (Hgt2 j). lia.
      * apply Hs2; lia.
Qed.

Lemma distinct_ext arr arr' lo hi : (forall i, lo <= i < hi -> keyat arr' i = keyat arr i) ->
  distinct arr lo hi -> distinct arr' lo hi.
Proof. intros He Hd i j Hi Hj. rewrite !He by lia. by apply Hd. Qed.

Lemma qsort_spec fuel arr lo count :
  within arr lo (lo + count) -> 0 <= count -> distinct arr lo (lo + count) ->
  count <= Z.of_nat fuel ->
  exists arr', qsort fuel arr lo count = Ok arr' /\
    rearranged lo count arr arr' /\ sorted arr' lo (lo + count).
Proof.
  revert arr lo count. induction fuel as [|fuel IH]; intros arr lo count Hw Hc Hd Hf.
  { assert (count = 0) as -> by lia. exists arr. split_and!; [done|reflexivity|]. intros i j. lia. }
  cbn [qsort]. destruct (Z.leb_spec count 1).
  { exists arr. split_and!; [done|reflexivity|]. intros i j. lia. }
  unfold QSORT_THRESHOLD. destruct (Z.ltb_spec count 4); [by apply ins_sort_spec|].
  pose proof (fun i => within_inside arr lo (lo + count) i Hw) as Hin.
  assert (0 < count / 2 < count) by mlia.
  destruct (order_spec arr lo (lo + count / 2) lo count) as (a1 & -> & Hr1 & Hd1 & _ & _);
    try done; try lia; try (apply Hin; lia).
  cbn [mbind res_mbind res_bind].
  destruct (order_spec a1 (lo + (count - 1)) lo lo count) as (a2 & -> & Hr2 & Hd2 & Hle & _);
    try done; try lia; try (rewrite re_inside by done; apply Hin; lia).
  cbn [mbind res_mbind res_bind].
  destruct (partition_spec fuel a2 lo (lo + count) (lo + 1) (lo + (count - 1) - 1) (lo + 1) (lo + count - 2))
    as (a3 & r & -> & Hr & Hr3 & Hd3 & Hlt & Hgt); try lia; try done.
  { by rewrite !re_within by done. }
  { intros i Hi. assert (i = lo + (count - 1)) as -> by lia.
    assert (keyat a2 lo <> keyat a2 (lo + (count - 1))); [apply Hd2; lia|lia]. }
  cbn [mbind res_mbind res_bind].
  assert (rearranged lo count arr a3) as Hra3.
  { transitivity a1; [done|]. transitivity a2; [done|]. apply (re_widen _ _ _ _ _ _ Hr3); lia. }
  destruct (SWAP_inside a3 lo r lo count) as (a4 & -> & Hr4 & Hat);
    try lia; try (rewrite re_inside by done; apply Hin; lia).
  cbn [mbind res_mbind res_bind].
  assert (distinct a4 lo (lo + count)) as Hd4 by (eapply re_distinct; [exact Hd3| | |exact Hat]; lia).
  assert (rearranged lo count arr a4) as Hra4 by by transitivity a3.
  destruct (IH a4 lo (r - lo)) as (a5 & -> & Hr5 & Hs5); try lia.
  { rewrite re_within by exact Hra4. unfold within in *. lia. }
  { intros i j Hi Hj. apply Hd4; lia. }
  cbn [mbind res_mbind res_bind].
  destruct (IH a5 (r + 1) (count - (r - lo) - 1)) as (a6 & -> & Hr6 & Hs6); try lia.
  { rewrite re_within by exact Hr5. rewrite re_within by exact Hra4. unfold within in *. lia. }
  { apply distinct_ext with a4; [intros; eapply re_keyat_out; [exact Hr5|lia]|].
    intros i j Hi Hj. apply Hd4; lia. }
  exists a6. split; [done|].
  destruct (sides_sorted a4 a5 a6 lo (lo + count) r (keyat a3 lo)) as [Hre Hso]; try lia.
  - by rewrite re_within by exact Hra4.
  - rewrite Hat. case_decide; [by subst|]. by case_decide.
  - intros i Hi. rewrite Hat. case_decide; [|case_decide; [lia|]]; apply Hlt; lia.
  - intros i Hi. rewrite Hat. repeat (case_decide; try lia). apply Hgt. lia.
  - done.
  - replace (lo + (r - lo)) with r in Hs5 by lia. done.
  - by replace (lo + count - r - 1) with (count - (r - lo) - 1) by lia.
  - replace (r + 1 + (count - (r - lo) - 1)) with (lo + count) in Hs6 by lia. done.
  - split; [|done]. transitivity a4; [done|].
    replace (lo + count - lo) with count in Hre by lia. done.
Qed.

End sort.

(** ** Theorems *)

(** An array is in order by the keys of its items. *)
Definition in_order {A} (key : A -> Z) (arr : list A) : Prop :=
  forall (i j : nat) x y, (i < j)%nat -> arr !! i = Some x -> arr !! j = Some y -> key x <= key y.

Lemma keyat_lookup {A} (key : A -> Z) arr (i : nat) x :
  arr !! i = Some x -> keyat key arr (Z.of_nat i) = key x.
Proof. intros E. unfold keyat. by rewrite zlookup_nat, E. Qed.

Lemma sorted_in_order {A} (key : A -> Z) arr :
  sorted key arr 0 (0 + Z.of_nat (length arr)) -> in_order key arr.
Proof.
  intros Hs i j x y Hij Hx Hy.
  rewrite <- (keyat_lookup key arr i x Hx), <- (keyat_lookup key arr j y Hy).
  apply Hs; [lia|]. apply lookup_lt_Some in Hy. lia.
Qed.

(** C25. [qsort] terminates and sorts every array whose items have distinct
    keys: the result is a permutation of the array, in order, and no item
    outside the array was read. *)
Theorem qsort_sorts {A} (cmp : A -> A -> Z) (key : A -> Z) fuel arr :
  (forall x y, cmp x y < 0 <-> key x < key y) -> NoDup (key <$> arr) ->
  (length arr <= fuel)%nat ->
  exists arr', qsort cmp fuel arr 0 (Z.of_nat (length arr)) = Ok arr' /\
    arr' ≡ₚ arr /\ in_order key arr'.
Proof.
  intros Hcmp Hnd Hf.
  destruct (qsort_spec cmp key Hcmp fuel arr 0 (Z.of_nat (length arr))) as (arr' & E & Hr & Hs);
    [split; lia|lia| |lia|].
  - intros i j Hi Hj Heq. destruct (zlookup_is_Some arr i ltac:(lia)) as [x Ex].
    destruct (zlookup_is_Some arr j ltac:(lia)) as [y Ey].
    unfold keyat in Heq. rewrite Ex, Ey in Heq. simpl in Heq.
    unfold zlookup in Ex, Ey. destruct (Z.ltb_spec i 0), (Z.ltb_spec j 0); try lia.
    assert (Z.to_nat i = Z.to_nat j); [|lia].
    eapply (NoDup_lookup _ _ _ _ Hnd); rewrite list_lookup_fmap; [rewrite Ex|rewrite Ey]; simpl; [done|].
    by rewrite Heq.
  - exists arr'. split_and!; [done|apply Hr|]. apply sorted_in_order.
    by rewrite (Permutation_length (re_perm _ _ _ _ _ Hr)).
Qed.

Lemma qsort_sorts_witness : exists arr',
  qsort Z.sub 7 [5; 3; 9; 1; 7; 2; 8] 0 7 = Ok arr' /\ arr' ≡ₚ [5; 3; 9; 1; 7; 2; 8] /\
  in_order (fun x => x) arr'.
Proof.
  apply (qsort_sorts Z.sub (fun x => x) 7 [5; 3; 9; 1; 7; 2; 8]); [lia| |simpl; lia].
  simpl. repeat (constructor; [set_solver by lia|]). constructor.
Defined.

(** [ins_sort] sorts every array, equal keys included. *)
Theorem ins_sort_sorts {A} (cmp : A -> A -> Z) (key : A -> Z) arr :
  (forall x y, cmp x y < 0 <-> key x < key y) ->
  exists arr', ins_sort cmp arr 0 (Z.of_nat (length arr)) = Ok arr' /\
    arr' ≡ₚ arr /\ in_order key arr'.
Proof.
  intros Hcmp.
  destruct (ins_sort_spec cmp key Hcmp arr 0 (Z.of_nat (length arr))) as (arr' & E & Hr & Hs);
    [split; lia|lia|].
  exists arr'. split_and!; [done|apply Hr|]. apply sorted_in_order.
  by rewrite (Permutation_length (re_perm _ _ _ _ _ Hr)).
Qed.

Lemma ins_sort_sorts_witness : exists arr',
  ins_sort Z.sub [5; 3; 5] 0 3 = Ok arr' /\ arr' ≡ₚ [5; 3; 5] /\ in_order (fun x => x) arr'.
Proof. apply (ins_sort_sorts Z.sub (fun x => x) [5; 3; 5]). lia. Defined.

Section equal_items.
Context {A : Type} (cmp : A -> A -> Z) (x : A) (Hxx : cmp x x = 0).

Lemma zlookup_replicate n i : 0 <= i < Z.of_nat n -> zlookup (replicate n x) i = Some x.
Proof.
  intros Hi. unfold zlookup. destruct (Z.ltb_spec i 0); [lia|]. apply lookup_replicate_2. lia.
Qed.

Lemma less_replicate n i j : 0 <= i < Z.of_nat n -> 0 <= j < Z.of_nat n ->
  less cmp (replicate n x) i j = Ok false.
Proof. intros Hi Hj. unfold less, item. rewrite !zlookup_replicate by done. simpl. by rewrite Hxx. Qed.

Lemma SWAP_replicate n i j : 0 <= i < Z.of_nat n -> 0 <= j < Z.of_nat n ->
  SWAP (replicate n x) i j = Ok (replicate n x).
Proof.
  intros Hi Hj. unfold SWAP, item. rewrite !zlookup_replicate by done. simpl. f_equal.
  by rewrite !insert_replicate.
Qed.

Lemma partition_replicate n fuel left right :
  0 <= left < right -> right < Z.of_nat n -> partition cmp fuel (replicate n x) 0 left right = NoFuel.
Proof.
  intros Hl Hr. assert (exists k, length (replicate n x) = S k) as [k Hk].
  { rewrite length_replicate. exists (n - 1)%nat. lia. }
  induction fuel as [|fuel IH]; cbn [partition]; rewrite Hk; cbn [scan_left scan_right];
    rewrite !less_replicate by lia; cbn [mbind res_mbind res_bind negb];
    destruct (Z.leb_spec right left); try lia;
    rewrite SWAP_replicate by lia; cbn [mbind res_mbind res_bind]; [done|exact IH].
Qed.
End equal_items.

(** On four or more equal items [qsort] never returns: both scans stop at
    once, the two items are swapped and neither pointer moves. *)
Theorem qsort_equal_diverges {A} (cmp : A -> A -> Z) (x : A) n fuel :
  cmp x x = 0 -> (4 <= n)%nat ->
  qsort cmp fuel (replicate n x) 0 (Z.of_nat n) = NoFuel.
Proof.
  intros Hx Hn. assert (0 < Z.of_nat n / 2 < Z.of_nat n) by mlia.
  destruct fuel as [|fuel]; cbn [qsort]; destruct (Z.leb_spec (Z.of_nat n) 1); try lia;
    unfold QSORT_THRESHOLD; destruct (Z.ltb_spec (Z.of_nat n) 4); try lia; [done|].
  unfold order. rewrite less_replicate by (done || lia). cbn [mbind res_mbind res_bind].
  rewrite less_replicate by (done || lia). cbn [mbind res_mbind res_bind].
  rewrite partition_replicate by (done || lia). done.
Qed.

Lemma qsort_equal_diverges_witness : qsort Z.sub 1000 [7; 7; 7; 7] 0 4 = NoFuel.
Proof. apply (qsort_equal_diverges Z.sub 7 4 1000); [reflexivity|lia]. Defined.
