(* ===== verification/Bits.v ===== *)
(** * Bit-field reasoning by computation

    Descriptors, register addresses and colour masks are built from shifts
    and masks. [bexpr] is the syntax of such an expression over some unknown
    words; bit [i] of it is a formula over the bits of the unknowns, computed
    by [bit]. The tactic [bitfield env] proves [u32 x = u32 y] by comparing the
    formulas of the 32 bits of both sides, [env] listing the unknowns. *)
From S2P Require Import Prelude.

Inductive bexpr :=
| BVar (n : nat)
| BConst (z : Z)
| BOr (a b : bexpr)
| BAnd (a b : bexpr)
| BShl (a : bexpr) (k : Z)
| BShr (a : bexpr) (k : Z)
| BTrunc (w : Z) (a : bexpr).

Fixpoint denote (env : list Z) (e : bexpr) : Z :=
  match e with
  | BVar n => nth n env 0
  | BConst z => z
  | BOr a b => Z.lor (denote env a) (denote env b)
  | BAnd a b => Z.land (denote env a) (denote env b)
  | BShl a k => Z.shiftl (denote env a) k
  | BShr a k => Z.shiftr (denote env a) k
  | BTrunc w a => denote env a mod 2 ^ w
  end.

(** Formulas over the bits of the unknowns. *)
Inductive fm :=
| FBool (b : bool)
| FBit (n : nat) (i : Z)
| FOr (a b : fm)
| FAnd (a b : fm).

#[export] Instance fm_eq_dec : EqDecision fm.
Proof. solve_decision. Defined.

Fixpoint holds (env : list Z) (f : fm) : bool :=
  match f with
  | FBool b => b
  | FBit n i => Z.testbit (nth n env 0) i
  | FOr a b => holds env a || holds env b
  | FAnd a b => holds env a && holds env b
  end.

Definition for_ (a b : fm) : fm :=
  match a, b with
  | FBool true, _ | _, FBool true => FBool true
  | FBool false, c | c, FBool false => c
  | _, _ => FOr a b
  end.
Definition fand (a b : fm) : fm :=
  match a, b with
  | FBool false, _ | _, FBool false => FBool false
  | FBool true, c | c, FBool true => c
  | _, _ => FAnd a b
  end.

Lemma holds_for env a b : holds env (for_ a b) = holds env a || holds env b.
Proof. destruct a as [[]| | |], b as [[]| | |]; simpl; rewrite ?orb_true_r, ?orb_false_r; done. Qed.
Lemma holds_fand env a b : holds env (fand a b) = holds env a && holds env b.
Proof. destruct a as [[]| | |], b as [[]| | |]; simpl; rewrite ?andb_true_r, ?andb_false_r; done. Qed.

Fixpoint bit (e : bexpr) (i : Z) : fm :=
  if i <? 0 then FBool false else
  match e with
  | BVar n => FBit n i
  | BConst z => FBool (Z.testbit z i)
  | BOr a b => for_ (bit a i) (bit b i)
  | BAnd a b => fand (bit a i) (bit b i)
  | BShl a k => bit a (i - k)
  | BShr a k => bit a (i + k)
  | BTrunc w a => if i <? w then bit a i else FBool false
  end.

(** Shift counts and widths are not negative. *)
Fixpoint shifts_ok (e : bexpr) : bool :=
  match e with
  | BVar _ | BConst _ => true
  | BOr a b | BAnd a b => shifts_ok a && shifts_ok b
  | BShl a k | BShr a k | BTrunc k a => (0 <=? k) && shifts_ok a
  end.

Lemma bit_spec env e i : shifts_ok e = true -> holds env (bit e i) = Z.testbit (denote env e) i.
Proof.
  revert i. induction e as [n|z|a IHa b IHb|a IHa b IHb|a IHa k|a IHa k|w a IHa]; intros i Hok; cbn [bit denote shifts_ok] in *;
    (destruct (Z.ltb_spec i 0); [by rewrite Z.testbit_neg_r by lia|]).
  - done.
  - done.
  - apply andb_prop in Hok as [Ha Hb]. by rewrite holds_for, IHa, IHb, Z.lor_spec.
  - apply andb_prop in Hok as [Ha Hb]. by rewrite holds_fand, IHa, IHb, Z.land_spec.
  - apply andb_prop in Hok as [Hk Ha]. rewrite IHa by done. by rewrite Z.shiftl_spec by lia.
  - apply andb_prop in Hok as [Hk Ha]. rewrite IHa by done. by rewrite Z.shiftr_spec by lia.
  - apply andb_prop in Hok as [Hk Ha]. apply Z.leb_le in Hk. destruct (Z.ltb_spec i w).
    + rewrite IHa by done. by rewrite Z.mod_pow2_bits_low by lia.
    + by rewrite Z.mod_pow2_bits_high by lia.
Qed.

Definition same_bits (x y : bexpr) : bool :=
  shifts_ok x && shifts_ok y &&
  forallb (fun i => bool_decide (bit x i = bit y i)) (zseq 0 32).

Lemma same_bits_sound env x y :
  same_bits x y = true -> u32 (denote env x) = u32 (denote env y).
Proof.
  unfold same_bits. intros [[Hx Hy]%andb_prop H]%andb_prop.
  apply Z.bits_inj'. intros n Hn. rewrite !u32_bits by lia.
  destruct (Z.ltb_spec n 32); [|done]. simpl.
  rewrite <- !bit_spec by done. f_equal.
  rewrite forallb_forall in H. specialize (H n).
  apply (bool_decide_eq_true_1 (bit x n = bit y n)), H. apply list_elem_of_In, elem_of_zseq. lia.
Qed.

Ltac reify_var env t :=
  lazymatch env with
  | t :: _ => constr:(Some O)
  | _ :: ?env => lazymatch reify_var env t with Some ?n => constr:(Some (S n)) | None => constr:(@None nat) end
  | _ => constr:(@None nat)
  end.
Ltac reify env t :=
  lazymatch t with
  | Z.lor ?a ?b => let a := reify env a in let b := reify env b in constr:(BOr a b)
  | Z.land ?a ?b => let a := reify env a in let b := reify env b in constr:(BAnd a b)
  | Z.shiftl ?a ?k => let a := reify env a in constr:(BShl a k)
  | Z.shiftr ?a ?k => let a := reify env a in constr:(BShr a k)
  | u32 ?a => let a := reify env a in constr:(BTrunc 32 a)
  | u16 ?a => let a := reify env a in constr:(BTrunc 16 a)
  | u8 ?a => let a := reify env a in constr:(BTrunc 8 a)
  | _ => lazymatch reify_var env t with Some ?n => constr:(BVar n) | None => constr:(BConst t) end
  end.
Ltac bitfield env :=
  lazymatch goal with
  | |- u32 ?x = u32 ?y =>
      let ex := reify env x in let ey := reify env y in
      apply (same_bits_sound env ex ey); vm_compute; reflexivity
  end.
