(* ===== verification/Io.v ===== *)
(** * Port input and output (src/asmops.h, the flag functions of src/intr_asm.S)

    The devices are outside the program: what a port read returns is a
    function [dev] of everything that happened on the ports before and of the
    port, a parameter of every driver. A driver runs in a state monad over the
    trace of port accesses (latest first) and the interrupt flag. *)
From S2P Require Import Prelude.

(** Access of [width] bits to [port]. *)
Inductive io_event :=
| EIn (width port v : Z)
| EOut (width port v : Z).

#[export] Instance io_event_eq_dec : EqDecision io_event.
Proof. solve_decision. Defined.

Record world := mk_world { trace : list io_event; intr_on : bool }.

Class Device := dev : list io_event -> Z -> Z -> Z.

Definition IO (A : Type) : Type := world -> res (A * world).

#[global] Instance io_mret : MRet IO := fun _ a w => Ok (a, w).
#[global] Instance io_mbind : MBind IO := fun _ _ f m w =>
  match m w with
  | Ok (a, w) => f a w
  | Panic => Panic
  | Fault => Fault
  | NoFuel => NoFuel
  end.

(** A computation that may fail, without port access. *)
Definition lift {A} (r : res A) : IO A := fun w =>
  match r with
  | Ok a => Ok (a, w)
  | Panic => Panic
  | Fault => Fault
  | NoFuel => NoFuel
  end.

Definition wrap (width v : Z) : Z := v mod 2 ^ width.

Section ports.
Context `{Device}.

Definition input (width port : Z) : IO Z := fun w =>
  let v := wrap width (dev (trace w) width (u16 port)) in
  Ok (v, mk_world (EIn width (u16 port) v :: trace w) (intr_on w)).
Definition inb (port : Z) : IO Z := input 8 port.
Definition inw (port : Z) : IO Z := input 16 port.
Definition inl (port : Z) : IO Z := input 32 port.
End ports.

Definition output (width v port : Z) : IO unit := fun w =>
  Ok (tt, mk_world (EOut width (u16 port) (wrap width v) :: trace w) (intr_on w)).
Definition outb (v port : Z) : IO unit := output 8 v port.
Definition outw (v port : Z) : IO unit := output 16 v port.
Definition outl (v port : Z) : IO unit := output 32 v port.

Definition iodelay : IO unit := outb 0 0x80.

Definition get_intr_flag : IO bool := fun w => Ok (intr_on w, w).
Definition set_intr_flag (onoff : bool) : IO unit := fun w => Ok (tt, mk_world (trace w) onoff).
Definition disable_intr : IO unit := set_intr_flag false.
Definition enable_intr : IO unit := set_intr_flag true.

(** The writes [p1] to the ports, first write first, as trace events. *)
Definition outs (l : list (Z * Z)) : list io_event :=
  rev ((fun '(v, port) => EOut 8 port v) <$> l).

Lemma wrap_range width v : 0 <= width -> 0 <= wrap width v < 2 ^ width.
Proof. intros. apply Z.mod_pos_bound. apply Z.pow_pos_nonneg; lia. Qed.

Lemma bind_ok {A B} (m : IO A) (f : A -> IO B) w a w' :
  m w = Ok (a, w') -> (m ≫= f) w = f a w'.
Proof. intros E. unfold mbind, io_mbind. by rewrite E. Qed.

(** A bind that ends well went through both parts. *)
Lemma bind_inv {A B} (m : IO A) (f : A -> IO B) w b w'' :
  (m ≫= f) w = Ok (b, w'') -> exists a w', m w = Ok (a, w') /\ f a w' = Ok (b, w'').
Proof. unfold mbind, io_mbind. destruct (m w) as [[a w']| | |]; try done. by eexists _, _. Qed.
Lemma io_mret_inv {A} (a r : A) w w' : (mret a : IO A) w = Ok (r, w') -> r = a /\ w' = w.
Proof. by intros [= -> ->]. Qed.

(** [io] runs the monad's operations in the goal. *)
Ltac io :=
  cbv [mbind mret io_mbind io_mret lift inb inw inl input outb outw outl output
       iodelay get_intr_flag set_intr_flag disable_intr enable_intr] in *;
  cbn [trace intr_on].
