(* ===== verification/Intr.v ===== *)
(** * Interrupts and segments (src/intr.c, src/segm.c, src/intr.h, src/desc.h)

    [idt] and [gdt] are tables of 8-byte descriptors, [intr_func] the table of
    handlers. A handler is a name of type [F]; [call] gives its effect, which
    may itself use the functions of this file (a driver that sends the end of
    interrupt early). Entry points are the addresses [entry] of the code in
    intr_asm.S. *)
From S2P Require Import Prelude Bits Io.

(** Four 16-bit words. *)
Record desc := mk_desc { d0 : Z; d1 : Z; d2 : Z; d3 : Z }.

Definition IRQ_OFFSET : Z := 32.
Definition IRQ_TO_INTR (x : Z) : Z := x + IRQ_OFFSET.
Definition INTR_TO_IRQ (x : Z) : Z := x - IRQ_OFFSET.
Definition IS_IRQ (n : Z) : bool := (IRQ_OFFSET <=? n) && (n <? IRQ_OFFSET + 16).

Definition SYSCALL_INT : Z := 0x80.
Definition GATE_INTR : Z := Z.shiftl 6 8.
Definition GATE_TRAP : Z := Z.shiftl 7 8.
Definition GATE_DEFAULT : Z := Z.shiftl 1 11.
Definition GATE_PRESENT : Z := Z.shiftl 1 15.
Definition PIC1_CMD : Z := 0x20.
Definition PIC1_DATA : Z := 0x21.
Definition PIC2_CMD : Z := 0xa0.
Definition PIC2_DATA : Z := 0xa1.
Definition ICW1_ICW4_NEEDED : Z := 1.
Definition ICW1_INIT : Z := Z.shiftl 1 4.
Definition ICW4_8086 : Z := 1.
Definition OCW2_EOI : Z := Z.shiftl 1 5.

Definition SEGM_KCODE : Z := 1.
Definition SEGM_KDATA : Z := 2.
Definition SEGM_UCODE : Z := 3.
Definition SEGM_UDATA : Z := 4.
Definition SEGM_TASK : Z := 5.
Definition SEGM_CODE16 : Z := 6.
Definition NUM_SEGMENTS : nat := 7.

(** ** Segment descriptors *)

Definition BIT_WR : Z := Z.shiftl 1 9.
Definition BIT_RD : Z := Z.shiftl 1 9.
Definition BIT_CODE : Z := Z.shiftl 1 11.
Definition BIT_NOSYS : Z := Z.shiftl 1 12.
Definition BIT_PRESENT : Z := Z.shiftl 1 15.
Definition BIT_BIG : Z := Z.shiftl 1 6.
Definition BIT_GRAN : Z := Z.shiftl 1 7.
Definition TSS_TYPE_BITS : Z := Z.shiftl 9 8.
Inductive segtype := TYPE_DATA | TYPE_CODE.

Definition type_bits (type : segtype) : Z :=
  match type with TYPE_DATA => BIT_WR | TYPE_CODE => Z.lor BIT_RD BIT_CODE end.

Definition segm_desc (base limit dpl : Z) (type : segtype) : desc :=
  mk_desc (Z.land limit 0xffff) (Z.land base 0xffff)
    (u16 (Z.lor (Z.lor (Z.lor (Z.lor (Z.land (Z.shiftr base 16) 0xff) (Z.shiftl (Z.land dpl 3) 13))
       BIT_PRESENT) BIT_NOSYS) (type_bits type)))
    (u16 (Z.lor (Z.lor (Z.lor (Z.land (Z.shiftr limit 16) 0xf) (Z.land (Z.shiftr base 16) 0xff00))
       BIT_GRAN) BIT_BIG)).

Definition segm_desc16 (base limit dpl : Z) (type : segtype) : desc :=
  mk_desc (Z.land limit 0xffff) (Z.land base 0xffff)
    (u16 (Z.lor (Z.lor (Z.lor (Z.lor (Z.land (Z.shiftr base 16) 0xff) (Z.shiftl (Z.land dpl 3) 13))
       BIT_PRESENT) BIT_NOSYS) (type_bits type)))
    0.

Definition task_desc (base limit dpl : Z) : desc :=
  mk_desc (Z.land limit 0xffff) (Z.land base 0xffff)
    (u16 (Z.lor (Z.lor (Z.lor (Z.land (Z.shiftr base 16) 0xff) (Z.shiftl (Z.land dpl 3) 13))
       BIT_PRESENT) TSS_TYPE_BITS))
    (u16 (Z.lor (Z.lor (Z.land (Z.shiftr limit 16) 0xf) (Z.land (Z.shiftr base 16) 0xff00)) BIT_GRAN)).

Definition selector (idx rpl : Z) : Z := u16 (Z.lor (Z.shiftl idx 3) (Z.land rpl 3)).

Definition null_desc : desc := mk_desc 0 0 0 0.

(** The table [init_segm] loads, in the order of the assignments. *)
Definition init_segm : list desc :=
  let gdt := replicate NUM_SEGMENTS null_desc in
  let gdt := <[Z.to_nat SEGM_KCODE := segm_desc 0 0xffffffff 0 TYPE_CODE]> gdt in
  let gdt := <[Z.to_nat SEGM_KDATA := segm_desc 0 0xffffffff 0 TYPE_DATA]> gdt in
  let gdt := <[Z.to_nat SEGM_UCODE := segm_desc 0 0xffffffff 3 TYPE_CODE]> gdt in
  let gdt := <[Z.to_nat SEGM_UDATA := segm_desc 0 0xffffffff 3 TYPE_DATA]> gdt in
  <[Z.to_nat SEGM_CODE16 := segm_desc16 0 0xffff 0 TYPE_CODE]> gdt.

Definition TASK_STATE_SIZE : Z := 104.

(** The table and the selector loaded into the task register. *)
Definition set_tss (gdt : list desc) (addr : Z) : list desc * Z :=
  (<[Z.to_nat SEGM_TASK := task_desc addr (TASK_STATE_SIZE - 1) 3]> gdt, selector SEGM_TASK 0).

(** ** Interrupt gates *)

Definition gate_desc (sel addr dpl type : Z) : desc :=
  mk_desc (Z.land addr 0xffff) sel
    (u16 (Z.lor (Z.lor (Z.lor (Z.shiftl (Z.land dpl 3) 13) type) GATE_DEFAULT) GATE_PRESENT))
    (Z.shiftr (Z.land addr 0xffff0000) 16).

Definition IS_TRAP (n : Z) : bool := (32 <=? n) && negb (IS_IRQ n).

Section intr.
Context `{Device} {F : Type}.

Record intr := mk_intr {
  idt : list desc;
  intr_func : list (option F);
  eoi_pending : Z
}.

Definition set_intr_entry (st : intr) (num handler : Z) : res intr :=
  let type := if IS_TRAP num then GATE_TRAP else GATE_INTR in
  let dpl := if num =? SYSCALL_INT then 3 else 0 in
  idt' ← of_option (zinsert (idt st) num (gate_desc (selector SEGM_KCODE 0) handler dpl type));
  Ok (mk_intr idt' (intr_func st) (eoi_pending st)).

Definition interrupt (st : intr) (intr_num : Z) (func : option F) : IO intr :=
  iflag ← get_intr_flag;
  _ ← disable_intr;
  tab ← lift (of_option (zinsert (intr_func st) intr_num func));
  _ ← set_intr_flag iflag;
  mret (mk_intr (idt st) tab (eoi_pending st)).

Definition prog_pic (offs : Z) : IO unit :=
  _ ← outb (Z.lor ICW1_INIT ICW1_ICW4_NEEDED) PIC1_CMD;
  _ ← outb (Z.lor ICW1_INIT ICW1_ICW4_NEEDED) PIC2_CMD;
  _ ← outb offs PIC1_DATA;
  _ ← outb (offs + 8) PIC2_DATA;
  _ ← outb 4 PIC1_DATA;
  _ ← outb 2 PIC2_DATA;
  _ ← outb ICW4_8086 PIC1_DATA;
  _ ← outb ICW4_8086 PIC2_DATA;
  _ ← outb 0 PIC1_DATA;
  outb 0 PIC2_DATA.

Definition init_pic : IO unit := prog_pic IRQ_OFFSET.

(** [for(i=0; i<256; i++)], from [i] on. *)
Fixpoint init_entries (entry_default : Z) (n : nat) (i : Z) (st : intr) : IO intr :=
  match n with
  | O => mret st
  | S n =>
      st ← lift (set_intr_entry st i entry_default);
      st ← interrupt st i None;
      init_entries entry_default n (i + 1) st
  end.

(** The calls of [set_intr_entry] that intrtab.h expands to. *)
Definition intrtab : list Z := zseq 0 20 ++ zseq 32 16 ++ [128; 255].

Fixpoint set_entries (entry : Z -> Z) (tab : list Z) (st : intr) : res intr :=
  match tab with
  | [] => Ok st
  | n :: tab => st ← set_intr_entry st n (entry n); set_entries entry tab st
  end.

Definition init_intr (entry : Z -> Z) (entry_default irq7_spurious irq15_spurious : Z)
  (st : intr) : IO intr :=
  st ← init_entries entry_default 256 0 st;
  st ← lift (set_entries entry intrtab st);
  st ← lift (set_intr_entry st (IRQ_TO_INTR 7) irq7_spurious);
  st ← lift (set_intr_entry st (IRQ_TO_INTR 15) irq15_spurious);
  _ ← init_pic;
  mret (mk_intr (idt st) (intr_func st) 0).

Definition end_of_irq (st : intr) (irq : Z) : IO intr :=
  intr_state ← get_intr_flag;
  _ ← disable_intr;
  if eoi_pending st =? 0 then
    _ ← set_intr_flag intr_state;
    mret st
  else
    let st := mk_intr (idt st) (intr_func st) 0 in
    _ ← (if 7 <? irq then outb OCW2_EOI PIC2_CMD else mret tt);
    _ ← outb OCW2_EOI PIC1_CMD;
    _ ← set_intr_flag intr_state;
    mret st.

(** [call f inum st s]: the handler [f] runs, on the tables and on the state [S]
    of the drivers; [unhandled] prints its message on the console, a part of that
    state. *)
Definition dispatch_intr {S} (call : F -> Z -> intr -> S -> IO (intr * S)) (unhandled : Z -> S -> IO S)
  (st : intr) (s : S) (inum : Z) : IO (intr * S) :=
  let st := if IS_IRQ inum then mk_intr (idt st) (intr_func st) inum else st in
  h ← lift (of_option (zlookup (intr_func st) inum));
  '(st, s) ← (match h with
              | Some f => call f inum st s
              | None => if inum <? 32 then lift Panic else s ← unhandled inum s; mret (st, s)
              end);
  _ ← disable_intr;
  st ← (if negb (eoi_pending st =? 0) then end_of_irq st (INTR_TO_IRQ (eoi_pending st)) else mret st);
  mret (st, s).

Definition set_pic_mask (pic mask : Z) : IO unit :=
  outb mask (if 0 <? pic then PIC2_DATA else PIC1_DATA).
Definition get_pic_mask (pic : Z) : IO Z :=
  inb (if 0 <? pic then PIC2_DATA else PIC1_DATA).

Definition mask_irq (irq : Z) : IO unit :=
  let '(port, irq) := if irq <? 8 then (PIC1_DATA, irq) else (PIC2_DATA, irq - 8) in
  v ← inb port;
  outb (Z.lor v (Z.shiftl 1 irq)) port.
Definition unmask_irq (irq : Z) : IO unit :=
  let '(port, irq) := if irq <? 8 then (PIC1_DATA, irq) else (PIC2_DATA, irq - 8) in
  v ← inb port;
  outb (Z.land v (Z.lnot (Z.shiftl 1 irq))) port.
End intr.
Arguments intr F : clear implicits.

(** ** Theorems *)

(** What the processor reads from a descriptor (the disabled print_desc of
    segm.c spells it out). *)
Definition desc_base (d : desc) : Z :=
  u32 (Z.lor (Z.lor (d1 d) (Z.shiftl (Z.land (d2 d) 0xff) 16)) (Z.shiftl (Z.shiftr (d3 d) 8) 24)).
Definition desc_limit (d : desc) : Z := u32 (Z.lor (d0 d) (Z.shiftl (Z.land (d3 d) 0xf) 16)).
Definition desc_dpl (d : desc) : Z := u32 (Z.land (Z.shiftr (d2 d) 13) 3).
Definition desc_type (d : desc) : Z := u32 (Z.land (Z.shiftr (d2 d) 8) 0x1f).
Definition desc_present (d : desc) : bool := Z.testbit (d2 d) 15.
Definition gate_offset (d : desc) : Z := u32 (Z.lor (d0 d) (Z.shiftl (d3 d) 16)).

Ltac unfold_desc :=
  unfold desc_base, desc_limit, desc_dpl, desc_type, segm_desc, segm_desc16, task_desc, type_bits; cbn [d0 d1 d2 d3].

(** The segment descriptors [segm_desc] and [task_desc] build encode base,
    limit and privilege as the processor decodes them. *)
Theorem segm_desc_decode base limit dpl type :
  0 <= base < 4294967296 -> 0 <= limit < 4294967296 -> 0 <= dpl < 4 ->
  let d := segm_desc base limit dpl type in
  let t := task_desc base limit dpl in
  desc_base d = base /\ desc_base t = base /\
  desc_limit d = limit mod 1048576 /\ desc_limit t = limit mod 1048576 /\
  desc_dpl d = dpl /\ desc_dpl t = dpl /\
  desc_type d = (match type with TYPE_DATA => 0x12 | TYPE_CODE => 0x1a end) /\ desc_type t = 9.
Proof.
  intros Hb Hl Hd d t.
  assert (u32 (Z.land limit 0xfffff) = limit mod 1048576) as Hlim.
  { change 0xfffff with (Z.ones 20). rewrite Z.land_ones by lia. change (2 ^ 20) with 1048576.
    apply u32_small. mlia. }
  assert (u32 (Z.land dpl 3) = dpl) as Hdpl.
  { change 3 with (Z.ones 2). rewrite Z.land_ones by lia. change (2 ^ 2) with 4.
    rewrite Z.mod_small by lia. apply u32_small. lia. }
  unfold d, t. split_and!; unfold_desc.
  1,2: transitivity (u32 base); [destruct type; bitfield [base; limit; dpl]|by apply u32_small].
  1,2: rewrite <- Hlim; destruct type; bitfield [base; limit; dpl].
  1,2: transitivity (u32 (Z.land dpl 3)); [destruct type; bitfield [base; limit; dpl]|done].
  - transitivity (u32 match type with TYPE_DATA => 0x12 | TYPE_CODE => 0x1a end); [|by destruct type].
    destruct type; bitfield [base; limit; dpl].
  - transitivity (u32 9); [|done]. bitfield [base; limit; dpl].
Qed.

Lemma segm_desc_decode_witness :
  desc_base (segm_desc 0x12345678 0xffffffff 3 TYPE_CODE) = 0x12345678.
Proof. apply (segm_desc_decode 0x12345678 0xffffffff 3 TYPE_CODE); lia. Defined.

(** The gate [set_intr_entry] writes. *)
Definition gate (num handler : Z) : desc :=
  gate_desc (selector SEGM_KCODE 0) handler (if num =? SYSCALL_INT then 3 else 0)
    (if IS_TRAP num then GATE_TRAP else GATE_INTR).

Lemma gate_decode num handler : 0 <= handler < 4294967296 ->
  gate_offset (gate num handler) = handler /\ d1 (gate num handler) = 8 /\
  desc_present (gate num handler) = true /\
  desc_dpl (gate num handler) = (if num =? 0x80 then 3 else 0) /\
  desc_type (gate num handler) = (if IS_TRAP num then 15 else 14).
Proof.
  intros Hh. split_and!.
  - transitivity (u32 handler); [|by apply u32_small].
    unfold gate_offset, gate, gate_desc; cbn [d0 d3]. bitfield [handler].
  - by vm_compute.
  - unfold desc_present, gate, gate_desc; cbn [d2].
    destruct (num =? SYSCALL_INT), (IS_TRAP num); by vm_compute.
  - unfold desc_dpl, gate, gate_desc; cbn [d2]. change 128 with SYSCALL_INT.
    destruct (num =? SYSCALL_INT), (IS_TRAP num); by vm_compute.
  - unfold desc_type, gate, gate_desc; cbn [d2].
    destruct (num =? SYSCALL_INT), (IS_TRAP num); by vm_compute.
Qed.

Lemma set_intr_entry_spec {F} (st : intr F) num handler :
  length (idt st) = 256%nat -> 0 <= num < 256 ->
  exists st', set_intr_entry st num handler = Ok st' /\
    length (idt st') = 256%nat /\ intr_func st' = intr_func st /\
    forall n, zlookup (idt st') n = if decide (n = num) then Some (gate num handler) else zlookup (idt st) n.
Proof.
  intros Hlen Hn. unfold set_intr_entry. fold (gate num handler).
  destruct (zinsert (idt st) num (gate num handler)) as [idt'|] eqn:E.
  2: { unfold zinsert in E. rewrite Hlen in E. zcases. }
  eexists. split; [reflexivity|]. simpl. split_and!; [|done|intros; by apply zlookup_zinsert].
  unfold zinsert in E. destruct (_ || _); simplify_eq. by rewrite length_insert.
Qed.

(** [set_intr_entry] installs a present gate that leads to the handler in
    the kernel code segment: an interrupt gate for exceptions and IRQs, a trap
    gate otherwise, callable from ring 3 for the system call only. The other
    entries do not change. *)
Theorem set_intr_entry_correct {F} (st : intr F) num handler :
  length (idt st) = 256%nat -> 0 <= num < 256 -> 0 <= handler < 4294967296 ->
  exists st' d, set_intr_entry st num handler = Ok st' /\
    zlookup (idt st') num = Some d /\ gate_offset d = handler /\ d1 d = 8 /\
    desc_present d = true /\ desc_dpl d = (if num =? 0x80 then 3 else 0) /\
    desc_type d = (if num <? 48 then 14 else 15) /\
    intr_func st' = intr_func st /\ forall n, n <> num -> zlookup (idt st') n = zlookup (idt st) n.
Proof.
  intros Hlen Hn Hh. destruct (set_intr_entry_spec st num handler Hlen Hn) as (st' & E & _ & Hf & Hl).
  destruct (gate_decode num handler Hh) as (? & ? & ? & ? & Ht).
  exists st', (gate num handler). split_and!; try done.
  - rewrite Hl. by case_decide.
  - rewrite Ht. unfold IS_TRAP, IS_IRQ, IRQ_OFFSET. zcases.
  - intros n Hne. rewrite Hl. by case_decide.
Qed.

Definition intr0 : intr Z := mk_intr (replicate 256 null_desc) (replicate 256 None) 0.

Lemma set_intr_entry_correct_witness : exists st' d, set_intr_entry intr0 33 0x10203040 = Ok st' /\
    zlookup (idt st') 33 = Some d /\ gate_offset d = 0x10203040 /\ d1 d = 8 /\
    desc_present d = true /\ desc_dpl d = 0 /\ desc_type d = 14 /\
    intr_func st' = intr_func intr0 /\ forall n, n <> 33 -> zlookup (idt st') n = zlookup (idt intr0) n.
Proof. apply (set_intr_entry_correct intr0 33 0x10203040); [reflexivity|lia|lia]. Defined.

Lemma interrupt_spec {F} (st : intr F) num func w :
  length (intr_func st) = 256%nat -> 0 <= num < 256 ->
  exists st', interrupt st num func w = Ok (st', w) /\ idt st' = idt st /\ eoi_pending st' = eoi_pending st /\
    length (intr_func st') = 256%nat /\
    forall n, zlookup (intr_func st') n = if decide (n = num) then Some func else zlookup (intr_func st) n.
Proof.
  intros Hlen Hn. unfold interrupt. io.
  destruct (zinsert (intr_func st) num func) as [tab|] eqn:E.
  2: { unfold zinsert in E. rewrite Hlen in E. zcases. }
  simpl. eexists. split; [by destruct w|]. simpl. split_and!; [done|done| |intros; by apply zlookup_zinsert].
  unfold zinsert in E. destruct (_ || _); simplify_eq. by rewrite length_insert.
Qed.

Lemma init_entries_spec {F} entry_default n i (st : intr F) w :
  length (idt st) = 256%nat -> length (intr_func st) = 256%nat -> 0 <= i -> i + Z.of_nat n <= 256 ->
  exists st', init_entries entry_default n i st w = Ok (st', w) /\
    length (idt st') = 256%nat /\ length (intr_func st') = 256%nat /\
    forall k, (zlookup (idt st') k = if decide (i <= k < i + Z.of_nat n) then Some (gate k entry_default)
                                     else zlookup (idt st) k) /\
      (zlookup (intr_func st') k = if decide (i <= k < i + Z.of_nat n) then Some None
                                   else zlookup (intr_func st) k).
Proof.
  revert i st. induction n as [|n IH]; intros i st H1 H2 Hi Hn.
  { exists st. split_and!; try done. intros k. case_decide; [lia|done]. }
  cbn [init_entries]. destruct (set_intr_entry_spec st i entry_default H1) as (s1 & E1 & L1 & F1 & G1); [lia|].
  destruct (interrupt_spec s1 i None w) as (s2 & E2 & I2 & _ & L2 & G2); [congruence|lia|].
  destruct (IH (i + 1) s2) as (s3 & E3 & L3 & L4 & G3); [congruence|done|lia|lia|].
  exists s3. unfold mbind, io_mbind, lift. rewrite E1, E2, E3. split_and!; try done.
  intros k. destruct (G3 k) as [-> ->]. rewrite I2, G1, G2, F1.
  split; repeat case_decide; subst; try lia; done.
Qed.

Lemma set_entries_spec {F} entry tab (st : intr F) :
  length (idt st) = 256%nat -> Forall (fun n => 0 <= n < 256) tab ->
  exists st', set_entries entry tab st = Ok st' /\ length (idt st') = 256%nat /\
    intr_func st' = intr_func st /\
    forall k, zlookup (idt st') k = if decide (k ∈ tab) then Some (gate k (entry k)) else zlookup (idt st) k.
Proof.
  intros H1 Htab. revert st H1. induction Htab as [|n tab Hn Htab IH]; intros st H1.
  { exists st. split_and!; try done. }
  cbn [set_entries]. destruct (set_intr_entry_spec st n (entry n) H1 Hn) as (s1 & E1 & L1 & F1 & G1).
  rewrite E1. cbn [mbind res_mbind res_bind]. destruct (IH s1 L1) as (s2 & -> & L2 & F2 & G2).
  exists s2. split_and!; [done|done|congruence|].
  intros k. rewrite G2, G1. repeat case_decide; subst; try done; set_solver.
Qed.

(** The entry point [init_intr] leaves in slot [n]. *)
Definition entry_of (entry : Z -> Z) (entry_default irq7_spurious irq15_spurious : Z) (n : Z) : Z :=
  if n =? 47 then irq15_spurious else if n =? 39 then irq7_spurious else
  if bool_decide (n ∈ intrtab) then entry n else entry_default.

Lemma init_intr_spec {F} entry def s7 s15 (st : intr F) w :
  length (idt st) = 256%nat -> length (intr_func st) = 256%nat ->
  exists st', init_intr entry def s7 s15 st w =
    Ok (st', mk_world (outs [(0x11, 0x20); (0x11, 0xa0); (32, 0x21); (40, 0xa1); (4, 0x21); (2, 0xa1);
                             (1, 0x21); (1, 0xa1); (0, 0x21); (0, 0xa1)] ++ trace w) (intr_on w)) /\
    eoi_pending st' = 0 /\ length (intr_func st') = 256%nat /\
    forall n, 0 <= n < 256 -> zlookup (intr_func st') n = Some None /\
      zlookup (idt st') n = Some (gate n (entry_of entry def s7 s15 n)).
Proof.
  intros H1 H2. unfold init_intr.
  destruct (init_entries_spec def 256 0 st w H1 H2) as (s1 & E1 & L1 & L2 & G1); [lia|lia|].
  destruct (set_entries_spec entry intrtab s1 L1) as (s2 & E2 & L3 & F2 & G2).
  { apply (bool_decide_unpack _). by vm_compute. }
  destruct (set_intr_entry_spec s2 (IRQ_TO_INTR 7) s7 L3) as (s3 & E3 & L4 & F3 & G3); [unfold IRQ_TO_INTR, IRQ_OFFSET; lia|].
  destruct (set_intr_entry_spec s3 (IRQ_TO_INTR 15) s15 L4) as (s4 & E4 & L5 & F4 & G4); [unfold IRQ_TO_INTR, IRQ_OFFSET; lia|].
  unfold mbind, io_mbind, lift. rewrite E1, E2, E3, E4.
  eexists. split; [reflexivity|]. split; [done|]. cbn [intr_func idt].
  split; [by rewrite F4, F3, F2|]. intros n Hn.
  rewrite F4, F3, F2, G4, G3, G2. destruct (G1 n) as [-> ->].
  change (IRQ_TO_INTR 15) with 47. change (IRQ_TO_INTR 7) with 39. unfold entry_of.
  repeat case_decide; subst; try lia; (split; [done|]); try done;
    destruct (Z.eqb_spec n 47), (Z.eqb_spec n 39); try lia; case_bool_decide; done.
Qed.

(** After [init_intr] each of the 256 slots leads to the entry point meant
    for it, no handler is installed, no end of interrupt is pending, and the
    two PICs have been programmed in the order they require, with the IRQs
    mapped to 32 and 40. *)
Theorem init_intr_correct {F} entry def s7 s15 (st : intr F) w :
  length (idt st) = 256%nat -> length (intr_func st) = 256%nat ->
  exists st', init_intr entry def s7 s15 st w =
    Ok (st', mk_world (outs [(0x11, 0x20); (0x11, 0xa0); (32, 0x21); (40, 0xa1); (4, 0x21); (2, 0xa1);
                             (1, 0x21); (1, 0xa1); (0, 0x21); (0, 0xa1)] ++ trace w) (intr_on w)) /\
    eoi_pending st' = 0 /\
    forall n, 0 <= n < 256 -> zlookup (intr_func st') n = Some None /\
      zlookup (idt st') n = Some (gate n (entry_of entry def s7 s15 n)).
Proof.
  intros H1 H2. destruct (init_intr_spec entry def s7 s15 st w H1 H2) as (st' & E & Hp & _ & Hs). by exists st'.
Qed.

Lemma init_intr_correct_witness : exists st', init_intr (fun n => 0x1000 + 16 * n) 1 2 3 intr0 (mk_world [] false) =
    Ok (st', mk_world (outs [(0x11, 0x20); (0x11, 0xa0); (32, 0x21); (40, 0xa1); (4, 0x21); (2, 0xa1);
                             (1, 0x21); (1, 0xa1); (0, 0x21); (0, 0xa1)] ++ []) false) /\
    eoi_pending st' = 0 /\
    forall n, 0 <= n < 256 -> zlookup (intr_func st') n = Some None /\
      zlookup (idt st') n = Some (gate n (entry_of (fun n => 0x1000 + 16 * n) 1 2 3 n)).
Proof. apply (init_intr_correct _ 1 2 3 intr0 (mk_world [] false)); reflexivity. Defined.

(** The end-of-interrupt commands of interrupt [inum]. *)
Definition eoi_writes (inum : Z) : list io_event :=
  outs ((if 39 <? inum then [(0x20, 0xa0)] else []) ++ [(0x20, 0x20)]).

(** The tables a handler finds. *)
Definition entered {F} (st : intr F) (inum : Z) : intr F :=
  mk_intr (idt st) (intr_func st) (if IS_IRQ inum then inum else eoi_pending st).

(** What follows the handler. *)
Lemma dispatch_tail {F S} (call : F -> Z -> intr F -> S -> IO (intr F * S)) unhandled st s inum w st1 s1 w1 h :
  zlookup (intr_func st) inum = Some h ->
  match h with
  | Some f => call f inum (entered st inum) s
  | None => if inum <? 32 then lift Panic else s ← unhandled inum s; mret (entered st inum, s)
  end w = Ok ((st1, s1), w1) ->
  exists st', dispatch_intr call unhandled st s inum w =
      Ok ((st', s1), mk_world ((if eoi_pending st1 =? 0 then [] else eoi_writes (eoi_pending st1)) ++ trace w1) false) /\
    eoi_pending st' = 0 /\ idt st' = idt st1 /\ intr_func st' = intr_func st1.
Proof.
  intros Hf Hc. unfold dispatch_intr.
  assert ((if IS_IRQ inum then mk_intr (idt st) (intr_func st) inum else st) = entered st inum) as ->
    by (unfold entered; destruct (IS_IRQ inum), st; done).
  change (intr_func (entered st inum)) with (intr_func st). rewrite Hf. unfold mbind at 1, io_mbind at 1. cbn [lift of_option].
  rewrite (bind_ok _ _ _ _ _ Hc). unfold end_of_irq, eoi_writes, INTR_TO_IRQ, IRQ_OFFSET. io.
  destruct (Z.eqb_spec (eoi_pending st1) 0) as [E|E]; cbn [negb].
  - by exists st1.
  - destruct (Z.ltb_spec 7 (eoi_pending st1 - 32)), (Z.ltb_spec 39 (eoi_pending st1)); try lia;
      eexists; (split; [reflexivity|done]).
Qed.

(** When the handler of an interrupt returns, [dispatch_intr] sends the end
    of interrupt that is still pending exactly once, to the slave PIC first
    if the IRQ came through it, and nothing if the handler has already sent
    it; it leaves with nothing pending and interrupts disabled. An IRQ without
    handler is reported and acknowledged as well, an exception without handler
    panics. *)
Theorem dispatch_intr_eoi {F S} (call : F -> Z -> intr F -> S -> IO (intr F * S)) unhandled st s inum w :
  (forall f st1 s1 w1, zlookup (intr_func st) inum = Some (Some f) -> call f inum (entered st inum) s w = Ok ((st1, s1), w1) ->
    exists st', dispatch_intr call unhandled st s inum w =
        Ok ((st', s1), mk_world ((if eoi_pending st1 =? 0 then [] else eoi_writes (eoi_pending st1)) ++ trace w1) false) /\
      eoi_pending st' = 0 /\ idt st' = idt st1 /\ intr_func st' = intr_func st1) /\
  (zlookup (intr_func st) inum = Some None ->
    (forall s1 w1, IS_IRQ inum = true -> unhandled inum s w = Ok (s1, w1) -> exists st',
      dispatch_intr call unhandled st s inum w = Ok ((st', s1), mk_world (eoi_writes inum ++ trace w1) false) /\
      eoi_pending st' = 0 /\ idt st' = idt st /\ intr_func st' = intr_func st) /\
    (inum < 32 -> dispatch_intr call unhandled st s inum w = Panic)).
Proof.
  split; [|intros Hf; split].
  - intros f st1 s1 w1 Hf Hc. by apply (dispatch_tail call unhandled st s inum w st1 s1 w1 (Some f)).
  - intros s1 w1 Hi Hu. unfold IS_IRQ, IRQ_OFFSET in Hi. apply andb_true_iff in Hi as [H1%Z.leb_le H2%Z.ltb_lt].
    destruct (dispatch_tail call unhandled st s inum w (entered st inum) s1 w1 None Hf) as (st' & E & H).
    { destruct (Z.ltb_spec inum 32); [lia|]. by rewrite (bind_ok _ _ _ _ _ Hu). }
    exists st'. rewrite E. unfold entered, IS_IRQ, IRQ_OFFSET in *. destruct (Z.leb_spec 32 inum), (Z.ltb_spec inum (32 + 16)); try lia.
    cbn [andb eoi_pending] in *. destruct (Z.eqb_spec inum 0); [lia|done].
  - intros Hi. unfold dispatch_intr. assert (IS_IRQ inum = false) as -> by (unfold IS_IRQ, IRQ_OFFSET; zcases).
    rewrite Hf. unfold mbind at 1, io_mbind at 1. simpl. destruct (Z.ltb_spec inum 32); [done|lia].
Qed.

Lemma dispatch_intr_eoi_witness : exists st',
  dispatch_intr (fun _ _ st s => mret (st, s)) (fun _ s => mret s) (mk_intr [] (replicate 256 (Some 0)) 0) tt 44 (mk_world [] true) =
    Ok ((st', tt), mk_world (eoi_writes 44 ++ []) false) /\ eoi_pending st' = 0 /\
  idt st' = [] /\ intr_func st' = replicate 256 (Some 0).
Proof.
  apply (proj1 (dispatch_intr_eoi (fun _ _ st s => mret (st, s)) (fun _ s => mret s) (mk_intr [] (replicate 256 (Some 0)) 0) tt 44 (mk_world [] true))
    0 (mk_intr [] (replicate 256 (Some 0)) 44) tt (mk_world [] true)); reflexivity.
Defined.
