(* ===== verification/Timer.v ===== *)
(** * The timer (src/timer.c, src/timer.h)

    Alarms are kept in a list ordered by time, each with the ticks that
    separate it from the one before. A callback is a name of type [F]; what it
    does is a parameter [call] of the interrupt handler, which may itself set
    and cancel alarms. [set_alarm] takes the result of its [malloc] as
    [mem_ok]. The delays are far below 2^31 (see [MSEC_TO_TICKS_bound]), so
    the deltas are plain integers. *)
From Stdlib Require Import Sorting.Sorted.
From S2P Require Import Prelude Io Intr.

Definition OSC_FREQ_HZ : Z := 1193182.
Definition TICK_FREQ_HZ : Z := 250.
Definition DIV_ROUND (a b : Z) : Z := a / b + (a mod b) / (b / 2).
Definition PORT_DATA0 : Z := 0x40.
Definition PORT_CMD : Z := 0x43.
Definition CMD_CHAN0 : Z := 0.
Definition CMD_ACCESS_BOTH : Z := Z.shiftl 3 4.
Definition CMD_OP_SQWAVE : Z := Z.shiftl 3 1.

Definition MSEC_TO_TICKS (ms : Z) : Z := u32 (ms * TICK_FREQ_HZ) / 1000.

Section timer.
Context {F : Type} `{EqDecision F}.

Record timer_event := mk_event { dt : Z; func : F }.

Record timer := mk_timer { nticks : Z; evlist : list timer_event }.

Definition init_timer (st : intr F) (timer_handler : F) : IO (intr F) :=
  let reload_count := DIV_ROUND OSC_FREQ_HZ TICK_FREQ_HZ in
  _ ← outb (Z.lor (Z.lor CMD_CHAN0 CMD_ACCESS_BOTH) CMD_OP_SQWAVE) PORT_CMD;
  _ ← outb (Z.land reload_count 0xff) PORT_DATA0;
  _ ← outb (Z.land (Z.shiftr reload_count 8) 0xff) PORT_DATA0;
  interrupt st (IRQ_TO_INTR 0) (Some timer_handler).

(** [while(node->next && ticks > tsum + node->next->dt)] and the insertion
    behind [node]; the list is what follows [node]. *)
Fixpoint insert_after (ticks tsum : Z) (f : F) (next : list timer_event) : list timer_event :=
  match next with
  | [] => [mk_event (ticks - tsum) f]
  | ev :: rest =>
      if tsum + dt ev <? ticks then ev :: insert_after ticks (tsum + dt ev) f rest
      else mk_event (ticks - tsum) f :: mk_event (dt ev - (ticks - tsum)) (func ev) :: rest
  end.

Definition insert_alarm (ticks : Z) (f : F) (l : list timer_event) : list timer_event :=
  match l with
  | [] => [mk_event ticks f]
  | ev :: rest =>
      if ticks <? dt ev then mk_event ticks f :: mk_event (dt ev - ticks) (func ev) :: rest
      else ev :: insert_after ticks (dt ev) f rest
  end.

Definition set_alarm (mem_ok : bool) (msec : Z) (f : F) (st : timer) : IO timer :=
  let ticks := s32 (MSEC_TO_TICKS msec) in
  if ticks <=? 0 then mret st else
  if negb mem_ok then lift Panic else
  iflag ← get_intr_flag;
  _ ← disable_intr;
  let l := insert_alarm ticks f (evlist st) in
  _ ← set_intr_flag iflag;
  mret (mk_timer (nticks st) l).

Fixpoint remove_alarm (f : F) (l : list timer_event) : list timer_event :=
  match l with
  | [] => []
  | ev :: rest =>
      if decide (func ev = f) then
        match rest with
        | next :: rest => mk_event (dt next + dt ev) (func next) :: rest
        | [] => []
        end
      else ev :: remove_alarm f rest
  end.

Definition cancel_alarm (f : F) (st : timer) : IO timer :=
  iflag ← get_intr_flag;
  _ ← disable_intr;
  let l := remove_alarm f (evlist st) in
  _ ← set_intr_flag iflag;
  mret (mk_timer (nticks st) l).

(** [while(evlist && evlist->dt <= 0)] *)
Fixpoint run_alarms (fuel : nat) (call : F -> timer -> IO timer) (st : timer) : IO timer :=
  match evlist st with
  | ev :: rest =>
      if dt ev <=? 0 then
        match fuel with
        | O => lift NoFuel
        | S fuel => st ← call (func ev) (mk_timer (nticks st) rest); run_alarms fuel call st
        end
      else mret st
  | [] => mret st
  end.

Definition timer_handler (fuel : nat) (call : F -> timer -> IO timer) (st : timer) : IO timer :=
  let st := mk_timer (u32 (nticks st + 1)) (evlist st) in
  match evlist st with
  | ev :: rest => run_alarms fuel call (mk_timer (nticks st) (mk_event (dt ev - 1) (func ev) :: rest))
  | [] => mret st
  end.
End timer.
Arguments timer F : clear implicits.
Arguments timer_event F : clear implicits.

(** ** Remaining times *)

(** The alarms with the ticks that remain for each, [now] ticks from now on. *)
Fixpoint due {F} (now : Z) (l : list (timer_event F)) : list (Z * F) :=
  match l with
  | [] => []
  | ev :: rest => (now + dt ev, func ev) :: due (now + dt ev) rest
  end.

(** No delta is negative: the list is in order of time. *)
Definition ordered {F} (l : list (timer_event F)) : Prop := Forall (fun ev => 0 <= dt ev) l.

Lemma MSEC_TO_TICKS_bound ms : 0 <= MSEC_TO_TICKS ms <= 4294967.
Proof. unfold MSEC_TO_TICKS. pose proof (u32_range (ms * TICK_FREQ_HZ)). mlia. Qed.

Lemma due_shift {F} k now (l : list (timer_event F)) :
  due (now + k) l = (fun p => (p.1 + k, p.2)) <$> due now l.
Proof.
  revert now. induction l as [|ev l IH]; intros now; [done|].
  cbn [due fmap list_fmap]. rewrite <- IH. by replace (now + k + dt ev) with (now + dt ev + k) by lia.
Qed.

Lemma due_ge {F} now (l : list (timer_event F)) p : ordered l -> p ∈ due now l -> now <= p.1.
Proof.
  intros Hl. revert now. induction Hl as [|ev l Hev Hl IH]; intros now Hp; [by apply elem_of_nil in Hp|].
  cbn [due] in Hp. apply elem_of_cons in Hp as [-> |Hp]; [simpl; lia|]. specialize (IH _ Hp). lia.
Qed.

(** The alarms are listed in order of time. *)
Lemma due_sorted {F} now (l : list (timer_event F)) :
  ordered l -> StronglySorted (fun p q => p.1 <= q.1) (due now l).
Proof.
  intros Hl. revert now. induction Hl as [|ev l Hev Hl IH]; intros now; [constructor|].
  cbn [due]. constructor; [apply IH|]. apply Forall_forall. intros p Hp.
  by apply (due_ge _ _ _ Hl) in Hp.
Qed.

Lemma insert_after_spec {F} ticks tsum f (l : list (timer_event F)) :
  ordered l -> tsum <= ticks ->
  ordered (insert_after ticks tsum f l) /\
  due tsum (insert_after ticks tsum f l) ≡ₚ (ticks, f) :: due tsum l.
Proof.
  intros Hl. revert tsum. induction Hl as [|ev l Hev Hl IH]; intros tsum Ht; cbn [insert_after].
  - split; [repeat constructor; simpl; lia|]. simpl. by replace (tsum + (ticks - tsum)) with ticks by lia.
  - destruct (Z.ltb_spec (tsum + dt ev) ticks) as [Hlt|Hge].
    + destruct (IH (tsum + dt ev)) as [H1 H2]; [lia|]. split; [by constructor|].
      cbn [due]. rewrite H2. by constructor.
    + split; [repeat constructor; simpl; (done || lia)|]. cbn [due dt func].
      replace (tsum + (ticks - tsum)) with ticks by lia.
      by replace (ticks + (dt ev - (ticks - tsum))) with (tsum + dt ev) by lia.
Qed.

Lemma insert_alarm_spec {F} ticks f (l : list (timer_event F)) :
  ordered l -> 0 <= ticks ->
  ordered (insert_alarm ticks f l) /\ due 0 (insert_alarm ticks f l) ≡ₚ (ticks, f) :: due 0 l.
Proof.
  intros Hl Ht. destruct Hl as [|ev l Hev Hl]; cbn [insert_alarm]; [split; [by repeat constructor|done]|].
  destruct (Z.ltb_spec ticks (dt ev)).
  - split; [repeat constructor; simpl; (done || lia)|]. cbn [due dt func].
    rewrite !Z.add_0_l. by replace (ticks + (dt ev - ticks)) with (dt ev) by lia.
  - destruct (insert_after_spec ticks (dt ev) f l Hl) as [H1 H2]; [lia|]. split; [by constructor|].
    cbn [due]. rewrite Z.add_0_l, H2. by constructor.
Qed.

(** ** Theorems *)

(** C10. [set_alarm] adds the alarm with the requested number of ticks and
    leaves the remaining times of all other alarms, the order of the list and
    the interrupt flag as they were; delays shorter than one tick are dropped. *)
Theorem set_alarm_correct {F} msec f (st : timer F) w :
  ordered (evlist st) ->
  exists st', set_alarm true msec f st w = Ok (st', w) /\ nticks st' = nticks st /\
    ordered (evlist st') /\
    due 0 (evlist st') ≡ₚ (if MSEC_TO_TICKS msec =? 0 then [] else [(MSEC_TO_TICKS msec, f)]) ++ due 0 (evlist st).
Proof.
  intros Hl. unfold set_alarm. pose proof (MSEC_TO_TICKS_bound msec) as Hb.
  rewrite s32_small by lia. destruct (Z.leb_spec (MSEC_TO_TICKS msec) 0), (Z.eqb_spec (MSEC_TO_TICKS msec) 0); try lia.
  - by exists st.
  - destruct (insert_alarm_spec (MSEC_TO_TICKS msec) f (evlist st) Hl) as [H1 H2]; [lia|].
    eexists. cbn [negb]. io. split; [by destruct w|]. simpl. by split_and!.
Qed.

(** List specification of cancelling: the first alarm of [f] is taken out. *)
Fixpoint drop_first {F} `{EqDecision F} (f : F) (l : list (Z * F)) : list (Z * F) :=
  match l with
  | [] => []
  | p :: l => if decide (p.2 = f) then l else p :: drop_first f l
  end.

(** C18. [cancel_alarm] takes out the first alarm of the callback and leaves
    every other alarm with exactly the ticks it had left. *)
Theorem cancel_alarm_correct {F} `{EqDecision F} (f : F) (st : timer F) w :
  ordered (evlist st) ->
  exists st', cancel_alarm f st w = Ok (st', w) /\ nticks st' = nticks st /\
    ordered (evlist st') /\ due 0 (evlist st') = drop_first f (due 0 (evlist st)).
Proof.
  intros Hl. unfold cancel_alarm. io. eexists. split; [by destruct w|]. cbn [nticks evlist].
  split; [done|]. generalize 0. induction Hl as [|ev l Hev Hl IH]; intros now; [by repeat constructor|].
  cbn [remove_alarm due drop_first snd]. destruct (decide (func ev = f)).
  - destruct Hl as [|next l Hn Hl]; [by repeat constructor|]. split.
    + repeat constructor; simpl; (done || lia).
    + cbn [due dt func]. by replace (now + (dt next + dt ev)) with (now + dt ev + dt next) by lia.
  - destruct (IH now) as [H1 _]. split; [by constructor|]. cbn [due]. f_equal. apply IH.
Qed.

Section ticking.
Context {F : Type} (call : F -> timer F -> IO (timer F)).

(** The callbacks [fs] run, in this order, from the state in which the first
    alarm is due to one in which none is. *)
Inductive fires : timer F -> world -> list F -> timer F -> world -> Prop :=
| fires_done st w : (forall ev : timer_event F, head (evlist st) = Some ev -> 0 < dt ev) -> fires st w [] st w
| fires_call st w ev rest st1 w1 fs st2 w2 :
    evlist st = ev :: rest -> dt ev <= 0 ->
    call (func ev) (mk_timer (nticks st) rest) w = Ok (st1, w1) ->
    fires st1 w1 fs st2 w2 -> fires st w (func ev :: fs) st2 w2.

(** A callback returns and does nothing to the timer but set alarms. *)
Definition only_sets : Prop := forall f st w, ordered (evlist st) ->
  exists st' w' new, call f st w = Ok (st', w') /\ nticks st' = nticks st /\
    ordered (evlist st') /\ Forall (fun p => 0 < p.1) new /\ due 0 (evlist st') ≡ₚ new ++ due 0 (evlist st).

Lemma filter_zero_pos (l : list (Z * F)) : Forall (fun p => 0 < p.1) l ->
  filter (fun p => p.1 = 0) l = [] /\ filter (fun p => 0 < p.1) l = l.
Proof.
  induction 1 as [|p l Hp Hl [IH1 IH2]]; [done|].
  rewrite !filter_cons. repeat case_decide; try lia. split; [done|]. by f_equal.
Qed.

(** One tick nearer. *)
Definition nearer (p : Z * F) : Z * F := (p.1 - 1, p.2).

Lemma filter_nearer (l : list (Z * F)) :
  snd <$> filter (fun p => p.1 = 0) (nearer <$> l) = snd <$> filter (fun p => p.1 = 1) l /\
  filter (fun p => 0 < p.1) (nearer <$> l) = nearer <$> filter (fun p => 1 < p.1) l.
Proof.
  induction l as [|p l [IH1 IH2]]; [done|]. cbn [fmap list_fmap].
  rewrite !filter_cons. destruct p as [t f]. change ((nearer (t, f)).1) with (t - 1). cbn [fst].
  split; repeat case_decide; try lia; cbn [fmap list_fmap snd]; by rewrite <- ?IH1, <- ?IH2.
Qed.

Lemma length_due now (l : list (timer_event F)) : length (due now l) = length l.
Proof. revert now. induction l; intros; simpl; auto. Qed.

Lemma none_due fuel st w :
  ordered (evlist st) -> (forall ev : timer_event F, head (evlist st) = Some ev -> 0 < dt ev) ->
  run_alarms fuel call st w = Ok (st, w) /\ Forall (fun p => 0 < p.1) (due 0 (evlist st)).
Proof.
  intros Hl Hh. destruct (evlist st) as [|ev rest] eqn:E.
  - split; [destruct fuel; simpl; by rewrite E|constructor].
  - specialize (Hh ev eq_refl). apply Forall_cons in Hl as [_ Hl]. split.
    + destruct fuel; simpl; rewrite E; destruct (Z.leb_spec (dt ev) 0); (done || lia).
    + cbn [due]. constructor; [simpl; lia|]. apply Forall_forall. intros p Hp.
      apply (due_ge _ _ _ Hl) in Hp. lia.
Qed.

Lemma head_due st : ordered (evlist st) ->
  (exists ev rest, evlist st = ev :: rest /\ dt ev = 0) \/
  (forall ev : timer_event F, head (evlist st) = Some ev -> 0 < dt ev).
Proof.
  intros Hl. destruct (evlist st) as [|ev rest]; [by right|]. apply Forall_cons in Hl as [Hev _].
  destruct (decide (dt ev = 0)); [left; by exists ev, rest|right]. intros ? [= <-]. lia.
Qed.

Lemma run_alarms_spec fuel st w :
  only_sets -> ordered (evlist st) ->
  Z.of_nat (length (filter (fun p => p.1 = 0) (due 0 (evlist st)))) <= Z.of_nat fuel ->
  exists st' w' fs new, run_alarms fuel call st w = Ok (st', w') /\ fires st w fs st' w' /\
    nticks st' = nticks st /\ ordered (evlist st') /\ Forall (fun p => 0 < p.1) new /\
    fs ≡ₚ snd <$> filter (fun p => p.1 = 0) (due 0 (evlist st)) /\
    due 0 (evlist st') ≡ₚ new ++ filter (fun p => 0 < p.1) (due 0 (evlist st)).
Proof.
  intros Hcall. revert st w. induction fuel as [|fuel IH]; intros st w Hl Hf;
    (destruct (head_due st Hl) as [(ev & rest & Est & Hev)|Hnone];
     [|destruct (none_due 0 st w Hl Hnone) as [_ Hpos];
       pose proof (fun n => proj1 (none_due n st w Hl Hnone)) as E;
       eexists st, w, [], []; destruct (filter_zero_pos _ Hpos) as [-> ->];
       split_and!; try done; by constructor]).
  - rewrite Est in Hf. cbn [due] in Hf. rewrite filter_cons_True in Hf by (simpl; lia). simpl in Hf. lia.
  - rewrite Est in Hl, Hf |- *. apply Forall_cons in Hl as [_ Hl].
    cbn [due] in Hf |- *. rewrite filter_cons_True in Hf by (simpl; lia).
    rewrite filter_cons_True by (simpl; lia).
    rewrite (filter_cons_False (fun p => 0 < p.1)) by (simpl; lia). rewrite Hev in *.
    destruct (Hcall (func ev) (mk_timer (nticks st) rest) w Hl) as (s1 & w1 & new1 & E1 & Hn1 & Ho1 & Hnew1 & Hd1).
    cbn [evlist nticks] in *. change (0 + 0) with 0 in *.
    destruct (filter_zero_pos _ Hnew1) as [Hz Hp].
    destruct (IH s1 w1 Ho1) as (st' & w' & fs & new & E & Hfire & Hn & Ho & Hnew & Hfs & Hd).
    { rewrite Hd1, filter_app, Hz. simpl in *. lia. }
    rewrite Hd1, !filter_app, Hz, ?Hp in *. cbn [app] in Hfs.
    exists st', w', (func ev :: fs), (new ++ new1). split_and!.
    + cbn [run_alarms]. rewrite Est, Hev. change (0 <=? 0) with true. cbv iota.
      rewrite (bind_ok _ _ _ _ _ E1). exact E.
    + by eapply fires_call; [exact Est|lia|exact E1|].
    + congruence.
    + done.
    + by apply Forall_app.
    + simpl. by constructor.
    + by rewrite Hd, app_assoc.
Qed.

(** C13. At every timer interrupt exactly the callbacks whose last tick it is
    run, those with one tick left, and the remaining alarms come one tick
    nearer; alarms that the callbacks set are kept and none of them runs in
    the same interrupt. *)
Theorem timer_handler_exact fuel st w :
  only_sets -> ordered (evlist st) -> Forall (fun p => 0 < p.1) (due 0 (evlist st)) ->
  (length (evlist st) <= fuel)%nat ->
  exists st' w' fs new l1, timer_handler fuel call st w = Ok (st', w') /\
    fires (mk_timer (u32 (nticks st + 1)) l1) w fs st' w' /\
    nticks st' = u32 (nticks st + 1) /\
    due 0 l1 = nearer <$> due 0 (evlist st) /\
    fs ≡ₚ snd <$> filter (fun p => p.1 = 1) (due 0 (evlist st)) /\
    Forall (fun p => 0 < p.1) new /\ ordered (evlist st') /\
    due 0 (evlist st') ≡ₚ new ++ (nearer <$> filter (fun p => 1 < p.1) (due 0 (evlist st))).
Proof.
  intros Hcall Hl Hpos Hf. unfold timer_handler. cbn [evlist nticks].
  destruct (evlist st) as [|ev rest] eqn:Est.
  { eexists _, w, [], [], []. split_and!; try done. by constructor. }
  set (l1 := mk_event (dt ev - 1) (func ev) :: rest).
  apply Forall_cons in Hpos as [Hev _]. apply Forall_cons in Hl as [_ Hl]. simpl in Hev.
  assert (ordered l1) as Hl1 by (constructor; simpl; (done || lia)).
  assert (due 0 l1 = nearer <$> due 0 (ev :: rest)) as Hd1.
  { cbn [due l1 fmap list_fmap dt func]. f_equal.
    replace (0 + (dt ev - 1)) with (0 + dt ev + -1) by lia. rewrite due_shift. done. }
  destruct (run_alarms_spec fuel (mk_timer (u32 (nticks st + 1)) l1) w Hcall Hl1)
    as (st' & w' & fs & new & E & Hfire & Hn & Ho & Hnew & Hfs & Hd).
  { cbn [evlist]. apply inj_le. etrans; [apply length_filter|]. rewrite Hd1, length_fmap, length_due. done. }
  cbn [evlist nticks] in *.
  destruct (filter_nearer (due 0 (ev :: rest))) as [Hz Hp].
  exists st', w', fs, new, l1. split_and!; try done.
  - by rewrite Hfs, Hd1, Hz.
  - by rewrite Hd, Hd1, Hp.
Qed.
End ticking.

(** ** Witnesses *)

Definition ex_timer : timer Z := mk_timer 7 [mk_event 1 10; mk_event 0 11; mk_event 3 12].

Lemma ex_timer_ordered : ordered (evlist ex_timer).
Proof. repeat constructor; simpl; lia. Qed.

Lemma set_alarm_correct_witness :
  exists st', set_alarm true 8 13 ex_timer (mk_world [] true) = Ok (st', mk_world [] true) /\
    nticks st' = 7 /\ ordered (evlist st') /\ due 0 (evlist st') ≡ₚ [(2, 13); (1, 10); (1, 11); (4, 12)].
Proof. apply (set_alarm_correct 8 13 ex_timer (mk_world [] true) ex_timer_ordered). Defined.

Lemma cancel_alarm_correct_witness :
  exists st', cancel_alarm 11 ex_timer (mk_world [] true) = Ok (st', mk_world [] true) /\
    nticks st' = 7 /\ ordered (evlist st') /\ due 0 (evlist st') = [(1, 10); (4, 12)].
Proof.
  destruct (cancel_alarm_correct 11 ex_timer (mk_world [] true) ex_timer_ordered) as (st' & E).
  exists st'. exact E.
Defined.

(** A callback that sets itself again, 8 ms later. *)
Definition ex_call (f : Z) (st : timer Z) : IO (timer Z) := set_alarm true 8 f st.

Lemma ex_call_only_sets : only_sets ex_call.
Proof.
  intros f st w Hl. unfold ex_call, set_alarm. change (s32 (MSEC_TO_TICKS 8)) with 2. cbv iota. io.
  destruct (insert_alarm_spec 2 f (evlist st) Hl) as [H1 H2]; [lia|].
  eexists _, _, [(2, f)]. split; [by destruct w|]. simpl. split_and!; try done. by repeat constructor.
Qed.

Lemma timer_handler_exact_witness :
  exists st' w' fs new l1, timer_handler 3 ex_call ex_timer (mk_world [] false) = Ok (st', w') /\
    fires ex_call (mk_timer 8 l1) (mk_world [] false) fs st' w' /\ nticks st' = 8 /\
    due 0 l1 = [(0, 10); (0, 11); (3, 12)] /\ fs ≡ₚ [10; 11] /\
    Forall (fun p => 0 < p.1) new /\ ordered (evlist st') /\ due 0 (evlist st') ≡ₚ new ++ [(3, 12)].
Proof.
  apply (timer_handler_exact ex_call 3 ex_timer (mk_world [] false) ex_call_only_sets ex_timer_ordered);
    [repeat constructor; simpl; lia|simpl; lia].
Defined.
