(* ===== verification/Ring.v ===== *)
(** * Ring buffers (the input buffers of src/keyb.c and src/serial.c)

    Both drivers keep unread input in an array of a power of two, with a read
    and a write index that are masked when they advance; writing into a full
    buffer discards the oldest entry. The theorems show that such a buffer is
    a queue of at most [N - 1] entries. *)
From S2P Require Import Prelude.

Record ring := mk_ring { rbuf : list Z; ridx : Z; widx : Z }.

(** [((x) + 1) & (BUFSZ - 1)] *)
Definition advance (N x : Z) : Z := Z.land (x + 1) (N - 1).

Definition ring_empty (r : ring) : bool := ridx r =? widx r.

(** Store at the write index; if it meets the read index, drop the oldest. *)
Definition ring_push (N : Z) (r : ring) (x : Z) : res ring :=
  buf ← of_option (zinsert (rbuf r) (widx r) x);
  let w := advance N (widx r) in
  Ok (mk_ring buf (if w =? ridx r then advance N (ridx r) else ridx r) w).

(** The oldest entry, of a buffer that is not empty. *)
Definition ring_pop (N : Z) (r : ring) : res (Z * ring) :=
  x ← of_option (zlookup (rbuf r) (ridx r));
  Ok (x, mk_ring (rbuf r) (advance N (ridx r)) (widx r)).

(** [kb_putback]: one place back, or over the oldest entry if that is taken. *)
Definition ring_putback (N : Z) (r : ring) (x : Z) : res ring :=
  let rd := ridx r - 1 in
  let rd := if rd <? 0 then rd + N else rd in
  let rd := if rd =? widx r then advance N rd else rd in
  buf ← of_option (zinsert (rbuf r) rd x);
  Ok (mk_ring buf rd (widx r)).

(** Sizes for which masking is reduction modulo the size. *)
Class RingSize (N : Z) : Prop := {
  ring_size_gt : 1 < N;
  ring_size_mask : forall x, Z.land x (N - 1) = x mod N
}.
#[export] Instance ring_size_64 : RingSize 64.
Proof. split; [lia|apply land_63]. Qed.
#[export] Instance ring_size_256 : RingSize 256.
Proof. split; [lia|apply land_255]. Qed.

Section ring.
Context (N : Z) `{!RingSize N}.

Record ring_ok (r : ring) : Prop := {
  ok_len : Z.of_nat (length (rbuf r)) = N;
  ok_ridx : 0 <= ridx r < N;
  ok_widx : 0 <= widx r < N
}.

(** Index arithmetic without division. *)
Definition wrap_up (x : Z) : Z := if x <? N then x else x - N.

Lemma mod_wrap x : 0 <= x < 2 * N -> x mod N = wrap_up x.
Proof.
  intros Hx. unfold wrap_up. destruct (Z.ltb_spec x N); [apply Z.mod_small; lia|].
  symmetry. apply (Z.mod_unique x N 1); lia.
Qed.

Lemma advance_wrap x : 0 <= x < N -> advance N x = wrap_up (x + 1).
Proof. intros Hx. unfold advance. rewrite ring_size_mask. apply mod_wrap. lia. Qed.

(** [n] entries of the array from index [rd] on. *)
Definition segment (buf : list Z) (rd : Z) (n : nat) : list Z :=
  (fun i => default 0 (zlookup buf (wrap_up (rd + i)))) <$> zseq 0 n.

Definition count (r : ring) : Z := wrap_up (widx r - ridx r + N).

(** The queue the buffer stands for, oldest entry first. *)
Definition contents (r : ring) : list Z := segment (rbuf r) (ridx r) (Z.to_nat (count r)).

Lemma segment_snoc buf rd n :
  segment buf rd (S n) = segment buf rd n ++ [default 0 (zlookup buf (wrap_up (rd + Z.of_nat n)))].
Proof.
  unfold segment. replace (S n) with (n + 1)%nat by lia. by rewrite zseq_app, fmap_app.
Qed.

Lemma zseq_shift a n : zseq (a + 1) n = (fun i => i + 1) <$> zseq a n.
Proof. revert a. induction n as [|n IH]; intros a; [done|]. cbn [zseq fmap list_fmap]. by rewrite IH. Qed.

Lemma segment_cons buf rd n : 0 <= rd < N -> Z.of_nat n < N ->
  segment buf rd (S n) = default 0 (zlookup buf rd) :: segment buf (wrap_up (rd + 1)) n.
Proof.
  intros Hr Hn. unfold segment. cbn [zseq fmap list_fmap].
  rewrite zseq_shift, <- list_fmap_compose. f_equal.
  - do 2 f_equal. unfold wrap_up. zcases.
  - apply list_fmap_ext. intros k i Hi. cbn [compose]. do 2 f_equal.
    apply list_elem_of_lookup_2, elem_of_zseq in Hi. unfold wrap_up. zcases.
Qed.

Lemma segment_insert buf buf' rd n i x :
  zinsert buf i x = Some buf' -> (forall k, 0 <= k < Z.of_nat n -> wrap_up (rd + k) <> i) ->
  segment buf' rd n = segment buf rd n.
Proof.
  intros E Hne. apply list_fmap_ext. intros k j Hj.
  apply list_elem_of_lookup_2, elem_of_zseq in Hj.
  rewrite (zlookup_zinsert _ _ _ _ _ E), decide_False; [done|]. apply Hne. lia.
Qed.

Lemma length_contents r : ring_ok r -> Z.of_nat (length (contents r)) = count r.
Proof.
  intros [? ? ?]. unfold contents, segment. rewrite length_fmap, length_zseq.
  unfold count, wrap_up. zcases.
Qed.

Lemma count_range r : ring_ok r -> 0 <= count r <= N - 1.
Proof. intros [? ? ?]. unfold count, wrap_up. zcases. Qed.

Lemma contents_empty r : ring_ok r -> ring_empty r = bool_decide (contents r = []).
Proof.
  intros Hok. pose proof (length_contents r Hok) as Hl. destruct Hok. unfold ring_empty.
  destruct (Z.eqb_spec (ridx r) (widx r)) as [E|E].
  - rewrite bool_decide_eq_true_2; [done|]. apply length_zero_iff_nil.
    unfold count, wrap_up in Hl. zcases.
  - rewrite bool_decide_eq_false_2; [done|]. intros E'. rewrite E' in Hl.
    unfold count, wrap_up in Hl. simpl in Hl. zcases.
Qed.

Lemma zinsert_ok (buf : list Z) i x : 0 <= i < Z.of_nat (length buf) ->
  exists buf', zinsert buf i x = Some buf' /\ length buf' = length buf.
Proof. intros Hi. unfold zinsert. zcases. eexists. split; [done|]. apply length_insert. Qed.

(** A queue that holds at most [N - 1] entries drops the oldest. *)
Definition keep_last (l : list Z) : list Z := if Z.of_nat (length l) <? N then l else tail l.

Lemma ring_push_spec r x : ring_ok r ->
  exists r', ring_push N r x = Ok r' /\ ring_ok r' /\ contents r' = keep_last (contents r ++ [x]).
Proof.
  intros Hok. pose proof (count_range r Hok) as Hc. pose proof (length_contents r Hok) as Hl.
  destruct Hok as [Hlen Hr Hw]. pose proof ring_size_gt.
  unfold ring_push. destruct (zinsert_ok (rbuf r) (widx r) x) as (buf & E & Hlen'); [lia|].
  rewrite E. cbn [of_option mbind res_mbind res_bind].
  rewrite !advance_wrap by lia. eexists. split; [reflexivity|]. split.
  { split; simpl; [lia| |]; unfold wrap_up; zcases. }
  assert (segment buf (ridx r) (S (Z.to_nat (count r))) = contents r ++ [x]) as Hs.
  { rewrite segment_snoc. f_equal.
    - apply (segment_insert _ _ _ _ _ _ E). intros k Hk. unfold count, wrap_up in *. zcases.
    - rewrite (zlookup_zinsert _ _ _ _ _ E), decide_True; [done|]. unfold count, wrap_up. zcases. }
  unfold keep_last. rewrite length_app. simpl length.
  unfold contents at 1, count at 1. cbn [rbuf ridx widx].
  destruct (Z.eqb_spec (wrap_up (widx r + 1)) (ridx r)) as [Ew|Ew].
  - assert (count r = N - 1) as Hfull by (unfold count, wrap_up in *; zcases).
    destruct (Z.ltb_spec (Z.of_nat (length (contents r) + 1)) N); [lia|].
    rewrite <- Hs, segment_cons by lia. cbn [tail]. f_equal.
    rewrite Hfull, Ew. f_equal. unfold wrap_up. zcases.
  - assert (count r < N - 1) as Hfull by (unfold count, wrap_up in *; zcases).
    destruct (Z.ltb_spec (Z.of_nat (length (contents r) + 1)) N); [|lia].
    rewrite <- Hs. f_equal. unfold count, wrap_up in *. zcases.
Qed.

Lemma ring_pop_spec r x l : ring_ok r -> contents r = x :: l ->
  exists r', ring_pop N r = Ok (x, r') /\ ring_ok r' /\ contents r' = l.
Proof.
  intros Hok E. pose proof (count_range r Hok) as Hc. pose proof (length_contents r Hok) as Hl.
  rewrite E in Hl. simpl in Hl. destruct Hok as [Hlen Hr Hw]. pose proof ring_size_gt.
  unfold contents in E. replace (Z.to_nat (count r)) with (S (Z.to_nat (count r - 1))) in E by lia.
  rewrite segment_cons in E by lia. injection E as Ex El.
  unfold ring_pop. destruct (zlookup_is_Some (rbuf r) (ridx r)) as [y Ey]; [lia|].
  rewrite Ey in Ex |- *. simpl in Ex. subst y. cbn [of_option mbind res_mbind res_bind].
  rewrite advance_wrap by lia. eexists. split; [reflexivity|]. split.
  { split; simpl; [done| |]; unfold wrap_up; zcases. }
  rewrite <- El. unfold contents. cbn [rbuf ridx]. f_equal.
  unfold count in *. cbn [ridx widx]. unfold wrap_up in *. zcases.
Qed.

Lemma ring_putback_spec r x : ring_ok r ->
  exists r', ring_putback N r x = Ok r' /\ ring_ok r' /\
    contents r' = x :: (if count r <? N - 1 then contents r else tail (contents r)).
Proof.
  intros Hok. pose proof (count_range r Hok) as Hc. pose proof (length_contents r Hok) as Hl.
  destruct Hok as [Hlen Hr Hw]. pose proof ring_size_gt. unfold ring_putback.
  set (rd0 := if ridx r - 1 <? 0 then ridx r - 1 + N else ridx r - 1).
  assert (0 <= rd0 < N) as Hrd0 by (unfold rd0; zcases).
  rewrite advance_wrap by lia.
  set (rd := if rd0 =? widx r then wrap_up (rd0 + 1) else rd0).
  assert (0 <= rd < N) as Hrd by (unfold rd, wrap_up; zcases).
  destruct (zinsert_ok (rbuf r) rd x) as (buf & E & Hlen'); [lia|].
  rewrite E. cbn [of_option mbind res_mbind res_bind]. eexists. split; [reflexivity|]. split.
  { split; simpl; lia. }
  unfold contents at 1. cbn [rbuf ridx].
  set (n := Z.to_nat (count r)).
  destruct (Z.ltb_spec (count r) (N - 1)) as [Hlt|Hge].
  - assert (rd0 =? widx r = false) as Hne by (unfold rd0, count, wrap_up in *; zcases).
    unfold rd in *. rewrite Hne in *.
    replace (Z.to_nat (count (mk_ring buf rd0 (widx r)))) with (S n)
      by (unfold n, count; cbn [ridx widx]; unfold rd0, count, wrap_up in *; zcases).
    rewrite segment_cons by lia. rewrite (zlookup_zinsert _ _ _ _ _ E), decide_True by done.
    cbn [default]. f_equal. replace (wrap_up (rd0 + 1)) with (ridx r) by (unfold rd0, wrap_up; zcases).
    apply (segment_insert _ _ _ _ _ _ E). intros k Hk. unfold n, rd0, count, wrap_up in *. zcases.
  - assert (rd0 =? widx r = true) as Heq by (unfold rd0, count, wrap_up in *; zcases).
    unfold rd in *. rewrite Heq in *.
    assert (wrap_up (rd0 + 1) = ridx r) as Er by (unfold rd0, wrap_up; zcases). rewrite Er in *.
    replace (Z.to_nat (count (mk_ring buf (ridx r) (widx r)))) with (S (Z.to_nat (N - 2)))
      by (unfold count; cbn [ridx widx]; unfold count, wrap_up in *; zcases).
    unfold contents, n. replace (Z.to_nat (count r)) with (S (Z.to_nat (N - 2))) by lia.
    rewrite !segment_cons by lia. rewrite (zlookup_zinsert _ _ _ _ _ E), decide_True by done.
    cbn [default tail]. f_equal.
    apply (segment_insert _ _ _ _ _ _ E). intros k Hk. unfold wrap_up in *. zcases.
Qed.
End ring.
