(* ===== verification/Keyb.v ===== *)
(** * The keyboard (src/keyb.c, src/kbscan.h, src/kbregs.h, src/power.c)

    The controller ports are those of Io. [keyb] is the state of the driver:
    the ring buffer of keys, the number of keys held, the state of each key
    and the flag that an 0xe0 prefix was seen. [reboot] does not return. In
    [kb_wait] the interrupts that arrive while the processor is halted are
    the parameter [halt_cpu]. *)
From S2P Require Import Prelude Io Intr Ring.

Definition BUFSZ : Z := 64.
Definition KB_IRQ : Z := 1.
Definition KB_DATA_PORT : Z := 0x60.
Definition KB_CMD_PORT : Z := 0x64.
Definition KB_STATUS_PORT : Z := 0x64.
Definition KB_ACK : Z := 0xfa.
Definition KB_STAT_OUTBUF_FULL : Z := 0x01.
Definition KB_STAT_INBUF_FULL : Z := 0x02.
Definition KB_STAT_AUX : Z := 0x20.
Definition KB_CMD_GET_CMDBYTE : Z := 0x20.
Definition KB_CMD_SET_CMDBYTE : Z := 0x60.
Definition KB_CMD_PULSE_RESET : Z := 0xfe.
Definition KB_CCB_KB_INTREN : Z := 0x01.
Definition KB_CCB_KB_XLAT : Z := 0x40.

(** Special keys, numbered as the enum of keyb.h numbers them. *)
Definition KB_ANY : Z := -1.
Definition KB_ALT : Z := -2.
Definition KB_CTRL : Z := -3.
Definition KB_SHIFT : Z := -4.
Definition KB_ESC : Z := 27.
Definition KB_INSERT : Z := 128.
Definition KB_DEL : Z := 129.
Definition KB_HOME : Z := 130.
Definition KB_END : Z := 131.
Definition KB_PGUP : Z := 132.
Definition KB_PGDN : Z := 133.
Definition KB_LEFT : Z := 134.
Definition KB_RIGHT : Z := 135.
Definition KB_UP : Z := 136.
Definition KB_DOWN : Z := 137.
Definition KB_NUM_DOT : Z := 138.
Definition KB_NUM_PLUS : Z := 140.
Definition KB_NUM_MINUS : Z := 141.
Definition KB_NUM_MUL : Z := 142.
Definition KB_NUM (n : Z) : Z := 144 + n.
Definition KB_LALT : Z := 154.
Definition KB_RALT : Z := 155.
Definition KB_LCTRL : Z := 156.
Definition KB_RCTRL : Z := 157.
Definition KB_LSHIFT : Z := 158.
Definition KB_RSHIFT : Z := 159.
Definition KB_F (n : Z) : Z := 159 + n.
Definition KB_CAPSLK : Z := 172.
Definition KB_NUMLK : Z := 173.
Definition KB_SCRLK : Z := 174.
Definition KB_SYSRQ : Z := 175.

Definition scantbl_set1 : list Z :=
  [0; KB_ESC; 49; 50; 51; 52; 53; 54; 55; 56; 57; 48; 45; 61; 8;
   9; 113; 119; 101; 114; 116; 121; 117; 105; 111; 112; 91; 93; 10;
   KB_LCTRL; 97; 115; 100; 102; 103; 104; 106; 107; 108; 59; 39; 96;
   KB_LSHIFT; 92; 122; 120; 99; 118; 98; 110; 109; 44; 46; 47; KB_RSHIFT;
   KB_NUM_MUL; KB_LALT; 32; KB_CAPSLK; KB_F 1; KB_F 2; KB_F 3; KB_F 4; KB_F 5; KB_F 6; KB_F 7; KB_F 8; KB_F 9; KB_F 10;
   KB_NUMLK; KB_SCRLK; KB_NUM 7; KB_NUM 8; KB_NUM 9; KB_NUM_MINUS; KB_NUM 4; KB_NUM 5; KB_NUM 6; KB_NUM_PLUS;
   KB_NUM 1; KB_NUM 2; KB_NUM 3; KB_NUM 0; KB_NUM_DOT; KB_SYSRQ; 0; 0; KB_F 11; KB_F 12]
  ++ replicate 7 0 ++ replicate 16 0 ++ replicate 16 0.

Definition scantbl_set1_ext : list Z :=
  replicate 16 0 ++
  replicate 12 0 ++ [13; KB_RCTRL; 0; 0] ++
  replicate 16 0 ++
  [0; 0; 0; 0; 0; KB_NUM_MINUS; 0; KB_SYSRQ; KB_RALT; 0; 0; 0; 0; 0; 0; 0] ++
  [0; 0; 0; 0; 0; 0; 0; KB_HOME; KB_UP; KB_PGUP; 0; KB_LEFT; 0; KB_RIGHT; 0; KB_END] ++
  [KB_DOWN; KB_PGDN; KB_INSERT; KB_DEL] ++ replicate 12 0 ++
  replicate 16 0 ++ replicate 16 0.

Record keyb := mk_keyb {
  kring : ring;
  num_pressed : Z;
  keystate : list Z;
  ext : bool
}.

Section keyb.
Context `{Device} {F : Type}.

(** [for(i=0; i<32768; i++)] over the status register. *)
Fixpoint kb_poll (n : nat) (ready : Z -> bool) : IO bool :=
  match n with
  | O => mret false
  | S n =>
      v ← inb KB_STATUS_PORT;
      if ready v then mret true else _ ← iodelay; kb_poll n ready
  end.

Definition kb_wait_write : IO bool :=
  kb_poll (Z.to_nat 32768) (fun v => Z.land v KB_STAT_INBUF_FULL =? 0).
Definition kb_wait_read : IO bool :=
  kb_poll (Z.to_nat 32768) (fun v => negb (Z.land v KB_STAT_OUTBUF_FULL =? 0)).

Definition kb_send_cmd (cmd : Z) : IO unit := _ ← kb_wait_write; outb cmd KB_CMD_PORT.
Definition kb_send_data (data : Z) : IO unit := _ ← kb_wait_write; outb data KB_DATA_PORT.

Fixpoint delays (n : nat) : IO unit :=
  match n with O => mret tt | S n => _ ← iodelay; delays n end.

Definition kb_read_data : IO Z :=
  _ ← kb_wait_read; _ ← delays 7; inb KB_DATA_PORT.

Definition set_ccb (ccb : Z) : IO unit :=
  _ ← kb_send_cmd KB_CMD_SET_CMDBYTE;
  _ ← kb_send_data ccb;
  b ← kb_wait_read;
  if b : bool then _ ← kb_read_data; mret tt else mret tt.

Definition get_ccb : IO Z := _ ← kb_send_cmd KB_CMD_GET_CMDBYTE; kb_read_data.

Definition kb_intr_enable : IO unit := ccb ← get_ccb; set_ccb (Z.lor ccb KB_CCB_KB_INTREN).
Definition kb_intr_disable : IO unit :=
  ccb ← get_ccb; set_ccb (Z.land ccb (Z.lnot KB_CCB_KB_INTREN)).

Definition kb_set_translate (xlat : bool) : IO unit :=
  ccb ← get_ccb;
  set_ccb (if xlat then Z.lor ccb KB_CCB_KB_XLAT else Z.land ccb (Z.lnot KB_CCB_KB_XLAT)).
Definition kb_get_translate : IO Z := ccb ← get_ccb; mret (Z.land ccb KB_CCB_KB_XLAT).

(** [!kb_wait_read() || kb_read_data() != KB_ACK] *)
Definition no_ack : IO bool :=
  b ← kb_wait_read;
  if b : bool then v ← kb_read_data; mret (negb (v =? KB_ACK)) else mret true.

Definition kb_setmode (mode : Z) : IO Z :=
  _ ← kb_send_data 0xf0;
  bad ← no_ack;
  if bad : bool then mret (-1) else
  _ ← kb_send_data mode;
  bad ← no_ack;
  if bad : bool then mret (-1) else mret 0.

Definition kb_getmode : IO Z :=
  _ ← kb_send_data 0xf0;
  bad ← no_ack;
  if bad : bool then mret (-1) else
  _ ← kb_send_data 0;
  bad ← no_ack;
  if bad : bool then mret (-1) else
  mode ← kb_read_data;
  mret (if mode =? 0x43 then 1 else if mode =? 0x41 then 2 else if mode =? 0x3f then 3 else mode).

Definition kb_init (st : intr F) (kbintr : F) (k : keyb) : IO (intr F * keyb) :=
  let k := mk_keyb (mk_ring (rbuf (kring k)) 0 0) 0 (replicate 256 0) (ext k) in
  _ ← kb_set_translate true;
  st ← interrupt st (IRQ_TO_INTR KB_IRQ) (Some kbintr);
  _ ← kb_intr_enable;
  mret (st, k).

Definition down (k : keyb) (key : Z) : res Z := of_option (zlookup (keystate k) key).

Definition kb_isdown (k : keyb) (key : Z) : res Z :=
  if key =? KB_ANY then Ok (num_pressed k) else
  if key =? KB_ALT then a ← down k KB_LALT; b ← down k KB_RALT; Ok (a + b) else
  if key =? KB_CTRL then a ← down k KB_LCTRL; b ← down k KB_RCTRL; Ok (a + b) else
  down k key.

Definition kb_getkey (k : keyb) : res (Z * keyb) :=
  if ring_empty (kring k) then Ok (-1, k) else
  '(key, r) ← ring_pop BUFSZ (kring k);
  Ok (key, mk_keyb r (num_pressed k) (keystate k) (ext k)).

Definition kb_putback (k : keyb) (key : Z) : res keyb :=
  r ← ring_putback BUFSZ (kring k) key;
  Ok (mk_keyb r (num_pressed k) (keystate k) (ext k)).

Fixpoint kb_wait (fuel : nat) (halt_cpu : keyb -> IO keyb) (k : keyb) : IO keyb :=
  '(key, k) ← lift (kb_getkey k);
  if key =? -1 then
    match fuel with
    | O => lift NoFuel
    | S fuel => _ ← enable_intr; k ← halt_cpu k; kb_wait fuel halt_cpu k
    end
  else lift (kb_putback k key).

Definition reboot : IO unit :=
  _ ← kb_send_cmd KB_CMD_PULSE_RESET;
  _ ← delays (Z.to_nat 32768);
  lift Panic.

(** [keystate[KB_LALT] || keystate[KB_RALT]] and the same for control. *)
Definition either (k : keyb) (l r : Z) : res bool :=
  a ← down k l; if negb (a =? 0) then Ok true else b ← down k r; Ok (negb (b =? 0)).

Definition reboot_keys (k : keyb) (key : Z) : res bool :=
  if key =? KB_DEL then
    a ← either k KB_LALT KB_RALT;
    if a : bool then either k KB_LCTRL KB_RCTRL else Ok false
  else Ok false.

Definition kbintr (k : keyb) : IO keyb :=
  code ← inb KB_DATA_PORT;
  if code =? 0xe0 then mret (mk_keyb (kring k) (num_pressed k) (keystate k) true) else
  let press := Z.land code 0x80 =? 0 in
  let code := if press then code else Z.land code 0x7f in
  let num := if press then u32 (num_pressed k + 1)
             else if 0 <? num_pressed k then num_pressed k - 1 else num_pressed k in
  key ← lift (of_option (zlookup (if ext k then scantbl_set1_ext else scantbl_set1) code));
  k ← (if press then
         rb ← lift (reboot_keys k key);
         _ ← (if rb : bool then reboot else mret tt);
         r ← lift (ring_push BUFSZ (kring k) key);
         mret (mk_keyb r num (keystate k) false)
       else mret (mk_keyb (kring k) num (keystate k) false));
  ks ← lift (of_option (zinsert (keystate k) key (if press then 1 else 0)));
  mret (mk_keyb (kring k) (num_pressed k) ks (ext k)).

End keyb.

(** ** Theorems *)

Record keyb_ok (k : keyb) : Prop := {
  kb_ring : ring_ok 64 (kring k);
  kb_keys : length (keystate k) = 256%nat
}.

(** The keys waiting to be read, oldest first. *)
Definition queue (k : keyb) : list Z := contents 64 (kring k).

(** Meaning of a code: the key it names, given the prefix flag. *)
Definition key_of (ext : bool) (code : Z) : Z :=
  default 0 (zlookup (if ext then scantbl_set1_ext else scantbl_set1) (code mod 128)).

Definition is_down (k : keyb) (key : Z) : bool := negb (default 0 (zlookup (keystate k) key) =? 0).

Lemma scan_tables : length scantbl_set1 = 128%nat /\ length scantbl_set1_ext = 128%nat.
Proof. by vm_compute. Qed.

Lemma scan_keys ext code : 0 <= code < 128 ->
  exists key, zlookup (if ext : bool then scantbl_set1_ext else scantbl_set1) code = Some key /\ 0 <= key < 256.
Proof.
  intros Hc. destruct scan_tables as [L1 L2].
  destruct (zlookup_is_Some (if ext then scantbl_set1_ext else scantbl_set1) code) as [key E].
  { destruct ext; rewrite ?L1, ?L2; lia. }
  exists key. split; [done|]. unfold zlookup in E. destruct (code <? 0); [done|].
  assert (Forall (fun key => 0 <= key < 256) (scantbl_set1 ++ scantbl_set1_ext)) as Hall
    by (apply (bool_decide_unpack _); by vm_compute).
  apply Forall_app in Hall as [H1 H2]. apply list_elem_of_lookup_2 in E.
  rewrite Forall_forall in H1, H2. destruct ext; [by apply H2|by apply H1].
Qed.

(** The byte the controller hands over. *)
Definition port_code `{Device} (w : world) : Z := wrap 8 (dev (trace w) 8 0x60).
Definition after_code `{Device} (w : world) : world :=
  mk_world (EIn 8 0x60 (port_code w) :: trace w) (intr_on w).

(** Control, alternate and delete are down together. *)
Definition reboots (k : keyb) (key : Z) : bool :=
  (key =? KB_DEL) && (is_down k KB_LALT || is_down k KB_RALT) && (is_down k KB_LCTRL || is_down k KB_RCTRL).

Lemma down_ok k key : keyb_ok k -> 0 <= key < 256 ->
  down k key = Ok (default 0 (zlookup (keystate k) key)).
Proof.
  intros [_ Hl] Hk. unfold down. destruct (zlookup_is_Some (keystate k) key) as [v E]; [lia|].
  by rewrite E.
Qed.

Lemma reboot_keys_spec k key : keyb_ok k -> reboot_keys k key = Ok (reboots k key).
Proof.
  intros Hk. unfold reboot_keys, reboots, either, is_down.
  destruct (key =? KB_DEL); [|done].
  rewrite !down_ok by (done || (unfold KB_LALT, KB_RALT, KB_LCTRL, KB_RCTRL; lia)).
  cbn [mbind res_mbind res_bind]. do 2 (destruct (negb _); cbn [mbind res_mbind res_bind andb orb]; try done).
  all: destruct (negb _); cbn [mbind res_mbind res_bind andb orb]; try done.
  all: destruct (negb _); done.
Qed.

Lemma press_code code : 0 <= code < 256 ->
  (Z.land code 128 =? 0) = (code <? 128) /\
  (if Z.land code 128 =? 0 then code else Z.land code 0x7f) = code mod 128.
Proof.
  intros Hc. pose proof (byte_cases (fun code =>
    Bool.eqb (Z.land code 128 =? 0) (code <? 128) &&
    ((if Z.land code 128 =? 0 then code else Z.land code 0x7f) =? code mod 128)) ltac:(by vm_compute) code Hc)
    as [H1 H2]%andb_prop.
  apply eqb_prop in H1. apply Z.eqb_eq in H2. done.
Qed.

(** One interrupt. *)
Lemma kbintr_spec `{Device} (k : keyb) w :
  keyb_ok k ->
  let code := port_code w in
  let key := key_of (ext k) code in
  (code < 128 -> reboots k key = false) ->
  exists k', kbintr k w = Ok (k', after_code w) /\ keyb_ok k' /\
    (if code =? 0xe0 then k' = mk_keyb (kring k) (num_pressed k) (keystate k) true
     else ext k' = false /\
       queue k' = (if code <? 128 then keep_last 64 (queue k ++ [key]) else queue k) /\
       forall key', is_down k' key' = if decide (key' = key) then code <? 128 else is_down k key').
Proof.
  intros Hk code key Hre. assert (0 <= code < 256) as Hcode by (apply (wrap_range 8); lia).
  unfold kbintr. unfold mbind at 1, io_mbind at 1. unfold inb, input.
  change (u16 KB_DATA_PORT) with 0x60. fold (port_code w). fold code.
  change (mk_world _ _) with (after_code w). cbv iota beta.
  destruct (Z.eqb_spec code 0xe0) as [E|Hne].
  { eexists. split; [reflexivity|]. split; [by destruct Hk; split|done]. }
  set (press := Z.land code 128 =? 0).
  assert (press = (code <? 128) /\ (if press then code else Z.land code 0x7f) = code mod 128) as [Ep Ec].
  { by apply press_code. }
  rewrite Ec. destruct (scan_keys (ext k) (code mod 128)) as (key0 & Ekey & Hkey); [mlia|].
  assert (key = key0) as E0 by (unfold key, key_of; by rewrite Ekey). rewrite E0 in *.
  rewrite Ekey. unfold mbind at 1, io_mbind at 1. cbn [lift of_option].
  rewrite Ep in *. destruct (Z.ltb_spec code 128) as [Hp|Hp].
  - rewrite reboot_keys_spec by done. rewrite Hre by done.
    destruct (ring_push_spec 64 (kring k) key0 (kb_ring _ Hk)) as (r & Er & Hr & Hq).
    change BUFSZ with 64. rewrite Er. io.
    destruct (zinsert_ok (keystate k) key0 1) as (ks & Eks & Hl); [rewrite (kb_keys _ Hk); lia|].
    cbn [keystate]. rewrite Eks. cbn [of_option]. eexists. split; [reflexivity|].
    split; [split; [done|cbn [keystate]; rewrite Hl; apply Hk]|]. split_and!; [done|exact Hq|].
    intros key'. unfold is_down. cbn [keystate]. rewrite (zlookup_zinsert _ _ _ _ _ Eks).
    by case_decide.
  - io. destruct (zinsert_ok (keystate k) key0 0) as (ks & Eks & Hl); [rewrite (kb_keys _ Hk); lia|].
    cbn [keystate]. rewrite Eks. cbn [of_option]. eexists. split; [reflexivity|].
    split; [split; [apply Hk|cbn [keystate]; rewrite Hl; apply Hk]|]. split_and!; [done|done|].
    intros key'. unfold is_down. cbn [keystate]. rewrite (zlookup_zinsert _ _ _ _ _ Eks).
    by case_decide.
Qed.

(** What one keyboard interrupt does: an 0xe0 byte is remembered for the
    next code; a press appends its key to the queue, which holds at most 63
    keys and drops the oldest, and marks the key as down; a release marks it
    as up; the prefix applies to one code only. *)
Theorem kbintr_correct `{Device} (k : keyb) w :
  keyb_ok k ->
  let code := port_code w in
  let key := key_of (ext k) code in
  (code < 128 -> reboots k key = false) ->
  exists k', kbintr k w = Ok (k', after_code w) /\ keyb_ok k' /\
    (if code =? 0xe0 then k' = mk_keyb (kring k) (num_pressed k) (keystate k) true
     else ext k' = false /\
       queue k' = (if code <? 128 then keep_last 64 (queue k ++ [key]) else queue k) /\
       forall key', is_down k' key' = if decide (key' = key) then code <? 128 else is_down k key').
Proof. apply kbintr_spec. Qed.

(** A controller whose reads return the bytes of [l] in turn. *)
Definition script (l : list Z) : Device := fun tr _ _ => nth (length tr) l 0.

Definition keyb0 : keyb := mk_keyb (mk_ring (replicate 64 0) 0 0) 0 (replicate 256 0) false.

Lemma keyb0_ok : keyb_ok keyb0.
Proof. split; [split; simpl; lia|done]. Qed.

Lemma kbintr_correct_witness : exists k', @kbintr (script [0x1e]) keyb0 (mk_world [] false) =
    Ok (k', mk_world [EIn 8 0x60 0x1e] false) /\ keyb_ok k' /\
  ext k' = false /\ queue k' = [97] /\
  forall key', is_down k' key' = if decide (key' = 97) then true else is_down keyb0 key'.
Proof.
  apply (@kbintr_correct (script [0x1e]) keyb0 (mk_world [] false) keyb0_ok). intros _. reflexivity.
Defined.

Lemma kb_getkey_nil k : keyb_ok k -> queue k = [] -> kb_getkey k = Ok (-1, k).
Proof. intros [Hr _] E. unfold kb_getkey. rewrite (contents_empty 64 _ Hr). unfold queue in E. by rewrite E. Qed.
Lemma kb_getkey_cons k x l : keyb_ok k -> queue k = x :: l -> exists k', kb_getkey k = Ok (x, k') /\ keyb_ok k' /\ queue k' = l.
Proof.
  intros [Hr Hl] E. unfold kb_getkey. rewrite (contents_empty 64 _ Hr). unfold queue in E. rewrite E.
  destruct (ring_pop_spec 64 _ _ _ Hr E) as (r & Er & Hr' & Hq). change BUFSZ with 64.
  rewrite bool_decide_eq_false_2 by done. rewrite Er. eexists. split; [reflexivity|]. by split.
Qed.

(** The queue is first in, first out: [kb_getkey] takes the oldest key, or
    returns -1 when there is none; a key put back is the next one read, at
    the expense of the oldest other key when the buffer is full. *)
Theorem kb_queue k key :
  keyb_ok k ->
  (queue k = [] -> kb_getkey k = Ok (-1, k)) /\
  (forall x l, queue k = x :: l -> exists k', kb_getkey k = Ok (x, k') /\ keyb_ok k' /\ queue k' = l) /\
  (exists k', kb_putback k key = Ok k' /\ keyb_ok k' /\
     queue k' = key :: (if Z.of_nat (length (queue k)) <? 63 then queue k else tail (queue k))).
Proof.
  intros Hk. split_and!; [by apply kb_getkey_nil|by intros; apply kb_getkey_cons|]. destruct Hk as [Hr Hl].
  unfold kb_putback. destruct (ring_putback_spec 64 _ key Hr) as (r & Er & Hr' & Hq).
  change BUFSZ with 64. rewrite Er. eexists. split; [reflexivity|]. split; [by split|].
  unfold queue. cbn [kring]. by rewrite Hq, length_contents by done.
Qed.

Lemma kb_queue_witness : exists k', kb_putback keyb0 27 = Ok k' /\ keyb_ok k' /\ queue k' = [27].
Proof. exact (proj2 (proj2 (kb_queue keyb0 27 keyb0_ok))). Defined.

(** Typematic repeats of a held key are counted as presses, its release only
    once: afterwards no key is down and [kb_isdown(KB_ANY)] is still true. *)
Lemma kb_any_after_repeat :
  exists k w, (k ← @kbintr (script [0x1e; 0x1e; 0x9e]) keyb0; k ← @kbintr (script [0x1e; 0x1e; 0x9e]) k;
               @kbintr (script [0x1e; 0x1e; 0x9e]) k) (mk_world [] false) = Ok (k, w) /\
    kb_isdown k KB_ANY = Ok 1 /\ keystate k = replicate 256 0.
Proof. eexists _, _. split; [vm_compute; reflexivity|done]. Qed.

(** keyb.h offers KB_SHIFT (-4), [kb_isdown] has no case for it and reads
    before the start of [keystate]. *)
Lemma kb_isdown_shift k : kb_isdown k KB_SHIFT = Fault.
Proof. done. Qed.
