(* ===== verification/Psaux.v ===== *)
(** * The PS/2 mouse (src/psaux.c)

    [mouse] gathers the static variables of the file, those of [psaux_intr]
    and [poll_mouse] included. The messages on the console and the serial
    port are not modelled. *)
From S2P Require Import Prelude Bits Io Intr Keyb.

Definition KB_CMD_AUX_ENABLE : Z := 0xa8.
Definition KB_CMD_PSAUX : Z := 0xd4.
Definition KB_CCB_AUX_INTREN : Z := 0x02.
Definition KB_CCB_AUX_DISABLE : Z := 0x20.
Definition AUX_CMD_READ_MOUSE : Z := 0xeb.
Definition AUX_CMD_ENABLE : Z := 0xf4.
Definition AUX_CMD_DEFAULTS : Z := 0xf6.
Definition AUX_PKT0_XSIGN : Z := 0x10.
Definition AUX_PKT0_YSIGN : Z := 0x20.
Definition AUX_PKT0_OVF_BITS : Z := Z.lor 0x40 0x80.
Definition AUX_PKT0_BUTTON_BITS : Z := Z.lor (Z.lor 1 2) 4.
Definition STAT_AUX_PENDING : Z := Z.lor KB_STAT_OUTBUF_FULL KB_STAT_AUX.

Record mouse := mk_mouse {
  mx : Z; my : Z;
  bnstate : Z;
  present : bool;
  bounds : list Z;
  intr_mode : bool;
  data : list Z; idx : Z;
  pkt : list Z; poll_state : Z
}.

Definition set_pos (m : mouse) (x y bn : Z) : mouse :=
  mk_mouse x y bn (present m) (bounds m) (intr_mode m) (data m) (idx m) (pkt m) (poll_state m).
Definition set_data (m : mouse) (d : list Z) (i : Z) : mouse :=
  mk_mouse (mx m) (my m) (bnstate m) (present m) (bounds m) (intr_mode m) d i (pkt m) (poll_state m).
Definition set_poll (m : mouse) (p : list Z) (s : Z) : mouse :=
  mk_mouse (mx m) (my m) (bnstate m) (present m) (bounds m) (intr_mode m) (data m) (idx m) p s.

Section psaux.
Context `{Device} {F : Type}.

(** The command byte is read, changed and written back; then the mouse is
    reset to its defaults and enabled, which it acknowledges. *)
Definition init_mouse (m : mouse) : IO mouse :=
  _ ← kb_send_cmd KB_CMD_AUX_ENABLE;
  b ← kb_wait_read;
  _ ← (if b : bool then _ ← kb_read_data; mret tt else mret tt);
  _ ← kb_send_cmd KB_CMD_GET_CMDBYTE;
  val ← kb_read_data;
  let val := Z.lor (Z.land val (Z.lnot KB_CCB_AUX_DISABLE)) KB_CCB_AUX_INTREN in
  _ ← kb_send_cmd KB_CMD_SET_CMDBYTE;
  _ ← kb_send_data val;
  b ← kb_wait_read;
  _ ← (if b : bool then _ ← kb_read_data; mret tt else mret tt);
  _ ← kb_send_cmd KB_CMD_PSAUX;
  _ ← kb_send_data AUX_CMD_DEFAULTS;
  _ ← kb_read_data;
  _ ← kb_send_cmd KB_CMD_PSAUX;
  _ ← kb_send_data AUX_CMD_ENABLE;
  val ← kb_read_data;
  mret (mk_mouse (mx m) (my m) (bnstate m) (val =? KB_ACK) (bounds m) true (data m) (idx m) (pkt m) (poll_state m)).

Definition have_mouse (m : mouse) : bool := present m.

Definition set_mouse_bounds (m : mouse) (x0 y0 x1 y1 : Z) : mouse :=
  mk_mouse (mx m) (my m) (bnstate m) (present m) [x0; y0; x1; y1] (intr_mode m)
    (data m) (idx m) (pkt m) (poll_state m).

Definition init_psaux (st : intr F) (psaux_intr : F) (m : mouse) : IO (intr F * mouse) :=
  st ← interrupt st (IRQ_TO_INTR 12) (Some psaux_intr);
  m ← init_mouse m;
  mret (st, set_mouse_bounds m 0 0 319 199).

(** [dx |= 0xffffff00] on an int. *)
Definition sign_extend (flag d : Z) : Z :=
  if negb (flag =? 0) then s32 (Z.lor d 0xffffff00) else d.

Definition clamp (x lo hi : Z) : Z :=
  let x := if x <? lo then lo else x in if hi <? x then hi else x.

Definition proc_mouse_data (m : mouse) (d : list Z) : mouse :=
  let d0 := nth 0 d 0 in
  if negb (Z.land d0 AUX_PKT0_OVF_BITS =? 0) then m else
  let dx := sign_extend (Z.land d0 AUX_PKT0_XSIGN) (nth 1 d 0) in
  let dy := sign_extend (Z.land d0 AUX_PKT0_YSIGN) (nth 2 d 0) in
  let x := s32 (mx m + dx) in
  let y := s32 (my m - dy) in
  set_pos m (clamp x (nth 0 (bounds m) 0) (nth 2 (bounds m) 0))
    (clamp y (nth 1 (bounds m) 0) (nth 3 (bounds m) 0)) (Z.land d0 AUX_PKT0_BUTTON_BITS).

Definition psaux_intr (m : mouse) : IO mouse :=
  stat ← inb KB_STATUS_PORT;
  if Z.land stat KB_STAT_AUX =? 0 then mret m else
  b ← kb_read_data;
  d ← lift (of_option (zinsert (data m) (idx m) b));
  let i := idx m + 1 in
  if 3 <=? i then mret (proc_mouse_data (set_data m d 0) d) else mret (set_data m d i).

Definition aux_pending : IO bool :=
  v ← inb KB_STATUS_PORT; mret (Z.land v STAT_AUX_PENDING =? STAT_AUX_PENDING).

Definition poll_mouse (m : mouse) : IO mouse :=
  let s := poll_state m in
  if s =? 0 then
    _ ← kb_send_cmd KB_CMD_PSAUX;
    _ ← kb_send_data AUX_CMD_READ_MOUSE;
    mret (set_poll m (pkt m) (s + 1))
  else if s =? 1 then
    b ← kb_wait_read;
    if b : bool then
      rd ← kb_read_data;
      mret (if rd =? KB_ACK then set_poll m (pkt m) (s + 1) else m)
    else mret m
  else if (2 <=? s) && (s <=? 4) then
    b ← kb_wait_read;
    m ← (if b : bool then
           p ← aux_pending;
           if p : bool then
             v ← kb_read_data;
             d ← lift (of_option (zinsert (pkt m) (s - 2) v));
             mret (set_poll m d (s + 1))
           else mret m
         else mret m);
    mret (if poll_state m =? 5 then set_poll (proc_mouse_data m (pkt m)) (pkt m) 0 else m)
  else mret m.

Definition mouse_state (m : mouse) : IO (Z * Z * Z * mouse) :=
  m ← (if intr_mode m then mret m else poll_mouse m);
  mret (mx m, my m, bnstate m, m).
End psaux.

(** ** Theorems *)

(** The movement a packet encodes: nine bits in two's complement. *)
Definition delta (sign : bool) (b : Z) : Z := if sign then b - 256 else b.

Lemma sign_extend_delta k d0 b : 0 <= b < 256 -> 0 <= k ->
  sign_extend (Z.land d0 (Z.shiftl 1 k)) b = delta (Z.testbit d0 k) b.
Proof.
  intros Hb Hk. unfold sign_extend, delta. rewrite land_pow2_testbit, negb_involutive by done.
  destruct (Z.testbit d0 k); [|done].
  assert (forall c, 0 <= c < 256 -> s32 (Z.lor c 0xffffff00) = c - 256) as Hall; [|by apply Hall].
  intros c Hc. apply Z.eqb_eq.
  apply (byte_cases (fun c => s32 (Z.lor c 0xffffff00) =? c - 256)); [by vm_compute|done].
Qed.

(** The pointer inside its bounds, and the bounds themselves. *)
Definition inside (m : mouse) : Prop :=
  nth 0 (bounds m) 0 <= mx m <= nth 2 (bounds m) 0 /\ nth 1 (bounds m) 0 <= my m <= nth 3 (bounds m) 0.
Definition bounds_ok (m : mouse) : Prop :=
  nth 0 (bounds m) 0 <= nth 2 (bounds m) 0 /\ nth 1 (bounds m) 0 <= nth 3 (bounds m) 0.

Definition clamped (x lo hi : Z) : Z := Z.max lo (Z.min x hi).

Lemma clamp_spec x lo hi : lo <= hi -> clamp x lo hi = clamped x lo hi.
Proof. intros H. unfold clamp, clamped. zcases. Qed.
Lemma clamped_range x lo hi : lo <= hi -> lo <= clamped x lo hi <= hi.
Proof. unfold clamped. lia. Qed.

Lemma proc_mouse_data_spec m b0 b1 b2 :
  bounds_ok m -> 0 <= b1 < 256 -> 0 <= b2 < 256 ->
  -2147480000 <= mx m <= 2147480000 -> -2147480000 <= my m <= 2147480000 ->
  proc_mouse_data m [b0; b1; b2] =
  if Z.testbit b0 6 || Z.testbit b0 7 then m else
  set_pos m (clamped (mx m + delta (Z.testbit b0 4) b1) (nth 0 (bounds m) 0) (nth 2 (bounds m) 0))
    (clamped (my m - delta (Z.testbit b0 5) b2) (nth 1 (bounds m) 0) (nth 3 (bounds m) 0)) (b0 mod 8).
Proof.
  intros [Hx Hy] H1 H2 Hmx Hmy. unfold proc_mouse_data. cbn [nth].
  assert (negb (Z.land b0 AUX_PKT0_OVF_BITS =? 0) = Z.testbit b0 6 || Z.testbit b0 7) as ->.
  { unfold AUX_PKT0_OVF_BITS. rewrite Z.land_lor_distr_r.
    pose proof (land_pow2_testbit b0 6 ltac:(lia)) as E6. pose proof (land_pow2_testbit b0 7 ltac:(lia)) as E7.
    change (Z.shiftl 1 6) with 0x40 in E6. change (Z.shiftl 1 7) with 0x80 in E7.
    destruct (Z.testbit b0 6), (Z.testbit b0 7); simpl in *.
    all: destruct (Z.eqb_spec (Z.lor (Z.land b0 64) (Z.land b0 128)) 0) as [E|E]; try done; exfalso.
    1,2,3: apply Z.lor_eq_0_iff in E; lia.
    apply E. apply Z.lor_eq_0_iff. lia. }
  destruct (_ || _); [done|].
  change AUX_PKT0_XSIGN with (Z.shiftl 1 4). change AUX_PKT0_YSIGN with (Z.shiftl 1 5).
  rewrite !sign_extend_delta by (done || lia).
  assert (-256 <= delta (Z.testbit b0 4) b1 <= 255) by (unfold delta; destruct (Z.testbit b0 4); lia).
  assert (-256 <= delta (Z.testbit b0 5) b2 <= 255) by (unfold delta; destruct (Z.testbit b0 5); lia).
  rewrite !s32_small by lia. rewrite !clamp_spec by done.
  f_equal. change AUX_PKT0_BUTTON_BITS with (Z.ones 3). by rewrite Z.land_ones by lia.
Qed.

Section transfer.
Context `{Device}.

Lemma kb_poll_ok n ready w : exists b w', kb_poll n ready w = Ok (b, w').
Proof.
  revert w. induction n as [|n IH]; intros w; [by eexists _, _|]. cbn [kb_poll]. io.
  destruct (ready _); [by eexists _, _|]. apply IH.
Qed.

Lemma kb_read_data_ok w : exists b w', kb_read_data w = Ok (b, w') /\ 0 <= b < 256.
Proof.
  unfold kb_read_data, kb_wait_read.
  destruct (kb_poll_ok (Z.to_nat 32768) (fun v => negb (Z.land v KB_STAT_OUTBUF_FULL =? 0)) w) as (b & w1 & E).
  rewrite (bind_ok _ _ _ _ _ E). io. eexists _, _. split; [reflexivity|]. apply (wrap_range 8). lia.
Qed.

(** The mouse has data whenever it interrupts. *)
Definition aux_ready : Prop := forall tr, Z.testbit (dev tr 8 0x64) 5 = true.

Lemma psaux_intr_step m w : aux_ready -> 0 <= idx m < Z.of_nat (length (data m)) ->
  exists b d w', 0 <= b < 256 /\ zinsert (data m) (idx m) b = Some d /\
    psaux_intr m w =
      Ok (if 3 <=? idx m + 1 then proc_mouse_data (set_data m d 0) d else set_data m d (idx m + 1), w').
Proof.
  intros Haux Hi. unfold psaux_intr. unfold mbind at 1, io_mbind at 1. unfold inb, input.
  set (w1 := mk_world _ _).
  assert (Z.land (wrap 8 (dev (trace w) 8 (u16 KB_STATUS_PORT))) KB_STAT_AUX =? 0 = false) as ->.
  { change KB_STAT_AUX with (Z.shiftl 1 5). rewrite land_pow2_testbit by lia.
    unfold wrap. rewrite Z.mod_pow2_bits_low by lia. change (u16 KB_STATUS_PORT) with 0x64. by rewrite Haux. }
  destruct (kb_read_data_ok w1) as (b & w2 & E & Hb). rewrite (bind_ok _ _ _ _ _ E).
  destruct (zinsert (data m) (idx m) b) as [d|] eqn:Ed; [|unfold zinsert in Ed; zcases].
  exists b, d, w2. split; [done|]. split; [done|]. cbv [mbind io_mbind lift of_option].
  by destruct (3 <=? idx m + 1).
Qed.

(** Three mouse interrupts deliver one packet: the pointer moves by the two
    nine-bit deltas the packet encodes (y upwards), is kept inside its
    bounds, and the buttons are those of the packet; a packet with an
    overflow bit is dropped as a whole. The next packet starts at byte 0. *)
Theorem psaux_packet m w :
  aux_ready -> bounds_ok m -> inside m -> length (data m) = 3%nat -> idx m = 0 ->
  -2147480000 <= mx m <= 2147480000 -> -2147480000 <= my m <= 2147480000 ->
  exists b0 b1 b2 m' w', (m ← psaux_intr m; m ← psaux_intr m; psaux_intr m) w = Ok (m', w') /\
    0 <= b1 < 256 /\ 0 <= b2 < 256 /\
    data m' = [b0; b1; b2] /\ idx m' = 0 /\ inside m' /\ bounds m' = bounds m /\
    (if Z.testbit b0 6 || Z.testbit b0 7 then mx m' = mx m /\ my m' = my m /\ bnstate m' = bnstate m
     else mx m' = clamped (mx m + delta (Z.testbit b0 4) b1) (nth 0 (bounds m) 0) (nth 2 (bounds m) 0) /\
          my m' = clamped (my m - delta (Z.testbit b0 5) b2) (nth 1 (bounds m) 0) (nth 3 (bounds m) 0) /\
          bnstate m' = b0 mod 8).
Proof.
  intros Haux Hb Hin Hlen Hi Hx Hy.
  destruct (data m) as [|x0 [|x1 [|x2 [|]]]] eqn:Ed; try done.
  destruct (psaux_intr_step m w Haux) as (b0 & d0 & w0 & Hb0 & E0 & R0); [rewrite Ed, Hi; simpl; lia|].
  rewrite Ed, Hi in E0. injection E0 as <-. rewrite Hi in R0.
  rewrite (bind_ok _ _ _ _ _ R0). clear R0. change (3 <=? 0 + 1) with false. cbv iota.
  destruct (psaux_intr_step (set_data m [b0; x1; x2] (0 + 1)) w0 Haux) as (b1 & d1 & w1 & Hb1 & E1 & R1); [simpl; lia|].
  injection E1 as <-. rewrite (bind_ok _ _ _ _ _ R1). clear R1.
  change (3 <=? idx (set_data m [b0; x1; x2] (0 + 1)) + 1) with false. cbv iota.
  set (m2 := set_data _ _ _).
  destruct (psaux_intr_step m2 w1 Haux) as (b2 & d2 & w2 & Hb2 & E2 & R2); [simpl; lia|].
  injection E2 as <-. rewrite R2. change (3 <=? idx m2 + 1) with true. cbv iota.
  set (m3 := set_data m2 _ _).
  rewrite (proc_mouse_data_spec m3 b0 b1 b2) by done.
  eexists b0, b1, b2, _, w2. split; [reflexivity|]. destruct Hb as [Hbx Hby].
  pose proof (clamped_range (mx m + delta (Z.testbit b0 4) b1) _ _ Hbx).
  pose proof (clamped_range (my m - delta (Z.testbit b0 5) b2) _ _ Hby).
  destruct Hin as [[? ?] [? ?]]. destruct (_ || _); unfold inside; cbn [set_pos mx my bounds]; split_and!; try (done || lia).
  all: unfold m3, m2; cbn [set_data mx my bounds]; lia.
Qed.
End transfer.

Definition mouse0 : mouse := mk_mouse 100 100 0 true [0; 0; 319; 199] true [0; 0; 0] 0 [0; 0; 0] 0.
(** A controller with mouse data pending: every read returns 0x39. *)
Definition aux_device : Device := fun _ _ _ => 0x39.

Lemma psaux_packet_witness : exists b0 b1 b2 m' w',
  (m ← @psaux_intr aux_device mouse0; m ← @psaux_intr aux_device m; @psaux_intr aux_device m) (mk_world [] false) = Ok (m', w') /\
    0 <= b1 < 256 /\ 0 <= b2 < 256 /\
    data m' = [b0; b1; b2] /\ idx m' = 0 /\ inside m' /\ bounds m' = [0; 0; 319; 199] /\
    (if Z.testbit b0 6 || Z.testbit b0 7 then mx m' = 100 /\ my m' = 100 /\ bnstate m' = 0
     else mx m' = clamped (100 + delta (Z.testbit b0 4) b1) 0 319 /\
          my m' = clamped (100 - delta (Z.testbit b0 5) b2) 0 199 /\
          bnstate m' = b0 mod 8).
Proof.
  apply (@psaux_packet aux_device mouse0 (mk_world [] false)); try done; try (split; simpl; lia); simpl; lia.
Defined.
