(* ===== verification/Serial.v ===== *)
(** * The serial ports (src/serial.c)

    [ports] are the two entries of the port table, with the receive buffer of
    each as a ring of bytes; a byte is read back as a signed [char]. The busy
    loops take fuel; while [ser_getc] and [ser_wait] spin, the parameter
    [idle] stands for the interrupts that arrive. GDB support is not enabled
    in config.h and not modelled. *)
From S2P Require Import Prelude Io Intr Ring.

Definition UART1_BASE : Z := 0x3f8.
Definition UART2_BASE : Z := 0x2f8.
Definition UART1_IRQ : Z := 4.
Definition UART2_IRQ : Z := 3.
Definition UART_DATA : Z := 0.
Definition UART_INTR : Z := 1.
Definition UART_DIVLO : Z := 0.
Definition UART_DIVHI : Z := 1.
Definition UART_FIFO : Z := 2.
Definition UART_IID : Z := 2.
Definition UART_LCTL : Z := 3.
Definition UART_MCTL : Z := 4.
Definition UART_LSTAT : Z := 5.
Definition INTR_RECV : Z := 1.
Definition FIFO_ENABLE : Z := 1.
Definition FIFO_RECV_CLEAR : Z := 2.
Definition FIFO_SEND_CLEAR : Z := 4.
Definition IID_PENDING : Z := 1.
Definition LCTL_8N1 : Z := 3.
Definition LCTL_8N2 : Z := Z.lor 3 4.
Definition LCTL_DLAB : Z := 0x80.
Definition MCTL_DTR : Z := 1.
Definition MCTL_RTS : Z := 2.
Definition MCTL_OUT2 : Z := 8.
Definition LST_DRDY : Z := 1.
Definition LST_TREG_EMPTY : Z := 0x20.
Definition LST_ERROR : Z := 0x80.
Definition SER_8N2 : Z := 1.
Definition LINEBUF_SIZE : Z := 512.

Record serial_port := mk_port { base : Z; intr_num : Z; blocking : bool; inbuf : ring }.

Record serial := mk_serial {
  ports : list serial_port;
  num_open : Z;
  linebuf : list Z;
  line_widx : Z
}.

Definition uart_base : list Z := [UART1_BASE; UART2_BASE].
Definition uart_irq : list Z := [UART1_IRQ; UART2_IRQ].

Definition port_of (st : serial) (fd : Z) : res serial_port := of_option (zlookup (ports st) fd).
Definition set_port (st : serial) (fd : Z) (p : serial_port) : res serial :=
  ps ← of_option (zinsert (ports st) fd p);
  Ok (mk_serial ps (num_open st) (linebuf st) (line_widx st)).
Definition set_inbuf (p : serial_port) (r : ring) : serial_port :=
  mk_port (base p) (intr_num p) (blocking p) r.

Section serial.
Context `{Device} {F : Type}.

Definition ser_open (ist : intr F) (recv_intr : F) (st : serial) (pidx baud mode : Z)
  : IO (Z * intr F * serial) :=
  if baud =? 0 then lift Fault else
  let div := u16 (Z.quot 115200 baud) in
  if (pidx <? 0) || (1 <? pidx) then mret (-1, ist, st) else
  p ← lift (port_of st pidx);
  if negb (base p =? 0) then mret (-1, ist, st) else
  bs ← lift (of_option (zlookup uart_base pidx));
  irq ← lift (of_option (zlookup uart_irq pidx));
  let fmt := if negb (Z.land mode SER_8N2 =? 0) then LCTL_8N2 else LCTL_8N1 in
  ist ← interrupt ist (IRQ_TO_INTR irq) (Some recv_intr);
  _ ← outb LCTL_DLAB (bs + UART_LCTL);
  _ ← outb (Z.land div 0xff) (bs + UART_DIVLO);
  _ ← outb (Z.land (Z.shiftr div 8) 0xff) (bs + UART_DIVHI);
  _ ← outb fmt (bs + UART_LCTL);
  _ ← outb (Z.lor (Z.lor FIFO_ENABLE FIFO_SEND_CLEAR) FIFO_RECV_CLEAR) (bs + UART_FIFO);
  _ ← outb (Z.lor (Z.lor MCTL_DTR MCTL_RTS) MCTL_OUT2) (bs + UART_MCTL);
  _ ← outb INTR_RECV (bs + UART_INTR);
  st ← lift (set_port st pidx (mk_port bs irq true (mk_ring (replicate 256 0) 0 0)));
  mret (pidx, ist, mk_serial (ports st) (num_open st + 1) (linebuf st) (line_widx st)).

Definition ser_close (st : serial) (fd : Z) : IO serial :=
  p ← lift (port_of st fd);
  let n := num_open st - 1 in
  _ ← (if n =? 0 then _ ← outb 0 (base p + UART_INTR); outb 0 (base p + UART_MCTL) else mret tt);
  st ← lift (set_port st fd (mk_port 0 (intr_num p) (blocking p) (inbuf p)));
  mret (mk_serial (ports st) n (linebuf st) (line_widx st)).

Definition ser_set_blocking (b : bool) (st : serial) (fd : Z) : res (Z * serial) :=
  p ← port_of st fd;
  st ← set_port st fd (mk_port (base p) (intr_num p) b (inbuf p));
  Ok (0, st).
Definition ser_block := ser_set_blocking true.
Definition ser_nonblock := ser_set_blocking false.

Definition ser_pending (st : serial) (fd : Z) : res bool :=
  p ← port_of st fd; Ok (negb (ring_empty (inbuf p))).

(** [while(!ser_pending(fd))] *)
Fixpoint ser_wait (fuel : nat) (idle : serial -> IO serial) (st : serial) (fd : Z) : IO serial :=
  b ← lift (ser_pending st fd);
  if b : bool then mret st else
  match fuel with
  | O => lift NoFuel
  | S fuel => st ← idle st; ser_wait fuel idle st fd
  end.

Definition can_send (st : serial) (fd : Z) : IO bool :=
  p ← lift (port_of st fd);
  v ← inb (base p + UART_LSTAT);
  mret (negb (Z.land v LST_TREG_EMPTY =? 0)).

(** [while(!can_send(fd))] *)
Fixpoint wait_send (fuel : nat) (st : serial) (fd : Z) : IO unit :=
  b ← can_send st fd;
  if b : bool then mret tt else
  match fuel with O => lift NoFuel | S fuel => wait_send fuel st fd end.

(** The recursive call for the carriage return before a newline is unfolded:
    it sends exactly one character. *)
Definition ser_send (fuel : nat) (st : serial) (fd c : Z) : IO unit :=
  p ← lift (port_of st fd);
  _ ← wait_send fuel st fd;
  outb c (base p + UART_DATA).
Definition ser_putc (fuel : nat) (st : serial) (fd c : Z) : IO unit :=
  _ ← (if c =? 10 then ser_send fuel st fd 13 else mret tt);
  ser_send fuel st fd c.

Definition ser_getc (fuel : nat) (idle : serial -> IO serial) (st : serial) (fd : Z) : IO (Z * serial) :=
  p ← lift (port_of st fd);
  st ← (if blocking p then ser_wait fuel idle st fd else mret st);
  have ← lift (ser_pending st fd);
  if have : bool then
    p ← lift (port_of st fd);
    '(c, r) ← lift (ring_pop 256 (inbuf p));
    st ← lift (set_port st fd (set_inbuf p r));
    mret (s8 c, st)
  else mret (-1, st).

Fixpoint ser_write (fuel : nat) (st : serial) (fd : Z) (buf : list Z) : IO unit :=
  match buf with
  | [] => mret tt
  | c :: buf => _ ← ser_putc fuel st fd c; ser_write fuel st fd buf
  end.

(** The bytes read, at most [count]. *)
Fixpoint ser_read (fuel : nat) (idle : serial -> IO serial) (st : serial) (fd : Z) (count : nat)
  : IO (list Z * serial) :=
  match count with
  | O => mret ([], st)
  | S count =>
      '(c, st) ← ser_getc fuel idle st fd;
      if c =? -1 then mret ([], st) else
      '(buf, st) ← ser_read fuel idle st fd count;
      mret (c :: buf, st)
  end.

Definition store_bytes (buf : list Z) (at_ : Z) (l : list Z) : list Z :=
  take (Z.to_nat at_) buf ++ l ++ drop (Z.to_nat at_ + length l) buf.

(** [while(size && (rd = ser_read(fd, linebuf + widx, size)) > 0)] *)
Fixpoint fill_line (n fuel : nat) (idle : serial -> IO serial) (st : serial) (fd : Z) : IO serial :=
  let size := LINEBUF_SIZE - line_widx st in
  if size =? 0 then mret st else
  '(l, st) ← ser_read fuel idle st fd (Z.to_nat size);
  match l with
  | [] => mret st
  | _ =>
      let st := mk_serial (ports st) (num_open st) (store_bytes (linebuf st) (line_widx st) l)
                  (line_widx st + Z.of_nat (length l)) in
      match n with O => lift NoFuel | S n => fill_line n fuel idle st fd end
  end.

(** Index of the first line end among the first [n] characters. *)
Fixpoint line_end (buf : list Z) (n : nat) : option nat :=
  match n, buf with
  | S n, c :: buf => if (c =? 13) || (c =? 10) then Some O else S <$> line_end buf n
  | _, _ => None
  end.

(** The line, or [None] for the null pointer. *)
Definition ser_getline (n fuel : nat) (idle : serial -> IO serial) (st : serial) (fd bsz : Z)
  : IO (option (list Z) * serial) :=
  st ← fill_line n fuel idle st fd;
  lb ← lift (of_option (zinsert (linebuf st) (line_widx st) 0));
  match line_end lb (Z.to_nat (line_widx st)) with
  | Some i =>
      let size := if bsz <=? Z.of_nat i then bsz - 1 else Z.of_nat i in
      let offs := (i + 1)%nat in
      let rest := firstn (Z.to_nat (line_widx st) - offs) (skipn offs lb) in
      mret (Some (firstn (Z.to_nat size) lb),
            mk_serial (ports st) (num_open st) (rest ++ skipn (length rest) lb)
              (line_widx st - Z.of_nat offs))
  | None => mret (None, mk_serial (ports st) (num_open st) lb (line_widx st))
  end.

Definition have_recv (bs : Z) : IO bool :=
  stat ← inb (bs + UART_LSTAT);
  if negb (Z.land stat LST_ERROR =? 0) then lift Panic else
  mret (negb (Z.land stat LST_DRDY =? 0)).

(** [while(have_recv(base))] *)
Fixpoint recv_bytes (fuel : nat) (bs : Z) (r : ring) : IO ring :=
  b ← have_recv bs;
  if b : bool then
    match fuel with
    | O => lift NoFuel
    | S fuel =>
        c ← inb (bs + UART_DATA);
        r ← lift (ring_push 256 r c);
        recv_bytes fuel bs r
    end
  else mret r.

(** [while(((idreg = inb(base + UART_IID)) & IID_PENDING) == 0)] *)
Fixpoint recv_port (n fuel : nat) (bs : Z) (r : ring) : IO ring :=
  idreg ← inb (bs + UART_IID);
  if Z.land idreg IID_PENDING =? 0 then
    match n with
    | O => lift NoFuel
    | S n => r ← recv_bytes fuel bs r; recv_port n fuel bs r
    end
  else mret r.

Definition recv_one (n fuel : nat) (st : serial) (i : Z) : IO serial :=
  bs ← lift (of_option (zlookup uart_base i));
  p ← lift (port_of st i);
  r ← recv_port n fuel bs (inbuf p);
  lift (set_port st i (set_inbuf p r)).

Definition recv_intr (n fuel : nat) (st : serial) : IO serial :=
  st ← recv_one n fuel st 0; recv_one n fuel st 1.
End serial.

(** ** Theorems *)

(** Number of bytes read so far from the data register at [bs]. *)
Definition reads (bs : Z) (tr : list io_event) : nat :=
  length (List.filter (fun e => match e with EIn 8 p _ => p =? bs | _ => false end) tr).

(** At [bs] there is a UART that receives the bytes [l], in this order, without
    line errors, and has its interrupt pending until the last one is read. *)
Definition uart_at `{Device} (bs : Z) (l : list Z) : Prop :=
  Forall (fun c => 0 <= c < 256) l /\
  forall tr, dev tr 8 (bs + 5) = (if (reads bs tr <? length l)%nat then 1 else 0) /\
    dev tr 8 (bs + 2) = (if (reads bs tr <? length l)%nat then 4 else 1) /\
    dev tr 8 bs = nth (reads bs tr) l 0.

(** What arrives is queued; a full buffer loses its oldest bytes. *)
Definition enqueue (q l : list Z) : list Z := fold_left (fun q c => keep_last 256 (q ++ [c])) l q.

Definition waiting (p : serial_port) : list Z := contents 256 (inbuf p).

Section receive.
Context `{Device}.

Lemma reads_other bs e tr : (forall v, e <> EIn 8 bs v) -> reads bs (e :: tr) = reads bs tr.
Proof.
  intros He. unfold reads. cbn [List.filter]. destruct e as [w p v|]; [|done].
  destruct (decide (w = 8 /\ p = bs)) as [[-> ->]|Hne]; [by destruct (He v)|].
  destruct w as [|w|]; try done. do 4 (destruct w as [w|w|]; try done).
  destruct (Z.eqb_spec p bs); [|done]. destruct Hne. done.
Qed.
Lemma reads_data bs v tr : reads bs (EIn 8 bs v :: tr) = S (reads bs tr).
Proof. unfold reads. cbn [List.filter]. by rewrite Z.eqb_refl. Qed.

Lemma inb_ok port w : 0 <= port < 65536 ->
  inb port w = Ok (wrap 8 (dev (trace w) 8 port), mk_world (EIn 8 port (wrap 8 (dev (trace w) 8 port)) :: trace w) (intr_on w)).
Proof. intros Hp. unfold inb, input. by rewrite u16_small by lia. Qed.

(** Accesses to other ports do not count as reads of [b]. *)
Definition quiet (b : Z) (w w' : world) : Prop := reads b (trace w') = reads b (trace w).

Lemma have_recv_uart bs l w : 0 <= bs < 60000 -> uart_at bs l ->
  have_recv bs w = Ok ((reads bs (trace w) <? length l)%nat,
    mk_world (EIn 8 (bs + 5) (wrap 8 (dev (trace w) 8 (bs + 5))) :: trace w) (intr_on w)).
Proof.
  intros Hbs [_ Hu]. unfold have_recv, UART_LSTAT.
  rewrite (bind_ok _ _ _ _ _ (inb_ok (bs + 5) w ltac:(lia))).
  destruct (Hu (trace w)) as (-> & _). by destruct (_ <? _)%nat.
Qed.

Lemma skipn_nth_cons {A} (l : list A) k d : (k < length l)%nat -> skipn k l = nth k l d :: skipn (S k) l.
Proof. revert k. induction l as [|x l IH]; intros [|k] Hk; simpl in *; try lia; [done|]. apply IH. lia. Qed.

Lemma recv_bytes_uart fuel bs l r w other :
  0 <= bs < 60000 -> other <> bs -> other <> bs + 5 ->
  uart_at bs l -> ring_ok 256 r -> (length l <= reads bs (trace w) + fuel)%nat ->
  (reads bs (trace w) <= length l)%nat ->
  exists r' w', recv_bytes fuel bs r w = Ok (r', w') /\ ring_ok 256 r' /\
    contents 256 r' = enqueue (contents 256 r) (skipn (reads bs (trace w)) l) /\
    reads bs (trace w') = length l /\ quiet other w w'.
Proof.
  intros Hbs Ho1 Ho2 [Hl Hu]. revert r w. induction fuel as [|fuel IH]; intros r w Hr Hf Hle;
    cbn [recv_bytes]; rewrite (bind_ok _ _ _ _ _ (have_recv_uart bs l w Hbs (conj Hl Hu)));
    (destruct (Nat.ltb_spec (reads bs (trace w)) (length l)) as [Hlt|Hge]; [|
     exists r; eexists; split; [reflexivity|]; rewrite skipn_all2 by lia; split_and!; try done;
     unfold quiet; cbn [trace]; rewrite reads_other by (intros v [=]; lia); (done || lia)]).
  - lia.
  - set (w1 := mk_world _ _).
    assert (reads bs (trace w1) = reads bs (trace w)) as Hw1 by (apply reads_other; intros v [=]; lia).
    assert (reads other (trace w1) = reads other (trace w)) as Hw1o by (apply reads_other; intros v [=]; lia).
    replace (bs + UART_DATA) with bs by (unfold UART_DATA; lia).
    rewrite (bind_ok _ _ _ _ _ (inb_ok bs w1 ltac:(lia))). set (w2 := mk_world _ _).
    assert (reads bs (trace w2) = S (reads bs (trace w))) as Hw2 by (rewrite <- Hw1; apply reads_data).
    assert (reads other (trace w2) = reads other (trace w)) as Hw2o.
    { rewrite <- Hw1o. apply reads_other. intros v [=]. lia. }
    destruct (Hu (trace w1)) as (_ & _ & ->). rewrite Hw1.
    assert (0 <= nth (reads bs (trace w)) l 0 < 256) as Hc.
    { rewrite Forall_forall in Hl. apply Hl. by apply list_elem_of_In, nth_In. }
    assert (wrap 8 (nth (reads bs (trace w)) l 0) = nth (reads bs (trace w)) l 0) as -> by (apply Z.mod_small; done).
    destruct (ring_push_spec 256 r (nth (reads bs (trace w)) l 0) Hr) as (r1 & E1 & Hr1 & Hq1).
    rewrite E1. unfold mbind at 1, io_mbind at 1. cbn [lift].
    destruct (IH r1 w2 Hr1) as (r' & w' & E & Hr' & Hq & Hreads & Hquiet); [lia|lia|].
    exists r', w'. split_and!; try done.
    + rewrite Hq, Hq1, Hw2. rewrite (skipn_nth_cons l (reads bs (trace w)) 0) by done. done.
    + unfold quiet in *. congruence.
Qed.

Lemma recv_port_uart n fuel bs l r w other :
  0 <= bs < 60000 -> other <> bs -> other <> bs + 5 -> other <> bs + 2 ->
  uart_at bs l -> ring_ok 256 r -> (length l <= reads bs (trace w) + fuel)%nat -> (0 < n)%nat ->
  (reads bs (trace w) <= length l)%nat ->
  exists r' w', recv_port n fuel bs r w = Ok (r', w') /\ ring_ok 256 r' /\
    contents 256 r' = enqueue (contents 256 r) (skipn (reads bs (trace w)) l) /\
    reads bs (trace w') = length l /\ quiet other w w'.
Proof.
  intros Hbs Ho1 Ho2 Ho3 Hu Hr Hf Hn Hle. destruct n as [|n]; [lia|]. cbn [recv_port].
  pose proof Hu as [Hl Hd]. unfold UART_IID.
  rewrite (bind_ok _ _ _ _ _ (inb_ok (bs + 2) w ltac:(lia))). set (w1 := mk_world _ _).
  assert (reads bs (trace w1) = reads bs (trace w)) as Hw1 by (apply reads_other; intros v [=]; lia).
  assert (reads other (trace w1) = reads other (trace w)) as Hw1o by (apply reads_other; intros v [=]; lia).
  destruct (Hd (trace w)) as (_ & -> & _).
  destruct (Nat.ltb_spec (reads bs (trace w)) (length l)) as [Hlt|Hge].
  - change (Z.land (wrap 8 4) IID_PENDING =? 0) with true. cbv iota.
    destruct (recv_bytes_uart fuel bs l r w1 other Hbs Ho1 Ho2 Hu Hr) as (r' & w2 & E & Hr' & Hq & Hrd & Hqt); [lia|lia|].
    rewrite (bind_ok _ _ _ _ _ E).
    destruct n as [|n]; cbn [recv_port]; unfold UART_IID; rewrite (bind_ok _ _ _ _ _ (inb_ok (bs + 2) w2 ltac:(lia)));
      destruct (Hd (trace w2)) as (_ & -> & _); rewrite Hrd, Nat.ltb_irrefl;
      change (Z.land (wrap 8 1) IID_PENDING =? 0) with false; cbv iota;
      (eexists r', _; split; [reflexivity|]; rewrite <- Hw1; split_and!; try done;
       unfold quiet in *; cbn [trace]; rewrite reads_other by (intros v [=]; lia); congruence).
  - change (Z.land (wrap 8 1) IID_PENDING =? 0) with false. cbv iota.
    exists r, w1. rewrite skipn_all2 by lia. split_and!; try done; lia.
Qed.
Lemma recv_one_uart n fuel st i bs p l w other :
  zlookup uart_base i = Some bs -> zlookup (ports st) i = Some p ->
  0 <= bs < 60000 -> other <> bs -> other <> bs + 5 -> other <> bs + 2 ->
  uart_at bs l -> ring_ok 256 (inbuf p) -> (length l <= reads bs (trace w) + fuel)%nat -> (0 < n)%nat ->
  (reads bs (trace w) <= length l)%nat ->
  exists r' ps w', recv_one n fuel st i w = Ok (mk_serial ps (num_open st) (linebuf st) (line_widx st), w') /\
    zinsert (ports st) i (set_inbuf p r') = Some ps /\ ring_ok 256 r' /\
    contents 256 r' = enqueue (waiting p) (skipn (reads bs (trace w)) l) /\
    reads bs (trace w') = length l /\ quiet other w w'.
Proof.
  intros Ebs Ep Hbs Ho1 Ho2 Ho3 Hu Hr Hf Hn Hle.
  destruct (recv_port_uart n fuel bs l (inbuf p) w other Hbs Ho1 Ho2 Ho3 Hu Hr Hf Hn Hle)
    as (r' & w' & E & Hr' & Hq & Hrd & Hqt).
  assert (exists ps, zinsert (ports st) i (set_inbuf p r') = Some ps) as [ps Eps].
  { unfold zlookup in Ep. unfold zinsert. destruct (Z.ltb_spec i 0); [done|].
    apply lookup_lt_Some in Ep. destruct (Z.leb_spec (Z.of_nat (length (ports st))) i); [lia|]. by eexists. }
  exists r', ps, w'. split; [|done]. unfold recv_one, port_of, set_port. rewrite Ebs, Ep.
  unfold mbind, io_mbind. cbn [lift of_option]. by rewrite E, Eps.
Qed.

(** The receive interrupt reads every byte the two UARTs have, in order,
    into the buffer of the port it belongs to, and returns when neither has
    its interrupt pending any more; a buffer keeps the latest 255 bytes. *)
Theorem recv_intr_correct n fuel st p0 p1 l0 l1 w :
  uart_at 0x3f8 l0 -> uart_at 0x2f8 l1 -> ports st = [p0; p1] ->
  ring_ok 256 (inbuf p0) -> ring_ok 256 (inbuf p1) -> (0 < n)%nat ->
  (length l0 <= reads 0x3f8 (trace w) + fuel)%nat -> (length l1 <= reads 0x2f8 (trace w) + fuel)%nat ->
  (reads 0x3f8 (trace w) <= length l0)%nat -> (reads 0x2f8 (trace w) <= length l1)%nat ->
  exists st' w' p0' p1', recv_intr n fuel st w = Ok (st', w') /\ ports st' = [p0'; p1'] /\
    waiting p0' = enqueue (waiting p0) (skipn (reads 0x3f8 (trace w)) l0) /\
    waiting p1' = enqueue (waiting p1) (skipn (reads 0x2f8 (trace w)) l1) /\
    reads 0x3f8 (trace w') = length l0 /\ reads 0x2f8 (trace w') = length l1.
Proof.
  intros H0 H1 Hp Hr0 Hr1 Hn Hf0 Hf1 Hk0 Hk1. unfold recv_intr.
  destruct (recv_one_uart n fuel st 0 0x3f8 p0 l0 w 0x2f8) as (r0 & ps0 & w1 & E0 & Eps0 & Hr0' & Hq0 & Hrd0 & Hqt0);
    try done; try lia; [by rewrite Hp|].
  rewrite Hp in Eps0. injection Eps0 as <-. rewrite (bind_ok _ _ _ _ _ E0). unfold quiet in *.
  destruct (recv_one_uart n fuel (mk_serial [set_inbuf p0 r0; p1] (num_open st) (linebuf st) (line_widx st))
    1 0x2f8 p1 l1 w1 0x3f8) as (r1 & ps1 & w2 & E1 & Eps1 & Hr1' & Hq1 & Hrd1 & Hqt1); try done; try lia.
  injection Eps1 as <-. rewrite E1. unfold quiet in *.
  eexists _, w2, (set_inbuf p0 r0), (set_inbuf p1 r1). split; [reflexivity|]. split_and!; try done.
  - by rewrite <- Hqt0.
  - congruence.
Qed.
End receive.

Definition port0 : serial_port := mk_port 0 0 false (mk_ring (replicate 256 0) 0 0).
Definition serial0 : serial := mk_serial [port0; port0] 0 (replicate 512 0) 0.

(** Two UARTs with bytes to receive. *)
Definition two_uarts (l0 l1 : list Z) : Device := fun tr _ port =>
  let '(bs, l) := if 0x3f8 <=? port then (0x3f8, l0) else (0x2f8, l1) in
  if port =? bs + 5 then (if (reads bs tr <? length l)%nat then 1 else 0)
  else if port =? bs + 2 then (if (reads bs tr <? length l)%nat then 4 else 1)
  else nth (reads bs tr) l 0.

Lemma recv_intr_correct_witness :
  exists st' w' p0' p1', @recv_intr (two_uarts [72; 105] [33]) 1 2 serial0 (mk_world [] false) = Ok (st', w') /\
    ports st' = [p0'; p1'] /\ waiting p0' = [72; 105] /\ waiting p1' = [33] /\
    reads 0x3f8 (trace w') = 2%nat /\ reads 0x2f8 (trace w') = 1%nat.
Proof.
  apply (@recv_intr_correct (two_uarts [72; 105] [33]) 1 2 serial0 port0 port0 [72; 105] [33] (mk_world [] false));
    try done; try (simpl; lia); try (split; simpl; lia).
  - split; [by repeat constructor|]. intros tr. done.
  - split; [by repeat constructor|]. intros tr. done.
  - unfold reads. simpl. lia.
  - unfold reads. simpl. lia.
Defined.

(** ** Reading *)

(** What [ser_read] makes of a queue: a byte 0xff, read back as -1, ends it and
    is lost. *)
Fixpoint read_spec (count : nat) (q : list Z) : list Z * list Z :=
  match count, q with
  | S count, c :: q =>
      if c =? 255 then ([], q) else let '(l, q') := read_spec count q in (s8 c :: l, q')
  | _, _ => ([], q)
  end.

Lemma ser_getc_spec fuel idle st fd p w :
  zlookup (ports st) fd = Some p -> blocking p = false -> ring_ok 256 (inbuf p) ->
  (waiting p = [] -> ser_getc fuel idle st fd w = Ok ((-1, st), w)) /\
  (forall c q, waiting p = c :: q -> exists st' p', ser_getc fuel idle st fd w = Ok ((s8 c, st'), w) /\
     zlookup (ports st') fd = Some p' /\ blocking p' = false /\ ring_ok 256 (inbuf p') /\ waiting p' = q /\
     forall fd', fd' <> fd -> zlookup (ports st') fd' = zlookup (ports st) fd').
Proof.
  intros Hp Hb Hr. unfold ser_getc, ser_pending, port_of, set_port. rewrite Hp.
  cbv [mbind io_mbind res_mbind res_bind lift of_option mret io_mret]. rewrite Hb, Hp.
  rewrite (contents_empty 256 _ Hr).
  unfold waiting. split.
  - intros ->. done.
  - intros c q E. rewrite E. rewrite bool_decide_eq_false_2 by done. cbn [negb].
    destruct (ring_pop_spec 256 _ _ _ Hr E) as (r & -> & Hr' & Hq).
    destruct (zinsert (ports st) fd (set_inbuf p r)) as [ps|] eqn:Eps.
    2: { unfold zlookup in Hp. unfold zinsert in Eps. destruct (Z.ltb_spec fd 0); [done|].
         apply lookup_lt_Some in Hp. destruct (Z.leb_spec (Z.of_nat (length (ports st))) fd); [lia|done]. }
    eexists _, (set_inbuf p r). split; [reflexivity|]. cbn [ports].
    rewrite (zlookup_zinsert _ _ _ _ _ Eps), decide_True by done. split_and!; try done.
    intros fd' Hne. by rewrite (zlookup_zinsert _ _ _ _ _ Eps), decide_False by done.
Qed.

(** On a non-blocking port [ser_read] returns at once, with the queued
    bytes as signed characters up to the requested number, and leaves the
    rest queued; a received byte 0xff is taken for the end of the data: it is
    dropped and the read stops short. *)
Theorem ser_read_correct fuel idle st fd p count w :
  zlookup (ports st) fd = Some p -> blocking p = false -> ring_ok 256 (inbuf p) ->
  Forall (fun c => 0 <= c < 256) (waiting p) ->
  exists st' p', ser_read fuel idle st fd count w = Ok ((fst (read_spec count (waiting p)), st'), w) /\
    zlookup (ports st') fd = Some p' /\ waiting p' = snd (read_spec count (waiting p)) /\
    forall fd', fd' <> fd -> zlookup (ports st') fd' = zlookup (ports st) fd'.
Proof.
  revert st p. induction count as [|count IH]; intros st p Hp Hb Hr Hq; [by exists st, p|].
  cbn [ser_read]. destruct (ser_getc_spec fuel idle st fd p w Hp Hb Hr) as [Hnil Hcons].
  destruct (waiting p) as [|c q] eqn:Eq.
  - rewrite (bind_ok _ _ _ _ _ (Hnil eq_refl)). by exists st, p.
  - destruct (Hcons c q eq_refl) as (st1 & p1 & E1 & Hp1 & Hb1 & Hr1 & Hq1 & Hfr1).
    rewrite (bind_ok _ _ _ _ _ E1). apply Forall_cons in Hq as [Hc Hq]. cbn [read_spec].
    assert ((s8 c =? -1) = (c =? 255)) as -> by (unfold s8; zcases; mlia).
    destruct (Z.eqb_spec c 255); [by exists st1, p1|].
    destruct (IH st1 p1 Hp1 Hb1 Hr1) as (st2 & p2 & E2 & Hp2 & Hq2 & Hfr2); [by rewrite Hq1|].
    rewrite (bind_ok _ _ _ _ _ E2). rewrite Hq1 in *. destruct (read_spec count q) as [l q'].
    exists st2, p2. split_and!; try done. intros fd' Hne. rewrite Hfr2, Hfr1; done.
Qed.

Definition serial1 : serial :=
  mk_serial [mk_port 0x3f8 4 false (mk_ring ([72; 255; 33] ++ replicate 253 0) 0 3); port0] 1 (replicate 512 0) 0.

Lemma ser_read_correct_witness :
  exists st' p', ser_read 0 (fun st => mret st) serial1 0 10 (mk_world [] false) = Ok (([72], st'), mk_world [] false) /\
    zlookup (ports st') 0 = Some p' /\ waiting p' = [33] /\
    forall fd', fd' <> 0 -> zlookup (ports st') fd' = zlookup (ports serial1) fd'.
Proof.
  apply (ser_read_correct 0 (fun st => mret st) serial1 0
    (mk_port 0x3f8 4 false (mk_ring ([72; 255; 33] ++ replicate 253 0) 0 3)) 10 (mk_world [] false));
    try done.
  apply (bool_decide_unpack _). by vm_compute.
Defined.

(** After 512 characters without a line end [ser_getline] stores the
    terminator behind the end of [linebuf]. *)
Lemma ser_getline_overflow n fuel idle st fd bsz w :
  line_widx st = 512 -> length (linebuf st) = 512%nat -> ser_getline n fuel idle st fd bsz w = Fault.
Proof.
  intros Hw Hl. unfold ser_getline. unfold mbind at 1, io_mbind at 1.
  assert (fill_line n fuel idle st fd w = Ok (st, w)) as ->.
  { destruct n; cbn [fill_line]; unfold LINEBUF_SIZE; rewrite Hw; done. }
  unfold zinsert. rewrite Hw, Hl. done.
Qed.
