(* ===== verification/Contty.v ===== *)
(** * The text console (src/contty.c)

    [vram] is the text memory at 0xb8000, indexed by 16-bit cell. It holds
    more rows than the screen shows; [start_line] is the first visible one.
    [scroll] copies bytes from byte offset [start_line * NCOLS], which is cell
    [start_line * NCOLS / 2]. Both CON_TEXTMODE and CON_SERIAL are set in
    config.h: [con_init] opens a serial port and a character is also passed to
    [ser_putchar], both parameters. *)
From S2P Require Import Prelude Bits Io.

Definition VIRT_ROWS : Z := 200.
Definition NCOLS : Z := 80.
Definition NROWS : Z := 25.
Definition CRTC_ADDR : Z := 0x3d4.
Definition CRTC_DATA : Z := 0x3d5.
Definition CRTC_REG_CURSTART : Z := 0x0a.
Definition CRTC_REG_CUREND : Z := 0x0b.
Definition CRTC_REG_START_H : Z := 0x0c.
Definition CRTC_REG_START_L : Z := 0x0d.
Definition CRTC_REG_CURLOC_H : Z := 0x0e.
Definition CRTC_REG_CURLOC_L : Z := 0x0f.
(** of src/serial.h *)
Definition SER_8N1 : Z := 0.
Definition CON_CURSOR_LINE : Z := 0.

Definition VMEM_CHAR (c attr : Z) : Z := Z.lor (Z.land c 0xff) (u16 (Z.shiftl attr 8)).

Record contty := mk_con {
  vram : gmap Z Z;
  cursor_x : Z; cursor_y : Z;
  txattr : Z;
  start_line : Z;
  cy0 : Z; cy1 : Z;
  curvis : Z;
  scr_on : bool
}.

Definition cell (m : gmap Z Z) (i : Z) : Z := default 0 (m !! i).

(** [memset16] on [n] cells, and [memcpy] of [n] cells in ascending order. *)
Fixpoint fill_cells (m : gmap Z Z) (i v : Z) (n : nat) : gmap Z Z :=
  match n with O => m | S n => fill_cells (<[i := v]> m) (i + 1) v n end.
Fixpoint copy_cells (m : gmap Z Z) (d s : Z) (n : nat) : gmap Z Z :=
  match n with O => m | S n => copy_cells (<[d := cell m s]> m) (d + 1) (s + 1) n end.

Definition set_vram (t : contty) (m : gmap Z Z) : contty :=
  mk_con m (cursor_x t) (cursor_y t) (txattr t) (start_line t) (cy0 t) (cy1 t) (curvis t) (scr_on t).
Definition set_cursor (t : contty) (x y : Z) : contty :=
  mk_con (vram t) x y (txattr t) (start_line t) (cy0 t) (cy1 t) (curvis t) (scr_on t).
Definition set_start (t : contty) (l : Z) : contty :=
  mk_con (vram t) (cursor_x t) (cursor_y t) (txattr t) l (cy0 t) (cy1 t) (curvis t) (scr_on t).
Definition set_shape (t : contty) (a b vis : Z) : contty :=
  mk_con (vram t) (cursor_x t) (cursor_y t) (txattr t) (start_line t) a b vis (scr_on t).
Definition set_scr (t : contty) (on : bool) : contty :=
  mk_con (vram t) (cursor_x t) (cursor_y t) (txattr t) (start_line t) (cy0 t) (cy1 t) (curvis t) on.
Definition con_setattr (t : contty) (attr : Z) : contty :=
  mk_con (vram t) (cursor_x t) (cursor_y t) (u8 attr) (start_line t) (cy0 t) (cy1 t) (curvis t) (scr_on t).

Section contty.
Context `{Device} (ser_putchar : Z -> IO unit).

Definition crtc_read (reg : Z) : IO Z := _ ← outb reg CRTC_ADDR; inb CRTC_DATA.
Definition crtc_write (reg val : Z) : IO unit := _ ← outb reg CRTC_ADDR; outb val CRTC_DATA.

Definition crtc_cursor (t : contty) (x y : Z) : IO unit :=
  let addr := (y + start_line t) * NCOLS + x in
  _ ← crtc_write CRTC_REG_CURLOC_L addr;
  crtc_write CRTC_REG_CURLOC_H (Z.shiftr addr 8).

Definition crtc_setstart (y : Z) : IO unit :=
  let addr := y * NCOLS in
  _ ← crtc_write CRTC_REG_START_L addr;
  crtc_write CRTC_REG_START_H (Z.shiftr addr 8).

Definition con_scr_enable (t : contty) : contty := set_scr t true.
Definition con_scr_disable (t : contty) : contty := set_scr t false.

Definition con_show_cursor (t : contty) (show : Z) : IO contty :=
  let val := Z.land (cy0 t) 0x1f in
  let val := if show =? 0 then Z.lor val 0x20 else val in
  _ ← crtc_write CRTC_REG_CURSTART val;
  mret (set_shape t (cy0 t) (cy1 t) show).

(** The serial port the characters are also sent to is opened first. *)
Definition con_init {S} (ser_open : Z -> Z -> Z -> S -> IO S) (t : contty) (s : S) : IO (contty * S) :=
  s ← ser_open 0 9600 SER_8N1 s;
  v0 ← crtc_read CRTC_REG_CURSTART;
  v1 ← crtc_read CRTC_REG_CUREND;
  let t := set_shape t (Z.land v0 0x1f) (Z.land v1 0x1f) (if Z.land v0 0x20 =? 0 then 0 else 1) in
  t ← con_show_cursor t 1;
  _ ← crtc_setstart 0;
  _ ← crtc_cursor t (cursor_x t) (cursor_y t);
  mret (set_scr t true, s).

Definition con_cursor (t : contty) (x y : Z) : IO contty :=
  let t := set_cursor t x y in
  _ ← crtc_cursor t x y;
  mret t.

Definition con_curattr (t : contty) (shape blink : Z) : IO contty :=
  let c0 := if shape =? CON_CURSOR_LINE then 0xd else 0 in
  let t := set_shape t c0 0xe (curvis t) in
  let start := if negb (curvis t =? 0) then Z.lor c0 0x20 else c0 in
  _ ← crtc_write CRTC_REG_CURSTART start;
  _ ← crtc_write CRTC_REG_CUREND c0;
  mret t.

Definition con_fgcolor (t : contty) (c : Z) : contty := con_setattr t (Z.lor (Z.land (txattr t) 0xf0) c).
Definition con_bgcolor (t : contty) (c : Z) : contty :=
  con_setattr t (Z.lor (Z.land (txattr t) 0x0f) (Z.shiftl c 4)).
Definition con_getattr (t : contty) : Z := txattr t.

Definition con_clear (t : contty) : IO contty :=
  let t := set_vram t (fill_cells (vram t) 0 (VMEM_CHAR 32 (txattr t)) (Z.to_nat (NCOLS * NROWS))) in
  let t := set_start t 0 in
  _ ← crtc_setstart 0;
  let t := set_cursor t 0 0 in
  _ ← crtc_cursor t 0 0;
  mret t.

Definition scroll (t : contty) : IO contty :=
  let t := set_start t (start_line t + 1) in
  let t := if VIRT_ROWS - NROWS <? start_line t then
             set_start (set_vram t
               (copy_cells (vram t) 0 (start_line t * NCOLS / 2) (Z.to_nat ((NROWS - 1) * NCOLS)))) 0
           else t in
  let new_line := start_line t + NROWS - 1 in
  let t := set_vram t (fill_cells (vram t) (new_line * NCOLS) (VMEM_CHAR 32 (txattr t)) (Z.to_nat NCOLS)) in
  _ ← crtc_setstart (start_line t);
  mret t.

Definition linefeed (t : contty) : IO contty :=
  let t := set_cursor t (cursor_x t) (cursor_y t + 1) in
  if NROWS <=? cursor_y t then
    t ← scroll t;
    mret (set_cursor t (cursor_x t) (cursor_y t - 1))
  else mret t.

Definition con_putchar_scr (t : contty) (x y c : Z) : contty :=
  set_vram t (<[(y + start_line t) * NCOLS + x := VMEM_CHAR c (txattr t)]> (vram t)).

(** [if(cursor_x >= NCOLS) { linefeed(); cursor_x = 0; }] *)
Definition wrap_line (t : contty) : IO contty :=
  if NCOLS <=? cursor_x t then
    t ← linefeed t; mret (set_cursor t 0 (cursor_y t))
  else mret t.

Definition con_putchar (t : contty) (c : Z) : IO contty :=
  t ← (if scr_on t then
         if (c =? 10) || (c =? 13) then
           t ← (if c =? 10 then linefeed t else mret t);
           let t := set_cursor t 0 (cursor_y t) in
           _ ← crtc_cursor t (cursor_x t) (cursor_y t);
           mret t
         else if c =? 9 then
           t ← wrap_line (set_cursor t (Z.land (cursor_x t) 7 + 8) (cursor_y t));
           _ ← crtc_cursor t (cursor_x t) (cursor_y t);
           mret t
         else if c =? 8 then
           let t := if 0 <? cursor_x t then set_cursor t (cursor_x t - 1) (cursor_y t) else t in
           let t := con_putchar_scr t (cursor_x t) (cursor_y t) 32 in
           _ ← crtc_cursor t (cursor_x t) (cursor_y t);
           mret t
         else
           let t := con_putchar_scr t (cursor_x t) (cursor_y t) c in
           t ← wrap_line (set_cursor t (cursor_x t + 1) (cursor_y t));
           _ ← crtc_cursor t (cursor_x t) (cursor_y t);
           mret t
       else mret t);
  _ ← ser_putchar c;
  mret t.

(** The loop over the formatted text [buf]; the result is the
    number of characters written. *)
Fixpoint put_row (t : contty) (x y : Z) (buf : list Z) (n : Z) : contty * Z :=
  match buf with
  | c :: buf =>
      if x <? 80 then put_row (con_putchar_scr t x y c) (x + 1) y buf (n + 1) else (t, n)
  | [] => (t, n)
  end.
Definition con_printf (t : contty) (x y : Z) (buf : list Z) : contty * Z := put_row t x y buf 0.
End contty.

(** ** The terminal the console implements *)

Lemma cell_insert m i v j : cell (<[i := v]> m) j = if decide (j = i) then v else cell m j.
Proof. unfold cell. rewrite lookup_insert. repeat case_decide; try congruence; done. Qed.

Lemma cell_fill m i v n j :
  cell (fill_cells m i v n) j = if decide (i <= j < i + Z.of_nat n) then v else cell m j.
Proof.
  revert m i. induction n as [|n IH]; intros m i; cbn [fill_cells]; [by rewrite decide_False by lia|].
  rewrite IH, cell_insert. repeat case_decide; try lia; done.
Qed.

Lemma cell_copy m d s n j : d <= s ->
  cell (copy_cells m d s n) j = if decide (d <= j < d + Z.of_nat n) then cell m (j - d + s) else cell m j.
Proof.
  revert m d s. induction n as [|n IH]; intros m d s Hds; cbn [copy_cells]; [by rewrite decide_False by lia|].
  rewrite IH by lia. rewrite !cell_insert. repeat case_decide; try lia; try done; f_equal; lia.
Qed.

(** The character cell the screen shows in column [x] of row [y]. *)
Definition visible (t : contty) (x y : Z) : Z := cell (vram t) ((y + start_line t) * NCOLS + x).

Record term := mk_term { screen : Z -> Z -> Z; tx : Z; ty : Z }.

(** One row down, at the bottom by moving the text up. *)
Definition term_newline (attr : Z) (s : term) : term :=
  if ty s <? 24 then mk_term (screen s) (tx s) (ty s + 1)
  else mk_term (fun x y => if y <? 24 then screen s x (y + 1) else VMEM_CHAR 32 attr) (tx s) 24.

Definition term_put (attr c : Z) (s : term) : term :=
  mk_term (fun x y => if decide (x = tx s /\ y = ty s) then VMEM_CHAR c attr else screen s x y) (tx s) (ty s).

(** A terminal of 25 rows of 80 columns (without tabulators). *)
Definition term_putchar (attr c : Z) (s : term) : term :=
  if c =? 10 then let s := term_newline attr s in mk_term (screen s) 0 (ty s)
  else if c =? 13 then mk_term (screen s) 0 (ty s)
  else if c =? 8 then term_put attr 32 (mk_term (screen s) (Z.max 0 (tx s - 1)) (ty s))
  else
    let s := term_put attr c s in
    if tx s <? 79 then mk_term (screen s) (tx s + 1) (ty s)
    else let s := term_newline attr s in mk_term (screen s) 0 (ty s).

Record con_ok (t : contty) : Prop := {
  ok_start : 0 <= start_line t <= VIRT_ROWS - NROWS;
  ok_x : 0 <= cursor_x t < NCOLS;
  ok_y : 0 <= cursor_y t < NROWS
}.

(** The console [t] shows the terminal [s]. *)
Definition shows (t : contty) (s : term) : Prop :=
  cursor_x t = tx s /\ cursor_y t = ty s /\
  forall x y, 0 <= x < NCOLS -> 0 <= y < NROWS -> visible t x y = screen s x y.

Ltac con := unfold visible, VIRT_ROWS, NROWS, NCOLS in *; cbn [vram start_line cursor_x cursor_y txattr scr_on
  set_vram set_start set_cursor con_putchar_scr screen tx ty] in *.

Section console.
Context `{Device}.

Lemma crtc_setstart_ok y w : exists w', crtc_setstart y w = Ok (tt, w').
Proof. unfold crtc_setstart, crtc_write. io. by eexists. Qed.
Lemma crtc_cursor_ok t x y w : exists w', crtc_cursor t x y w = Ok (tt, w').
Proof. unfold crtc_cursor, crtc_write. io. by eexists. Qed.

(** Scrolling before the end of the text memory moves every row up. *)
Lemma scroll_shows t s w :
  0 <= start_line t < VIRT_ROWS - NROWS ->
  (forall x y, 0 <= x < NCOLS -> 0 <= y < NROWS -> visible t x y = screen s x y) ->
  exists t' w', scroll t w = Ok (t', w') /\ start_line t' = start_line t + 1 /\
    cursor_x t' = cursor_x t /\ cursor_y t' = cursor_y t /\ txattr t' = txattr t /\ scr_on t' = scr_on t /\
    forall x y, 0 <= x < NCOLS -> 0 <= y < NROWS ->
      visible t' x y = if y <? 24 then screen s x (y + 1) else VMEM_CHAR 32 (txattr t).
Proof.
  intros Hst Hv. unfold scroll. cbn [start_line set_start]. con.
  destruct (Z.ltb_spec (200 - 25) (start_line t + 1)); [lia|]. cbn [start_line set_start].
  match goal with |- context [crtc_setstart ?y] => destruct (crtc_setstart_ok y w) as [w' E] end.
  rewrite (bind_ok _ _ _ _ _ E). eexists _, w'. split; [reflexivity|]. con. split_and!; try done.
  intros x y Hx Hy. rewrite cell_fill. destruct (Z.ltb_spec y 24).
  - rewrite decide_False by lia. rewrite <- (Hv x (y + 1)) by lia. f_equal. lia.
  - rewrite decide_True by lia. done.
Qed.

Lemma linefeed_shows t s w :
  con_ok (set_cursor t 0 (cursor_y t)) -> cursor_y t = ty s ->
  (start_line t < VIRT_ROWS - NROWS \/ cursor_y t < NROWS - 1) ->
  (forall x y, 0 <= x < NCOLS -> 0 <= y < NROWS -> visible t x y = screen s x y) ->
  exists t' w', linefeed t w = Ok (t', w') /\ con_ok (set_cursor t' 0 (cursor_y t')) /\
    txattr t' = txattr t /\ scr_on t' = scr_on t /\
    shows (set_cursor t' 0 (cursor_y t')) (mk_term (screen (term_newline (txattr t) s)) 0 (ty (term_newline (txattr t) s))).
Proof.
  intros [H1 H2 H3] Hy Hroom Hv. unfold linefeed, term_newline. con. rewrite <- Hy.
  destruct (Z.leb_spec 25 (cursor_y t + 1)).
  - destruct (scroll_shows (set_cursor t (cursor_x t) (cursor_y t + 1)) s w) as (t' & w' & E & Hs & Hx' & Hy' & Ha & Ho & Hvis);
      [con; lia|con; exact Hv|].
    rewrite (bind_ok _ _ _ _ _ E). eexists _, w'. split; [reflexivity|]. con.
    destruct (Z.ltb_spec (cursor_y t) 24); [lia|]. split_and!; [split; con; lia|done|done|].
    split; [done|]. con. split; [lia|exact Hvis].
  - eexists _, w. split; [reflexivity|]. destruct (Z.ltb_spec (cursor_y t) 24); [|lia].
    split_and!; [split; con; lia|done|done|]. split; [done|]. con. split; [done|exact Hv].
Qed.

(** Programming the cursor and then the serial port changes no state. *)
Lemma then_cursor (m : IO contty) t' w w1 :
  m w = Ok (t', w1) ->
  exists w2, (t ← m; _ ← crtc_cursor t (cursor_x t) (cursor_y t); mret t) w = Ok (t', w2).
Proof.
  intros E. destruct (crtc_cursor_ok t' (cursor_x t') (cursor_y t') w1) as [w2 E2]. exists w2.
  rewrite (bind_ok _ _ _ _ _ E). by rewrite (bind_ok _ _ _ _ _ E2).
Qed.

Lemma put_shows t s c :
  con_ok t -> shows t s ->
  shows (con_putchar_scr t (cursor_x t) (cursor_y t) c) (term_put (txattr t) c s).
Proof.
  intros [H1 H2 H3] (Hx & Hy & Hv). unfold term_put. split; [done|]. split; [done|]. con.
  intros x y Hx' Hy'. rewrite cell_insert. rewrite <- Hx, <- Hy.
  destruct (decide (x = cursor_x t /\ y = cursor_y t)) as [[-> ->]|Hne].
  - by rewrite decide_True by done.
  - rewrite decide_False; [by apply Hv|]. intros E. apply Hne. unfold NCOLS in E. lia.
Qed.

Lemma putchar_scr_shows t s c w :
  con_ok t -> shows t s -> (start_line t < VIRT_ROWS - NROWS \/ cursor_y t < NROWS - 1) ->
  exists t' w', wrap_line (set_cursor (con_putchar_scr t (cursor_x t) (cursor_y t) c) (cursor_x t + 1) (cursor_y t)) w = Ok (t', w') /\
    con_ok t' /\ txattr t' = txattr t /\ shows t'
      (let s := term_put (txattr t) c s in
       if tx s <? 79 then mk_term (screen s) (tx s + 1) (ty s)
       else let s := term_newline (txattr t) s in mk_term (screen s) 0 (ty s)).
Proof.
  intros Hok Hs Hroom. pose proof (put_shows t s c Hok Hs) as (Hx & Hy & Hv).
  unfold wrap_line. set (t1 := con_putchar_scr t _ _ c) in *.
  set (s1 := term_put (txattr t) c s) in *. cbv zeta. destruct Hok as [H1 H2 H3].
  assert (cursor_x t = tx s1 /\ cursor_y t = ty s1) as [Ex Ey] by done.
  cbn [cursor_x set_cursor]. rewrite <- Ex. unfold NCOLS, NROWS in *.
  destruct (Z.leb_spec 80 (cursor_x t + 1)), (Z.ltb_spec (cursor_x t) 79); try lia.
  - destruct (linefeed_shows (set_cursor t1 (cursor_x t + 1) (cursor_y t)) s1 w) as (t' & w' & E & Hok' & Ha & Ho & Hsh);
      [split; unfold NCOLS, NROWS in *; simpl; lia|done|exact Hroom|exact Hv|].
    rewrite (bind_ok _ _ _ _ _ E). eexists _, w'. split; [reflexivity|]. split; [exact Hok'|]. split; [exact Ha|]. exact Hsh.
  - eexists _, w. split; [reflexivity|]. split; [split; unfold NCOLS, NROWS in *; simpl; lia|]. split; [done|].
    split; [simpl; lia|]. split; [done|exact Hv].
Qed.

(** C21. Printing on the console is printing on a terminal of 25 rows of 80
    columns: new line, carriage return, backspace, line wrap and scrolling
    included, for every character but the tabulator, until the text memory
    is used up and has to be rewound. *)
Theorem con_putchar_shows ser_putchar t s c w :
  con_ok t -> shows t s -> scr_on t = true -> c <> 9 ->
  (start_line t < VIRT_ROWS - NROWS \/ cursor_y t < NROWS - 1) ->
  (forall w, exists w', ser_putchar c w = Ok (tt, w')) ->
  exists t' w', con_putchar ser_putchar t c w = Ok (t', w') /\ con_ok t' /\
    txattr t' = txattr t /\ shows t' (term_putchar (txattr t) c s).
Proof.
  intros Hok Hsh Hon Hc Hroom Hser. unfold con_putchar, term_putchar. rewrite Hon.
  destruct Hsh as (Hx & Hy & Hv). pose proof Hok as [H1 H2 H3].
  assert (forall (m : IO contty) (Q : contty -> Prop),
    (exists t' w1, m w = Ok (t', w1) /\ Q t') ->
    exists t' w2, (t ← m; _ ← ser_putchar c; mret t) w = Ok (t', w2) /\ Q t') as Hfin.
  { intros m Q (t' & w1 & E & HQ). destruct (Hser w1) as [w2 E2]. exists t', w2. split; [|done].
    rewrite (bind_ok _ _ _ _ _ E). by rewrite (bind_ok _ _ _ _ _ E2). }
  apply (Hfin _ (fun t' => con_ok t' /\ txattr t' = txattr t /\ shows t' _)). clear Hfin.
  destruct (Z.eqb_spec c 10) as [->|]; [|destruct (Z.eqb_spec c 13) as [->|]; [|
    destruct (Z.eqb_spec c 9); [done|]; destruct (Z.eqb_spec c 8) as [->|]]]; cbn [orb].
  - destruct (linefeed_shows t s w) as (t1 & w1 & E & Hok1 & Ha1 & _ & Hsh1); try done.
    destruct (crtc_cursor_ok (set_cursor t1 0 (cursor_y t1)) 0 (cursor_y t1) w1) as [w2 E2].
    exists (set_cursor t1 0 (cursor_y t1)), w2. split; [|done].
    rewrite (bind_ok _ _ _ _ _ E). cbv zeta. cbn [cursor_x cursor_y set_cursor] in *. by rewrite (bind_ok _ _ _ _ _ E2).
  - destruct (crtc_cursor_ok (set_cursor t 0 (cursor_y t)) 0 (cursor_y t) w) as [w2 E2].
    exists (set_cursor t 0 (cursor_y t)), w2.
    split; [cbv [mbind io_mbind mret io_mret]; cbn [cursor_x cursor_y set_cursor] in *; by rewrite E2|].
    split; [split; con; lia|done].
  - set (t0 := if 0 <? cursor_x t then set_cursor t (cursor_x t - 1) (cursor_y t) else t).
    assert (t0 = set_cursor t (Z.max 0 (cursor_x t - 1)) (cursor_y t)) as E0.
    { unfold t0. destruct t; con. destruct (Z.ltb_spec 0 cursor_x0).
      - by replace (Z.max 0 (cursor_x0 - 1)) with (cursor_x0 - 1) by lia.
      - by replace (Z.max 0 (cursor_x0 - 1)) with cursor_x0 by lia. }
    rewrite E0. clear t0 E0. set (t0 := set_cursor t _ _).
    set (t1 := con_putchar_scr t0 (cursor_x t0) (cursor_y t0) 32).
    destruct (crtc_cursor_ok t1 (cursor_x t1) (cursor_y t1) w) as [w2 E2].
    exists t1, w2. split; [by rewrite (bind_ok _ _ _ _ _ E2)|].
    split; [split; unfold t1, t0; con; lia|]. split; [done|].
    rewrite <- Hx, <- Hy. apply (put_shows t0 (mk_term (screen s) (Z.max 0 (cursor_x t - 1)) (cursor_y t)) 32).
    + split; unfold t0; con; lia.
    + split; [done|]. split; [done|exact Hv].
  - destruct (putchar_scr_shows t s c w Hok) as (t1 & w1 & E & Hok1 & Ha1 & Hsh1); [by split_and!|done|].
    destruct (then_cursor _ _ _ _ E) as [w2 E2]. by exists t1, w2.
Qed.

(** When the text memory is used up [scroll] should copy the 24 visible
    rows to its start, but takes them from half their distance: the screen
    then shows text from 88 rows further up. *)
Theorem scroll_rewind_wrong t w :
  start_line t = VIRT_ROWS - NROWS ->
  exists t' w', scroll t w = Ok (t', w') /\ start_line t' = 0 /\
    forall x y, 0 <= x < NCOLS -> 0 <= y < NROWS - 1 ->
      visible t' x y = cell (vram t) ((88 + y) * NCOLS + x).
Proof.
  intros Hst. unfold scroll. cbn [start_line set_start]. rewrite Hst.
  change (VIRT_ROWS - NROWS <? VIRT_ROWS - NROWS + 1) with true. cbv iota.
  change (VIRT_ROWS - NROWS + 1) with 176. cbn [start_line set_start set_vram vram txattr].
  change (176 * NCOLS / 2) with (88 * 80).
  destruct (crtc_setstart_ok 0 w) as [w' E]. rewrite (bind_ok _ _ _ _ _ E).
  eexists _, w'. split; [reflexivity|]. split; [done|]. intros x y Hx Hy. con.
  rewrite cell_fill, decide_False by lia. rewrite cell_copy by lia. rewrite decide_True by lia.
  f_equal. lia.
Qed.

(** The tabulator moves to a column between 8 and 15, wherever it is: from
    column 16 on it goes backwards. *)
Lemma con_tab_backwards ser_putchar t w :
  scr_on t = true -> cursor_x t = 16 -> (forall w, exists w', ser_putchar 9 w = Ok (tt, w')) ->
  exists t' w', con_putchar ser_putchar t 9 w = Ok (t', w') /\ cursor_x t' = 8.
Proof.
  intros Hon Hx Hser. unfold con_putchar. rewrite Hon, Hx. change (Z.land 16 7 + 8) with 8.
  cbv [Z.eqb Pos.eqb orb wrap_line]. cbn [cursor_x set_cursor].
  change (NCOLS <=? 8) with false. cbv iota.
  destruct (crtc_cursor_ok (set_cursor t 8 (cursor_y t)) 8 (cursor_y t) w) as [w1 E].
  destruct (Hser w1) as [w2 E2]. eexists _, w2.
  cbv [mbind io_mbind mret io_mret]. cbn [cursor_x cursor_y set_cursor] in *. rewrite E. rewrite E2. done.
Qed.

(** [con_curattr] hides a visible cursor (bit 5 of the start register
    disables it), and writes the first scan line to the end register. *)
Lemma con_curattr_hides t blink w :
  curvis t = 1 -> exists t' w', con_curattr t 0 blink w = Ok (t', w') /\
    trace w' = outs [(0x0a, 0x3d4); (Z.lor 0xd 0x20, 0x3d5); (0x0b, 0x3d4); (0xd, 0x3d5)] ++ trace w.
Proof.
  intros Hv. unfold con_curattr, crtc_write. rewrite Hv. io. eexists _, _. split; [reflexivity|]. done.
Qed.
End console.

Definition con0 : contty := mk_con ∅ 79 24 7 100 0 0 1 true.
Definition null_device : Device := fun _ _ _ => 0.

Lemma con_putchar_shows_witness :
  exists t' w', @con_putchar (fun _ => mret tt) con0 65 (mk_world [] false) = Ok (t', w') /\
    con_ok t' /\ txattr t' = 7 /\ shows t' (term_putchar 7 65 (mk_term (visible con0) 79 24)).
Proof.
  apply (con_putchar_shows (fun _ => mret tt) con0 (mk_term (visible con0) 79 24) 65 (mk_world [] false)); try done.
  - by left.
  - intros w. by exists w.
Defined.

Lemma scroll_rewind_wrong_witness :
  exists t' w', scroll (set_start con0 175) (mk_world [] false) = Ok (t', w') /\ start_line t' = 0 /\
    forall x y, 0 <= x < NCOLS -> 0 <= y < NROWS - 1 ->
      visible t' x y = cell ∅ ((88 + y) * NCOLS + x).
Proof. apply (scroll_rewind_wrong (set_start con0 175) (mk_world [] false)). reflexivity. Defined.
