(* ===== verification/Int86.v ===== *)
(** * Calls of the BIOS (src/int86.h)

    The registers an interrupt of the BIOS is entered with and leaves. The
    call itself ([int86]) is code of the machine: every driver that calls the
    BIOS takes it as a parameter, which acts on the registers, the memory and
    the state of the BIOS. *)
From S2P Require Import Prelude.

Definition FLAGS_CARRY : Z := 1.

Record int86regs := mk_regs {
  edi : Z; esi : Z; ebp : Z; esp : Z; ebx : Z; edx : Z; ecx : Z; eax : Z;
  flags : Z; es : Z; ds : Z; fs : Z; gs : Z }.

(** Registers cleared by [memset] but for those the callers set. *)
Definition regs_in (eax ebx ecx edx ds es : Z) : int86regs :=
  mk_regs 0 0 0 0 ebx (u32 edx) (u32 ecx) (u32 eax) 0 (u16 es) (u16 ds) 0 0.

Definition carry (r : int86regs) : bool := negb (Z.land (flags r) FLAGS_CARRY =? 0).
