(* ===== verification/Stdio.v ===== *)
(** * Formatted output (src/libc/stdio.c)

    [intern_printf] formats into a sink. A sink is a state [T] and what
    [bwrite] does to it when [cnum] characters were written before: the byte
    memory for the functions that write to a buffer, the console and its ports
    for [printf], the serial port for [ser_printf]. The arguments are the 32-bit
    words above the format on the stack; [str_at] gives the string at an
    address, which the output does not overlap. *)
From S2P Require Import Prelude Memory Ctype Str Convert Io Contty.

(** The letters ["dioxXucsfeEgGpn%"]. *)
Definition convc : list Z := [100; 105; 111; 120; 88; 117; 99; 115; 102; 101; 69; 103; 71; 112; 110; 37].
Definition IS_CONV (c : Z) : bool := match strchr convc c with Some _ => true | None => false end.

(** The variables that describe the conversion. *)
Record spec := mk_spec {
  base : Z; alt : bool; fwidth : Z; padc : Z; hex_caps : bool;
  sign : bool; left_align : bool; unsig : bool }.
Definition spec0 : spec := mk_spec 10 false 0 32 false false false false.
(** "restore default conversion state": the last three are not restored. *)
Definition restore (sp : spec) : spec := mk_spec 10 false 0 32 false (sign sp) (left_align sp) (unsig sp).

Definition set_base b sp := mk_spec b (alt sp) (fwidth sp) (padc sp) (hex_caps sp) (sign sp) (left_align sp) (unsig sp).
Definition set_alt sp := mk_spec (base sp) true (fwidth sp) (padc sp) (hex_caps sp) (sign sp) (left_align sp) (unsig sp).
Definition set_fwidth w sp := mk_spec (base sp) (alt sp) w (padc sp) (hex_caps sp) (sign sp) (left_align sp) (unsig sp).
Definition set_padc c sp := mk_spec (base sp) (alt sp) (fwidth sp) c (hex_caps sp) (sign sp) (left_align sp) (unsig sp).
Definition set_caps sp := mk_spec (base sp) (alt sp) (fwidth sp) (padc sp) true (sign sp) (left_align sp) (unsig sp).
Definition set_sign sp := mk_spec (base sp) (alt sp) (fwidth sp) (padc sp) (hex_caps sp) true (left_align sp) (unsig sp).
Definition set_left sp := mk_spec (base sp) (alt sp) (fwidth sp) (padc sp) (hex_caps sp) (sign sp) true (unsig sp).
Definition set_unsig sp := mk_spec (base sp) (alt sp) (fwidth sp) (padc sp) (hex_caps sp) (sign sp) (left_align sp) true.

(** What follows a field width. *)
Fixpoint skip_digits (s : list Z) : list Z :=
  match s with c :: t => if isdigit c then skip_digits t else s | [] => [] end.

(** What a format changes: the characters counted, the arguments that are
    left, the stores of ["%n"] and the sink. *)
Record pf (T : Type) := mk_pf { cnum : Z; ap : list Z; stored : list (Z * Z); out : T }.
Arguments mk_pf {T}. Arguments cnum {T}. Arguments ap {T}. Arguments stored {T}. Arguments out {T}.

Section printf.
Context {T : Type} (bwrite : Z -> list Z -> T -> res T) (str_at : Z -> list Z).

(** [bwrite(...); cnum += ...] *)
Definition emit (str : list Z) : SM (pf T) unit := fun st =>
  o ← bwrite (cnum st) str (out st);
  Ok (tt, mk_pf (s32 (cnum st + strlen str)) (ap st) (stored st) o).

(** [va_arg]: the next word of the stack. *)
Definition va_arg : SM (pf T) Z := fun st =>
  match ap st with
  | w :: ws => Ok (w, mk_pf (cnum st) ws (stored st) (out st))
  | [] => Fault
  end.

Fixpoint put_pad (n : nat) (c : Z) : SM (pf T) unit :=
  match n with O => mret tt | S n => emit [c];; put_pad n c end.

(** A text in a field, [plus] in front of it. *)
Definition put_field (sp : spec) (plus text : list Z) : SM (pf T) unit :=
  let put := (match plus with [] => mret tt | _ => emit plus end);; emit text in
  (if left_align sp then put else mret tt);;
  put_pad (Z.to_nat (fwidth sp - strlen text)) (if left_align sp then 32 else padc sp);;
  (if left_align sp then mret tt else put).

Definition put_number (sp : spec) : SM (pf T) unit :=
  w ← va_arg;
  text ← sm_lift (if unsig sp then utoa (u32 w) (base sp) else itoa (s32 w) (base sp));
  let text := if hex_caps sp then toupper <$> text else text in
  put_field sp (if negb (unsig sp) && sign sp && (0 <=? s32 w) then [43] else []) text.

(** The [switch] over the conversion letter; the result is the conversion state
    after it. *)
Definition conversion (c : Z) (sp : spec) : SM (pf T) spec :=
  if (c =? 88) || (c =? 120) || (c =? 112) then
    let sp := set_unsig (set_base 16 (if c =? 88 then set_caps sp else sp)) in
    (if alt sp then emit [48; 120] else mret tt);; put_number sp;; mret (restore sp)
  else if c =? 117 then let sp := set_unsig sp in put_number sp;; mret (restore sp)
  else if c =? 111 then
    let sp := set_base 8 sp in
    (if alt sp then emit [48] else mret tt);; put_number sp;; mret (restore sp)
  else if (c =? 100) || (c =? 105) then put_number sp;; mret (restore sp)
  else if c =? 99 then w ← va_arg; emit [s8 w];; mret (restore sp)
  else if c =? 115 then w ← va_arg; put_field sp [] (str_at w);; mret (restore sp)
  else if c =? 110 then
    w ← va_arg;
    sm_upd (fun st => mk_pf (cnum st) (ap st) (stored st ++ [(w, cnum st)]) (out st));;
    mret (restore sp)
  else mret (restore sp).

(** [while( *fmt)]: [fstart] tells whether a ['%'] was seen. *)
Fixpoint printf_loop (fuel : nat) (fmt : list Z) (fstart : bool) (sp : spec) : SM (pf T) unit :=
  match fmt with
  | [] => mret tt
  | c :: rest =>
      match fuel with
      | O => sm_lift NoFuel
      | S fuel =>
          if c =? 37 then printf_loop fuel rest true sp
          else if fstart then
            if IS_CONV c then sp ← conversion c sp; printf_loop fuel rest false sp
            else if c =? 35 then printf_loop fuel rest true (set_alt sp)
            else if c =? 43 then printf_loop fuel rest true (set_sign sp)
            else if c =? 45 then printf_loop fuel rest true (set_left sp)
            else if (c =? 108) || (c =? 76) then printf_loop fuel rest true sp
            else if c =? 48 then printf_loop fuel rest true (set_padc 48 sp)
            else if isdigit c then
              printf_loop fuel (skip_digits fmt) true (set_fwidth (atoi fmt) sp)
            else printf_loop fuel rest true sp
          else emit [c];; printf_loop fuel rest false sp
      end
  end.

Definition intern_printf (fmt args : list Z) (o : T) : res (Z * pf T) :=
  '(_, st) ← printf_loop (length fmt) fmt false spec0 (mk_pf 0 args [] o);
  Ok (cnum st, st).
End printf.

(** ** The sinks *)

(** [bwrite] for a buffer at [buf] of [sz] bytes (0: no limit), of which [cnum]
    are written. *)
Definition bwrite_buf (buf sz cnum : Z) (str : list Z) (m : gmap Z Z) : res (gmap Z Z) :=
  let b := if buf =? 0 then buf else u32 (buf + cnum) in
  let buf_sz := if sz =? 0 then sz else u32 (sz - cnum) in
  let n := if negb (buf_sz =? 0) && (buf_sz <=? strlen str) then buf_sz else strlen str in
  Ok (store_list (st8 m (b + n) 0) b (take (Z.to_nat n) str)).

Section devices.
Context (ser_putchar : Z -> IO unit).

(** A loop of [putchar] calls. *)
Fixpoint put_all (str : list Z) (t : contty) : IO contty :=
  match str with
  | [] => mret t
  | c :: str => t ← con_putchar ser_putchar t c; put_all str t
  end.
Definition bwrite_con (_ : Z) (str : list Z) (s : contty * world) : res (contty * world) :=
  put_all str s.1 s.2.

Fixpoint ser_put_all (str : list Z) : IO unit :=
  match str with [] => mret tt | c :: str => _ ← ser_putchar c; ser_put_all str end.
Definition bwrite_ser (_ : Z) (str : list Z) (w : world) : res world :=
  '(_, w) ← ser_put_all str w; Ok w.

Context (str_at : Z -> list Z).

Definition putchar (c : Z) (t : contty) : IO (Z * contty) := t ← con_putchar ser_putchar t c; mret (c, t).
Definition puts (s : list Z) (t : contty) : IO contty :=
  t ← put_all s t; con_putchar ser_putchar t 10.

Definition printf (fmt args : list Z) : contty * world -> res (Z * pf (contty * world)) :=
  intern_printf bwrite_con str_at fmt args.
Definition vprintf (fmt ap : list Z) : contty * world -> res (Z * pf (contty * world)) :=
  intern_printf bwrite_con str_at fmt ap.
Definition ser_vprintf (fmt ap : list Z) : world -> res (Z * pf world) :=
  intern_printf bwrite_ser str_at fmt ap.
Definition ser_printf (fmt args : list Z) : world -> res (Z * pf world) :=
  intern_printf bwrite_ser str_at fmt args.

Definition stdout : Z := 1.
Definition stderr : Z := 2.
Definition vfprintf (fp : Z) (fmt ap : list Z) (s : contty * world) : res (Z * pf (contty * world)) :=
  if (fp =? stdout) || (fp =? stderr) then vprintf fmt ap s else Panic.
Definition fprintf (fp : Z) (fmt args : list Z) (s : contty * world) : res (Z * pf (contty * world)) := vfprintf fp fmt args s.
End devices.

(** ** Error messages (strerror of src/libc/string.c) *)

Definition errstr : list (option (list Z)) :=
  (Some ∘ codes <$> ["Success"; "Foo"; "Interrupted"; "Invalid"; "Child"; "Timeout"; "Out of memory"; "I/O error";
    "Not found"; "Name too long"; "No space left on device"; "Permission denied"; "Not a directory"; "Is a directory";
    "Does not exist"]) ++ replicate 112 None ++ [Some (codes "Bug")].
Definition strerror (err : Z) : res (list Z) :=
  if (err <? 0) || (Z.of_nat (length errstr) <? err) then Ok (codes "Unknown") else
  e ← of_option (zlookup errstr err);
  Ok (default (codes "Unknown") e).

(** [perror] with its argument at the address [s] and the message at [e]. *)
Definition perror (ser_putchar : Z -> IO unit) (str_at : Z -> list Z) (errno s e : Z) (st : contty * world)
  : res (Z * pf (contty * world)) :=
  msg ← strerror errno;
  printf ser_putchar (fun a => if a =? e then msg else str_at a) (codes "%s: %s" ++ [10]) [s; e] st.

Definition sprintf (str_at : Z -> list Z) (buf : Z) (fmt args : list Z) : gmap Z Z -> res (Z * pf (gmap Z Z)) :=
  intern_printf (bwrite_buf buf 0) str_at fmt args.
Definition vsprintf (str_at : Z -> list Z) (buf : Z) (fmt ap : list Z) : gmap Z Z -> res (Z * pf (gmap Z Z)) :=
  intern_printf (bwrite_buf buf 0) str_at fmt ap.
Definition vsnprintf (str_at : Z -> list Z) (buf sz : Z) (fmt ap : list Z) : gmap Z Z -> res (Z * pf (gmap Z Z)) :=
  intern_printf (bwrite_buf buf sz) str_at fmt ap.
Definition snprintf (str_at : Z -> list Z) (buf sz : Z) (fmt args : list Z) : gmap Z Z -> res (Z * pf (gmap Z Z)) :=
  intern_printf (bwrite_buf buf sz) str_at fmt args.

(** ** One format, two sinks

    When the sinks agree on every [bwrite], the formats printed to them agree. *)
Create HintDb sims.

Section simulation.
Context {T1 T2 : Type} (bw1 : Z -> list Z -> T1 -> res T1) (bw2 : Z -> list Z -> T2 -> res T2).
Context (str_at : Z -> list Z) (R : Z -> T1 -> T2 -> Prop).
Hypothesis bw_sim : forall n str s1 s2 s1', R n s1 s2 -> bw1 n str s1 = Ok s1' ->
  exists s2', bw2 n str s2 = Ok s2' /\ R (s32 (n + strlen str)) s1' s2'.

Record pf_rel (st1 : pf T1) (st2 : pf T2) : Prop := {
  rel_cnum : cnum st2 = cnum st1;
  rel_ap : ap st2 = ap st1;
  rel_stored : stored st2 = stored st1;
  rel_out : R (cnum st1) (out st1) (out st2) }.

Definition sims {A} (m1 : SM (pf T1) A) (m2 : SM (pf T2) A) : Prop := forall st1 st2 a st1',
  pf_rel st1 st2 -> m1 st1 = Ok (a, st1') -> exists st2', m2 st2 = Ok (a, st2') /\ pf_rel st1' st2'.

Lemma sims_ret {A} (a : A) : sims (mret a) (mret a).
Proof. intros st1 st2 b st1' Hr [= <- <-]. by exists st2. Qed.
Lemma sims_lift {A} (r : res A) : sims (sm_lift r) (sm_lift r).
Proof. intros st1 st2 b st1' Hr [-> ->]%sm_lift_inv. by exists st2. Qed.
Lemma sims_bind {A B} (m1 : SM (pf T1) A) m2 (f1 : A -> SM (pf T1) B) f2 :
  sims m1 m2 -> (forall a, sims (f1 a) (f2 a)) -> sims (m1 ≫= f1) (m2 ≫= f2).
Proof.
  intros Hm Hf st1 st2 b st1' Hr (a & s1 & E1 & E2)%sm_bind_inv.
  destruct (Hm _ _ _ _ Hr E1) as (s2 & F1 & Hr1). destruct (Hf _ _ _ _ _ Hr1 E2) as (s2' & F2 & Hr2).
  exists s2'. by rewrite (sm_bind_ok _ _ _ _ _ F1).
Qed.
Lemma sims_emit str : sims (emit bw1 str) (emit bw2 str).
Proof.
  intros [n1 a1 t1 o1] [n2 a2 t2 o2] [] st1' [E1 E2 E3 E4]; cbn in *; subst. unfold emit; cbn.
  destruct (bw1 n1 str o1) as [o1'| | |] eqn:E; [|done..]. intros [= <-].
  destruct (bw_sim _ _ _ _ _ E4 E) as (o2' & -> & Hr). by eexists.
Qed.
Lemma sims_va_arg : sims (va_arg (T:=T1)) (va_arg (T:=T2)).
Proof.
  intros [n1 [|w a1] t1 o1] [n2 a2 t2 o2] a st1' [E1 E2 E3 E4]; cbn in *; subst; [done|].
  intros [= <- <-]. by eexists.
Qed.
Lemma sims_store w :
  sims (sm_upd (fun st => mk_pf (cnum st) (ap st) (stored st ++ [(w, cnum st)]) (out st)))
       (sm_upd (fun st => mk_pf (cnum st) (ap st) (stored st ++ [(w, cnum st)]) (out st))).
Proof.
  intros [n1 a1 t1 o1] [n2 a2 t2 o2] [] st1' [E1 E2 E3 E4]; cbn in *; subst.
  intros [= <-]. by eexists.
Qed.
Local Hint Resolve sims_ret sims_lift sims_emit sims_va_arg sims_store : sims.

(** Follows the structure of the two programs. *)
Local Ltac sim := repeat first
  [ progress auto with sims
  | apply sims_bind; [|intros ?]
  | match goal with |- context [if ?b then _ else _] => destruct b end
  | match goal with |- sims (match ?l with [] => _ | _ :: _ => _ end) _ => destruct l end ].

Lemma sims_put_pad n c : sims (put_pad bw1 n c) (put_pad bw2 n c).
Proof. induction n; cbn [put_pad]; sim. Qed.
Local Hint Resolve sims_put_pad : sims.
Lemma sims_put_field sp plus text : sims (put_field bw1 sp plus text) (put_field bw2 sp plus text).
Proof. unfold put_field. cbv zeta. sim. Qed.
Local Hint Resolve sims_put_field : sims.
Lemma sims_put_number sp : sims (put_number bw1 sp) (put_number bw2 sp).
Proof. unfold put_number. sim. Qed.
Local Hint Resolve sims_put_number : sims.
Lemma sims_conversion c sp : sims (conversion bw1 str_at c sp) (conversion bw2 str_at c sp).
Proof. unfold conversion. cbv zeta. sim. Qed.
Local Hint Resolve sims_conversion : sims.
Lemma sims_loop fuel fmt fstart sp :
  sims (printf_loop bw1 str_at fuel fmt fstart sp) (printf_loop bw2 str_at fuel fmt fstart sp).
Proof.
  revert fmt fstart sp. induction fuel as [|fuel IH]; intros [|c fmt] fstart sp; cbn [printf_loop]; sim.
Qed.

Lemma intern_printf_sim fmt args o1 o2 n st1 :
  R 0 o1 o2 -> intern_printf bw1 str_at fmt args o1 = Ok (n, st1) ->
  exists st2, intern_printf bw2 str_at fmt args o2 = Ok (n, st2) /\ pf_rel st1 st2.
Proof.
  intros Hr. unfold intern_printf. assert (pf_rel (mk_pf 0 args [] o1) (mk_pf 0 args [] o2)) as H0 by done.
  destruct (printf_loop bw1 _ _ _ _ _ _) as [[[] st1']| | |] eqn:E; [|done..]. intros [= <- <-].
  destruct (sims_loop _ _ _ _ _ _ _ _ H0 E) as (st2 & -> & Hr2).
  exists st2. cbn. split; [|done]. f_equal. f_equal. apply Hr2.
Qed.
End simulation.

(** ** Formatting as a text *)

(** The sink that keeps the text. *)
Definition bwrite_text (_ : Z) (str : list Z) (o : list Z) : res (list Z) := Ok (o ++ str).
(** The text of a format and the stores of its ["%n"]. *)
Definition text_of (str_at : Z -> list Z) (fmt args : list Z) : res (Z * pf (list Z)) :=
  intern_printf bwrite_text str_at fmt args [].

(** Letters of the conversions that format an argument: d u x X o c s. *)
Inductive kind := KDec | KUns | KHex (caps : bool) | KOct | KChar | KStr.
#[export] Instance kind_eq_dec : EqDecision kind.
Proof. solve_decision. Defined.

(** A directive; the width is its digits, none for no width. *)
Record directive := mk_dir { d_left : bool; d_plus : bool; d_alt : bool; d_zero : bool; d_width : list Z; d_kind : kind }.
Inductive item := Lit (c : Z) | Dir (d : directive).

Definition letter (k : kind) : Z :=
  match k with KDec => 100 | KUns => 117 | KHex true => 88 | KHex false => 120 | KOct => 111 | KChar => 99 | KStr => 115 end.
Definition flag (b : bool) (c : Z) : list Z := if b then [c] else [].
Definition print_dir (d : directive) : list Z :=
  37 :: flag (d_left d) 45 ++ flag (d_plus d) 43 ++ flag (d_alt d) 35 ++ flag (d_zero d) 48 ++
  d_width d ++ [letter (d_kind d)].
Definition print_item (i : item) : list Z := match i with Lit c => [c] | Dir d => print_dir d end.
Definition print_format (l : list item) : list Z := concat (print_item <$> l).

Definition item_ok (i : item) : Prop :=
  match i with
  | Lit c => c <> 37
  | Dir d => Forall (fun c => isdigit c = true) (d_width d) /\ chr (d_width d) <> 48 /\ atoi (d_width d) < 2147483648
  end.

(** Positional notation of a number below [base ^ fuel]. *)
Fixpoint positional (fuel : nat) (base n : Z) : list Z :=
  match fuel with
  | O => []
  | S fuel => (if n <? base then [] else positional fuel base (n / base)) ++ [digit_char (n mod base)]
  end.
(** Eleven digits are enough for 32 bits in base 8. *)
Definition number (base n : Z) : list Z := positional 11 base n.

(** What C prescribes for a directive: prefix and body of the text. *)
Definition std_parts (str_at : Z -> list Z) (d : directive) (w : Z) : list Z * list Z :=
  match d_kind d with
  | KDec => (if s32 w <? 0 then [45] else flag (d_plus d) 43, number 10 (Z.abs (s32 w)))
  | KUns => ([], number 10 (u32 w))
  | KHex caps =>
      (if d_alt d && negb (u32 w =? 0) then [48; if caps then 88 else 120] else [],
       (if caps then toupper else id) <$> number 16 (u32 w))
  | KOct => (flag (d_alt d && negb (u32 w =? 0)) 48, number 8 (u32 w))
  | KChar => ([], [s8 w])
  | KStr => ([], str_at w)
  end.
(** The field: the text padded to the width. *)
Definition std_field (d : directive) (pre body : list Z) : list Z :=
  let pad := replicate (Z.to_nat (atoi (d_width d) - strlen (pre ++ body))) in
  if d_left d then pre ++ body ++ pad 32
  else if d_zero d then pre ++ pad 48 ++ body else pad 32 ++ pre ++ body.
Definition std_dir (str_at : Z -> list Z) (d : directive) (w : Z) : list Z :=
  let '(pre, body) := std_parts str_at d w in std_field d pre body.
(** The text of a format, one argument per directive. *)
Fixpoint std_text (str_at : Z -> list Z) (l : list item) (args : list Z) : list Z :=
  match l, args with
  | [], _ => []
  | Lit c :: l, _ => c :: std_text str_at l args
  | Dir d :: l, w :: args => std_dir str_at d w ++ std_text str_at l args
  | Dir d :: _, [] => []
  end.

(** Where [intern_printf] does what C prescribes. [sp] holds the flags that
    earlier directives left behind: ['-'], ['+'] and having been unsigned. *)
Definition regular (str_at : Z -> list Z) (sp : spec) (d : directive) (w : Z) : bool :=
  (negb (left_align sp) || d_left d || bool_decide (d_width d = [])) &&
  match d_kind d with
  | KDec =>
      (-2147483648 <? s32 w) && negb (d_alt d) && (negb (sign sp) || d_plus d) &&
      (negb (unsig sp) || ((0 <=? s32 w) && negb (d_plus d))) &&
      ((negb (d_plus d) && ((0 <=? s32 w) || negb (d_zero d) || d_left d)) || bool_decide (d_width d = []))
  | KUns => negb (d_alt d)
  | KHex caps => negb (d_alt d) || (negb caps && negb (u32 w =? 0) && bool_decide (d_width d = []))
  | KOct =>
      (unsig sp || ((0 <=? s32 w) && negb (sign sp) && negb (d_plus d))) &&
      (negb (d_alt d) || (negb (u32 w =? 0) && bool_decide (d_width d = [])))
  | KChar => bool_decide (d_width d = []) && negb (d_alt d)
  | KStr => negb (d_alt d) && (negb (d_zero d) || d_left d || bool_decide (d_width d = []))
  end.
(** The flags a directive leaves behind. *)
Definition leave (sp : spec) (d : directive) : spec :=
  mk_spec 10 false 0 32 false (sign sp || d_plus d) (left_align sp || d_left d)
    (unsig sp || match d_kind d with KUns | KHex _ => true | _ => false end).
Fixpoint regular_format (str_at : Z -> list Z) (sp : spec) (l : list item) (args : list Z) : bool :=
  match l, args with
  | [], _ => true
  | Lit _ :: l, _ => regular_format str_at sp l args
  | Dir d :: l, w :: args => regular str_at sp d w && regular_format str_at (leave sp d) l args
  | Dir _ :: _, [] => false
  end.

Lemma digits_positional base f1 f2 n :
  2 <= base <= 16 -> (f2 <= f1)%nat -> 0 < n < base ^ Z.of_nat f2 ->
  digits f1 n base = Ok (rev (positional f2 base n)).
Proof.
  intros Hb. revert f2 n. induction f1 as [|f1 IH]; intros [|f2] n Hf Hn; try (simpl in Hn; lia).
  cbn [digits positional]. destruct (Z.eqb_spec n 0); [lia|].
  rewrite Z.quot_div_nonneg, Z.rem_mod_nonneg by lia. rewrite rev_app_distr. cbn [rev app].
  rewrite Nat2Z.inj_succ, Z.pow_succ_r in Hn by lia. destruct (Z.ltb_spec n base).
  - rewrite Z.div_small by lia. by destruct f1.
  - rewrite (IH f2); [done|lia|]. split; [apply Z.div_str_pos; lia|apply Z.div_lt_upper_bound; lia].
Qed.
Lemma length_positional fuel base n : (length (positional fuel base n) <= fuel)%nat.
Proof.
  revert n. induction fuel as [|fuel IH]; intros n; cbn [positional]; [done|]. rewrite length_app.
  destruct (n <? base); cbn [length]; [lia|]. specialize (IH (n / base)). lia.
Qed.

(** [utoa] and [itoa] write positional notation. *)
Lemma utoa_number base n : 8 <= base <= 16 -> 0 <= n < 4294967296 -> utoa n base = Ok (number base n).
Proof.
  intros Hb Hn. unfold utoa, number. destruct (Z.eqb_spec n 0) as [->|].
  - cbn [digits Z.eqb mbind res_mbind res_bind app]. cbn [positional].
    destruct (Z.ltb_spec 0 base); [|lia]. by rewrite Z.mod_0_l by lia.
  - rewrite (digits_positional base 32 11); [|lia|lia|].
    + cbn [mbind res_mbind res_bind app]. unfold unreverse. rewrite length_rev, rev_involutive.
      pose proof (length_positional 11 base n). unfold RBUF_SIZE. destruct (Z.ltb_spec 16 (Z.of_nat (length (positional 11 base n)))); [lia|done].
    + split; [lia|]. apply Z.lt_le_trans with (8 ^ 11); [lia|]. apply Z.pow_le_mono_l. lia.
Qed.
Lemma itoa_number base n : 8 <= base <= 16 -> -2147483648 < n < 2147483648 ->
  itoa n base = Ok ((if n <? 0 then [45] else []) ++ number base (Z.abs n)).
Proof.
  intros Hb Hn. destruct (Z.ltb_spec n 0).
  - unfold itoa. destruct (Z.ltb_spec n 0); [|lia]. rewrite s32_small by lia. destruct (Z.eqb_spec (- n) 0); [lia|].
    rewrite (digits_positional base 32 11); [|lia|lia|].
    + cbn [mbind res_mbind res_bind app]. unfold unreverse. rewrite length_app, length_rev, rev_app_distr, rev_involutive.
      pose proof (length_positional 11 base (- n)). unfold RBUF_SIZE. cbn [length rev].
      destruct (Z.ltb_spec 16 (Z.of_nat (length (positional 11 base (- n)) + 1))); [lia|].
      unfold number. by replace (Z.abs n) with (- n) by lia.
    + split; [lia|]. apply Z.lt_le_trans with (8 ^ 11); [lia|]. apply Z.pow_le_mono_l. lia.
  - rewrite Z.abs_eq by lia. cbn [app]. rewrite <- (utoa_number base n Hb) by lia. unfold itoa, utoa.
    destruct (Z.ltb_spec n 0); [lia|]. destruct (digits 32 n base); [|done..]. cbn [mbind res_mbind res_bind]. by rewrite app_nil_r.
Qed.

(** ** The loop, one letter at a time *)
Section loop.
Context {T : Type} (bwrite : Z -> list Z -> T -> res T) (str_at : Z -> list Z).
Implicit Types (sp : spec) (st : pf T).

Lemma length_skip_digits s : (length (skip_digits s) <= length s)%nat.
Proof. induction s as [|c s IH]; cbn [skip_digits]; [done|]. destruct (isdigit c); cbn [length]; lia. Qed.

(** Fuel for the length of the format is enough, more makes no difference. *)
Lemma loop_fuel f1 f2 fmt b sp st : (length fmt <= f1)%nat -> (length fmt <= f2)%nat ->
  printf_loop bwrite str_at f1 fmt b sp st = printf_loop bwrite str_at f2 fmt b sp st.
Proof.
  revert f2 fmt b sp st. induction f1 as [|f1 IH]; intros [|f2] [|c fmt] b sp st H1 H2; cbn [length] in *; try (lia || done).
  cbn [printf_loop].
  assert (forall b sp st, printf_loop bwrite str_at f1 fmt b sp st = printf_loop bwrite str_at f2 fmt b sp st) as E
    by (intros; apply IH; lia).
  assert (forall A (m : SM (pf T) A) f b st, (x ← m; printf_loop bwrite str_at f1 fmt b (f x)) st =
    (x ← m; printf_loop bwrite str_at f2 fmt b (f x)) st) as Eb.
  { intros A m f b' st'. unfold mbind, sm_mbind. destruct (m st') as [[a s]| | |]; [apply E|done..]. }
  destruct (c =? 37); [apply E|]. destruct b; [|apply (Eb unit _ (fun _ => sp))].
  destruct (IS_CONV c); [apply (Eb spec _ (fun x => x))|].
  repeat match goal with |- context [if ?x =? ?y then _ else _] => destruct (x =? y); [apply E|] end.
  destruct ((c =? 108) || (c =? 76)); [apply E|]. destruct (c =? 48); [apply E|].
  destruct (isdigit c) eqn:Ed; [|apply E]. cbn [skip_digits]. rewrite Ed.
  pose proof (length_skip_digits fmt). apply IH; lia.
Qed.

Definition run (fmt : list Z) (b : bool) sp : SM (pf T) unit := printf_loop bwrite str_at (length fmt) fmt b sp.

Lemma run_lit c t sp st : c <> 37 -> run (c :: t) false sp st = (emit bwrite [c];; run t false sp) st.
Proof. intros Hc. unfold run. cbn [length printf_loop]. by destruct (Z.eqb_spec c 37). Qed.
Lemma run_percent t b sp st : run (37 :: t) b sp st = run t true sp st.
Proof. done. Qed.
Lemma run_conv c t sp st : c <> 37 -> IS_CONV c = true ->
  run (c :: t) true sp st = (sp ← conversion bwrite str_at c sp; run t false sp) st.
Proof. intros Hc Hi. unfold run. cbn [length printf_loop]. rewrite Hi. by destruct (Z.eqb_spec c 37). Qed.
Lemma run_flags (l p a z : bool) t sp st :
  run (flag l 45 ++ flag p 43 ++ flag a 35 ++ flag z 48 ++ t) true sp st =
  run t true ((if z then set_padc 48 else id) ((if a then set_alt else id) ((if p then set_sign else id) ((if l then set_left else id) sp)))) st.
Proof. by destruct l, p, a, z. Qed.

Lemma isdigit_val c : isdigit c = true -> 48 <= c <= 57 /\ digit_val c < 10.
Proof. unfold digit_val. intros H. split; revert H; [|unfold tolower]; ctype. Qed.
Lemma isdigit_conv c : isdigit c = true -> IS_CONV c = false /\ c <> 37 /\ c <> 35 /\ c <> 43 /\ c <> 45 /\ c <> 108 /\ c <> 76.
Proof.
  intros [Hc _]%isdigit_val. split; [|lia]. unfold IS_CONV, convc. cbn [strchr].
  repeat match goal with |- context [?x =? c] => destruct (Z.eqb_spec x c); [lia|] end. done.
Qed.

Lemma atoi_rest ws rest : Forall (fun c => isdigit c = true) ws -> ws <> [] ->
  (forall c r, rest = c :: r -> 10 <= digit_val c) -> atoi (ws ++ rest) = atoi ws.
Proof.
  intros Hw Hne Hr. assert (Forall (fun c => 48 <= c <= 57 \/ 97 <= c <= 102) ws /\ Forall (fun c => digit_val c < 10) ws) as [H1 H2].
  { split; (eapply Forall_impl; [exact Hw|]); intros c Hc%isdigit_val; intuition. }
  unfold atoi. rewrite <- (app_nil_r ws) at 2.
  destruct (strtol_digits 10 ws rest) as [-> _]; try done. by destruct (strtol_digits 10 ws []) as [-> _].
Qed.
Lemma skip_digits_rest ws rest : Forall (fun c => isdigit c = true) ws ->
  (forall c r, rest = c :: r -> isdigit c = false) -> skip_digits (ws ++ rest) = rest.
Proof.
  induction 1 as [|c ws Hc _ IH]; intros Hr; cbn [app skip_digits].
  - destruct rest as [|c r]; [done|]. cbn [skip_digits]. by rewrite (Hr c r).
  - rewrite Hc. by apply IH.
Qed.

Lemma run_width ws k t sp st :
  Forall (fun c => isdigit c = true) ws -> chr ws <> 48 -> 10 <= digit_val k -> isdigit k = false ->
  run (ws ++ k :: t) true sp st = run (k :: t) true (match ws with [] => sp | _ => set_fwidth (atoi ws) sp end) st.
Proof.
  intros Hw H0 Hk Hk2. destruct ws as [|c ws]; [done|].
  pose proof (Forall_inv Hw) as Hc. destruct (isdigit_conv c Hc) as (Hi & H1 & H2 & H3 & H4 & H5 & H6).
  change (c <> 48) in H0. rewrite <- (atoi_rest (c :: ws) (k :: t)); [|done|done|by intros ? ? [= <- _]].
  rewrite <- (skip_digits_rest (c :: ws) (k :: t)) at 2; [|done|by intros ? ? [= <- _]].
  unfold run. cbn [app length printf_loop]. rewrite Hi, Hc. repeat match goal with |- context [c =? ?x] => destruct (Z.eqb_spec c x); [lia|] end. cbn [orb].
  cbn [skip_digits]. rewrite Hc. pose proof (length_skip_digits (ws ++ k :: t)). apply loop_fuel; lia.
Qed.
End loop.

(** ** The text of a directive *)
Section text.
Context (str_at : Z -> list Z).
Implicit Types (sp : spec) (k : Z) (o : list Z).

(** [m] prints [txt]. *)
Definition prints (m : SM (pf (list Z)) unit) (txt : list Z) : Prop := forall k a s o,
  m (mk_pf (s32 k) a s o) = Ok (tt, mk_pf (s32 (k + strlen txt)) a s (o ++ txt)).

Lemma strlen_app a b : strlen (a ++ b) = strlen a + strlen b.
Proof. unfold strlen. rewrite length_app. lia. Qed.
Lemma strlen_nonneg a : 0 <= strlen a.
Proof. unfold strlen. lia. Qed.
Lemma prints_ret : prints (mret tt) [].
Proof. intros k a s o. change (strlen []) with 0. by rewrite Z.add_0_r, app_nil_r. Qed.
Lemma prints_emit str : prints (emit bwrite_text str) str.
Proof. intros k a s o. unfold emit. cbn. by rewrite s32_add_l. Qed.
Lemma prints_seq m1 m2 t1 t2 : prints m1 t1 -> prints m2 t2 -> prints (m1;; m2) (t1 ++ t2).
Proof.
  intros H1 H2 k a s o. rewrite (sm_bind_ok _ _ _ _ _ (H1 k a s o)), H2, strlen_app, app_assoc. by rewrite Z.add_assoc.
Qed.
Lemma prints_pad n c : prints (put_pad bwrite_text n c) (replicate n c).
Proof.
  induction n as [|n IH]; cbn [put_pad]; [apply prints_ret|].
  apply (prints_seq _ _ [c] (replicate n c)); [apply prints_emit|apply IH].
Qed.

(** The field [put_field] writes. *)
Definition field sp (plus text : list Z) : list Z :=
  let n := Z.to_nat (fwidth sp - strlen text) in
  if left_align sp then plus ++ text ++ replicate n 32 else replicate n (padc sp) ++ plus ++ text.

Lemma prints_field sp plus text : prints (put_field bwrite_text sp plus text) (field sp plus text).
Proof.
  unfold put_field, field. cbv zeta.
  assert (prints ((match plus with [] => mret tt | _ => emit bwrite_text plus end);; emit bwrite_text text) (plus ++ text)) as Hp.
  { apply prints_seq; [|apply prints_emit]. destruct plus; [apply prints_ret|apply prints_emit]. }
  destruct (left_align sp).
  - rewrite app_assoc. rewrite <- (app_nil_r (_ ++ replicate _ 32)), <- (app_assoc (plus ++ text)).
    apply prints_seq; [done|]. apply prints_seq; [apply prints_pad|apply prints_ret].
  - apply (prints_seq _ _ []); [apply prints_ret|]. apply prints_seq; [apply prints_pad|done].
Qed.

(** [m] takes the argument [w] and prints [txt]. *)
Definition prints_arg {A} (m : SM (pf (list Z)) A) (w : Z) (txt : list Z) (r : A) : Prop := forall k a s o,
  m (mk_pf (s32 k) (w :: a) s o) = Ok (r, mk_pf (s32 (k + strlen txt)) a s (o ++ txt)).

Lemma prints_number sp w plus text :
  (if unsig sp then utoa (u32 w) (base sp) else itoa (s32 w) (base sp)) = Ok text ->
  plus = (if negb (unsig sp) && sign sp && (0 <=? s32 w) then [43] else []) ->
  prints_arg (put_number bwrite_text sp) w (field sp plus (if hex_caps sp then toupper <$> text else text)) tt.
Proof.
  intros Et -> k a s o. unfold put_number, va_arg, sm_lift, mbind, sm_mbind. cbn [ap cnum stored out].
  rewrite Et. cbn [res_mbind res_bind]. apply prints_field.
Qed.
Lemma prints_arg_seq {A} m (r : A) w t1 t2 m2 : prints_arg m w t1 tt ->
  (t1 = t2) -> m2 = mret r -> prints_arg (m;; m2) w t2 r.
Proof. intros Hm <- -> k a s o. by rewrite (sm_bind_ok _ _ _ _ _ (Hm k a s o)). Qed.
Lemma prints_arg_pre {A} m1 m2 (r : A) w t1 t2 : prints m1 t1 -> prints_arg m2 w t2 r -> prints_arg (m1;; m2) w (t1 ++ t2) r.
Proof.
  intros H1 H2 k a s o. rewrite (sm_bind_ok _ _ _ _ _ (H1 k (w :: a) s o)), H2, strlen_app, app_assoc. by rewrite Z.add_assoc.
Qed.

(** The conversion state after the flags and the width of a directive. *)
Definition spec_of sp d : spec :=
  mk_spec 10 (d_alt d) (atoi (d_width d)) (if d_zero d then 48 else 32) false
    (sign sp || d_plus d) (left_align sp || d_left d) (unsig sp).

(** Without a width there is no padding. *)
Lemma std_field_nil d pre body : d_width d = [] -> std_field d pre body = pre ++ body.
Proof.
  intros E. unfold std_field. rewrite E. change (atoi []) with 0.
  replace (Z.to_nat _) with O by (unfold strlen; lia). cbn [replicate]. rewrite app_nil_r. by destruct (d_left d), (d_zero d).
Qed.
Lemma field_nil sp d pre body : d_width d = [] -> field (spec_of sp d) pre body = pre ++ body.
Proof.
  intros E. unfold field, spec_of. cbn [fwidth left_align padc]. rewrite E. change (atoi []) with 0.
  replace (Z.to_nat _) with O by (unfold strlen; lia). cbn [replicate]. rewrite app_nil_r. by destruct (left_align sp || d_left d).
Qed.

(** When the field [put_field] writes is the one C prescribes. *)
Lemma field_std sp d pre body plus text :
  plus ++ text = pre ++ body -> (left_align sp = true -> d_left d = true \/ d_width d = []) ->
  d_width d = [] \/ plus = [] /\ (d_left d = true \/ d_zero d = false \/ pre = []) ->
  field (spec_of sp d) plus text = std_field d pre body.
Proof.
  intros E Hl Hc. destruct (decide (d_width d = [])) as [Hw|Hw]; [by rewrite field_nil, std_field_nil|].
  destruct Hc as [?|[-> Hc]]; [done|]. cbn [app] in E. subst text.
  unfold field, std_field, spec_of. cbn [fwidth left_align padc].
  assert (left_align sp || d_left d = d_left d) as -> by (destruct (left_align sp); [|done]; by destruct Hl as [->|?]).
  revert Hc. destruct (d_left d); intros Hc; cbn [app]; [by rewrite app_assoc|].
  destruct (d_zero d); [|done]. destruct Hc as [?|[?| -> ] ]; done.
Qed.

Lemma u32_of_s32 w : 0 <= s32 w -> u32 w = s32 w.
Proof. unfold s32, u32. mlia. Qed.

(** The two shapes of a number: an unsigned and a signed conversion. *)
Lemma prints_unsigned sp w n :
  unsig sp = true -> u32 w = n -> 8 <= base sp <= 16 ->
  prints_arg (put_number bwrite_text sp) w (field sp [] ((if hex_caps sp then toupper else id) <$> number (base sp) n)) tt.
Proof.
  intros Hu <- Hb. pose proof (prints_number sp w [] (number (base sp) (u32 w))) as H. rewrite Hu in H.
  specialize (H (utoa_number _ _ Hb (u32_range w)) eq_refl). destruct (hex_caps sp); [done|].
  by rewrite list_fmap_id.
Qed.
Lemma prints_signed sp w :
  unsig sp = false -> hex_caps sp = false -> 8 <= base sp <= 16 -> -2147483648 < s32 w ->
  prints_arg (put_number bwrite_text sp) w
    (field sp (if sign sp && (0 <=? s32 w) then [43] else []) ((if s32 w <? 0 then [45] else []) ++ number (base sp) (Z.abs (s32 w)))) tt.
Proof.
  intros Hu Hc Hb Hw. pose proof (s32_range w).
  pose proof (prints_number sp w (if sign sp && (0 <=? s32 w) then [43] else [])
    ((if s32 w <? 0 then [45] else []) ++ number (base sp) (Z.abs (s32 w)))) as P.
  rewrite Hu, Hc in P. apply P; [|done]. apply itoa_number; [done|lia].
Qed.

(** Normal form between directives. *)
Definition fresh sp : Prop := restore sp = sp.

Ltac bools := repeat match goal with
  | H : _ && _ = true |- _ => apply andb_prop in H as [? ?]
  | H : negb _ = true |- _ => apply negb_true_iff in H
  | H : bool_decide _ = true |- _ => apply bool_decide_eq_true_1 in H
  | H : _ || _ = true |- _ => apply orb_prop in H as [?|?]
  end.

Lemma regular_left sp d w : regular str_at sp d w = true -> left_align sp = true -> d_left d = true \/ d_width d = [].
Proof. unfold regular. intros [H _]%andb_prop E. rewrite E in H. bools; auto; done. Qed.

Lemma conversion_dec sp d w : fresh sp -> d_kind d = KDec -> regular str_at sp d w = true ->
  prints_arg (conversion bwrite_text str_at 100 (spec_of sp d)) w (std_dir str_at d w) (leave sp d).
Proof.
  intros Hf Ek Hr. pose proof (regular_left _ _ _ Hr) as Hl. revert Hr. unfold regular. rewrite Ek. intros Hr.
  apply andb_prop in Hr as [_ Hr]. apply andb_prop in Hr as [[[[Hm Ha]%andb_prop Hs]%andb_prop Hu]%andb_prop Hp].
  apply Z.ltb_lt in Hm. change (conversion bwrite_text str_at 100 (spec_of sp d)) with
    (put_number bwrite_text (spec_of sp d);; mret (restore (spec_of sp d)) : SM (pf (list Z)) spec).
  assert (restore (spec_of sp d) = leave sp d) as -> by (unfold leave; rewrite Ek; by rewrite orb_false_r).
  unfold std_dir, std_parts. rewrite Ek. destruct (unsig sp) eqn:Eu.
  - cbn [negb orb] in Hu. apply andb_prop in Hu as [Hn%Z.leb_le Hpl%negb_true_iff]. rewrite Hpl.
    destruct (Z.ltb_spec (s32 w) 0); [lia|]. rewrite Z.abs_eq by lia.
    eapply prints_arg_seq; [by apply (prints_unsigned (spec_of sp d) w (s32 w)); [|apply u32_of_s32|cbn; lia]| |done].
    apply field_std; [cbn; by rewrite list_fmap_id|done|right; by auto].
  - eapply prints_arg_seq; [apply (prints_signed (spec_of sp d) w); [done|done|cbn; lia|done]| |done].
    apply field_std; [|done|].
    + cbn [spec_of sign]. destruct (Z.ltb_spec (s32 w) 0), (Z.leb_spec 0 (s32 w)); try lia; rewrite ?andb_false_r, ?andb_true_r; [done|].
      destruct (sign sp), (d_plus d); done.
    + apply orb_prop in Hp as [Hp|Hp]; [right|left; by apply bool_decide_eq_true in Hp].
      apply andb_prop in Hp as [Hp1 Hp2]. apply negb_true_iff in Hp1. cbn [spec_of sign].
      rewrite Hp1 in *. destruct (sign sp); [done|]. split; [done|].
      destruct (Z.ltb_spec (s32 w) 0), (Z.leb_spec 0 (s32 w)), (d_zero d), (d_left d); try lia; auto.
Qed.

(** The rest of [regular] for a kind. *)
Ltac regular_kind Ek Hr := revert Hr; unfold regular; rewrite Ek; intros Hr; apply andb_prop in Hr as [_ Hr].
Ltac no_alt sp d Ha := change (alt (spec_of sp d)) with (d_alt d); rewrite Ha.

Lemma conversion_uns sp d w : fresh sp -> d_kind d = KUns -> regular str_at sp d w = true ->
  prints_arg (conversion bwrite_text str_at 117 (spec_of sp d)) w (std_dir str_at d w) (leave sp d).
Proof.
  intros Hf Ek Hr. pose proof (regular_left _ _ _ Hr) as Hl. regular_kind Ek Hr.
  change (conversion bwrite_text str_at 117 (spec_of sp d)) with
    (put_number bwrite_text (set_unsig (spec_of sp d));; mret (restore (set_unsig (spec_of sp d))) : SM (pf (list Z)) spec).
  assert (restore (set_unsig (spec_of sp d)) = leave sp d) as -> by (unfold leave; rewrite Ek; by rewrite orb_true_r).
  unfold std_dir, std_parts. rewrite Ek.
  eapply prints_arg_seq; [by apply (prints_unsigned (set_unsig (spec_of sp d)) w (u32 w)); [| |cbn; lia]| |done].
  cbn [hex_caps set_unsig spec_of base]. rewrite list_fmap_id. apply (field_std sp d [] (number 10 (u32 w)) []); [done|done|by auto].
Qed.

Lemma conversion_hex sp d caps w : fresh sp -> d_kind d = KHex caps -> regular str_at sp d w = true ->
  prints_arg (conversion bwrite_text str_at (letter (KHex caps)) (spec_of sp d)) w (std_dir str_at d w) (leave sp d).
Proof.
  intros Hf Ek Hr. pose proof (regular_left _ _ _ Hr) as Hl. regular_kind Ek Hr.
  set (sp2 := set_unsig (set_base 16 ((if caps then set_caps else id) (spec_of sp d)))).
  assert (conversion bwrite_text str_at (letter (KHex caps)) (spec_of sp d) =
    ((if d_alt d then emit bwrite_text [48; 120] else mret tt);; put_number bwrite_text sp2;; mret (leave sp d))) as ->.
  { unfold sp2, leave. rewrite Ek, orb_true_r. by destruct caps. }
  unfold std_dir, std_parts. rewrite Ek.
  assert (prints_arg (put_number bwrite_text sp2) w
    (field (spec_of sp d) [] ((if caps then toupper else id) <$> number 16 (u32 w))) tt) as Hp.
  { pose proof (prints_unsigned sp2 w (u32 w) eq_refl eq_refl) as H.
    replace (hex_caps sp2) with caps in H by (by destruct caps). replace (base sp2) with 16 in H by (by destruct caps).
    specialize (H ltac:(lia)). unfold sp2 in H |- *. by destruct caps. }
  destruct (d_alt d) eqn:Ea; cbn [negb orb andb] in Hr |- *.
  - apply andb_prop in Hr as [[Hc%negb_true_iff Hn]%andb_prop Hw%bool_decide_eq_true]. subst caps. rewrite Hn.
    rewrite std_field_nil by done. rewrite field_nil in Hp by done.
    apply (prints_arg_pre _ _ _ _ [48; 120]); [apply prints_emit|]. by eapply prints_arg_seq.
  - apply (prints_arg_pre _ _ _ _ []); [apply prints_ret|]. eapply prints_arg_seq; [done| |done].
    apply field_std; [done|done|by auto].
Qed.

Lemma conversion_oct sp d w : fresh sp -> d_kind d = KOct -> regular str_at sp d w = true ->
  prints_arg (conversion bwrite_text str_at 111 (spec_of sp d)) w (std_dir str_at d w) (leave sp d).
Proof.
  intros Hf Ek Hr. pose proof (regular_left _ _ _ Hr) as Hl. regular_kind Ek Hr.
  change (conversion bwrite_text str_at 111 (spec_of sp d)) with
    ((if d_alt d then emit bwrite_text [48] else mret tt);; put_number bwrite_text (set_base 8 (spec_of sp d));;
      mret (restore (set_base 8 (spec_of sp d))) : SM (pf (list Z)) spec).
  assert (restore (set_base 8 (spec_of sp d)) = leave sp d) as -> by (unfold leave; rewrite Ek; by rewrite orb_false_r).
  apply andb_prop in Hr as [Hu Ha].
  assert (prints_arg (put_number bwrite_text (set_base 8 (spec_of sp d))) w (field (spec_of sp d) [] (number 8 (u32 w))) tt) as Hp.
  { destruct (unsig sp) eqn:Eu.
    - pose proof (prints_unsigned (set_base 8 (spec_of sp d)) w (u32 w) Eu eq_refl ltac:(cbn; lia)) as H.
      cbn [hex_caps set_base spec_of] in H. by rewrite list_fmap_id in H.
    - cbn [orb] in Hu. apply andb_prop in Hu as [[Hn%Z.leb_le Hs%negb_true_iff]%andb_prop Hpl%negb_true_iff].
      pose proof (prints_signed (set_base 8 (spec_of sp d)) w Eu eq_refl ltac:(cbn; lia) ltac:(lia)) as H.
      cbn [sign set_base spec_of] in H. rewrite Hs, Hpl in H. rewrite u32_of_s32 by done.
      destruct (Z.ltb_spec (s32 w) 0); [lia|]. by rewrite Z.abs_eq in H by lia. }
  unfold std_dir, std_parts. rewrite Ek. destruct (d_alt d); cbn [negb orb andb] in Ha |- *.
  - apply andb_prop in Ha as [Hn Hw%bool_decide_eq_true]. rewrite Hn, std_field_nil by done. rewrite field_nil in Hp by done.
    apply (prints_arg_pre _ _ _ _ [48]); [apply prints_emit|]. by eapply prints_arg_seq.
  - apply (prints_arg_pre _ _ _ _ []); [apply prints_ret|]. eapply prints_arg_seq; [done| |done].
    apply field_std; [done|done|by auto].
Qed.

Lemma conversion_char sp d w : fresh sp -> d_kind d = KChar -> regular str_at sp d w = true ->
  prints_arg (conversion bwrite_text str_at 99 (spec_of sp d)) w (std_dir str_at d w) (leave sp d).
Proof.
  intros Hf Ek Hr. regular_kind Ek Hr. apply andb_prop in Hr as [Hw%bool_decide_eq_true _].
  unfold std_dir, std_parts. rewrite Ek, std_field_nil by done. cbn [app].
  assert (restore (spec_of sp d) = leave sp d) as <- by (unfold leave; rewrite Ek; by rewrite orb_false_r).
  intros k a s o. unfold conversion, va_arg, mbind, sm_mbind. cbn [Z.eqb Pos.eqb orb ap cnum stored out]. by rewrite (prints_emit [s8 w] k a s o).
Qed.

Lemma conversion_str sp d w : fresh sp -> d_kind d = KStr -> regular str_at sp d w = true ->
  prints_arg (conversion bwrite_text str_at 115 (spec_of sp d)) w (std_dir str_at d w) (leave sp d).
Proof.
  intros Hf Ek Hr. pose proof (regular_left _ _ _ Hr) as Hl. regular_kind Ek Hr.
  unfold std_dir, std_parts. rewrite Ek.
  assert (restore (spec_of sp d) = leave sp d) as <- by (unfold leave; rewrite Ek; by rewrite orb_false_r).
  rewrite <- (field_std sp d [] (str_at w) [] (str_at w)); [|done|done|by auto].
  intros k a s o. unfold conversion, va_arg, mbind, sm_mbind. cbn [Z.eqb Pos.eqb orb ap cnum stored out].
  by rewrite (prints_field (spec_of sp d) [] (str_at w) k a s o).
Qed.

Lemma conversion_std sp d w : fresh sp -> regular str_at sp d w = true ->
  prints_arg (conversion bwrite_text str_at (letter (d_kind d)) (spec_of sp d)) w (std_dir str_at d w) (leave sp d).
Proof.
  intros Hf Hr. destruct (d_kind d) as [| |caps| | |] eqn:Ek;
    eauto using conversion_dec, conversion_uns, conversion_hex, conversion_oct, conversion_char, conversion_str.
Qed.

(** The loop over a whole directive. *)
Lemma run_dir d t sp st : fresh sp -> item_ok (Dir d) ->
  run bwrite_text str_at (print_dir d ++ t) false sp st =
  (sp ← conversion bwrite_text str_at (letter (d_kind d)) (spec_of sp d); run bwrite_text str_at t false sp) st.
Proof.
  intros Hf (Hw & H0 & _). unfold print_dir. rewrite <- app_comm_cons, <- !app_assoc. cbn [app].
  rewrite run_percent, run_flags, run_width; [|done|done|by destruct (d_kind d) as [| |[]| | |]..].
  rewrite run_conv; [|by destruct (d_kind d) as [| |[]| | |]..].
  match goal with |- (conversion _ _ _ ?a ≫= _) _ = _ => assert (a = spec_of sp d) as -> end; [|done].
  rewrite <- Hf. destruct d as [l p a z ws k]. unfold spec_of. cbn [d_left d_plus d_alt d_zero d_width].
  destruct l, p, a, z, ws; cbv [set_padc set_alt set_sign set_left set_fwidth restore id];
    cbn [base alt fwidth padc hex_caps sign left_align unsig]; by rewrite ?orb_true_r, ?orb_false_r.
Qed.

Fixpoint n_args (l : list item) : nat :=
  match l with [] => O | Lit _ :: l => n_args l | Dir _ :: l => S (n_args l) end.

Lemma run_format l sp args k s o :
  fresh sp -> Forall item_ok l -> regular_format str_at sp l args = true ->
  run bwrite_text str_at (print_format l) false sp (mk_pf (s32 k) args s o) =
  Ok (tt, mk_pf (s32 (k + strlen (std_text str_at l args))) (drop (n_args l) args) s (o ++ std_text str_at l args)).
Proof.
  revert sp args k o. induction l as [|[c|d] l IH]; intros sp args k o Hf Hl Hr.
  - cbn [std_text]. change (strlen []) with 0. by rewrite Z.add_0_r, app_nil_r.
  - apply Forall_cons in Hl as [Hc Hl]. cbn [regular_format] in Hr.
    change (print_format (Lit c :: l)) with (c :: print_format l). rewrite run_lit by done.
    rewrite (sm_bind_ok _ _ _ _ _ (prints_emit [c] k args s o)), IH by done. cbn [std_text].
    change (c :: std_text str_at l args) with ([c] ++ std_text str_at l args). by rewrite strlen_app, Z.add_assoc, app_assoc.
  - apply Forall_cons in Hl as [Hd Hl]. destruct args as [|w args]; [done|]. cbn [regular_format] in Hr.
    apply andb_prop in Hr as [Hr1 Hr2].
    change (print_format (Dir d :: l)) with (print_dir d ++ print_format l). rewrite run_dir by done.
    rewrite (sm_bind_ok _ _ _ _ _ (conversion_std sp d w Hf Hr1 k args s o)), IH by done. cbn [std_text n_args drop].
    by rewrite strlen_app, Z.add_assoc, app_assoc.
Qed.
End text.

(** The [printf] functions print what C prescribes and return its length, for
    every format of literal characters and the conversions d u x X o c s with
    flags and widths, where no directive suffers from the flags that remain of
    an earlier one and none of the exceptions listed in [regular] applies. *)
Lemma text_of_format str_at l args :
  Forall item_ok l -> regular_format str_at spec0 l args = true ->
  exists st, text_of str_at (print_format l) args = Ok (s32 (strlen (std_text str_at l args)), st) /\
    out st = std_text str_at l args /\ ap st = drop (n_args l) args /\ stored st = [].
Proof.
  intros Hl Hr. unfold text_of, intern_printf.
  pose proof (run_format str_at l spec0 args 0 [] [] eq_refl Hl Hr) as E. unfold run in E. change (s32 0) with 0 in E.
  rewrite E. by eexists.
Qed.

(** ** Printing to a buffer *)

(** [m'] is [m] with the text [o] at [buf], terminated unless nothing was written. *)
Definition text_at (m : gmap Z Z) (buf : Z) (o : list Z) (m' : gmap Z Z) : Prop :=
  (forall b, b <> buf + strlen o ->
    ld8 m' b = if decide (buf <= b < buf + strlen o) then u8 (default 0 (o !! Z.to_nat (b - buf))) else ld8 m b) /\
  (o <> [] -> ld8 m' (buf + strlen o) = 0).

Lemma text_at_app m buf o m' str : text_at m buf o m' ->
  text_at m buf (o ++ str) (store_list (st8 m' (buf + strlen o + strlen str) 0) (buf + strlen o) str).
Proof.
  intros [H1 H2]. unfold text_at. rewrite strlen_app. split.
  - intros b Hb. rewrite ld8_store_list, ld8_st8. fold (strlen str). rewrite (decide_False (P := b = _)) by lia.
    destruct (decide (buf + strlen o <= b < buf + strlen o + strlen str)) as [Hin|Hin].
    + rewrite decide_True by (unfold strlen in *; lia). rewrite lookup_app_r by (unfold strlen in *; lia).
      do 3 f_equal. unfold strlen. lia.
    + assert (strlen str = 0 /\ b = buf + strlen o \/ b <> buf + strlen o) as [[? ?]|Hne] by (unfold strlen in *; lia); [lia|].
      rewrite H1 by done. destruct (decide (buf <= b < buf + strlen o)).
      * rewrite decide_True by (unfold strlen in *; lia). by rewrite lookup_app_l by (unfold strlen in *; lia).
      * by rewrite decide_False by (unfold strlen in *; lia).
  - intros _. rewrite ld8_store_list, decide_False by (unfold strlen; lia). rewrite ld8_st8, decide_True by lia. done.
Qed.

(** Writing to a buffer that is large enough. *)
Lemma snprintf_text str_at buf sz fmt args m n st :
  text_of str_at fmt args = Ok (n, st) -> 0 < buf -> buf + strlen (out st) < 4294967296 ->
  strlen (out st) < 2147483648 -> sz = 0 \/ strlen (out st) < sz < 4294967296 ->
  exists st', snprintf str_at buf sz fmt args m = Ok (n, st') /\ text_at m buf (out st) (out st').
Proof.
  intros E Hb Hlen Hl Hsz. unfold text_of in E.
  set (fits := fun o => buf + strlen o < 4294967296 /\ strlen o < 2147483648 /\ (sz = 0 \/ strlen o < sz < 4294967296)).
  unshelve epose proof (intern_printf_sim bwrite_text (bwrite_buf buf sz) str_at
    (fun k o m' => k = s32 (strlen o) /\ (fits o -> text_at m buf o m')) _ fmt args [] m n st _ E) as (st' & F & []).
  - intros k str o m' o' [-> Ho] [= <-]. eexists. split; [done|]. rewrite strlen_app, s32_add_l. split; [done|].
    intros (H1 & H2 & H3). rewrite strlen_app in *. assert (0 <= strlen o /\ 0 <= strlen str) as [? ?] by (unfold strlen; lia).
    rewrite s32_small by lia. destruct (Z.eqb_spec buf 0); [lia|]. rewrite u32_small by lia.
    assert ((if sz =? 0 then sz else u32 (sz - strlen o)) = if sz =? 0 then 0 else sz - strlen o) as ->.
    { destruct (Z.eqb_spec sz 0); [done|]. apply u32_small. lia. }
    assert (negb ((if sz =? 0 then 0 else sz - strlen o) =? 0) &&
      ((if sz =? 0 then 0 else sz - strlen o) <=? strlen str) = false) as ->.
    { destruct (Z.eqb_spec sz 0); [done|]. destruct (Z.leb_spec (sz - strlen o) (strlen str)); [lia|]. by rewrite andb_false_r. }
    rewrite take_ge by (unfold strlen; lia). apply text_at_app, Ho. unfold fits. lia.
  - split; [done|]. intros _. split; [|done]. intros b Hne. change (strlen []) with 0. rewrite decide_False by lia. done.
  - exists st'. split; [done|]. apply rel_out0; unfold fits; by split_and!.
Qed.

(** C20. [snprintf] and [sprintf] ([sz] = 0) into a buffer that is large enough
    write what C prescribes, terminate it, change nothing else and return
    the length: for every format of literal characters and the conversions
    d u x X o c s with flags and widths to which no exception of [regular]
    applies. *)
Theorem snprintf_standard str_at buf sz l args m :
  Forall item_ok l -> regular_format str_at spec0 l args = true ->
  let text := std_text str_at l args in
  0 < buf -> buf + strlen text < 4294967296 -> strlen text < 2147483648 -> sz = 0 \/ strlen text < sz < 4294967296 ->
  exists st, snprintf str_at buf sz (print_format l) args m = Ok (strlen text, st) /\ text_at m buf text (out st).
Proof.
  intros Hl Hr text Hb H1 H2 H3. destruct (text_of_format str_at l args Hl Hr) as (st0 & E & Eo & _).
  fold text in E, Eo. pose proof (strlen_nonneg text). rewrite s32_small in E by lia.
  rewrite <- Eo in H1, H2, H3. destruct (snprintf_text str_at buf sz _ _ m _ _ E Hb H1 H2 H3) as (st & F & Ht).
  exists st. by rewrite Eo in Ht.
Qed.

(** One character is written whatever is left of the size. *)
Lemma emit_unlimited buf sz c st : emit (bwrite_buf buf sz) [c] st = emit (bwrite_buf buf 0) [c] st.
Proof.
  unfold emit, bwrite_buf. change (strlen [c]) with 1. change (0 =? 0) with true. cbn [negb andb Z.eqb].
  set (k := if sz =? 0 then sz else u32 (sz - cnum st)).
  replace (if negb (k =? 0) && (k <=? 1) then k else 1) with 1; [done|].
  assert (0 <= k) by (unfold k; pose proof (u32_range (sz - cnum st)); destruct (Z.eqb_spec sz 0); lia).
  zcases.
Qed.
Lemma run_unlimited buf sz str_at fmt sp st : Forall (fun c => c <> 37) fmt ->
  run (bwrite_buf buf sz) str_at fmt false sp st = run (bwrite_buf buf 0) str_at fmt false sp st.
Proof.
  intros Hf. revert st. induction Hf as [|c fmt Hc _ IH]; intros st; [done|]. rewrite !run_lit by done.
  unfold mbind, sm_mbind. rewrite emit_unlimited.
  destruct (emit (bwrite_buf buf 0) [c] st) as [[[] st']| | |]; [apply IH|done..].
Qed.
(** A format of literal characters is its own text. *)
Lemma text_of_literal str_at fmt args : Forall (fun c => c <> 37) fmt -> strlen fmt < 2147483648 ->
  exists st, text_of str_at fmt args = Ok (strlen fmt, st) /\ out st = fmt.
Proof.
  intros Hf Hl. assert (print_format (Lit <$> fmt) = fmt /\ std_text str_at (Lit <$> fmt) args = fmt /\
    regular_format str_at spec0 (Lit <$> fmt) args = true) as (Ep & Et & Er).
  { clear. induction fmt as [|c fmt (IH1 & IH2 & IH3)]; [done|]. cbn. rewrite IH2. split_and!; [|done..]. f_equal. exact IH1. }
  destruct (text_of_format str_at (Lit <$> fmt) args) as (st & E & Eo & _); [by apply Forall_fmap|done|].
  rewrite Et in E, Eo. rewrite Ep in E. pose proof (strlen_nonneg fmt). rewrite s32_small in E by lia. by exists st.
Qed.

(** C33. A size does not limit what [snprintf] writes for literal characters:
    what is left of it is compared with the one character to be written, and 0
    left means no limit. The whole text is written. *)
Theorem snprintf_no_limit str_at buf sz fmt args m :
  Forall (fun c => c <> 37) fmt -> 0 < buf -> buf + strlen fmt < 4294967296 -> strlen fmt < 2147483648 ->
  exists st, snprintf str_at buf sz fmt args m = Ok (strlen fmt, st) /\ text_at m buf fmt (out st).
Proof.
  intros Hf Hb Hl1 Hl2. destruct (text_of_literal str_at fmt args Hf Hl2) as (st0 & E & Eo).
  destruct (snprintf_text str_at buf 0 _ _ m _ _ E Hb) as (st & F & Ht); [by rewrite Eo..|by left|].
  exists st. rewrite Eo in Ht. split; [|done]. rewrite <- F. unfold snprintf, intern_printf.
  pose proof (run_unlimited buf sz str_at fmt spec0 (mk_pf 0 args [] m) Hf) as Er. unfold run in Er. by rewrite Er.
Qed.

(** ** Termination *)
Section termination.
Context {T : Type} (bwrite : Z -> list Z -> T -> res T) (str_at : Z -> list Z).
Hypothesis bwrite_ends : forall n str o, bwrite n str o <> NoFuel.

(** [m] does not run out of fuel. *)
Definition ends {A} (m : SM (pf T) A) : Prop := forall st, m st <> NoFuel.

Lemma ends_bind {A B} (m : SM (pf T) A) (f : A -> SM (pf T) B) : ends m -> (forall a, ends (f a)) -> ends (m ≫= f).
Proof. intros Hm Hf st. unfold mbind, sm_mbind. specialize (Hm st). destruct (m st) as [[a s]| | |]; [apply Hf|done..]. Qed.
Lemma ends_emit str : ends (emit bwrite str).
Proof. intros st. unfold emit. specialize (bwrite_ends (cnum st) str (out st)). by destruct (bwrite _ _ _). Qed.
Lemma ends_ret {A} (a : A) : ends (mret a).
Proof. by intros st. Qed.
Lemma ends_pad n c : ends (put_pad bwrite n c).
Proof. induction n; cbn [put_pad]; [apply ends_ret|]. apply ends_bind; [apply ends_emit|done]. Qed.
Lemma ends_put_field sp plus text : ends (put_field bwrite sp plus text).
Proof.
  unfold put_field. set (put := _;; emit bwrite text). assert (ends put) as Hp by (
    apply ends_bind; [destruct plus; auto using ends_ret, ends_emit|auto using ends_emit]).
  clearbody put.
  destruct (left_align sp); repeat (apply ends_bind; [|intros ?]); auto using ends_ret, ends_pad.
Qed.
Lemma ends_va_arg : ends va_arg.
Proof. by intros [? []]. Qed.

(** The digits of a 32-bit number end in every base from 2 on. *)
Lemma digits_ends base n : 8 <= base <= 16 -> 0 <= n < 4294967296 -> exists ds, digits 32 n base = Ok ds.
Proof. intros Hb Hn. destruct (digits_spec 32 n base) as (ds & E & _); [lia|simpl; lia|by exists ds]. Qed.
Lemma itoa_ends base n : base = 8 \/ base = 10 \/ base = 16 -> -2147483648 <= n < 2147483648 -> itoa n base <> NoFuel.
Proof.
  intros Hb Hn. destruct (decide (n = -2147483648)) as [->|].
  - destruct Hb as [->|[-> | ->]]; by vm_compute.
  - rewrite itoa_number by lia. done.
Qed.

Lemma ends_put_number sp : base sp = 8 \/ base sp = 10 \/ base sp = 16 -> ends (put_number bwrite sp).
Proof.
  intros Hb. unfold put_number. apply ends_bind; [apply ends_va_arg|]. intros w. apply ends_bind.
  - intros st. unfold sm_lift. pose proof (u32_range w). pose proof (s32_range w).
    destruct (unsig sp); [by rewrite utoa_number by lia|]. pose proof (itoa_ends (base sp) (s32 w) Hb ltac:(lia)) as Hi.
    by destruct (itoa (s32 w) (base sp)).
  - intros text. apply ends_put_field.
Qed.

(** Runs to an end, in a state of which [P] holds. *)
Lemma ends_conversion c sp : base sp = 10 -> ends (conversion bwrite str_at c sp) /\
  forall st sp' st', conversion bwrite str_at c sp st = Ok (sp', st') -> base sp' = 10.
Proof.
  intros Hb. unfold conversion. cbv zeta. split.
  - repeat case_match; repeat first [ simple apply ends_emit | simple apply ends_ret | simple apply ends_va_arg
      | simple apply ends_put_field | simple apply ends_put_number; repeat case_match; cbn; by auto
      | by intros ? | simple apply ends_bind; [|intros ?] ].
  - intros st sp' st' E. repeat case_match; repeat (apply sm_bind_inv in E as (? & ? & ? & E));
      by apply mret_inv in E as [-> _].
Qed.

Lemma ends_loop fuel fmt b sp : (length fmt <= fuel)%nat -> base sp = 10 -> ends (printf_loop bwrite str_at fuel fmt b sp).
Proof.
  revert fmt b sp. induction fuel as [|fuel IH]; intros [|c fmt] b sp Hf Hb; cbn [length] in *; try (lia || apply ends_ret).
  cbn [printf_loop]. pose proof (length_skip_digits fmt).
  destruct (c =? 37); [apply IH; [lia|done]|].
  destruct b; [|apply ends_bind; [apply ends_emit|intros; apply IH; [lia|done]]].
  destruct (IS_CONV c).
  - intros st. destruct (ends_conversion c sp Hb) as [H1 H2]. unfold mbind, sm_mbind. specialize (H1 st).
    destruct (conversion bwrite str_at c sp st) as [[sp' st']| | |] eqn:E; try done. apply IH; [lia|by eapply H2].
  - repeat case_match; apply IH; cbn [skip_digits]; repeat case_match; cbn [length]; try lia; done.
Qed.

(** Formatting ends: with the fuel of [intern_printf], the length of the
    format, the loop is not cut off, for any format, arguments and sink. *)
Theorem printf_terminates fmt args o : intern_printf bwrite str_at fmt args o <> NoFuel.
Proof.
  unfold intern_printf. pose proof (ends_loop (length fmt) fmt false spec0 (le_n _) eq_refl (mk_pf 0 args [] o)) as He.
  by destruct (printf_loop _ _ _ _ _ _ _) as [[[] st]| | |].
Qed.
End termination.

(** ** Printing to the console *)
Section console.
Context (ser_putchar : Z -> IO unit).
Hypothesis ser_total : forall c w, exists w', ser_putchar c w = Ok (tt, w').

Lemma linefeed_total t w : exists t' w', linefeed t w = Ok (t', w').
Proof.
  unfold linefeed. destruct (_ <=? _); [|by eexists _, _]. unfold scroll. cbv zeta.
  match goal with |- context [crtc_setstart ?y] => destruct (crtc_setstart_ok y w) as [w' E] end.
  unfold mbind, io_mbind. rewrite E. by eexists _, _.
Qed.
Lemma wrap_line_total t w : exists t' w', wrap_line t w = Ok (t', w').
Proof.
  unfold wrap_line. destruct (_ <=? _); [|by eexists _, _]. destruct (linefeed_total t w) as (t' & w' & E).
  unfold mbind, io_mbind. rewrite E. by eexists _, _.
Qed.
Lemma con_putchar_total t c w : exists r, con_putchar ser_putchar t c w = Ok r.
Proof.
  unfold con_putchar, mbind, io_mbind, mret, io_mret. cbv zeta.
  repeat match goal with
  | |- context [if ?b then _ else _] => destruct b
  | |- context [crtc_cursor ?t ?x ?y ?w] => destruct (crtc_cursor_ok t x y w) as [? ->]
  | |- context [wrap_line ?t ?w] => destruct (wrap_line_total t w) as (? & ? & ->)
  | |- context [linefeed ?t ?w] => destruct (linefeed_total t w) as (? & ? & ->)
  | |- context [ser_putchar ?c ?w] => destruct (ser_total c w) as [? ->]
  end; by eexists.
Qed.
Lemma put_all_total str t w : exists r, put_all ser_putchar str t w = Ok r.
Proof.
  revert t w. induction str as [|c str IH]; intros t w; [by eexists|]. cbn [put_all].
  destruct (con_putchar_total t c w) as [[t1 w1] E]. unfold mbind, io_mbind. rewrite E. apply IH.
Qed.
Lemma put_all_app a b t w :
  put_all ser_putchar (a ++ b) t w = (t ← put_all ser_putchar a t; put_all ser_putchar b t) w.
Proof.
  revert t w. induction a as [|c a IH]; intros t w; [done|]. cbn [app put_all]. unfold mbind, io_mbind in *.
  destruct (con_putchar ser_putchar t c w) as [[t1 w1]| | |]; [apply IH|done..].
Qed.

Lemma printf_shows str_at fmt args n st t w :
  text_of str_at fmt args = Ok (n, st) ->
  exists st', printf ser_putchar str_at fmt args (t, w) = Ok (n, st') /\
    put_all ser_putchar (out st) t w = Ok (out st') /\ ap st' = ap st /\ stored st' = stored st.
Proof.
  intros E.
  unshelve epose proof (intern_printf_sim bwrite_text (bwrite_con ser_putchar) str_at
    (fun _ o s => put_all ser_putchar o t w = Ok s) _ fmt args [] (t, w) n st _ E) as (st' & F & [_ Ha Hs Ho]).
  - intros k str o [t1 w1] o' Ho [= <-]. destruct (put_all_total str t1 w1) as [r Er]. exists r. split; [done|].
    rewrite put_all_app. unfold mbind, io_mbind. by rewrite Ho.
  - done.
  - by exists st'.
Qed.

(** [printf] prints, character by character, exactly the text that the same
    format gives in a buffer, and returns its length. *)
Theorem printf_console str_at fmt args n st t w :
  text_of str_at fmt args = Ok (n, st) ->
  exists st', printf ser_putchar str_at fmt args (t, w) = Ok (n, st') /\
    put_all ser_putchar (out st) t w = Ok (out st') /\ ap st' = ap st /\ stored st' = stored st.
Proof. apply printf_shows. Qed.
End console.

(** ** Where the output is not what C prescribes *)

Definition no_str (_ : Z) : list Z := [].
(** The text of a format literal with arguments. *)
Definition shown (fmt : string) (args : list Z) : option (list Z) :=
  match text_of no_str (codes fmt) args with Ok (_, st) => Some (out st) | _ => None end.

(** The flags ['-'] and ['+'] and having been unsigned hold for all directives
    that follow. *)
Lemma printf_unsigned_stays : shown "%u %d" [0; -1] = Some (codes "0 4294967295").
Proof. by vm_compute. Qed.
Lemma printf_left_stays : shown "%-3d|%3d|" [1; 2] = Some (codes "1  |2  |").
Proof. by vm_compute. Qed.
Lemma printf_plus_stays : shown "%+d %d" [1; 2] = Some (codes "+1 +2").
Proof. by vm_compute. Qed.
(** ["%%"] prints nothing, and the letter after it is a conversion. *)
Lemma printf_percent : shown "100%%" [] = Some (codes "100") /\ shown "%%d" [7] = Some (codes "7").
Proof. by vm_compute. Qed.
(** Zeros and the prefixes come in the wrong order and do not count. *)
Lemma printf_zero_negative : shown "%05d" [-3] = Some (codes "000-3").
Proof. by vm_compute. Qed.
Lemma printf_plus_width : shown "%+3d" [5] = Some (codes "  +5").
Proof. by vm_compute. Qed.
Lemma printf_alt_width : shown "%#4x" [255] = Some (codes "0x  ff").
Proof. by vm_compute. Qed.
(** Octal is signed; characters have no width; long long arguments are
    taken for one word each. *)
Lemma printf_octal_signed : shown "%o" [-1] = Some (codes "-1").
Proof. by vm_compute. Qed.
Lemma printf_char_width : shown "%3c" [65] = Some (codes "A").
Proof. by vm_compute. Qed.
Lemma printf_long_long : shown "%llu %d" [1; 0; 7] = Some (codes "1 0").
Proof. by vm_compute. Qed.
(** An empty format leaves the buffer without a terminator. *)
Lemma sprintf_empty str_at buf args m : sprintf str_at buf [] args m = Ok (0, mk_pf 0 args [] m).
Proof. done. Qed.
(** One error number too many passes the test of [strerror]. *)
Lemma strerror_overflow : strerror 128 = Fault /\ strerror 14 = Ok (codes "Does not exist").
Proof. by vm_compute. Qed.

(** ** Witnesses *)

Definition demo_format : list item :=
  [Lit 91; Dir (mk_dir false false false true [50] KDec); Lit 58; Dir (mk_dir false false false false [] (KHex false)); Lit 93].

Lemma snprintf_standard_witness :
  exists st, snprintf no_str 100 16 (codes "[%02d:%x]") [5; 255] ∅ = Ok (7, st) /\ text_at ∅ 100 (codes "[05:ff]") (out st).
Proof.
  change (codes "[%02d:%x]") with (print_format demo_format).
  apply (snprintf_standard no_str 100 16 demo_format [5; 255] ∅); [|by vm_compute..|right; by vm_compute].
  repeat constructor; by vm_compute.
Defined.

Lemma snprintf_no_limit_witness :
  exists st, snprintf no_str 100 2 (codes "hello") [] ∅ = Ok (5, st) /\ text_at ∅ 100 (codes "hello") (out st).
Proof. apply (snprintf_no_limit no_str 100 2 (codes "hello") [] ∅); [repeat constructor; by vm_compute|by vm_compute..]. Defined.

Lemma printf_console_witness :
  exists st', printf (fun _ => mret tt) no_str (codes "%d") [42] (con0, mk_world [] false) = Ok (2, st') /\
    put_all (fun _ => mret tt) (codes "42") con0 (mk_world [] false) = Ok (out st') /\ ap st' = [] /\ stored st' = [].
Proof.
  apply (printf_console (fun _ => mret tt) (fun _ w => ex_intro _ w eq_refl) no_str (codes "%d") [42] 2
    (mk_pf 2 [] [] (codes "42")) con0 (mk_world [] false)). by vm_compute.
Defined.

Lemma printf_terminates_witness : text_of no_str (codes "%d%n") [1] <> NoFuel.
Proof. apply (printf_terminates bwrite_text no_str). intros n str o. discriminate. Defined.
