(* ===== verification/Dma.v ===== *)
(** * DMA controllers (src/dma.c, src/dma.h)

    [dma_io] is the sequence of its port accesses. The specification is what a
    channel of the 8237 makes of the writes it sees ([chan_write]). *)
From S2P Require Import Prelude Io.

Definition DMA_SINGLE : Z := 1.
Definition DMA_BLOCK : Z := 2.
Definition DMA_DECR : Z := 8.
Definition DMA_AUTO : Z := 0x10.

Definition DMA_0_ADDR : Z := 0x00.
Definition DMA_0_COUNT : Z := 0x01.
Definition DMA_4_ADDR : Z := 0xc0.
Definition DMA_4_COUNT : Z := 0xc2.
Definition DMA_ADDR (c : Z) : Z := if c <? 4 then DMA_0_ADDR + Z.shiftl c 1 else DMA_4_ADDR + Z.shiftl c 2.
Definition DMA_COUNT (c : Z) : Z := if c <? 4 then DMA_0_COUNT + Z.shiftl c 1 else DMA_4_COUNT + Z.shiftl c 2.

Definition DMA8_MASK : Z := 0x0a.
Definition DMA8_MODE : Z := 0x0b.
Definition DMA8_CLR_FLIPFLOP : Z := 0x0c.
Definition DMA16_MASK : Z := 0xd4.
Definition DMA16_MODE : Z := 0xd6.
Definition DMA16_CLR_FLIPFLOP : Z := 0xd8.
Definition DMA_MASK (c : Z) : Z := if c <? 4 then DMA8_MASK else DMA16_MASK.
Definition DMA_MODE (c : Z) : Z := if c <? 4 then DMA8_MODE else DMA16_MODE.
Definition DMA_CLR_FLIPFLOP (c : Z) : Z := if c <? 4 then DMA8_CLR_FLIPFLOP else DMA16_CLR_FLIPFLOP.

Definition page_port : list Z := [0x87; 0x83; 0x81; 0x82; 0x8f; 0x8b; 0x89; 0x8a].

Definition MODE_CHAN (x : Z) : Z := Z.land x 3.
Definition MODE_WRITE : Z := 0x04.
Definition MODE_READ : Z := 0x08.
Definition MODE_AUTO : Z := 0x10.
Definition MODE_DECR : Z := 0x20.
Definition MASK_CHAN (x : Z) : Z := Z.land x 3.
Definition MASK_DISABLE : Z := 0x04.
Definition IS_16BIT (c : Z) : bool := 4 <=? c.

Definition mask (chan : Z) : IO unit := outb (Z.lor (MASK_CHAN chan) MASK_DISABLE) (DMA_MASK chan).
Definition unmask (chan : Z) : IO unit := outb (MASK_CHAN chan) (DMA_MASK chan).

(** The mode byte of a transfer. *)
Definition dma_mode (chan flags dir : Z) : Z :=
  let mode := Z.lor (Z.lor (Z.shiftl (Z.land flags 3) 6) dir) (MODE_CHAN chan) in
  let mode := if negb (Z.land flags DMA_DECR =? 0) then Z.lor mode MODE_DECR else mode in
  if negb (Z.land flags DMA_AUTO =? 0) then Z.lor mode MODE_AUTO else mode.

(** [size] is an [int]: halving and the bytes are of its two's complement. *)
Definition dma_io (chan phyaddr size flags dir : Z) : IO unit :=
  let addr_port := DMA_ADDR chan in
  let count_port := DMA_COUNT chan in
  _ ← mask chan;
  _ ← outb 0 (DMA_CLR_FLIPFLOP chan);
  _ ← outb (dma_mode chan flags dir) (DMA_MODE chan);
  let phyaddr := if IS_16BIT chan then Z.shiftr phyaddr 1 else phyaddr in
  let size := if IS_16BIT chan then Z.shiftr size 1 else size in
  _ ← outb (Z.land phyaddr 0xff) addr_port;
  _ ← outb (Z.land (Z.shiftr phyaddr 8) 0xff) addr_port;
  page ← lift (of_option (zlookup page_port chan));
  _ ← outb (Z.land (Z.shiftr phyaddr 16) 0xff) page;
  let size := size - 1 in
  _ ← outb (Z.land size 0xff) count_port;
  _ ← outb (Z.land (Z.shiftr size 8) 0xff) count_port;
  unmask chan.

Definition dma_out (chan phyaddr size flags : Z) : IO unit := dma_io chan phyaddr size flags MODE_READ.
Definition dma_in (chan phyaddr size flags : Z) : IO unit := dma_io chan phyaddr size flags MODE_WRITE.

(** ** A channel of the first controller *)

(** What the controller holds for one channel: [ff] tells which byte of an
    address or count comes next; [masked] that the channel is off. [torn]
    records that the address or count was changed while the channel was on. *)
Record channel := mk_chan { ff : bool; addr : Z; page : Z; count : Z; cmode : Z; masked : bool; torn : bool }.

Definition set_byte (ff : bool) (old v : Z) : Z := if ff then old mod 256 + 256 * v else 256 * (old / 256) + v.

(** Channel [c], 0 to 3, of the 8237 at port 0 with its page register. *)
Definition chan_write (c : Z) (e : io_event) (s : channel) : channel :=
  match e with
  | EIn _ _ _ => s
  | EOut _ port v =>
      if port =? 0x0a then
        if v mod 4 =? c then mk_chan (ff s) (addr s) (page s) (count s) (cmode s) (Z.testbit v 2) (torn s) else s
      else if port =? 0x0b then
        if v mod 4 =? c then mk_chan (ff s) (addr s) (page s) (count s) v (masked s) (torn s) else s
      else if port =? 0x0c then mk_chan false (addr s) (page s) (count s) (cmode s) (masked s) (torn s)
      else if port =? 2 * c then
        mk_chan (negb (ff s)) (set_byte (ff s) (addr s) v) (page s) (count s) (cmode s) (masked s) (torn s || negb (masked s))
      else if port =? 2 * c + 1 then
        mk_chan (negb (ff s)) (addr s) (page s) (set_byte (ff s) (count s) v) (cmode s) (masked s) (torn s || negb (masked s))
      else if port <? 8 then mk_chan (negb (ff s)) (addr s) (page s) (count s) (cmode s) (masked s) (torn s)
      else if bool_decide (zlookup page_port c = Some port) then
        mk_chan (ff s) (addr s) v (count s) (cmode s) (masked s) (torn s || negb (masked s))
      else s
  end.
(** After a trace, latest event first. *)
Definition chan_after (c : Z) (tr : list io_event) (s : channel) : channel := fold_right (chan_write c) s tr.

(** The accesses of [dma_io] on a channel of the first controller. *)
Lemma dma_io_trace chan phyaddr size flags dir w : 0 <= chan < 4 ->
  dma_io chan phyaddr size flags dir w = Ok (tt, mk_world
    (outs [(Z.lor chan 4, 0x0a); (0, 0x0c); (wrap 8 (dma_mode chan flags dir), 0x0b);
           (phyaddr mod 256, 2 * chan); ((phyaddr / 256) mod 256, 2 * chan);
           ((phyaddr / 65536) mod 256, default 0 (zlookup page_port chan));
           ((size - 1) mod 256, 2 * chan + 1); (((size - 1) / 256) mod 256, 2 * chan + 1); (chan, 0x0a)]
     ++ trace w) (intr_on w)).
Proof.
  intros Hc. unfold dma_io, mask, unmask, IS_16BIT, DMA_MASK, DMA_MODE, DMA_CLR_FLIPFLOP, DMA_ADDR, DMA_COUNT, MASK_CHAN.
  destruct (Z.ltb_spec chan 4); [|lia]. destruct (Z.leb_spec 4 chan); [lia|].
  rewrite !land_255, !Z.shiftr_div_pow2, Z.shiftl_mul_pow2 by lia.
  change (2 ^ 8) with 256. change (2 ^ 16) with 65536. change (2 ^ 1) with 2.
  assert (forall x, wrap 8 (x mod 256) = x mod 256) as Hw by (intros x; unfold wrap; change (2 ^ 8) with 256; apply Z.mod_mod; lia).
  assert (chan = 0 \/ chan = 1 \/ chan = 2 \/ chan = 3) as [->|[->|[->| ->]]] by lia; io; cbn; by rewrite !Hw.
Qed.

Definition port_of (e : io_event) : Z := match e with EIn _ p _ | EOut _ p _ => p end.

Lemma set_byte_both a x : set_byte true (set_byte false a (x mod 256)) ((x / 256) mod 256) = x mod 65536.
Proof. unfold set_byte. mlia. Qed.

(** The mode byte: its channel, direction and transfer bits. *)
Lemma dma_mode_chan chan flags dir : 0 <= chan < 4 -> dir = MODE_READ \/ dir = MODE_WRITE ->
  wrap 8 (dma_mode chan flags dir) mod 4 = chan /\
  wrap 8 (dma_mode chan flags dir) / 64 = flags mod 4 /\
  Z.testbit (wrap 8 (dma_mode chan flags dir)) 5 = Z.testbit flags 3 /\
  Z.testbit (wrap 8 (dma_mode chan flags dir)) 4 = Z.testbit flags 4.
Proof.
  intros Hc Hd. unfold dma_mode, MODE_CHAN, DMA_DECR, DMA_AUTO.
  pose proof (land_pow2_testbit flags 3 ltac:(lia)) as H3. change (Z.shiftl 1 3) with 8 in H3.
  pose proof (land_pow2_testbit flags 4 ltac:(lia)) as H4. change (Z.shiftl 1 4) with 0x10 in H4.
  rewrite H3, H4, !negb_involutive. clear H3 H4.
  change (Z.land flags 3) with (Z.land flags (Z.ones 2)). rewrite (land_mask flags 2) by lia. change (2 ^ 2) with 4.
  assert (0 <= flags mod 4 < 4) as Hf by mlia. generalize dependent (flags mod 4). intros f Hf.
  assert (chan = 0 \/ chan = 1 \/ chan = 2 \/ chan = 3) as Hcs by lia.
  assert (f = 0 \/ f = 1 \/ f = 2 \/ f = 3) as Hfs by lia.
  destruct (Z.testbit flags 3), (Z.testbit flags 4), Hcs as [->|[->|[->| ->]]], Hfs as [->|[->|[->| ->]]], Hd as [-> | ->];
    by vm_compute.
Qed.

(** The writes to the registers of channel [c], one at a time. *)
Section writes.
Variable c : Z.
Hypothesis Hc : 0 <= c < 4.
Ltac cases := assert (c = 0 \/ c = 1 \/ c = 2 \/ c = 3) as [->|[->|[->| ->]]] by lia.

Lemma write_mask_on s : chan_write c (EOut 8 0x0a (Z.lor c 4)) s =
  mk_chan (ff s) (addr s) (page s) (count s) (cmode s) true (torn s).
Proof. by cases. Qed.
Lemma write_clear s : chan_write c (EOut 8 0x0c 0) s =
  mk_chan false (addr s) (page s) (count s) (cmode s) (masked s) (torn s).
Proof. done. Qed.
Lemma write_mask_off s : chan_write c (EOut 8 0x0a c) s =
  mk_chan (ff s) (addr s) (page s) (count s) (cmode s) false (torn s).
Proof. by cases. Qed.
Lemma write_mode v s : v mod 4 = c -> chan_write c (EOut 8 0x0b v) s =
  mk_chan (ff s) (addr s) (page s) (count s) v (masked s) (torn s).
Proof. intros E. cbn -[Z.modulo]. by rewrite E, Z.eqb_refl. Qed.
Lemma write_addr v s : chan_write c (EOut 8 (2 * c) v) s =
  mk_chan (negb (ff s)) (set_byte (ff s) (addr s) v) (page s) (count s) (cmode s) (masked s) (torn s || negb (masked s)).
Proof. by cases. Qed.
Lemma write_count v s : chan_write c (EOut 8 (2 * c + 1) v) s =
  mk_chan (negb (ff s)) (addr s) (page s) (set_byte (ff s) (count s) v) (cmode s) (masked s) (torn s || negb (masked s)).
Proof. by cases. Qed.
Lemma write_page v s : chan_write c (EOut 8 (default 0 (zlookup page_port c)) v) s =
  mk_chan (ff s) (addr s) v (count s) (cmode s) (masked s) (torn s || negb (masked s)).
Proof. by cases. Qed.
End writes.
#[local] Opaque chan_write set_byte.

(** What the channel makes of these accesses. *)
Lemma program_chan chan phyaddr size md s : 0 <= chan < 4 -> md mod 4 = chan ->
  chan_after chan (outs [(Z.lor chan 4, 0x0a); (0, 0x0c); (md, 0x0b);
      (phyaddr mod 256, 2 * chan); ((phyaddr / 256) mod 256, 2 * chan);
      ((phyaddr / 65536) mod 256, default 0 (zlookup page_port chan));
      ((size - 1) mod 256, 2 * chan + 1); (((size - 1) / 256) mod 256, 2 * chan + 1); (chan, 0x0a)]) s =
  mk_chan false (phyaddr mod 65536) ((phyaddr / 65536) mod 256) ((size - 1) mod 65536) md false (torn s).
Proof.
  intros Hc Hm. unfold chan_after, outs. cbn [rev fmap list_fmap app fold_right].
  rewrite (write_mask_on chan Hc). cbn [ff addr page count cmode masked torn].
  rewrite write_clear. cbn [ff addr page count cmode masked torn].
  rewrite (write_mode chan md) by done. cbn [ff addr page count cmode masked torn].
  rewrite !(write_addr chan Hc). cbn [ff addr page count cmode masked torn negb].
  rewrite (write_page chan Hc). cbn [ff addr page count cmode masked torn].
  rewrite !(write_count chan Hc). cbn [ff addr page count cmode masked torn negb].
  rewrite (write_mask_off chan Hc). cbn [ff addr page count cmode masked torn].
  by rewrite !set_byte_both, !orb_false_r.
Qed.
Lemma chan_after_app c t1 t2 s : chan_after c (t1 ++ t2) s = chan_after c t1 (chan_after c t2 s).
Proof. unfold chan_after. apply foldr_app. Qed.

(** On channels 0 to 3 a transfer is programmed correctly: the channel holds
    the low 24 bits of the address, one less than the size, the direction and
    the flags; it is off while it is programmed and on afterwards. *)
Theorem dma_programs chan phyaddr size flags dir w s :
  0 <= chan < 4 -> dir = MODE_READ \/ dir = MODE_WRITE ->
  exists tr, dma_io chan phyaddr size flags dir w = Ok (tt, mk_world (tr ++ trace w) (intr_on w)) /\
    chan_after chan tr s =
      mk_chan false (phyaddr mod 65536) ((phyaddr / 65536) mod 256) ((size - 1) mod 65536)
        (wrap 8 (dma_mode chan flags dir)) false (torn s).
Proof.
  intros Hc Hd. eexists. split; [by apply dma_io_trace|].
  apply program_chan; [done|]. by apply dma_mode_chan.
Qed.

Definition off_channel : channel := mk_chan true 7 7 7 7 true false.

Lemma dma_programs_witness :
  exists tr, dma_io 1 0x90000 512 DMA_SINGLE MODE_READ (mk_world [] true) = Ok (tt, mk_world (tr ++ []) true) /\
    chan_after 1 tr off_channel = mk_chan false 0 9 511 0x49 false false.
Proof. apply (dma_programs 1 0x90000 512 DMA_SINGLE MODE_READ (mk_world [] true) off_channel); [lia|by left]. Defined.

(** On channels 4 to 7 the address and the count go to the wrong ports: the
    registers of channel [c] of the second controller are 16 further down, and
    for channel 5 the ports are its mask and mode registers. *)
Theorem dma_16bit_ports chan phyaddr size flags dir w :
  4 <= chan < 8 ->
  exists tr, dma_io chan phyaddr size flags dir w = Ok (tt, mk_world (tr ++ trace w) (intr_on w)) /\
    (forall wd v, EOut wd (0xc0 + 4 * (chan - 4)) v ∉ tr) /\
    EOut 8 (0xc0 + 4 * (chan - 4) + 16) ((phyaddr / 2) mod 256) ∈ tr /\
    (chan = 5 -> 0xc0 + 4 * (chan - 4) + 16 = DMA16_MASK /\ DMA_COUNT chan = DMA16_MODE).
Proof.
  intros Hc. assert (forall x, wrap 8 (x mod 256) = x mod 256) as Hw by (intros x; unfold wrap; change (2 ^ 8) with 256; apply Z.mod_mod; lia).
  unfold dma_io. rewrite !land_255, !Z.shiftr_div_pow2 by lia. change (2 ^ 1) with 2.
  assert (chan = 4 \/ chan = 5 \/ chan = 6 \/ chan = 7) as [->|[->|[->| ->]]] by lia;
    unfold mask, unmask; io; cbn -[Z.modulo Z.div dma_mode]; rewrite !Hw;
    eexists (_ :: _ :: _ :: _ :: _ :: _ :: _ :: _ :: [_]); (split; [reflexivity|]); (split; [|split; [|done]]);
    try (intros wd v; rewrite !not_elem_of_cons; split_and!; [intros E; apply (f_equal port_of) in E; vm_compute in E; discriminate..|apply not_elem_of_nil]);
    repeat (apply list_elem_of_here || apply list_elem_of_further).
Qed.

Lemma dma_16bit_ports_witness :
  exists tr, dma_io 5 0x90000 512 DMA_SINGLE MODE_READ (mk_world [] true) = Ok (tt, mk_world (tr ++ []) true) /\
    (forall wd v, EOut wd 0xc4 v ∉ tr) /\ EOut 8 0xd4 0 ∈ tr /\ (5 = 5 -> 0xd4 = DMA16_MASK /\ DMA_COUNT 5 = DMA16_MODE).
Proof. apply (dma_16bit_ports 5 0x90000 512 DMA_SINGLE MODE_READ (mk_world [] true)). lia. Defined.
