(* ===== verification/AuSb.v ===== *)
(** * Sound Blaster and audio (src/au_sb.c, src/audio.c)

    The driver's variables are the state [sb]; what it prints is left out. The
    busy waits for the DSP take fuel. [audio_callback] is audio.c's, which
    calls the program's callback; the handler's name is [handler]. *)
From S2P Require Import Prelude Io Intr Dma.

Definition WSTAT_BUSY : Z := 0x80.
Definition RSTAT_RDY : Z := 0x80.
Definition CMD_RATE : Z := 0x40.
Definition CMD_SB16_OUT_RATE : Z := 0x41.
Definition CMD_GET_VER : Z := 0xe1.
Definition CMD_START_DMA8 : Z := 0xc0.
Definition CMD_PAUSE_DMA8 : Z := 0xd0.
Definition CMD_ENABLE_OUTPUT : Z := 0xd1.
Definition CMD_DISABLE_OUTPUT : Z := 0xd3.
Definition CMD_CONT_DMA8 : Z := 0xd4.
Definition CMD_END_DMA8 : Z := 0xda.
Definition CMD_MODE_SIGNED : Z := 0x10.
Definition CMD_MODE_STEREO : Z := 0x20.
Definition MIX_IRQ_SEL : Z := 0x80.
Definition MIX_DMA_SEL : Z := 0x81.
Definition VER_MAJOR (x : Z) : Z := Z.shiftr x 8.
Definition VER_MINOR (x : Z) : Z := Z.land x 0xff.

Record sb := mk_sb {
  base_port : Z; irq : Z; dma_chan : Z; dma16_chan : Z; sb16 : bool; buffer : Z; xfer_mode : Z }.

Definition set_base (b : Z) (st : sb) : sb := mk_sb b (irq st) (dma_chan st) (dma16_chan st) (sb16 st) (buffer st) (xfer_mode st).
Definition set_irq (i : Z) (st : sb) : sb := mk_sb (base_port st) i (dma_chan st) (dma16_chan st) (sb16 st) (buffer st) (xfer_mode st).
Definition set_dma (c c16 : Z) (st : sb) : sb := mk_sb (base_port st) (irq st) c c16 (sb16 st) (buffer st) (xfer_mode st).
Definition set_sb16 (b : bool) (st : sb) : sb := mk_sb (base_port st) (irq st) (dma_chan st) (dma16_chan st) b (buffer st) (xfer_mode st).
Definition set_buffer (a m : Z) (st : sb) : sb := mk_sb (base_port st) (irq st) (dma_chan st) (dma16_chan st) (sb16 st) a m.

Definition REG_MIXPORT (st : sb) : Z := base_port st + 0x4.
Definition REG_MIXDATA (st : sb) : Z := base_port st + 0x5.
Definition REG_RESET (st : sb) : Z := base_port st + 0x6.
Definition REG_RDATA (st : sb) : Z := base_port st + 0xa.
Definition REG_WDATA (st : sb) : Z := base_port st + 0xc.
Definition REG_WSTAT (st : sb) : Z := base_port st + 0xc.
Definition REG_RSTAT (st : sb) : Z := base_port st + 0xe.
Definition REG_INTACK (st : sb) : Z := base_port st + 0xe.

Section sb.
Context `{Device}.

(** [while(inb(REG_WSTAT) & WSTAT_BUSY);] *)
Fixpoint wait_write (fuel : nat) (st : sb) : IO unit :=
  v ← inb (REG_WSTAT st);
  if Z.land v WSTAT_BUSY =? 0 then mret tt else
  match fuel with O => lift NoFuel | S fuel => wait_write fuel st end.
Definition write_dsp (fuel : nat) (st : sb) (val : Z) : IO unit :=
  _ ← wait_write fuel st; outb val (REG_WDATA st).

(** [while((inb(REG_RSTAT) & RSTAT_RDY) == 0);] *)
Fixpoint wait_read (fuel : nat) (st : sb) : IO unit :=
  v ← inb (REG_RSTAT st);
  if negb (Z.land v RSTAT_RDY =? 0) then mret tt else
  match fuel with O => lift NoFuel | S fuel => wait_read fuel st end.
Definition read_dsp (fuel : nat) (st : sb) : IO Z := _ ← wait_read fuel st; inb (REG_RDATA st).

Definition write_mix (st : sb) (val reg : Z) : IO unit := _ ← outb reg (REG_MIXPORT st); outb val (REG_MIXDATA st).
Definition read_mix (st : sb) (reg : Z) : IO Z := _ ← outb reg (REG_MIXPORT st); inb (REG_MIXDATA st).

Definition get_dsp_version (fuel : nat) (st : sb) : IO Z :=
  _ ← write_dsp fuel st CMD_GET_VER;
  major ← read_dsp fuel st;
  minor ← read_dsp fuel st;
  mret (Z.lor (Z.shiftl major 8) minor).

(** [for(i=0; i<128; i++)] of [sb_reset_dsp]. *)
Fixpoint poll_reset (n : nat) (st : sb) : IO Z :=
  match n with
  | O => mret (-1)
  | S n =>
      v ← inb (REG_RSTAT st);
      if negb (Z.land v RSTAT_RDY =? 0) then
        d ← inb (REG_RDATA st);
        if d =? 0xaa then mret 0 else poll_reset n st
      else poll_reset n st
  end.
Definition sb_reset_dsp (st : sb) : IO Z :=
  _ ← outb 1 (REG_RESET st);
  _ ← iodelay; _ ← iodelay; _ ← iodelay;
  _ ← outb 0 (REG_RESET st);
  poll_reset 128 st.

(** The first bit of [sel] from [i] on that is set, and the entry of its number in [tab]. *)
Fixpoint first_set (n : nat) (i sel : Z) (tab : list Z) (none : Z) : Z :=
  match n with
  | O => none
  | S n => if negb (Z.land sel (Z.shiftl 1 i) =? 0) then default none (zlookup tab i) else first_set n (i + 1) sel tab none
  end.

Definition irqtab : list Z := [2; 5; 7; 10].
Definition sb16_detect_irq (st : sb) : IO (Z * sb) :=
  irqsel ← read_mix st MIX_IRQ_SEL;
  let irq := first_set 4 0 irqsel irqtab 0 in
  if irq =? 0 then
    _ ← write_mix st 2 MIX_IRQ_SEL;
    irqsel ← read_mix st MIX_IRQ_SEL;
    if negb (irqsel =? 2) then mret (-1, set_irq 0 st) else mret (5, set_irq 5 st)
  else mret (irq, set_irq irq st).

Definition dmatab : list Z := [0; 1; -1; 3; -1; 5; 6; 7].
Definition sb16_detect_dma (st : sb) : IO (Z * sb) :=
  dmasel ← read_mix st MIX_DMA_SEL;
  let c := first_set 4 0 dmasel dmatab (-1) in
  let c16 := first_set 3 5 dmasel dmatab (-1) in
  let dmasel := if c =? -1 then Z.lor dmasel 2 else dmasel in
  let dmasel := if c16 =? -1 then Z.lor dmasel 0x20 else dmasel in
  if (c =? -1) || (c16 =? -1) then
    _ ← write_mix st dmasel MIX_DMA_SEL;
    tmp ← read_mix st MIX_DMA_SEL;
    if negb (tmp =? dmasel) then mret (-1, set_dma c c16 st) else mret (1, set_dma 1 5 st)
  else mret (c, set_dma c c16 st).

(** What [sb_detect] does at a port where a DSP answered. *)
Definition sb_configure (fuel : nat) (st : sb) : IO (Z * sb) :=
  ver ← get_dsp_version fuel st;
  let st := set_sb16 (4 <=? VER_MAJOR ver) st in
  if sb16 st then
    '(r, st) ← sb16_detect_irq st;
    if r =? -1 then mret (0, st) else
    '(r, st) ← sb16_detect_dma st;
    if r =? -1 then mret (0, st) else mret (1, st)
  else mret (1, set_dma 1 (-1) (set_irq 5 st)).

(** [for(i=0; i<6; i++)], [n] ports left. *)
Fixpoint detect_loop (fuel n : nat) (i : Z) (st : sb) : IO (Z * sb) :=
  match n with
  | O => mret (0, st)
  | S n =>
      let st := set_base (0x200 + Z.shiftl (i + 1) 4) st in
      r ← sb_reset_dsp st;
      if r =? 0 then sb_configure fuel st else detect_loop fuel n (i + 1) st
  end.
Definition sb_detect (fuel : nat) (st : sb) : IO (Z * sb) := detect_loop fuel 6 0 st.

Definition sb_set_output_rate (fuel : nat) (st : sb) (rate : Z) : IO unit :=
  if sb16 st then
    _ ← write_dsp fuel st CMD_SB16_OUT_RATE;
    _ ← write_dsp fuel st (Z.shiftr rate 8);
    write_dsp fuel st (Z.land rate 0xff)
  else
    tcon ← lift (if rate =? 0 then Fault else Ok (256 - Z.quot 1000000 rate));
    _ ← write_dsp fuel st CMD_RATE;
    write_dsp fuel st tcon.

(** The buffer and its size. *)
Definition sb_buffer (st : sb) : Z * Z := (buffer st, 65536).

Definition start_dma_transfer (fuel : nat) (st : sb) (addr size : Z) : IO unit :=
  _ ← dma_out (dma_chan st) addr size DMA_SINGLE;
  _ ← write_dsp fuel st CMD_START_DMA8;
  _ ← write_dsp fuel st (xfer_mode st);
  let size := size - 1 in
  _ ← write_dsp fuel st (Z.land size 0xff);
  write_dsp fuel st (Z.land (Z.shiftr size 8) 0xff).

Definition sb_pause (fuel : nat) (st : sb) : IO unit := write_dsp fuel st CMD_PAUSE_DMA8.
Definition sb_continue (fuel : nat) (st : sb) : IO unit := write_dsp fuel st CMD_CONT_DMA8.
Definition sb_stop (fuel : nat) (st : sb) : IO unit :=
  _ ← write_dsp fuel st CMD_END_DMA8; write_dsp fuel st CMD_DISABLE_OUTPUT.
Definition sb_volume (vol : Z) : IO unit := mret tt.

Context (audio_callback : Z -> Z -> IO Z).

Definition intr_handler (fuel : nat) (st : sb) : IO unit :=
  size ← audio_callback (buffer st) 65536;
  if size =? 0 then sb_stop fuel st else
  _ ← start_dma_transfer fuel st (u32 (buffer st)) size;
  _ ← inb (REG_INTACK st); mret tt.

(** The first 64k boundary at or after [low_mem_buffer]. *)
Definition buffer_addr (low_mem_buffer : Z) : Z := Z.land (u32 (low_mem_buffer + 0xffff)) 0xffff0000.

Definition sb_start {F} (fuel : nat) (low_mem_buffer : Z) (handler : F) (ist : intr F) (st : sb) (rate nchan : Z)
  : IO (intr F * sb) :=
  let addr := buffer_addr low_mem_buffer in
  let st := set_buffer addr (if 1 <? nchan then Z.lor CMD_MODE_SIGNED CMD_MODE_STEREO else CMD_MODE_SIGNED) st in
  size ← audio_callback (buffer st) 65536;
  if size =? 0 then mret (ist, st) else
  ist ← interrupt ist (IRQ_TO_INTR (irq st)) (Some handler);
  _ ← write_dsp fuel st CMD_ENABLE_OUTPUT;
  _ ← sb_set_output_rate fuel st rate;
  _ ← start_dma_transfer fuel st addr size;
  mret (ist, st).
End sb.

(** ** audio.c *)

(** The driver table [drv]: set by [audio_init], null before. *)
Record audio := mk_audio { have_drv : bool; cbfunc : option (Z -> Z -> Z -> IO Z); cbcls : Z }.

Section audio.
Context `{Device}.

Definition audio_init (fuel : nat) (a : audio) (st : sb) : IO (audio * sb) :=
  '(r, st) ← sb_detect fuel st;
  if negb (r =? 0) then mret (mk_audio true (cbfunc a) (cbcls a), st) else mret (a, st).
Definition audio_set_callback (func : option (Z -> Z -> Z -> IO Z)) (cls : Z) (a : audio) : audio :=
  mk_audio (have_drv a) func cls.
Definition audio_callback (a : audio) (buf sz : Z) : IO Z :=
  match cbfunc a with None => mret 0 | Some f => f buf sz (cbcls a) end.

(** A call through the table: of a null pointer without a driver. *)
Definition drv {A} (a : audio) (m : IO A) : IO A := if have_drv a then m else lift Fault.
Definition audio_play {F} (fuel : nat) (low_mem_buffer : Z) (handler : F) (a : audio) (ist : intr F) (st : sb) (rate nchan : Z) :=
  drv a (sb_start (audio_callback a) fuel low_mem_buffer handler ist st rate nchan).
Definition audio_pause (fuel : nat) (a : audio) (st : sb) : IO unit := drv a (sb_pause fuel st).
Definition audio_resume (fuel : nat) (a : audio) (st : sb) : IO unit := drv a (sb_continue fuel st).
Definition audio_stop (fuel : nat) (a : audio) (st : sb) : IO unit := drv a (sb_stop fuel st).
Definition audio_volume (a : audio) (vol : Z) : IO unit := drv a (sb_volume vol).
End audio.

(** ** The DSP *)
Section dsp.
Context `{Device}.

(** The trace after one more poll of a port, and after [k]. *)
Definition poll (port : Z) (tr : list io_event) : list io_event := EIn 8 (u16 port) (wrap 8 (dev tr 8 (u16 port))) :: tr.

(** Whatever happened before, the DSP takes a byte after at most [fuel] polls. *)
Definition dsp_ready (fuel : nat) (st : sb) : Prop := forall tr, exists k, (k <= fuel)%nat /\
  Z.land (wrap 8 (dev (Nat.iter k (poll (REG_WSTAT st)) tr) 8 (u16 (REG_WSTAT st)))) WSTAT_BUSY = 0.

Lemma iter_poll_app port k tr : exists l, Nat.iter k (poll port) tr = l ++ tr /\
  Forall (fun e => exists v, e = EIn 8 (u16 port) v) l.
Proof.
  induction k as [|k IH]; [by exists []|]. destruct IH as (l & E & Hl). cbn [Nat.iter nat_rect].
  change (nat_rect _ tr _ k) with (Nat.iter k (poll port) tr). rewrite E. unfold poll at 1.
  eexists (_ :: l). split; [done|]. constructor; [by eexists|done].
Qed.
Lemma iter_poll_S port k tr : Nat.iter k (poll port) (poll port tr) = Nat.iter (S k) (poll port) tr.
Proof. symmetry. apply (Nat.iter_succ_r k). Qed.

Lemma inb_poll port tr b : inb port (mk_world tr b) = Ok (wrap 8 (dev tr 8 (u16 port)), mk_world (poll port tr) b).
Proof. done. Qed.

Lemma wait_write_ok fuel st k tr b : (k <= fuel)%nat ->
  Z.land (wrap 8 (dev (Nat.iter k (poll (REG_WSTAT st)) tr) 8 (u16 (REG_WSTAT st)))) WSTAT_BUSY = 0 ->
  exists n, wait_write fuel st (mk_world tr b) = Ok (tt, mk_world (Nat.iter n (poll (REG_WSTAT st)) tr) b).
Proof.
  revert k tr. induction fuel as [|fuel IH]; intros k tr Hk Hr; cbn [wait_write];
    rewrite (bind_ok _ _ _ _ _ (inb_poll (REG_WSTAT st) tr b)).
  - replace k with O in Hr by lia. change (Nat.iter 0 _ tr) with tr in Hr. rewrite Hr. by exists 1%nat.
  - destruct (Z.eqb_spec (Z.land (wrap 8 (dev tr 8 (u16 (REG_WSTAT st)))) WSTAT_BUSY) 0); [by exists 1%nat|].
    destruct k as [|k]; [done|]. rewrite <- iter_poll_S in Hr.
    destruct (IH k (poll (REG_WSTAT st) tr)) as [n' E]; [lia|done|]. exists (S n'). rewrite <- iter_poll_S. exact E.
Qed.

(** The same for a byte from it. *)
Definition dsp_answers (fuel : nat) (st : sb) : Prop := forall tr, exists k, (k <= fuel)%nat /\
  Z.land (wrap 8 (dev (Nat.iter k (poll (REG_RSTAT st)) tr) 8 (u16 (REG_RSTAT st)))) RSTAT_RDY <> 0.

Lemma wait_read_ok fuel st k tr b : (k <= fuel)%nat ->
  Z.land (wrap 8 (dev (Nat.iter k (poll (REG_RSTAT st)) tr) 8 (u16 (REG_RSTAT st)))) RSTAT_RDY <> 0 ->
  exists n, wait_read fuel st (mk_world tr b) = Ok (tt, mk_world (Nat.iter n (poll (REG_RSTAT st)) tr) b).
Proof.
  revert k tr. induction fuel as [|fuel IH]; intros k tr Hk Hr; cbn [wait_read];
    rewrite (bind_ok _ _ _ _ _ (inb_poll (REG_RSTAT st) tr b)).
  - replace k with O in Hr by lia. change (Nat.iter 0 _ tr) with tr in Hr. apply Z.eqb_neq in Hr. rewrite Hr. by exists 1%nat.
  - destruct (Z.eqb_spec (Z.land (wrap 8 (dev tr 8 (u16 (REG_RSTAT st)))) RSTAT_RDY) 0); [|by exists 1%nat].
    destruct k as [|k]; [done|]. rewrite <- iter_poll_S in Hr.
    destruct (IH k (poll (REG_RSTAT st) tr)) as [n' E]; [lia|done|]. exists (S n'). rewrite <- iter_poll_S. exact E.
Qed.

(** The bytes a trace sends to a port, first one first. *)
Definition sent (port : Z) (tr : list io_event) : list Z :=
  rev (omap (fun e => match e with EOut _ p v => if p =? port then Some v else None | EIn _ _ _ => None end) tr).

Lemma sent_app port a b : sent port (a ++ b) = sent port b ++ sent port a.
Proof. unfold sent. by rewrite omap_app, rev_app_distr. Qed.

Lemma sent_low port tr : Forall (fun e => port_of e < port) tr -> sent port tr = [].
Proof.
  unfold sent. induction 1 as [|e tr He _ IH]; [done|]. destruct e as [|wd p v]; [exact IH|]. cbn [omap list_omap].
  cbn [port_of] in He. destruct (Z.eqb_spec p port); [lia|exact IH].
Qed.
Lemma page_port_low c : 0 <= c < 4 -> default 0 (zlookup page_port c) < 0x100.
Proof. intros. by assert (c = 0 \/ c = 1 \/ c = 2 \/ c = 3) as [->|[->|[->| ->]]] by lia. Qed.

(** A piece of a trace that talks to the DSP only: reads of the status and
    the bytes [l]. *)
Definition talks (st : sb) (tr : list io_event) (l : list Z) : Prop :=
  sent (REG_WDATA st) tr = l /\
  Forall (fun e => (exists v, e = EIn 8 (u16 (REG_WSTAT st)) v) \/ (exists v, e = EOut 8 (REG_WDATA st) v)) tr.

Lemma talks_app st t1 t2 l1 l2 : talks st t1 l1 -> talks st t2 l2 -> talks st (t2 ++ t1) (l1 ++ l2).
Proof. intros [<- H1] [<- H2]. split; [apply sent_app|by apply Forall_app]. Qed.

Section ready.
Context (fuel : nat) (st : sb) (Hbase : 0x200 <= base_port st < 0x300) (Hready : dsp_ready fuel st).

Lemma write_dsp_talks val w : exists tr, write_dsp fuel st val w = Ok (tt, mk_world (tr ++ trace w) (intr_on w)) /\
  talks st tr [wrap 8 val].
Proof.
  destruct w as [tr0 b]. destruct (Hready tr0) as (k & Hk & Hr). destruct (wait_write_ok fuel st k tr0 b Hk Hr) as [n E].
  destruct (iter_poll_app (REG_WSTAT st) n tr0) as (l & El & Hl). unfold write_dsp, outb, output.
  rewrite (bind_ok _ _ _ _ _ E). cbn [trace intr_on]. rewrite El.
  assert (u16 (REG_WDATA st) = REG_WDATA st) as Eu by (apply u16_small; unfold REG_WDATA; lia). rewrite Eu.
  exists (EOut 8 (REG_WDATA st) (wrap 8 val) :: l). split; [done|]. split.
  - change (_ :: l) with ([EOut 8 (REG_WDATA st) (wrap 8 val)] ++ l). rewrite sent_app.
    assert (sent (REG_WDATA st) l = []) as ->.
    { clear -Hl. unfold sent. induction Hl as [|e l [v ->] _ IH]; [done|]. exact IH. }
    unfold sent. cbn. by rewrite Z.eqb_refl.
  - constructor; [right; by eexists|]. eapply Forall_impl; [exact Hl|]. by left.
Qed.

Lemma two_writes a b w : exists tr, (_ ← write_dsp fuel st a; write_dsp fuel st b) w
    = Ok (tt, mk_world (tr ++ trace w) (intr_on w)) /\ talks st tr [wrap 8 a; wrap 8 b].
Proof.
  destruct (write_dsp_talks a w) as (t1 & E1 & H1). destruct (write_dsp_talks b (mk_world (t1 ++ trace w) (intr_on w))) as (t2 & E2 & H2).
  exists (t2 ++ t1). rewrite (bind_ok _ _ _ _ _ E1), E2. cbn [trace intr_on]. rewrite app_assoc. split; [done|].
  by apply (talks_app st t1 t2 [wrap 8 a] [wrap 8 b]).
Qed.

(** Talking to the DSP leaves a DMA channel alone. *)
Lemma chan_after_talks c tr l s : 0 <= c < 4 -> talks st tr l -> chan_after c tr s = s.
Proof.
  intros Hc [_ Hf]. induction Hf as [|e tr He _ IH]; [done|]. cbn [chan_after fold_right].
  change (fold_right (chan_write c) s tr) with (chan_after c tr s). rewrite IH. destruct He as [[v ->]|[v ->]]; [done|].
  unfold chan_write. unfold REG_WDATA.
  assert (bool_decide (zlookup page_port c = Some (base_port st + 12)) = false) as ->.
  { apply bool_decide_eq_false. assert (c = 0 \/ c = 1 \/ c = 2 \/ c = 3) as [->|[->|[->| ->]]] by lia; cbn; intros [=]; lia. }
  zcases.
Qed.
Lemma talks_bytes tr l : talks st tr l -> sent (REG_WDATA st) tr = l.
Proof. by intros [? _]. Qed.

(** C37. Starting a transfer programs the DMA channel with the buffer and the
    DSP with the same number of bytes, and leaves the channel on. *)
Theorem start_transfer addr size w s :
  0 <= dma_chan st < 4 ->
  exists tr, start_dma_transfer fuel st addr size w = Ok (tt, mk_world (tr ++ trace w) (intr_on w)) /\
    chan_after (dma_chan st) tr s =
      mk_chan false (addr mod 65536) ((addr / 65536) mod 256) ((size - 1) mod 65536)
        (wrap 8 (dma_mode (dma_chan st) DMA_SINGLE MODE_READ)) false (torn s) /\
    sent (REG_WDATA st) tr = [CMD_START_DMA8; wrap 8 (xfer_mode st); (size - 1) mod 256; ((size - 1) / 256) mod 256].
Proof.
  intros Hc. unfold start_dma_transfer, dma_out.
  pose proof (dma_io_trace (dma_chan st) addr size DMA_SINGLE MODE_READ w Hc) as E0. rewrite (bind_ok _ _ _ _ _ E0).
  set (t0 := outs _) in *. set (w0 := mk_world (t0 ++ trace w) (intr_on w)) in *.
  destruct (two_writes CMD_START_DMA8 (xfer_mode st) w0) as (t1 & E1 & H1).
  destruct (two_writes (Z.land (size - 1) 0xff) (Z.land (Z.shiftr (size - 1) 8) 0xff) (mk_world (t1 ++ trace w0) (intr_on w0))) as (t2 & E2 & H2).
  pose proof (talks_app st t1 t2 _ _ H1 H2) as H12.
  exists ((t2 ++ t1) ++ t0). split; [|split].
  - transitivity ((_ ← (_ ← write_dsp fuel st CMD_START_DMA8; write_dsp fuel st (xfer_mode st));
       (_ ← write_dsp fuel st (Z.land (size - 1) 0xff); write_dsp fuel st (Z.land (Z.shiftr (size - 1) 8) 0xff))) w0).
    { unfold mbind, io_mbind. destruct (write_dsp fuel st CMD_START_DMA8 w0) as [[[] w1]| | |]; [|done..].
      by destruct (write_dsp fuel st (xfer_mode st) w1) as [[[] w2]| | |]. }
    rewrite (bind_ok _ _ _ _ _ E1), E2. cbn [trace intr_on]. unfold w0. cbn [trace intr_on]. by rewrite <- !app_assoc.
  - rewrite chan_after_app, (chan_after_talks _ _ _ _ Hc H12). apply program_chan; [done|]. apply dma_mode_chan; [done|by left].
  - rewrite sent_app, (talks_bytes _ _ H12).
    assert (sent (REG_WDATA st) t0 = []) as ->.
    { apply sent_low. pose proof (page_port_low (dma_chan st) Hc).
      unfold t0, outs. repeat constructor; cbn [port_of]; unfold REG_WDATA; lia. }
    cbn [app]. rewrite !land_255, Z.shiftr_div_pow2 by lia. change (2 ^ 8) with 256. unfold wrap. change (2 ^ 8) with 256.
    rewrite !Z.mod_mod by lia. done.
Qed.

(** When the callback has no more data the interrupt handler stops the DSP
    and returns without acknowledging the interrupt: all it does on the
    ports is to send two commands. *)
Theorem handler_no_ack callback w w1 :
  callback (buffer st) 65536 w = Ok (0, w1) ->
  exists tr, intr_handler callback fuel st w = Ok (tt, mk_world (tr ++ trace w1) (intr_on w1)) /\
    talks st tr [CMD_END_DMA8; CMD_DISABLE_OUTPUT] /\ (forall wd v, EIn wd (REG_INTACK st) v ∉ tr).
Proof.
  intros Ec. unfold intr_handler. rewrite (bind_ok _ _ _ _ _ Ec). change (0 =? 0) with true. cbv iota.
  destruct (two_writes CMD_END_DMA8 CMD_DISABLE_OUTPUT w1) as (tr & E & Ht). exists tr. split; [exact E|]. split; [exact Ht|].
  intros wd v Hin. destruct Ht as [_ Hf]. rewrite Forall_forall in Hf. destruct (Hf _ Hin) as [[v' [= _ Ee _]]|[v' [=]]].
  revert Ee. unfold REG_INTACK, REG_WSTAT. rewrite u16_small by lia. lia.
Qed.
End ready.
End dsp.

(** ** Detection *)

(** What the other functions rely on once a card was found. *)
Record sb_ok (st : sb) : Prop := {
  ok_base : exists i, 1 <= i <= 6 /\ base_port st = 0x200 + 16 * i;
  ok_irq : irq st ∈ irqtab;
  ok_dma : dma_chan st = 0 \/ dma_chan st = 1 \/ dma_chan st = 3;
  ok_dma16 : sb16 st = true -> 5 <= dma16_chan st <= 7 }.

Lemma first_set_spec n i sel tab none : first_set n i sel tab none = none \/
  exists j, i <= j < i + Z.of_nat n /\ zlookup tab j = Some (first_set n i sel tab none).
Proof.
  revert i. induction n as [|n IH]; intros i; cbn [first_set]; [by left|].
  destruct (negb _).
  - destruct (zlookup tab i) as [x|] eqn:E; [|by left]. right. exists i. split; [lia|done].
  - destruct (IH (i + 1)) as [?|(j & Hj & E)]; [by left|]. right. exists j. split; [lia|done].
Qed.

Section detect.
Context `{Device}.

Lemma detect_irq_ok st w r st' w' : sb16_detect_irq st w = Ok ((r, st'), w') ->
  base_port st' = base_port st /\ sb16 st' = sb16 st /\ (r <> -1 -> irq st' ∈ irqtab).
Proof.
  unfold sb16_detect_irq. intros (sel & w1 & _ & E)%bind_inv.
  pose proof (first_set_spec 4 0 sel irqtab 0) as Hs. set (i := first_set 4 0 sel irqtab 0) in *.
  destruct (Z.eqb_spec i 0) as [Ei|Ei].
  - apply bind_inv in E as (? & w2 & _ & E). apply bind_inv in E as (sel2 & w3 & _ & E).
    destruct (negb (sel2 =? 2)); apply io_mret_inv in E as [[= -> ->] _]; (split; [done|split; [done|]]); [done|]. intros _. cbn. set_solver.
  - apply io_mret_inv in E as [[= -> ->] _]. split; [done|]. split; [done|]. intros _. cbn [irq set_irq].
    destruct Hs as [?|(j & Hj & Hl)]; [done|]. unfold zlookup in Hl. destruct (j <? 0); [done|]. by apply list_elem_of_lookup_2 in Hl.
Qed.

Lemma detect_dma_ok st w r st' w' : sb16_detect_dma st w = Ok ((r, st'), w') ->
  base_port st' = base_port st /\ sb16 st' = sb16 st /\ irq st' = irq st /\
  (r <> -1 -> (dma_chan st' = 0 \/ dma_chan st' = 1 \/ dma_chan st' = 3) /\ 5 <= dma16_chan st' <= 7).
Proof.
  unfold sb16_detect_dma. intros (sel & w1 & _ & E)%bind_inv. cbv zeta in E.
  pose proof (first_set_spec 4 0 sel dmatab (-1)) as H1. pose proof (first_set_spec 3 5 sel dmatab (-1)) as H2.
  set (c := first_set 4 0 sel dmatab (-1)) in *. set (c16 := first_set 3 5 sel dmatab (-1)) in *. clearbody c c16.
  destruct (Z.eqb_spec c (-1)) as [Ec|Ec], (Z.eqb_spec c16 (-1)) as [E16|E16]; cbn [orb] in E.
  4:{ apply io_mret_inv in E as [[= -> ->] _]. do 3 (split; [done|]). intros _. cbn [dma_chan dma16_chan set_dma].
      destruct H1 as [?|(j & Hj & Hl)]; [done|]. destruct H2 as [?|(j2 & Hj2 & Hl2)]; [done|].
      assert (j = 0 \/ j = 1 \/ j = 2 \/ j = 3) as Hjs by lia. assert (j2 = 5 \/ j2 = 6 \/ j2 = 7) as Hjs2 by lia.
      split; [destruct Hjs as [->|[->|[->| ->]]]; cbn in Hl; injection Hl as Hl; lia|].
      destruct Hjs2 as [->|[->| ->]]; cbn in Hl2; injection Hl2 as Hl2; lia. }
  all: apply bind_inv in E as (? & w2 & _ & E); apply bind_inv in E as (tmp & w3 & _ & E);
    match type of E with (if ?b then _ else _) _ = _ => destruct b end; apply io_mret_inv in E as [[= -> ->] _];
    (do 3 (split; [done|])); [done|]; intros _; cbn; lia.
Qed.

Lemma configure_ok fuel st w r st' w' : sb_configure fuel st w = Ok ((r, st'), w') -> r <> 0 ->
  (exists i, 1 <= i <= 6 /\ base_port st = 0x200 + 16 * i) -> sb_ok st'.
Proof.
  unfold sb_configure. intros (ver & w1 & _ & E)%bind_inv Hr Hb. cbv zeta in E.
  set (st1 := set_sb16 _ st) in *. destruct (sb16 st1) eqn:E16.
  - apply bind_inv in E as ([r1 st2] & w2 & E1 & E). apply detect_irq_ok in E1 as (Hb1 & Hs1 & Hi).
    destruct (Z.eqb_spec r1 (-1)); [by apply io_mret_inv in E as [[= ? _] _]|].
    apply bind_inv in E as ([r2 st3] & w3 & E2 & E). apply detect_dma_ok in E2 as (Hb2 & Hs2 & Hi2 & Hd).
    destruct (Z.eqb_spec r2 (-1)); [by apply io_mret_inv in E as [[= ? _] _]|]. apply io_mret_inv in E as [[= _ ->] _].
    destruct Hd as [Hd Hd16]; [done|]. split; [by rewrite Hb2, Hb1|by rewrite Hi2; apply Hi|done|done].
  - apply io_mret_inv in E as [[= _ ->] _]. split; [done|cbn; set_solver|cbn; lia|]. cbn [sb16 set_dma set_irq]. by rewrite E16.
Qed.

#[local] Opaque sb_reset_dsp sb_configure.

Lemma detect_loop_ok fuel r st' w' n i st w : 0 <= i -> i + Z.of_nat n <= 6 ->
  detect_loop fuel n i st w = Ok ((r, st'), w') -> r <> 0 -> sb_ok st'.
Proof.
  revert i st w. induction n as [|n IH]; intros i st w Hi Hn E Hr; cbn [detect_loop] in E.
  - by apply io_mret_inv in E as [[= ? _] _].
  - apply bind_inv in E as (v & w1 & _ & E). destruct (v =? 0).
    + eapply configure_ok; [exact E|exact Hr|]. exists (i + 1). cbn [base_port set_base].
      rewrite Z.shiftl_mul_pow2 by lia. change (2 ^ 4) with 16. lia.
    + apply (IH (i + 1) _ _ ltac:(lia) ltac:(lia) E Hr).
Qed.

(** When [sb_detect] reports a card the driver's variables are what the
    other functions need: one of the six base ports, an interrupt of the table,
    an 8-bit DMA channel of the first controller and, on a Sound Blaster 16, a
    16-bit channel of the second. *)
Theorem sb_detect_ok fuel st w r st' w' : sb_detect fuel st w = Ok ((r, st'), w') -> r <> 0 -> sb_ok st'.
Proof. apply detect_loop_ok; lia. Qed.

(** The mixer: the register the last write to its address port selected, and
    what the register of the DMA channels holds, [sel] at first. *)
Fixpoint mix_index (st : sb) (tr : list io_event) : Z :=
  match tr with
  | [] => 0
  | EOut _ p v :: tr => if p =? REG_MIXPORT st then v else mix_index st tr
  | EIn _ _ _ :: tr => mix_index st tr
  end.
Fixpoint mix_dma (st : sb) (sel : Z) (tr : list io_event) : Z :=
  match tr with
  | [] => sel
  | EOut _ p v :: tr => if (p =? REG_MIXDATA st) && (mix_index st tr =? MIX_DMA_SEL) then v else mix_dma st sel tr
  | EIn _ _ _ :: tr => mix_dma st sel tr
  end.
Definition mixer_holds (st : sb) (sel : Z) : Prop := forall tr,
  mix_index st tr = MIX_DMA_SEL -> dev tr 8 (REG_MIXDATA st) = mix_dma st sel tr.

Section mixer.
Context (st : sb) (sel0 : Z) (Hb : 0x200 <= base_port st < 0x300) (Hm : mixer_holds st sel0).

Lemma mix_ports : u16 (REG_MIXDATA st) = REG_MIXDATA st /\ u16 (REG_MIXPORT st) = REG_MIXPORT st /\
  (REG_MIXPORT st =? REG_MIXDATA st) = false /\ (REG_MIXDATA st =? REG_MIXPORT st) = false.
Proof. unfold REG_MIXPORT, REG_MIXDATA. rewrite !u16_small by lia. repeat split; lia. Qed.

Lemma read_mix_dma w : 0 <= mix_dma st sel0 (trace w) < 256 -> exists w',
  read_mix st MIX_DMA_SEL w = Ok (mix_dma st sel0 (trace w), w') /\ mix_dma st sel0 (trace w') = mix_dma st sel0 (trace w).
Proof.
  intros Hr. destruct mix_ports as (E1 & E2 & E3 & E4). unfold read_mix. io. rewrite E1, E2. rewrite (Hm _).
  - unfold wrap. rewrite Z.mod_small; [|cbn [mix_dma trace]; rewrite E3; cbn [andb]; exact Hr].
    cbn [mix_dma trace]. rewrite E3. cbn [andb]. eexists. split; [done|]. cbn [mix_dma trace]. rewrite E3. done.
  - cbn [mix_index trace]. by rewrite Z.eqb_refl.
Qed.
Lemma write_mix_dma v w : 0 <= v < 256 -> exists w',
  write_mix st v MIX_DMA_SEL w = Ok (tt, w') /\ mix_dma st sel0 (trace w') = v.
Proof.
  intros Hv. destruct mix_ports as (E1 & E2 & E3 & E4). unfold write_mix. io. rewrite E1, E2. eexists. split; [done|].
  cbn [mix_dma mix_index trace]. rewrite !Z.eqb_refl. cbn [andb]. apply Z.mod_small. exact Hv.
Qed.
End mixer.

(** A mixer set to the 8-bit channel 0 and to no 16-bit channel ends up set
    to channels 0 and 5, but the driver takes it to be on channel 1. *)
Theorem dma_channel_lost st w sel0 sel :
  0x200 <= base_port st < 0x300 -> mixer_holds st sel0 ->
  mix_dma st sel0 (trace w) = sel -> 0 <= sel < 32 -> Z.testbit sel 0 = true ->
  exists w', sb16_detect_dma st w = Ok ((1, set_dma 1 5 st), w') /\
    mix_dma st sel0 (trace w') = Z.lor sel 0x20.
Proof.
  intros Hb Hm E0 Hs H0. unfold sb16_detect_dma.
  destruct (read_mix_dma st sel0 Hb Hm w) as (w1 & R1 & M1); [lia|]. rewrite (bind_ok _ _ _ _ _ R1), E0.
  assert (first_set 4 0 sel dmatab (-1) = 0) as ->.
  { cbn [first_set]. rewrite (land_pow2_testbit sel 0), H0 by lia. done. }
  assert (first_set 3 5 sel dmatab (-1) = -1) as ->.
  { cbn [first_set]. rewrite !land_pow2_testbit by lia. rewrite !negb_involutive.
    assert (forall k, 5 <= k -> Z.testbit sel k = false) as Hhi.
    { intros k Hk. rewrite Z.testbit_false by lia. rewrite Z.div_small; [done|]. split; [lia|].
      apply Z.lt_le_trans with (2 ^ 5); [lia|]. apply Z.pow_le_mono_r; lia. }
    by rewrite !Hhi by lia. }
  assert (0 <= Z.lor sel 0x20 < 256) as Hr.
  { split; [apply Z.lor_nonneg; lia|]. pose proof (byte_cases (fun s => negb (s <? 32) || (Z.lor s 32 <? 256)) eq_refl sel ltac:(lia)) as Hc.
    cbv beta in Hc. destruct (Z.ltb_spec sel 32); [|lia]. cbn [negb orb] in Hc. by apply Z.ltb_lt in Hc. }
  change (0 =? -1) with false. change (-1 =? -1) with true. cbn [orb]. cbv iota zeta.
  destruct (write_mix_dma st sel0 Hb (Z.lor sel 0x20) w1 Hr) as (w2 & R2 & M2). rewrite (bind_ok _ _ _ _ _ R2).
  destruct (read_mix_dma st sel0 Hb Hm w2) as (w3 & R3 & M3); [lia|]. rewrite (bind_ok _ _ _ _ _ R3), M2, Z.eqb_refl.
  cbn [negb]. exists w3. split; [done|lia].
Qed.
End detect.

(** ** Witnesses *)

Definition demo_sb : sb := mk_sb 0x220 5 1 5 true 0x20000 CMD_MODE_SIGNED.

(** A DSP that never is busy. *)
Lemma idle_ready fuel st : @dsp_ready (fun _ _ _ => 0) fuel st.
Proof. intros tr. exists 0%nat. split; [lia|done]. Qed.

Lemma start_transfer_witness : 0 <= dma_chan demo_sb < 4 /\
  exists tr, @start_dma_transfer (fun _ _ _ => 0) 0 demo_sb 0x20000 4096 (mk_world [] true) = Ok (tt, mk_world (tr ++ []) true) /\
    sent (REG_WDATA demo_sb) tr = [0xc0; 0x10; 255; 15].
Proof.
  split; [cbn; lia|].
  destruct (@start_transfer (fun _ _ _ => 0) 0 demo_sb ltac:(cbn; lia) (idle_ready 0 demo_sb) 0x20000 4096 (mk_world [] true)
    (mk_chan true 0 0 0 0 false false) ltac:(cbn; lia)) as (tr & E & _ & Es).
  exists tr. split; [exact E|]. rewrite Es. by vm_compute.
Defined.

(** A callback that has nothing to play. *)
Definition silent (buf sz : Z) : IO Z := fun w => Ok (0, w).

Lemma handler_no_ack_witness : silent (buffer demo_sb) 65536 (mk_world [] true) = Ok (0, mk_world [] true) /\
  exists tr, @intr_handler (fun _ _ _ => 0) silent 0 demo_sb (mk_world [] true) = Ok (tt, mk_world (tr ++ []) true) /\
    talks demo_sb tr [0xda; 0xd3].
Proof.
  split; [done|].
  destruct (@handler_no_ack (fun _ _ _ => 0) 0 demo_sb ltac:(cbn; lia) (idle_ready 0 demo_sb) silent
    (mk_world [] true) (mk_world [] true) eq_refl) as (tr & E & Ht & _). exists tr. by split.
Defined.

(** A card at 0x220, an old one: DSP 2.01. *)
Definition old_card : Device := fun tr _ port =>
  if port =? 0x22e then 0x80 else
  if port =? 0x22a then
    match filter (fun e => port_of e = 0x22a) tr with [] => 0xaa | [_] => 2 | _ => 1 end
  else 0.

Lemma sb_detect_ok_witness : exists r st' w',
  @sb_detect old_card 0 demo_sb (mk_world [] true) = Ok ((r, st'), w') /\ r <> 0 /\ sb_ok st'.
Proof.
  assert (exists r st' w', @sb_detect old_card 0 demo_sb (mk_world [] true) = Ok ((r, st'), w') /\ r <> 0) as (r & st' & w' & E & Hr).
  { vm_compute. eexists _, _, _. split; [done|lia]. }
  exists r, st', w'. split; [exact E|]. split; [exact Hr|]. exact (@sb_detect_ok old_card 0 demo_sb _ r st' w' E Hr).
Defined.

(** A mixer that starts with channel 0. *)
Definition mixer_dev : Device := fun tr _ port => if port =? REG_MIXDATA demo_sb then mix_dma demo_sb 1 tr else 0.

Lemma dma_channel_lost_witness : exists w',
  @sb16_detect_dma mixer_dev demo_sb (mk_world [] true) = Ok ((1, set_dma 1 5 demo_sb), w') /\
  mix_dma demo_sb 1 (trace w') = 0x21.
Proof.
  exact (@dma_channel_lost mixer_dev demo_sb (mk_world [] true) 1 1 ltac:(cbn; lia)
    (fun tr _ => eq_refl) eq_refl ltac:(lia) eq_refl).
Defined.
