(* ===== verification/Rand.v ===== *)
(** * Pseudo-random numbers (src/libc/rand.c)

    [rng] keeps the 34 words of the array with the two pointers into it as
    indices. Signed additions and products wrap around, as the compiler's
    code does. The specification is the sequence the words form ([window],
    oldest word first): a lagged Fibonacci sequence, for which the order of
    the words in the array and the pointers do not matter. *)
From S2P Require Import Prelude.

Definition RAND_MAX : Z := 2147483647.

Record rng := mk_rng { init_done : bool; words : list Z; ptr0 : Z; ptr1 : Z }.

(** The static variables before the first call. *)
Definition rng0 : rng := mk_rng false (replicate 34 0) 0 0.

(** [rand] once the generator was seeded. *)
Definition rand_step (r : rng) : res (Z * rng) :=
  a ← of_option (zlookup (words r) (ptr1 r));
  b ← of_option (zlookup (words r) (ptr0 r));
  l ← of_option (zinsert (words r) (ptr1 r) (s32 (a + b)));
  v ← of_option (zlookup l (ptr1 r));
  let res := Z.shiftr (u32 v) 1 in
  let p0 := if 34 <=? ptr0 r + 1 then 0 else ptr0 r + 1 in
  let p1 := if 34 <=? ptr1 r + 1 then 0 else ptr1 r + 1 in
  Ok (res, mk_rng (init_done r) l p0 p1).

(** [for(i=1; i<31; i++)], [n] times from [i]. *)
Fixpoint seed_loop (n : nat) (i : Z) (l : list Z) : res (list Z) :=
  match n with
  | O => Ok l
  | S n =>
      p ← of_option (zlookup l (i - 1));
      let v := Z.rem (s32 (16807 * p)) RAND_MAX in
      let v := if v <? 0 then v + RAND_MAX else v in
      l ← of_option (zinsert l i v);
      seed_loop n (i + 1) l
  end.

(** [for(i=31; i<34; i++)] *)
Fixpoint copy_loop (n : nat) (i : Z) (l : list Z) : res (list Z) :=
  match n with
  | O => Ok l
  | S n =>
      p ← of_option (zlookup l (i - 31));
      l ← of_option (zinsert l i p);
      copy_loop n (i + 1) l
  end.

(** [for(i=34; i<344; i++)]: the calls of [rand], seeded by now. *)
Fixpoint discard (n : nat) (r : rng) : res rng :=
  match n with O => Ok r | S n => '(_, r) ← rand_step r; discard n r end.

Definition srand (seed : Z) (r : rng) : res rng :=
  let seed := if u32 seed =? 0 then 1 else u32 seed in
  l ← of_option (zinsert (words r) 0 (s32 seed));
  l ← seed_loop 30 1 l;
  l ← copy_loop 3 31 l;
  discard 310 (mk_rng true l 3 31).

Definition rand (r : rng) : res (Z * rng) :=
  if init_done r then rand_step r else (r ← srand 1 r; rand_step r).

(** [n] numbers. *)
Fixpoint rands (n : nat) (r : rng) : res (list Z * rng) :=
  match n with
  | O => Ok ([], r)
  | S n => '(x, r) ← rand r; '(l, r) ← rands n r; Ok (x :: l, r)
  end.

(** ** The sequence of the words *)

Record rng_ok (r : rng) : Prop := {
  ok_init : init_done r = true;
  ok_len : length (words r) = 34%nat;
  ok_words : Forall (fun w => -2147483648 <= w < 2147483648) (words r);
  ok_ptr1 : 0 <= ptr1 r < 34;
  ok_ptr0 : ptr0 r = (ptr1 r + 6) mod 34 }.

(** The words in the order they were made. *)
Definition window (r : rng) : list Z := drop (Z.to_nat (ptr1 r)) (words r) ++ take (Z.to_nat (ptr1 r)) (words r).

(** The next word: the sum of those 34 and 28 before it. *)
Definition next_word (w : list Z) : Z := s32 (default 0 (w !! 0%nat) + default 0 (w !! 6%nat)).
Definition shift (w : list Z) : list Z := tail w ++ [next_word w].

Lemma length_window r : length (window r) = length (words r).
Proof. unfold window. rewrite length_app, length_drop, length_take. lia. Qed.

Lemma window_lookup r k : length (words r) = 34%nat -> 0 <= ptr1 r < 34 -> 0 <= k < 34 ->
  window r !! Z.to_nat k = zlookup (words r) ((ptr1 r + k) mod 34).
Proof.
  intros Hl Hp Hk. unfold window, zlookup. destruct (Z.ltb_spec ((ptr1 r + k) mod 34) 0); [mlia|].
  destruct (Z.lt_ge_cases (ptr1 r + k) 34).
  - rewrite lookup_app_l by (rewrite length_drop; lia). rewrite lookup_drop. f_equal. mlia.
  - rewrite lookup_app_r by (rewrite length_drop; lia). rewrite length_drop, Hl.
    rewrite lookup_take_lt by lia. f_equal. mlia.
Qed.

(** The window of an array whose word [p] was replaced, seen from the next one. *)
Lemma window_replace (l : list Z) (p : nat) v : length l = 34%nat -> (p < 34)%nat ->
  let q := if (34 <=? S p)%nat then O else S p in
  drop q (<[p := v]> l) ++ take q (<[p := v]> l) = tail (drop p l ++ take p l) ++ [v].
Proof.
  intros Hl Hp q. destruct (lookup_lt_is_Some_2 l p ltac:(lia)) as [x Hx].
  assert (l = take p l ++ x :: drop (S p) l) as El by (symmetry; by apply take_drop_middle).
  assert (length (take p l) = p) as Ht by (rewrite length_take; lia).
  assert (drop p l = x :: drop (S p) l) as -> by by apply drop_S. cbn [tail app].
  assert (<[p := v]> l = take p l ++ v :: drop (S p) l) as ->.
  { rewrite El at 1. rewrite insert_app_r_alt by lia. rewrite Ht. by replace (p - p)%nat with 0%nat by lia. }
  unfold q. destruct (Nat.leb_spec 34 (S p)).
  - rewrite drop_0, take_0, app_nil_r. rewrite (drop_ge l (S p)) by lia. done.
  - rewrite drop_app_ge by lia. rewrite take_app_ge by lia. rewrite Ht. replace (S p - p)%nat with 1%nat by lia.
    cbn [drop take]. by rewrite <- app_assoc.
Qed.

Lemma rand_step_ok r : rng_ok r -> exists r', rand_step r = Ok (Z.shiftr (u32 (next_word (window r))) 1, r') /\
  rng_ok r' /\ window r' = shift (window r).
Proof.
  intros [Hi Hl Hw Hp Hp0]. unfold rand_step.
  destruct (zlookup_is_Some (words r) (ptr1 r) ltac:(lia)) as [a Ha].
  destruct (zlookup_is_Some (words r) (ptr0 r) ltac:(rewrite Hl, Hp0; mlia)) as [b Hb].
  assert (next_word (window r) = s32 (a + b)) as En.
  { unfold next_word. rewrite (window_lookup r 0 Hl Hp ltac:(lia) : window r !! 0%nat = _), (window_lookup r 6 Hl Hp ltac:(lia) : window r !! 6%nat = _).
    rewrite Z.add_0_r, (Z.mod_small (ptr1 r)), <- Hp0, Ha, Hb by lia. done. }
  rewrite Ha, Hb. cbn [mbind res_mbind res_bind of_option].
  unfold zinsert. destruct (Z.ltb_spec (ptr1 r) 0); [lia|]. destruct (Z.leb_spec (Z.of_nat (length (words r))) (ptr1 r)); [lia|].
  cbn [orb of_option res_bind mbind res_mbind]. unfold zlookup. destruct (Z.ltb_spec (ptr1 r) 0); [lia|].
  rewrite list_lookup_insert_eq by lia. cbn [orb of_option res_bind mbind res_mbind]. rewrite En. eexists. split; [done|]. split.
  - split; cbn [init_done words ptr0 ptr1]; [done|by rewrite length_insert|..].
    + apply Forall_insert; [done|]. apply s32_range.
    + zcases.
    + rewrite Hp0. destruct (Z.leb_spec 34 (ptr1 r + 1)).
      * replace (ptr1 r) with 33 by lia. done.
      * destruct (Z.leb_spec 34 ((ptr1 r + 6) mod 34 + 1)); mlia.
  - unfold shift, window. rewrite <- En. cbn [ptr1 words].
    pose proof (window_replace (words r) (Z.to_nat (ptr1 r)) (next_word (window r)) Hl ltac:(lia)) as E. cbv zeta in E.
    unfold window in E at 3. rewrite <- E. destruct (Z.leb_spec 34 (ptr1 r + 1)), (Nat.leb_spec 34 (S (Z.to_nat (ptr1 r)))); try lia.
    + done.
    + by replace (Z.to_nat (ptr1 r + 1)) with (S (Z.to_nat (ptr1 r))) by lia.
Qed.

Lemma discard_ok n r : rng_ok r -> exists r', discard n r = Ok r' /\ rng_ok r' /\ window r' = Nat.iter n shift (window r).
Proof.
  revert r. induction n as [|n IH]; intros r Hr; [by exists r|]. cbn [discard].
  destruct (rand_step_ok r Hr) as (r1 & E & Hr1 & Ew). rewrite E. cbn [mbind res_mbind res_bind].
  destruct (IH r1 Hr1) as (r2 & E2 & Hr2 & Ew2). exists r2. split; [done|]. split; [done|].
  by rewrite Ew2, Ew, Nat.iter_succ_r.
Qed.

(** ** Seeding *)

(** The step of the seeding: a product of 32 bits, its signed remainder made
    positive. *)
Definition seed_step (p : Z) : Z :=
  let v := Z.rem (s32 (16807 * p)) RAND_MAX in if v <? 0 then v + RAND_MAX else v.
Fixpoint seeds (n : nat) (p : Z) : list Z := match n with O => [] | S n => p :: seeds n (seed_step p) end.

(** The window [srand] starts from: the first three of the 31 seeded words
    and these. *)
Definition init_window (seed : Z) : list Z :=
  let l := seeds 31 (s32 (if u32 seed =? 0 then 1 else u32 seed)) in take 3 l ++ l.

Lemma seed_step_range p : 0 <= seed_step p < RAND_MAX.
Proof.
  unfold seed_step. pose proof (Z.rem_bound_abs (s32 (16807 * p)) RAND_MAX ltac:(done)) as Hb. revert Hb.
  generalize (Z.rem (s32 (16807 * p)) RAND_MAX). unfold RAND_MAX. intros v Hb. destruct (Z.ltb_spec v 0); lia.
Qed.
Lemma length_seeds n p : length (seeds n p) = n.
Proof. revert p. induction n; intros; cbn; auto. Qed.
Lemma seeds_range n p : -2147483648 <= p < 2147483648 -> Forall (fun w => -2147483648 <= w < 2147483648) (seeds n p).
Proof.
  revert p. induction n as [|n IH]; intros p Hp; cbn [seeds]; constructor; [done|]. apply IH.
  pose proof (seed_step_range p). unfold RAND_MAX in *. lia.
Qed.

(** An array whose first elements are known. *)
Lemma zinsert_app (a : list Z) x t v : zinsert (a ++ x :: t) (Z.of_nat (length a)) v = Some (a ++ v :: t).
Proof.
  unfold zinsert. destruct (Z.ltb_spec (Z.of_nat (length a)) 0); [lia|].
  destruct (Z.leb_spec (Z.of_nat (length (a ++ x :: t))) (Z.of_nat (length a))); [rewrite length_app in *; cbn [length] in *; lia|].
  cbn [orb]. rewrite Nat2Z.id, insert_app_r_alt by lia. by replace (length a - length a)%nat with 0%nat by lia.
Qed.
Lemma zlookup_app_here (a : list Z) x t : zlookup (a ++ x :: t) (Z.of_nat (length a)) = Some x.
Proof. rewrite zlookup_nat, lookup_app_r by lia. by replace (length a - length a)%nat with 0%nat by lia. Qed.

Lemma seed_loop_ok n a p t : (n <= length t)%nat ->
  seed_loop n (Z.of_nat (length a) + 1) (a ++ p :: t) = Ok (a ++ seeds (S n) p ++ drop n t).
Proof.
  revert a p t. induction n as [|n IH]; intros a p t Hn; cbn [seed_loop]; [done|].
  destruct t as [|x t]; [cbn in Hn; lia|].
  replace (Z.of_nat (length a) + 1 - 1) with (Z.of_nat (length a)) by lia. rewrite zlookup_app_here.
  cbn [of_option mbind res_mbind res_bind]. fold (seed_step p).
  replace (a ++ p :: x :: t) with ((a ++ [p]) ++ x :: t) by by rewrite <- app_assoc.
  assert (Z.of_nat (length a) + 1 = Z.of_nat (length (a ++ [p]))) as El by (rewrite length_app; cbn; lia).
  rewrite El, zinsert_app. cbn [of_option mbind res_mbind res_bind]. rewrite IH by (cbn in Hn; lia).
  rewrite <- app_assoc. done.
Qed.

Lemma copy_loop_ok n a b c t : length (a ++ b) = 31%nat -> length c = length a -> (n <= length b)%nat -> (n <= length t)%nat ->
  copy_loop n (Z.of_nat (length a) + 31) (a ++ b ++ c ++ t) = Ok (a ++ b ++ c ++ take n b ++ drop n t).
Proof.
  revert a b c t. induction n as [|n IH]; intros a b c t Hab Hc Hn Ht; cbn [copy_loop]; [done|].
  destruct b as [|y b]; [cbn in Hn; lia|]. destruct t as [|x t]; [cbn in Ht; lia|]. rewrite length_app in Hab. cbn [length] in *.
  replace (Z.of_nat (length a) + 31 - 31) with (Z.of_nat (length a)) by lia. cbn [app]. rewrite zlookup_app_here.
  cbn [of_option mbind res_mbind res_bind].
  replace (a ++ y :: b ++ c ++ x :: t) with ((a ++ y :: b ++ c) ++ x :: t) by (rewrite <- app_assoc; cbn; by rewrite <- app_assoc).
  assert (Z.of_nat (length a) + 31 = Z.of_nat (length (a ++ y :: b ++ c))) as El.
  { rewrite length_app. cbn [length]. rewrite length_app. lia. }
  rewrite El, zinsert_app, <- El. cbn [of_option mbind res_mbind res_bind].
  replace (Z.of_nat (length a) + 31 + 1) with (Z.of_nat (length (a ++ [y])) + 31) by (rewrite length_app; cbn; lia).
  replace ((a ++ y :: b ++ c) ++ y :: t) with ((a ++ [y]) ++ b ++ (c ++ [y]) ++ t) by (repeat (rewrite <- !app_assoc; cbn [app]); done).
  rewrite IH; [|rewrite !length_app; cbn [length]; lia|rewrite !length_app; cbn [length]; lia|lia..].
  f_equal. repeat (rewrite <- !app_assoc; cbn [app take drop]). done.
Qed.

Lemma srand_ok seed r : length (words r) = 34%nat ->
  exists r', srand seed r = Ok r' /\ rng_ok r' /\ window r' = Nat.iter 310 shift (init_window seed).
Proof.
  intros Hl. unfold srand, init_window. set (s := s32 (if u32 seed =? 0 then 1 else u32 seed)).
  destruct (words r) as [|x t] eqn:Ew; [done|]. cbn [length] in Hl. change (zinsert (x :: t) 0 s) with (zinsert ([] ++ x :: t) (Z.of_nat (length (@nil Z))) s).
  rewrite zinsert_app. cbn [of_option mbind res_mbind res_bind app].
  pose proof (seed_loop_ok 30 [] s t ltac:(lia)) as E1. cbn [app length] in E1. change (Z.of_nat 0 + 1) with 1 in E1. rewrite E1.
  cbn [mbind res_mbind res_bind]. pose proof (length_seeds 31 s) as Hs.
  pose proof (copy_loop_ok 3 [] (seeds 31 s) [] (drop 30 t) Hs eq_refl ltac:(lia) ltac:(rewrite length_drop; lia)) as E2.
  cbn [app length] in E2. change (Z.of_nat 0 + 31) with 31 in E2. rewrite E2. cbn [mbind res_mbind res_bind].
  rewrite drop_drop, (drop_ge t) by lia. rewrite app_nil_r.
  set (l := seeds 31 s ++ take 3 (seeds 31 s)). set (r1 := mk_rng true l 3 31).
  assert (rng_ok r1) as Hr1.
  { split; [done|..|cbn; lia|done]; cbn [words r1].
    - unfold l. rewrite length_app, length_take, Hs. done.
    - pose proof (seeds_range 31 s (s32_range _)). unfold l. apply Forall_app. split; [done|by apply Forall_take]. }
  destruct (discard_ok 310 r1 Hr1) as (r' & E & Hr' & Hw). exists r'. split; [exact E|]. split; [done|]. rewrite Hw. f_equal.
Qed.

(** The numbers a window yields. *)
Fixpoint outputs (n : nat) (w : list Z) : list Z :=
  match n with O => [] | S n => Z.shiftr (u32 (next_word w)) 1 :: outputs n (shift w) end.

Lemma rands_ok n r : rng_ok r -> exists r', rands n r = Ok (outputs n (window r), r').
Proof.
  revert r. induction n as [|n IH]; intros r Hr; cbn [rands outputs]; [by eexists|].
  unfold rand. rewrite (ok_init _ Hr). destruct (rand_step_ok r Hr) as (r1 & E & Hr1 & Ew). rewrite E. cbn [mbind res_mbind res_bind].
  destruct (IH r1 Hr1) as (r2 & E2). rewrite E2, Ew. by eexists.
Qed.

Lemma rands_unseeded n r r1 : init_done r = false -> srand 1 r = Ok r1 -> init_done r1 = true ->
  rands (S n) r = rands (S n) r1.
Proof. intros Hi E Hi1. cbn [rands]. unfold rand at 1. rewrite Hi, E. cbn [mbind res_mbind res_bind]. unfold rand at 1. by rewrite Hi1. Qed.

(** ** Properties *)

(** After [srand] with any seed the generator yields a lagged Fibonacci
    sequence: each word is the sum, modulo 2^32, of the words 34 and 28 places
    before it, from a start that depends on the seed only. Without [srand] the
    sequence is that of seed 1. *)
Theorem rand_sequence seed r n :
  length (words r) = 34%nat ->
  (exists r1 r2, srand seed r = Ok r1 /\ rands n r1 = Ok (outputs n (Nat.iter 310 shift (init_window seed)), r2)) /\
  (init_done r = false -> exists r2, rands n r = Ok (outputs n (Nat.iter 310 shift (init_window 1)), if n is O then r else r2)).
Proof.
  intros Hl. split.
  - destruct (srand_ok seed r Hl) as (r1 & E & Hr1 & Hw). destruct (rands_ok n r1 Hr1) as [r2 E2]. rewrite Hw in E2. by exists r1, r2.
  - intros Hi. destruct (srand_ok 1 r Hl) as (r1 & E & Hr1 & Hw). destruct (rands_ok n r1 Hr1) as [r2 E2]. rewrite Hw in E2.
    exists r2. destruct n as [|n]; [done|]. rewrite (rands_unseeded n r r1 Hi E (ok_init _ Hr1)). exact E2.
Qed.

(** C39. A number is between 0 and [RAND_MAX], and [rand] never leaves the array. *)
Theorem rand_bounds r :
  r = rng0 \/ rng_ok r -> exists x r', rand r = Ok (x, r') /\ 0 <= x <= RAND_MAX /\ rng_ok r'.
Proof.
  assert (forall w, 0 <= Z.shiftr (u32 w) 1 <= RAND_MAX) as Hr.
  { intros w. rewrite Z.shiftr_div_pow2 by lia. pose proof (u32_range w). unfold RAND_MAX. change (2 ^ 1) with 2. mlia. }
  assert (forall w r', rng_ok r' -> exists x r'', Ok (Z.shiftr (u32 w) 1, r') = Ok (x, r'') /\ 0 <= x <= RAND_MAX /\ rng_ok r'') as yields.
  { intros w r' Hr'. exists (Z.shiftr (u32 w) 1), r'. split; [reflexivity|]. split; [apply Hr|exact Hr']. }
  intros [-> |Hok]; unfold rand.
  - cbn [init_done rng0]. destruct (srand_ok 1 rng0 eq_refl) as (r1 & E & Hr1 & _). rewrite E. cbn [mbind res_mbind res_bind].
    destruct (rand_step_ok r1 Hr1) as (r2 & E2 & Hr2 & _). rewrite E2. exact (yields _ _ Hr2).
  - rewrite (ok_init _ Hok). destruct (rand_step_ok r Hok) as (r2 & E2 & Hr2 & _). rewrite E2. exact (yields _ _ Hr2).
Qed.

(** The algorithm the file says it is based on: seeds with a product that
    does not wrap around, then each word the sum of those 31 and 3 before it
    ([w] holds the last 31, oldest first). *)
Fixpoint gnu_seeds (n : nat) (p : Z) : list Z :=
  match n with
  | O => []
  | S n => p :: gnu_seeds n (let v := Z.rem (16807 * p) RAND_MAX in if v <? 0 then v + RAND_MAX else v)
  end.
Definition gnu_next (w : list Z) : Z := s32 (default 0 (w !! 0%nat) + default 0 (w !! 28%nat)).
Definition gnu_shift (w : list Z) : list Z := tail w ++ [gnu_next w].
Definition gnu_window (seed : Z) : list Z :=
  let l := gnu_seeds 31 (s32 seed) in drop 3 (l ++ take 3 l).
Definition gnu_rand (seed : Z) : Z := Z.shiftr (u32 (gnu_next (Nat.iter 310 gnu_shift (gnu_window seed)))) 1.

(** The GNU C library's first number for seed 1 is 1804289383; this [rand]
    yields another one, and so it would with seeds that do not wrap around:
    the lags differ. *)
Lemma rand_not_gnu : gnu_rand 1 = 1804289383 /\
  (exists r, rand rng0 = Ok (Z.shiftr (u32 (next_word (Nat.iter 310 shift (init_window 1)))) 1, r)) /\
  Z.shiftr (u32 (next_word (Nat.iter 310 shift (init_window 1)))) 1 <> gnu_rand 1 /\
  Z.shiftr (u32 (next_word (Nat.iter 310 shift (take 3 (gnu_seeds 31 1) ++ gnu_seeds 31 1)))) 1 <> gnu_rand 1.
Proof.
  split; [by vm_compute|]. split; [|split; by vm_compute].
  destruct (srand_ok 1 rng0 eq_refl) as (r1 & E & Hr1 & Hw). unfold rand. cbn [init_done rng0]. rewrite E. cbn [mbind res_mbind res_bind].
  destruct (rand_step_ok r1 Hr1) as (r2 & E2 & _). rewrite E2, Hw. by exists r2.
Qed.

Lemma rand_sequence_witness : length (words rng0) = 34%nat /\ init_done rng0 = false /\
  exists r1 r2, srand 42 rng0 = Ok r1 /\ rands 3 r1 = Ok (outputs 3 (Nat.iter 310 shift (init_window 42)), r2).
Proof. split; [done|]. split; [done|]. exact (proj1 (rand_sequence 42 rng0 3 eq_refl)). Defined.
Lemma rand_bounds_witness : exists x r', rand rng0 = Ok (x, r') /\ 0 <= x <= RAND_MAX /\ rng_ok r'.
Proof. exact (rand_bounds rng0 (or_introl eq_refl)). Defined.
