(* ===== verification/Video.v ===== *)
(** * Video modes (src/video.c, src/vbe.c, src/vbe.h)

    The VESA BIOS is entered by [int86], a parameter; it leaves its answers in
    the low memory buffer. [video] has the memory, the BIOS and the static
    variables, pointers being addresses. What the functions print is left
    out. The specification of the BIOS is the class [VbeBios]. *)
From S2P Require Import Prelude Memory Str Int86.

Definition VBE_MODE_LFB : Z := Z.shiftl 1 14.

(** Fields of [struct vbe_info] and [struct vbe_mode_info] at address [a]. *)
Definition vi_version (m : mem) (a : Z) : Z := ld16 m (a + 4).
Definition vi_vid_mode_ptr (m : mem) (a : Z) : Z := ld32 m (a + 14).
Definition vi_total_mem (m : mem) (a : Z) : Z := ld16 m (a + 18).
Definition vi_oem_vendor_name_ptr (m : mem) (a : Z) : Z := ld32 m (a + 22).
Definition mi_xres (m : mem) (a : Z) : Z := ld16 m (a + 18).
Definition mi_yres (m : mem) (a : Z) : Z := ld16 m (a + 20).
Definition mi_bpp (m : mem) (a : Z) : Z := ld8 m (a + 25).
Definition mi_rmask_size (m : mem) (a : Z) : Z := ld8 m (a + 31).
Definition mi_rpos (m : mem) (a : Z) : Z := ld8 m (a + 32).
Definition mi_gmask_size (m : mem) (a : Z) : Z := ld8 m (a + 33).
Definition mi_gpos (m : mem) (a : Z) : Z := ld8 m (a + 34).
Definition mi_bmask_size (m : mem) (a : Z) : Z := ld8 m (a + 35).
Definition mi_bpos (m : mem) (a : Z) : Z := ld8 m (a + 36).
Definition mi_fb_addr (m : mem) (a : Z) : Z := ld32 m (a + 40).

Definition REALPTR (s o : Z) : Z := u32 (Z.shiftl s 4 + o).
Definition VBEPTR (x : Z) : Z := REALPTR (Z.shiftr (Z.land x 0xffff0000) 16) (Z.land x 0xffff).

Definition SAME_BPP (a b : Z) : bool :=
  (a =? b) || ((a =? 16) && (b =? 15)) || ((a =? 15) && (b =? 16)) ||
  ((a =? 32) && (b =? 24)) || ((a =? 24) && (b =? 32)).

Definition maskbits : list Z := [0; 1; 3; 7; 0xf; 0x1f; 0x3f; 0x7f; 0xff].

(** Outside of the table the code reads whatever follows it; a shift by 32 or
    more is undefined. *)
Definition color_mask (nbits pos : Z) : res Z :=
  m ← of_option (zlookup maskbits nbits);
  if 32 <=? pos then Fault else Ok (u32 (Z.shiftl m pos)).

(** [struct video_mode] *)
Record video_mode := mk_mode {
  md_mode : Z; width : Z; height : Z; md_bpp : Z;
  rbits : Z; gbits : Z; bbits : Z; rshift : Z; gshift : Z; bshift : Z;
  rmask : Z; gmask : Z; bmask : Z }.

Section video.
Context {B : Type} (int86 : Z -> int86regs -> mem -> B -> int86regs * mem * B).
Context (low_mem_buffer : Z).

Record video := mk_video {
  vmem : mem; vbios : B;
  vbe_info : Z; modes : Z; mode_count : Z; mode_info : Z; done_init : bool }.

Definition set_mem (m : mem) (v : video) : video :=
  mk_video m (vbios v) (vbe_info v) (modes v) (mode_count v) (mode_info v) (done_init v).
Definition set_info (a : Z) (v : video) : video :=
  mk_video (vmem v) (vbios v) a (modes v) (mode_count v) (mode_info v) true.
Definition set_modes (a : Z) (v : video) : video :=
  mk_video (vmem v) (vbios v) (vbe_info v) a (mode_count v) (mode_info v) (done_init v).
Definition set_count (n : Z) (v : video) : video :=
  mk_video (vmem v) (vbios v) (vbe_info v) (modes v) n (mode_info v) (done_init v).
Definition set_mode_info (a : Z) (v : video) : video :=
  mk_video (vmem v) (vbios v) (vbe_info v) (modes v) (mode_count v) a (done_init v).

Definition bios10 (r : int86regs) : SM video int86regs := fun v =>
  let '(r, m, b) := int86 0x10 r (vmem v) (vbios v) in
  Ok (r, mk_video m b (vbe_info v) (modes v) (mode_count v) (mode_info v) (done_init v)).

(** A field of the structure at [a]. *)
Definition field (f : mem -> Z -> Z) (a : Z) : SM video Z := fun v => Ok (f (vmem v) a, v).

Definition set_vga_mode (mode : Z) : SM video unit := _ ← bios10 (regs_in mode 0 0 0 0 0); mret tt.

(** ** vbe.c *)

Definition vbe_get_info : SM video Z :=
  let info := low_mem_buffer in
  _ ← sm_upd (fun v => set_mem (store_list (vmem v) info (codes "VBE2")) v);
  r ← bios10 (regs_in 0x4f00 0 0 0 0 (Z.shiftr info 4));
  if negb (Z.land (eax r) 0xffff =? 0x4f) then mret 0 else mret info.

Definition vbe_get_mode_info (mode : Z) : SM video Z :=
  let mi := low_mem_buffer + 512 in
  r ← bios10 (regs_in 0x4f01 0 mode 0 0 (Z.shiftr mi 4));
  if negb (Z.land (eax r) 0xffff =? 0x4f) then mret 0 else mret mi.

Definition vbe_set_mode (mode : Z) : SM video Z :=
  r ← bios10 (regs_in 0x4f02 (u32 mode) 0 0 0 0);
  if eax r =? 0x100 then mret (-1) else mret 0.

(** [sizeof(struct vbe_edid)] *)
Definition edid_size : nat := 114.

(** The structure the EDID is copied to: its bytes. *)
Definition vbe_get_edid : SM video (Z * list Z) :=
  r ← bios10 (regs_in 0x4f15 1 0 0 0 (Z.shiftr low_mem_buffer 4));
  if negb (Z.land (eax r) 0xffff =? 0x4f) then mret (-1, []) else
  v ← sm_get;
  mret (0, bytes_at (vmem v) low_mem_buffer edid_size).

(** ** video.c *)

(** [for(i=0; i<1024; i++)] of [init_once]: the entries before 0xffff. *)
Fixpoint count_modes (n : nat) (m : mem) (a : Z) : Z :=
  match n with
  | O => 0
  | S n => if ld16 m a =? 0xffff then 0 else 1 + count_modes n m (a + 2)
  end.

Definition init_once : SM video Z :=
  v ← sm_get;
  if done_init v then mret (if negb (vbe_info v =? 0) && negb (modes v =? 0) then 0 else -1) else
  info ← vbe_get_info;
  _ ← sm_upd (set_info info);
  if info =? 0 then mret (-1) else
  version ← field vi_version info;
  if version <? 0x200 then mret (-1) else
  p ← field vi_vid_mode_ptr info;
  _ ← sm_upd (set_modes (VBEPTR p));
  _ ← sm_upd (fun v => set_count (count_modes 1024 (vmem v) (modes v)) v);
  mret 0.

(** A null [mode_info] makes the functions that use it fail: [mode_info] is
    set before its test, so it is null after a failed query. *)
Definition set_video_mode (mode : Z) : SM video Z :=
  r ← init_once;
  if r =? -1 then mret 0 else
  if mode <? 0 then mret 0 else
  mi ← vbe_get_mode_info mode;
  _ ← sm_upd (set_mode_info mi);
  if mi =? 0 then mret 0 else
  r ← vbe_set_mode (Z.lor mode VBE_MODE_LFB);
  if r =? -1 then mret 0 else field mi_fb_addr mi.

(** [modes[i]] *)
Definition mode_at (i : Z) : SM video Z := fun v => Ok (ld16 (vmem v) (modes v + 2 * i), v).

(** The loop of [find_video_mode_idx], [n] modes left. *)
Fixpoint find_loop (n : nat) (xsz ysz bpp i best best_bpp : Z) : SM video Z :=
  match n with
  | O => mret best
  | S n =>
      md ← mode_at i;
      inf ← vbe_get_mode_info (Z.lor md VBE_MODE_LFB);
      if inf =? 0 then find_loop n xsz ysz bpp (i + 1) best best_bpp else
      xres ← field mi_xres inf;
      yres ← field mi_yres inf;
      if negb (xres =? xsz) || negb (yres =? ysz) then find_loop n xsz ysz bpp (i + 1) best best_bpp else
      ibpp ← field mi_bpp inf;
      if ((bpp <=? 0) && (best_bpp <? ibpp)) || SAME_BPP ibpp bpp
      then find_loop n xsz ysz bpp (i + 1) i ibpp
      else find_loop n xsz ysz bpp (i + 1) best best_bpp
  end.

Definition find_video_mode_idx (xsz ysz bpp : Z) : SM video Z :=
  r ← init_once;
  if r =? -1 then mret (-1) else
  v ← sm_get;
  find_loop (Z.to_nat (mode_count v)) xsz ysz bpp 0 (-1) 0.

Definition video_mode_count : SM video Z :=
  r ← init_once;
  if r =? -1 then mret 0 else v ← sm_get; mret (mode_count v).

Definition video_mode_info (n : Z) : SM video (Z * option video_mode) :=
  r ← init_once;
  if r =? -1 then mret (-1, None) else
  md ← mode_at n;
  inf ← vbe_get_mode_info (Z.lor md VBE_MODE_LFB);
  if inf =? 0 then mret (-1, None) else
  md ← mode_at n;
  v ← sm_get;
  let m := vmem v in
  rm ← sm_lift (color_mask (mi_rmask_size m inf) (mi_rpos m inf));
  gm ← sm_lift (color_mask (mi_gmask_size m inf) (mi_gpos m inf));
  bm ← sm_lift (color_mask (mi_bmask_size m inf) (mi_bpos m inf));
  mret (0, Some (mk_mode md (mi_xres m inf) (mi_yres m inf) (mi_bpp m inf)
    (mi_rmask_size m inf) (mi_gmask_size m inf) (mi_bmask_size m inf)
    (mi_rpos m inf) (mi_gpos m inf) (mi_bpos m inf) rm gm bm)).

Definition get_color_bits : SM video (Z * list Z) :=
  v ← sm_get;
  if mode_info v =? 0 then mret (-1, []) else
  let m := vmem v in let mi := mode_info v in
  mret (0, [mi_rmask_size m mi; mi_gmask_size m mi; mi_bmask_size m mi]).

Definition get_color_mask : SM video (Z * list Z) :=
  v ← sm_get;
  if mode_info v =? 0 then mret (-1, []) else
  let m := vmem v in let mi := mode_info v in
  rm ← sm_lift (color_mask (mi_rmask_size m mi) (mi_rpos m mi));
  gm ← sm_lift (color_mask (mi_gmask_size m mi) (mi_gpos m mi));
  bm ← sm_lift (color_mask (mi_bmask_size m mi) (mi_bpos m mi));
  mret (0, [rm; gm; bm]).

Definition get_color_shift : SM video (Z * list Z) :=
  v ← sm_get;
  if mode_info v =? 0 then mret (-1, []) else
  let m := vmem v in let mi := mode_info v in
  mret (0, [mi_rpos m mi; mi_gpos m mi; mi_bpos m mi]).

Definition get_video_vendor : SM video Z :=
  r ← init_once;
  if r =? -1 then mret 0 else
  v ← sm_get; p ← field vi_oem_vendor_name_ptr (vbe_info v); mret (VBEPTR p).

Definition get_video_mem_size : SM video Z :=
  r ← init_once;
  if r =? -1 then mret 0 else
  v ← sm_get; n ← field vi_total_mem (vbe_info v); mret (Z.shiftl n 6).
End video.

(** ** The EDID *)

Definition VBE_EDID_MAGIC : list Z := [0; 0xff; 0xff; 0xff; 0xff; 0xff; 0xff; 0].

(** Where [timing[0]] is in [struct vbe_edid]: 8 bytes of magic, 17 up to the
    features, 10 of chroma, 2 + 1 + 2 of standard modes and timings. *)
Definition timing0 : Z := 40.

Definition edid_preferred_resolution (edid : list Z) : Z * option (Z * Z) :=
  if negb (bool_decide (take 8 edid = VBE_EDID_MAGIC)) then (-1, None) else
  let xres := Z.lor (sb edid (timing0 + 2)) (Z.shiftl (Z.land (sb edid (timing0 + 4)) 0xf0) 4) in
  let yres := Z.lor (sb edid (timing0 + 5)) (Z.shiftl (Z.land (sb edid (timing0 + 7)) 0xf0) 4) in
  (0, Some (xres, yres)).

(** ** Masks *)

(** The mask of [nbits] at [pos] has exactly these bits of a 32-bit word; a
    field of more than 8 bits or a position of 32 or more has no mask. *)
Theorem color_mask_bounds nbits pos :
  0 <= nbits -> 0 <= pos ->
  if (nbits <=? 8) && (pos <? 32)
  then exists v, color_mask nbits pos = Ok v /\ 0 <= v < 2 ^ 32 /\
    forall k, 0 <= k < 32 -> Z.testbit v k = (pos <=? k) && (k <? pos + nbits)
  else color_mask nbits pos = Fault.
Proof.
  intros Hn Hp. unfold color_mask. destruct (Z.leb_spec nbits 8) as [Hn8|Hn8]; cbn [andb].
  - assert (zlookup maskbits nbits = Some (Z.ones nbits)) as ->.
    { assert (nbits ∈ zseq 0 9) as Hin by (apply elem_of_zseq; lia). clear -Hin.
      repeat (apply elem_of_cons in Hin as [->|Hin]; [done|]). by apply elem_of_nil in Hin. }
    cbn [of_option mbind res_mbind res_bind]. destruct (Z.ltb_spec pos 32), (Z.leb_spec 32 pos); try lia; [|done].
    eexists. split; [done|]. split; [apply u32_range|]. intros k Hk. rewrite u32_bits by lia.
    destruct (Z.ltb_spec k 32); [|lia]. cbn [andb]. rewrite Z.shiftl_spec by lia.
    destruct (Z.leb_spec pos k); [|by rewrite Z.testbit_neg_r by lia]. rewrite Z.testbit_ones_nonneg by lia.
    cbn [andb]. zcases.
  - unfold zlookup. destruct (Z.ltb_spec nbits 0); [lia|]. rewrite lookup_ge_None_2; [done|]. cbn. lia.
Qed.
Lemma color_mask_bounds_witness : 0 <= 5 /\ 0 <= 11 /\
  (exists v, color_mask 5 11 = Ok v /\ 0 <= v < 2 ^ 32 /\
    forall k, 0 <= k < 32 -> Z.testbit v k = (11 <=? k) && (k <? 11 + 5)) /\
  color_mask 10 20 = Fault.
Proof.
  split; [lia|]. split; [lia|]. split; [exact (color_mask_bounds 5 11 ltac:(lia) ltac:(lia))|].
  exact (color_mask_bounds 10 20 ltac:(lia) ltac:(lia)).
Defined.

(** ** The BIOS *)

Section vbe.
Context {B : Type} (int86 : Z -> int86regs -> mem -> B -> int86regs * mem * B) (low_mem_buffer : Z).

(** Function 4f01 fills the 256 bytes at ES:DI with the information block of
    the mode in CX, or fails; the blocks are [tbl]. The buffer starts at a
    paragraph of the first megabyte. *)
Class VbeBios (tbl : Z -> option (list Z)) : Prop := {
  vbe_low : low_mem_buffer mod 16 = 0 /\ 0 <= low_mem_buffer <= 0xf0000;
  vbe_block : forall md blk, tbl md = Some blk -> length blk = 256%nat;
  vbe_call : forall r m b, eax r = 0x4f01 -> edi r = 0 ->
    let '(r', m', _) := int86 0x10 r m b in
    match tbl (Z.land (ecx r) 0xffff) with
    | Some blk => Z.land (eax r') 0xffff = 0x4f /\ m' = store_list m (es r * 16) blk
    | None => Z.land (eax r') 0xffff <> 0x4f /\ m' = m
    end }.

Context {tbl : Z -> option (list Z)} `{!VbeBios tbl}.

(** Equal but for the BIOS and the memory. *)
Definition same_vars (v v' : @video B) : Prop :=
  vbe_info v' = vbe_info v /\ modes v' = modes v /\ mode_count v' = mode_count v /\
  mode_info v' = mode_info v /\ done_init v' = done_init v.

Lemma same_vars_trans v1 v2 v3 : same_vars v1 v2 -> same_vars v2 v3 -> same_vars v1 v3.
Proof. unfold same_vars. intuition congruence. Qed.

Lemma get_mode_info_ok md v : 0 <= md < 65536 -> exists v',
  vbe_get_mode_info int86 low_mem_buffer md v
    = Ok (match tbl md with Some _ => low_mem_buffer + 512 | None => 0 end, v') /\
  same_vars v v' /\
  vmem v' = match tbl md with Some blk => store_list (vmem v) (low_mem_buffer + 512) blk | None => vmem v end.
Proof.
  intros Hmd. destruct vbe_low as [Hal Hlo]. unfold vbe_get_mode_info, bios10, mbind, sm_mbind. cbv beta.
  pose proof (vbe_call (regs_in 0x4f01 0 md 0 0 (Z.shiftr (low_mem_buffer + 512) 4)) (vmem v) (vbios v) eq_refl eq_refl) as Hc.
  destruct (int86 _ _ _ _) as [[r m] b]. cbn [ecx es regs_in] in Hc.
  assert (u16 (Z.shiftr (low_mem_buffer + 512) 4) * 16 = low_mem_buffer + 512) as Ea.
  { rewrite Z.shiftr_div_pow2 by lia. change (2 ^ 4) with 16. rewrite u16_small by mlia. mlia. }
  rewrite Ea, land_65535, u32_small, Z.mod_small in Hc by lia.
  destruct (tbl md) as [blk|]; destruct Hc as [Hr ->].
  - rewrite Hr. change (0x4f =? 0x4f) with true. cbn [negb]. eexists. split; [reflexivity|]. by repeat split.
  - apply Z.eqb_neq in Hr. rewrite Hr. cbn [negb]. eexists. split; [reflexivity|]. by repeat split.
Qed.

(** Fields of a block in memory. *)
Lemma block_byte m blk k : length blk = 256%nat -> 0 <= k < 256 ->
  ld8 (store_list m (low_mem_buffer + 512) blk) (low_mem_buffer + 512 + k) = sb blk k.
Proof.
  intros Hl Hk. rewrite ld8_store_list, Hl. rewrite decide_True by lia. unfold sb, zlookup. destruct (Z.ltb_spec k 0); [lia|].
  by replace (low_mem_buffer + 512 + k - (low_mem_buffer + 512)) with k by lia.
Qed.
Lemma block_word m blk k : length blk = 256%nat -> 0 <= k < 255 ->
  ld16 (store_list m (low_mem_buffer + 512) blk) (low_mem_buffer + 512 + k) = sw blk k.
Proof.
  intros Hl Hk. unfold ld16, sw. rewrite block_byte by lia.
  replace (low_mem_buffer + 512 + k + 1) with (low_mem_buffer + 512 + (k + 1)) by lia. by rewrite block_byte by lia.
Qed.
Lemma block_long m blk k : length blk = 256%nat -> 0 <= k < 253 ->
  ld32 (store_list m (low_mem_buffer + 512) blk) (low_mem_buffer + 512 + k) = sl blk k.
Proof.
  intros Hl Hk. unfold ld32, sl, sw. rewrite <- !(Z.add_assoc (low_mem_buffer + 512) k), !block_byte, <- !(Z.add_assoc k) by lia.
  change (2 + 1) with 3. lia.
Qed.
Lemma ld16_outside m blk a : length blk = 256%nat -> a + 2 <= low_mem_buffer + 512 \/ low_mem_buffer + 768 <= a ->
  ld16 (store_list m (low_mem_buffer + 512) blk) a = ld16 m a.
Proof. intros Hl Ha. unfold ld16. rewrite !ld8_store_list, Hl. by rewrite !decide_False by lia. Qed.

(** The driver is set up: the mode list is [ml] and lies outside of the block. *)
Record ready (ml : list Z) (v : @video B) : Prop := {
  rd_done : done_init v = true;
  rd_info : vbe_info v <> 0;
  rd_modes : modes v <> 0;
  rd_count : mode_count v = Z.of_nat (length ml);
  rd_list : forall i md, ml !! i = Some md -> ld16 (vmem v) (modes v + 2 * Z.of_nat i) = md /\ 0 <= md < 0x4000;
  rd_apart : modes v + 2 * Z.of_nat (length ml) <= low_mem_buffer + 512 \/ low_mem_buffer + 768 <= modes v }.

Lemma init_once_ready ml v : ready ml v -> init_once int86 low_mem_buffer v = Ok (0, v).
Proof.
  intros [Hd Hi Hm _ _ _]. unfold init_once. rewrite (sm_bind_ok sm_get _ v v v eq_refl). rewrite Hd.
  apply Z.eqb_neq in Hi, Hm. by rewrite Hi, Hm.
Qed.

(** A query of a mode keeps the driver set up. *)
Lemma query_ready ml md v : ready ml v -> 0 <= md < 65536 -> exists v',
  vbe_get_mode_info int86 low_mem_buffer md v
    = Ok (match tbl md with Some _ => low_mem_buffer + 512 | None => 0 end, v') /\
  same_vars v v' /\ ready ml v' /\
  vmem v' = match tbl md with Some blk => store_list (vmem v) (low_mem_buffer + 512) blk | None => vmem v end.
Proof.
  intros Hr Hmd. destruct (get_mode_info_ok md v Hmd) as (v' & E & Hs & Hm). exists v'. split; [exact E|]. split; [done|].
  split; [|done]. destruct Hs as (H1 & H2 & H3 & H4 & H5), Hr as [Hd Hi Hmo Hc Hl Ha].
  split; rewrite ?H1, ?H2, ?H3, ?H4, ?H5; try done. intros i md' Hi'. rewrite Hm. destruct (Hl i md' Hi') as [El Hrange]. split; [|done].
  destruct (tbl md) as [blk|] eqn:Eb; [|done]. pose proof (lookup_lt_Some _ _ _ Hi').
  rewrite ld16_outside; [done|by eapply vbe_block|lia].
Qed.

Lemma lfb_range md : 0 <= md < 0x4000 -> 0 <= Z.lor md VBE_MODE_LFB < 65536.
Proof.
  intros H. unfold VBE_MODE_LFB. pose proof (land_pow2_testbit md 14 ltac:(lia)) as Hl.
  assert (Z.testbit md 14 = false) as Ht.
  { apply Z.bits_above_log2; [lia|]. destruct (decide (md = 0)) as [-> |]; [done|]. apply Z.log2_lt_pow2; lia. }
  rewrite Ht in Hl. apply Z.eqb_eq in Hl. pose proof (Z.add_lor_land md (Z.shiftl 1 14)) as E. rewrite Hl in E.
  change (Z.shiftl 1 14) with 16384 in *. lia.
Qed.

(** ** Choosing a mode *)

(** The depth of a mode if it has the size asked for. *)
Definition mode_bpp (xsz ysz md : Z) : option Z :=
  blk ← tbl (Z.lor md VBE_MODE_LFB);
  if (sw blk 18 =? xsz) && (sw blk 20 =? ysz) then Some (sb blk 25) else None.

(** Whether a depth will do: a positive request takes its own or the padded
    variant of the same format, a negative one any depth. *)
Definition wanted (bpp q : Z) : bool := if 0 <? bpp then SAME_BPP q bpp else 0 <? q.

(** [best] is the index the search is to find among the depths [qs]: the last
    that will do, or for a negative request the first of the deepest. *)
Definition best_of (bpp : Z) (qs : list (option Z)) (best best_bpp : Z) : Prop :=
  (best = -1 /\ best_bpp = 0 /\ forall j q, qs !! j = Some (Some q) -> wanted bpp q = false) \/
  (exists k, best = Z.of_nat k /\ qs !! k = Some (Some best_bpp) /\ wanted bpp best_bpp = true /\
     forall j q, qs !! j = Some (Some q) -> wanted bpp q = true ->
       if 0 <? bpp then (j <= k)%nat else q <= best_bpp /\ ((j < k)%nat -> q < best_bpp)).

Lemma snoc_lookup (qs : list (option Z)) q j x : (qs ++ [q]) !! j = Some x -> qs !! j = Some x \/ (j = length qs /\ x = q).
Proof.
  intros Hj. apply lookup_app_Some in Hj as [?|[Hge Hj]]; [by left|]. right.
  apply list_lookup_singleton_Some in Hj as [? ->]. split; [lia|done].
Qed.

(** One more mode, taken or passed over. *)
Lemma best_of_take bpp qs q best bb : bpp <> 0 -> best_of bpp qs best bb ->
  (if 0 <? bpp then SAME_BPP q bpp = true else bb < q) -> best_of bpp (qs ++ [Some q]) (Z.of_nat (length qs)) q.
Proof.
  intros Hb H Hq. right. exists (length qs). split; [done|]. split; [by rewrite lookup_app_r, Nat.sub_diag by lia|].
  unfold wanted in *. destruct (Z.ltb_spec 0 bpp) as [Hp|Hn].
  - split; [done|]. intros j q' [Hj|[-> _]]%snoc_lookup _; [apply lookup_lt_Some in Hj; lia|lia].
  - assert (0 < q) as Hq0 by (destruct H as [(_ & -> & _)|(k & _ & _ & Hw & _)]; [done|unfold wanted in Hw; zcases]).
    split; [by apply Z.ltb_lt|]. intros j q' [Hj|[-> [= ->]]]%snoc_lookup Hw; [|lia].
    destruct H as [(_ & _ & Hall)|(k & _ & _ & _ & Hall)].
    + specialize (Hall j q' Hj). unfold wanted in Hall. destruct (Z.ltb_spec 0 bpp); [lia|]. congruence.
    + specialize (Hall j q' Hj). unfold wanted in Hall. destruct (Z.ltb_spec 0 bpp); [lia|]. destruct (Hall Hw). lia.
Qed.
Lemma best_of_pass bpp qs q best bb : bpp <> 0 -> best_of bpp qs best bb ->
  (forall x, q = Some x -> 0 <= x /\ if 0 <? bpp then SAME_BPP x bpp = false else x <= bb) -> best_of bpp (qs ++ [q]) best bb.
Proof.
  intros Hb H Hq. destruct H as [(-> & -> & Hall)|(k & -> & Hk & Hw & Hall)].
  - left. split; [done|]. split; [done|]. intros j x [Hj|[-> <-]]%snoc_lookup; [by eapply Hall|].
    destruct (Hq x eq_refl) as [Hx Hc]. unfold wanted. destruct (Z.ltb_spec 0 bpp); [done|]. zcases.
  - right. exists k. split; [done|]. pose proof (lookup_lt_Some _ _ _ Hk). split; [by rewrite lookup_app_l by lia|]. split; [done|].
    intros j x [Hj|[-> <-]]%snoc_lookup Hwx; [by eapply Hall|].
    destruct (Hq x eq_refl) as [Hx Hc]. unfold wanted in Hwx. destruct (Z.ltb_spec 0 bpp); [congruence|]. lia.
Qed.

Lemma find_loop_ok xsz ysz bpp ml : bpp <> 0 -> forall post pre best bb v,
  ml = pre ++ post -> ready ml v -> best_of bpp (mode_bpp xsz ysz <$> pre) best bb ->
  exists best' bb' v', find_loop int86 low_mem_buffer (length post) xsz ysz bpp (Z.of_nat (length pre)) best bb v = Ok (best', v') /\
    best_of bpp (mode_bpp xsz ysz <$> ml) best' bb' /\ ready ml v' /\ same_vars v v'.
Proof.
  intros Hb post. induction post as [|md post IH]; intros pre best bb v Eml Hr Hbest; cbn [length find_loop].
  { rewrite app_nil_r in Eml. subst ml. exists best, bb, v. by split_and!. }
  destruct (rd_list _ _ Hr (length pre) md) as [Emd Hmd]; [by rewrite Eml, lookup_app_r, Nat.sub_diag by lia|].
  unfold mode_at. rewrite (sm_bind_ok (fun v => Ok (ld16 (vmem v) (modes v + 2 * Z.of_nat (length pre)), v)) _ v md v) by by rewrite Emd.
  destruct (query_ready ml (Z.lor md VBE_MODE_LFB) v Hr (lfb_range md Hmd)) as (v1 & E1 & Hs1 & Hr1 & Hm1).
  rewrite (sm_bind_ok _ _ _ _ _ E1). cbv beta.
  replace (Z.of_nat (length pre) + 1) with (Z.of_nat (length (pre ++ [md]))) by (rewrite length_app; cbn; lia).
  assert (forall best bb, best_of bpp ((mode_bpp xsz ysz <$> pre) ++ [mode_bpp xsz ysz md]) best bb ->
    exists best' bb' v', find_loop int86 low_mem_buffer (length post) xsz ysz bpp (Z.of_nat (length (pre ++ [md]))) best bb v1 = Ok (best', v') /\
      best_of bpp (mode_bpp xsz ysz <$> ml) best' bb' /\ ready ml v' /\ same_vars v v') as next.
  { intros best1 bb1 H1. destruct (IH (pre ++ [md]) best1 bb1 v1) as (b' & bb' & v' & E & H2 & H3 & H4);
      [by rewrite <- app_assoc|done|by rewrite fmap_app|]. exists b', bb', v'. split_and!; [done..|]. by eapply same_vars_trans. }
  unfold mode_bpp in next at 2. destruct (tbl (Z.lor md VBE_MODE_LFB)) as [blk|] eqn:Et; cbn [mbind option_bind] in next.
  2: { change (0 =? 0) with true. apply next. by apply best_of_pass. }
  destruct vbe_low as [_ Hlow]. destruct (Z.eqb_spec (low_mem_buffer + 512) 0) as [?|_]; [lia|].
  assert (length blk = 256%nat) as Hlen by by eapply vbe_block.
  unfold field, mbind, sm_mbind. rewrite !Hm1. unfold mi_xres, mi_yres. rewrite !block_word by lia.
  destruct (sw blk 18 =? xsz); cbn [negb andb orb] in *; [|apply next; by apply best_of_pass].
  destruct (sw blk 20 =? ysz); cbn [negb andb orb] in *; [|apply next; by apply best_of_pass].
  rewrite !Hm1. unfold mi_bpp. rewrite !block_byte by lia.
  pose proof (sb_range blk 25) as Hq. set (q := sb blk 25) in *.
  assert (bpp < 0 -> SAME_BPP q bpp = false) as Hneg by (intros; unfold SAME_BPP; zcases).
  destruct (Z.ltb_spec 0 bpp) as [Hp|Hn].
  - destruct (Z.leb_spec bpp 0); [lia|]. cbn [andb orb]. destruct (SAME_BPP q bpp) eqn:Es; apply next.
    + rewrite <- (length_fmap (mode_bpp xsz ysz) pre). apply (best_of_take _ _ _ best bb); [done|done|]. by destruct (Z.ltb_spec 0 bpp); [|lia].
    + apply best_of_pass; [done|done|]. intros x [= <-]. split; [lia|]. by destruct (Z.ltb_spec 0 bpp); [|lia].
  - rewrite (Hneg ltac:(lia)), orb_false_r. destruct (Z.leb_spec bpp 0); [|lia]. cbn [andb]. destruct (Z.ltb_spec bb q); apply next.
    + rewrite <- (length_fmap (mode_bpp xsz ysz) pre). apply (best_of_take _ _ _ best bb); [done|done|]. destruct (Z.ltb_spec 0 bpp); lia.
    + apply best_of_pass; [done|done|]. intros x [= <-]. split; [lia|]. destruct (Z.ltb_spec 0 bpp); lia.
Qed.

(** C34. [find_video_mode_idx] finds, for a positive depth, the last mode of the
    size with that depth or the padded variant of it, for a negative one the
    first of the deepest modes of the size, and -1 if there is none. *)
Theorem find_video_mode_idx_correct xsz ysz bpp ml v :
  ready ml v -> bpp <> 0 ->
  exists best bb v', find_video_mode_idx int86 low_mem_buffer xsz ysz bpp v = Ok (best, v') /\
    best_of bpp (mode_bpp xsz ysz <$> ml) best bb /\ ready ml v'.
Proof.
  intros Hr Hb. unfold find_video_mode_idx. rewrite (sm_bind_ok _ _ _ _ _ (init_once_ready ml v Hr)). change (0 =? -1) with false. cbv iota.
  rewrite (sm_bind_ok sm_get _ v v v eq_refl), (rd_count _ _ Hr), Nat2Z.id.
  destruct (find_loop_ok xsz ysz bpp ml Hb ml [] (-1) 0 v eq_refl Hr) as (best & bb & v' & E & H1 & H2 & _).
  { left. split; [done|]. split; [done|]. intros j q Hj. by destruct j. }
  exists best, bb, v'. by split_and!.
Qed.

(** ** What the static pointers point to *)

(** [mode_info] points to the buffer of every query: after the information
    of mode [n] was asked for, the colour bits, masks and shifts are those of
    mode [n], whatever mode is set. *)
Theorem color_of_last_query ml n md blk v :
  ready ml v -> mode_info v = low_mem_buffer + 512 ->
  ml !! n = Some md -> tbl (Z.lor md VBE_MODE_LFB) = Some blk ->
  Forall (fun k => sb blk k <= 8 /\ sb blk (k + 1) < 32) [31; 33; 35] ->
  exists vm v', video_mode_info int86 low_mem_buffer (Z.of_nat n) v = Ok ((0, Some vm), v') /\
    get_color_bits v' = Ok ((0, [rbits vm; gbits vm; bbits vm]), v') /\
    get_color_mask v' = Ok ((0, [rmask vm; gmask vm; bmask vm]), v') /\
    get_color_shift v' = Ok ((0, [rshift vm; gshift vm; bshift vm]), v') /\
    rbits vm = sb blk 31 /\ rshift vm = sb blk 32 /\ md_mode vm = md.
Proof.
  intros Hr Hmi Hn Ht Hcol. destruct (rd_list _ _ Hr n md Hn) as [Emd Hmd].
  destruct (query_ready ml (Z.lor md VBE_MODE_LFB) v Hr (lfb_range md Hmd)) as (v1 & E1 & Hs1 & Hr1 & Hm1).
  rewrite Ht in E1, Hm1. assert (length blk = 256%nat) as Hlen by by eapply vbe_block. destruct vbe_low as [_ Hlow].
  destruct (rd_list _ _ Hr1 n md Hn) as [Emd1 _]. destruct Hs1 as (_ & Hmo & _ & Hmi1 & _).
  assert (forall k, k ∈ [31; 33; 35] -> exists c, color_mask (sb blk k) (sb blk (k + 1)) = Ok c) as Hc.
  { intros k Hk. rewrite Forall_forall in Hcol. destruct (Hcol k Hk) as [H1 H2]. pose proof (sb_range blk k). pose proof (sb_range blk (k + 1)).
    pose proof (color_mask_bounds (sb blk k) (sb blk (k + 1)) ltac:(lia) ltac:(lia)) as Hb.
    destruct (Z.leb_spec (sb blk k) 8); [|lia]. destruct (Z.ltb_spec (sb blk (k + 1)) 32); [|lia]. destruct Hb as (c & E & _). by exists c. }
  destruct (Hc 31 ltac:(set_solver)) as [cr Er]. destruct (Hc 33 ltac:(set_solver)) as [cg Eg]. destruct (Hc 35 ltac:(set_solver)) as [cb Eb].
  change (31 + 1) with 32 in Er. change (33 + 1) with 34 in Eg. change (35 + 1) with 36 in Eb.
  unfold video_mode_info. rewrite (sm_bind_ok _ _ _ _ _ (init_once_ready ml v Hr)). change (0 =? -1) with false. cbv iota.
  rewrite (sm_bind_ok (mode_at (Z.of_nat n)) _ v md v) by (unfold mode_at; by rewrite Emd).
  rewrite (sm_bind_ok _ _ _ _ _ E1). cbv beta. destruct (Z.eqb_spec (low_mem_buffer + 512) 0) as [?|_]; [lia|].
  rewrite (sm_bind_ok (mode_at (Z.of_nat n)) _ v1 md v1) by (unfold mode_at; by rewrite Emd1).
  rewrite (sm_bind_ok sm_get _ v1 v1 v1 eq_refl). cbv zeta. rewrite Hm1.
  unfold get_color_bits, get_color_mask, get_color_shift, mi_rmask_size, mi_rpos, mi_gmask_size, mi_gpos, mi_bmask_size, mi_bpos, mi_xres, mi_yres, mi_bpp.
  rewrite !block_byte, !block_word by lia. rewrite Er, Eg, Eb. unfold mbind, sm_mbind, sm_lift. cbn [mbind res_mbind res_bind].
  eexists _, v1. split; [reflexivity|]. unfold sm_get, mret, sm_mret. rewrite Hmi1, Hmi, Hm1.
  destruct (Z.eqb_spec (low_mem_buffer + 512) 0) as [?|_]; [lia|]. rewrite !block_byte by lia. rewrite Er, Eg, Eb. by split_and!.
Qed.

(** A BIOS reports a mode it cannot set with 014fh in AX; the driver only
    looks for 0100h, so [set_video_mode] returns the frame buffer of a mode
    that was not set. *)
Theorem set_video_mode_refused ml md blk v :
  (forall r m b, eax r = 0x4f02 -> let '(r', m', _) := int86 0x10 r m b in eax r' = 0x14f /\ m' = m) ->
  ready ml v -> 0 <= md < 65536 -> tbl md = Some blk ->
  exists v', set_video_mode int86 low_mem_buffer md v = Ok (sl blk 40, v').
Proof.
  intros Hrefuse Hr Hmd Ht. unfold set_video_mode. rewrite (sm_bind_ok _ _ _ _ _ (init_once_ready ml v Hr)). change (0 =? -1) with false. cbv iota.
  destruct (Z.ltb_spec md 0); [lia|]. destruct (query_ready ml md v Hr Hmd) as (v1 & E1 & _ & _ & Hm1). rewrite Ht in E1, Hm1.
  assert (length blk = 256%nat) as Hlen by by eapply vbe_block. destruct vbe_low as [_ Hlow].
  rewrite (sm_bind_ok _ _ _ _ _ E1). cbv beta. unfold sm_upd at 1, mbind at 1, sm_mbind at 1.
  destruct (Z.eqb_spec (low_mem_buffer + 512) 0) as [?|_]; [lia|].
  unfold vbe_set_mode, bios10, field, mbind, sm_mbind. cbn [vmem vbios set_mode_info].
  pose proof (Hrefuse (regs_in 0x4f02 (u32 (Z.lor md VBE_MODE_LFB)) 0 0 0 0) (vmem v1) (vbios v1) eq_refl) as Hb.
  destruct (int86 _ _ _ _) as [[r' m'] b']. destruct Hb as [-> ->]. change (0x14f =? 0x100) with false. cbn [mret sm_mret]. change (0 =? -1) with false. cbv iota.
  eexists. cbn [vmem]. rewrite Hm1. unfold mi_fb_addr. by rewrite block_long by lia.
Qed.
End vbe.

(** [vbe_info] points to the low memory buffer, which the next call that uses
    the buffer overwrites: after the EDID was read, the size of the video memory
    is two bytes of the EDID. *)
Theorem mem_size_of_edid {B} (int86 : Z -> int86regs -> mem -> B -> int86regs * mem * B) low v e v' :
  done_init v = true -> modes v <> 0 -> vbe_info v = low -> low <> 0 ->
  vbe_get_edid int86 low v = Ok ((0, e), v') ->
  get_video_mem_size int86 low v' = Ok (64 * sw e 18, v').
Proof.
  intros Hd Hmo Hi Hlow E. unfold vbe_get_edid in E. apply sm_bind_inv in E as (r & v1 & E1 & E).
  destruct (negb _); [by apply mret_inv in E as [[=] _]|]. unfold mbind, sm_mbind, sm_get, mret, sm_mret in E.
  injection E as E E'. subst v1 e. unfold bios10 in E1. destruct (int86 _ _ _ _) as [[r' m'] b'] eqn:Eb. injection E1 as <- <-.
  unfold get_video_mem_size, init_once. cbv [mbind sm_mbind sm_get mret sm_mret field]. cbn [done_init vbe_info modes vmem]. rewrite Hd, Hi.
  apply Z.eqb_neq in Hlow, Hmo. rewrite Hlow, Hmo. cbn [negb andb]. change (0 =? -1) with false. cbv iota. cbn [vbe_info vmem].
  do 2 f_equal. rewrite Z.shiftl_mul_pow2 by lia. change (2 ^ 6) with 64. rewrite Z.mul_comm. f_equal. unfold vi_total_mem, ld16, sw.
  by rewrite !sb_bytes_at, Z.add_assoc by (unfold edid_size; lia).
Qed.

(** Where the first detailed timing of an EDID is, and with it the preferred
    resolution: at byte 54. The function reads none of it: the structure has a
    two byte field for the sixteen bytes of the standard timings. *)
Theorem edid_timing_not_read e1 e2 :
  take 48 e1 = take 48 e2 -> edid_preferred_resolution e1 = edid_preferred_resolution e2.
Proof.
  intros H. assert (forall k, 0 <= k < 48 -> sb e1 k = sb e2 k) as Hsb.
  { intros k Hk. unfold sb, zlookup. destruct (Z.ltb_spec k 0); [lia|].
    rewrite <- (lookup_take_lt e1 48), H, lookup_take_lt by lia. done. }
  assert (take 8 e1 = take 8 e2) as E8.
  { pose proof (f_equal (take 8) H) as H8. by rewrite !take_take in H8. }
  unfold edid_preferred_resolution, timing0. rewrite E8, !Hsb by lia. done.
Qed.

(** What it reads are the two numbers of 12 bits packed at bytes 42 to 47. *)
Lemma edid_resolution_packed e x y hb vb :
  take 8 e = VBE_EDID_MAGIC -> 0 <= x < 4096 -> 0 <= y < 4096 -> 0 <= hb < 16 -> 0 <= vb < 16 ->
  sb e 42 = x mod 256 -> sb e 44 = 16 * (x / 256) + hb -> sb e 45 = y mod 256 -> sb e 47 = 16 * (y / 256) + vb ->
  edid_preferred_resolution e = (0, Some (x, y)).
Proof.
  intros Hm Hx Hy Hh Hv E1 E2 E3 E4. unfold edid_preferred_resolution, timing0. rewrite Hm, bool_decide_eq_true_2 by done.
  cbn [negb]. change (40 + 2) with 42. change (40 + 4) with 44. change (40 + 5) with 45. change (40 + 7) with 47. rewrite E1, E2, E3, E4.
  assert (forall z b, 0 <= z < 4096 -> 0 <= b < 16 -> Z.lor (z mod 256) (Z.shiftl (Z.land (16 * (z / 256) + b) 0xf0) 4) = z) as Hu; [|by rewrite !Hu by lia].
  intros z b Hz Hb. assert (Z.land (16 * (z / 256) + b) 0xf0 = 16 * (z / 256)) as ->.
  { assert (0 <= 16 * (z / 256) + b < 256) as Hr by mlia.
    pose proof (byte_cases (fun c => Z.land c 0xf0 =? 16 * (c / 16)) eq_refl _ Hr) as Hc. cbv beta in Hc. apply Z.eqb_eq in Hc. rewrite Hc. mlia. }
  rewrite Z.shiftl_mul_pow2 by lia. change (2 ^ 4) with 16. apply Z.bits_inj'. intros n Hn.
  replace (16 * (z / 256) * 16) with (Z.shiftl (z / 256) 8) by (rewrite Z.shiftl_mul_pow2 by lia; change (2 ^ 8) with 256; lia).
  change 256 with (2 ^ 8). rewrite Z.lor_spec, Z.shiftl_spec, <- Z.shiftr_div_pow2 by lia.
  destruct (Z.lt_ge_cases n 8).
  - rewrite Z.mod_pow2_bits_low, (Z.testbit_neg_r _ (n - 8)) by lia. by rewrite orb_false_r.
  - rewrite Z.mod_pow2_bits_high, Z.shiftr_spec by lia. cbn [orb]. f_equal. lia.
Qed.

(** ** Witnesses *)

Definition demo_low : Z := 0x7000.
(** 640x480 in 16 bits, and in 32 bits. *)
Definition demo_block (bpp : Z) : list Z :=
  replicate 18 0 ++ [0x80; 0x02; 0xe0; 0x01] ++ [8; 16; 1; bpp; 1; 6; 0; 0; 0] ++ [5; 11; 6; 5; 5; 0] ++ replicate 3 0 ++
  [0; 0; 0; 0xe0] ++ replicate 212 0.
Definition demo_tbl (md : Z) : option (list Z) :=
  if Z.land md 0x3fff =? 0x111 then Some (demo_block 16) else if Z.land md 0x3fff =? 0x112 then Some (demo_block 32) else None.
Definition demo_edid : list Z := VBE_EDID_MAGIC ++ replicate 10 0 ++ [1; 3] ++ replicate 94 0.
Definition with_ax (r : int86regs) (ax : Z) : int86regs :=
  mk_regs (edi r) (esi r) (ebp r) (esp r) (ebx r) (edx r) (ecx r) ax (flags r) (es r) (ds r) (fs r) (gs r).
Definition demo_int86 (inum : Z) (r : int86regs) (m : mem) (b : unit) : int86regs * mem * unit :=
  if eax r =? 0x4f01 then
    match demo_tbl (Z.land (ecx r) 0xffff) with
    | Some blk => (with_ax r 0x4f, store_list m (es r * 16) blk, b)
    | None => (with_ax r 0x14f, m, b)
    end
  else if eax r =? 0x4f15 then (with_ax r 0x4f, store_list m (es r * 16) demo_edid, b)
  else (with_ax r 0x14f, m, b).

Lemma demo_vbe : VbeBios demo_int86 demo_low (fun md => demo_tbl md).
Proof.
  split; [by vm_compute| |].
  - intros md blk. unfold demo_tbl. do 2 (case_match; [by intros [= <-]|]). done.
  - intros r m b Ha Hd. unfold demo_int86. rewrite Ha. change (0x4f01 =? 0x4f01) with true. cbv iota.
    destruct (demo_tbl _); by split.
Qed.

Definition demo_video : @video unit :=
  mk_video (store_list ∅ 0x5000 [0x11; 0x01; 0x12; 0x01]) tt demo_low 0x5000 2 (demo_low + 512) true.

Lemma demo_ready : ready demo_low [0x111; 0x112] demo_video.
Proof.
  split; [done..| |by left].
  intros i md Hi. destruct i as [|[|i]]; [injection Hi as <-; by vm_compute|injection Hi as <-; by vm_compute|done].
Qed.

Lemma find_video_mode_idx_correct_witness : exists best bb v',
  find_video_mode_idx demo_int86 demo_low 640 480 (-1) demo_video = Ok (best, v') /\
  best_of (-1) [Some 16; Some 32] best bb /\ ready demo_low [0x111; 0x112] v'.
Proof.
  exact (@find_video_mode_idx_correct _ demo_int86 demo_low _ demo_vbe 640 480 (-1) [0x111; 0x112] demo_video demo_ready ltac:(lia)).
Defined.

Lemma color_of_last_query_witness : exists vm v',
  video_mode_info demo_int86 demo_low 0 demo_video = Ok ((0, Some vm), v') /\
  get_color_bits v' = Ok ((0, [rbits vm; gbits vm; bbits vm]), v') /\ rbits vm = 5.
Proof.
  destruct (@color_of_last_query _ demo_int86 demo_low _ demo_vbe [0x111; 0x112] 0 0x111 (demo_block 16) demo_video demo_ready eq_refl eq_refl eq_refl
    ltac:(apply (bool_decide_unpack _); by vm_compute)) as (vm & v' & E & H1 & _ & _ & H2 & _).
  exists vm, v'. by split_and!.
Defined.

Lemma set_video_mode_refused_witness : exists v',
  set_video_mode demo_int86 demo_low 0x112 demo_video = Ok (0xe0000000, v').
Proof.
  refine (@set_video_mode_refused _ demo_int86 demo_low _ demo_vbe [0x111; 0x112] 0x112 (demo_block 32) demo_video _ demo_ready ltac:(lia) eq_refl).
  intros r m b Ha. unfold demo_int86. rewrite Ha. by split.
Defined.

Lemma mem_size_of_edid_witness : exists e v',
  vbe_get_edid demo_int86 demo_low demo_video = Ok ((0, e), v') /\ get_video_mem_size demo_int86 demo_low v' = Ok (64 * 769, v').
Proof.
  assert (vbe_get_edid demo_int86 demo_low demo_video = Ok ((0, demo_edid), mk_video (store_list (vmem demo_video) demo_low demo_edid) tt demo_low 0x5000 2 (demo_low + 512) true)) as E
    by by vm_compute.
  eexists _, _. split; [exact E|]. exact (mem_size_of_edid demo_int86 demo_low demo_video demo_edid _ eq_refl ltac:(done) eq_refl ltac:(done) E).
Defined.

Lemma edid_timing_not_read_witness :
  edid_preferred_resolution (demo_edid ++ [0]) = edid_preferred_resolution (demo_edid ++ [1]).
Proof. exact (edid_timing_not_read (demo_edid ++ [0]) (demo_edid ++ [1]) eq_refl). Defined.
