(* ===== verification/Pci.v ===== *)
(** * PCI enumeration (src/pci.c)

    Configuration space is reached through two ports (mechanism 1), the BIOS
    is asked by [int86], a parameter, whether it is there. What is printed is
    left out but for the number of devices found, the result of [init_pci];
    [print_dev_info] is in Report.v.
    The specification of the host bridge is the class [PciHost]. *)
From S2P Require Import Prelude Io Int86.

Definition CONFIG_ADDR_PORT : Z := 0xcf8.
Definition CONFIG_DATA_PORT : Z := 0xcfc.
Definition ADDR_ENABLE : Z := 0x80000000.
Definition ADDR_BUSID (x : Z) : Z := Z.shiftl (Z.land (u32 x) 0xff) 16.
Definition ADDR_DEVID (x : Z) : Z := Z.shiftl (Z.land (u32 x) 0x1f) 11.
Definition ADDR_FUNC (x : Z) : Z := Z.shiftl (Z.land (u32 x) 3) 8.
Definition PCI_SIG : Z := 0x20494350.
Definition TYPE_MULTIFUNC : Z := 0x80.

(** [struct config_data] as its double words, and the fields that are used. *)
Definition config_data : Type := list Z.
Definition cd_vendor (c : config_data) : Z := Z.land (default 0 (zlookup c 0)) 0xffff.
Definition cd_hdr_type (c : config_data) : Z := Z.land (Z.shiftr (default 0 (zlookup c 3)) 16) 0xff.

(** The function [cfg_read32] points to. *)
Inductive mechanism := CfgM1 | CfgM2.

Section pci.
Context `{Device}.

Definition cfg_read32_m1 (bus dev func reg : Z) : IO Z :=
  let addr := Z.lor (Z.lor (Z.lor (Z.lor ADDR_ENABLE (ADDR_BUSID bus)) (ADDR_DEVID dev)) (ADDR_FUNC func)) reg in
  _ ← outl addr CONFIG_ADDR_PORT;
  inl CONFIG_DATA_PORT.
Definition cfg_read32_m2 (bus dev func reg : Z) : IO Z := lift Panic.
Definition cfg_read32 (m : mechanism) : Z -> Z -> Z -> Z -> IO Z :=
  match m with CfgM1 => cfg_read32_m1 | CfgM2 => cfg_read32_m2 end.

(** [for(i=1; i<16; i++)], [n] registers left. *)
Fixpoint read_regs (m : mechanism) (bus dev func : Z) (n : nat) (i : Z) : IO (list Z) :=
  match n with
  | O => mret []
  | S n => v ← cfg_read32 m bus dev func (i * 4); l ← read_regs m bus dev func n (i + 1); mret (v :: l)
  end.

(** [None] for -1. *)
Definition read_dev_info (m : mechanism) (bus dev func : Z) : IO (option config_data) :=
  v ← cfg_read32 m bus dev func 0;
  if cd_vendor [v] =? 0xffff then mret None else
  l ← read_regs m bus dev func 15 1;
  mret (Some (v :: l)).

(** [for(i=1; i<8; i++)] *)
Fixpoint enum_funcs (m : mechanism) (busid dev : Z) (n : nat) (i count : Z) : IO Z :=
  match n with
  | O => mret count
  | S n =>
      r ← read_dev_info m busid dev i;
      enum_funcs m busid dev n (i + 1) (match r with None => count | Some _ => count + 1 end)
  end.

Definition enum_dev (m : mechanism) (busid dev : Z) : IO Z :=
  v ← cfg_read32 m busid dev 0 0;
  if Z.land v 0xffff =? 0xffff then mret 0 else
  r ← read_dev_info m busid dev 0;
  match r with
  | None => mret 0
  | Some info =>
      if negb (Z.land (cd_hdr_type info) TYPE_MULTIFUNC =? 0) then enum_funcs m busid dev 7 1 1 else mret 1
  end.

Fixpoint enum_devs (m : mechanism) (busid : Z) (n : nat) (i count : Z) : IO Z :=
  match n with
  | O => mret count
  | S n => c ← enum_dev m busid i; enum_devs m busid n (i + 1) (count + c)
  end.
Definition enum_bus (m : mechanism) (busid : Z) : IO Z := enum_devs m busid 32 0 0.

Fixpoint enum_buses (m : mechanism) (n : nat) (i count : Z) : IO Z :=
  match n with
  | O => mret count
  | S n => c ← enum_bus m i; enum_buses m n (i + 1) (count + c)
  end.

Context (int86 : Z -> int86regs -> IO int86regs).

(** The number of devices, or [None] without a usable PCI BIOS. *)
Definition init_pci : IO (option Z) :=
  intrflag ← get_intr_flag;
  regs ← int86 0x1a (regs_in 0xb101 0 0 0 0 0);
  _ ← set_intr_flag intrflag;
  if carry regs || negb (Z.land (eax regs) 0xff00 =? 0) || negb (edx regs =? PCI_SIG) then mret None else
  if negb (Z.land (eax regs) 1 =? 0) then
    n ← enum_buses CfgM1 256 0 0; mret (Some n)
  else if Z.land (eax regs) 2 =? 0 then mret None
  else n ← enum_buses CfgM2 256 0 0; mret (Some n).
End pci.

(** ** Names of classes *)

Definition class_names : list string :=
  ["unknown"; "mass storage controller"; "network controller"; "display controller"; "multimedia device";
   "memory controller"; "bridge device"; "simple communication controller"; "base system peripheral"; "input device";
   "docking station"; "processor"; "serial bus controller"; "wireless controller"; "intelligent I/O controller";
   "satellite communication controller"; "encryption/decryption controller"; "data acquisition & signal processing controller"]%string.
Definition class_mass_names : list string :=
  ["SCSI bus controller"; "IDE controller"; "floppy disk controller"; "IPI bus controller"; "RAID controller"]%string.
Definition class_net_names : list string :=
  ["ethernet controller"; "token ring controller"; "FDDI controller"; "ATM controller"; "ISDN controller"]%string.
Definition class_disp_names : list string := ["VGA-compatible controller"; "XGA controller"; "3D controller"]%string.
Definition class_mm_names : list string := ["video device"; "audio device"; "telephony device"]%string.
Definition class_bridge_names : list string :=
  ["host bridge"; "ISA bridge"; "EISA bridge"; "MCA bridge"; "PCI-to-PCI bridge"; "Subtractive decode PCI-to-PCI bridge";
   "PCMCIA bridge"; "NuBus bridge"; "CardBus bridge"; "RACEway bridge"]%string.
Definition class_comm_names : list string := ["serial controller"; "parallel/IEEE1284"; "multiport serial controller"; "modem"]%string.
Definition class_base_names : list string := ["interrupt controller"; "DMA controller"; "timer"; "RTC"; "PCI hot-plug controller"]%string.
Definition class_input_names : list string :=
  ["keyboard controller"; "digitizer"; "mouse controller"; "scanner controller"; "gameport controller"]%string.
Definition class_ser_names : list string := ["firewire"; "ACCESS.bus"; "SSA"; "USB"; "Fibre Channel"; "SMBus"]%string.
Definition class_sat_names : list string := ["TV"; "audio"; "voice"; "data"]%string.

Definition class_str (cc : Z) : res string :=
  if cc =? 0xff then Ok "other"%string else
  if 0x12 <=? cc then Ok "unknown"%string else of_option (zlookup class_names cc).

(** [if(sub > max) return "unknown"; return table[sub];] *)
Definition table_name (table : list string) (max sub : Z) : res string :=
  if max <? sub then Ok "unknown"%string else of_option (zlookup table sub).

Definition subclass_str (cc sub : Z) : res string :=
  if sub =? 0x80 then Ok "other"%string else
  match cc with
  | 0 => Ok (if sub =? 1 then "VGA-compatible device"%string else "unknown"%string)
  | 1 => table_name class_mass_names 4 sub
  | 2 => table_name class_net_names 4 sub
  | 3 => table_name class_disp_names 2 sub
  | 4 => table_name class_mm_names 2 sub
  | 5 => Ok (if sub =? 0 then "RAM"%string else if sub =? 1 then "flash"%string else "unknown"%string)
  | 6 => table_name class_bridge_names 8 sub
  | 7 => table_name class_comm_names 3 sub
  | 8 => table_name class_base_names 4 sub
  | 9 => table_name class_input_names 4 sub
  | 10 => Ok (if sub =? 0 then "generic docking station"%string else "unknown"%string)
  | 11 =>
      Ok match sub with
         | 0 => "386"%string | 1 => "486"%string | 2 => "pentium"%string | 0x10 => "alpha"%string
         | 0x20 => "powerpc"%string | 0x30 => "mips"%string | 0x40 => "co-processor"%string | _ => "unknown"%string
         end
  | 12 => table_name class_ser_names 5 sub
  | 13 => Ok (if sub =? 0 then "irda controller"%string else if sub =? 1 then "IR controller"%string else
              if sub =? 0x10 then "RF controller"%string else "unknonw"%string)
  | 15 => table_name class_sat_names 4 sub
  | 16 => Ok (if sub =? 0 then "network & computing crypto"%string else if sub =? 1 then "entertainment crypto"%string else "unknown"%string)
  | 17 => Ok (if sub =? 0 then "DPIO module"%string else "unknown"%string)
  | _ => Ok "unknown"%string
  end.

(** The names of all classes are within their tables, those of all subclasses
    but one: the fifth of the satellite controllers is behind its table. *)
Theorem class_names_bounds cc sub :
  0 <= cc < 256 -> 0 <= sub < 256 ->
  (exists s, class_str cc = Ok s) /\
  (if (cc =? 15) && (sub =? 4) then subclass_str cc sub = Fault else exists s, subclass_str cc sub = Ok s).
Proof.
  intros Hc Hs. set (ok := fun r : res string => match r with Ok _ => true | _ => false end).
  assert (forall r, ok r = true -> exists s, r = Ok s) as Hok by (intros [s| | |]; [by exists s|done..]). split.
  - apply Hok. by apply (byte_cases (fun c => ok (class_str c))).
  - pose proof (byte_cases (fun c => forallb (fun s => if (c =? 15) && (s =? 4) then negb (ok (subclass_str c s)) else ok (subclass_str c s)) (zseq 0 256))
      ltac:(by vm_compute) cc Hc) as H. cbv beta in H. rewrite forallb_forall in H.
    specialize (H sub ltac:(apply list_elem_of_In, elem_of_zseq; lia)).
    destruct ((cc =? 15) && (sub =? 4)) eqn:E; [|by apply Hok].
    apply andb_true_iff in E as [->%Z.eqb_eq ->%Z.eqb_eq]. done.
Qed.
Lemma class_names_bounds_witness : 0 <= 15 < 256 /\ subclass_str 15 4 = Fault /\ class_str 15 = Ok "satellite communication controller"%string.
Proof. split; [lia|]. split; [exact (proj2 (class_names_bounds 15 4 ltac:(lia) ltac:(lia)))|done]. Defined.

(** ** The host bridge *)

(** The last double word written to the address port. *)
Fixpoint cfg_addr (tr : list io_event) : option Z :=
  match tr with
  | [] => None
  | EOut 32 p v :: tr => if p =? CONFIG_ADDR_PORT then Some v else cfg_addr tr
  | _ :: tr => cfg_addr tr
  end.

(** Configuration space: the double word of a register of function 0 to 7 of
    a device. The data port shows what the address port selects. *)
Class PciHost `{Device} (space : Z -> Z -> Z -> Z -> Z) : Prop := {
  host_word : forall bus dv func reg, 0 <= space bus dv func reg < 4294967296;
  host_data : forall tr a, cfg_addr tr = Some a -> Z.testbit a 31 = true ->
    dev tr 32 CONFIG_DATA_PORT = space ((a / 65536) mod 256) ((a / 2048) mod 32) ((a / 256) mod 8) (4 * ((a / 4) mod 64)) }.

Section host.
Context `{PciHost space}.

(** A computation that ends with [v] and leaves the interrupt flag alone. *)
Definition yields {A} (m : IO A) (v : A) : Prop := forall w, exists w', m w = Ok (v, w') /\ intr_on w' = intr_on w.

Lemma yields_ret {A} (v : A) : yields (mret v) v.
Proof. intros w. by exists w. Qed.
Lemma yields_bind {A B} (m : IO A) (f : A -> IO B) a b : yields m a -> yields (f a) b -> yields (m ≫= f) b.
Proof.
  intros Hm Hf w. destruct (Hm w) as (w1 & E1 & I1). destruct (Hf w1) as (w2 & E2 & I2).
  exists w2. split; [by rewrite (bind_ok _ _ _ _ _ E1)|congruence].
Qed.

Lemma cfg_addr_sum bus dv func k :
  0 <= bus < 256 -> 0 <= dv < 32 -> 0 <= func -> 0 <= k < 64 ->
  Z.lor (Z.lor (Z.lor (Z.lor ADDR_ENABLE (ADDR_BUSID bus)) (ADDR_DEVID dv)) (ADDR_FUNC func)) (k * 4)
  = (((32768 + bus) * 32 + dv) * 8 + u32 func mod 4) * 256 + k * 4.
Proof.
  intros Hb Hd Hf Hk. unfold ADDR_ENABLE, ADDR_BUSID, ADDR_DEVID, ADDR_FUNC. rewrite !(u32_small bus), !(u32_small dv) by lia.
  rewrite land_255, land_31, (land_mask _ 2 ltac:(lia) : Z.land (u32 func) 3 = u32 func mod 4).
  rewrite (Z.mod_small bus), (Z.mod_small dv), !Z.shiftl_mul_pow2 by lia.
  change 0x80000000 with (32768 * 2 ^ 16).
  rewrite <- !Z.shiftl_mul_pow2, <- Z.shiftl_lor, !Z.shiftl_mul_pow2 by lia.
  change 32768 with (1 * 2 ^ 15) at 1. rewrite (lor_low 15) by lia. change (1 * 2 ^ 15) with 32768.
  replace ((32768 + bus) * 2 ^ 16) with ((32768 + bus) * 32 * 2 ^ 11) by lia.
  rewrite <- !Z.shiftl_mul_pow2, <- Z.shiftl_lor, !Z.shiftl_mul_pow2 by lia.
  change 32 with (2 ^ 5) at 1. rewrite (lor_low 5) by lia. change (2 ^ 5) with 32.
  assert (0 <= u32 func mod 4 < 4) by mlia.
  replace (((32768 + bus) * 32 + dv) * 2 ^ 11) with (((32768 + bus) * 32 + dv) * 8 * 2 ^ 8) by lia.
  rewrite <- !Z.shiftl_mul_pow2, <- Z.shiftl_lor, !Z.shiftl_mul_pow2 by lia.
  change 8 with (2 ^ 3) at 1. rewrite (lor_low 3) by lia. change (2 ^ 3) with 8.
  rewrite (lor_low 8) by lia. done.
Qed.

(** A read of configuration space by mechanism 1; functions 4 to 7 are taken
    for functions 0 to 3. *)
Lemma cfg_read32_m1_ok bus dv func k :
  0 <= bus < 256 -> 0 <= dv < 32 -> 0 <= func < 8 -> 0 <= k < 64 ->
  yields (cfg_read32_m1 bus dv func (k * 4)) (space bus dv (func mod 4) (4 * k)).
Proof.
  intros Hb Hd Hf Hk w. unfold cfg_read32_m1. rewrite cfg_addr_sum by lia. rewrite (u32_small func) by lia.
  set (a := (((32768 + bus) * 32 + dv) * 8 + func mod 4) * 256 + k * 4).
  assert (0 <= func mod 4 < 4) by mlia. assert (2147483648 <= a < 4294967296) as Ha by lia. io.
  change (u16 CONFIG_ADDR_PORT) with CONFIG_ADDR_PORT. change (u16 CONFIG_DATA_PORT) with CONFIG_DATA_PORT.
  assert (wrap 32 a = a) as -> by (unfold wrap; change (2 ^ 32) with 4294967296; apply Z.mod_small; lia).
  rewrite (host_data _ a); [|by cbn [cfg_addr]; rewrite Z.eqb_refl|].
  - replace (space _ _ _ _) with (space bus dv (func mod 4) (4 * k)) by (f_equal; mlia).
    unfold wrap. rewrite Z.mod_small by apply host_word. by eexists.
  - rewrite Z.testbit_true by lia. change (2 ^ 31) with 2147483648. mlia.
Qed.

Definition present (bus dv func : Z) : bool := negb (Z.land (space bus dv func 0) 0xffff =? 0xffff).
Definition multifunction (bus dv : Z) : bool := Z.testbit (space bus dv 0 12) 23.
(** How many of the functions [l] are there. *)
Definition n_present (bus dv : Z) (l : list Z) : Z := Z.of_nat (length (filter (fun f => present bus dv f = true) l)).

Section device.
Context (bus dv : Z) (Hb : 0 <= bus < 256) (Hd : 0 <= dv < 32).

Lemma read_regs_ok func n i : 0 <= func < 8 -> 0 <= i -> i + Z.of_nat n <= 64 ->
  yields (read_regs CfgM1 bus dv func n i) ((fun k => space bus dv (func mod 4) (4 * k)) <$> zseq i n).
Proof.
  intros Hf. revert i. induction n as [|n IH]; intros i Hi Hn; cbn [read_regs zseq]; [apply yields_ret|].
  eapply yields_bind; [apply cfg_read32_m1_ok; lia|]. eapply yields_bind; [apply IH; lia|]. apply yields_ret.
Qed.

Lemma read_dev_info_ok func : 0 <= func < 8 ->
  yields (read_dev_info CfgM1 bus dv func)
    (if present bus dv (func mod 4) then Some ((fun k => space bus dv (func mod 4) (4 * k)) <$> zseq 0 16) else None).
Proof.
  intros Hf. unfold read_dev_info. eapply yields_bind; [apply (cfg_read32_m1_ok bus dv func 0); lia|].
  unfold present, cd_vendor. cbn [zlookup]. change (4 * 0) with 0.
  change (default 0 (zlookup [space bus dv (func mod 4) 0] 0)) with (space bus dv (func mod 4) 0).
  destruct (_ =? 0xffff); cbn [negb]; [apply yields_ret|].
  eapply yields_bind; [apply read_regs_ok; lia|]. apply yields_ret.
Qed.

Lemma enum_funcs_ok n i count : 0 <= i -> i + Z.of_nat n <= 8 ->
  yields (enum_funcs CfgM1 bus dv n i count) (count + n_present bus dv ((fun f => f mod 4) <$> zseq i n)).
Proof.
  revert i count. induction n as [|n IH]; intros i count Hi Hn; cbn [enum_funcs zseq].
  - replace (count + _) with count by (unfold n_present; cbn; lia). apply yields_ret.
  - eapply yields_bind; [apply read_dev_info_ok; lia|].
    replace (count + n_present bus dv ((fun f => f mod 4) <$> i :: zseq (i + 1) n))
      with ((if present bus dv (i mod 4) then count + 1 else count) + n_present bus dv ((fun f => f mod 4) <$> zseq (i + 1) n)).
    + destruct (present bus dv (i mod 4)); apply IH; lia.
    + unfold n_present. cbn [fmap list_fmap]. rewrite filter_cons. destruct (present bus dv (i mod 4)); case_decide; try done; cbn [length]; lia.
Qed.

(** What [enum_dev] counts: of a device with several functions twice the
    first four, and none of the last four. *)
Definition dev_count : Z :=
  if present bus dv 0 then if multifunction bus dv then 2 * n_present bus dv [0; 1; 2; 3] else 1 else 0.

Lemma multifunction_bit (l : list Z) : zlookup l 3 = Some (space bus dv 0 12) ->
  (Z.land (cd_hdr_type l) TYPE_MULTIFUNC =? 0) = negb (multifunction bus dv).
Proof.
  intros El. unfold cd_hdr_type, multifunction. rewrite El. cbn [default from_option id].
  change TYPE_MULTIFUNC with (Z.shiftl 1 7). rewrite land_pow2_testbit by lia. f_equal.
  rewrite Z.land_spec, Z.shiftr_spec by lia. change (7 + 16) with 23. change (Z.testbit 0xff 7) with true. apply andb_true_r.
Qed.

Lemma enum_dev_ok : yields (enum_dev CfgM1 bus dv) dev_count.
Proof.
  unfold enum_dev, dev_count. eapply yields_bind; [apply (cfg_read32_m1_ok bus dv 0 0); lia|]. change (0 mod 4) with 0. change (4 * 0) with 0.
  destruct (present bus dv 0) eqn:Ep; unfold present in Ep; destruct (Z.land _ 0xffff =? 0xffff) eqn:Ev; try done; [|apply yields_ret].
  eapply yields_bind; [apply read_dev_info_ok; lia|]. change (0 mod 4) with 0. unfold present at 1. rewrite Ev. cbn [negb]. cbv iota.
  rewrite multifunction_bit by done. rewrite negb_involutive. destruct (multifunction bus dv); [|apply yields_ret].
  eapply eq_rect; [apply enum_funcs_ok; lia|].
  change ((fun f => f mod 4) <$> zseq 1 7) with [1; 2; 3; 0; 1; 2; 3]. unfold n_present. rewrite !filter_cons, filter_nil.
  assert (present bus dv 0 = true) as -> by (unfold present; by rewrite Ev).
  destruct (present bus dv 1), (present bus dv 2), (present bus dv 3); repeat case_decide; try done; cbn [length]; lia.
Qed.
End device.

Lemma enum_devs_ok bus n i count : 0 <= bus < 256 -> 0 <= i -> i + Z.of_nat n <= 32 ->
  yields (enum_devs CfgM1 bus n i count) (count + foldr Z.add 0 (dev_count bus <$> zseq i n)).
Proof.
  intros Hb. revert i count. induction n as [|n IH]; intros i count Hi Hn; cbn [enum_devs zseq fmap list_fmap foldr].
  - rewrite Z.add_0_r. apply yields_ret.
  - eapply yields_bind; [apply enum_dev_ok; lia|]. rewrite Z.add_assoc. apply IH; lia.
Qed.
Definition bus_count (bus : Z) : Z := foldr Z.add 0 (dev_count bus <$> zseq 0 32).
Lemma enum_buses_ok n i count : 0 <= i -> i + Z.of_nat n <= 256 ->
  yields (enum_buses CfgM1 n i count) (count + foldr Z.add 0 (bus_count <$> zseq i n)).
Proof.
  revert i count. induction n as [|n IH]; intros i count Hi Hn; cbn [enum_buses zseq fmap list_fmap foldr].
  - rewrite Z.add_0_r. apply yields_ret.
  - apply (yields_bind _ _ (bus_count i)); [apply (enum_devs_ok i 32 0 0); lia|]. rewrite Z.add_assoc. apply IH; lia.
Qed.

(** C35. With a PCI BIOS that has mechanism 1, [init_pci] adds up all devices of
    all buses, and leaves the interrupt flag as it was even if the BIOS changes
    it. The count of a device is that of its functions only if it has one:
    functions 4 to 7 are looked for in functions 0 to 3. *)
Theorem init_pci_count int86 regs w w1 :
  int86 0x1a (regs_in 0xb101 0 0 0 0 0) w = Ok (regs, w1) ->
  carry regs = false -> Z.land (eax regs) 0xff00 = 0 -> edx regs = PCI_SIG -> Z.testbit (eax regs) 0 = true ->
  exists w', init_pci int86 w = Ok (Some (foldr Z.add 0 (bus_count <$> zseq 0 256)), w') /\ intr_on w' = intr_on w.
Proof.
  intros E Hc Ha Hd H1. unfold init_pci. rewrite (bind_ok get_intr_flag _ w (intr_on w) w eq_refl), (bind_ok _ _ _ _ _ E).
  rewrite (bind_ok (set_intr_flag (intr_on w)) _ w1 tt (mk_world (trace w1) (intr_on w)) eq_refl).
  rewrite Hc, Ha, Hd, !Z.eqb_refl. cbn [orb negb].
  pose proof (land_pow2_testbit (eax regs) 0 ltac:(lia)) as Hl. rewrite H1 in Hl. change (Z.shiftl 1 0) with 1 in Hl. rewrite Hl. cbn [negb].
  destruct (enum_buses_ok 256 0 0 ltac:(lia) ltac:(lia) (mk_world (trace w1) (intr_on w))) as (w' & E' & I).
  exists w'. by rewrite (bind_ok _ _ _ _ _ E').
Qed.
End host.

(** ** Witness *)

(** One device, with functions 0 and 1. *)
Definition demo_space (bus dv func reg : Z) : Z :=
  if (bus =? 0) && (dv =? 3) && (func <? 2) then if reg =? 12 then 0x800000 else 0x12348086 else 0xffffffff.
Definition demo_host : Device := fun tr _ port =>
  if port =? CONFIG_DATA_PORT then
    match cfg_addr tr with
    | Some a => demo_space ((a / 65536) mod 256) ((a / 2048) mod 32) ((a / 256) mod 8) (4 * ((a / 4) mod 64))
    | None => 0
    end
  else 0.
Lemma demo_host_ok : @PciHost demo_host demo_space.
Proof.
  split.
  - intros. unfold demo_space. by repeat case_match.
  - intros tr a E _. cbv beta delta [dev demo_host]. by rewrite Z.eqb_refl, E.
Qed.

(** A BIOS that leaves interrupts on. *)
Definition demo_bios (inum : Z) (r : int86regs) : IO int86regs := fun w =>
  Ok (mk_regs 0 0 0 0 0x210 PCI_SIG 0 1 0 0 0 0 0, mk_world (trace w) true).

(** Two functions are counted as four. *)
Lemma init_pci_count_witness : exists w',
  @init_pci demo_host demo_bios (mk_world [] false) = Ok (Some 4, w') /\ intr_on w' = false.
Proof.
  destruct (@init_pci_count demo_host demo_space demo_host_ok demo_bios _ (mk_world [] false) _ eq_refl eq_refl eq_refl eq_refl eq_refl)
    as (w' & E & I).
  exists w'. split; [|exact I]. rewrite E. repeat f_equal.
Defined.
