(* ===== verification/Kmain.v ===== *)
(** * The main loop (src/kmain.c)

    After the drivers are set up [pcboot_main] sleeps until an interrupt, then
    shows every key of the keyboard's queue on the console, and every 250 ticks
    the clock. The interrupts of a sleep are the parameter [halt_cpu], the
    demonstrations behind F1 and F2 (src/test) the parameter [demo]. The theorem
    follows the keys from the scan codes of the keyboard to the screen. *)
From S2P Require Import Prelude Ctype Io Ring Intr Keyb Contty Stdio.

Definition KB_F1 : Z := KB_F 1.
Definition KB_F2 : Z := KB_F 2.

Section kmain.
Context `{Device} (ser_putchar : Z -> IO unit).
Context (demo : Z -> contty -> IO contty) (halt_cpu : keyb -> IO keyb).

(** [printf] to the console, as a computation on ports. *)
Definition print (fmt : string) (args : list Z) (t : contty) : IO contty := fun w =>
  match printf ser_putchar no_str (codes fmt) args (t, w) with
  | Ok (_, st) => Ok (out st)
  | Panic => Panic
  | Fault => Fault
  | NoFuel => NoFuel
  end.

(** The body of [while((c = kb_getkey()) >= 0)]. *)
Definition show_key (c : Z) (t : contty) : IO contty :=
  t ← (if (c =? KB_F1) || (c =? KB_F2) then demo c t else mret t);
  if isprint c then print "key: %d '%c'
" [c; s8 c] t
  else print "key: %d
" [c] t.

(** The loop itself. *)
Fixpoint show_keys (fuel : nat) (k : keyb) (t : contty) : IO (keyb * contty) :=
  '(c, k) ← lift (kb_getkey k);
  if c <? 0 then mret (k, t) else
  match fuel with
  | O => lift NoFuel
  | S fuel => t ← show_key c t; show_keys fuel k t
  end.

(** The clock in the corner, when [nticks] is a multiple of 250. *)
Definition show_ticks (nticks : Z) (t : contty) : res contty :=
  if nticks mod 250 =? 0 then
    '(_, st) ← text_of no_str (codes "[%ld]") [nticks];
    Ok (con_printf t 71 0 (out st)).1
  else Ok t.

(** One round of [for(;;)]; the ticks at its end are given. *)
Definition main_round (fuel : nat) (nticks : Z) (k : keyb) (t : contty) : IO (keyb * contty) :=
  k ← halt_cpu k;
  '(k, t) ← show_keys fuel k t;
  t ← lift (show_ticks nticks t);
  mret (k, t).

(** ** From the scan codes to the screen *)

(** The line of a key. *)
Definition key_line (c : Z) : list Z :=
  codes "key: " ++ number 10 c ++ (if isprint c then [32; 39; c; 39] else []) ++ [10].

Lemma key_text c : 0 <= c < 256 ->
  exists st, (if isprint c then text_of no_str (codes "key: %d '%c'
") [c; s8 c] else text_of no_str (codes "key: %d
") [c]) = Ok (Z.of_nat (length (key_line c)), st) /\ out st = key_line c.
Proof.
  intros Hc. pose proof (byte_cases (fun c => match (if isprint c then text_of no_str (codes "key: %d '%c'
") [c; s8 c] else text_of no_str (codes "key: %d
") [c]) with Ok (n, st) => (n =? Z.of_nat (length (key_line c))) && bool_decide (out st = key_line c) | _ => false end)
    ltac:(by vm_compute) c Hc) as Hk. cbv beta in Hk.
  destruct (if isprint c then _ else _) as [[n st]| | |]; [|done..]. apply andb_true_iff in Hk as [->%Z.eqb_eq Hk%bool_decide_eq_true].
  by exists st.
Qed.

Section typed.
Context (ser_total : forall c w, exists w', ser_putchar c w = Ok (tt, w')).

Lemma print_text fmt args t w n st : text_of no_str (codes fmt) args = Ok (n, st) ->
  print fmt args t w = put_all ser_putchar (out st) t w.
Proof.
  intros E. unfold print. destruct (printf_shows ser_putchar ser_total no_str (codes fmt) args n st t w E) as (st' & E' & Ho & _).
  by rewrite E', Ho.
Qed.

Lemma show_key_ok c t w : 0 <= c < 256 -> c <> KB_F1 -> c <> KB_F2 ->
  show_key c t w = put_all ser_putchar (key_line c) t w.
Proof.
  intros Hc H1 H2. unfold show_key. apply Z.eqb_neq in H1, H2. rewrite H1, H2. cbn [orb].
  rewrite (bind_ok (mret t) _ w t w eq_refl).
  destruct (key_text c Hc) as (st & E & <-). destruct (isprint c); by apply (print_text _ _ _ _ _ _ E).
Qed.

(** All keys of the queue are shown in order; then the queue is empty. *)
Lemma show_keys_ok l fuel k t w : keyb_ok k -> queue k = l -> (length l <= fuel)%nat ->
  Forall (fun c => 0 <= c < 256 /\ c <> KB_F1 /\ c <> KB_F2) l ->
  exists k' t' w', show_keys fuel k t w = Ok ((k', t'), w') /\ keyb_ok k' /\ queue k' = [] /\
    put_all ser_putchar (concat (key_line <$> l)) t w = Ok (t', w').
Proof.
  revert fuel k t w. induction l as [|c l IH]; intros fuel k t w Hk Hq Hf Hl.
  - exists k, t, w. destruct fuel; cbn [show_keys]; rewrite (bind_ok _ _ w (-1, k) w) by (unfold lift; by rewrite kb_getkey_nil); by split_and!.
  - apply Forall_cons in Hl as [(Hc & H1 & H2) Hl]. destruct fuel as [|fuel]; [cbn in Hf; lia|]. cbn [show_keys].
    destruct (kb_getkey_cons k c l Hk Hq) as (k1 & E & Hk1 & Hq1). rewrite (bind_ok _ _ w (c, k1) w) by (unfold lift; by rewrite E).
    destruct (Z.ltb_spec c 0); [lia|]. destruct (put_all_total ser_putchar ser_total (key_line c) t w) as [[t1 w1] Ep].
    rewrite (bind_ok _ _ w t1 w1) by by rewrite show_key_ok.
    destruct (IH fuel k1 t1 w1 Hk1 Hq1 ltac:(cbn in Hf; lia) Hl) as (k' & t' & w' & E' & Hk' & Hq' & Ho).
    exists k', t', w'. split_and!; [done..|]. cbn [fmap list_fmap concat]. rewrite put_all_app. by rewrite (bind_ok _ _ _ _ _ Ep).
Qed.

(** [n] keyboard interrupts in a row, and the codes they read. *)
Fixpoint interrupts (n : nat) (k : keyb) : IO keyb :=
  match n with O => mret k | S n => k ← kbintr k; interrupts n k end.
Fixpoint codes_read (n : nat) (w : world) : list Z :=
  match n with O => [] | S n => port_code w :: codes_read n (after_code w) end.
(** The keys pressed by a sequence of codes. *)
Fixpoint presses (ext : bool) (l : list Z) : list Z :=
  match l with
  | [] => []
  | c :: l => if c =? 0xe0 then presses true l else
              if c <? 128 then key_of ext c :: presses false l else presses false l
  end.

Lemma key_of_range e c : 0 <= c < 128 -> 0 <= key_of e c < 256.
Proof.
  intros Hc. unfold key_of. rewrite Z.mod_small by lia. destruct (scan_keys e c Hc) as (key & E & Hr). by rewrite E.
Qed.
Lemma presses_range e l : Forall (fun c => 0 <= c < 256) l -> Forall (fun c => 0 <= c < 256) (presses e l).
Proof.
  intros Hl. revert e. induction Hl as [|c l Hc _ IH]; intros e; cbn [presses]; [done|].
  destruct (c =? 0xe0); [done|]. destruct (Z.ltb_spec c 128); [|done]. constructor; [apply key_of_range; lia|done].
Qed.
Lemma codes_read_range n w : Forall (fun c => 0 <= c < 256) (codes_read n w).
Proof. revert w. induction n as [|n IH]; intros w; constructor; [apply (wrap_range 8); lia|apply IH]. Qed.

Lemma interrupts_ok n k w : keyb_ok k -> KB_DEL ∉ presses (ext k) (codes_read n w) ->
  (length (queue k ++ presses (ext k) (codes_read n w)) < 64)%nat ->
  exists k' w', interrupts n k w = Ok (k', w') /\ keyb_ok k' /\ queue k' = queue k ++ presses (ext k) (codes_read n w).
Proof.
  revert k w. induction n as [|n IH]; intros k w Hk Hdel Hlen; cbn [interrupts codes_read presses] in *.
  { exists k, w. split_and!; [done..|]. by rewrite app_nil_r. }
  assert (0 <= port_code w < 256) as Hcode by (apply (wrap_range 8); lia).
  assert (port_code w < 128 -> reboots k (key_of (ext k) (port_code w)) = false) as Hre.
  { intros Hp. unfold reboots. destruct (Z.eqb_spec (port_code w) 0xe0); [lia|]. destruct (Z.ltb_spec (port_code w) 128); [|lia].
    destruct (Z.eqb_spec (key_of (ext k) (port_code w)) KB_DEL) as [E|]; [|done]. rewrite E in Hdel. by apply not_elem_of_cons in Hdel as [? _]. }
  destruct (kbintr_spec k w Hk Hre) as (k1 & E1 & Hk1 & Hcase). rewrite (bind_ok _ _ _ _ _ E1).
  destruct (Z.eqb_spec (port_code w) 0xe0) as [E0|E0].
  - subst k1. destruct (IH _ (after_code w) Hk1 Hdel Hlen) as (k' & w' & E & Hk' & Hq). by exists k', w'.
  - destruct Hcase as (He & Hq1 & _). destruct (Z.ltb_spec (port_code w) 128).
    + assert (queue k1 = queue k ++ [key_of (ext k) (port_code w)]) as Hq1'.
      { rewrite Hq1. unfold keep_last. rewrite length_app in *. cbn [length] in *. destruct (Z.ltb_spec (Z.of_nat (length (queue k) + 1)) 64); [done|lia]. }
      rewrite <- He in Hdel, Hlen |- *. apply not_elem_of_cons in Hdel as [_ Hdel].
      destruct (IH k1 (after_code w) Hk1 Hdel) as (k' & w' & E & Hk' & Hq); [rewrite Hq1', <- app_assoc; exact Hlen|].
      exists k', w'. split_and!; [done..|]. rewrite Hq, Hq1', <- app_assoc. cbn [app]. by rewrite He.
    + rewrite <- He in Hdel, Hlen |- *. rewrite <- Hq1 in Hlen.
      destruct (IH k1 (after_code w) Hk1 Hdel Hlen) as (k' & w' & E & Hk' & Hq). exists k', w'. split_and!; [done..|]. by rewrite Hq, Hq1.
Qed.
End typed.
End kmain.

(** What is typed appears on the screen: if [n] interrupts of the keyboard
    wake the main loop, of which at most 63 press a key, then the round shows
    the keys pressed, in order, one line each, and leaves the queue empty for
    the next sleep. Control-alt-delete and the keys of the demonstrations are
    left out. *)
Theorem typed_keys_shown `{Device} ser_putchar demo n nticks k t w :
  (forall c w, exists w', ser_putchar c w = Ok (tt, w')) ->
  keyb_ok k -> queue k = [] -> nticks mod 250 <> 0 ->
  let keys := presses (ext k) (codes_read n w) in
  (length keys < 64)%nat -> KB_DEL ∉ keys -> KB_F1 ∉ keys -> KB_F2 ∉ keys ->
  exists w1 k' t' w', main_round ser_putchar demo (interrupts n) 63 nticks k t w = Ok ((k', t'), w') /\
    keyb_ok k' /\ queue k' = [] /\
    put_all ser_putchar (concat (key_line <$> keys)) t w1 = Ok (t', w').
Proof.
  intros Hser Hk Hq Ht keys Hlen Hdel H1 H2. unfold main_round.
  destruct (interrupts_ok n k w Hk Hdel) as (k1 & w1 & E1 & Hk1 & Hq1); [by rewrite Hq|]. rewrite (bind_ok _ _ _ _ _ E1).
  rewrite Hq in Hq1. cbn [app] in Hq1. fold keys in Hq1.
  destruct (show_keys_ok ser_putchar demo Hser keys 63 k1 t w1 Hk1 Hq1 ltac:(lia)) as (k' & t' & w' & E & Hk' & Hq' & Hp).
  { pose proof (presses_range (ext k) _ (codes_read_range n w)) as Hr. fold keys in Hr. rewrite Forall_forall in Hr |- *.
    intros c Hc. split; [by apply Hr|split; intros ->; done]. }
  exists w1, k', t', w'. rewrite (bind_ok _ _ _ _ _ E). unfold show_ticks. apply Z.eqb_neq in Ht. rewrite Ht. by split_and!.
Qed.

(** No serial line. *)
Definition no_serial (_ : Z) : IO unit := fun w => Ok (tt, w).
Definition no_demo (_ : Z) (t : contty) : IO contty := fun w => Ok (t, w).

(** ['a'] pressed and released. *)
Lemma typed_keys_shown_witness : exists w1 k' t' w',
  main_round no_serial no_demo (@interrupts (script [0x1e; 0x9e]) 2) 63 1 keyb0 con0 (mk_world [] true)
    = Ok ((k', t'), w') /\ queue k' = [] /\ put_all no_serial (codes "key: 97 'a'
") con0 w1 = Ok (t', w').
Proof.
  destruct (@typed_keys_shown (script [0x1e; 0x9e]) no_serial no_demo 2 1 keyb0 con0 (mk_world [] true)
    (fun _ w => ex_intro _ w eq_refl) keyb0_ok eq_refl ltac:(done) ltac:(by vm_compute; lia) ltac:(vm_compute; set_solver)
    ltac:(vm_compute; set_solver) ltac:(vm_compute; set_solver)) as (w1 & k' & t' & w' & E & _ & Hq & Hp).
  exists w1, k', t', w'. by split_and!.
Defined.

(** The clock is drawn at the right end of the first line. *)
Lemma clock_shown t : show_ticks 500 t = Ok (con_printf t 71 0 (codes "[500]")).1.
Proof. reflexivity. Qed.
