(* ===== verification/Init.v ===== *)
(** * Starting the kernel (src/kmain.c)

    [pcboot_main] up to its loop: the drivers' initialisations in their order,
    over the state of all of them. What each of them does is in its own file;
    here it is shown that they all end, that interrupts are enabled only then,
    and what state the main loop and the interrupts find. *)
From S2P Require Import Prelude Mem Io Intr Timer Ring Serial Keyb Psaux Contty Int86 AuSb Pci.

(** ** Computations that end and keep the interrupt flag *)
Definition tame {A} (m : IO A) : Prop := forall w, exists a w', m w = Ok (a, w') /\ intr_on w' = intr_on w.

Create HintDb tame discriminated.

Lemma tame_ret {A} (a : A) : tame (mret a).
Proof. intros w. by exists a, w. Qed.
Lemma tame_bind {A B} (m : IO A) (f : A -> IO B) : tame m -> (forall a, tame (f a)) -> tame (m ≫= f).
Proof.
  intros Hm Hf w. destruct (Hm w) as (a & w1 & E1 & I1). destruct (Hf a w1) as (b & w2 & E2 & I2).
  exists b, w2. rewrite (bind_ok _ _ _ _ _ E1). split; [done|congruence].
Qed.
Lemma bind_panic {A B} (m : IO A) (f : A -> IO B) w : m w = Panic -> (m ≫= f) w = Panic.
Proof. intros E. unfold mbind, io_mbind. by rewrite E. Qed.
Lemma tame_input `{Device} width port : tame (input width port).
Proof. intros w. by eexists _, _. Qed.
Lemma tame_output width v port : tame (output width v port).
Proof. intros w. by eexists _, _. Qed.
#[export] Hint Resolve tame_ret tame_input tame_output : tame.

(** Goes through binds and cases. *)
Ltac tame_step :=
  match goal with
  | |- forall _, _ => intros ?
  | |- tame (_ ≫= _) => apply tame_bind
  | |- tame (let '(_, _) := ?x in _) => destruct x
  | |- tame (if ?b then _ else _) => destruct b
  | |- tame (match ?x with _ => _ end) => destruct x
  | |- tame _ => solve [eauto with tame]
  end.
Ltac tame := unfold inb, inw, inl, outb, outw, outl, iodelay in *; repeat tame_step.

Section devices.
Context `{Device}.

(** *** Console, keyboard and mouse *)
Lemma con_init_tame {S} (open : Z -> Z -> Z -> S -> IO S) t s :
  tame (open 0 9600 Contty.SER_8N1 s) -> tame (con_init open t s).
Proof. intros Ho. unfold con_init, con_show_cursor, crtc_setstart, crtc_cursor, crtc_write, crtc_read. cbv zeta. tame. Qed.

Lemma kb_poll_tame n ready : tame (kb_poll n ready).
Proof. induction n as [|n IH]; cbn [kb_poll]; tame. Qed.
Lemma delays_tame n : tame (delays n).
Proof. induction n as [|n IH]; cbn [delays]; tame. Qed.
#[local] Hint Resolve kb_poll_tame delays_tame : tame.

Lemma get_ccb_tame : tame get_ccb.
Proof. unfold get_ccb, kb_send_cmd, kb_read_data, kb_wait_read, kb_wait_write. tame. Qed.
Lemma set_ccb_tame v : tame (set_ccb v).
Proof. unfold set_ccb, kb_send_cmd, kb_send_data, kb_read_data, kb_wait_read, kb_wait_write. tame. Qed.
#[local] Hint Resolve get_ccb_tame set_ccb_tame : tame.

Lemma init_mouse_tame m : tame (init_mouse m).
Proof. unfold init_mouse, kb_send_cmd, kb_send_data, kb_read_data, kb_wait_read, kb_wait_write. tame. Qed.

(** *** PCI *)
Lemma cfg_read32_tame bus dv func reg : tame (cfg_read32 CfgM1 bus dv func reg).
Proof. unfold cfg_read32, cfg_read32_m1. tame. Qed.
#[local] Hint Resolve cfg_read32_tame : tame.
Lemma read_regs_tame bus dv func n i : tame (read_regs CfgM1 bus dv func n i).
Proof. revert i. induction n as [|n IH]; intros i; cbn [read_regs]; tame. Qed.
#[local] Hint Resolve read_regs_tame : tame.
Lemma read_dev_info_tame bus dv func : tame (read_dev_info CfgM1 bus dv func).
Proof. unfold read_dev_info. tame. Qed.
#[local] Hint Resolve read_dev_info_tame : tame.
Lemma enum_funcs_tame bus dv n i c : tame (enum_funcs CfgM1 bus dv n i c).
Proof. revert i c. induction n as [|n IH]; intros i c; cbn [enum_funcs]; tame. Qed.
#[local] Hint Resolve enum_funcs_tame : tame.
Lemma enum_dev_tame bus dv : tame (enum_dev CfgM1 bus dv).
Proof. unfold enum_dev. tame. Qed.
#[local] Hint Resolve enum_dev_tame : tame.
Lemma enum_devs_tame bus n i c : tame (enum_devs CfgM1 bus n i c).
Proof. revert i c. induction n as [|n IH]; intros i c; cbn [enum_devs]; tame. Qed.
#[local] Hint Resolve enum_devs_tame : tame.
Lemma enum_buses_tame n i c : tame (enum_buses CfgM1 n i c).
Proof. revert i c. induction n as [|n IH]; intros i c; cbn [enum_buses]; unfold enum_bus; tame. Qed.

(** The BIOS comes back, and does not offer mechanism 2 alone; it may change the
    interrupt flag. *)
Definition pci_bios (int86 : Z -> int86regs -> IO int86regs) : Prop := forall w, exists r w',
  int86 0x1a (regs_in 0xb101 0 0 0 0 0) w = Ok (r, w') /\ (carry r = true \/ Z.land (eax r) 1 <> 0 \/ Z.land (eax r) 2 = 0).

Lemma init_pci_tame int86 : pci_bios int86 -> tame (init_pci int86).
Proof.
  intros Hb w. destruct (Hb w) as (r & w1 & E & Hr). unfold init_pci.
  rewrite (bind_ok get_intr_flag _ w (intr_on w) w eq_refl), (bind_ok _ _ _ _ _ E).
  rewrite (bind_ok (Io.set_intr_flag (intr_on w)) _ w1 tt (mk_world (trace w1) (intr_on w)) eq_refl).
  destruct (carry r || negb (Z.land (eax r) 0xff00 =? 0) || negb (edx r =? PCI_SIG)) eqn:Eb; [by eexists _, _|].
  destruct (Z.eqb_spec (Z.land (eax r) 1) 0), (Z.eqb_spec (Z.land (eax r) 2) 0); cbn [negb].
  - by eexists _, _.
  - apply orb_false_iff in Eb as [[Ec _]%orb_false_iff _]. destruct Hr as [Hr|[Hr|Hr]]; congruence.
  - exact (tame_bind _ _ (enum_buses_tame 256 0 0) (fun n => tame_ret (Some n)) (mk_world (trace w1) (intr_on w))).
  - exact (tame_bind _ _ (enum_buses_tame 256 0 0) (fun n => tame_ret (Some n)) (mk_world (trace w1) (intr_on w))).
Qed.

(** *** Sound Blaster *)

(** At a base port there is either no card, or one whose DSP takes and gives
    bytes within [fuel] polls. *)
Definition card_ok (fuel : nat) (st : sb) : Prop :=
  (forall tr, wrap 8 (dev tr 8 (u16 (REG_RDATA st))) <> 0xaa) \/ (dsp_ready fuel st /\ dsp_answers fuel st).

Lemma write_dsp_tame fuel st v : dsp_ready fuel st -> tame (write_dsp fuel st v).
Proof.
  intros Hr [tr b]. destruct (Hr tr) as (k & Hk & E). destruct (wait_write_ok fuel st k tr b Hk E) as [n En].
  unfold write_dsp. rewrite (bind_ok _ _ _ _ _ En). by eexists _, _.
Qed.
Lemma read_dsp_tame fuel st : dsp_answers fuel st -> tame (read_dsp fuel st).
Proof.
  intros Hr [tr b]. destruct (Hr tr) as (k & Hk & E). destruct (wait_read_ok fuel st k tr b Hk E) as [n En].
  unfold read_dsp. rewrite (bind_ok _ _ _ _ _ En). by eexists _, _.
Qed.

Lemma poll_reset_tame n st : tame (poll_reset n st).
Proof. induction n as [|n IH]; cbn [poll_reset]; tame. Qed.
Lemma sb_reset_dsp_tame st : tame (sb_reset_dsp st).
Proof. unfold sb_reset_dsp. pose proof poll_reset_tame. tame. Qed.

(** An answer to the reset is a byte read. *)
Lemma poll_reset_card n st w w' : poll_reset n st w = Ok (0, w') ->
  exists tr, wrap 8 (dev tr 8 (u16 (REG_RDATA st))) = 0xaa.
Proof.
  revert w. induction n as [|n IH]; intros w; cbn [poll_reset]; [done|]. intros (v & w1 & _ & E)%bind_inv.
  destruct (negb _); [|by apply IH in E]. apply bind_inv in E as (d & w2 & Ed & E).
  destruct (Z.eqb_spec d 0xaa) as [->|]; [|by apply IH in E]. exists (trace w1). by injection Ed as Ed _.
Qed.
Lemma reset_card st w w' : sb_reset_dsp st w = Ok (0, w') -> exists tr, wrap 8 (dev tr 8 (u16 (REG_RDATA st))) = 0xaa.
Proof.
  unfold sb_reset_dsp. intros E. do 5 (apply bind_inv in E as (? & ? & _ & E)). by apply poll_reset_card in E.
Qed.

Lemma sb_configure_tame fuel st : dsp_ready fuel st -> dsp_answers fuel st -> tame (sb_configure fuel st).
Proof.
  intros Hw Hr. pose proof (write_dsp_tame fuel st) as H1. pose proof (read_dsp_tame fuel st Hr) as H2.
  unfold sb_configure, get_dsp_version, sb16_detect_irq, sb16_detect_dma, write_mix, read_mix. cbv zeta. tame.
Qed.

Lemma detect_loop_tame fuel n i st :
  (forall st i, 0 <= i < 6 -> base_port st = 0x200 + Z.shiftl (i + 1) 4 -> card_ok fuel st) ->
  0 <= i -> i + Z.of_nat n <= 6 -> tame (detect_loop fuel n i st).
Proof.
  intros Hc. revert i st. induction n as [|n IH]; intros i st Hi Hn; cbn [detect_loop]; [tame|]. cbv zeta.
  set (st1 := set_base _ st). intros w. destruct (sb_reset_dsp_tame st1 w) as (r & w1 & E & I).
  rewrite (bind_ok _ _ _ _ _ E), <- I. destruct (Z.eqb_spec r 0) as [->|]; [|apply IH; lia].
  destruct (Hc st1 i ltac:(lia) eq_refl) as [Hno|[H1 H2]]; [|by apply sb_configure_tame].
  apply reset_card in E as [tr E]. by destruct (Hno tr).
Qed.

Definition cards_ok (fuel : nat) : Prop :=
  forall st i, 0 <= i < 6 -> base_port st = 0x200 + Z.shiftl (i + 1) 4 -> card_ok fuel st.

Lemma sb_detect_tame fuel st : cards_ok fuel -> tame (sb_detect fuel st).
Proof. intros Hc. by apply detect_loop_tame. Qed.
End devices.

(** ** The kernel *)

(** The handlers that are installed: [kbintr], [psaux_intr], [timer_handler]
    and [recv_intr] of serial.c. *)
Inductive handler := HKeyb | HMouse | HTimer | HSerial.

(** The alarms that may be set: [floppy_motors_off]. *)
Inductive alarm := AMotors.
#[export] Instance alarm_eq_dec : EqDecision alarm.
Proof. solve_decision. Defined.

(** The variables of all drivers. *)
Record kernel := mk_kernel {
  k_gdt : list desc; k_intr : intr handler; k_con : contty; k_serial : serial; k_keyb : keyb; k_mouse : mouse;
  k_timer : timer alarm; k_mem : pmem;
  k_pci : option Z; k_audio : audio; k_sb : sb }.

(** As they are loaded. *)
Definition con0 : contty := mk_con ∅ 0 0 0x07 0 0 0 0 true.
Definition mouse0 : mouse := mk_mouse 0 0 0 false [0; 0; 0; 0] false [0; 0; 0] 0 [0; 0; 0] 0.
(** The port [con_init] opens. *)
Definition com1 : serial_port := mk_port UART1_BASE UART1_IRQ true (mk_ring (replicate 256 0) 0 0).
Definition sb0 : sb := mk_sb 0 0 0 0 false 0 0.
Definition intr_start : intr handler := mk_intr (replicate 256 null_desc) (replicate 256 None) 0.
Definition timer0 : timer alarm := mk_timer 0 [].
Definition pmem0 : pmem := mk_pmem ∅ 0 0 false.

Section init.
Context `{Device}.
(** Entry points of the interrupts, the end of the kernel's image, and what the
    boot loader found out about memory. *)
Context (entry : Z -> Z) (entry_default irq7_spurious irq15_spurious mem_start : Z).
Context (boot_mem_map : list mem_range) (boot_mem_map_size : Z).
Context (int86 : Z -> int86regs -> IO int86regs) (fuel : nat).

(** [ser_open] with the tables it changes. *)
Definition open_port (pidx baud mode : Z) (s : intr handler * serial) : IO (intr handler * serial) :=
  '(_, ist, ser) ← ser_open s.1 HSerial s.2 pidx baud mode; mret (ist, ser).

Definition pcboot_setup : IO kernel :=
  let gdt := init_segm in
  st ← init_intr entry entry_default irq7_spurious irq15_spurious intr_start;
  '(t, (st, ser)) ← con_init open_port con0 (st, serial0);
  '(st, k) ← kb_init st HKeyb keyb0;
  '(st, m) ← init_psaux st HMouse mouse0;
  pm ← lift (init_mem mem_start boot_mem_map boot_mem_map_size pmem0);
  n ← init_pci int86;
  st ← init_timer st HTimer;
  '(a, s) ← audio_init fuel (mk_audio false None 0) sb0;
  mret (mk_kernel gdt st t ser k m timer0 pm n a s).

(** [pcboot_main] up to its message. *)
Definition pcboot_init : IO kernel := k ← pcboot_setup; _ ← enable_intr; mret k.

(** The handler of interrupt [n]. *)
Definition handler_of (n : Z) : option handler :=
  if n =? 32 then Some HTimer else if n =? 33 then Some HKeyb
  else if n =? 36 then Some HSerial else if n =? 44 then Some HMouse else None.

(** What the loop and the interrupts find. *)
Record kernel_ok (K : kernel) : Prop := {
  ok_gdt : k_gdt K = init_segm;
  ok_pending : eoi_pending (k_intr K) = 0;
  ok_slots n : 0 <= n < 256 -> zlookup (intr_func (k_intr K)) n = Some (handler_of n) /\
    zlookup (idt (k_intr K)) n = Some (gate n (entry_of entry entry_default irq7_spurious irq15_spurious n));
  ok_serial : ports (k_serial K) = [com1; port0];
  ok_keyb : keyb_ok (k_keyb K) /\ queue (k_keyb K) = [];
  ok_mouse : exists p, k_mouse K = mk_mouse 0 0 0 p [0; 0; 319; 199] true [0; 0; 0] 0 [0; 0; 0] 0;
  ok_timer : k_timer K = timer0;
  ok_mem : pmem_ok (k_mem K) /\ forall pg, 0 <= pg < 1048576 ->
    IS_FREE (k_mem K) pg = existsb (range_pages mem_start pg) (take (Z.to_nat boot_mem_map_size) boot_mem_map) &&
      (ADDR_TO_PAGE (u32 (mem_start + bmsize (k_mem K) - 1)) <? pg);
  ok_audio : have_drv (k_audio K) = true -> sb_ok (k_sb K) }.

(** [st'] is [st] with the handler [h] of interrupt [n]. *)
Record installed (st : intr handler) (n : Z) (h : handler) (st' : intr handler) : Prop := {
  in_idt : idt st' = idt st;
  in_pending : eoi_pending st' = eoi_pending st;
  in_length : length (intr_func st') = 256%nat;
  in_slots k : zlookup (intr_func st') k = if decide (k = n) then Some (Some h) else zlookup (intr_func st) k }.

Lemma interrupt_installs st n h w : length (intr_func st) = 256%nat -> 0 <= n < 256 ->
  exists st', interrupt st n (Some h) w = Ok (st', w) /\ installed st n h st'.
Proof.
  intros Hl Hn. destruct (interrupt_spec st n (Some h) w Hl Hn) as (st' & E & H1 & H2 & H3 & H4). by exists st'.
Qed.

Lemma open_port_ok st w : length (intr_func st) = 256%nat ->
  exists st' ser w', open_port 0 9600 Contty.SER_8N1 (st, serial0) w = Ok ((st', ser), w') /\ intr_on w' = intr_on w /\
    installed st 36 HSerial st' /\
    ports ser = [com1; port0].
Proof.
  intros Hl. destruct (interrupt_installs st 36 HSerial w Hl ltac:(lia)) as (st' & E & Hi).
  assert (exists r ser w', ser_open st HSerial serial0 0 9600 Contty.SER_8N1 w = Ok ((r, st', ser), w') /\ intr_on w' = intr_on w /\
    ports ser = [com1; port0])
    as (r & ser & w' & Es & I & Hp).
  { unfold ser_open. change (9600 =? 0) with false. change ((0 <? 0) || (1 <? 0)) with false. cbv beta iota zeta.
    rewrite (bind_ok (lift (Serial.port_of serial0 0)) _ w port0 w eq_refl). change (negb (base port0 =? 0)) with false. cbv beta iota.
    rewrite (bind_ok (lift (of_option (zlookup uart_base 0))) _ w UART1_BASE w eq_refl).
    rewrite (bind_ok (lift (of_option (zlookup uart_irq 0))) _ w UART1_IRQ w eq_refl). change (IRQ_TO_INTR UART1_IRQ) with 36.
    rewrite (bind_ok _ _ _ _ _ E). do 8 (erewrite bind_ok by reflexivity). eexists _, _, _. split; [reflexivity|]. by split. }
  exists st', ser, w'. unfold open_port. rewrite (bind_ok _ _ _ _ _ Es). by split_and!.
Qed.

Lemma kb_init_ok st w : length (intr_func st) = 256%nat ->
  exists st' k w', kb_init st HKeyb keyb0 w = Ok ((st', k), w') /\ intr_on w' = intr_on w /\ installed st 33 HKeyb st' /\
    keyb_ok k /\ queue k = [].
Proof.
  intros Hl. pose proof get_ccb_tame as Hg. pose proof set_ccb_tame as Hs. unfold kb_init. cbv zeta.
  assert (tame (kb_set_translate true)) as (? & w1 & E1 & I1) % (fun H => H w) by (unfold kb_set_translate; tame).
  rewrite (bind_ok _ _ _ _ _ E1). destruct (interrupt_installs st 33 HKeyb w1 Hl ltac:(lia)) as (st' & E & Hi).
  change (IRQ_TO_INTR KB_IRQ) with 33. rewrite (bind_ok _ _ _ _ _ E).
  assert (tame kb_intr_enable) as (? & w2 & E2 & I2) % (fun H => H w1) by (unfold kb_intr_enable; tame).
  rewrite (bind_ok _ _ _ _ _ E2). eexists _, _, _. split; [reflexivity|]. split; [congruence|]. split; [done|].
  split; [|done]. split; [by split|done].
Qed.

Lemma init_mouse_fields m w m' w' : init_mouse m w = Ok (m', w') -> exists p,
  m' = mk_mouse (mx m) (my m) (bnstate m) p (bounds m) true (data m) (idx m) (pkt m) (poll_state m).
Proof. unfold init_mouse. intros E. do 15 (apply bind_inv in E as (? & ? & _ & E)). apply io_mret_inv in E as [-> _]. by eexists. Qed.

Lemma init_psaux_ok st w : length (intr_func st) = 256%nat ->
  exists st' p w', init_psaux st HMouse mouse0 w = Ok ((st', mk_mouse 0 0 0 p [0; 0; 319; 199] true [0; 0; 0] 0 [0; 0; 0] 0), w') /\
    intr_on w' = intr_on w /\ installed st 44 HMouse st'.
Proof.
  intros Hl. unfold init_psaux. destruct (interrupt_installs st 44 HMouse w Hl ltac:(lia)) as (st' & E & Hi).
  change (IRQ_TO_INTR 12) with 44. rewrite (bind_ok _ _ _ _ _ E). destruct (init_mouse_tame mouse0 w) as (m & w1 & E1 & I1).
  rewrite (bind_ok _ _ _ _ _ E1). apply init_mouse_fields in E1 as [p ->]. eexists _, p, _. split; [reflexivity|]. by split_and!.
Qed.

Lemma init_timer_ok st w : length (intr_func st) = 256%nat ->
  exists st' w', init_timer st HTimer w = Ok (st', w') /\ intr_on w' = intr_on w /\ installed st 32 HTimer st'.
Proof.
  intros Hl. unfold init_timer. cbv zeta. do 3 (erewrite bind_ok by reflexivity).
  change (IRQ_TO_INTR 0) with 32. match goal with |- context [interrupt _ _ _ ?w0] =>
    destruct (interrupt_installs st 32 HTimer w0 Hl ltac:(lia)) as (st' & E & Hi) end.
  rewrite E. by eexists _, _.
Qed.

Lemma con_start_ok st w : length (intr_func st) = 256%nat ->
  exists t st' ser w', con_init open_port con0 (st, serial0) w = Ok ((t, (st', ser)), w') /\ intr_on w' = intr_on w /\
    installed st 36 HSerial st' /\
    ports ser = [com1; port0].
Proof.
  intros Hl. assert (tame (con_init open_port con0 (st, serial0))) as Ht.
  { apply con_init_tame. intros w1. destruct (open_port_ok st w1 Hl) as (st' & ser & w' & E & I & _). by eexists _, _. }
  destruct (Ht w) as ([t [st' ser]] & w' & E & I). exists t, st', ser, w'. split; [done|]. split; [done|].
  destruct (open_port_ok st w Hl) as (st2 & ser2 & w2 & E2 & _ & Hi & Hp).
  unfold con_init in E. rewrite (bind_ok _ _ _ _ _ E2) in E. do 5 (apply bind_inv in E as (? & ? & _ & E)).
  apply io_mret_inv in E as [[= _ -> ->] _]. by split.
Qed.

(** What does not touch memory. *)
Lemma setup_front w : exists st1 w1 t st2 ser w2 st3 k w3 st4 m w4,
  init_intr entry entry_default irq7_spurious irq15_spurious intr_start w = Ok (st1, w1) /\
  con_init open_port con0 (st1, serial0) w1 = Ok ((t, (st2, ser)), w2) /\
  kb_init st2 HKeyb keyb0 w2 = Ok ((st3, k), w3) /\ init_psaux st3 HMouse mouse0 w3 = Ok ((st4, m), w4) /\
  intr_on w4 = intr_on w /\ eoi_pending st4 = 0 /\ length (intr_func st4) = 256%nat /\
  (forall n, 0 <= n < 256 -> zlookup (intr_func st4) n = Some (if n =? 32 then None else handler_of n) /\
    zlookup (idt st4) n = Some (gate n (entry_of entry entry_default irq7_spurious irq15_spurious n))) /\
  (ports ser = [com1; port0]) /\
  (keyb_ok k /\ queue k = []) /\ exists p, m = mk_mouse 0 0 0 p [0; 0; 319; 199] true [0; 0; 0] 0 [0; 0; 0] 0.
Proof.
  destruct (init_intr_spec entry entry_default irq7_spurious irq15_spurious intr_start w) as (st1 & E1 & P1 & L1 & S1); [done..|].
  match type of E1 with _ = Ok (_, ?w0) => set (w1 := w0) in E1 end.
  destruct (con_start_ok st1 w1 L1) as (t & st2 & ser & w2 & E2 & I2 & H2 & Hser).
  destruct (kb_init_ok st2 w2 (in_length _ _ _ _ H2)) as (st3 & k & w3 & E3 & I3 & H3 & Hk).
  destruct (init_psaux_ok st3 w3 (in_length _ _ _ _ H3)) as (st4 & p & w4 & E4 & I4 & H4).
  exists st1, w1, t, st2, ser, w2, st3, k, w3, st4. eexists _, w4. destruct H2 as [D2 Q2 _ G2], H3 as [D3 Q3 _ G3], H4 as [D4 Q4 L4 G4].
  refine (conj E1 (conj E2 (conj E3 (conj E4 (conj _ (conj _ (conj L4 (conj _ (conj Hser (conj Hk (ex_intro _ p eq_refl))))))))))); clear E1 E2 E3 E4.
  - by rewrite I4, I3, I2.
  - by rewrite Q4, Q3, Q2.
  - intros n Hn. split; [|rewrite D4, D3, D2; by apply S1].
    rewrite G4, G3, G2, (proj1 (S1 n ltac:(lia))). unfold handler_of. repeat case_decide; subst; try done.
    destruct (Z.eqb_spec n 32), (Z.eqb_spec n 33), (Z.eqb_spec n 36), (Z.eqb_spec n 44); try done; lia.
Qed.

(** A BIOS and cards that answer. *)
Hypothesis Hbios : pci_bios int86.
Hypothesis Hcards : cards_ok fuel.

Lemma audio_init_ok w : exists a s w', audio_init fuel (mk_audio false None 0) sb0 w = Ok ((a, s), w') /\
  intr_on w' = intr_on w /\ (have_drv a = true -> sb_ok s).
Proof.
  destruct (sb_detect_tame fuel sb0 Hcards w) as ([r s] & w' & E & I). unfold audio_init. rewrite (bind_ok _ _ _ _ _ E).
  destruct (Z.eqb_spec r 0) as [->|Hr]; cbn [negb]; eexists _, s, w'; (split; [reflexivity|]); (split; [exact I|]).
  - discriminate.
  - intros _. exact (sb_detect_ok _ _ _ _ _ _ E Hr).
Qed.

(** With a memory map it can use the kernel sets itself up. *)
Lemma pcboot_setup_ok w : 0 < boot_mem_map_size <= 16 -> exists K w1,
  pcboot_setup w = Ok (K, w1) /\ intr_on w1 = intr_on w /\ kernel_ok K.
Proof.
  destruct (setup_front w) as (st1 & w1 & t & st2 & ser & w2 & st3 & k & w3 & st4 & m & w4 & E1 & E2 & E3 & E4 & I4 & P4 & L4 & S4
    & Hser & Hk & Hm).
  intros Hn. destruct (proj2 (init_mem_pages mem_start boot_mem_map boot_mem_map_size pmem0) Hn) as (pm & Em & Hpm & _ & Hfree).
  destruct (init_pci_tame int86 Hbios w4) as (n & w5 & E5 & I5). destruct (init_timer_ok st4 w5 L4) as (st6 & w6 & E6 & I6 & H6).
  destruct (audio_init_ok w6) as (a & s & w7 & E8 & I8 & Ha).
  exists (mk_kernel init_segm st6 t ser k m timer0 pm n a s), w7. split.
  { unfold pcboot_setup. cbv zeta. rewrite (bind_ok _ _ _ _ _ E1), (bind_ok _ _ _ _ _ E2), (bind_ok _ _ _ _ _ E3), (bind_ok _ _ _ _ _ E4).
    rewrite (bind_ok (lift (init_mem _ _ _ _)) _ w4 pm w4) by (unfold lift; rewrite Em; reflexivity).
    rewrite (bind_ok _ _ _ _ _ E5), (bind_ok _ _ _ _ _ E6), (bind_ok _ _ _ _ _ E8). reflexivity. }
  clear E1 E2 E3 E4 E5 E6 E8. split; [rewrite I8, I6, I5; exact I4|].
  destruct H6 as [D6 Q6 _ G6]. split; cbn [k_gdt k_intr k_serial k_keyb k_mouse k_mem k_audio k_sb]; try done; [congruence|].
  intros i Hi. destruct (S4 i Hi) as [Hs Hd]. rewrite G6, D6, Hs. split; [|done]. unfold handler_of. case_decide.
  - by subst i.
  - by destruct (Z.eqb_spec i 32).
Qed.

(** Any other map is refused. *)
Lemma pcboot_setup_bad w : boot_mem_map_size <= 0 \/ 16 < boot_mem_map_size -> pcboot_setup w = Panic.
Proof.
  destruct (setup_front w) as (st1 & w1 & t & st2 & ser & w2 & st3 & k & w3 & st4 & m & w4 & E1 & E2 & E3 & E4 & _).
  intros Hn. unfold pcboot_setup. cbv zeta.
  rewrite (bind_ok _ _ _ _ _ E1), (bind_ok _ _ _ _ _ E2), (bind_ok _ _ _ _ _ E3), (bind_ok _ _ _ _ _ E4).
  apply bind_panic. unfold lift. rewrite (proj1 (init_mem_pages mem_start boot_mem_map boot_mem_map_size pmem0) Hn). reflexivity.
Qed.

(** What a start that ends leaves behind. *)
Lemma enabled_inv {A} (m : IO A) w a w' : (a ← m; _ ← enable_intr; mret a) w = Ok (a, w') ->
  exists w1, m w = Ok (a, w1) /\ intr_on w' = true.
Proof. intros (a1 & w1 & E & [= <- <-])%bind_inv. by exists w1. Qed.
Lemma same_result {A} (r : res A) a b : r = Ok a -> r = Ok b -> a = b.
Proof. intros -> [= E]. exact E. Qed.

Lemma pcboot_init_inv w K w' : pcboot_init w = Ok (K, w') -> exists w1, pcboot_setup w = Ok (K, w1) /\ intr_on w' = true.
Proof. apply enabled_inv. Qed.

Lemma pcboot_started w K w' : pcboot_init w = Ok (K, w') -> kernel_ok K /\ intr_on w' = true.
Proof.
  intros (w1 & E & I)%pcboot_init_inv. split; [|exact I]. clear I. revert E. generalize (pcboot_setup_ok w) (pcboot_setup_bad w).
  generalize (pcboot_setup w). intros r Hgood Hbad E. destruct (Z.ltb_spec 0 boot_mem_map_size) as [H1|H1], (Z.ltb_spec 16 boot_mem_map_size) as [H2|H2].
  2: { destruct (Hgood (conj H1 H2)) as (K1 & w2 & E2 & _ & Hk). rewrite E in E2. by injection E2 as -> _. }
  all: rewrite Hbad in E by lia; discriminate E.
Qed.

(** C17. The kernel starts: with a memory map of 1 to 16 entries the drivers'
    initialisations all end, with interrupts as they were; they leave the
    descriptor tables set up, the handlers of the timer, the keyboard, the serial
    port and the mouse in their slots and no other, and the queue of keys empty.
    The free pages are those behind the image and the bitmap that [range_pages]
    gives for the entries of the map: the pages of a region, but a region that
    begins below the end of the image is moved up whole and not cut, so as many
    pages behind its end are free as it has below the image's end
    ([init_mem_frees_past_region]). Only then are interrupts enabled. With any
    other number of entries the kernel panics. *)
Theorem pcboot_init_correct w :
  (0 < boot_mem_map_size <= 16 -> exists K w1, pcboot_setup w = Ok (K, w1) /\ intr_on w1 = intr_on w /\ kernel_ok K /\
    pcboot_init w = Ok (K, mk_world (trace w1) true)) /\
  (boot_mem_map_size <= 0 \/ 16 < boot_mem_map_size -> pcboot_init w = Panic).
Proof.
  split; intros Hn.
  - destruct (pcboot_setup_ok w Hn) as (K & w1 & Es & I & Hk). exists K, w1. refine (conj Es (conj I (conj Hk _))).
    unfold pcboot_init. rewrite (bind_ok _ _ _ _ _ Es). reflexivity.
  - apply bind_panic. exact (pcboot_setup_bad w Hn).
Qed.
End init.

(** ** A machine without PCI mechanism 2 and without a sound card *)
Definition quiet : Device := fun _ _ _ => 0.
Definition one_range : list mem_range := [mk_range 0x100000 0x400000].
Notation quiet_setup := (@pcboot_setup quiet (fun n => 0x1000 + 16 * n) 1 2 3 0x200000 one_range 1 Pci.demo_bios 0).
Notation quiet_init := (@pcboot_init quiet (fun n => 0x1000 + 16 * n) 1 2 3 0x200000 one_range 1 Pci.demo_bios 0).

Lemma quiet_bios : pci_bios Pci.demo_bios.
Proof. intros w. eexists _, _. split; [reflexivity|]. right. left. discriminate. Qed.
Lemma quiet_cards : @cards_ok quiet 0.
Proof. intros st i _ _. left. intros tr. discriminate. Qed.

Lemma pcboot_init_correct_witness : exists K w1,
  quiet_setup (mk_world [] false) = Ok (K, w1) /\ intr_on w1 = false /\
  zlookup (intr_func (k_intr K)) 33 = Some (Some HKeyb) /\ zlookup (intr_func (k_intr K)) 34 = Some None /\
  quiet_init (mk_world [] false) = Ok (K, mk_world (trace w1) true).
Proof.
  destruct (proj1 (@pcboot_init_correct quiet (fun n => 0x1000 + 16 * n) 1 2 3 0x200000 one_range 1 Pci.demo_bios 0
    quiet_bios quiet_cards (mk_world [] false)) ltac:(lia)) as (K & w1 & E & I & Hk & Ei).
  pose proof (ok_slots _ _ _ _ _ _ _ _ Hk) as Hs. exists K, w1. split; [exact E|]. split; [exact I|].
  split; [exact (proj1 (Hs 33 ltac:(lia)))|]. split; [exact (proj1 (Hs 34 ltac:(lia)))|exact Ei].
Defined.
