(* ===== verification/Time.v ===== *)
(** * Calendar time (src/libc/time.c)

    [mktime] and [gmtime_r] between seconds since 1970 ([time_t], 32 bits) and
    the broken-down time [tm]; the specification counts days with the closed
    form of the Gregorian calendar. [asctime] is in Report.v. *)
From S2P Require Import Prelude.

Definition MINSEC : Z := 60.
Definition HOURSEC : Z := 60 * MINSEC.
Definition DAYSEC : Z := 24 * HOURSEC.
Definition EPOCH_WDAY : Z := 4.

Record tm := mk_tm {
  tm_sec : Z; tm_min : Z; tm_hour : Z; tm_mday : Z; tm_mon : Z; tm_year : Z;
  tm_wday : Z; tm_yday : Z }.

Definition mdays : list (list Z) :=
  [[31; 28; 31; 30; 31; 30; 31; 31; 30; 31; 30; 31];
   [31; 29; 31; 30; 31; 30; 31; 31; 30; 31; 30; 31]].

Definition is_leap_year (yr : Z) : bool :=
  if Z.rem yr 400 =? 0 then true
  else if Z.rem yr 100 =? 0 then false
  else Z.rem yr 4 =? 0.

Definition YEARDAYS (x : Z) : Z := if is_leap_year x then 366 else 365.

(** [mdays[leap][i]] *)
Definition month_days (leap : bool) (i : Z) : res Z :=
  of_option (zlookup (nth (if leap then 1%nat else 0%nat) mdays []) i).

(** The loop [for(i=0; i<mon; i++) yday += mdays[leap][i]] from [i] on. *)
Fixpoint add_months (leap : bool) (i : Z) (n : nat) (yday : Z) : res Z :=
  match n with
  | O => Ok yday
  | S n => d ← month_days leap i; add_months leap (i + 1) n (s32 (yday + d))
  end.
Definition day_of_year (year mon day : Z) : res Z :=
  add_months (is_leap_year year) 0 (Z.to_nat mon) day.

(** The loop over the years of [mktime]. *)
Fixpoint add_years (year : Z) (n : nat) (days : Z) : Z :=
  match n with
  | O => days
  | S n => add_years (year + 1) n (s32 (days + YEARDAYS year))
  end.

(** Result, and the structure with [tm_yday] and [tm_wday] corrected. *)
Definition mktime (t : tm) : res (Z * tm) :=
  let num_years := s32 (tm_year t - 70) in
  yday ← day_of_year (s32 (tm_year t + 1900)) (tm_mon t) (s32 (tm_mday t - 1));
  let days := add_years 1970 (Z.to_nat num_years) yday in
  let wday := Z.rem (s32 (days + EPOCH_WDAY)) 7 in
  Ok (s32 (days * DAYSEC + tm_hour t * HOURSEC + tm_min t * MINSEC + tm_sec t),
      mk_tm (tm_sec t) (tm_min t) (tm_hour t) (tm_mday t) (tm_mon t) (tm_year t) wday yday).

(** [while(days >= (yrdays = YEARDAYS(year)))] *)
Fixpoint sub_years (fuel : nat) (year days : Z) : res (Z * Z) :=
  match fuel with
  | O => NoFuel
  | S fuel => if YEARDAYS year <=? days then sub_years fuel (year + 1) (days - YEARDAYS year)
              else Ok (year, days)
  end.
(** [while(days >= mdays[leap][tm->tm_mon])] *)
Fixpoint sub_months (fuel : nat) (leap : bool) (mon days : Z) : res (Z * Z) :=
  match fuel with
  | O => NoFuel
  | S fuel =>
      d ← month_days leap mon;
      if d <=? days then sub_months fuel leap (mon + 1) (days - d) else Ok (mon, days)
  end.

Definition gmtime_r (fuel : nat) (tp : Z) : res tm :=
  let days := Z.quot tp DAYSEC in
  let t := Z.rem tp DAYSEC in
  let wday := Z.rem (days + EPOCH_WDAY) 7 in
  '(year, yday) ← sub_years fuel 1970 days;
  '(mon, mday) ← sub_months fuel (is_leap_year year) 0 yday;
  let hour := Z.quot t HOURSEC in
  let t := Z.rem t HOURSEC in
  Ok (mk_tm (Z.rem t MINSEC) (Z.quot t MINSEC) hour (mday + 1) mon (year - 1900) wday yday).

(** [timezone] is a global of time.h. *)
Definition localtime_r (fuel : nat) (timezone tp : Z) : res tm :=
  gmtime_r fuel (s32 (tp + timezone)).

(** What the static structure of the function holds afterwards, to which it
    returns a pointer. *)
Definition gmtime (fuel : nat) (tp : Z) : res tm := gmtime_r fuel tp.
Definition localtime (fuel : nat) (timezone tp : Z) : res tm := localtime_r fuel timezone tp.

Definition time (start_time nticks : Z) : Z := s32 (start_time + nticks / 250).

(** ** The calendar *)

(** Leap years among the years 1 to [y]. *)
Definition leaps (y : Z) : Z := y / 4 - y / 100 + y / 400.
(** Days from 1 January 1970 to 1 January of [y]. *)
Definition year_start (y : Z) : Z := 365 * (y - 1970) + leaps (y - 1) - leaps 1969.
(** Day of the year on which month [m] starts. *)
Definition month_start (leap : bool) (m : Z) : Z :=
  default 0 (zlookup [0; 31; 59; 90; 120; 151; 181; 212; 243; 273; 304; 334; 365] m)
  + if leap && (2 <=? m) then 1 else 0.

Definition month_len (leap : bool) (m : Z) : Z := month_start leap (m + 1) - month_start leap m.

(** A date and time from 1970 on, whatever [tm_wday] and [tm_yday] say. *)
Definition tm_fields_ok (t : tm) : Prop :=
  70 <= tm_year t <= 138 /\ 0 <= tm_mon t < 12 /\
  1 <= tm_mday t <= month_len (is_leap_year (tm_year t + 1900)) (tm_mon t) /\
  0 <= tm_hour t < 24 /\ 0 <= tm_min t < 60 /\ 0 <= tm_sec t < 60.
Definition tm_yday_of (t : tm) : Z :=
  month_start (is_leap_year (tm_year t + 1900)) (tm_mon t) + tm_mday t - 1.
Definition tm_days (t : tm) : Z := year_start (tm_year t + 1900) + tm_yday_of t.
(** Seconds since the epoch, by the calendar. *)
Definition tm_seconds (t : tm) : Z :=
  tm_days t * 86400 + tm_hour t * 3600 + tm_min t * 60 + tm_sec t.
(** ... that the 32-bit [time_t] can count. *)
Definition tm_valid (t : tm) : Prop := tm_fields_ok t /\ tm_seconds t < 2147483648.
(** The structure with day of the week and of the year filled in. *)
Definition tm_norm (t : tm) : tm :=
  mk_tm (tm_sec t) (tm_min t) (tm_hour t) (tm_mday t) (tm_mon t) (tm_year t)
        ((tm_days t + 4) mod 7) (tm_yday_of t).

Lemma leap_spec y :
  0 <= y -> is_leap_year y = (y mod 4 =? 0) && (negb (y mod 100 =? 0) || (y mod 400 =? 0)).
Proof.
  intros Hy. unfold is_leap_year. rewrite !Z.rem_mod_nonneg by lia.
  destruct (Z.eqb_spec (y mod 400) 0), (Z.eqb_spec (y mod 100) 0), (Z.eqb_spec (y mod 4) 0); try done; mlia.
Qed.

Lemma year_start_next y : 0 <= y -> year_start (y + 1) = year_start y + YEARDAYS y.
Proof.
  intros Hy. unfold year_start, leaps, YEARDAYS. rewrite leap_spec by lia.
  replace (y + 1 - 1) with y by lia.
  destruct (Z.eqb_spec (y mod 400) 0), (Z.eqb_spec (y mod 100) 0), (Z.eqb_spec (y mod 4) 0);
    cbn [negb andb orb]; mlia.
Qed.

Lemma YEARDAYS_range y : 365 <= YEARDAYS y <= 366.
Proof. unfold YEARDAYS. case_match; lia. Qed.

(** Every month, by computation. *)
Lemma month_cases (P : bool -> Z -> bool) leap m :
  forallb (fun m => P false m && P true m) (zseq 0 12) = true -> 0 <= m < 12 -> P leap m = true.
Proof.
  intros H Hm. rewrite forallb_forall in H.
  destruct (andb_prop _ _ (H m ltac:(apply list_elem_of_In, elem_of_zseq; lia))). by destruct leap.
Qed.

Lemma month_days_len leap m : 0 <= m < 12 -> month_days leap m = Ok (month_len leap m).
Proof.
  intros Hm.
  assert (match month_days leap m with Ok d => d =? month_len leap m | _ => false end = true) as H
    by (apply (month_cases (fun leap m =>
          match month_days leap m with Ok d => d =? month_len leap m | _ => false end)); done || lia).
  destruct (month_days leap m); try done. by apply Z.eqb_eq in H; subst.
Qed.

Lemma month_len_range leap m : 0 <= m < 12 -> 28 <= month_len leap m <= 31.
Proof.
  intros Hm. assert ((28 <=? month_len leap m) && (month_len leap m <=? 31) = true) as H.
  { by apply (month_cases (fun leap m => (28 <=? month_len leap m) && (month_len leap m <=? 31))). }
  lia.
Qed.

Lemma month_start_range leap m : 0 <= m < 12 -> 0 <= month_start leap m <= 335.
Proof.
  intros Hm. assert ((0 <=? month_start leap m) && (month_start leap m <=? 335) = true) as H.
  { by apply (month_cases (fun leap m => (0 <=? month_start leap m) && (month_start leap m <=? 335))). }
  lia.
Qed.

Lemma month_start_end leap m : 0 <= m < 12 ->
  month_start leap (m + 1) <= if leap then 366 else 365.
Proof.
  intros Hm. assert ((month_start leap (m + 1) <=? if leap then 366 else 365) = true) as H.
  { by apply (month_cases (fun leap m => month_start leap (m + 1) <=? if leap then 366 else 365)). }
  lia.
Qed.

Lemma add_months_spec leap i n yday :
  0 <= i -> i + Z.of_nat n <= 12 -> 0 <= yday <= 1000 - 31 * Z.of_nat n ->
  add_months leap i n yday = Ok (yday + month_start leap (i + Z.of_nat n) - month_start leap i).
Proof.
  revert i yday. induction n as [|n IH]; intros i yday Hi Hn Hy; cbn [add_months].
  - rewrite Z.add_0_r. f_equal. lia.
  - rewrite month_days_len by lia. cbn [mbind res_mbind res_bind].
    pose proof (month_len_range leap i ltac:(lia)).
    rewrite s32_small by lia. rewrite IH by lia.
    replace (i + 1 + Z.of_nat n) with (i + Z.of_nat (S n)) by lia.
    f_equal. unfold month_len. lia.
Qed.

Lemma add_years_spec y n d :
  0 <= y -> 0 <= d -> d + 366 * Z.of_nat n <= 1000000 ->
  add_years y n d = d + year_start (y + Z.of_nat n) - year_start y.
Proof.
  revert y d. induction n as [|n IH]; intros y d Hy Hd Hn; cbn [add_years].
  - rewrite Z.add_0_r. lia.
  - pose proof (YEARDAYS_range y). rewrite s32_small by lia. rewrite IH by lia.
    replace (y + 1 + Z.of_nat n) with (y + Z.of_nat (S n)) by lia.
    pose proof (year_start_next y Hy). lia.
Qed.

Lemma tm_days_range t : tm_valid t -> 0 <= tm_yday_of t < YEARDAYS (tm_year t + 1900) /\
  0 <= tm_days t < 24856.
Proof.
  intros [(Hy & Hm & Hd & Hh & Hmi & Hs) Hb]. unfold tm_seconds in Hb.
  set (leap := is_leap_year (tm_year t + 1900)) in *.
  pose proof (month_start_range leap _ Hm) as H1. pose proof (month_start_end leap _ Hm) as H2.
  assert (0 <= tm_yday_of t < YEARDAYS (tm_year t + 1900)) as Hyd.
  { unfold tm_yday_of, YEARDAYS, month_len in *. subst leap. destruct (is_leap_year (tm_year t + 1900)); lia. }
  split; [done|]. unfold tm_days in *.
  assert (0 <= year_start (tm_year t + 1900)).
  { unfold year_start, leaps. mlia. }
  lia.
Qed.

(** [mktime] counts the seconds by the calendar. *)
Lemma mktime_seconds t :
  tm_valid t -> mktime t = Ok (tm_seconds t, tm_norm t).
Proof.
  intros Hv. destruct (tm_days_range t Hv) as [Hyd Hdays]. pose proof Hv as [(Hy & Hm & Hd & Hh & Hmi & Hs) Hb].
  set (leap := is_leap_year (tm_year t + 1900)) in *.
  pose proof (month_start_range leap _ Hm). pose proof (month_len_range leap _ Hm).
  unfold mktime, day_of_year. rewrite !(s32_small (tm_year t + _)), !(s32_small (tm_year t - _)),
    (s32_small (tm_mday t - 1)) by lia. fold leap.
  rewrite add_months_spec by lia. cbn [mbind res_mbind res_bind].
  replace (0 + Z.of_nat (Z.to_nat (tm_mon t))) with (tm_mon t) by lia.
  replace (month_start leap 0) with 0 by (by destruct leap).
  replace (tm_mday t - 1 + month_start leap (tm_mon t) - 0) with (tm_yday_of t)
    by (unfold tm_yday_of; fold leap; lia).
  rewrite add_years_spec by (unfold YEARDAYS in Hyd; case_match; lia).
  replace (1970 + Z.of_nat (Z.to_nat (tm_year t - 70))) with (tm_year t + 1900) by lia.
  change (year_start 1970) with 0.
  replace (tm_yday_of t + year_start (tm_year t + 1900) - 0) with (tm_days t)
    by (unfold tm_days; lia).
  unfold EPOCH_WDAY, DAYSEC, HOURSEC, MINSEC, tm_norm. unfold tm_seconds in *.
  rewrite (s32_small (tm_days t + 4)) by lia. rewrite Z.rem_mod_nonneg by lia.
  do 2 f_equal. rewrite s32_small by lia. lia.
Qed.

Lemma sub_years_spec fuel y0 n d :
  0 <= y0 -> (n < fuel)%nat -> 0 <= d < YEARDAYS (y0 + Z.of_nat n) ->
  sub_years fuel y0 (year_start (y0 + Z.of_nat n) - year_start y0 + d) = Ok (y0 + Z.of_nat n, d).
Proof.
  revert fuel y0. induction n as [|n IH]; intros [|fuel] y0 Hy Hf Hd; try lia; cbn [sub_years].
  - rewrite Z.add_0_r, Z.sub_diag in *. zcases. done.
  - assert (forall k, year_start y0 + YEARDAYS y0 <= year_start (y0 + Z.of_nat (S k))) as Hmono.
    { induction k as [|k IHk].
      - pose proof (year_start_next y0 Hy). change (Z.of_nat 1) with 1. lia.
      - pose proof (year_start_next (y0 + Z.of_nat (S k)) ltac:(lia)).
        pose proof (YEARDAYS_range (y0 + Z.of_nat (S k))).
        replace (y0 + Z.of_nat (S (S k))) with (y0 + Z.of_nat (S k) + 1) by lia. lia. }
    specialize (Hmono n). destruct (Z.leb_spec (YEARDAYS y0)
      (year_start (y0 + Z.of_nat (S n)) - year_start y0 + d)); [|lia].
    pose proof (year_start_next y0 Hy).
    replace (y0 + Z.of_nat (S n)) with (y0 + 1 + Z.of_nat n) in * by lia.
    rewrite <- (IH fuel (y0 + 1)) by (done || lia). f_equal. lia.
Qed.

Lemma month_start_mono leap m k :
  0 <= m -> m + Z.of_nat k < 12 -> month_start leap m <= month_start leap (m + Z.of_nat k).
Proof.
  intros Hm. induction k as [|k IH]; intros Hk; [by rewrite Z.add_0_r|].
  pose proof (month_len_range leap (m + Z.of_nat k) ltac:(lia)). unfold month_len in *.
  replace (m + Z.of_nat (S k)) with (m + Z.of_nat k + 1) by lia. lia.
Qed.

Lemma sub_months_spec fuel leap m0 n d :
  0 <= m0 -> m0 + Z.of_nat n < 12 -> (n < fuel)%nat -> 0 <= d < month_len leap (m0 + Z.of_nat n) ->
  sub_months fuel leap m0 (month_start leap (m0 + Z.of_nat n) - month_start leap m0 + d)
  = Ok (m0 + Z.of_nat n, d).
Proof.
  revert fuel m0. induction n as [|n IH]; intros [|fuel] m0 Hm Hn Hf Hd; try lia; cbn [sub_months].
  - rewrite month_days_len by lia. cbn [mbind res_mbind res_bind].
    rewrite Z.add_0_r, Z.sub_diag in *. zcases. done.
  - rewrite month_days_len by lia. cbn [mbind res_mbind res_bind].
    replace (m0 + Z.of_nat (S n)) with (m0 + 1 + Z.of_nat n) in * by lia.
    pose proof (month_start_mono leap (m0 + 1) n ltac:(lia) ltac:(lia)).
    destruct (Z.leb_spec (month_len leap m0)
      (month_start leap (m0 + 1 + Z.of_nat n) - month_start leap m0 + d)); [|unfold month_len in *; lia].
    rewrite <- (IH fuel (m0 + 1)) by (done || lia). f_equal. unfold month_len. lia.
Qed.

(** [gmtime_r] run on a count of seconds given by a date and time. *)
Lemma gmtime_seconds fuel t :
  (80 <= fuel)%nat -> tm_valid t -> gmtime_r fuel (tm_seconds t) = Ok (tm_norm t).
Proof.
  intros Hf Hv. destruct (tm_days_range t Hv) as [Hyd Hdays]. pose proof Hv as [(Hy & Hm & Hd & Hh & Hmi & Hs) Hb].
  set (sec := tm_hour t * 3600 + tm_min t * 60 + tm_sec t).
  assert (0 <= sec < 86400) by (unfold sec; lia).
  replace (tm_seconds t) with (tm_days t * 86400 + sec) by (unfold tm_seconds, sec; lia).
  unfold gmtime_r, DAYSEC, HOURSEC, MINSEC, EPOCH_WDAY. change (24 * (60 * 60)) with 86400. change (60 * 60) with 3600.
  assert (Z.quot (tm_days t * 86400 + sec) 86400 = tm_days t) as -> by mlia.
  assert (Z.rem (tm_days t * 86400 + sec) 86400 = sec) as -> by mlia.
  assert (Z.rem (tm_days t + 4) 7 = (tm_days t + 4) mod 7) as -> by mlia.
  assert (sub_years fuel 1970 (tm_days t) = Ok (tm_year t + 1900, tm_yday_of t)) as ->.
  { pose proof (sub_years_spec fuel 1970 (Z.to_nat (tm_year t - 70)) (tm_yday_of t)) as E.
    replace (1970 + Z.of_nat (Z.to_nat (tm_year t - 70))) with (tm_year t + 1900) in E by lia.
    rewrite <- E by lia. f_equal. unfold tm_days. change (year_start 1970) with 0. lia. }
  cbn [mbind res_mbind res_bind]. set (leap := is_leap_year (tm_year t + 1900)) in *.
  assert (sub_months fuel leap 0 (tm_yday_of t) = Ok (tm_mon t, tm_mday t - 1)) as ->.
  { pose proof (sub_months_spec fuel leap 0 (Z.to_nat (tm_mon t)) (tm_mday t - 1)) as E.
    replace (0 + Z.of_nat (Z.to_nat (tm_mon t))) with (tm_mon t) in E by lia.
    rewrite <- E by lia. f_equal. unfold tm_yday_of. fold leap.
    replace (month_start leap 0) with 0 by (by destruct leap). lia. }
  cbn [mbind res_mbind res_bind].
  unfold tm_norm. f_equal. unfold sec. f_equal; try lia; mlia.
Qed.

(** C40. [mktime] counts the seconds since the epoch by the Gregorian calendar and
    fills in the day of the week and of the year; [gmtime_r] takes that count
    back to the same date and time. *)
Theorem mktime_gmtime fuel t :
  (80 <= fuel)%nat -> tm_valid t ->
  mktime t = Ok (tm_seconds t, tm_norm t) /\ gmtime_r fuel (tm_seconds t) = Ok (tm_norm t).
Proof. intros. split; [by apply mktime_seconds | by apply gmtime_seconds]. Qed.

Lemma find_year n D :
  0 <= D < year_start (1970 + Z.of_nat n) ->
  exists k d, 0 <= Z.of_nat k < Z.of_nat n /\ 0 <= d < YEARDAYS (1970 + Z.of_nat k) /\
    D = year_start (1970 + Z.of_nat k) + d.
Proof.
  induction n as [|n IH]; intros HD; [change (year_start (1970 + Z.of_nat 0)) with 0 in HD; lia|].
  destruct (decide (D < year_start (1970 + Z.of_nat n))).
  - destruct IH as (k & d & ? & ? & ?); [lia|]. exists k, d. split_and!; lia.
  - pose proof (year_start_next (1970 + Z.of_nat n) ltac:(lia)).
    replace (1970 + Z.of_nat (S n)) with (1970 + Z.of_nat n + 1) in HD by lia.
    exists n, (D - year_start (1970 + Z.of_nat n)). split_and!; lia.
Qed.

Lemma find_month leap (n : nat) D :
  (n <= 12)%nat -> 0 <= D < month_start leap (Z.of_nat n) ->
  exists m d, 0 <= m < Z.of_nat n /\ 0 <= d < month_len leap m /\ D = month_start leap m + d.
Proof.
  induction n as [|n IH]; intros Hn HD; [destruct leap; change (month_start _ (Z.of_nat 0)) with 0 in HD; lia|].
  destruct (decide (D < month_start leap (Z.of_nat n))).
  - destruct IH as (m & d & ? & ? & ?); [lia|lia|]. exists m, d. split_and!; lia.
  - replace (Z.of_nat (S n)) with (Z.of_nat n + 1) in HD by lia.
    exists (Z.of_nat n), (D - month_start leap (Z.of_nat n)). unfold month_len. split_and!; lia.
Qed.

(** [gmtime_r] is total on the times from 1970 on: its loops end, it never
    reads past the month table, and the fields it returns are a valid date and
    time that counts [tp] seconds since the epoch. *)
Theorem gmtime_correct fuel tp :
  (80 <= fuel)%nat -> 0 <= tp < 2147483648 ->
  exists t, gmtime_r fuel tp = Ok t /\ tm_valid t /\ tm_seconds t = tp /\ t = tm_norm t.
Proof.
  intros Hf Htp.
  destruct (find_year 69 (tp / 86400)) as (k & d & Hk & Hd & ED).
  { change (year_start (1970 + Z.of_nat 69)) with 25202. mlia. }
  set (y := 1970 + Z.of_nat k) in *.
  destruct (find_month (is_leap_year y) 12 d) as (m & e & Hm & He & Ed); [lia| |].
  { unfold YEARDAYS in Hd. by destruct (is_leap_year y). }
  set (r := tp mod 86400). assert (0 <= r < 86400) by (unfold r; mlia).
  set (t := mk_tm (r mod 60) (r mod 3600 / 60) (r / 3600) (e + 1) m (y - 1900) ((tp / 86400 + 4) mod 7) d).
  assert (tm_year t + 1900 = y) as Ey by (unfold t; simpl; lia).
  assert (tm_yday_of t = d) as Eyd by (unfold tm_yday_of; rewrite Ey; unfold t; simpl; lia).
  assert (tm_days t = tp / 86400) as Eday by (unfold tm_days; rewrite Eyd, Ey; lia).
  assert (tm_seconds t = tp) as Es.
  { unfold tm_seconds. rewrite Eday. unfold t, r; simpl. mlia. }
  assert (tm_valid t) as Hv.
  { split; [|lia]. unfold tm_fields_ok. rewrite Ey. unfold t; simpl. split_and!; try lia; mlia. }
  assert (tm_norm t = t) as En.
  { unfold tm_norm. rewrite Eyd, Eday. done. }
  exists t. rewrite <- Es at 1. rewrite gmtime_seconds by done. by rewrite En.
Qed.

Definition millennium : tm := mk_tm 59 59 23 29 1 100 0 0.

Lemma millennium_valid : tm_valid millennium.
Proof. split; [|by vm_compute]. unfold tm_fields_ok. vm_compute. intuition congruence. Qed.

Lemma mktime_gmtime_witness :
  mktime millennium = Ok (951868799, mk_tm 59 59 23 29 1 100 2 59) /\
  gmtime_r 80 951868799 = Ok (mk_tm 59 59 23 29 1 100 2 59).
Proof. apply (mktime_gmtime 80 millennium); [lia | exact millennium_valid]. Defined.

Lemma gmtime_correct_witness :
  exists t, gmtime_r 80 2147483647 = Ok t /\ tm_valid t /\ tm_seconds t = 2147483647 /\ t = tm_norm t.
Proof. apply (gmtime_correct 80 2147483647); lia. Defined.
