(* ===== verification/Rtc.v ===== *)
(** * CMOS real-time clock (src/rtc.c)

    [init_rtc] reads date and time from the clock chip once and sets
    [start_time]. The chip is modelled by [cmos_device]: an index register at
    port 0x70, the selected register at 0x71, and a busy flag that clears
    after some reads. The message with the date is not modelled. *)
From S2P Require Import Prelude Io Time.

Definition PORT_CTL : Z := 0x70.
Definition PORT_DATA : Z := 0x71.
Definition REG_SEC : Z := 0.
Definition REG_MIN : Z := 2.
Definition REG_HOUR : Z := 4.
Definition REG_DAY : Z := 7.
Definition REG_MONTH : Z := 8.
Definition REG_YEAR : Z := 9.
Definition REG_STATA : Z := 10.
Definition REG_STATB : Z := 11.
Definition STATA_BUSY : Z := Z.shiftl 1 7.
Definition STATB_24HR : Z := Z.shiftl 1 1.
Definition STATB_BIN : Z := Z.shiftl 1 2.
Definition HOUR_PM_BIT : Z := Z.shiftl 1 7.

Definition BCD_TO_BIN (x : Z) : Z := Z.land (Z.shiftr x 4) 0xf * 10 + Z.land x 0xf.

Section rtc.
Context `{Device}.

Definition read_reg (reg : Z) : IO Z :=
  outb reg PORT_CTL;; iodelay;; val ← inb PORT_DATA; iodelay;; mret val.

(** [while(read_reg(REG_STATA) & STATA_BUSY);] *)
Fixpoint wait_update (fuel : nat) : IO unit :=
  match fuel with
  | O => lift NoFuel
  | S fuel => s ← read_reg REG_STATA; if Z.land s STATA_BUSY =? 0 then mret tt else wait_update fuel
  end.

(** What [read_rtc] makes of the registers. *)
Definition rtc_decode (sec min hour mday mon year statb : Z) : tm :=
  let pm := Z.land hour HOUR_PM_BIT in
  let hour := Z.land hour (Z.lnot HOUR_PM_BIT) in
  let conv x := if Z.land statb STATB_BIN =? 0 then BCD_TO_BIN x else x in
  let hour := conv hour in
  let year := conv year in
  let year := if year <? 100 then year + 100 else year - 1900 in
  let hour :=
    if Z.land statb STATB_24HR =? 0 then
      let hour := if hour =? 12 then 0 else hour in
      if pm =? 0 then hour else hour + 12
    else hour in
  mk_tm (conv sec) (conv min) hour (conv mday) (conv mon - 1) year 0 0.

Definition read_rtc (fuel : nat) : IO tm :=
  wait_update fuel;;
  sec ← read_reg REG_SEC;
  min ← read_reg REG_MIN;
  hour ← read_reg REG_HOUR;
  mday ← read_reg REG_DAY;
  mon ← read_reg REG_MONTH;
  year ← read_reg REG_YEAR;
  statb ← read_reg REG_STATB;
  mret (rtc_decode sec min hour mday mon year statb).

(** Gives [start_time]. *)
Definition init_rtc (fuel : nat) : IO Z :=
  t ← read_rtc fuel;
  '(start_time, _) ← lift (mktime t);
  mret start_time.
End rtc.

(** ** The clock chip *)

(** The index register: what was last written to port 0x70. *)
Fixpoint rtc_index (tr : list io_event) : Z :=
  match tr with
  | [] => 0
  | EOut 8 0x70 v :: _ => v
  | _ :: tr => rtc_index tr
  end.
(** The number of data reads so far. *)
Fixpoint data_reads (tr : list io_event) : nat :=
  match tr with
  | [] => 0
  | EIn 8 0x71 _ :: tr => S (data_reads tr)
  | _ :: tr => data_reads tr
  end.

(** A clock with registers [cmos] that is busy for the first [n] reads. *)
Definition cmos_device (cmos : Z -> Z) (n : nat) : Device := fun tr _ _ =>
  if rtc_index tr =? REG_STATA
  then if (data_reads tr <? n)%nat then 0xa6 else 0x26
  else cmos (rtc_index tr).

(** The registers of a clock that shows [t], in the format [statb] selects. *)
Definition rtc_num (statb v : Z) : Z :=
  if Z.testbit statb 2 then v else v / 10 * 16 + v mod 10.
Definition rtc_hour (statb h : Z) : Z :=
  if Z.testbit statb 1 then rtc_num statb h
  else rtc_num statb (if h mod 12 =? 0 then 12 else h mod 12) + (if 12 <=? h then 128 else 0).
Definition cmos_of (t : tm) (statb i : Z) : Z :=
  if i =? REG_SEC then rtc_num statb (tm_sec t)
  else if i =? REG_MIN then rtc_num statb (tm_min t)
  else if i =? REG_HOUR then rtc_hour statb (tm_hour t)
  else if i =? REG_DAY then rtc_num statb (tm_mday t)
  else if i =? REG_MONTH then rtc_num statb (tm_mon t + 1)
  else if i =? REG_YEAR then rtc_num statb (tm_year t - 100)
  else statb.

Lemma read_reg_cmos cmos n reg w :
  0 <= reg < 256 -> 0 <= cmos reg < 256 -> reg <> REG_STATA ->
  exists w', @read_reg (cmos_device cmos n) reg w = Ok (cmos reg, w').
Proof.
  intros Hr Hc Hn. unfold read_reg, PORT_CTL, PORT_DATA. io. eexists. f_equal. f_equal.
  unfold dev, cmos_device. change (rtc_index (EOut 8 (u16 128) (wrap 8 0) :: EOut 8 (u16 112) (wrap 8 reg) :: trace w)) with (wrap 8 reg).
  change (wrap 8 reg) with (u8 reg). rewrite (u8_small reg) by lia.
  destruct (Z.eqb_spec reg REG_STATA); [done|]. by apply (u8_small (cmos reg)).
Qed.

(** The wait ends once the busy flag is clear. *)
Lemma wait_update_cmos cmos n fuel w :
  (n - data_reads (trace w) < fuel)%nat ->
  exists w', @wait_update (cmos_device cmos n) fuel w = Ok (tt, w').
Proof.
  revert w. induction fuel as [|fuel IH]; intros w Hf; [lia|]. cbn [wait_update].
  set (v := if (data_reads (trace w) <? n)%nat then 0xa6 else 0x26).
  assert (@read_reg (cmos_device cmos n) REG_STATA w =
    Ok (v, mk_world (EOut 8 0x80 0 :: EIn 8 0x71 v :: EOut 8 0x80 0 :: EOut 8 0x70 10 :: trace w) (intr_on w))) as E.
  { unfold read_reg, PORT_CTL, PORT_DATA, REG_STATA. io.
    assert (wrap 8 (dev (EOut 8 (u16 128) (wrap 8 0) :: EOut 8 (u16 112) (wrap 8 10) :: trace w) 8 (u16 113)) = v) as ->; [|done].
    unfold dev, cmos_device.
    change (rtc_index (EOut 8 (u16 128) (wrap 8 0) :: EOut 8 (u16 112) (wrap 8 10) :: trace w)) with 10.
    change (data_reads (EOut 8 (u16 128) (wrap 8 0) :: EOut 8 (u16 112) (wrap 8 10) :: trace w)) with (data_reads (trace w)).
    change (10 =? REG_STATA) with true. cbv iota. unfold v. by destruct (_ <? _)%nat. }
  rewrite (bind_ok _ _ _ _ _ E). unfold v. destruct (Nat.ltb_spec (data_reads (trace w)) n).
  - apply IH. change (n - S (data_reads (trace w)) < fuel)%nat. lia.
  - by eexists.
Qed.

Lemma BCD_TO_BIN_num v : 0 <= v < 100 -> BCD_TO_BIN (v / 10 * 16 + v mod 10) = v.
Proof.
  intros Hv. apply Z.eqb_eq.
  assert (((v <? 100) && (BCD_TO_BIN (v / 10 * 16 + v mod 10) =? v)) || negb (v <? 100) = true) as E.
  { apply (byte_cases (fun v => ((v <? 100) && (BCD_TO_BIN (v / 10 * 16 + v mod 10) =? v)) || negb (v <? 100))); [done|lia]. }
  destruct (Z.ltb_spec v 100); [|lia]. by rewrite orb_false_r in E.
Qed.

Lemma rtc_num_range statb v : 0 <= v < 100 -> 0 <= rtc_num statb v < 256.
Proof. intros. unfold rtc_num. case_match; mlia. Qed.

(** [conv] of [rtc_decode] undoes the format. *)
Lemma rtc_num_conv statb v :
  0 <= v < 100 ->
  (if Z.land statb STATB_BIN =? 0 then BCD_TO_BIN (rtc_num statb v) else rtc_num statb v) = v.
Proof.
  intros Hv. unfold STATB_BIN, rtc_num. rewrite land_pow2_testbit by lia.
  destruct (Z.testbit statb 2); [done|]. by apply BCD_TO_BIN_num.
Qed.

(** The hour, in the four formats. *)
Definition dec_hour (bin h24 : bool) (r : Z) : Z :=
  let h := Z.land r (Z.lnot HOUR_PM_BIT) in
  let h := if bin then h else BCD_TO_BIN h in
  if h24 then h
  else let h := if h =? 12 then 0 else h in if Z.land r HOUR_PM_BIT =? 0 then h else h + 12.

Lemma rtc_hour_dec statb h : 0 <= h < 24 ->
  dec_hour (Z.testbit statb 2) (Z.testbit statb 1) (rtc_hour statb h) = h /\ 0 <= rtc_hour statb h < 256.
Proof.
  intros Hh. unfold rtc_hour, rtc_num.
  set (enc := fun bin h24 : bool => let num v := if bin then v else v / 10 * 16 + v mod 10 in
    if h24 then num h else num (if h mod 12 =? 0 then 12 else h mod 12) + (if 12 <=? h then 128 else 0)).
  enough (forall bin h24, dec_hour bin h24 (enc bin h24) = h /\ 0 <= enc bin h24 < 256) as E
    by apply (E (Z.testbit statb 2) (Z.testbit statb 1)).
  assert (h ∈ zseq 0 24) as Hin by (apply elem_of_zseq; lia).
  cbn in Hin. clear Hh. intros bin h24.
  repeat (apply elem_of_cons in Hin; destruct Hin as [Hin|Hin];
    [subst enc; rewrite Hin; by destruct bin, h24|]).
  by apply not_elem_of_nil in Hin.
Qed.

Lemma rtc_decode_cmos t statb :
  tm_fields_ok t -> 100 <= tm_year t ->
  rtc_decode (cmos_of t statb REG_SEC) (cmos_of t statb REG_MIN) (cmos_of t statb REG_HOUR)
    (cmos_of t statb REG_DAY) (cmos_of t statb REG_MONTH) (cmos_of t statb REG_YEAR) statb
  = mk_tm (tm_sec t) (tm_min t) (tm_hour t) (tm_mday t) (tm_mon t) (tm_year t) 0 0.
Proof.
  intros (Hy & Hm & Hd & Hh & Hmi & Hs) H100.
  pose proof (month_len_range (is_leap_year (tm_year t + 1900)) _ Hm).
  destruct (rtc_hour_dec statb _ Hh) as [Eh _].
  assert (forall bin h24 r, dec_hour bin h24 r =
    let h := Z.land r (Z.lnot HOUR_PM_BIT) in let h := if negb bin then BCD_TO_BIN h else h in
    if negb h24 then let h := if h =? 12 then 0 else h in
      if Z.land r HOUR_PM_BIT =? 0 then h else h + 12 else h) as Ed by (by intros [] []).
  rewrite Ed in Eh. unfold rtc_decode.
  unfold STATB_BIN, STATB_24HR in *. rewrite !land_pow2_testbit by lia. 
  change (cmos_of t statb REG_HOUR) with (rtc_hour statb (tm_hour t)). cbv zeta in Eh |- *.
  rewrite Eh. clear Eh Ed.
  change (cmos_of t statb REG_SEC) with (rtc_num statb (tm_sec t)).
  change (cmos_of t statb REG_MIN) with (rtc_num statb (tm_min t)).
  change (cmos_of t statb REG_DAY) with (rtc_num statb (tm_mday t)).
  change (cmos_of t statb REG_MONTH) with (rtc_num statb (tm_mon t + 1)).
  change (cmos_of t statb REG_YEAR) with (rtc_num statb (tm_year t - 100)).
  pose proof (rtc_num_conv statb (tm_sec t) ltac:(lia)) as E1.
  pose proof (rtc_num_conv statb (tm_min t) ltac:(lia)) as E2.
  pose proof (rtc_num_conv statb (tm_mday t) ltac:(lia)) as E3.
  pose proof (rtc_num_conv statb (tm_mon t + 1) ltac:(lia)) as E4.
  pose proof (rtc_num_conv statb (tm_year t - 100) ltac:(lia)) as E5.
  unfold STATB_BIN in *. rewrite land_pow2_testbit in E1, E2, E3, E4, E5 by lia.
  rewrite E1, E2, E3, E4, E5. f_equal; zcases.
Qed.

(** [init_rtc] sets [start_time] to the seconds since 1970 of the time the
    clock shows, whether the chip counts in BCD or binary and in 12 or 24
    hours, and however long it is busy first. *)
Theorem init_rtc_correct t statb n fuel w :
  tm_valid t -> 100 <= tm_year t -> 0 <= statb < 256 -> (n < fuel)%nat ->
  exists w', @init_rtc (cmos_device (cmos_of t statb) n) fuel w = Ok (tm_seconds t, w').
Proof.
  intros Hv H100 Hsb Hf. pose proof Hv as [Hok Hb]. pose proof Hok as (Hy & Hm & Hd & Hh & Hmi & Hs).
  pose proof (month_len_range (is_leap_year (tm_year t + 1900)) _ Hm).
  unfold init_rtc, read_rtc.
  set (t' := mk_tm (tm_sec t) (tm_min t) (tm_hour t) (tm_mday t) (tm_mon t) (tm_year t) 0 0).
  destruct (wait_update_cmos (cmos_of t statb) n fuel w ltac:(lia)) as [w0 E].
  assert (exists w', @read_rtc (cmos_device (cmos_of t statb) n) fuel w = Ok (t', w')) as [w' E'].
  { unfold read_rtc. rewrite (bind_ok _ _ _ _ _ E). clear E.
    assert (forall i, 0 <= cmos_of t statb i < 256) as Hr.
    { intros i. unfold cmos_of. pose proof (rtc_hour_dec statb _ Hh).
      repeat case_match; try apply rtc_num_range; try lia; intuition. }
    unfold t'. rewrite <- (rtc_decode_cmos t statb) by done.
    do 7 (match goal with |- exists w', (read_reg ?r ≫= _) ?w = _ =>
      let E := fresh in destruct (read_reg_cmos (cmos_of t statb) n r w) as [? E];
        [by vm_compute | apply Hr | by vm_compute | rewrite (bind_ok _ _ _ _ _ E); clear E] end).
    by eexists. }
  fold (@read_rtc (cmos_device (cmos_of t statb) n) fuel). unfold read_rtc in E'.
  rewrite (bind_ok _ _ _ _ _ E'). unfold lift. cbv [mbind io_mbind mret io_mret].
  rewrite (mktime_seconds t') by done. by eexists.
Qed.

Lemma init_rtc_correct_witness :
  exists w', @init_rtc (cmos_device (cmos_of (mk_tm 30 15 12 9 6 119 0 0) 0) 3) 4 (mk_world [] false)
    = Ok (1562674530, w').
Proof.
  apply (init_rtc_correct (mk_tm 30 15 12 9 6 119 0 0) 0 3 4 (mk_world [] false)); try (simpl; lia).
  split; [|by vm_compute]. unfold tm_fields_ok. vm_compute. intuition congruence.
Defined.
