(* ===== verification/Part.v ===== *)
(** * Partition tables (src/part.c)

    [read_partitions] follows the partition records of the master boot record
    and the chain of extended boot records. Reading a sector of the boot
    drive is a parameter ([None]: the read failed); a write behind the
    caller's table is a [Fault]. The messages are
    not modelled; [print_partition_table] is in Report.v. *)
From S2P Require Import Prelude.

Definition PTYPE_EXT : Z := 0x5.
Definition PTYPE_EXT_LBA : Z := 0xf.
Definition PART_ACT_BIT : Z := Z.shiftl 1 9.
Definition PART_PRIM_BIT : Z := Z.shiftl 1 10.
Definition BOOTSIG_OFFS : Z := 510.
Definition PTABLE_OFFS : Z := 0x1be.
Definition BOOTSIG : Z := 0xaa55.

Definition PART_TYPE (attr : Z) : Z := Z.land attr 0xff.
Definition PART_IS_ACT (attr : Z) : bool := negb (Z.land attr PART_ACT_BIT =? 0).
Definition PART_IS_PRIM (attr : Z) : bool := negb (Z.land attr PART_PRIM_BIT =? 0).

Record partition := mk_part { start_sect : Z; size_sect : Z; attr : Z }.

Record part_record := mk_rec { rec_stat : Z; rec_type : Z; first_lba : Z; nsect_lba : Z }.

Definition prec (s : list Z) (i : Z) : part_record :=
  let o := PTABLE_OFFS + 16 * i in
  mk_rec (sb s o) (sb s (o + 4)) (sl s (o + 8)) (sl s (o + 12)).

Definition is_ext (r : part_record) : bool :=
  (rec_type r =? PTYPE_EXT) || (rec_type r =? PTYPE_EXT_LBA).

(** The entry written for record [r]; [mbr] is [IS_MBR] at that point. *)
Definition mk_partition (mbr : bool) (first_ebr_offs : Z) (r : part_record) : partition :=
  let attr := rec_type r in
  let attr := if Z.land (rec_stat r) 0x80 =? 0 then attr else Z.lor attr PART_ACT_BIT in
  let attr := if mbr then Z.lor attr PART_PRIM_BIT else attr in
  mk_part (u32 (first_lba r + first_ebr_offs)) (nsect_lba r) attr.

(** The locals of [read_partitions]; [ptab] is the caller's array or null,
    [part] always points to its element [nparts]. *)
Record rdstate := mk_rd { sidx : Z; first_ebr_offs : Z; nparts : Z; ptab : option (list partition) }.

Section part.
Variable boot_drive_number : Z.
Variable bdev_read_sect : Z -> option (list Z).

Definition read_sector (dev sidx : Z) : option (list Z) :=
  if (dev =? -1) || (dev =? boot_drive_number) then bdev_read_sect sidx else None.

Definition add_part (st : rdstate) (r : part_record) : res rdstate :=
  let n := nparts st + 1 in
  match ptab st with
  | None => Ok (mk_rd (sidx st) (first_ebr_offs st) n None)
  | Some l =>
      l' ← of_option (zinsert l (nparts st) (mk_partition (sidx st =? 0) (first_ebr_offs st) r));
      Ok (mk_rd (sidx st) (first_ebr_offs st) n (Some l'))
  end.

(** The loop over the records, [n] of them left from number [i] on. *)
Fixpoint scan_records (s : list Z) (num_bootrec i : Z) (n : nat) (st : rdstate) : res rdstate :=
  match n with
  | O => Ok st
  | S n =>
      let r := prec s i in
      if rec_type r =? 0 then
        if 0 <? num_bootrec then Ok (mk_rd 0 (first_ebr_offs st) (nparts st) (ptab st))
        else scan_records s num_bootrec (i + 1) n st
      else if is_ext r then
        scan_records s num_bootrec (i + 1) n
          (mk_rd (u64 (first_ebr_offs st + first_lba r)) (first_ebr_offs st) (nparts st) (ptab st))
      else
        st ← add_part st r; scan_records s num_bootrec (i + 1) n st
  end.

(** The outer loop; the result is the return value and the array. *)
Fixpoint read_bootrecs (fuel : nat) (dev ptabsz num_bootrec : Z) (st : rdstate)
    : res (Z * option (list partition)) :=
  match fuel with
  | O => NoFuel
  | S fuel =>
      let first := if negb (sidx st =? 0) && (first_ebr_offs st =? 0) then sidx st else first_ebr_offs st in
      match read_sector dev (sidx st) with
      | None => Ok (-1, ptab st)
      | Some s =>
          if negb (sw s BOOTSIG_OFFS =? BOOTSIG) then Ok (-1, ptab st) else
          st ← scan_records s num_bootrec 0 (if sidx st =? 0 then 4%nat else 2%nat)
                 (mk_rd (sidx st) first (nparts st) (ptab st));
          if (0 <? sidx st) && (match ptab st with None => true | Some _ => nparts st <? ptabsz end)
          then read_bootrecs fuel dev ptabsz (num_bootrec + 1) st
          else Ok (nparts st, ptab st)
      end
  end.

Definition read_partitions (fuel : nat) (dev : Z) (tab : option (list partition)) (ptabsz : Z)
    : res (Z * option (list partition)) :=
  read_bootrecs fuel dev ptabsz 0 (mk_rd 0 0 0 (if ptabsz <=? 0 then None else tab)).

(** ** Disks *)

Definition boot_record (sect : Z) (s : list Z) : Prop :=
  bdev_read_sect sect = Some s /\ sw s BOOTSIG_OFFS = BOOTSIG.
Definition is_part (r : part_record) : bool := negb (rec_type r =? 0) && negb (is_ext r).

(** The chain of extended boot records that starts in sector [sect]: each
    holds one partition and, but the last, the link to the next, relative to
    the first one's sector [base]. *)
Fixpoint ebr_chain (base sect : Z) (l : list part_record) : Prop :=
  match l with
  | [] => False
  | r :: l =>
      exists s, boot_record sect s /\ prec s 0 = r /\ is_part r = true /\
        match l with
        | [] => rec_type (prec s 1) = 0
        | _ => is_ext (prec s 1) = true /\ ebr_chain base (base + first_lba (prec s 1)) l
        end
  end.

(** The partitions of the master boot record's entries; those after the
    extended entry are not marked primary. *)
Fixpoint mbr_parts (prim : bool) (l : list part_record) : list partition :=
  match l with
  | [] => []
  | r :: l =>
      if rec_type r =? 0 then mbr_parts prim l
      else if is_ext r then mbr_parts (first_lba r =? 0) l
      else mk_partition prim 0 r :: mbr_parts prim l
  end.
(** Where the last extended entry leads to, 0 if there is none. *)
Fixpoint mbr_ext (l : list part_record) (ext : Z) : Z :=
  match l with
  | [] => ext
  | r :: l => mbr_ext l (if is_ext r then first_lba r else ext)
  end.
Definition mbr_records (s : list Z) : list part_record := prec s <$> [0; 1; 2; 3].

(** A disk with partitions [l]. *)
Definition disk_parts (l : list partition) : Prop :=
  exists s, boot_record 0 s /\
    let ext := mbr_ext (mbr_records s) 0 in
    if ext =? 0 then l = mbr_parts true (mbr_records s)
    else exists logical, ebr_chain ext ext logical /\
      l = mbr_parts true (mbr_records s) ++ (mk_partition false ext <$> logical).

(** The array with the partitions [ps] written to its start. *)
Definition filled (tab : option (list partition)) (ps : list partition) : option (list partition) :=
  (fun tb => ps ++ drop (length ps) tb) <$> tab.
(** Room for [n] partitions. *)
Definition fits (tab : option (list partition)) (ptabsz n : Z) : Prop :=
  match tab with Some tb => n <= ptabsz <= Z.of_nat (length tb) | None => True end.

Lemma add_part_filled sx fe tab ptabsz ps r :
  fits tab ptabsz (Z.of_nat (length ps) + 1) ->
  add_part (mk_rd sx fe (Z.of_nat (length ps)) (filled tab ps)) r =
  Ok (mk_rd sx fe (Z.of_nat (length (ps ++ [mk_partition (sx =? 0) fe r])))
        (filled tab (ps ++ [mk_partition (sx =? 0) fe r]))).
Proof.
  intros Hf. unfold add_part. cbn [ptab nparts sidx first_ebr_offs].
  generalize (mk_partition (sx =? 0) fe r) as p. intros p.
  rewrite length_app; cbn [length]. destruct tab as [tb|]; cbn [filled fmap option_fmap option_map].
  - cbn [fits] in Hf. unfold zinsert. rewrite length_app, length_drop. zcases. cbn [orb].
    rewrite Nat2Z.id. cbn [of_option mbind res_mbind res_bind].
    rewrite insert_app_r_alt, Nat.sub_diag by lia.
    destruct (drop (length ps) tb) as [|x rest] eqn:E.
    { apply (f_equal length) in E. rewrite length_drop in E. cbn in E. lia. }
    cbn [insert list_insert]. rewrite <- app_assoc, length_app. cbn [app length].
    rewrite <- drop_drop, E. cbn [drop]. do 2 f_equal. lia.
  - cbn [mbind]. do 2 f_equal. lia.
Qed.

Lemma fits_le tab ptabsz n m : fits tab ptabsz m -> n <= m -> fits tab ptabsz n.
Proof. destruct tab; cbn; [lia|done]. Qed.

Lemma is_ext_nonzero r : is_ext r = true -> rec_type r <> 0.
Proof. unfold is_ext, PTYPE_EXT, PTYPE_EXT_LBA. intros H E. rewrite E in H. done. Qed.

(** The scan of the master boot record. *)
Lemma scan_mbr s tab ptabsz i n sx ps :
  fits tab ptabsz (Z.of_nat (length ps + length (mbr_parts (sx =? 0) (prec s <$> zseq i n)))) ->
  let ps' := ps ++ mbr_parts (sx =? 0) (prec s <$> zseq i n) in
  scan_records s 0 i n (mk_rd sx 0 (Z.of_nat (length ps)) (filled tab ps)) =
  Ok (mk_rd (mbr_ext (prec s <$> zseq i n) sx) 0 (Z.of_nat (length ps')) (filled tab ps')).
Proof.
  revert i sx ps. induction n as [|n IH]; intros i sx ps Hf; cbn [zseq fmap list_fmap mbr_parts mbr_ext scan_records].
  - by rewrite app_nil_r.
  - cbn [zseq fmap list_fmap mbr_parts] in Hf.
    destruct (rec_type (prec s i) =? 0) eqn:E0.
    + assert (is_ext (prec s i) = false) as -> by (unfold is_ext, PTYPE_EXT, PTYPE_EXT_LBA; zcases).
      cbn [Z.ltb Z.compare]. by apply IH.
    + destruct (is_ext (prec s i)) eqn:Ee.
      * cbn [sidx first_ebr_offs nparts ptab].
        assert (u64 (0 + first_lba (prec s i)) = first_lba (prec s i)) as ->.
        { pose proof (sl_range s (PTABLE_OFFS + 16 * i + 8)). unfold u64. cbn [prec first_lba].
          apply Z.mod_small. lia. }
        by apply IH.
      * cbn [length] in Hf. rewrite (add_part_filled _ _ _ ptabsz) by (eapply fits_le; [exact Hf|lia]).
        cbn [mbind res_mbind res_bind]. rewrite IH by (eapply fits_le; [exact Hf|rewrite length_app; cbn [length]; lia]).
        rewrite <- app_assoc. done.
Qed.

(** One extended boot record. *)
Lemma scan_ebr s tab ptabsz nb sx fe ps :
  0 < nb -> is_part (prec s 0) = true -> fits tab ptabsz (Z.of_nat (length ps) + 1) ->
  rec_type (prec s 1) = 0 \/ is_ext (prec s 1) = true ->
  let ps' := ps ++ [mk_partition (sx =? 0) fe (prec s 0)] in
  scan_records s nb 0 2 (mk_rd sx fe (Z.of_nat (length ps)) (filled tab ps)) =
  Ok (mk_rd (if rec_type (prec s 1) =? 0 then 0 else u64 (fe + first_lba (prec s 1)))
        fe (Z.of_nat (length ps')) (filled tab ps')).
Proof.
  intros Hnb H0 Hf H1. cbn [scan_records]. unfold is_part in H0. apply andb_prop in H0 as [Ha Hb].
  apply negb_true_iff in Ha, Hb. rewrite Ha, Hb.
  rewrite (add_part_filled _ _ _ ptabsz) by done. cbn [mbind res_mbind res_bind]. change (0 + 1) with 1.
  destruct (Z.ltb_spec 0 nb); [|lia]. destruct H1 as [H1|H1].
  - rewrite H1. done.
  - pose proof (is_ext_nonzero _ H1) as Hn. apply Z.eqb_neq in Hn. by rewrite Hn, H1.
Qed.

Lemma prec_lba_range s i : 0 <= first_lba (prec s i) < 4294967296.
Proof. apply sl_range. Qed.

Lemma mk_partition_log sx fe r : sx <> 0 -> mk_partition (sx =? 0) fe r = mk_partition false fe r.
Proof. intros H. by apply Z.eqb_neq in H as ->. Qed.

Lemma boot_dev dev :
  dev = -1 \/ dev = boot_drive_number -> (dev =? -1) || (dev =? boot_drive_number) = true.
Proof. intros [->| ->]; by rewrite ?Z.eqb_refl, ?orb_true_r. Qed.

(** The chain of extended boot records. *)
Lemma read_ebrs dev tab ptabsz base logical fuel sect fe nb ps :
  dev = -1 \/ dev = boot_drive_number -> 0 < base < 4294967296 -> 0 < sect < 8589934592 -> 0 < nb ->
  fe = base \/ (fe = 0 /\ sect = base) -> (length logical <= fuel)%nat ->
  fits tab ptabsz (Z.of_nat (length ps + length logical)) ->
  ebr_chain base sect logical ->
  let ps' := ps ++ (mk_partition false base <$> logical) in
  read_bootrecs fuel dev ptabsz nb (mk_rd sect fe (Z.of_nat (length ps)) (filled tab ps)) =
  Ok (Z.of_nat (length ps'), filled tab ps').
Proof.
  intros Hdev Hbase. revert fuel sect fe nb ps.
  induction logical as [|r l IH]; intros [|fuel] sect fe nb ps Hsect Hnb Hfe Hfuel Hf Hch;
    cbn [ebr_chain length] in *; try lia; try done.
  destruct Hch as (s & [Hs Hsig] & Hr & Hp & Hl).
  cbn [read_bootrecs sidx first_ebr_offs nparts ptab]. 
  unfold read_sector. rewrite boot_dev, Hs, Hsig by done.
  cbn [negb]. rewrite (Z.eqb_refl BOOTSIG). cbn [negb].
  assert (sect =? 0 = false) as E0 by lia. rewrite E0. cbn [negb andb].
  assert ((if fe =? 0 then sect else fe) = base) as -> by (destruct Hfe as [->|[-> ->]]; zcases).
  assert (rec_type (prec s 1) = 0 \/ is_ext (prec s 1) = true) as H1 by (destruct l; [by left | right; apply Hl]).
  rewrite <- Hr in Hp. rewrite (scan_ebr s tab ptabsz) by (done || (eapply fits_le; [exact Hf|lia])).
  cbn [mbind res_mbind res_bind sidx nparts ptab]. rewrite mk_partition_log, Hr by lia.
  destruct l as [|r' l].
  - apply Z.eqb_eq in Hl. rewrite Hl. done.
  - destruct Hl as [He Hch]. pose proof (is_ext_nonzero _ He) as Hn. apply Z.eqb_neq in Hn. rewrite Hn.
    pose proof (prec_lba_range s 1).
    assert (u64 (base + first_lba (prec s 1)) = base + first_lba (prec s 1)) as ->
      by (unfold u64; apply Z.mod_small; lia).
    destruct (Z.ltb_spec 0 (base + first_lba (prec s 1))); [|lia].
    assert (match filled tab (ps ++ [mk_partition false base r]) with
            | Some _ => Z.of_nat (length (ps ++ [mk_partition false base r])) <? ptabsz
            | None => true end = true) as ->.
    { destruct tab; [|done]. cbn [filled fmap option_fmap option_map fits] in *. rewrite length_app; cbn [length] in *. apply Z.ltb_lt. clear - Hf. lia. }
    cbn [andb]. rewrite IH by first [done | lia | (by left) | (eapply fits_le; [exact Hf|rewrite length_app; cbn [length]; lia])].
    rewrite <- app_assoc. done.
Qed.

Lemma ebr_chain_nonempty base sect l : ebr_chain base sect l -> (0 < length l)%nat.
Proof. destruct l; cbn; [done|lia]. Qed.

Lemma mbr_ext_range l sx :
  0 <= sx < 4294967296 -> (forall r, r ∈ l -> 0 <= first_lba r < 4294967296) ->
  0 <= mbr_ext l sx < 4294967296.
Proof.
  revert sx. induction l as [|r l IH]; intros sx Hsx Hl; cbn [mbr_ext]; [done|].
  apply IH; [|set_solver]. destruct (is_ext r); [apply Hl; set_solver|done].
Qed.

(** On a disk with a well-formed partition table [read_partitions] finds
    exactly its partitions, primary ones first, and writes them to the start of
    the caller's table if it gave one that is long enough; with no table it
    counts them. *)
Theorem read_partitions_correct fuel dev tab ptabsz l :
  disk_parts l -> dev = -1 \/ dev = boot_drive_number -> (length l < fuel)%nat ->
  let tab' := if ptabsz <=? 0 then None else tab in
  fits tab' ptabsz (Z.of_nat (length l)) ->
  read_partitions fuel dev tab ptabsz = Ok (Z.of_nat (length l), filled tab' l).
Proof.
  intros (s & [Hs Hsig] & Hl) Hdev Hfuel tab' Hf. cbv zeta in Hl. unfold read_partitions. fold tab'.
  destruct fuel as [|fuel]; [lia|].
  cbn [read_bootrecs sidx first_ebr_offs nparts ptab]. unfold read_sector. rewrite boot_dev, Hs, Hsig by done.
  rewrite (Z.eqb_refl BOOTSIG). cbn [negb andb Z.eqb].
  set (q := mbr_parts true (mbr_records s)) in *. set (ext := mbr_ext (mbr_records s) 0) in *.
  assert (fits tab' ptabsz (Z.of_nat (length q)) /\ (length q <= length l)%nat) as [Hfq Hq].
  { destruct (ext =? 0); [rewrite Hl in *; split; [done|lia]|]. destruct Hl as (lg & _ & ->). rewrite length_app in *.
    split; [eapply fits_le; [exact Hf|lia]|lia]. }
  pose proof (scan_mbr s tab' ptabsz 0 4 0 [] Hfq) as E. cbn [length app filled] in E.
  change (prec s <$> zseq 0 4) with (mbr_records s) in E.
  change (mbr_parts (0 =? 0) (mbr_records s)) with q in E. fold ext in E.
  replace (filled tab' []) with tab' in E by (destruct tab'; done). cbv zeta in E. change (Z.of_nat 0) with 0 in E.
  rewrite E. clear E. cbn [mbind res_mbind res_bind sidx nparts ptab].
  assert (0 <= ext < 4294967296) as Hext.
  { apply mbr_ext_range; [lia|]. intros r Hr. unfold mbr_records in Hr.
    apply list_elem_of_fmap in Hr as (i & -> & _). apply prec_lba_range. }
  destruct (Z.eqb_spec ext 0) as [E0|E0].
  - rewrite E0. cbn [Z.ltb Z.compare andb]. by rewrite Hl.
  - destruct Hl as (lg & Hch & ->). pose proof (ebr_chain_nonempty _ _ _ Hch).
    rewrite length_app, length_fmap in *.
    destruct (Z.ltb_spec 0 ext); [|lia].
    assert (match filled tab' q with Some _ => Z.of_nat (length q) <? ptabsz | None => true end = true) as ->.
    { destruct tab'; [|done]. cbn [filled fmap option_fmap option_map fits] in *. lia. }
    cbn [andb]. rewrite (read_ebrs dev tab' ptabsz ext lg) by (done || lia || by right).
    by rewrite length_app, length_fmap.
Qed.

(** The table is only checked between boot records: a master boot record with
    more partitions than a table of one entry makes [read_partitions] write
    behind it. *)
Theorem read_partitions_overflow fuel s tb :
  boot_record 0 s -> length tb = 1%nat -> is_part (prec s 0) = true -> is_part (prec s 1) = true ->
  read_partitions (S fuel) (-1) (Some tb) 1 = Fault.
Proof.
  intros [Hs Hsig] Hlen H0 H1. unfold read_partitions.
  cbn [read_bootrecs sidx first_ebr_offs nparts ptab]. unfold read_sector. cbn [Z.eqb Pos.eqb orb]. rewrite Hs, Hsig.
  rewrite (Z.eqb_refl BOOTSIG). cbn [negb andb Z.eqb].
  unfold is_part in *. apply andb_prop in H0 as [Ha Hb]. apply andb_prop in H1 as [Hc Hd].
  apply negb_true_iff in Ha, Hb, Hc, Hd.
  destruct tb as [|p [|]]; try done.
  cbn [scan_records]. rewrite Ha, Hb. change (0 + 1) with 1.
  change (add_part (mk_rd 0 0 0 (Some [p])) (prec s 0)) with (Ok (mk_rd 0 0 1 (Some [mk_partition true 0 (prec s 0)]))).
  cbn [mbind res_mbind res_bind]. by rewrite Hc, Hd.
Qed.

(** An extended boot record whose two entries are both partitions is read
    again and again: without a table no fuel is enough. *)
Lemma read_ebr_diverges s base fuel fe nb n :
  0 < base < 4294967296 -> 0 < nb -> fe = base \/ fe = 0 -> boot_record base s ->
  is_part (prec s 0) = true -> is_part (prec s 1) = true ->
  read_bootrecs fuel (-1) 0 nb (mk_rd base fe n None) = NoFuel.
Proof.
  intros Hb Hnb Hfe [Hs Hsig] H0 H1. revert fe nb n Hnb Hfe. unfold is_part in *.
  apply andb_prop in H0 as [Ha Hb']. apply andb_prop in H1 as [Hc Hd].
  apply negb_true_iff in Ha, Hb', Hc, Hd.
  induction fuel as [|fuel IH]; intros fe nb n Hnb Hfe; [done|].
  cbn [read_bootrecs sidx first_ebr_offs nparts ptab]. unfold read_sector. cbn [Z.eqb Pos.eqb orb]. rewrite Hs, Hsig.
  rewrite (Z.eqb_refl BOOTSIG). cbn [negb]. assert (base =? 0 = false) as -> by lia. cbn [negb andb scan_records].
  change (0 + 1) with 1.
  rewrite Ha, Hb'. cbn [add_part ptab nparts mbind res_mbind res_bind sidx first_ebr_offs]. rewrite Hc, Hd.
  cbn [add_part ptab nparts mbind res_mbind res_bind sidx first_ebr_offs].
  destruct (Z.ltb_spec 0 base); [|lia]. cbn [andb]. apply IH; [lia|].
  destruct Hfe as [->| ->]; [|by left]. left. zcases.
Qed.
End part.

(** ** A disk with a primary and two logical partitions *)
Definition le4 (x : Z) : list Z := [u8 x; u8 (x / 256); u8 (x / 65536); u8 (x / 16777216)].
Definition rec_bytes (r : part_record) : list Z :=
  [rec_stat r; 0; 0; 0; rec_type r; 0; 0; 0] ++ le4 (first_lba r) ++ le4 (nsect_lba r).
Definition sector_of (l : list part_record) : list Z :=
  let s := repeat 0 446 ++ concat (rec_bytes <$> l) in
  s ++ repeat 0 (510 - length s) ++ [0x55; 0xaa].
Definition demo_disk (sect : Z) : option (list Z) :=
  if sect =? 0 then Some (sector_of [mk_rec 0x80 6 63 2000; mk_rec 0 5 4000 3000])
  else if sect =? 4000 then Some (sector_of [mk_rec 0 0x83 63 500; mk_rec 0 5 1000 900])
  else if sect =? 5000 then Some (sector_of [mk_rec 0 0x83 63 600])
  else None.

Lemma read_partitions_correct_witness :
  read_partitions 0x80 demo_disk 4 (-1) None 0 =
  Ok (3, filled None [mk_part 63 2000 0x606; mk_part 4063 500 0x83; mk_part 4063 600 0x83]).
Proof.
  apply (read_partitions_correct 0x80 demo_disk 4 (-1) None 0
    [mk_part 63 2000 0x606; mk_part 4063 500 0x83; mk_part 4063 600 0x83]).
  - exists (sector_of [mk_rec 0x80 6 63 2000; mk_rec 0 5 4000 3000]).
    split; [by split; vm_compute|].
    exists [mk_rec 0 0x83 63 500; mk_rec 0 0x83 63 600]. split; [|by vm_compute].
    exists (sector_of [mk_rec 0 0x83 63 500; mk_rec 0 5 1000 900]).
    split; [by split; vm_compute|]. split; [by vm_compute|]. split; [by vm_compute|]. split; [by vm_compute|].
    exists (sector_of [mk_rec 0 0x83 63 600]).
    split; [by split; vm_compute|]. split; [by vm_compute|]. split; by vm_compute.
  - by left.
  - cbn. lia.
  - done.
Defined.

Lemma read_partitions_overflow_witness :
  read_partitions 0x80
    (fun _ => Some (sector_of [mk_rec 0x80 6 63 2000; mk_rec 0 6 4000 3000])) 1 (-1) (Some [mk_part 0 0 0]) 1 = Fault.
Proof.
  apply (read_partitions_overflow 0x80 _ 0 (sector_of [mk_rec 0x80 6 63 2000; mk_rec 0 6 4000 3000])); by vm_compute.
Defined.
