(* ===== verification/Bootdev.v ===== *)
(** * Boot device: sector access through the BIOS (src/bootdev.c, src/floppy.c)

    Sectors are transferred through a buffer in low memory by BIOS interrupt
    13h, with linear addresses (functions 42h and 43h) where the BIOS has
    them, else with cylinder, head and sector numbers (functions 2 and 3).
    [int86] enters the BIOS: it is a parameter that acts on the registers, the
    memory and the state [B] of the BIOS and its drives. *)
From S2P Require Import Prelude Memory Str Bits Io Int86 Timer.

Definition FLOPPY_MOTOR_OFF_TIMEOUT : Z := 4000.
Definition NRETRIES : nat := 3.
Definition FDC_REG_DOUT : Z := 0x3f2.

Record chs := mk_chs { cyl : Z; head : Z; tsect : Z }.
Inductive op := OP_READ | OP_WRITE.

(** [floppy_motors_off] of floppy.c. *)
Definition floppy_motors_off `{Device} : IO unit :=
  dout ← inb FDC_REG_DOUT; outb (Z.land dout 0xf) FDC_REG_DOUT.

(** The static variables of bootdev.c. *)
Record bootdev := mk_bootdev {
  have_bios_ext : bool; bdev_is_floppy : bool;
  num_cyl : Z; num_heads : Z; num_track_sect : Z }.

Definition calc_chs (d : bootdev) (lba : Z) : res chs :=
  if negb (Z.shiftr lba 32 =? 0) then Panic else
  let lba32 := u32 lba in
  let spt := u32 (num_track_sect d) in
  let heads := u32 (num_heads d) in
  if spt =? 0 then Fault else
  let trk := lba32 / spt in
  if heads =? 0 then Fault else
  Ok (mk_chs (trk / heads) (trk mod heads) (u32 (lba32 mod spt + 1))).

Section bootdev.
Context {B F : Type} `{EqDecision F}.
Variable int86 : Z -> int86regs -> gmap Z Z -> B -> int86regs * gmap Z Z * B.
Variable low_mem_buffer boot_drive_number : Z.
Variable motors_off : F.

Record sys := mk_sys { smem : gmap Z Z; sbios : B; stimer : timer F }.

Definition call_bios (r : int86regs) (s : sys) : int86regs * sys :=
  let '(r, m, b) := int86 0x13 r (smem s) (sbios s) in (r, mk_sys m b (stimer s)).

Definition bios_reset_dev (dev : Z) (s : sys) : Z * sys :=
  let '(r, s) := call_bios (regs_in 0 0 0 dev 0 0) s in (if carry r then -1 else 0, s).

(** The disk address packet at [a]. *)
Definition write_dap (m : gmap Z Z) (a nsect bseg lba : Z) : gmap Z Z :=
  let m := st8 m a 16 in
  let m := st8 m (a + 1) 0 in
  let m := st16 m (a + 2) (u16 nsect) in
  let m := st16 m (a + 4) 0 in
  let m := st16 m (a + 6) (u16 bseg) in
  let m := st32 m (a + 8) (u32 lba) in
  st32 m (a + 12) (u32 (Z.shiftr lba 32)).

Definition bios_rw_sect_lba (dev lba nsect : Z) (o : op) (buf : Z) (s : sys) : Z * sys :=
  let addr := low_mem_buffer in
  let xaddr := Z.land (u32 (addr + 16 + 15)) 0xfffffff0 in
  let '(func, m) := match o with
                    | OP_READ => (0x42, smem s)
                    | OP_WRITE => (0x43, memcpy (smem s) xaddr buf (nsect * 512))
                    end in
  let m := write_dap m addr nsect (Z.shiftr xaddr 4) lba in
  let '(r, s) := call_bios (regs_in (Z.shiftl func 8) 0 0 dev (Z.shiftr addr 4) 0)
                   (mk_sys m (sbios s) (stimer s)) in
  if carry r then (-1, s) else
  let m := match o with
           | OP_READ => memcpy (smem s) buf xaddr (nsect * 512)
           | OP_WRITE => smem s
           end in
  (ld16 m (addr + 2), mk_sys m (sbios s) (stimer s)).

(** The register [ecx] of functions 2 and 3. *)
Definition chs_ecx (c : chs) : Z :=
  Z.lor (Z.lor (Z.land (Z.shiftl (cyl c) 8) 0xff00) (Z.land (Z.shiftr (cyl c) 10) 0xc0)) (tsect c).

Definition bios_rw_sect_chs (dev : Z) (c : chs) (nsect : Z) (o : op) (buf : Z) (s : sys) : Z * sys :=
  let xaddr := low_mem_buffer in
  let '(func, m) := match o with
                    | OP_READ => (2, smem s)
                    | OP_WRITE => (3, memcpy (smem s) low_mem_buffer buf (nsect * 512))
                    end in
  let '(r, s) := call_bios (regs_in (Z.lor (Z.shiftl func 8) nsect) 0 (chs_ecx c)
                              (Z.lor dev (Z.shiftl (head c) 8)) 0 (Z.shiftr xaddr 4))
                   (mk_sys m (sbios s) (stimer s)) in
  if carry r then (-1, s) else
  let m := match o with
           | OP_READ => memcpy (smem s) buf low_mem_buffer (nsect * 512)
           | OP_WRITE => smem s
           end in
  (nsect, mk_sys m (sbios s) (stimer s)).

Definition get_drive_chs (dev : Z) (s : sys) : option chs * sys :=
  let '(r, s) := call_bios (regs_in 0x800 0 0 dev 0 0) s in
  if carry r then (None, s) else
  (Some (mk_chs
     (Z.lor (Z.land (Z.shiftr (ecx r) 8) 0xff) (Z.land (Z.shiftl (ecx r) 2) 0x300) + 1)
     (Z.shiftr (edx r) 8 + 1)
     (Z.land (ecx r) 0x3f)), s).

Definition bdev_init (s : sys) : res (bootdev * sys) :=
  let floppy := Z.land boot_drive_number 0x80 =? 0 in
  let '(r, s) := call_bios (regs_in 0x4100 0x55aa 0 boot_drive_number 0 0) s in
  if carry r || (Z.land (ecx r) 1 =? 0) then
    match get_drive_chs boot_drive_number s with
    | (None, _) => Panic
    | (Some c, s) => Ok (mk_bootdev false floppy (cyl c) (head c) (tsect c), s)
    end
  else Ok (mk_bootdev true floppy 0 0 0, s).

(** The floppy motor is switched off four seconds after the last access. *)
Definition motor_alarm (mem_ok : bool) (d : bootdev) (s : sys) : IO sys :=
  if bdev_is_floppy d then
    t ← cancel_alarm motors_off (stimer s);
    t ← set_alarm mem_ok FLOPPY_MOTOR_OFF_TIMEOUT motors_off t;
    mret (mk_sys (smem s) (sbios s) t)
  else mret s.

(** The retry loop of [bdev_read_sect]. *)
Fixpoint read_retry (n : nat) (c : chs) (buf : Z) (s : sys) : Z * sys :=
  match n with
  | O => (-1, s)
  | S n =>
      let '(rd, s) := bios_rw_sect_chs boot_drive_number c 1 OP_READ buf s in
      if negb (rd =? -1) then (0, s) else
      let '(_, s) := bios_reset_dev boot_drive_number s in
      read_retry n c buf s
  end.

Definition bdev_read_sect (mem_ok : bool) (d : bootdev) (lba buf : Z) (s : sys) : IO (Z * sys) :=
  s ← motor_alarm mem_ok d s;
  if have_bios_ext d then mret (bios_rw_sect_lba boot_drive_number lba 1 OP_READ buf s) else
  c ← lift (calc_chs d lba);
  mret (read_retry NRETRIES c buf s).

Definition bdev_write_sect (mem_ok : bool) (d : bootdev) (lba buf : Z) (s : sys) : IO (Z * sys) :=
  s ← motor_alarm mem_ok d s;
  if have_bios_ext d then mret (bios_rw_sect_lba boot_drive_number lba 1 OP_WRITE buf s) else
  c ← lift (calc_chs d lba);
  mret (bios_rw_sect_chs boot_drive_number c 1 OP_WRITE buf s).

(** The retry loop of [bdev_read_range]. *)
Fixpoint read_range_retry (n : nat) (d : bootdev) (lba : Z) (c : chs) (nsect buf : Z) (s : sys)
    : res (Z * sys) :=
  match n with
  | O => Ok (-1, s)
  | S n =>
      let '(rd, s) := bios_rw_sect_chs boot_drive_number c nsect OP_READ buf s in
      if rd =? nsect then Ok (0, s) else
      '(lba, c, nsect, buf) ←
        (if 0 <? rd then
           c ← calc_chs d (u64 (lba + rd)); Ok (u64 (lba + rd), c, nsect - rd, u32 (buf + rd * 512))
         else Ok (lba, c, nsect, buf));
      let '(_, s) := bios_reset_dev boot_drive_number s in
      read_range_retry n d lba c nsect buf s
  end.

Definition bdev_read_range (mem_ok : bool) (d : bootdev) (lba nsect buf : Z) (s : sys) : IO (Z * sys) :=
  s ← motor_alarm mem_ok d s;
  if have_bios_ext d then mret (bios_rw_sect_lba boot_drive_number lba nsect OP_READ buf s) else
  c ← lift (calc_chs d lba);
  lift (read_range_retry NRETRIES d lba c nsect buf s).

Definition bdev_write_range (mem_ok : bool) (d : bootdev) (lba nsect buf : Z) (s : sys) : IO (Z * sys) :=
  s ← motor_alarm mem_ok d s;
  if have_bios_ext d then mret (bios_rw_sect_lba boot_drive_number lba nsect OP_WRITE buf s) else
  c ← lift (calc_chs d lba);
  mret (bios_rw_sect_chs boot_drive_number c nsect OP_WRITE buf s).
End bootdev.
Arguments sys B F : clear implicits.

(** ** The BIOS as a drive *)

(** What the client of the BIOS relies on: the drive [dev] has [drive_size]
    sectors, [sectors b] their contents; interrupt 13h transfers sectors, after
    [pending b] attempts that end with the carry flag set. A failed attempt
    may leave anything in the transfer buffer and in the address packet [dap]. *)
Definition sect_bytes (sectors : Z -> list Z) (lba n : Z) : list Z :=
  concat (sectors <$> zseq lba (Z.to_nat n)).

Definition served {B} (sectors : B -> Z -> list Z) (pending : B -> nat) (o : op) (dap xaddr lba n : Z)
    (m : gmap Z Z) (b : B) (out : int86regs * gmap Z Z * B) : Prop :=
  let '(r, m', b') := out in
  match pending b with
  | O => carry r = false /\ pending b' = O /\
      match o with
      | OP_READ => (forall x, ld8 m' x = ld8 (store_list m xaddr (sect_bytes (sectors b) lba n)) x) /\
                   sectors b' = sectors b
      | OP_WRITE => (forall x, ld8 m' x = ld8 m x) /\
          forall k, sectors b' k = if decide (lba <= k < lba + n)
                                   then bytes_at m (xaddr + (k - lba) * 512) 512 else sectors b k
      end
  | S p => carry r = true /\ pending b' = p /\
      (forall x, (x < xaddr \/ xaddr + n * 512 <= x) -> (x < dap \/ dap + 16 <= x) -> ld8 m' x = ld8 m x) /\
      match o with
      | OP_READ => sectors b' = sectors b
      | OP_WRITE => forall k, k < lba \/ lba + n <= k -> sectors b' k = sectors b k
      end
  end.

Class BiosDrive {B} (int86 : Z -> int86regs -> gmap Z Z -> B -> int86regs * gmap Z Z * B) (dev : Z) := {
  drive_size : Z;
  drive_heads : Z;
  drive_spt : Z;
  drive_geometry : 0 < drive_heads <= 256 /\ 0 < drive_spt <= 63;
  sectors : B -> Z -> list Z;
  pending : B -> nat;
  sector_ok b k : length (sectors b k) = 512%nat /\ Forall (fun c => 0 <= c < 256) (sectors b k);
  (** functions 42h and 43h *)
  lba_served (o : op) r m b :
    let dap := ds r * 16 + u16 (esi r) in
    let n := ld16 m (dap + 2) in
    let lba := ld32 m (dap + 8) + 4294967296 * ld32 m (dap + 12) in
    eax r = (match o with OP_READ => 0x4200 | OP_WRITE => 0x4300 end) -> edx r = dev ->
    ld8 m dap = 16 -> 0 < n <= 127 -> lba + n <= drive_size ->
    served sectors pending o dap (ld16 m (dap + 6) * 16 + ld16 m (dap + 4)) lba n m b (int86 0x13 r m b);
  (** functions 2 and 3 *)
  chs_served (o : op) r m b :
    let n := u8 (eax r) in
    let head := Z.shiftr (edx r) 8 in
    let cyl := u8 (Z.shiftr (ecx r) 8) + 4 * Z.land (ecx r) 0xc0 in
    let sect := Z.land (ecx r) 0x3f in
    let lba := (cyl * drive_heads + head) * drive_spt + sect - 1 in
    Z.shiftr (eax r) 8 = (match o with OP_READ => 2 | OP_WRITE => 3 end) -> u8 (edx r) = dev ->
    0 <= head < drive_heads -> 0 < n -> 1 <= sect -> sect - 1 + n <= drive_spt -> lba + n <= drive_size ->
    served sectors pending o (es r * 16 + u16 (ebx r)) (es r * 16 + u16 (ebx r)) lba n m b (int86 0x13 r m b);
  (** function 0 *)
  reset_served r m b : eax r = 0 -> edx r = dev ->
    let '(_, m', b') := int86 0x13 r m b in
    m' = m /\ sectors b' = sectors b /\ pending b' = pending b }.

(** ** Address translation *)

(** [calc_chs] numbers the sectors of the drive: within the geometry, and
    the sector number it stands for is [lba]. *)
Theorem calc_chs_correct d lba :
  0 < num_heads d < 2147483648 -> 0 < num_track_sect d < 2147483648 -> 0 <= lba < 4294967296 ->
  exists c, calc_chs d lba = Ok c /\
    0 <= head c < num_heads d /\ 1 <= tsect c <= num_track_sect d /\ 0 <= cyl c /\
    (cyl c * num_heads d + head c) * num_track_sect d + tsect c - 1 = lba.
Proof.
  intros Hh Hs Hl. unfold calc_chs. rewrite Z.shiftr_div_pow2 by lia.
  change (2 ^ 32) with 4294967296. rewrite (Z.div_small lba) by lia. cbn [Z.eqb negb].
  rewrite !(u32_small lba), !(u32_small (num_track_sect d)), !(u32_small (num_heads d)) by lia.
  destruct (Z.eqb_spec (num_track_sect d) 0), (Z.eqb_spec (num_heads d) 0); try lia.
  pose proof (Z.mod_pos_bound lba (num_track_sect d)).
  pose proof (Z.mod_pos_bound (lba / num_track_sect d) (num_heads d)).
  pose proof (Z.div_mod lba (num_track_sect d)). pose proof (Z.div_mod (lba / num_track_sect d) (num_heads d)).
  assert (0 <= lba / num_track_sect d) by (apply Z.div_pos; lia).
  assert (0 <= lba / num_track_sect d / num_heads d) by (apply Z.div_pos; lia).
  rewrite u32_small by lia. eexists. split; [done|]. cbn [cyl head tsect]. split_and!; try lia; nia.
Qed.

(** The registers of functions 2 and 3 hold sector and the low eight bits of
    the cylinder; the two high bits that belong into bits 6 and 7 are 0. *)
Lemma chs_ecx_fields c :
  0 <= cyl c < 65536 -> 0 <= tsect c < 64 ->
  u8 (Z.shiftr (chs_ecx c) 8) = cyl c mod 256 /\ Z.land (chs_ecx c) 0xc0 = Z.land (cyl c / 1024) 0xc0 /\
  Z.land (chs_ecx c) 0x3f = tsect c.
Proof.
  intros Hc Ht. unfold chs_ecx.
  assert (forall n, 0 <= n -> Z.testbit (tsect c) n = (n <? 6) && Z.testbit (tsect c) n) as Hts.
  { intros n Hn. destruct (Z.ltb_spec n 6); [done|]. cbn.
    rewrite <- (Z.mod_small (tsect c) (2 ^ 6)) by lia. by apply Z.mod_pow2_bits_high. }
  split_and!; apply Z.bits_inj'; intros n Hn.
  - rewrite u8_bits, Z.shiftr_spec, !Z.lor_spec, !Z.land_spec, Z.shiftl_spec, Z.shiftr_spec, Hts by lia.
    change 256 with (2 ^ 8). change 0xff00 with (Z.ldiff (Z.ones 16) (Z.ones 8)). change 0xc0 with (Z.ldiff (Z.ones 8) (Z.ones 6)).
    rewrite !Z.ldiff_spec, !Z.testbit_ones_nonneg by lia.
    destruct (Z.ltb_spec n 8).
    + rewrite Z.mod_pow2_bits_low by lia. zcases. rewrite !andb_true_r, !andb_false_r, !orb_false_r. f_equal. lia.
    + by rewrite Z.mod_pow2_bits_high by lia.
  - rewrite !Z.land_spec, !Z.lor_spec, !Z.land_spec, Z.shiftl_spec, Z.shiftr_spec, Hts by lia.
    change 1024 with (2 ^ 10). rewrite <- Z.shiftr_div_pow2, Z.shiftr_spec by lia.
    change 0xff00 with (Z.ldiff (Z.ones 16) (Z.ones 8)). change 0xc0 with (Z.ldiff (Z.ones 8) (Z.ones 6)).
    rewrite !Z.ldiff_spec, !Z.testbit_ones_nonneg by lia.
    destruct (Z.ltb_spec n 6), (Z.ltb_spec n 8), (Z.ltb_spec n 16); cbn [andb orb negb]; try lia;
      rewrite ?andb_false_r, ?andb_true_r, ?orb_false_r, ?orb_false_l; done.
  - rewrite !Z.land_spec, !Z.lor_spec, !Z.land_spec, Z.shiftl_spec, Z.shiftr_spec by lia.
    rewrite (Hts n) by lia.
    change 0xff00 with (Z.ldiff (Z.ones 16) (Z.ones 8)). change 0xc0 with (Z.ldiff (Z.ones 8) (Z.ones 6)). change 0x3f with (Z.ones 6).
    rewrite !Z.ldiff_spec, !Z.testbit_ones_nonneg by lia.
    destruct (Z.ltb_spec n 6), (Z.ltb_spec n 8), (Z.ltb_spec n 16); cbn [andb orb negb]; try lia;
      rewrite ?andb_false_r, ?andb_true_r, ?orb_false_r, ?orb_false_l; done.
Qed.

(** ** Transfers *)

Lemma write_dap_fields m a n bseg lba :
  0 <= n < 65536 -> 0 <= bseg < 65536 -> 0 <= lba < 18446744073709551616 ->
  let m' := write_dap m a n bseg lba in
  ld8 m' a = 16 /\ ld16 m' (a + 2) = n /\ ld16 m' (a + 4) = 0 /\ ld16 m' (a + 6) = bseg /\
  ld32 m' (a + 8) + 4294967296 * ld32 m' (a + 12) = lba /\
  forall x, x < a \/ a + 16 <= x -> ld8 m' x = ld8 m x.
Proof.
  intros Hn Hb Hl. unfold write_dap. rewrite !(u16_small n), !(u16_small bseg) by lia.
  rewrite Z.shiftr_div_pow2 by lia. change (2 ^ 32) with 4294967296.
  split_and!.
  - rewrite !ld8_st32_ne, !ld8_st16_ne, !ld8_st8 by lia. by rewrite decide_False, decide_True by lia.
  - by rewrite !ld16_st32_ne, !ld16_st16_ne, ld16_st16_eq by lia.
  - by rewrite !ld16_st32_ne, !ld16_st16_ne, ld16_st16_eq by lia.
  - by rewrite !ld16_st32_ne, ld16_st16_eq by lia.
  - rewrite ld32_st32_ne, !ld32_st32_eq by (lia || apply u32_range). unfold u32. mlia.
  - intros x Hx. rewrite !ld8_st32_ne, !ld8_st16_ne, !ld8_st8 by lia. by rewrite !decide_False by lia.
Qed.

Section transfer.
Context {B F : Type} `{EqDecision F}.
Context {int86 : Z -> int86regs -> gmap Z Z -> B -> int86regs * gmap Z Z * B} {dev : Z}.
Context `{BIOS : !BiosDrive int86 dev}.
Variable L : Z.
Implicit Types s : sys B F.

(** The transfer buffer is in the first megabyte and does not overlap the
    caller's. *)
Definition buffers_ok (buf n : Z) : Prop :=
  L mod 16 = 0 /\ 0 <= L /\ 0 < n <= 127 /\ L + 16 + n * 512 <= 0x100000 /\
  (buf + n * 512 <= L \/ L + 16 + n * 512 <= buf).

(** [s'] is [s] up to the transfer buffer. *)
Definition same_outside (n : Z) s s' : Prop :=
  (forall x, x < L \/ L + 16 + n * 512 <= x -> ld8 (smem s') x = ld8 (smem s) x) /\
  sectors (sbios s') = sectors (sbios s) /\ stimer s' = stimer s.

(** The [n] sectors from [lba] on are in memory from [buf] on, nothing else changed. *)
Definition read_done (lba n buf : Z) s s' : Prop :=
  bytes_at (smem s') buf (Z.to_nat (n * 512)) = sect_bytes (sectors (sbios s)) lba n /\
  (forall x, x < L \/ L + 16 + n * 512 <= x -> x < buf \/ buf + n * 512 <= x ->
    ld8 (smem s') x = ld8 (smem s) x) /\
  sectors (sbios s') = sectors (sbios s) /\ stimer s' = stimer s /\ pending (sbios s') = O.

(** The [n] sectors from [lba] on hold the memory from [buf] on. *)
Definition write_done (lba n buf : Z) s s' : Prop :=
  (forall k, sectors (sbios s') k = if decide (lba <= k < lba + n)
     then bytes_at (smem s) (buf + (k - lba) * 512) 512 else sectors (sbios s) k) /\
  (forall x, x < L \/ L + 16 + n * 512 <= x -> ld8 (smem s') x = ld8 (smem s) x) /\
  stimer s' = stimer s /\ pending (sbios s') = O.

Lemma sect_bytes_ok b lba n :
  0 <= n -> length (sect_bytes (sectors b) lba n) = Z.to_nat (n * 512) /\
  Forall (fun c => 0 <= c < 256) (sect_bytes (sectors b) lba n).
Proof.
  intros Hn. unfold sect_bytes. replace (Z.to_nat (n * 512)) with (Z.to_nat n * 512)%nat by lia.
  generalize (Z.to_nat n) as k. clear n Hn. intros k. revert lba.
  induction k as [|k IH]; intros lba; [done|]. cbn [zseq fmap list_fmap concat].
  destruct (IH (lba + 1)) as [Hl Hf]. destruct (sector_ok b lba) as [Hsl Hsf].
  split; [rewrite length_app, Hl, Hsl; lia | by apply Forall_app].
Qed.

(** What an attempt leaves when the data went through the buffer at [xa]. *)
Lemma served_read lba n buf xa dap m s r m' b' :
  buffers_ok buf n -> L <= xa <= L + 16 -> L <= dap <= xa ->
  (forall x, x < L \/ L + 16 + n * 512 <= x -> ld8 m x = ld8 (smem s) x) ->
  served sectors pending OP_READ dap xa lba n m (sbios s) (r, m', b') ->
  match pending (sbios s) with
  | O => carry r = false /\
      read_done lba n buf s (mk_sys (memcpy m' buf xa (n * 512)) b' (stimer s)) /\
      (dap + 16 <= xa -> ld16 m' (dap + 2) = ld16 m (dap + 2))
  | S p => carry r = true /\ pending b' = p /\ same_outside n s (mk_sys m' b' (stimer s))
  end.
Proof.
  intros (HL & HL0 & Hn & HL1 & Hbuf) Hxa Hdap Hm. unfold served.
  destruct (sect_bytes_ok (sbios s) lba n ltac:(lia)) as [Hlen Hby].
  destruct (pending (sbios s)) as [|p].
  - intros (Hc & Hp & Hmem & Hs). split; [done|]. split.
    + unfold read_done. cbn [smem sbios stimer]. split_and!; try done.
      * rewrite <- Hlen. rewrite <- (bytes_at_store ∅ buf) by done. apply bytes_at_ext. intros k Hk.
        rewrite memcpy_correct by lia. rewrite decide_True by lia. rewrite Hmem, !ld8_store_list.
        rewrite !decide_True by lia. do 3 f_equal. lia.
      * intros x H1 H2. rewrite memcpy_correct by lia. rewrite decide_False by lia.
        rewrite Hmem, ld8_store_list, decide_False by lia. apply Hm. lia.
    + intros Hd. apply ld16_ext; rewrite Hmem, ld8_store_list, decide_False by lia; done.
  - intros (Hc & Hp & Hmem & Hs). split; [done|]. split; [done|].
    split; [|done]. cbn [smem]. intros x Hx. rewrite Hmem by lia. apply Hm. lia.
Qed.

Lemma served_write lba n buf xa dap m s r m' b' :
  buffers_ok buf n -> L <= xa <= L + 16 -> L <= dap <= xa ->
  (forall x, x < L \/ L + 16 + n * 512 <= x -> ld8 m x = ld8 (smem s) x) ->
  (forall k, 0 <= k < n * 512 -> ld8 m (xa + k) = ld8 (smem s) (buf + k)) ->
  pending (sbios s) = O ->
  served sectors pending OP_WRITE dap xa lba n m (sbios s) (r, m', b') ->
  carry r = false /\ write_done lba n buf s (mk_sys m' b' (stimer s)) /\
  ld16 m' (dap + 2) = ld16 m (dap + 2).
Proof.
  intros (HL & HL0 & Hn & HL1 & Hbuf) Hxa Hdap Hm Hdata Hp0. unfold served. rewrite Hp0.
  intros (Hc & Hp & Hmem & Hs). split; [done|]. split.
  - unfold write_done. cbn [smem sbios stimer]. split_and!; try done.
    + intros k. rewrite Hs. case_decide; [|done]. apply bytes_at_ext. intros i Hi.
      rewrite <- !Z.add_assoc. apply Hdata. lia.
    + intros x Hx. rewrite Hmem. by apply Hm.
  - by apply ld16_ext; rewrite Hmem.
Qed.

Hypothesis dev_byte : 0 <= dev < 256.

Lemma xaddr_lba buf n : buffers_ok buf n -> Z.land (u32 (L + 16 + 15)) 0xfffffff0 = L + 16.
Proof.
  intros (HL & HL0 & Hn & HL1 & _). rewrite u32_small, land_fffffff0 by lia. mlia.
Qed.

(** The address packet reaches the BIOS as the BIOS reads it. *)
Lemma lba_call o lba n buf m b :
  buffers_ok buf n -> 0 <= lba < 18446744073709551616 -> lba + n <= drive_size ->
  let m' := write_dap m L n (Z.shiftr (L + 16) 4) lba in
  served sectors pending o L (L + 16) lba n m' b
    (int86 0x13 (regs_in (Z.shiftl (match o with OP_READ => 0x42 | OP_WRITE => 0x43 end) 8) 0 0 dev
                   (Z.shiftr L 4) 0) m' b).
Proof.
  intros Hb Hl Hsz m'. pose proof Hb as (HL & HL0 & Hn & HL1 & Hbuf).
  assert (Z.shiftr (L + 16) 4 = L / 16 + 1) as Es by (rewrite Z.shiftr_div_pow2 by lia; change (2 ^ 4) with 16; mlia).
  destruct (write_dap_fields m L n (Z.shiftr (L + 16) 4) lba) as (F1 & F2 & F3 & F4 & F5 & _);
    [lia | rewrite Es; mlia | lia |]. fold m' in F1, F2, F3, F4, F5.
  set (r := regs_in _ _ _ _ _ _).
  assert (ds r * 16 + u16 (esi r) = L) as Ed.
  { unfold r. cbn [regs_in ds esi]. rewrite Z.shiftr_div_pow2 by lia. change (2 ^ 4) with 16.
    change (u16 0) with 0. rewrite u16_small by mlia. mlia. }
  assert (ld16 m' (L + 6) * 16 + ld16 m' (L + 4) = L + 16) as Ex by (rewrite F3, F4, Es; mlia).
  assert (edx r = dev) as Edx by (unfold r; cbn [regs_in edx]; apply u32_small; lia).
  pose proof (lba_served o r m' b) as Hs. cbv zeta in Hs. rewrite Ed, F1, F2, F5, Ex in Hs.
  apply Hs; try lia. by destruct o.
Qed.

Lemma rw_lba_read lba n buf s :
  buffers_ok buf n -> 0 <= lba < 18446744073709551616 -> lba + n <= drive_size ->
  exists s', match pending (sbios s) with
  | O => bios_rw_sect_lba int86 L dev lba n OP_READ buf s = (n, s') /\ read_done lba n buf s s'
  | S p => bios_rw_sect_lba int86 L dev lba n OP_READ buf s = (-1, s') /\ pending (sbios s') = p /\ same_outside n s s'
  end.
Proof.
  intros Hb Hl Hsz. pose proof (lba_call OP_READ lba n buf (smem s) (sbios s) Hb Hl Hsz) as Hs.
  cbv zeta in Hs. unfold bios_rw_sect_lba. rewrite (xaddr_lba _ _ Hb). unfold call_bios. cbn [smem sbios stimer].
  destruct (int86 _ _ _ _) as [[r m'] b'] eqn:E.
  pose proof Hb as (HL & HL0 & Hn & HL1 & Hbuf).
  destruct (write_dap_fields (smem s) L n (Z.shiftr (L + 16) 4) lba) as (_ & F2 & _ & _ & _ & Fo);
    [lia | rewrite Z.shiftr_div_pow2 by lia; change (2 ^ 4) with 16; mlia | lia |].
  eapply (served_read lba n buf (L + 16) L _ s) in Hs; [|done|lia|lia|intros x Hx; apply Fo; lia].
  destruct (pending (sbios s)) as [|p].
  - destruct Hs as (-> & Hd & Hcnt). eexists. split; [|exact Hd].
    cbn [smem sbios stimer]. f_equal. rewrite <- F2, <- Hcnt by lia.
    apply ld16_ext; rewrite memcpy_correct, decide_False by lia; done.
  - destruct Hs as (-> & Hp & Hd). by eexists.
Qed.

Lemma rw_lba_write lba n buf s :
  buffers_ok buf n -> 0 <= lba < 18446744073709551616 -> lba + n <= drive_size -> pending (sbios s) = O ->
  exists s', bios_rw_sect_lba int86 L dev lba n OP_WRITE buf s = (n, s') /\ write_done lba n buf s s'.
Proof.
  intros Hb Hl Hsz Hp. unfold bios_rw_sect_lba. rewrite (xaddr_lba _ _ Hb). unfold call_bios. cbn [smem sbios stimer].
  set (m := memcpy (smem s) (L + 16) buf (n * 512)).
  pose proof (lba_call OP_WRITE lba n buf m (sbios s) Hb Hl Hsz) as Hs. cbv zeta in Hs.
  destruct (int86 _ _ _ _) as [[r m'] b'] eqn:E.
  pose proof Hb as (HL & HL0 & Hn & HL1 & Hbuf).
  destruct (write_dap_fields m L n (Z.shiftr (L + 16) 4) lba) as (_ & F2 & _ & _ & _ & Fo);
    [lia | rewrite Z.shiftr_div_pow2 by lia; change (2 ^ 4) with 16; mlia | lia |].
  eapply (served_write lba n buf (L + 16) L _ s) in Hs; [|done|lia|lia| | |done].
  - destruct Hs as (-> & Hd & Hcnt). eexists. split; [|exact Hd].
    cbn [smem sbios stimer]. by rewrite Hcnt, F2.
  - intros x Hx. rewrite Fo by lia. unfold m. by rewrite memcpy_correct, decide_False by lia.
  - intros k Hk. rewrite Fo by lia. unfold m. rewrite memcpy_correct, decide_True by lia. f_equal. lia.
Qed.

(** The sector the BIOS takes from the registers of functions 2 and 3. *)
Definition bios_lba (c : chs) : Z :=
  ((cyl c mod 256) * drive_heads + head c) * drive_spt + tsect c - 1.
Definition chs_ok (c : chs) (n : Z) : Prop :=
  0 <= cyl c < 65536 /\ 0 <= head c < drive_heads /\ 1 <= tsect c /\ tsect c - 1 + n <= drive_spt /\ bios_lba c + n <= drive_size.

Lemma chs_call o c n m b :
  0 <= L -> L mod 16 = 0 -> L <= 0xfffff -> 0 < n <= 127 -> chs_ok c n ->
  served sectors pending o L L (bios_lba c) n m b
    (int86 0x13 (regs_in (Z.lor (Z.shiftl (match o with OP_READ => 2 | OP_WRITE => 3 end) 8) n) 0
       (chs_ecx c) (Z.lor dev (Z.shiftl (head c) 8)) 0 (Z.shiftr L 4)) m b).
Proof.
  intros HL0 HL HL1 Hn (Hc & Hh & Ht & Hr & Hsz). pose proof drive_geometry as [Gh Gs].
  destruct (chs_ecx_fields c ltac:(lia) ltac:(lia)) as (E1 & E2 & E3).
  assert (Z.land (cyl c / 1024) 0xc0 = 0) as Ez.
  { assert (0 <= cyl c / 1024 < 64) as Hq by mlia. revert Hq. generalize (cyl c / 1024). intros q Hq.
    enough (negb (q <? 64) || (Z.land q 0xc0 =? 0) = true) as Hb by (destruct (Z.ltb_spec q 64); [|lia]; by apply Z.eqb_eq in Hb).
    apply (byte_cases (fun q => negb (q <? 64) || (Z.land q 0xc0 =? 0))); [by vm_compute|lia]. }
  rewrite Ez in E2.
  assert (0 <= chs_ecx c < 4294967296) as Hecx.
  { assert (chs_ecx c = Z.land (chs_ecx c) (Z.ones 16)) as ->; [|rewrite land_mask by lia; change (2 ^ 16) with 65536; mlia].
    unfold chs_ecx. rewrite !Z.land_lor_distr_l, <- !Z.land_assoc.
    change (Z.land 0xff00 (Z.ones 16)) with 0xff00. change (Z.land 0xc0 (Z.ones 16)) with 0xc0.
    rewrite land_mask by lia. f_equal. symmetry. apply Z.mod_small. lia. }
  assert (forall a, 0 <= a < 4194304 -> forall k, 0 <= k < 256 -> Z.lor (Z.shiftl a 8) k = a * 256 + k) as Hlor.
  { intros a Ha k Hk.
    assert (Z.land (Z.shiftl a 8) k = 0) as E0;
      [|rewrite <- Z.lxor_lor, <- Z.add_nocarry_lxor, Z.shiftl_mul_pow2 by (done || lia); lia].
    apply Z.bits_inj'. intros i Hi. rewrite Z.land_spec, Z.bits_0, Z.shiftl_spec by lia.
    destruct (Z.ltb_spec i 8); [by rewrite Z.testbit_neg_r by lia|].
    rewrite <- (Z.mod_small k (2 ^ 8)) by lia. rewrite Z.mod_pow2_bits_high by lia. by rewrite andb_false_r. }
  set (r := regs_in _ _ _ _ _ _).
  assert (ecx r = chs_ecx c) as Er by (apply u32_small; lia).
  assert (eax r = (match o with OP_READ => 2 | OP_WRITE => 3 end) * 256 + n) as Ea.
  { unfold r. cbn [regs_in eax]. rewrite Hlor by (destruct o; lia). apply u32_small. destruct o; lia. }
  assert (edx r = head c * 256 + dev) as Ed.
  { unfold r. cbn [regs_in edx]. rewrite Z.lor_comm, Hlor by lia. apply u32_small. lia. }
  assert (es r * 16 + u16 (ebx r) = L) as Ex.
  { unfold r. cbn [regs_in es ebx]. change (u16 0) with 0. rewrite Z.shiftr_div_pow2 by lia. change (2 ^ 4) with 16.
    rewrite u16_small by mlia. mlia. }
  pose proof (chs_served o r m b) as Hs. cbv zeta in Hs. rewrite Ea, Ed, Er, Ex, E1, E2, E3 in Hs.
  rewrite !Z.shiftr_div_pow2 in Hs by lia. change (2 ^ 8) with 256 in Hs.
  assert ((head c * 256 + dev) / 256 = head c) as Eh by mlia. rewrite Eh in Hs.
  assert (u8 ((match o with OP_READ => 2 | OP_WRITE => 3 end) * 256 + n) = n) as En by (unfold u8; destruct o; mlia).
  rewrite En in Hs.
  replace (((cyl c mod 256 + 4 * 0) * drive_heads + head c) * drive_spt + tsect c - 1) with (bios_lba c) in Hs
    by (unfold bios_lba; f_equal; f_equal; f_equal; f_equal; lia).
  apply Hs; try lia. - destruct o; mlia. - unfold u8; mlia.
Qed.

Lemma rw_chs_read c n buf s :
  buffers_ok buf n -> chs_ok c n ->
  exists s', match pending (sbios s) with
  | O => bios_rw_sect_chs int86 L dev c n OP_READ buf s = (n, s') /\ read_done (bios_lba c) n buf s s'
  | S p => bios_rw_sect_chs int86 L dev c n OP_READ buf s = (-1, s') /\ pending (sbios s') = p /\
           same_outside n s s'
  end.
Proof.
  intros Hb Hc. pose proof Hb as (HL & HL0 & Hn & HL1 & Hbuf).
  pose proof (chs_call OP_READ c n (smem s) (sbios s) HL0 HL ltac:(lia) Hn Hc) as Hs.
  unfold bios_rw_sect_chs, call_bios. cbn [smem sbios stimer].
  destruct (int86 _ _ _ _) as [[r m'] b'] eqn:E.
  eapply (served_read (bios_lba c) n buf L L _ s) in Hs; [|done|lia|lia|done].
  destruct (pending (sbios s)) as [|p].
  - destruct Hs as (-> & Hd & _). by eexists.
  - destruct Hs as (-> & Hp & Hd). by eexists.
Qed.

Lemma rw_chs_write c n buf s :
  buffers_ok buf n -> chs_ok c n -> pending (sbios s) = O ->
  exists s', bios_rw_sect_chs int86 L dev c n OP_WRITE buf s = (n, s') /\ write_done (bios_lba c) n buf s s'.
Proof.
  intros Hb Hc Hp. pose proof Hb as (HL & HL0 & Hn & HL1 & Hbuf).
  set (m := memcpy (smem s) L buf (n * 512)).
  pose proof (chs_call OP_WRITE c n m (sbios s) HL0 HL ltac:(lia) Hn Hc) as Hs.
  unfold bios_rw_sect_chs, call_bios. cbn [smem sbios stimer]. fold m.
  destruct (int86 _ _ _ _) as [[r m'] b'] eqn:E.
  eapply (served_write (bios_lba c) n buf L L _ s) in Hs; [|done|lia|lia| | |done].
  - destruct Hs as (-> & Hd & _). by eexists.
  - intros x Hx. unfold m. by rewrite memcpy_correct, decide_False by lia.
  - intros k Hk. unfold m. rewrite memcpy_correct, decide_True by lia. f_equal. lia.
Qed.

Lemma reset_ok s : exists v s', bios_reset_dev int86 dev s = (v, s') /\ smem s' = smem s /\
  sectors (sbios s') = sectors (sbios s) /\ pending (sbios s') = pending (sbios s) /\ stimer s' = stimer s.
Proof.
  unfold bios_reset_dev, call_bios.
  pose proof (reset_served (regs_in 0 0 0 dev 0 0) (smem s) (sbios s) eq_refl) as Hs.
  destruct (int86 _ _ _ _) as [[r m'] b'] eqn:E. eexists _, _. split; [done|].
  cbn [smem sbios stimer]. destruct Hs as (-> & -> & ->); [apply u32_small; lia|done].
Qed.

Lemma same_outside_read lba n buf s s1 s2 :
  same_outside n s s1 -> read_done lba n buf s1 s2 -> read_done lba n buf s s2.
Proof.
  intros (M1 & S1 & T1) (D & M2 & S2 & T2 & P2). unfold read_done. rewrite D, S2, T2, S1, T1.
  split_and!; try done. intros x Hx Hy. by rewrite M2, M1.
Qed.
Lemma same_outside_trans n s s1 s2 :
  same_outside n s s1 -> same_outside n s1 s2 -> same_outside n s s2.
Proof.
  intros (M1 & S1 & T1) (M2 & S2 & T2). unfold same_outside. rewrite S2, T2, S1, T1.
  split_and!; try done. intros x Hx. by rewrite M2, M1.
Qed.

(** The retry loop succeeds if fewer than its number of attempts fail. *)
Lemma read_range_retry_ok k d lba c n buf s :
  buffers_ok buf n -> chs_ok c n ->
  exists s', if decide (pending (sbios s) < k)%nat
    then read_range_retry int86 L dev k d lba c n buf s = Ok (0, s') /\ read_done (bios_lba c) n buf s s'
    else read_range_retry int86 L dev k d lba c n buf s = Ok (-1, s') /\ same_outside n s s'.
Proof.
  intros Hb Hc. pose proof Hb as (_ & _ & Hn & _). revert s.
  induction k as [|k IH]; intros s; [by exists s|]. cbn [read_range_retry].
  destruct (rw_chs_read c n buf s Hb Hc) as [s1 H1].
  destruct (pending (sbios s)) as [|p] eqn:Ep.
  - destruct H1 as (-> & Hd). exists s1. rewrite decide_True by lia. by rewrite Z.eqb_refl.
  - destruct H1 as (-> & Hp & Hd). destruct (Z.eqb_spec (-1) n); [lia|].
    change (0 <? -1) with false. cbn [mbind res_mbind res_bind].
    destruct (reset_ok s1) as (v & s2 & E & Em & Es & Ep2 & Et). rewrite E.
    assert (same_outside n s s2) as H2.
    { destruct Hd as (M & S & T). unfold same_outside. by rewrite Em, Es, Et. }
    destruct (IH s2) as [s3 H3]. exists s3. rewrite Ep2, Hp in H3.
    destruct (decide (p < k)%nat).
    + rewrite decide_True by lia. destruct H3 as (-> & H3). split; [done|]. by eapply same_outside_read.
    + rewrite decide_False by lia. destruct H3 as (-> & H3). split; [done|]. by eapply same_outside_trans.
Qed.

(** The loop of [bdev_read_sect] is the one of [bdev_read_range] for one sector. *)
Lemma read_retry_range k d lba c buf s :
  buffers_ok buf 1 -> chs_ok c 1 ->
  read_range_retry int86 L dev k d lba c 1 buf s = Ok (read_retry int86 L dev k c buf s).
Proof.
  intros Hb Hc. revert s. induction k as [|k IH]; intros s; [done|].
  cbn [read_range_retry read_retry]. destruct (rw_chs_read c 1 buf s Hb Hc) as [s1 H1].
  destruct (pending (sbios s)); [by destruct H1 as (-> & _)|].
  destruct H1 as (-> & _). cbn. destruct (reset_ok s1) as (v & s2 & -> & _). apply IH.
Qed.

(** ** The operations *)
Variable motors_off : F.

(** The device as [bdev_init] sets it up. *)
Definition dev_ok (d : bootdev) : Prop :=
  have_bios_ext d = false -> num_heads d = drive_heads /\ num_track_sect d = drive_spt.

(** What one transfer can reach: with the extended functions every sector,
    without them a part of a track below cylinder 256. *)
Definition reachable (d : bootdev) (lba n : Z) : Prop :=
  0 <= lba /\ lba + n <= drive_size /\
  if have_bios_ext d then lba < 18446744073709551616
  else lba < 4294967296 /\ lba mod drive_spt + n <= drive_spt /\ lba / drive_spt / drive_heads < 256.
Definition attempts (d : bootdev) : nat := if have_bios_ext d then 1%nat else NRETRIES.
Definition success (d : bootdev) (n : Z) : Z := if have_bios_ext d then n else 0.

Lemma motor_alarm_ok d s w :
  exists s' w', motor_alarm motors_off true d s w = Ok (s', w') /\ smem s' = smem s /\ sbios s' = sbios s.
Proof.
  unfold motor_alarm. destruct (bdev_is_floppy d); [|by eexists _, _].
  unfold cancel_alarm, set_alarm. change (s32 (MSEC_TO_TICKS FLOPPY_MOTOR_OFF_TIMEOUT) <=? 0) with false.
  io. by eexists _, _.
Qed.

(** Translation and the register format agree below cylinder 256. *)
Lemma calc_chs_ok d lba n :
  dev_ok d -> have_bios_ext d = false -> reachable d lba n -> 0 < n ->
  exists c, calc_chs d lba = Ok c /\ chs_ok c n /\ bios_lba c = lba.
Proof.
  intros Hd He (Hl & Hsz & Hr) Hn. rewrite He in Hr. destruct Hr as (H32 & Htr & Hcyl).
  destruct (Hd He) as [Eh Es]. pose proof drive_geometry as [Gh Gs].
  unfold calc_chs. rewrite Z.shiftr_div_pow2 by lia. change (2 ^ 32) with 4294967296.
  rewrite (Z.div_small lba) by lia. cbn [Z.eqb negb]. rewrite Eh, Es.
  rewrite !(u32_small lba), (u32_small drive_spt), (u32_small drive_heads) by lia.
  destruct (Z.eqb_spec drive_spt 0), (Z.eqb_spec drive_heads 0); try lia.
  pose proof (Z.mod_pos_bound lba drive_spt). pose proof (Z.mod_pos_bound (lba / drive_spt) drive_heads).
  pose proof (Z.div_mod lba drive_spt). pose proof (Z.div_mod (lba / drive_spt) drive_heads).
  assert (0 <= lba / drive_spt) by (apply Z.div_pos; lia).
  assert (0 <= lba / drive_spt / drive_heads) by (apply Z.div_pos; lia).
  rewrite u32_small by lia. eexists. split; [done|].
  assert (bios_lba (mk_chs (lba / drive_spt / drive_heads) ((lba / drive_spt) mod drive_heads) (lba mod drive_spt + 1)) = lba) as E.
  { unfold bios_lba. cbn [cyl head tsect]. rewrite Z.mod_small by lia. nia. }
  split; [|done]. unfold chs_ok. rewrite E. cbn [cyl head tsect]. lia.
Qed.

(** [s'] after a transfer that started from [s], whatever the motor alarm is. *)
Definition from (s s' : sys B F) : sys B F := mk_sys (smem s) (sbios s) (stimer s').

Lemma from_alarm s s0 s' : smem s0 = smem s -> sbios s0 = sbios s -> stimer s' = stimer s0 -> from s s' = s0.
Proof. intros E1 E2 E3. unfold from. rewrite E3, <- E1, <- E2. by destruct s0. Qed.

Definition read_range := bdev_read_range int86 L dev motors_off true.
Definition write_range := bdev_write_range int86 L dev motors_off true.
Definition read_sect := bdev_read_sect int86 L dev motors_off true.
Definition write_sect := bdev_write_sect int86 L dev motors_off true.

(** The outcome of a read: the data, or -1 after too many failures. *)
Definition read_outcome (d : bootdev) (lba n buf : Z) (s : sys B F) (r : Z) (s' : sys B F) : Prop :=
  if decide (pending (sbios s) < attempts d)%nat
  then r = success d n /\ read_done lba n buf (from s s') s'
  else r = -1 /\ same_outside n (from s s') s'.

Lemma read_range_ok d lba n buf s w :
  dev_ok d -> buffers_ok buf n -> reachable d lba n ->
  exists r s' w', read_range d lba n buf s w = Ok ((r, s'), w') /\ read_outcome d lba n buf s r s'.
Proof.
  intros Hd Hb Hr. pose proof Hb as (_ & _ & Hn & _). unfold read_range, bdev_read_range, read_outcome, attempts, success.
  destruct (motor_alarm_ok d s w) as (s0 & w0 & E & Em & Es). rewrite (bind_ok _ _ _ _ _ E).
  destruct (have_bios_ext d) eqn:He.
  - destruct Hr as (Hl & Hsz & Hlt). rewrite He in Hlt.
    destruct (rw_lba_read lba n buf s0 Hb ltac:(lia) Hsz) as [s1 H1]. rewrite Es in H1.
    destruct (pending (sbios s)) as [|p].
    + destruct H1 as (-> & Hdn). exists n, s1, w0. split; [done|]. rewrite decide_True by lia. split; [done|].
      rewrite (from_alarm s s0); try done. apply Hdn.
    + destruct H1 as (-> & _ & Hdn). exists (-1), s1, w0. split; [done|]. rewrite decide_False by lia. split; [done|].
      rewrite (from_alarm s s0); try done. apply Hdn.
  - destruct (calc_chs_ok d lba n Hd He Hr ltac:(lia)) as (c & Ec & Hc & El). rewrite Ec.
    destruct (read_range_retry_ok NRETRIES d lba c n buf s0 Hb Hc) as [s1 H1]. rewrite Es, El in H1.
    case_decide as Hp; destruct H1 as (H1 & Hdn); [exists 0|exists (-1)]; exists s1, w0;
      (split; [unfold lift; cbv [mbind io_mbind]; by rewrite H1|]; split; [done|];
       rewrite (from_alarm s s0); try done; apply Hdn).
Qed.

Lemma write_range_ok d lba n buf s w :
  dev_ok d -> buffers_ok buf n -> reachable d lba n -> pending (sbios s) = O ->
  exists s' w', write_range d lba n buf s w = Ok ((n, s'), w') /\ write_done lba n buf (from s s') s'.
Proof.
  intros Hd Hb Hr Hp. pose proof Hb as (_ & _ & Hn & _). unfold write_range, bdev_write_range.
  destruct (motor_alarm_ok d s w) as (s0 & w0 & E & Em & Es). rewrite (bind_ok _ _ _ _ _ E).
  rewrite <- Es in Hp. destruct (have_bios_ext d) eqn:He.
  - destruct Hr as (Hl & Hsz & Hlt). rewrite He in Hlt.
    destruct (rw_lba_write lba n buf s0 Hb ltac:(lia) Hsz Hp) as (s1 & -> & H1). exists s1, w0.
    split; [done|]. rewrite (from_alarm s s0); try done. apply H1.
  - destruct (calc_chs_ok d lba n Hd He Hr ltac:(lia)) as (c & Ec & Hc & El). rewrite Ec.
    destruct (rw_chs_write c n buf s0 Hb Hc Hp) as (s1 & E1 & H1). rewrite El in H1. exists s1, w0.
    unfold lift. cbv [mbind io_mbind]. rewrite E1. split; [done|]. rewrite (from_alarm s s0); try done. apply H1.
Qed.

(** C26. [bdev_read_range] copies the [n] sectors from [lba] on to [buf] and
    changes no other memory but the transfer buffer, with and without the
    extended functions; without them it succeeds if one of three attempts
    does, with them only the first counts; otherwise it returns -1. The sectors
    are those of one transfer ([reachable]): with the extended functions any below
    2^64, 127 at most; without them a part of one track, below cylinder 256 -
    behind it other sectors are read, [bdev_read_sect_wrong_cylinder]. The buffer
    is apart from the transfer buffer. *)
Theorem bdev_read_range_correct d lba n buf s w :
  dev_ok d -> buffers_ok buf n -> reachable d lba n ->
  exists r s' w', read_range d lba n buf s w = Ok ((r, s'), w') /\ read_outcome d lba n buf s r s'.
Proof. apply read_range_ok. Qed.

(** [bdev_read_sect] reads every sector of the drive that is below cylinder
    256 or, with the extended functions, has a 64-bit number. *)
Theorem bdev_read_sect_correct d lba buf s w :
  dev_ok d -> buffers_ok buf 1 -> 0 <= lba < drive_size ->
  (if have_bios_ext d then lba < 18446744073709551616
   else lba < 4294967296 /\ lba / drive_spt / drive_heads < 256) ->
  exists r s' w', read_sect d lba buf s w = Ok ((r, s'), w') /\ read_outcome d lba 1 buf s r s'.
Proof.
  intros Hd Hb Hl Hc. assert (reachable d lba 1) as Hr.
  { split_and!; try lia. destruct (have_bios_ext d); [lia|]. pose proof drive_geometry as [Gh Gs].
    pose proof (Z.mod_pos_bound lba drive_spt). lia. }
  destruct (read_range_ok d lba 1 buf s w Hd Hb Hr) as (r & s' & w' & E & Ho). exists r, s', w'. split; [|done].
  unfold read_range, bdev_read_range, read_sect, bdev_read_sect in *.
  destruct (motor_alarm_ok d s w) as (s0 & w0 & E0 & _). rewrite (bind_ok _ _ _ _ _ E0) in E. rewrite (bind_ok _ _ _ _ _ E0).
  destruct (have_bios_ext d) eqn:He; [done|].
  destruct (calc_chs_ok d lba 1 Hd He Hr ltac:(lia)) as (c & Ec & Hck & El). rewrite Ec in *.
  unfold lift in *. cbv [mbind io_mbind] in *. rewrite read_retry_range in E by done. done.
Qed.

(** C29. What [bdev_write_range] wrote, [bdev_read_range] reads back, into any
    buffer; the other sectors keep their contents. The sectors are those of one
    transfer, as for [bdev_read_range_correct] - without the extended functions a
    part of one track below cylinder 256, as the cylinder's high bits are lost -,
    the buffers are apart from the transfer buffer, and no attempt fails. *)
Theorem bdev_write_read d lba n buf buf2 s w :
  dev_ok d -> buffers_ok buf n -> buffers_ok buf2 n -> reachable d lba n -> pending (sbios s) = O ->
  exists s1 w1 r s2 w2,
    write_range d lba n buf s w = Ok ((n, s1), w1) /\
    read_range d lba n buf2 s1 w1 = Ok ((r, s2), w2) /\ r = success d n /\
    bytes_at (smem s2) buf2 (Z.to_nat (n * 512)) = bytes_at (smem s) buf (Z.to_nat (n * 512)) /\
    forall k, k < lba \/ lba + n <= k -> sectors (sbios s2) k = sectors (sbios s) k.
Proof.
  intros Hd Hb Hb2 Hr Hp.
  destruct (write_range_ok d lba n buf s w Hd Hb Hr Hp) as (s1 & w1 & E1 & (W1 & W2 & W3 & W4)).
  destruct (read_range_ok d lba n buf2 s1 w1 Hd Hb2 Hr) as (r & s2 & w2 & E2 & Ho).
  exists s1, w1, r, s2, w2. split; [done|]. split; [done|]. unfold read_outcome in Ho. rewrite W4 in Ho.
  rewrite decide_True in Ho by (unfold attempts, NRETRIES; destruct (have_bios_ext d); lia).
  destruct Ho as (-> & R1 & R2 & R3 & _). split; [done|]. cbn [from sbios smem] in *. split.
  - rewrite R1. pose proof Hb as (_ & _ & Hn & _). unfold sect_bytes.
    replace (Z.to_nat (n * 512)) with (Z.to_nat n * 512)%nat by lia. apply concat_bytes_at.
    intros k Hk. by rewrite W1, decide_True by lia.
  - intros k Hk. by rewrite R3, W1, decide_False by lia.
Qed.
(** Without the extended functions the two high bits of the cylinder are
    lost: from cylinder 256 on [bdev_read_sect] reports success but delivers
    the sector of the same head and number 256 (or 512, 768) cylinders below. *)
Theorem bdev_read_sect_wrong_cylinder d lba buf s w :
  dev_ok d -> buffers_ok buf 1 -> have_bios_ext d = false -> pending (sbios s) = O ->
  0 <= lba < drive_size -> lba < 4294967296 -> 256 <= lba / drive_spt / drive_heads < 1024 ->
  exists s' w', read_sect d lba buf s w = Ok ((0, s'), w') /\
    let high := lba / drive_spt / drive_heads / 256 * 256 in
    read_done (lba - high * drive_heads * drive_spt) 1 buf (from s s') s'.
Proof.
  intros Hd Hb He Hp Hl H32 Hcyl. destruct (Hd He) as [Eh Es]. pose proof drive_geometry as [Gh Gs].
  destruct (calc_chs_correct d lba) as (c & Ec & Hch & Hct & Hcc & El); [lia|lia|lia|].
  rewrite Eh, Es in *.
  assert (cyl c = lba / drive_spt / drive_heads) as Ecy.
  { unfold calc_chs in Ec. rewrite Z.shiftr_div_pow2 in Ec by lia. change (2 ^ 32) with 4294967296 in Ec.
    rewrite (Z.div_small lba) in Ec by lia. cbn [Z.eqb negb] in Ec. rewrite Eh, Es in Ec.
    rewrite !(u32_small lba), (u32_small drive_spt), (u32_small drive_heads) in Ec by lia.
    destruct (Z.eqb_spec drive_spt 0), (Z.eqb_spec drive_heads 0); try lia. cbv zeta in Ec. injection Ec as <-. done. }
  set (high := lba / drive_spt / drive_heads / 256 * 256).
  assert (bios_lba c = lba - high * drive_heads * drive_spt) as Eb.
  { unfold bios_lba. assert (cyl c mod 256 = cyl c - high) as -> by (unfold high; rewrite Ecy; mlia). lia. }
  assert (0 <= high) by (unfold high; mlia).
  assert (chs_ok c 1) as Hc by (unfold chs_ok; rewrite Eb; nia).
  unfold read_sect, bdev_read_sect. destruct (motor_alarm_ok d s w) as (s0 & w0 & E & Em & Esb).
  rewrite (bind_ok _ _ _ _ _ E), He, Ec.
  destruct (read_range_retry_ok NRETRIES d lba c 1 buf s0 Hb Hc) as [s1 H1].
  rewrite Esb, Hp, decide_True in H1 by (unfold NRETRIES; lia). destruct H1 as (H1 & Hdn).
  rewrite read_retry_range in H1 by done. exists s1, w0. unfold lift. cbv [mbind io_mbind mret io_mret].
  split; [by injection H1 as <-|]. cbv zeta. fold high. rewrite <- Eb, (from_alarm s s0) by (done || apply Hdn). done.
Qed.
End transfer.

(** ** A drive of 1000000 sectors behind a BIOS with both kinds of functions *)
Record demo_bios := mk_demo { data : Z -> Z -> Z; failing : nat }.

Definition demo_sectors (b : demo_bios) (k : Z) : list Z := (fun i => u8 (data b k i)) <$> zseq 0 512.
Definition with_carry (r : int86regs) (c : Z) : int86regs :=
  mk_regs (edi r) (esi r) (ebp r) (esp r) (ebx r) (edx r) (ecx r) (eax r) c (es r) (ds r) (fs r) (gs r).

Definition demo_transfer (o : op) (xa lba n : Z) (r : int86regs) (m : gmap Z Z) (b : demo_bios)
    : int86regs * gmap Z Z * demo_bios :=
  match failing b with
  | S p => (with_carry r 1, m, mk_demo (data b) p)
  | O => match o with
         | OP_READ => (with_carry r 0, store_list m xa (sect_bytes (demo_sectors b) lba n), b)
         | OP_WRITE => (with_carry r 0, m, mk_demo (fun k i =>
             if decide (lba <= k < lba + n) then ld8 m (xa + (k - lba) * 512 + i) else data b k i) O)
         end
  end.

Definition demo_int86 (inum : Z) (r : int86regs) (m : gmap Z Z) (b : demo_bios)
    : int86regs * gmap Z Z * demo_bios :=
  let f := Z.shiftr (eax r) 8 in
  if f =? 0 then (with_carry r 0, m, b) else
  if (f =? 0x42) || (f =? 0x43) then
    let dap := ds r * 16 + u16 (esi r) in
    demo_transfer (if f =? 0x42 then OP_READ else OP_WRITE)
      (ld16 m (dap + 6) * 16 + ld16 m (dap + 4)) (ld32 m (dap + 8) + 4294967296 * ld32 m (dap + 12))
      (ld16 m (dap + 2)) r m b
  else
    let c := u8 (Z.shiftr (ecx r) 8) + 4 * Z.land (ecx r) 0xc0 in
    demo_transfer (if f =? 2 then OP_READ else OP_WRITE) (es r * 16 + u16 (ebx r))
      ((c * 16 + Z.shiftr (edx r) 8) * 63 + Z.land (ecx r) 0x3f - 1) (u8 (eax r)) r m b.

Lemma bytes_at_map m a i j : (fun i => u8 (ld8 m (a + i))) <$> zseq i j = bytes_at m (a + i) j.
Proof.
  unfold bytes_at. revert i. induction j as [|j IH]; intros i; [done|]. cbn [zseq fmap list_fmap].
  rewrite IH. f_equal; [by rewrite u8_small by apply ld8_range|]. do 2 f_equal. lia.
Qed.

Lemma demo_served o dap xa lba n r m b :
  served demo_sectors failing o dap xa lba n m b (demo_transfer o xa lba n r m b).
Proof.
  unfold served, demo_transfer. destruct (failing b) as [|p] eqn:Ef; [destruct o|]; cbv beta iota.
  - done.
  - split; [done|]. split; [done|]. split; [done|].
    intros k. unfold demo_sectors. cbn [data]. destruct (decide (lba <= k < lba + n)); [|done].
    rewrite bytes_at_map. f_equal. lia.
  - split_and!; try done. by destruct o.
Qed.

#[export] Instance demo_drive : BiosDrive demo_int86 0x80.
Proof.
  refine {| drive_size := 1000000; drive_heads := 16; drive_spt := 63;
            sectors := demo_sectors; pending := failing |}.
  - lia.
  - intros b k. unfold demo_sectors. rewrite length_fmap, length_zseq. split; [done|].
    apply Forall_fmap, Forall_true. intros i. apply u8_range.
  - intros o r m b dap n lba Ea _ _ _ _. unfold demo_int86. rewrite Ea. destruct o; apply demo_served.
  - intros o r m b n hd c sect lba Ea _ _ _ _ _ _. unfold demo_int86. rewrite Ea. destruct o; apply demo_served.
  - intros r m b Ea _. unfold demo_int86. rewrite Ea. done.
Defined.

Definition demo_state (k : nat) : sys demo_bios Z :=
  mk_sys ∅ (mk_demo (fun k i => k + i) k) (mk_timer 0 []).
Definition demo_dev (ext : bool) : bootdev := mk_bootdev ext false 993 16 63.
Definition demo_world : world := mk_world [] true.

Lemma demo_dev_ok ext : dev_ok (demo_dev ext).
Proof. done. Qed.

Lemma demo_byte : 0 <= 0x80 < 256.
Proof. lia. Qed.
Lemma demo_buffers buf n : 0 < n <= 127 -> 0x100000 <= buf -> buffers_ok 0x8000 buf n.
Proof. intros Hn Hb. split; [done|]. lia. Qed.

Lemma calc_chs_correct_witness :
  exists c, calc_chs (demo_dev false) 700000 = Ok c /\
    0 <= head c < 16 /\ 1 <= tsect c <= 63 /\ 0 <= cyl c /\ (cyl c * 16 + head c) * 63 + tsect c - 1 = 700000.
Proof. apply (calc_chs_correct (demo_dev false) 700000); cbn; lia. Defined.

Lemma bdev_read_range_correct_witness :
  exists r s' w', @read_range demo_bios Z _ demo_int86 0x80 0x8000 7 (demo_dev false) 1010 20 0x100000
      (demo_state 2) demo_world = Ok ((r, s'), w') /\
    @read_outcome demo_bios Z demo_int86 0x80 _ 0x8000 (demo_dev false) 1010 20 0x100000 (demo_state 2) r s'.
Proof.
  apply (bdev_read_range_correct 0x8000); [by vm_compute | done | |].
  - exact (demo_buffers 0x100000 20 ltac:(lia) ltac:(lia)).
  - split; [lia|]. split; [cbn; lia|]. vm_compute. intuition congruence.
Defined.

Lemma bdev_read_sect_correct_witness :
  exists r s' w', @read_sect demo_bios Z _ demo_int86 0x80 0x8000 7 (demo_dev true) 123456 0x100000
      (demo_state 0) demo_world = Ok ((r, s'), w') /\
    @read_outcome demo_bios Z demo_int86 0x80 _ 0x8000 (demo_dev true) 123456 1 0x100000 (demo_state 0) r s'.
Proof.
  apply (bdev_read_sect_correct 0x8000); [by vm_compute | done | | by vm_compute | by vm_compute].
  exact (demo_buffers 0x100000 1 ltac:(lia) ltac:(lia)).
Defined.

Lemma bdev_write_read_witness :
  exists s1 w1 r s2 w2,
    @write_range demo_bios Z _ demo_int86 0x80 0x8000 7 (demo_dev false) 1000 4 0x100000 (demo_state 0) demo_world
      = Ok ((4, s1), w1) /\
    @read_range demo_bios Z _ demo_int86 0x80 0x8000 7 (demo_dev false) 1000 4 0x200000 s1 w1 = Ok ((r, s2), w2) /\
    r = 0 /\
    bytes_at (smem s2) 0x200000 (Z.to_nat (4 * 512)) = bytes_at ∅ 0x100000 (Z.to_nat (4 * 512)) /\
    forall k, k < 1000 \/ 1000 + 4 <= k -> sectors (sbios s2) k = sectors (sbios (demo_state 0)) k.
Proof.
  apply (bdev_write_read 0x8000 demo_byte 7 (demo_dev false) 1000 4 0x100000 0x200000 (demo_state 0) demo_world);
    [done | | | | reflexivity].
  - exact (demo_buffers 0x100000 4 ltac:(lia) ltac:(lia)).
  - exact (demo_buffers 0x200000 4 ltac:(lia) ltac:(lia)).
  - split; [lia|]. split; [cbn; lia|]. vm_compute. intuition congruence.
Defined.

Lemma bdev_read_sect_wrong_cylinder_witness :
  exists s' w', @read_sect demo_bios Z _ demo_int86 0x80 0x8000 7 (demo_dev false) 300000 0x100000 (demo_state 0) demo_world
      = Ok ((0, s'), w') /\
    let high := 300000 / (@drive_spt _ demo_int86 0x80 _) / (@drive_heads _ demo_int86 0x80 _) / 256 * 256 in
    @read_done demo_bios Z demo_int86 0x80 _ 0x8000
      (300000 - high * (@drive_heads _ demo_int86 0x80 _) * (@drive_spt _ demo_int86 0x80 _))
      1 0x100000 (from (demo_state 0) s') s'.
Proof.
  assert (256 <= 300000 / (@drive_spt _ demo_int86 0x80 _) / (@drive_heads _ demo_int86 0x80 _) < 1024) as Hc.
  { split; by vm_compute. }
  exact (bdev_read_sect_wrong_cylinder 0x8000 demo_byte 7 (demo_dev false) 300000 0x100000 (demo_state 0) demo_world
    (demo_dev_ok false) (demo_buffers 0x100000 1 ltac:(lia) ltac:(lia)) eq_refl eq_refl ltac:(split; by vm_compute)
    ltac:(lia) Hc).
Defined.
