(* ===== verification/FsPath.v ===== *)
(** * File system constants and paths (src/fs.h, end of src/fs.c)

    Paths are C strings: lists of characters without the terminator. *)
From S2P Require Import Prelude Str.

Inductive fsnode_type := FSNODE_FILE | FSNODE_DIR.
#[export] Instance fsnode_type_eq_dec : EqDecision fsnode_type.
Proof. solve_decision. Defined.

Definition FSSEEK_SET : Z := 0.
Definition FSSEEK_CUR : Z := 1.
Definition FSSEEK_END : Z := 2.
Definition FSO_CREATE : Z := 1.
Definition FSO_DIR : Z := 2.
Definition FSO_EXCL : Z := 4.

Definition EBUSY : Z := 5.
Definition ENOMEM : Z := 6.
Definition EIO : Z := 7.
Definition ENOENT : Z := 8.
Definition ENOSPC : Z := 10.
Definition EPERM : Z := 11.
Definition ENOTDIR : Z := 12.
Definition EISDIR : Z := 13.
Definition EEXIST : Z := 14.

Definition has_flag (flags f : Z) : bool := negb (Z.land flags f =? 0).

(** The character ['/']. *)
Definition SEP : Z := 47.

Fixpoint fs_path_skipsep (s : list Z) : list Z :=
  match s with
  | c :: t => if c =? SEP then fs_path_skipsep t else s
  | [] => []
  end.

(** The scan to the next separator or the end: what was passed, and the rest. *)
Fixpoint path_span (s : list Z) : list Z * list Z :=
  match s with
  | c :: t => if c =? SEP then ([], s) else let '(a, b) := path_span t in (c :: a, b)
  | [] => ([], [])
  end.

(** The name copied to a buffer of [bufsz] bytes, and the rest of the path. *)
Definition fs_path_next (s : list Z) (bufsz : Z) : list Z * list Z :=
  let '(name, ptr) := path_span (fs_path_skipsep s) in
  let len := strlen name in
  let len := if bufsz <=? len then bufsz - 1 else len in
  (take (Z.to_nat len) name, fs_path_skipsep ptr).

(** ** Paths as lists of components *)

Definition component (c : list Z) : Prop := c <> [] /\ Forall (fun x => x <> SEP) c.

(** Components joined by separators. *)
Fixpoint join_path (l : list (list Z)) : list Z :=
  match l with
  | [] => []
  | [c] => c
  | c :: l => c ++ SEP :: join_path l
  end.

Lemma path_span_spec s :
  s = (path_span s).1 ++ (path_span s).2 /\ Forall (fun x => x <> SEP) (path_span s).1 /\
  ((path_span s).2 = [] \/ exists t, (path_span s).2 = SEP :: t).
Proof.
  induction s as [|c t IH]; cbn [path_span]; [by auto|].
  destruct (Z.eqb_spec c SEP) as [->|Hc].
  - cbn. split; [done|]. split; [by constructor|]. by right; exists t.
  - destruct (path_span t) as [a b]. cbn in *. destruct IH as (-> & Ha & Hb).
    split; [done|]. split; [by constructor|done].
Qed.

Lemma skipsep_head s : fs_path_skipsep s = [] \/ exists c t, fs_path_skipsep s = c :: t /\ c <> SEP.
Proof.
  induction s as [|c t IH]; cbn [fs_path_skipsep]; [by left|].
  destruct (Z.eqb_spec c SEP); [done|]. right. by exists c, t.
Qed.

Lemma skipsep_length s : (length (fs_path_skipsep s) <= length s)%nat.
Proof. induction s as [|c t IH]; cbn; [lia|]. case_match; cbn; lia. Qed.

Lemma skipsep_idemp s : fs_path_skipsep (fs_path_skipsep s) = fs_path_skipsep s.
Proof.
  destruct (skipsep_head s) as [->|(c & t & -> & Hc)]; [done|]. cbn. by apply Z.eqb_neq in Hc as ->.
Qed.

(** Every step of a walk shortens the path. *)
Lemma path_next_shorter s bufsz :
  s <> [] -> fs_path_skipsep s = s -> (length (fs_path_next s bufsz).2 < length s)%nat.
Proof.
  intros Hs E. unfold fs_path_next. rewrite E.
  destruct (skipsep_head s) as [E'|(c & t & E' & Hc)]; [congruence|]. rewrite E in E'. subst s.
  cbn [path_span]. apply Z.eqb_neq in Hc as ->. pose proof (path_span_spec t) as (Et & _).
  destruct (path_span t) as [a b]. cbn in *. pose proof (skipsep_length b). subst t. rewrite length_app. lia.
Qed.

Lemma path_next_skipsep s bufsz : fs_path_skipsep (fs_path_next s bufsz).2 = (fs_path_next s bufsz).2.
Proof. unfold fs_path_next. destruct (path_span _) as [a b]. apply skipsep_idemp. Qed.

Lemma path_span_component c rest :
  Forall (fun x => x <> SEP) c -> rest = [] \/ (exists t, rest = SEP :: t) -> path_span (c ++ rest) = (c, rest).
Proof.
  intros Hc Hr. induction Hc as [|x c Hx Hc IH]; cbn [app path_span].
  - destruct Hr as [->|[t ->]]; done.
  - apply Z.eqb_neq in Hx as ->. by rewrite IH.
Qed.

Lemma component_skipsep c s : component c -> fs_path_skipsep (c ++ s) = c ++ s.
Proof.
  intros [Hne Hc]. destruct Hc as [|x c Hx Hc]; [done|]. cbn. by apply Z.eqb_neq in Hx as ->.
Qed.

Lemma join_path_cons c l : l <> [] -> join_path (c :: l) = c ++ SEP :: join_path l.
Proof. by destruct l. Qed.

Lemma join_path_skipsep l : Forall component l -> fs_path_skipsep (join_path l) = join_path l.
Proof.
  intros Hl. destruct Hl as [|c l Hc Hl]; [done|]. destruct l as [|c' l].
  - cbn [join_path]. rewrite <- (app_nil_r c). by apply component_skipsep.
  - rewrite join_path_cons by done. by apply component_skipsep.
Qed.

(** [fs_path_next] takes the first component, cut to the buffer, and leaves
    the path of the others. *)
Lemma path_next_join c l bufsz :
  0 < bufsz -> Forall component (c :: l) ->
  fs_path_next (join_path (c :: l)) bufsz = (take (Z.to_nat (bufsz - 1)) c, join_path l).
Proof.
  intros Hb Hl. unfold fs_path_next. rewrite join_path_skipsep by done.
  apply Forall_cons in Hl as [[Hne Hc] Hl].
  assert (path_span (join_path (c :: l)) = (c, match l with [] => [] | _ => SEP :: join_path l end)) as ->.
  { destruct l as [|c' l].
    - cbn [join_path]. rewrite <- (app_nil_r c) at 1. apply path_span_component; [done|by left].
    - rewrite join_path_cons by done. apply path_span_component; [done|]. right. by eexists. }
  f_equal.
  - unfold strlen. destruct (Z.leb_spec bufsz (Z.of_nat (length c))); [done|].
    rewrite !take_ge by lia. done.
  - destruct l as [|c' l]; [done|]. cbn [fs_path_skipsep]. rewrite Z.eqb_refl. by apply join_path_skipsep.
Qed.
