(* ===== verification/FsMem.v ===== *)
(** * Memory file system (src/fsmem.c)

    The nodes of the tree and the open handles ([struct fs_node] with its
    [ofile] or [odir]) live in two stores, addressed by pointers; 0 is null.
    Freeing a handle removes it, so that a later use through a stale pointer is
    a [Fault]. Memory for [avail] more objects is left. Opening a path on
    another file system that is mounted on a directory is the parameter
    [fsop_open]; what uninitialised memory holds is [junk]. The data of a file
    is the block that malloc.c has for it, with its true size: what is written
    behind it is a [Fault]. *)
From S2P Require Import Malloc Prelude Str FsPath.

Definition MAX_NAME : Z := 120.

(** The union at the start of [struct memfs_node]. [data] are the bytes of the
    block, [Some []] is the null pointer of a new file; [None]: the data is
    freed. *)
Inductive nbody :=
| NFile (data : option (list Z)) (size max_size : Z)
| NDir (clist ctail : Z).

Record mnode := mk_node { nbody_of : nbody; nname : list Z; parent : Z; next : Z; nfsnode : Z }.

Inductive odata :=
| OFile (file cur_pos : Z)
| ODir (dir cur : Z).

Record fsnode := mk_fsn { fsn_fs : Z; fsn_data : odata; mnt : Z }.

Record dirent := mk_dirent { d_name : list Z; d_type : fsnode_type; d_fsize : Z }.

Record mfs := mk_mfs {
  nodes : gmap Z mnode;
  handles : gmap Z fsnode;
  rootdirs : gmap Z Z;
  cwdnode : Z;
  nexta : Z;
  avail : nat;
  errno : Z }.

Definition set_nodes (n : gmap Z mnode) (s : mfs) : mfs :=
  mk_mfs n (handles s) (rootdirs s) (cwdnode s) (nexta s) (avail s) (errno s).
Definition set_handles (h : gmap Z fsnode) (s : mfs) : mfs :=
  mk_mfs (nodes s) h (rootdirs s) (cwdnode s) (nexta s) (avail s) (errno s).
Definition set_roots (r : gmap Z Z) (s : mfs) : mfs :=
  mk_mfs (nodes s) (handles s) r (cwdnode s) (nexta s) (avail s) (errno s).
Definition set_errno (e : Z) (s : mfs) : mfs :=
  mk_mfs (nodes s) (handles s) (rootdirs s) (cwdnode s) (nexta s) (avail s) e.

Definition set_body (b : nbody) (n : mnode) : mnode := mk_node b (nname n) (parent n) (next n) (nfsnode n).
Definition set_name (x : list Z) (n : mnode) : mnode := mk_node (nbody_of n) x (parent n) (next n) (nfsnode n).
Definition set_parent (p : Z) (n : mnode) : mnode := mk_node (nbody_of n) (nname n) p (next n) (nfsnode n).
Definition set_next (x : Z) (n : mnode) : mnode := mk_node (nbody_of n) (nname n) (parent n) x (nfsnode n).
Definition set_fsnode (f : Z) (n : mnode) : mnode := mk_node (nbody_of n) (nname n) (parent n) (next n) f.

Definition ntype (n : mnode) : fsnode_type :=
  match nbody_of n with NFile _ _ _ => FSNODE_FILE | NDir _ _ => FSNODE_DIR end.
Definition handle_type (h : fsnode) : fsnode_type :=
  match fsn_data h with OFile _ _ => FSNODE_FILE | ODir _ _ => FSNODE_DIR end.

(** Access through pointers. *)
Definition get_node (p : Z) : SM mfs mnode := s ← sm_get; sm_lift (of_option (nodes s !! p)).
Definition put_node (p : Z) (n : mnode) : SM mfs unit := sm_upd (fun s => set_nodes (<[p := n]> (nodes s)) s).
Definition get_handle (p : Z) : SM mfs fsnode := s ← sm_get; sm_lift (of_option (handles s !! p)).
Definition put_handle (p : Z) (h : fsnode) : SM mfs unit :=
  sm_upd (fun s => set_handles (<[p := h]> (handles s)) s).
Definition free_handle (p : Z) : SM mfs unit := sm_upd (fun s => set_handles (delete p (handles s)) s).
Definition fail {A} (e : Z) (v : A) : SM mfs A := sm_upd (set_errno e);; mret v.

(** [malloc]: a fresh address, or null when memory is used up. *)
Definition alloc : SM mfs Z := fun s =>
  match avail s with
  | O => Ok (0, s)
  | S k => Ok (nexta s, mk_mfs (nodes s) (handles s) (rootdirs s) (cwdnode s) (nexta s + 1) k (errno s))
  end.

Definition alloc_node (ty : fsnode_type) : SM mfs Z :=
  p ← alloc;
  if p =? 0 then mret 0 else
  put_node p (mk_node (match ty with FSNODE_FILE => NFile (Some []) 0 0 | FSNODE_DIR => NDir 0 0 end) [] 0 0 0);;
  mret p.

(** [fs] is the address of the new [struct filesys]; a failed allocation panics. *)
Definition fsmem_create (is_memdisk : bool) : SM mfs Z :=
  if negb is_memdisk then mret 0 else
  memfs ← alloc;
  if memfs =? 0 then sm_lift Panic else
  root ← alloc_node FSNODE_DIR;
  if root =? 0 then sm_lift Panic else
  fs ← alloc;
  if fs =? 0 then sm_lift Panic else
  sm_upd (fun s => set_roots (<[fs := root]> (rootdirs s)) s);;
  mret fs.

(** Links of a node, as [free_node], [find_entry] and the others follow them. *)
Definition clist_of (n : mnode) : Z := match nbody_of n with NDir c _ => c | NFile _ _ _ => 0 end.
Definition ctail_of (n : mnode) : Z := match nbody_of n with NDir _ t => t | NFile _ _ _ => 0 end.
(** [n->file.size], whatever the union holds: it overlays [ctail]. *)
Definition file_size (n : mnode) : Z := match nbody_of n with NFile _ sz _ => sz | NDir _ t => t end.

(** Frees the contents of [p], not the node itself. *)
Fixpoint free_node (fuel : nat) (p : Z) : SM mfs unit :=
  match fuel with
  | O => sm_lift NoFuel
  | S fuel =>
      if p =? 0 then mret tt else
      n ← get_node p;
      match nbody_of n with
      | NFile _ sz mx => put_node p (set_body (NFile None sz mx) n)
      | NDir c t =>
          if c =? 0 then mret tt else
          cn ← get_node c;
          put_node p (set_body (NDir (next cn) t) n);;
          free_node fuel c;;
          free_node fuel p
      end
  end.

Definition destroy (fuel : nat) (fs : Z) : SM mfs unit :=
  s ← sm_get;
  root ← sm_lift (of_option (rootdirs s !! fs));
  free_node fuel root;;
  sm_upd (fun s => set_roots (delete fs (rootdirs s)) s).

(** The walk of [find_entry] along the children. *)
Fixpoint find_child (fuel : nat) (name : list Z) (p : Z) : SM mfs Z :=
  match fuel with
  | O => sm_lift NoFuel
  | S fuel =>
      if p =? 0 then mret 0 else
      n ← get_node p;
      if strcasecmp (nname n) name =? 0 then mret p else find_child fuel name (next n)
  end.
Definition find_entry (fuel : nat) (dnode : Z) (name : list Z) : SM mfs Z :=
  if strcmp name [46] =? 0 then mret dnode else
  n ← get_node dnode;
  if strcmp name [46; 46] =? 0 then mret (parent n) else
  find_child fuel name (clist_of n).

Definition add_child (dnode p : Z) : SM mfs unit :=
  d ← get_node dnode;
  (if negb (clist_of d =? 0) then
     t ← get_node (ctail_of d);
     put_node (ctail_of d) (set_next p t);;
     d ← get_node dnode;
     put_node dnode (set_body (NDir (clist_of d) p) d)
   else put_node dnode (set_body (NDir p p) d));;
  n ← get_node p;
  put_node p (set_parent dnode n).

Definition create_fsnode (fs p : Z) : SM mfs Z :=
  fsn ← alloc;
  if fsn =? 0 then fail ENOMEM 0 else
  n ← get_node p;
  od ← alloc;
  if od =? 0 then fail ENOMEM 0 else
  put_handle fsn (mk_fsn fs (match ntype n with
                             | FSNODE_FILE => OFile p 0
                             | FSNODE_DIR => ODir p (clist_of n)
                             end) 0);;
  (if nfsnode n =? 0 then put_node p (set_fsnode fsn n) else mret tt);;
  mret fsn.

Section fsmem.
Variable fsop_open : Z -> list Z -> Z -> SM mfs Z.
Variable junk : Z -> Z.

Definition open_mount (fs : Z) (path : list Z) (flags : Z) : SM mfs Z := fsop_open fs (SEP :: path) flags.

(** [NODE_IS_MNTPT]: the file system mounted on [n], 0 if none is. *)
Definition node_mnt (n : mnode) : SM mfs Z :=
  if nfsnode n =? 0 then mret 0 else h ← get_handle (nfsnode n); mret (mnt h).

(** The loop of [open] and what follows it. *)
Fixpoint open_walk (fuel : nat) (fs node : Z) (path : list Z) (flags : Z) : SM mfs Z :=
  match fuel with
  | O => sm_lift NoFuel
  | S fuel' =>
      n ← get_node node;
      match path with
      | [] =>
          m ← node_mnt n;
          if negb (m =? 0) then open_mount m path flags else
          if has_flag flags FSO_EXCL then fail EEXIST 0 else
          create_fsnode fs node
      | _ =>
          if decide (ntype n = FSNODE_DIR) then
            m ← node_mnt n;
            if negb (m =? 0) then open_mount m path flags else
            let '(name, path) := fs_path_next path (MAX_NAME + 1) in
            p ← find_entry fuel node name;
            if p =? 0 then
              if negb (strlen path =? 0) || negb (has_flag flags FSO_CREATE) then fail ENOENT 0 else
              p ← alloc_node (if has_flag flags FSO_DIR then FSNODE_DIR else FSNODE_FILE);
              if p =? 0 then fail ENOMEM 0 else
              n ← get_node p;
              put_node p (set_name name n);;
              add_child node p;;
              create_fsnode fs p
            else open_walk fuel' fs p path flags
          else fail ENOTDIR 0
      end
  end.

(** With the assertion that the walk starts from a directory. *)
Definition open_from (fuel : nat) (fs node : Z) (path : list Z) (flags : Z) : SM mfs Z :=
  n ← get_node node;
  if decide (ntype n = FSNODE_DIR) then open_walk fuel fs node path flags else sm_lift Panic.

Definition open (fuel : nat) (fs : Z) (path : list Z) (flags : Z) : SM mfs Z :=
  s ← sm_get;
  if chr path =? SEP then
    root ← sm_lift (of_option (rootdirs s !! fs));
    open_from fuel fs root (fs_path_skipsep path) flags
  else
    cwd ← get_handle (cwdnode s);
    match rootdirs s !! fsn_fs cwd with
    | None => mret 0
    | Some _ =>
        match fsn_data cwd with
        | ODir d _ => open_from fuel fs d path flags
        | OFile f _ => open_from fuel fs f path flags
        end
    end.

Definition close (p : Z) : SM mfs unit :=
  if p =? 0 then mret tt else get_handle p;; free_handle p.

(** The position and the file of a handle that must be a file. *)
Definition fsize (p : Z) : SM mfs Z :=
  if p =? 0 then mret (-1) else
  h ← get_handle p;
  match fsn_data h with
  | ODir _ _ => mret (-1)
  | OFile f _ => n ← get_node f; mret (file_size n)
  end.

Definition seek (p offs whence : Z) : SM mfs Z :=
  if p =? 0 then mret (-1) else
  h ← get_handle p;
  match fsn_data h with
  | ODir _ _ => mret (-1)
  | OFile f pos =>
      n ← get_node f;
      let to new_pos :=
        put_handle p (mk_fsn (fsn_fs h) (OFile f (if new_pos <? 0 then 0 else new_pos)) (mnt h));; mret 0 in
      if whence =? FSSEEK_SET then to (s32 offs)
      else if whence =? FSSEEK_CUR then to (s32 (pos + offs))
      else if whence =? FSSEEK_END then to (s32 (file_size n + offs))
      else mret (-1)
  end.

Definition tell (p : Z) : SM mfs Z :=
  if p =? 0 then mret (-1) else
  h ← get_handle p;
  match fsn_data h with
  | ODir _ _ => mret (-1)
  | OFile _ pos => mret pos
  end.

(** The result and the bytes copied to the caller's buffer. The count of
    [memcpy] is unsigned: a negative one copies far out of the array. *)
Definition read (p sz : Z) : SM mfs (Z * list Z) :=
  if (p =? 0) || (sz <? 0) then mret (-1, []) else
  h ← get_handle p;
  match fsn_data h with
  | ODir _ _ => mret (-1, [])
  | OFile f pos =>
      n ← get_node f;
      match nbody_of n with
      | NDir _ _ => sm_lift Fault
      | NFile data size _ =>
          let rest := s32 (size - pos) in
          let sz := if rest <? sz then rest else sz in
          if sz <? 0 then sm_lift Fault else
          if sz =? 0 then mret (0, []) else
          d ← sm_lift (of_option data);
          if Z.of_nat (length d) <? pos + sz then sm_lift Fault else
          put_handle p (mk_fsn (fsn_fs h) (OFile f (pos + sz)) (mnt h));;
          mret (sz, take (Z.to_nat sz) (drop (Z.to_nat pos) d))
      end
  end.

(** The bytes of a new block of [malloc] for [n] bytes, behind its descriptor. *)
Definition block_bytes (n : Z) : Z := rounded n - DESC_SIZE.
(** The contents of [d] moved to a block of [n] bytes: the others hold [junk]. *)
Definition resize (d : list Z) (n : Z) : list Z :=
  take (Z.to_nat n) d ++ (junk <$> zseq (Z.of_nat (length d)) (Z.to_nat n - length d)).
(** [realloc] of malloc.c: it compares the size with that of the block and its
    descriptor, and leaves the block as it is when it is not larger, even if
    its bytes are fewer; [None]: memory is used up. *)
Definition realloc (d : list Z) (n : Z) : SM mfs (option (list Z)) :=
  match d with
  | _ :: _ =>
      if n <=? Z.of_nat (length d) + DESC_SIZE then mret (Some d) else
      p ← alloc; mret (if p =? 0 then None else Some (resize d (block_bytes n)))
  | [] => p ← alloc; mret (if p =? 0 then None else Some (resize d (block_bytes n)))
  end.
(** [memcpy] into the array. *)
Definition splice (d : list Z) (pos : Z) (buf : list Z) : list Z :=
  take (Z.to_nat pos) d ++ buf ++ drop (Z.to_nat pos + length buf) d.

(** [buf] are the bytes of the caller's buffer, [sz] of them. A sum that overflows
    [int] is undefined. *)
Definition write (p : Z) (buf : list Z) : SM mfs Z :=
  let sz := Z.of_nat (length buf) in
  if p =? 0 then mret (-1) else
  h ← get_handle p;
  match fsn_data h with
  | ODir _ _ => mret (-1)
  | OFile f pos =>
      n ← get_node f;
      match nbody_of n with
      | NDir _ _ => sm_lift Fault
      | NFile data size mx =>
          if 2147483648 <=? pos + sz then sm_lift Fault else
          let total_sz := pos + sz in
          let new_max := if mx <? total_sz
            then (if total_sz <? s32 (mx * 2) then s32 (mx * 2) else total_sz) else mx in
          d ← sm_lift (of_option data);
          tmp ← (if mx <? total_sz then realloc d new_max else mret (Some d));
          match tmp with
          | None => fail ENOSPC (-1)
          | Some d =>
              if negb (sz =? 0) && (Z.of_nat (length d) <? pos + sz) then sm_lift Fault else
              put_handle p (mk_fsn (fsn_fs h) (OFile f total_sz) (mnt h));;
              put_node f (set_body (NFile (Some (splice d pos buf))
                            (if size <? total_sz then total_sz else size) new_max) n);;
              mret sz
          end
      end
  end.

Definition rewinddir (p : Z) : SM mfs Z :=
  if p =? 0 then mret (-1) else
  h ← get_handle p;
  match fsn_data h with
  | OFile _ _ => mret (-1)
  | ODir d _ =>
      n ← get_node d;
      put_handle p (mk_fsn (fsn_fs h) (ODir d (clist_of n)) (mnt h));; mret 0
  end.

Definition readdir (p : Z) : SM mfs (option dirent) :=
  if p =? 0 then mret None else
  h ← get_handle p;
  match fsn_data h with
  | OFile _ _ => mret None
  | ODir d cur =>
      if cur =? 0 then mret None else
      n ← get_node cur;
      put_handle p (mk_fsn (fsn_fs h) (ODir d (next n)) (mnt h));;
      mret (Some (mk_dirent (nname n) (ntype n) (file_size n)))
  end.

Definition target (h : fsnode) : Z := match fsn_data h with OFile f _ => f | ODir d _ => d end.

Definition rename (p : Z) (name : list Z) : SM mfs Z :=
  h ← get_handle p;
  n ← get_node (target h);
  put_node (target h) (set_name (take (Z.to_nat MAX_NAME) name) n);; mret 0.

(** The search of [remove] from [prev] on: unlinks [p] after it and tells
    whether it was there. 0 stands for the dummy head, also in [ctail], which
    the code leaves pointing to it when the last child goes. *)
Fixpoint unlink (fuel : nat) (par p prev : Z) (pnext : Z) : SM mfs bool :=
  match fuel with
  | O => sm_lift NoFuel
  | S fuel =>
      if pnext =? 0 then mret false else
      if pnext =? p then
        d ← get_node par;
        n ← get_node p;
        put_node par (set_body (NDir (if prev =? 0 then next n else clist_of d)
                                  (if ctail_of d =? p then prev else ctail_of d)) d);;
        (if prev =? 0 then mret tt else pn ← get_node prev; put_node prev (set_next (next n) pn));;
        mret true
      else
        c ← get_node pnext;
        unlink fuel par p pnext (next c)
  end.

Definition remove (fuel : nat) (p : Z) : SM mfs Z :=
  h ← get_handle p;
  let t := target h in
  n ← get_node t;
  if decide (handle_type h = FSNODE_DIR) then
    if negb (clist_of n =? 0) then fail EEXIST (-1) else
    if parent n =? 0 then fail EBUSY (-1) else
    d ← get_node (parent n);
    found ← unlink fuel (parent n) t 0 (clist_of d);
    if (found : bool) then (free_node fuel t;; mret 0) else mret (-1)
  else
    if parent n =? 0 then fail EBUSY (-1) else
    d ← get_node (parent n);
    found ← unlink fuel (parent n) t 0 (clist_of d);
    if (found : bool) then (free_node fuel t;; mret 0) else mret (-1).
End fsmem.
