(* ===== verification/FsTree.v ===== *)
(** * Memory file system: the directory tree (src/fsmem.c)

    The invariant of the node and handle stores, [tree_ok], and that every
    operation of FsMem.v keeps it. *)
From S2P Require Import Prelude Str FsPath FsMem.

(** ** The tree *)

(** The nodes [l], linked by [next], from [p] up to [q]. *)
Fixpoint seg (nd : gmap Z mnode) (p : Z) (l : list Z) (q : Z) : Prop :=
  match l with
  | [] => p = q
  | x :: l => p = x /\ exists n, nd !! x = Some n /\ seg nd (next n) l q
  end.

(** [max_size] is more than the block holds by at most its descriptor, which
    [realloc] counts as room; a file without a block has none. *)
Definition block_ok (data : option (list Z)) (mx : Z) : Prop :=
  match data with Some d => mx <= Z.of_nat (length d) + 12 /\ (d = [] -> mx = 0) | None => True end.

Definition children (ch : gmap Z (list Z)) (d : Z) : list Z := default [] (ch !! d).

(** The stores hold a forest: [ch] lists the children of every directory. A
    child has a higher address than its directory, which rules out cycles. *)
Record tree_ok (s : mfs) (ch : gmap Z (list Z)) : Prop := {
  t_fresh : 0 < nexta s;
  t_node p n : nodes s !! p = Some n -> 0 < p < nexta s /\
    match nbody_of n with
    | NFile d sz mx => children ch p = [] /\ 0 <= sz <= mx /\ mx < 2147483648 /\ block_ok d mx
    | NDir c t => seg (nodes s) c (children ch p) 0 /\ t = default 0 (last (children ch p))
    end;
  t_child d x : x ∈ children ch d -> d < x /\ exists n, nodes s !! x = Some n /\ parent n = d;
  t_nodup d : NoDup (children ch d);
  t_handle p h : handles s !! p = Some h -> 0 < p < nexta s /\
    (exists n, nodes s !! target h = Some n /\ ntype n = handle_type h) /\
    match fsn_data h with
    | OFile _ pos => 0 <= pos < 2147483648
    | ODir _ cur => cur = 0 \/ is_Some (nodes s !! cur)
    end;
  t_root fs r : rootdirs s !! fs = Some r -> exists n, nodes s !! r = Some n /\ ntype n = FSNODE_DIR /\ parent n = 0;
  t_next p n : nodes s !! p = Some n -> next n = 0 \/ is_Some (nodes s !! next n);
  t_parent p n : nodes s !! p = Some n -> parent n = 0 \/
    exists q, nodes s !! parent n = Some q /\ ntype q = FSNODE_DIR }.

Definition memfs_ok (s : mfs) : Prop := exists ch, tree_ok s ch.

Lemma seg_app nd p l1 l2 q : seg nd p (l1 ++ l2) q <-> exists m, seg nd p l1 m /\ seg nd m l2 q.
Proof.
  revert p. induction l1 as [|x l1 IH]; intros p; cbn [app seg].
  - split; [intros H; by exists p | by intros (m & -> & H)].
  - split.
    + intros (-> & n & Hn & H). apply IH in H as (m & H1 & H2). exists m. split; [|done]. split; [done|]. by exists n.
    + intros (m & (-> & n & Hn & H1) & H2). split; [done|]. exists n. split; [done|]. apply IH. by exists m.
Qed.

Lemma seg_frame nd nd' p l q :
  (forall x n, x ∈ l -> nd !! x = Some n -> exists n', nd' !! x = Some n' /\ next n' = next n) ->
  seg nd p l q -> seg nd' p l q.
Proof.
  revert p. induction l as [|x l IH]; intros p H; cbn [seg]; [done|].
  intros (-> & n & Hn & Hs). split; [done|]. destruct (H x n ltac:(set_solver) Hn) as (n' & Hn' & E).
  exists n'. split; [done|]. rewrite E. apply IH; [|done]. intros y m Hy. apply H. set_solver.
Qed.

Lemma seg_insert_ne nd p l q x n : x ∉ l -> seg nd p l q -> seg (<[x := n]> nd) p l q.
Proof.
  intros Hx. apply seg_frame. intros y m Hy Hm. exists m. split; [|done].
  rewrite lookup_insert_ne; [done|]. set_solver.
Qed.

Lemma seg_head nd p l q : seg nd p l q -> p = default q (head l).
Proof. destruct l as [|x l]; cbn; [done|]. by intros [-> _]. Qed.

(** A child is not its own directory, nor are two directories' children shared. *)
Lemma child_ne s ch d x : tree_ok s ch -> x ∈ children ch d -> x <> d.
Proof. intros H Hx. apply (t_child _ _ H) in Hx as [? _]. lia. Qed.
Lemma child_unique s ch d d' x : tree_ok s ch -> x ∈ children ch d -> x ∈ children ch d' -> d = d'.
Proof.
  intros H Hx Hx'. apply (t_child _ _ H) in Hx as (_ & n & Hn & <-).
  apply (t_child _ _ H) in Hx' as (_ & n' & Hn' & <-). by simplify_eq.
Qed.

(** A change of a node that keeps its links keeps the tree. *)
Lemma tree_update s ch p n n' :
  tree_ok s ch -> nodes s !! p = Some n -> next n' = next n -> parent n' = parent n -> ntype n' = ntype n ->
  match nbody_of n' with
  | NFile d sz mx => 0 <= sz <= mx /\ mx < 2147483648 /\ block_ok d mx
  | NDir _ _ => nbody_of n' = nbody_of n
  end ->
  tree_ok (set_nodes (<[p := n']> (nodes s)) s) ch.
Proof.
  intros H Hp Enext Epar Ety Hb.
  assert (forall x m, nodes s !! x = Some m -> exists m', <[p := n']> (nodes s) !! x = Some m' /\
    next m' = next m /\ parent m' = parent m /\ ntype m' = ntype m) as Hl.
  { intros x m Hx. rewrite lookup_insert. case_decide as E; [subst; simplify_eq; by exists n' | by exists m]. }
  split; cbn [nodes handles rootdirs nexta set_nodes].
  - apply (t_fresh _ _ H).
  - intros x m. rewrite lookup_insert. case_decide as E.
    + intros [= <-]. subst x. destruct (t_node _ _ H p n Hp) as [Hr Hn]. split; [done|].
      unfold ntype in Ety. destruct (nbody_of n'); [|].
      * destruct (nbody_of n); [|done]. split; [apply Hn|done].
      * rewrite <- Hb in Hn. destruct Hn as [Hs Ht]. split; [|done].
        eapply seg_frame; [|done]. intros y m Hy Hm. destruct (Hl y m Hm) as (m' & ? & ? & _). by exists m'.
    + intros Hx. destruct (t_node _ _ H x m Hx) as [Hr Hn]. split; [done|].
      destruct (nbody_of m); [done|]. destruct Hn as [Hs Ht]. split; [|done].
      eapply seg_frame; [|done]. intros y m' Hy Hm. destruct (Hl y m' Hm) as (m'' & ? & ? & _). by exists m''.
  - intros d x Hx. destruct (t_child _ _ H d x Hx) as (Hlt & m & Hm & <-). split; [done|].
    destruct (Hl x m Hm) as (m' & ? & _ & ? & _). by exists m'.
  - apply (t_nodup _ _ H).
  - intros q h Hh. destruct (t_handle _ _ H q h Hh) as (Hr & (m & Hm & Et) & Hd). split; [done|]. split.
    + destruct (Hl _ m Hm) as (m' & ? & _ & _ & E). exists m'. split; [done|]. by rewrite E.
    + destruct (fsn_data h); [done|]. destruct Hd as [->|[m' Hm']]; [by left|]. right.
      destruct (Hl _ m' Hm') as (m'' & Hm'' & _). by exists m''.
  - intros fs r Hr. destruct (t_root _ _ H fs r Hr) as (m & Hm & Et & Ep).
    destruct (Hl r m Hm) as (m' & ? & _ & E1 & E2). exists m'. by rewrite E1, E2.
  - assert (forall x m, nodes s !! x = Some m -> next m = 0 \/ is_Some (<[p := n']> (nodes s) !! next m)) as Hx.
    { intros x m Hx. destruct (t_next _ _ H x m Hx) as [?|[m' Hm']]; [by left|right].
      destruct (Hl _ m' Hm') as (m'' & ? & _). by exists m''. }
    intros x m. rewrite lookup_insert. case_decide; [|apply Hx]. intros [= <-]. rewrite Enext. by apply (Hx p).
  - assert (forall x m, nodes s !! x = Some m -> parent m = 0 \/
      exists q, <[p := n']> (nodes s) !! parent m = Some q /\ ntype q = FSNODE_DIR) as Hx.
    { intros x m Hx. destruct (t_parent _ _ H x m Hx) as [?|(q & Hq & Eq)]; [by left|right].
      destruct (Hl _ q Hq) as (q' & ? & _ & _ & E). exists q'. by rewrite E. }
    intros x m. rewrite lookup_insert. case_decide; [|apply Hx]. intros [= <-]. rewrite Epar. by apply (Hx p).
Qed.

(** A change of a handle. *)
Lemma tree_handle s ch p h :
  tree_ok s ch -> 0 < p < nexta s ->
  (exists n, nodes s !! target h = Some n /\ ntype n = handle_type h) ->
  match fsn_data h with OFile _ pos => 0 <= pos < 2147483648 | ODir _ cur => cur = 0 \/ is_Some (nodes s !! cur) end ->
  tree_ok (set_handles (<[p := h]> (handles s)) s) ch.
Proof.
  intros H Hp Ht Hd. destruct H. split; cbn [nodes handles rootdirs nexta set_handles]; try done.
  intros q h'. rewrite lookup_insert. case_decide; [|auto]. intros [= <-]. subst. split_and!; try done; apply Hp.
Qed.

Lemma tree_delete_handle s ch p : tree_ok s ch -> tree_ok (set_handles (delete p (handles s)) s) ch.
Proof.
  intros H. destruct H. split; cbn [nodes handles rootdirs nexta set_handles]; try done.
  intros q h'. rewrite lookup_delete. case_decide; [done|auto].
Qed.

Lemma tree_errno s ch e : tree_ok s ch -> tree_ok (set_errno e s) ch.
Proof. intros H. by destruct H. Qed.

Lemma tree_roots s ch fs r n :
  tree_ok s ch -> nodes s !! r = Some n -> ntype n = FSNODE_DIR -> parent n = 0 ->
  tree_ok (set_roots (<[fs := r]> (rootdirs s)) s) ch.
Proof.
  intros H Hr Ht Hp. destruct H. split; cbn [nodes handles rootdirs nexta set_roots]; try done.
  intros f q. rewrite lookup_insert. case_decide; [|eauto]. intros [= <-]. by exists n.
Qed.

(** ** Steps of the operations *)

(** The monad's operations unfold. *)
Ltac sm :=
  cbv [mbind mret sm_mbind sm_mret sm_get sm_upd sm_lift get_node put_node get_handle put_handle
       free_handle fail res_mbind res_bind];
  cbn [of_option nodes handles rootdirs cwdnode nexta avail errno set_nodes set_handles set_roots set_errno].

(** [n'] is [n] up to the links and the length of the children list. *)
Definition same_node (n n' : mnode) : Prop :=
  nname n' = nname n /\ parent n' = parent n /\ nfsnode n' = nfsnode n /\ ntype n' = ntype n /\
  (ntype n = FSNODE_FILE -> nbody_of n' = nbody_of n).

Lemma same_node_refl n : same_node n n.
Proof. by split_and!. Qed.
Lemma same_node_trans n1 n2 n3 : same_node n1 n2 -> same_node n2 n3 -> same_node n1 n3.
Proof. intros (A1 & B1 & C1 & D1 & E1) (A2 & B2 & C2 & D2 & E2). split_and!; try congruence. intros. rewrite E2; [auto|congruence]. Qed.

Lemma child_bound s ch d x : tree_ok s ch -> x ∈ children ch d -> 0 < x < nexta s.
Proof. intros H Hx. apply (t_child _ _ H) in Hx as (_ & n & Hn & _). by apply (t_node _ _ H) in Hn as [? _]. Qed.

Lemma no_children_fresh s ch p : tree_ok s ch -> nexta s <= p -> children ch p = [].
Proof.
  intros H Hp. destruct (children ch p) as [|x l] eqn:E; [done|].
  assert (x ∈ children ch p) as Hx by (rewrite E; set_solver).
  pose proof (child_bound _ _ _ _ H Hx). apply (t_child _ _ H) in Hx as [? _]. lia.
Qed.

(** Allocation alone. *)
Definition bump (s : mfs) (k : nat) : mfs :=
  mk_mfs (nodes s) (handles s) (rootdirs s) (cwdnode s) (nexta s + 1) k (errno s).

Lemma tree_bump s ch k : tree_ok s ch -> tree_ok (bump s k) ch.
Proof.
  intros H. split; cbn [nodes handles rootdirs nexta bump];
    [ | | apply (t_child _ _ H) | apply (t_nodup _ _ H) | | apply (t_root _ _ H) | apply (t_next _ _ H) | apply (t_parent _ _ H)].
  - pose proof (t_fresh _ _ H). lia.
  - intros p n Hn. destruct (t_node _ _ H p n Hn). split; [lia|done].
  - intros p h Hh. destruct (t_handle _ _ H p h Hh) as (? & ? & ?). split; [lia|done].
Qed.

Definition empty_node (ty : fsnode_type) : mnode :=
  mk_node (match ty with FSNODE_FILE => NFile (Some []) 0 0 | FSNODE_DIR => NDir 0 0 end) [] 0 0 0.

(** A node without links at an address no list contains. *)
Lemma tree_new s ch p n :
  tree_ok s ch -> 0 < p < nexta s -> nodes s !! p = None -> (forall d, p ∉ children ch d) -> children ch p = [] ->
  nbody_of n = NDir 0 0 \/ nbody_of n = NFile (Some []) 0 0 -> next n = 0 -> parent n = 0 ->
  tree_ok (set_nodes (<[p := n]> (nodes s)) s) ch.
Proof.
  intros H Hp Hnone Hnot Hch Hb Hnx Hpar.
  assert (forall x m, nodes s !! x = Some m -> <[p := n]> (nodes s) !! x = Some m) as Hl.
  { intros x m Hx. rewrite lookup_insert_ne; [done|]. by intros ->; simplify_eq. }
  split; cbn [nodes handles rootdirs nexta set_nodes].
  - apply (t_fresh _ _ H).
  - intros x m. rewrite lookup_insert. case_decide as E.
    + intros [= <-]. subst x. split; [done|]. rewrite Hch. destruct Hb as [-> | ->]; done.
    + intros Hx. destruct (t_node _ _ H x m Hx) as [Hr Hn]. split; [done|].
      destruct (nbody_of m); [done|]. destruct Hn as [Hs Ht]. split; [|done]. by apply seg_insert_ne.
  - intros d x Hx. destruct (t_child _ _ H d x Hx) as (Hlt & m & Hm & <-). split; [done|]. exists m. auto.
  - apply (t_nodup _ _ H).
  - intros q h Hh. destruct (t_handle _ _ H q h Hh) as (Hr & (m & Hm & Et) & Hd). split; [done|].
    split; [exists m; auto|]. destruct (fsn_data h); [done|]. destruct Hd as [->|[m' Hm']]; [by left|].
    right. exists m'. auto.
  - intros fs r Hr. destruct (t_root _ _ H fs r Hr) as (m & Hm & ?). exists m. auto.
  - intros x m. rewrite lookup_insert. case_decide; [intros [= <-]; by left|]. intros Hx.
    destruct (t_next _ _ H x m Hx) as [?|[m' Hm']]; [by left|right]. exists m'. auto.
  - intros x m. rewrite lookup_insert. case_decide; [intros [= <-]; by left|]. intros Hx.
    destruct (t_parent _ _ H x m Hx) as [?|(q & Hq & Eq)]; [by left|right]. exists q. auto.
Qed.

Lemma alloc_node_spec s ch ty :
  tree_ok s ch ->
  exists p s', alloc_node ty s = Ok (p, s') /\ tree_ok s' ch /\ handles s' = handles s /\ rootdirs s' = rootdirs s /\
    cwdnode s' = cwdnode s /\
    match avail s with
    | O => p = 0 /\ s' = s
    | S k => p = nexta s /\ p <> 0 /\ nodes s' = <[p := empty_node ty]> (nodes s) /\ nexta s' = nexta s + 1 /\
             avail s' = k /\ nodes s !! p = None /\ (forall d, p ∉ children ch d) /\ children ch p = []
    end.
Proof.
  intros H. unfold alloc_node, alloc. sm. destruct (avail s) as [|k] eqn:Ea.
  - exists 0, s. by split_and!.
  - pose proof (t_fresh _ _ H). destruct (Z.eqb_spec (nexta s) 0); [lia|].
    assert (nodes s !! nexta s = None) as Hnone.
    { destruct (nodes s !! nexta s) eqn:E; [|done]. apply (t_node _ _ H) in E as [? _]. lia. }
    assert (forall d, nexta s ∉ children ch d) as Hnot.
    { intros d Hx. pose proof (child_bound _ _ _ _ H Hx). lia. }
    assert (children ch (nexta s) = []) as Hch by by exact (no_children_fresh s ch _ H (Z.le_refl _)).
    eexists _, _. split; [reflexivity|]. split.
    + apply (tree_new (bump s k)); cbn; try done; try lia; [by apply tree_bump|]. destruct ty; auto.
    + by split_and!.
Qed.

Lemma children_insert (ch : gmap Z (list Z)) d l x : children (<[d := l]> ch) x = if decide (x = d) then l else children ch x.
Proof. unfold children. rewrite lookup_insert. repeat case_decide; subst; try done; congruence. Qed.

(** A list with an entry linked in behind its last one. *)
Lemma seg_append (nd nd' : gmap Z mnode) c l p : seg nd c l 0 -> NoDup l ->
  (exists n, nd' !! p = Some n /\ next n = 0) ->
  (forall x n, x ∈ l -> nd !! x = Some n -> exists n', nd' !! x = Some n' /\
     (Some x <> last l -> next n' = next n) /\ (Some x = last l -> next n' = p)) ->
  seg nd' (default p (head l)) (l ++ [p]) 0.
Proof.
  intros Hs Hnd (np & Hp & Hnp) Hl. destruct (decide (l = [])) as [->|E0]; [cbn; split; [done|]; exists np; by rewrite Hnp|].
  destruct (exists_last E0) as (l0 & y & ->). rewrite last_snoc in Hl. apply seg_app in Hs as (q & H1 & (-> & ny & Hny & H2)).
  apply NoDup_app in Hnd as (_ & Hdis & _). apply seg_app. exists p. split; [|cbn; split; [done|]; exists np; by rewrite Hnp].
  apply seg_app. exists y. split.
  - assert (default p (head (l0 ++ [y])) = default y (head l0)) as -> by (by destruct l0).
    rewrite <- (seg_head _ _ _ _ H1). eapply seg_frame; [|done]. intros z mz Hz Hmz.
    destruct (Hl z mz ltac:(set_solver) Hmz) as (mz' & ? & Hz' & _). exists mz'. split; [done|]. apply Hz'.
    intros [= ->]. apply (Hdis y Hz). set_solver.
  - cbn. split; [done|]. destruct (Hl y ny ltac:(set_solver) Hny) as (ny' & ? & _ & Hy'). exists ny'. split; [done|]. by apply Hy'.
Qed.

(** A list with the entry [p] between [l1] and [l2] taken out. *)
Lemma seg_remove (nd nd' : gmap Z mnode) c l1 p n l2 : seg nd c (l1 ++ p :: l2) 0 -> NoDup (l1 ++ p :: l2) -> nd !! p = Some n ->
  (forall x m, x ∈ l1 ++ l2 -> nd !! x = Some m -> exists m', nd' !! x = Some m' /\
     (Some x <> last l1 -> next m' = next m) /\ (Some x = last l1 -> next m' = next n)) ->
  seg nd' (default (next n) (head l1)) (l1 ++ l2) 0.
Proof.
  intros Hs Hnd Hp Hl. apply NoDup_app in Hnd as (Hnd1 & Hdis & Hnd2). apply NoDup_cons in Hnd2 as [Hp2 Hnd2].
  apply seg_app in Hs as (q & H1 & (-> & n0 & Hn0 & H2)). assert (n0 = n) as -> by congruence.
  assert (seg nd' (next n) l2 0) as Hl2.
  { eapply seg_frame; [|done]. intros z mz Hz Hmz. destruct (Hl z mz ltac:(set_solver) Hmz) as (mz' & ? & Hz' & _).
    exists mz'. split; [done|]. apply Hz'. intros E. symmetry in E. apply last_Some_elem_of in E. apply (Hdis z E). set_solver. }
  destruct (decide (l1 = [])) as [->|E1]; [done|]. destruct (exists_last E1) as (l & y & ->). rewrite last_snoc in *.
  apply seg_app in H1 as (q & H1 & (-> & ny & Hny & _)).
  apply NoDup_app in Hnd1 as (_ & Hdis1 & _). rewrite <- app_assoc. apply seg_app. exists y. split.
  - assert (default (next n) (head (l ++ [y])) = default y (head l)) as -> by (by destruct l).
    rewrite <- (seg_head _ _ _ _ H1). eapply seg_frame; [|done]. intros z mz Hz Hmz.
    destruct (Hl z mz ltac:(set_solver) Hmz) as (mz' & ? & Hz' & _). exists mz'.
    split; [done|]. apply Hz'. intros [= ->]. apply (Hdis1 y Hz). set_solver.
  - cbn. split; [done|]. destruct (Hl y ny ltac:(set_solver) Hny) as (ny' & ? & _ & Hy'). exists ny'.
    split; [done|]. by rewrite Hy'.
Qed.

(** Handles depend on the types of the nodes only. *)
Lemma handles_keep s ch (nd' : gmap Z mnode) : tree_ok s ch ->
  (forall x m, nodes s !! x = Some m -> exists m', nd' !! x = Some m' /\ ntype m' = ntype m) ->
  forall p h, handles s !! p = Some h -> 0 < p < nexta s /\
    (exists n, nd' !! target h = Some n /\ ntype n = handle_type h) /\
    match fsn_data h with OFile _ pos => 0 <= pos < 2147483648 | ODir _ cur => cur = 0 \/ is_Some (nd' !! cur) end.
Proof.
  intros H Ht q h Hh. destruct (t_handle _ _ H q h Hh) as (Hr & (m & Hm & Et) & Hdt). split; [done|]. split.
  - destruct (Ht _ m Hm) as (m' & ? & E). exists m'. by rewrite E.
  - destruct (fsn_data h); [done|]. destruct Hdt as [->|[m' Hm']]; [by left|]. right.
    destruct (Ht _ m' Hm') as (m'' & ? & _). by exists m''.
Qed.

(** Appending to the children of [d]. *)
Lemma tree_append s ch d p nd nd' n :
  tree_ok s ch -> (forall x, p ∉ children ch x) -> d < p ->
  nodes s !! d = Some nd -> ntype nd = FSNODE_DIR -> nodes s !! p = Some n -> next n = 0 -> parent n = 0 ->
  (forall f, rootdirs s !! f <> Some p) ->
  (* the new links *)
  (forall x m, nodes s !! x = Some m -> exists m', nd' !! x = Some m' /\
     (x <> p -> same_node m m') /\ (x <> d -> nbody_of m' = nbody_of m) /\
     (Some x <> last (children ch d) -> next m' = next m) /\
     (Some x = last (children ch d) -> next m' = p) /\
     (x = p -> parent m' = d /\ ntype m' = ntype m) /\
     (x = d -> nbody_of m' = NDir (default p (head (children ch d))) p)) ->
  (forall x, nodes s !! x = None -> nd' !! x = None) ->
  tree_ok (set_nodes nd' s) (<[d := children ch d ++ [p]]> ch).
Proof.
  intros H Hnot Hdp Hd Hty Hp Hnx Hpar Hroot Hl Hn.
  pose proof (children_insert ch d (children ch d ++ [p])) as Hc.
  assert (forall x m', nd' !! x = Some m' -> exists m, nodes s !! x = Some m) as Hback.
  { intros x m' Hx. destruct (nodes s !! x) eqn:E; [by eexists|]. rewrite Hn in Hx; done. }
  assert (forall x m, nodes s !! x = Some m -> exists m', nd' !! x = Some m' /\ ntype m' = ntype m) as Hty'.
  { intros x m Hm. destruct (Hl x m Hm) as (m' & Hm' & Hsame & _ & _ & _ & Hpp & _). exists m'. split; [done|].
    destruct (decide (x = p)) as [->|Exp]; [by destruct Hpp | by apply Hsame]. }
  split; cbn [nodes handles rootdirs nexta set_nodes].
  - apply (t_fresh _ _ H).
  - intros x m' Hx. destruct (Hback x m' Hx) as [m Hm].
    destruct (Hl x m Hm) as (m'' & Hx' & Hsame & Hbody & Hnext & Hlast & Hpp & Hdd). simplify_eq.
    destruct (t_node _ _ H x m Hm) as [Hr Hb]. split; [done|]. rewrite Hc. case_decide as E.
    + subst x. simplify_eq. rewrite Hdd by done. unfold ntype in Hty.
      destruct (nbody_of nd) as [|c t] eqn:Eb; [done|]. destruct Hb as [Hs Ht].
      split; [|by rewrite last_snoc]. apply (seg_append (nodes s) _ c); [done|apply (t_nodup _ _ H)| |].
      * destruct (Hl p n Hp) as (n' & Hp' & _ & _ & Hnext' & _). exists n'. split; [done|]. rewrite Hnext'; [done|].
        intros E. symmetry in E. apply last_Some_elem_of in E. by apply (Hnot d).
      * intros z mz _ Hmz. destruct (Hl z mz Hmz) as (mz' & ? & _ & _ & ? & ? & _). by exists mz'.
    + rewrite Hbody by done. destruct (nbody_of m) as [|c t]; [done|]. destruct Hb as [Hs Ht].
      split; [|done]. eapply seg_frame; [|done]. intros z mz Hz Hmz.
      destruct (Hl z mz Hmz) as (mz' & ? & _ & _ & Hz' & _). exists mz'. split; [done|]. apply Hz'.
      intros El. symmetry in El. apply last_Some_elem_of in El. by rewrite (child_unique _ _ _ _ _ H Hz El) in E.
  - intros x y. rewrite Hc. case_decide as E.
    + subst x. intros [Hy|Hy]%elem_of_app.
      * destruct (t_child _ _ H d y Hy) as (Hlt & m & Hm & Epar). split; [done|].
        destruct (Hl y m Hm) as (m' & Hm' & Hsame & _). exists m'. split; [done|].
        destruct Hsame as (_ & -> & _); [|done]. intros ->. by apply (Hnot d).
      * apply list_elem_of_singleton in Hy as ->. split; [done|].
        destruct (Hl p n Hp) as (n' & Hp' & _ & _ & _ & _ & Hpp & _). exists n'. by destruct Hpp.
    + intros Hy. destruct (t_child _ _ H x y Hy) as (Hlt & m & Hm & Epar). split; [done|].
      destruct (Hl y m Hm) as (m' & Hm' & Hsame & _). exists m'. split; [done|].
      destruct Hsame as (_ & -> & _); [|done]. intros ->. by apply (Hnot x).
  - intros x. rewrite Hc. case_decide; [|apply (t_nodup _ _ H)]. apply NoDup_app. split; [apply (t_nodup _ _ H)|].
    split; [|apply NoDup_singleton]. intros y Hy Hy'. apply list_elem_of_singleton in Hy' as ->. by apply (Hnot d).
  - by apply (handles_keep s ch).
  - intros fs r Hr. destruct (t_root _ _ H fs r Hr) as (m & Hm & Et & Ep).
    destruct (Hl r m Hm) as (m' & Hm' & Hsame & _). exists m'. split; [done|].
    destruct Hsame as (_ & -> & _ & -> & _); [|done]. intros ->. by apply (Hroot fs).
  - intros x m' Hx. destruct (Hback x m' Hx) as [m Hm].
    destruct (Hl x m Hm) as (m'' & Hx' & _ & _ & Hnext & Hlast & _). simplify_eq.
    assert (forall q, is_Some (nodes s !! q) -> is_Some (nd' !! q)) as Hsome.
    { intros q [mq Hq]. destruct (Hl q mq Hq) as (mq' & ? & _). by exists mq'. }
    destruct (decide (Some x = last (children ch d))) as [E|E].
    + rewrite Hlast by done. right. apply Hsome. by exists n.
    + rewrite Hnext by done. destruct (t_next _ _ H x m Hm) as [?|Hs]; [by left|right]. by apply Hsome.
  - intros x m' Hx. destruct (Hback x m' Hx) as [m Hm].
    destruct (Hl x m Hm) as (m'' & Hx' & Hsame & _ & _ & _ & Hpp & _). simplify_eq. 
    destruct (decide (x = p)) as [Exp|Exp].
    + destruct (Hpp Exp) as [-> _]. right. destruct (Hty' d nd Hd) as (q & ? & E). exists q. by rewrite E.
    + destruct (Hsame Exp) as (_ & -> & _). destruct (t_parent _ _ H x m Hm) as [?|(q & Hq & Eq)]; [by left|right].
      destruct (Hty' _ q Hq) as (q' & ? & E). exists q'. by rewrite E.
Qed.

Lemma dir_links s ch d nd :
  tree_ok s ch -> nodes s !! d = Some nd -> ntype nd = FSNODE_DIR ->
  exists c t, nbody_of nd = NDir c t /\ seg (nodes s) c (children ch d) 0 /\
    c = default 0 (head (children ch d)) /\ t = default 0 (last (children ch d)).
Proof.
  intros H Hd Hty. destruct (t_node _ _ H d nd Hd) as [_ Hb]. unfold ntype in Hty.
  destruct (nbody_of nd) as [|c t]; [done|]. destruct Hb as [Hs ->]. exists c, (default 0 (last (children ch d))).
  split_and!; try done. by apply seg_head in Hs.
Qed.

(** The children list is empty exactly if [clist] is null. *)
Lemma clist_zero s ch d nd :
  tree_ok s ch -> nodes s !! d = Some nd -> ntype nd = FSNODE_DIR -> (clist_of nd = 0 <-> children ch d = []).
Proof.
  intros H Hd Hty. destruct (dir_links s ch d nd H Hd Hty) as (c & t & Eb & Hs & Ec & Et).
  unfold clist_of. rewrite Eb. destruct (children ch d) as [|x l] eqn:E; [done|]. split; [|done]. cbn in Ec.
  assert (x ∈ children ch d) as Hx by (rewrite E; set_solver). pose proof (child_bound _ _ _ _ H Hx). lia.
Qed.

Lemma add_child_spec s ch d p nd n :
  tree_ok s ch -> (forall x, p ∉ children ch x) -> d < p ->
  nodes s !! d = Some nd -> ntype nd = FSNODE_DIR -> nodes s !! p = Some n -> next n = 0 -> parent n = 0 ->
  (forall f, rootdirs s !! f <> Some p) ->
  exists nd', add_child d p s = Ok (tt, set_nodes nd' s) /\
    tree_ok (set_nodes nd' s) (<[d := children ch d ++ [p]]> ch) /\
    (forall x m, x <> p -> nodes s !! x = Some m -> exists m', nd' !! x = Some m' /\ same_node m m') /\
    (forall x, nodes s !! x = None -> nd' !! x = None) /\
    (exists n', nd' !! p = Some n' /\ n' = set_parent d n).
Proof.
  intros H Hnot Hdp Hd Hty Hp Hnx Hpar Hroot.
  destruct (dir_links s ch d nd H Hd Hty) as (c & t & Eb & Hs & Ec & Et).
  pose proof (clist_zero s ch d nd H Hd Hty) as Hz.
  assert (forall nd', (forall x m, nodes s !! x = Some m -> exists m', nd' !! x = Some m' /\
     (x <> p -> same_node m m') /\ (x <> d -> nbody_of m' = nbody_of m) /\
     (Some x <> last (children ch d) -> next m' = next m) /\
     (Some x = last (children ch d) -> next m' = p) /\
     (x = p -> m' = set_parent d m) /\
     (x = d -> nbody_of m' = NDir (default p (head (children ch d))) p)) ->
    (forall x, nodes s !! x = None -> nd' !! x = None) ->
    tree_ok (set_nodes nd' s) (<[d := children ch d ++ [p]]> ch) /\
    (forall x m, x <> p -> nodes s !! x = Some m -> exists m', nd' !! x = Some m' /\ same_node m m') /\
    (forall x, nodes s !! x = None -> nd' !! x = None) /\
    (exists n', nd' !! p = Some n' /\ n' = set_parent d n)) as Hfin.
  { intros nd' Hl Hn. split; [|split; [|split; [done|]]].
    - eapply tree_append; try done. intros x m Hx. destruct (Hl x m Hx) as (m' & ? & ? & ? & ? & ? & Hpp & ?).
      exists m'. split_and!; try done; intros E; by rewrite (Hpp E).
    - intros x m Hx Hm. destruct (Hl x m Hm) as (m' & ? & ? & _). exists m'. auto.
    - destruct (Hl p n Hp) as (n' & ? & _ & _ & _ & _ & ? & _). exists n'. auto. }
  unfold add_child. sm. rewrite Hd. sm. unfold clist_of, ctail_of in *. rewrite Eb in *. cbv iota beta in *.
  destruct (Z.eqb_spec c 0) as [->|Hc]; cbn [negb]; sm.
  - assert (children ch d = []) as E0 by (by apply Hz). rewrite E0 in *.
    rewrite lookup_insert_ne, Hp by lia. sm. eexists. split; [reflexivity|]. apply Hfin.
    + intros x m Hx. rewrite !lookup_insert. repeat case_decide; subst; simplify_eq; eexists; (split; [done|]);
        split_and!; try done; try lia; unfold same_node, ntype in *; cbn; rewrite ?Eb; by try split_and!.
    + intros x Hx. rewrite !lookup_insert_ne; congruence.
  - assert (children ch d <> []) as E0 by (intros E; by apply Hc, Hz).
    destruct (exists_last E0) as (l & y & El). rewrite El in *. rewrite last_snoc in *. cbn in Et. subst t.
    assert (y ∈ children ch d) as Hy by (rewrite El; set_solver).
    destruct (t_child _ _ H d y Hy) as (Hdy & ny & Hny & _).
    assert (y <> p) by (intros ->; by apply (Hnot d)).
    rewrite Hny. sm. rewrite (lookup_insert_ne _ y d) by lia. rewrite Hd. sm. rewrite Eb.
    rewrite lookup_insert_ne, lookup_insert_ne, Hp by lia. sm.
    eexists. split; [reflexivity|]. apply Hfin.
    + assert (default p (head (l ++ [y])) = c) as Eh by (rewrite Ec; by destruct l).
      intros x m Hx. rewrite !lookup_insert. repeat case_decide; subst; simplify_eq; eexists; (split; [done|]);
        split_and!; try done; try lia; try congruence;
        unfold same_node, ntype in *; cbn; rewrite ?Eb, ?Eh; intros; simplify_eq; repeat split; try (done || congruence || lia).
    + intros x Hx. rewrite !lookup_insert_ne; congruence.
Qed.

(** Taking [p] out of the children of [d]. *)
Lemma tree_unlink s ch d p l1 l2 nd nd' n :
  tree_ok s ch -> children ch d = l1 ++ p :: l2 -> nodes s !! d = Some nd -> ntype nd = FSNODE_DIR ->
  nodes s !! p = Some n ->
  (forall x m, nodes s !! x = Some m -> exists m', nd' !! x = Some m' /\ same_node m m' /\
     (x <> d -> nbody_of m' = nbody_of m) /\
     (Some x <> last l1 -> next m' = next m) /\ (Some x = last l1 -> next m' = next n) /\
     (x = d -> nbody_of m' = NDir (default (next n) (head l1)) (default (default 0 (last l1)) (last l2)))) ->
  (forall x, nodes s !! x = None -> nd' !! x = None) ->
  tree_ok (set_nodes nd' s) (<[d := l1 ++ l2]> ch).
Proof.
  intros H Ech Hd Hty Hp Hl Hn.
  pose proof (children_insert ch d (l1 ++ l2)) as Hc.
  assert (forall x m', nd' !! x = Some m' -> exists m, nodes s !! x = Some m) as Hback.
  { intros x m' Hx. destruct (nodes s !! x) eqn:E; [by eexists|]. rewrite Hn in Hx; done. }
  pose proof (t_nodup _ _ H d) as Hnd. rewrite Ech in Hnd.
  assert (forall y, Some y = last l1 -> y ∈ children ch d) as Hlast.
  { intros y Hy. symmetry in Hy. apply last_Some_elem_of in Hy. rewrite Ech. set_solver. }
  split; cbn [nodes handles rootdirs nexta set_nodes].
  - apply (t_fresh _ _ H).
  - intros x m' Hx. destruct (Hback x m' Hx) as [m Hm].
    destruct (Hl x m Hm) as (m'' & Hx' & Hsame & Hbody & Hnext & Hlst & Hdd). simplify_eq.
    destruct (t_node _ _ H x m Hm) as [Hr Hb]. split; [done|]. rewrite Hc. case_decide as E.
    + subst x. rewrite Hdd by done. assert (m = nd) as -> by congruence. unfold ntype in Hty.
      destruct (nbody_of nd) as [|c t]; [done|]. rewrite Ech in Hb. destruct Hb as [Hs Ht].
      split; [|rewrite last_app; by destruct (last l2)].
      apply (seg_remove (nodes s) _ _ l1 p n l2 Hs Hnd Hp). intros z mz _ Hmz.
      destruct (Hl z mz Hmz) as (mz' & ? & _ & _ & ? & ? & _). by exists mz'.
    + rewrite Hbody by done. destruct (nbody_of m) as [|c t]; [done|]. destruct Hb as [Hs Ht].
      split; [|done]. eapply seg_frame; [|done]. intros z mz Hz Hmz.
      destruct (Hl z mz Hmz) as (mz' & ? & _ & _ & Hz' & _). exists mz'. split; [done|]. apply Hz'.
      intros El. by rewrite (child_unique _ _ _ _ _ H Hz (Hlast z El)) in E.
  - intros x y Hy. assert (y ∈ children ch x) as Hy'.
    { rewrite Hc in Hy. case_decide; [|done]. subst. rewrite Ech. set_solver. }
    destruct (t_child _ _ H x y Hy') as (Hlt & m & Hm & Epar). split; [done|].
    destruct (Hl y m Hm) as (m' & Hm' & (_ & E & _) & _). exists m'. by rewrite E.
  - intros x. rewrite Hc. case_decide; [|apply (t_nodup _ _ H)]. apply NoDup_app in Hnd as (H1 & Hdis & [_ H2]%NoDup_cons).
    apply NoDup_app. split_and!; [done| |done]. intros z Hz Hz2. apply (Hdis z Hz). set_solver.
  - apply (handles_keep s ch nd' H). intros x m Hm. destruct (Hl _ m Hm) as (m' & ? & (_ & _ & _ & E & _) & _). by exists m'.
  - intros fs r Hr. destruct (t_root _ _ H fs r Hr) as (m & Hm & Et & Ep).
    destruct (Hl r m Hm) as (m' & Hm' & (_ & E1 & _ & E2 & _) & _). exists m'. by rewrite E1, E2.
  - intros x m' Hx. destruct (Hback x m' Hx) as [m Hm].
    destruct (Hl x m Hm) as (m'' & Hx' & _ & _ & Hnext & Hlst & _). simplify_eq.
    assert (forall q, q = 0 \/ is_Some (nodes s !! q) -> q = 0 \/ is_Some (nd' !! q)) as Hsome.
    { intros q [->|[mq Hq]]; [by left|right]. destruct (Hl q mq Hq) as (mq' & ? & _). by exists mq'. }
    destruct (decide (Some x = last l1)) as [E|E].
    + rewrite Hlst by done. apply Hsome. by apply (t_next _ _ H p).
    + rewrite Hnext by done. apply Hsome. by apply (t_next _ _ H x).
  - intros x m' Hx. destruct (Hback x m' Hx) as [m Hm].
    destruct (Hl x m Hm) as (m'' & Hx' & (_ & E & _) & _). simplify_eq. rewrite E.
    destruct (t_parent _ _ H x m Hm) as [?|(q & Hq & Eq)]; [by left|right].
    destruct (Hl _ q Hq) as (q' & ? & (_ & _ & _ & E2 & _) & _). exists q'. by rewrite E2.
Qed.

(** What taking out entry [p], found behind [l1], does. *)
Definition unlinked (s : mfs) (ch : gmap Z (list Z)) (d : Z) (l : list Z) (nd' : gmap Z mnode) : Prop :=
  tree_ok (set_nodes nd' s) (<[d := l]> ch) /\
  (forall x m, nodes s !! x = Some m -> exists m', nd' !! x = Some m' /\ same_node m m') /\
  (forall x, nodes s !! x = None -> nd' !! x = None).

(** The tail of the directory after the entry [p] behind [prev] is gone. *)
Lemma unlink_tail (l1 l2 : list Z) p t prev : t = default 0 (last (l1 ++ p :: l2)) -> p ∉ l2 ->
  (if t =? p then prev else t) = default prev (last l2).
Proof.
  intros -> Hp. rewrite last_app, last_cons. destruct (last l2) as [z|] eqn:El; cbn; [|by rewrite Z.eqb_refl].
  apply last_Some_elem_of in El. by destruct (Z.eqb_spec z p) as [->|].
Qed.

Section unlink.
Context (s : mfs) (ch : gmap Z (list Z)) (d p : Z) (nd n : mnode) (T : tree_ok s ch).
Context (Hd : nodes s !! d = Some nd) (Hty : ntype nd = FSNODE_DIR) (Hn : nodes s !! p = Some n).

Lemma unlink_first l2 fuel : children ch d = p :: l2 ->
  exists nd', unlink (S fuel) d p 0 p s = Ok (true, set_nodes nd' s) /\ unlinked s ch d l2 nd'.
Proof.
  intros Ech. pose proof (t_node _ _ T p n Hn) as [Hp0 _]. pose proof (t_nodup _ _ T d) as Hnd. rewrite Ech in Hnd.
  apply NoDup_cons in Hnd as [Hp2 _]. destruct (t_child _ _ T d p ltac:(rewrite Ech; set_solver)) as [Hdp _].
  destruct (dir_links s ch d nd T Hd Hty) as (c & t & Eb & _ & _ & Et). rewrite Ech in Et.
  cbn [unlink]. destruct (Z.eqb_spec p 0); [lia|]. rewrite Z.eqb_refl.
  sm. rewrite Hd. sm. rewrite Hn. sm. unfold clist_of, ctail_of. rewrite Eb. cbv iota beta.
  rewrite (unlink_tail [] l2 p t 0 Et Hp2). cbn [Z.eqb]. sm. eexists. split; [reflexivity|].
  match goal with |- unlinked _ _ _ _ ?nd' => set (ndn := nd') end.
  assert (forall x m, nodes s !! x = Some m -> exists m', ndn !! x = Some m' /\ same_node m m' /\
     (x <> d -> nbody_of m' = nbody_of m) /\ next m' = next m /\
     (x = d -> nbody_of m' = NDir (next n) (default 0 (last l2)))) as Hl.
  { intros z m Hz. unfold ndn. rewrite lookup_insert. case_decide; subst; simplify_eq; eexists; (split; [reflexivity || eassumption|]);
      unfold same_node, ntype in *; cbn; rewrite ?Eb; repeat split; try done. }
  assert (forall x, nodes s !! x = None -> ndn !! x = None) as Hno.
  { intros z Hz. unfold ndn. rewrite lookup_insert_ne; [done|]. congruence. }
  split; [|split; [|done]].
  - apply (tree_unlink s ch d p [] l2 nd ndn n); try done.
    intros z m Hz. destruct (Hl z m Hz) as (m' & ? & ? & ? & ? & ?). exists m'. by split_and!.
  - intros z m Hz. destruct (Hl z m Hz) as (m' & ? & ? & _). by exists m'.
Qed.

Lemma unlink_inner l y l2 fuel : children ch d = (l ++ [y]) ++ p :: l2 ->
  exists nd', unlink (S fuel) d p y p s = Ok (true, set_nodes nd' s) /\ unlinked s ch d ((l ++ [y]) ++ l2) nd'.
Proof.
  intros Ech. pose proof (t_node _ _ T p n Hn) as [Hp0 _]. pose proof (t_nodup _ _ T d) as Hnd. rewrite Ech in Hnd.
  apply NoDup_app in Hnd as (_ & Hdis & [Hp2 _]%NoDup_cons).
  destruct (t_child _ _ T d p ltac:(rewrite Ech; set_solver)) as [Hdp _].
  assert (y ∈ children ch d) as Hy by (rewrite Ech; set_solver).
  destruct (t_child _ _ T d y Hy) as (Hdy & ny & Hny & _). pose proof (child_bound _ _ _ _ T Hy).
  destruct (dir_links s ch d nd T Hd Hty) as (c & t & Eb & _ & Ec & Et). rewrite Ech in Ec, Et.
  assert (y <> p) by (intros ->; apply (Hdis p); set_solver).
  cbn [unlink]. destruct (Z.eqb_spec p 0); [lia|]. rewrite Z.eqb_refl.
  sm. rewrite Hd. sm. rewrite Hn. sm. unfold clist_of, ctail_of. rewrite Eb. cbv iota beta.
  rewrite (unlink_tail _ l2 p t y Et Hp2). destruct (Z.eqb_spec y 0); [lia|]. sm. rewrite lookup_insert_ne, Hny by lia. sm.
  eexists. split; [reflexivity|]. match goal with |- unlinked _ _ _ _ ?nd' => set (ndn := nd') end.
  assert (c = default (next n) (head (l ++ [y]))) as Ec' by (rewrite Ec; by destruct l).
  assert (forall x m, nodes s !! x = Some m -> exists m', ndn !! x = Some m' /\ same_node m m' /\
     (x <> d -> nbody_of m' = nbody_of m) /\ (x <> y -> next m' = next m) /\ (x = y -> next m' = next n) /\
     (x = d -> nbody_of m' = NDir c (default y (last l2)))) as Hl.
  { intros z m Hz. unfold ndn. rewrite !lookup_insert. repeat case_decide; subst; simplify_eq; eexists; (split; [reflexivity || eassumption|]);
      unfold same_node, ntype in *; cbn; rewrite ?Eb; repeat split; try done; try lia. }
  assert (forall x, nodes s !! x = None -> ndn !! x = None) as Hno.
  { intros z Hz. unfold ndn. rewrite !lookup_insert_ne; congruence. }
  split; [|split; [|done]].
  - apply (tree_unlink s ch d p (l ++ [y]) l2 nd ndn n); try done. rewrite !last_snoc, <- Ec'.
    intros z m Hz. destruct (Hl z m Hz) as (m' & ? & ? & ? & ? & ? & ?). exists m'. split_and!; try done.
    + intros. auto with congruence.
    + intros [= ->]. auto.
  - intros z m Hz. destruct (Hl z m Hz) as (m' & ? & ? & _). by exists m'.
Qed.
End unlink.

Lemma unlink_spec s ch d p l1 l2 nd fuel :
  tree_ok s ch -> children ch d = l1 ++ l2 -> nodes s !! d = Some nd -> ntype nd = FSNODE_DIR ->
  (length l2 < fuel)%nat ->
  if decide (p ∈ l2) then
    exists la lb nd', l1 ++ l2 = la ++ p :: lb /\
      unlink fuel d p (default 0 (last l1)) (default 0 (head l2)) s = Ok (true, set_nodes nd' s) /\
      tree_ok (set_nodes nd' s) (<[d := la ++ lb]> ch) /\
      (forall x m, nodes s !! x = Some m -> exists m', nd' !! x = Some m' /\ same_node m m') /\
      (forall x, nodes s !! x = None -> nd' !! x = None)
  else unlink fuel d p (default 0 (last l1)) (default 0 (head l2)) s = Ok (false, s).
Proof.
  intros H. revert l1 fuel. induction l2 as [|x l2 IH]; intros l1 [|fuel] Ech Hd Hty Hf; cbn [length] in Hf; try lia.
  { rewrite decide_False by set_solver. done. }
  assert (x ∈ children ch d) as Hx by (rewrite Ech; set_solver).
  destruct (t_child _ _ H d x Hx) as (Hdx & nx & Hnx & _). pose proof (child_bound _ _ _ _ H Hx).
  cbn [head default from_option id]. destruct (decide (x = p)) as [->|Hxp].
  - rewrite decide_True by set_solver. exists l1, l2.
    destruct (decide (l1 = [])) as [->|E1].
    + destruct (unlink_first s ch d p nd nx H Hd Hty Hnx l2 fuel Ech) as (nd' & E & Hu). exists nd'. by split.
    + destruct (exists_last E1) as (l & y & ->). rewrite last_snoc. cbn [default from_option id].
      destruct (unlink_inner s ch d p nd nx H Hd Hty Hnx l y l2 fuel Ech) as (nd' & E & Hu). exists nd'. by split.
  - cbn [unlink]. destruct (Z.eqb_spec x 0); [lia|]. destruct (Z.eqb_spec x p); [done|]. sm. rewrite Hnx. sm.
    assert (next nx = default 0 (head l2)) as En.
    { destruct (dir_links s ch d nd H Hd Hty) as (c & t & _ & Hs & _). rewrite Ech in Hs.
      apply seg_app in Hs as (q & _ & (-> & nq & Hnq & H2)). assert (nq = nx) as -> by congruence. by apply seg_head in H2. }
    rewrite En. specialize (IH (l1 ++ [x]) fuel). rewrite <- app_assoc, last_snoc in IH. cbn [app default from_option id] in IH.
    specialize (IH Ech Hd Hty ltac:(lia)). destruct (decide (p ∈ l2)).
    + rewrite decide_True by set_solver. done.
    + rewrite decide_False by set_solver. done.
Qed.

(** ** Inversion of a run that ended well *)

Lemma get_node_ok p s n : nodes s !! p = Some n -> get_node p s = Ok (n, s).
Proof. intros E. unfold get_node. sm. by rewrite E. Qed.
Lemma get_handle_ok p s h : handles s !! p = Some h -> get_handle p s = Ok (h, s).
Proof. intros E. unfold get_handle. sm. by rewrite E. Qed.

Lemma get_node_inv p s n s' : get_node p s = Ok (n, s') -> nodes s !! p = Some n /\ s' = s.
Proof. unfold get_node. sm. destruct (nodes s !! p); cbn; [|done]. by intros [= -> ->]. Qed.
Lemma get_handle_inv p s h s' : get_handle p s = Ok (h, s') -> handles s !! p = Some h /\ s' = s.
Proof. unfold get_handle. sm. destruct (handles s !! p); cbn; [|done]. by intros [= -> ->]. Qed.
Lemma put_node_inv p n s u s' : put_node p n s = Ok (u, s') -> s' = set_nodes (<[p := n]> (nodes s)) s.
Proof. unfold put_node. sm. by intros [= _ <-]. Qed.
Lemma put_handle_inv p h s u s' : put_handle p h s = Ok (u, s') -> s' = set_handles (<[p := h]> (handles s)) s.
Proof. unfold put_handle. sm. by intros [= _ <-]. Qed.
Lemma free_handle_inv p s u s' : free_handle p s = Ok (u, s') -> s' = set_handles (delete p (handles s)) s.
Proof. unfold free_handle. sm. by intros [= _ <-]. Qed.
Lemma fail_inv {A} e (v r : A) s s' : fail e v s = Ok (r, s') -> r = v /\ s' = set_errno e s.
Proof. unfold fail. sm. by intros [= <- <-]. Qed.
Lemma alloc_inv s p s' : alloc s = Ok (p, s') ->
  (p = 0 /\ s' = s) \/ (p = nexta s /\ exists k, avail s = S k /\ s' = bump s k).
Proof.
  unfold alloc. destruct (avail s) as [|k]; intros [= <- <-]; [by left|]. right. split; [done|]. by exists k.
Qed.

Ltac minv1 :=
  match goal with
  | H : (_ ≫= _) _ = Ok (_, _) |- _ => apply sm_bind_inv in H as (? & ? & ? & ?)
  | H : get_node _ _ = Ok _ |- _ => apply get_node_inv in H as [? ->]
  | H : get_handle _ _ = Ok _ |- _ => apply get_handle_inv in H as [? ->]
  | H : put_node _ _ _ = Ok _ |- _ => apply put_node_inv in H as ->
  | H : put_handle _ _ _ = Ok _ |- _ => apply put_handle_inv in H as ->
  | H : free_handle _ _ = Ok _ |- _ => apply free_handle_inv in H as ->
  | H : fail _ _ _ = Ok _ |- _ => apply fail_inv in H as [-> ->]
  | H : sm_lift _ _ = Ok _ |- _ => apply sm_lift_inv in H as [? ->]
  | H : sm_get _ = Ok _ |- _ => apply sm_get_inv in H as [-> ->]
  | H : sm_upd _ _ = Ok _ |- _ => apply sm_upd_inv in H as ->
  | H : mret _ _ = Ok _ |- _ => apply mret_inv in H as [? ->]
  | H : of_option ?o = Ok _ |- _ => destruct o eqn:?; [injection H as ?|done]
  | H : (if ?b then _ else _) _ = Ok _ |- _ => destruct b eqn:?
  | H : (match ?x with _ => _ end) _ = Ok _ |- _ => destruct x eqn:?
  | H : Panic = Ok _ |- _ => done
  | H : Fault = Ok _ |- _ => done
  | H : NoFuel = Ok _ |- _ => done
  end.
Ltac minv := repeat minv1; subst.

(** ** Every operation keeps the tree *)

Lemma create_fsnode_ok fs p s ch r s' :
  tree_ok s ch -> create_fsnode fs p s = Ok (r, s') -> tree_ok s' ch.
Proof.
  intros H E. unfold create_fsnode in E. minv1.
  match goal with Ha : alloc s = _ |- _ => apply alloc_inv in Ha as [[-> ->]|[-> (k & Ek & ->)]] end.
  { cbn [Z.eqb] in *. minv. by apply tree_errno. }
  pose proof (t_fresh _ _ H). pose proof (tree_bump s ch k H) as T1. minv1; [lia|].
  minv1. minv1. minv1.
  match goal with Ha : alloc _ = _ |- _ => apply alloc_inv in Ha as [[-> ->]|[-> (k2 & Ek2 & ->)]] end.
  { cbn [Z.eqb] in *. minv. by apply tree_errno. }
  cbn [nexta bump] in *. minv1; [lia|]. minv1. minv1.
  match goal with Hn : nodes (bump s k) !! p = Some ?n |- _ => rename n into np; rename Hn into Hp end.
  assert (tree_ok (set_handles (<[nexta s := mk_fsn fs (match ntype np with
      | FSNODE_FILE => OFile p 0 | FSNODE_DIR => ODir p (clist_of np) end) 0]> (handles s)) (bump (bump s k) k2)) ch) as T2.
  { apply (tree_handle (bump (bump s k) k2)); [by apply tree_bump| cbn; lia | |].
    - exists np. by destruct (ntype np).
    - destruct (ntype np) eqn:Et; cbn; [lia|].
      destruct (dir_links s ch p np H Hp Et) as (c & t & Eb & Hs & Ec & _). unfold clist_of. rewrite Eb.
      destruct (children ch p) as [|x l] eqn:Ech; [by left|]. right. cbn in Ec. subst c.
      destruct (t_child _ _ H p x) as (_ & n & Hn & _); [rewrite Ech; set_solver|]. by exists n. }
  minv; [|done]. cbn [nodes bump] in *.
  apply (tree_update _ _ p np); try done.
  destruct (t_node _ _ H p np Hp) as [_ Hb]. cbn. destruct (nbody_of np); [|done]. split_and!; apply Hb.
Qed.

Lemma alloc_node_ok ty s ch p s' : tree_ok s ch -> alloc_node ty s = Ok (p, s') -> tree_ok s' ch.
Proof.
  intros H E. destruct (alloc_node_spec s ch ty H) as (q & s1 & E1 & H1 & _). congruence.
Qed.

Lemma free_node_leaf fuel p n s ch u s' :
  tree_ok s ch -> nodes s !! p = Some n -> clist_of n = 0 -> free_node fuel p s = Ok (u, s') -> tree_ok s' ch.
Proof.
  intros H Hp Hc E. destruct fuel as [|fuel]; cbn [free_node] in E; minv; try done; simplify_eq;
    unfold clist_of in Hc.
  - apply (tree_update s ch p n); try done; [by unfold ntype; cbn; match goal with H : nbody_of n = _ |- _ => rewrite H end|].
    destruct (t_node _ _ H p n Hp) as [_ Hb]. cbn.
    match goal with H : nbody_of n = _ |- _ => rewrite H in Hb end. split_and!; try done; apply Hb.
  - match goal with H : nbody_of n = _ |- _ => rewrite H in Hc end. subst. done.
Qed.

Lemma length_resize junk d n : 0 <= n -> length (resize junk d n) = Z.to_nat n.
Proof. intros. unfold resize. rewrite length_app, length_take, length_fmap, length_zseq. lia. Qed.
Lemma length_splice d pos buf :
  0 <= pos -> length buf = O \/ pos + Z.of_nat (length buf) <= Z.of_nat (length d) -> length (splice d pos buf) = length d.
Proof. intros Hp H. unfold splice. rewrite !length_app, length_take, length_drop. lia. Qed.

Lemma close_ok p s ch u s' : tree_ok s ch -> close p s = Ok (u, s') -> tree_ok s' ch.
Proof. intros T E. unfold close in E. minv; [done|]. by apply tree_delete_handle. Qed.

(** A handle keeps what it points to and gets a new position. *)
Lemma tree_reposition s ch p h d' :
  tree_ok s ch -> handles s !! p = Some h ->
  match fsn_data h, d' with
  | OFile f _, OFile f' pos => f' = f /\ 0 <= pos < 2147483648
  | ODir d _, ODir d'' cur => d'' = d /\ (cur = 0 \/ is_Some (nodes s !! cur))
  | _, _ => False
  end ->
  tree_ok (set_handles (<[p := mk_fsn (fsn_fs h) d' (mnt h)]> (handles s)) s) ch.
Proof.
  intros T Hp Hd. destruct (t_handle _ _ T p h Hp) as (Hr & (n & Hn & Et) & _).
  apply tree_handle; try done; unfold target, handle_type in *; cbn;
    destruct (fsn_data h), d'; try done; destruct Hd as [-> Hd]; [by exists n|by exists n| |]; done.
Qed.

Lemma seek_ok p offs whence s ch r s' : tree_ok s ch -> seek p offs whence s = Ok (r, s') -> tree_ok s' ch.
Proof.
  intros T E. unfold seek in E. minv; try done; apply tree_reposition; try done;
    match goal with H : fsn_data _ = _ |- _ => rewrite H end; (split; [done|]);
    match goal with |- context [s32 ?x] => pose proof (s32_range x) end; case_match; lia.
Qed.

Lemma read_ok p sz s ch r s' : tree_ok s ch -> read p sz s = Ok (r, s') -> tree_ok s' ch.
Proof.
  intros T E. unfold read in E. minv; try done; simplify_eq; apply tree_reposition; try done;
    match goal with H : fsn_data _ = _ |- _ => rewrite H end; (split; [done|]);
    match goal with Hh : handles s !! p = Some ?h, Hd : fsn_data ?h = _, Hn : nodes s !! _ = Some ?n, Hb : nbody_of ?n = _ |- _ =>
      destruct (t_handle _ _ T p h Hh) as (_ & _ & Hpos); rewrite Hd in Hpos;
      destruct (t_node _ _ T _ n Hn) as [_ Hbn]; rewrite Hb in Hbn end;
    rewrite ?s32_small in * by lia; repeat case_match; lia.
Qed.

Lemma rewinddir_ok p s ch r s' : tree_ok s ch -> rewinddir p s = Ok (r, s') -> tree_ok s' ch.
Proof.
  intros T E. unfold rewinddir in E. minv; try done; apply tree_reposition; try done;
    match goal with H : fsn_data _ = _ |- _ => rewrite H end; (split; [done|]).
  match goal with Hh : handles s !! p = Some ?h, Hd : fsn_data ?h = ODir ?d _, Hn : nodes s !! ?d = Some ?n |- _ =>
    destruct (t_handle _ _ T p h Hh) as (_ & (n' & Hn' & Et) & _); unfold target, handle_type in *; rewrite Hd in *;
    assert (n' = n) as -> by congruence;
    destruct (dir_links s ch d n T Hn Et) as (c & t & Eb & Hs & Ec & _) end.
  unfold clist_of. rewrite Eb. destruct (children ch dir) as [|cx cl] eqn:Ech; [by left|]. right. cbn in Ec. subst c.
  destruct (t_child _ _ T dir cx) as (_ & m & Hm & _); [rewrite Ech; set_solver|]. by exists m.
Qed.

Lemma readdir_ok p s ch r s' : tree_ok s ch -> readdir p s = Ok (r, s') -> tree_ok s' ch.
Proof.
  intros T E. unfold readdir in E. minv; try done. apply tree_reposition; try done.
  match goal with H : fsn_data _ = _ |- _ => rewrite H end. split; [done|].
  match goal with Hn : nodes s !! cur = Some ?n |- _ => rename Hn into Hcur; rename n into nc end.
  by apply (t_next _ _ T cur).
Qed.

Lemma alloc_ok s p s' ch : tree_ok s ch -> alloc s = Ok (p, s') ->
  tree_ok s' ch /\ nodes s' = nodes s /\ handles s' = handles s.
Proof.
  intros T E. apply alloc_inv in E as [[-> ->]|[-> (k & _ & ->)]]; [done|]. split; [by apply tree_bump|done].
Qed.

(** The size of the array after [write], and what it must be at least. *)
Lemma write_max mx total :
  let new_max := if mx <? total then (if total <? s32 (mx * 2) then s32 (mx * 2) else total) else mx in
  0 <= mx < 2147483648 -> total < 2147483648 -> mx <= new_max < 2147483648 /\ total <= new_max.
Proof. pose proof (s32_range (mx * 2)). zcases. Qed.

Lemma block_bytes_spec n : 0 <= n < 2147483648 -> n <= block_bytes n < n + 4.
Proof. intros. unfold block_bytes. pose proof (Malloc.rounded_spec n ltac:(lia) ltac:(lia)). unfold Malloc.DESC_SIZE. lia. Qed.

(** [realloc] either keeps the block or moves to one that is large enough. *)
Lemma realloc_inv junk d n s r s' : realloc junk d n s = Ok (r, s') ->
  (d <> [] /\ n <= Z.of_nat (length d) + 12 /\ r = Some d /\ s' = s) \/
  ((d = [] \/ Z.of_nat (length d) + 12 < n) /\ (exists p, alloc s = Ok (p, s')) /\ (r = None \/ r = Some (resize junk d (block_bytes n)))).
Proof.
  assert (forall x, (p ← alloc; mret (if p =? 0 then None else Some x)) s = Ok (r, s') ->
    (exists p, alloc s = Ok (p, s')) /\ (r = None \/ r = Some x)) as Ha.
  { intros x E. apply sm_bind_inv in E as (p & s1 & Ea & [-> ->]%mret_inv). split; [by exists p|]. destruct (p =? 0); auto. }
  unfold realloc, Malloc.DESC_SIZE. destruct d as [|x d]; [intros E%Ha; right; by split; [left|]|].
  destruct (Z.leb_spec n (Z.of_nat (length (x :: d)) + 12)).
  - intros [-> ->]%mret_inv. by left.
  - intros E%Ha. right. by split; [right|].
Qed.
Lemma realloc_block junk d n s d' s' : 0 < n < 2147483648 -> realloc junk d n s = Ok (Some d', s') -> block_ok (Some d') n.
Proof.
  intros Hn E. pose proof (block_bytes_spec n ltac:(lia)).
  apply realloc_inv in E as [(H1 & H2 & [= ->] & _)|(_ & _ & [[=]|[= ->]])]; [done|].
  cbn. rewrite length_resize by lia. split; [lia|]. intros E%(f_equal length). rewrite length_resize in E by lia. cbn in E. lia.
Qed.

Lemma write_ok junk p buf s ch r s' : tree_ok s ch -> write junk p buf s = Ok (r, s') -> tree_ok s' ch.
Proof.
  intros T E. unfold write in E. minv1; [minv; done|]. do 2 minv1.
  match goal with Hh : handles s !! p = Some ?h |- _ => rename h into hd; rename Hh into Hhd end.
  destruct (fsn_data hd) as [f pos|d cur] eqn:Ed; [|minv; done].
  do 2 minv1. match goal with Hn : nodes s !! f = Some ?n |- _ => rename n into nf; rename Hn into Hnf end.
  destruct (nbody_of nf) as [data size mx|] eqn:Eb; [|minv; done].
  destruct (t_handle _ _ T p hd Hhd) as (_ & _ & Hpos). rewrite Ed in Hpos.
  destruct (t_node _ _ T f nf Hnf) as [_ Hbn]. rewrite Eb in Hbn. destruct Hbn as (_ & Hsz & Hmx & Hlen).
  set (sz := Z.of_nat (length buf)) in *. set (total := pos + sz) in *.
  minv1; [done|].
  destruct (write_max mx total) as [Hmax1 Hmax2]; [lia|lia|].
  set (nmax := if mx <? total then if total <? s32 (mx * 2) then s32 (mx * 2) else total else mx) in *.
  do 3 minv1. destruct data as [d|]; [|done].
  match goal with H : of_option (Some d) = Ok _ |- _ => injection H as <- end.
  match goal with H : (if mx <? total then realloc junk d nmax else mret (Some d)) s = Ok (?q, ?s1) |- _ =>
    assert (tree_ok s1 ch /\ nodes s1 = nodes s /\ handles s1 = handles s /\ forall d', q = Some d' -> block_ok (Some d') nmax)
      as (T1 & En & Eh & Hblk); [rename s1 into sb|clear H; rename s1 into sa; rename q into tmp]
  end.
  { match goal with H : (if mx <? total then _ else _) s = _ |- _ => rename H into Er end. unfold nmax in *.
    destruct (Z.ltb_spec mx total) as [Hlt|Hlt].
    - assert (tree_ok sb ch /\ nodes sb = nodes s /\ handles sb = handles s) as (? & ? & ?).
      { apply realloc_inv in Er as [(_ & _ & _ & ->)|(_ & [q Ea] & _)]; [done|by eapply alloc_ok]. }
      split_and!; try done. intros d' ->. by apply (realloc_block junk d _ s _ sb); [lia|].
    - apply mret_inv in Er as [-> ->]. split_and!; try done. by intros d' [= <-]. }
  destruct tmp as [d'|]; [|minv; by apply tree_errno]. specialize (Hblk d' eq_refl). minv1; [minv; done|].
  assert (sz = 0 \/ pos + sz <= Z.of_nat (length d')) as Hfit.
  { match goal with H : negb (sz =? 0) && _ = false |- _ => apply andb_false_iff in H as [H|H] end; lia. }
  minv. rewrite <- Eh in Hhd. rewrite <- En in Hnf.
  pose proof (tree_reposition sa ch p hd (OFile f total) T1 Hhd) as T2. rewrite Ed in T2. specialize (T2 ltac:(lia)).
  apply (tree_update _ ch f nf); [exact T2 | exact Hnf | done | done | |].
  - unfold ntype. cbn. by rewrite Eb.
  - cbn [nbody_of set_body]. split; [case_match; lia|]. split; [lia|]. cbn in Hblk |- *.
    rewrite length_splice by (unfold sz in *; lia). split; [lia|]. intros E%(f_equal length).
    rewrite length_splice in E by (unfold sz in *; lia). cbn in E. apply Hblk. by destruct d'.
Qed.

Lemma rename_ok p name s ch r s' : tree_ok s ch -> rename p name s = Ok (r, s') -> tree_ok s' ch.
Proof.
  intros T E. unfold rename in E. minv. 
  match goal with Hn : nodes s !! target ?h = Some ?n |- _ => destruct (t_node _ _ T _ n Hn) as [_ Hb];
    apply (tree_update s ch (target h) n); try done end.
  cbn. destruct (nbody_of _); [|done]. split_and!; apply Hb.
Qed.

Lemma unlink_mono fuel k d p prev q s x : unlink fuel d p prev q s = Ok x -> unlink (fuel + k) d p prev q s = Ok x.
Proof.
  revert prev q. induction fuel as [|fuel IH]; intros prev q; [done|]. cbn [unlink Nat.add].
  destruct (q =? 0); [done|]. destruct (q =? p); [done|].
  unfold mbind, sm_mbind. destruct (get_node q s) as [[c s1]| | |] eqn:E; try done.
  apply get_node_inv in E as [_ ->]. apply IH.
Qed.

(** The end of [remove]: unlink and free. *)
Lemma remove_tail_ok fuel t n s ch r s' :
  tree_ok s ch -> nodes s !! t = Some n -> parent n <> 0 -> clist_of n = 0 ->
  (d ← get_node (parent n); found ← unlink fuel (parent n) t 0 (clist_of d);
   if (found : bool) then (free_node fuel t;; mret 0) else mret (-1)) s = Ok (r, s') ->
  exists ch', tree_ok s' ch'.
Proof.
  intros T Hn Hp Hc E.
  destruct (t_parent _ _ T t n Hn) as [?|(d & Hd & Ety)]; [done|]. set (par := parent n) in *.
  unfold get_node in E at 1. apply sm_bind_inv in E as (d0 & s0 & E0 & E). apply get_node_inv in E0 as [Hd0 ->].
  assert (d0 = d) as -> by congruence. apply sm_bind_inv in E as (found & s1 & Eu & E).
  apply (unlink_mono _ (S (length (children ch par)))) in Eu.
  pose proof (unlink_spec s ch par t [] (children ch par) d (fuel + S (length (children ch par))) T eq_refl Hd Ety ltac:(lia)) as Hu.
  destruct (dir_links s ch par d T Hd Ety) as (c & tl & Eb & _ & Ec & _).
  unfold clist_of in Eu. rewrite Eb, Ec in Eu. cbn [last default from_option id] in Hu. cbn [app] in Hu.
  destruct (decide (t ∈ children ch par)) as [Ht|Ht].
  - destruct Hu as (la & lb & nd' & El & Er & T1 & Hsame & _). rewrite Er in Eu. injection Eu as <- <-.
    apply sm_bind_inv in E as (u & s2 & Ef & E). apply mret_inv in E as [_ ->].
    destruct (Hsame t n Hn) as (n' & Hn' & Hs). exists (<[par := la ++ lb]> ch).
    eapply free_node_leaf; [exact T1 | exact Hn' | | exact Ef].
    destruct Hs as (_ & _ & _ & Et & Hf). unfold ntype in *.
    destruct (nbody_of n') as [|c' t'] eqn:Eb'; [unfold clist_of; by rewrite Eb'|].
    apply (clist_zero _ _ t n' T1 Hn'); [unfold ntype; by rewrite Eb'|].
    pose proof (child_ne _ _ _ _ T Ht) as Hne. unfold children. rewrite lookup_insert_ne by done.
    change (children ch t = []). apply (clist_zero s ch t n T Hn); [|done]. unfold ntype. by rewrite <- Et.
  - rewrite Hu in Eu. injection Eu as <- <-. apply mret_inv in E as [_ ->]. by exists ch.
Qed.

Lemma remove_ok fuel p s ch r s' :
  tree_ok s ch -> remove fuel p s = Ok (r, s') -> exists ch', tree_ok s' ch'.
Proof.
  intros T E. unfold remove in E. apply sm_bind_inv in E as (h & s0 & Eh & E). apply get_handle_inv in Eh as [Hh ->].
  cbv zeta in E. apply sm_bind_inv in E as (n & s0 & En & E). apply get_node_inv in En as [Hn ->].
  destruct (t_handle _ _ T p h Hh) as (_ & (n' & Hn' & Ety) & _). assert (n' = n) as -> by congruence.
  assert (forall e, exists ch', tree_ok (set_errno e s) ch') as He by (intros e; exists ch; by apply tree_errno).
  destruct (decide (handle_type h = FSNODE_DIR)) as [Eh|Eh].
  - destruct (Z.eqb_spec (clist_of n) 0) as [Hc|Hc]; cbn [negb] in E; [|by apply fail_inv in E as [_ ->]].
    destruct (Z.eqb_spec (parent n) 0); [by apply fail_inv in E as [_ ->]|].
    by eapply remove_tail_ok.
  - destruct (Z.eqb_spec (parent n) 0); [by apply fail_inv in E as [_ ->]|].
    eapply remove_tail_ok; try done. unfold ntype, clist_of in *. rewrite <- Ety in Eh. by destruct (nbody_of n).
Qed.

Lemma find_child_inv fuel name p s r s' : find_child fuel name p s = Ok (r, s') -> s' = s.
Proof.
  revert p. induction fuel as [|fuel IH]; intros p E; [done|]. cbn [find_child] in E.
  minv1; [minv; done|]. do 2 minv1. minv1; [by minv|by eapply IH].
Qed.
Lemma find_entry_inv fuel d name s r s' : find_entry fuel d name s = Ok (r, s') -> s' = s.
Proof.
  unfold find_entry. intros E. minv1; [by minv|]. do 2 minv1. minv1; [by minv|by eapply find_child_inv].
Qed.

(** A new child: allocated, named and linked. *)
Lemma create_child s ch d nd name ty k p :
  tree_ok s ch -> nodes s !! d = Some nd -> ntype nd = FSNODE_DIR -> avail s = S k -> p = nexta s ->
  exists s1 nd', alloc_node ty s = Ok (p, s1) /\ p <> 0 /\
    (n ← get_node p; put_node p (set_name name n);; add_child d p) s1 = Ok (tt, set_nodes nd' (bump s k)) /\
    tree_ok (set_nodes nd' (bump s k)) (<[d := children ch d ++ [p]]> ch) /\
    (forall x m, nodes s !! x = Some m -> exists m', nd' !! x = Some m' /\ same_node m m') /\
    (forall x, x <> p -> nodes s !! x = None -> nd' !! x = None) /\
    nd' !! p = Some (mk_node (nbody_of (empty_node ty)) name d 0 0) /\ p ∉ children ch d /\ d < p.
Proof.
  intros T Hd Hty Ea Ep.
  destruct (alloc_node_spec s ch ty T) as (q & s1 & E & T1 & _ & _ & _ & Hq). rewrite Ea in Hq.
  rewrite <- Ep in Hq. destruct Hq as (-> & Hp0 & Hn1 & Hx1 & Ha1 & Hnone & Hnot & Hch).
  pose proof (t_node _ _ T d nd Hd) as [Hdr _].
  assert (s1 = set_nodes (<[p := empty_node ty]> (nodes s)) (bump s k)) as Es1.
  { unfold alloc_node, alloc in E. revert E. sm. rewrite Ea, <- Ep. destruct (Z.eqb_spec p 0); [done|]. intros [= <-]. unfold bump. by rewrite <- Ep. }
  set (s2 := set_nodes (<[p := set_name name (empty_node ty)]> (nodes s1)) s1).
  assert (tree_ok s2 ch) as T2.
  { apply (tree_update s1 ch p (empty_node ty)); try done; [rewrite Es1; cbn; by rewrite lookup_insert_eq|].
    by destruct ty. }
  assert (nodes s2 !! d = Some nd) as Hd2.
  { unfold s2. rewrite Es1. cbn [nodes set_nodes bump]. rewrite !lookup_insert_ne by lia. done. }
  assert (nodes s2 !! p = Some (set_name name (empty_node ty))) as Hp2 by (unfold s2; cbn; by rewrite lookup_insert_eq).
  assert (forall f, rootdirs s2 !! f <> Some p) as Hroot.
  { intros f Hf. assert (rootdirs s !! f = Some p) as Hf' by (unfold s2 in Hf; by rewrite Es1 in Hf).
    apply (t_root _ _ T) in Hf' as (m & Hm & _). congruence. }
  destruct (add_child_spec s2 ch d p nd (set_name name (empty_node ty)) T2 Hnot ltac:(lia) Hd2 Hty Hp2)
    as (nd' & Eadd & T3 & Hsame & Hback & (n' & Hn' & ->)); [by destruct ty | by destruct ty | done |].
  exists s1, nd'. split; [done|]. split; [done|].
  assert (set_nodes nd' s2 = set_nodes nd' (bump s k)) as Es by (unfold s2; by rewrite Es1).
  rewrite Es in *. split.
  { rewrite (sm_bind_ok _ _ s1 (empty_node ty) s1); [|unfold get_node; sm; rewrite Es1; cbn; by rewrite lookup_insert_eq].
    exact Eadd. }
  split; [done|]. split.
  - intros x m Hx. apply Hsame; [by intros ->; rewrite Hnone in Hx|].
    unfold s2. rewrite Es1. cbn [nodes set_nodes]. rewrite !lookup_insert_ne by (by intros <-; rewrite Hnone in Hx). done.
  - split; [|split; [by rewrite Hn'; destruct ty|split; [apply Hnot|lia]]].
    intros x Hx Hxn. apply Hback. unfold s2. rewrite Es1. cbn [nodes set_nodes]. by rewrite !lookup_insert_ne.
Qed.

(** The steps of [open] that create an entry, up to the opening of its node. *)
Lemma create_steps_inv s ch d nd name ty q s1 fs r s' :
  tree_ok s ch -> nodes s !! d = Some nd -> ntype nd = FSNODE_DIR -> alloc_node ty s = Ok (q, s1) -> q <> 0 ->
  (n ← get_node q; put_node q (set_name name n);; add_child d q;; create_fsnode fs q) s1 = Ok (r, s') ->
  exists nd' k, tree_ok (set_nodes nd' (bump s k)) (<[d := children ch d ++ [q]]> ch) /\
    (forall x m, nodes s !! x = Some m -> exists m', nd' !! x = Some m' /\ same_node m m') /\
    create_fsnode fs q (set_nodes nd' (bump s k)) = Ok (r, s').
Proof.
  intros T Hd Hty Ea Hq E. destruct (avail s) as [|k] eqn:Eav.
  { destruct (alloc_node_spec s ch ty T) as (q' & s1' & Ea' & _ & _ & _ & _ & Hq'). rewrite Eav in Hq'.
    destruct Hq' as [-> ->]. rewrite Ea' in Ea. by injection Ea as <- <-. }
  destruct (create_child s ch d nd name ty k _ T Hd Hty Eav eq_refl) as (s2 & nd' & Ea' & Hp0 & Er & T1 & Hsame & _).
  rewrite Ea' in Ea. injection Ea as <- <-.
  apply sm_bind_inv in E as (n1 & s3 & E1 & E). apply sm_bind_inv in E as (u & s4 & E2 & E).
  apply sm_bind_inv in E as (u' & s5 & E3 & E). exists nd', k. split; [done|]. split; [done|].
  rewrite (sm_bind_ok _ _ _ _ _ E1), (sm_bind_ok _ _ _ _ _ E2) in Er. congruence.
Qed.

Lemma alloc_node_null s ty s1 : memfs_ok s -> alloc_node ty s = Ok (0, s1) -> s1 = s.
Proof.
  intros [ch T] E. destruct (alloc_node_spec s ch ty T) as (q & s2 & E2 & _ & _ & _ & _ & Hq).
  rewrite E2 in E. injection E as -> ->. destruct (avail s); [apply Hq|]. destruct Hq as (_ & ? & _). lia.
Qed.

Section open_ok.
Variable fsop_open : Z -> list Z -> Z -> SM mfs Z.
Hypothesis fsop_open_ok : forall fs path flags s r s',
  memfs_ok s -> fsop_open fs path flags s = Ok (r, s') -> memfs_ok s'.

Lemma open_walk_ok fuel fs node path flags s r s' :
  memfs_ok s -> open_walk fsop_open fuel fs node path flags s = Ok (r, s') -> memfs_ok s'.
Proof.
  revert node path s. induction fuel as [|fuel IH]; intros node path s Hok E; [done|].
  pose proof Hok as [ch T]. cbn [open_walk] in E.
  apply sm_bind_inv in E as (n & s0 & En & E). apply get_node_inv in En as [Hn ->].
  assert (forall m s1, node_mnt n s = Ok (m, s1) -> s1 = s) as Hmnt.
  { intros m s1 Em. unfold node_mnt in Em. by minv. }
  assert (forall e, memfs_ok (set_errno e s)) as Herr by (intros e; exists ch; by apply tree_errno).
  destruct path as [|c path].
  - apply sm_bind_inv in E as (m & s1 & Em & E). apply Hmnt in Em as ->.
    minv1; [by eapply fsop_open_ok|]. minv1; [minv; apply Herr|]. exists ch. by eapply create_fsnode_ok.
  - destruct (decide (ntype n = FSNODE_DIR)) as [Hty|Hty]; [|minv; apply Herr].
    apply sm_bind_inv in E as (m & s1 & Em & E). apply Hmnt in Em as ->.
    minv1; [by eapply fsop_open_ok|]. destruct (fs_path_next _ _) as [name rest].
    apply sm_bind_inv in E as (p & s1 & Ef & E). apply find_entry_inv in Ef as ->.
    minv1; [|by eapply IH]. minv1; [minv; apply Herr|].
    apply sm_bind_inv in E as (q & s1 & Ea & E). destruct (Z.eqb_spec q 0) as [->|Hq].
    { apply alloc_node_null in Ea as ->; [|by exists ch]. minv. apply Herr. }
    destruct (create_steps_inv s ch node n name _ q s1 fs r s' T Hn Hty Ea Hq E) as (nd' & k & T1 & _ & E').
    eexists. by eapply create_fsnode_ok.
Qed.

Lemma open_ok fuel fs path flags s r s' :
  memfs_ok s -> open fsop_open fuel fs path flags s = Ok (r, s') -> memfs_ok s'.
Proof.
  intros Hok E. unfold open, open_from in E.
  minv; try done; by eapply open_walk_ok.
Qed.
End open_ok.

(** ** Reachable states *)

(** The [open] operation of the memory file systems, mounted on each other to
    the given depth. *)
Fixpoint mem_fsop_open (fuel depth : nat) (fs : Z) (path : list Z) (flags : Z) : SM mfs Z :=
  match depth with
  | O => sm_lift NoFuel
  | S depth => open (mem_fsop_open fuel depth) fuel fs path flags
  end.

(** An operation of the file system's table, run on a handle or path. *)
Inductive mem_op :=
| MOpen (fs : Z) (path : list Z) (flags : Z)
| MClose (p : Z)
| MSeek (p offs whence : Z)
| MRead (p sz : Z)
| MWrite (p : Z) (buf : list Z)
| MRewinddir (p : Z)
| MReaddir (p : Z)
| MRename (p : Z) (name : list Z)
| MRemove (p : Z).

Definition run_op (junk : Z -> Z) (fuel depth : nat) (o : mem_op) : SM mfs unit :=
  match o with
  | MOpen fs path flags => mem_fsop_open fuel depth fs path flags;; mret tt
  | MClose p => close p
  | MSeek p offs whence => seek p offs whence;; mret tt
  | MRead p sz => read p sz;; mret tt
  | MWrite p buf => write junk p buf;; mret tt
  | MRewinddir p => rewinddir p;; mret tt
  | MReaddir p => readdir p;; mret tt
  | MRename p name => rename p name;; mret tt
  | MRemove p => remove fuel p;; mret tt
  end.

Definition mem_init (k : nat) : mfs := mk_mfs ∅ ∅ ∅ 0 1 k 0.

(** The states that file systems created from nothing reach. *)
Inductive mem_reachable : mfs -> Prop :=
| reach_init k : mem_reachable (mem_init k)
| reach_create s fs s' : mem_reachable s -> fsmem_create true s = Ok (fs, s') -> mem_reachable s'
| reach_op junk fuel depth o s s' :
    mem_reachable s -> run_op junk fuel depth o s = Ok (tt, s') -> mem_reachable s'.

Lemma mem_fsop_open_ok fuel depth fs path flags s r s' :
  memfs_ok s -> mem_fsop_open fuel depth fs path flags s = Ok (r, s') -> memfs_ok s'.
Proof.
  revert fs path flags s r s'. induction depth as [|depth IH]; intros fs path flags s r s' Hok E; [done|].
  eapply open_ok; [|done|exact E]. exact IH.
Qed.

Lemma run_op_ok junk fuel depth o s s' :
  memfs_ok s -> run_op junk fuel depth o s = Ok (tt, s') -> memfs_ok s'.
Proof.
  intros Hok E. pose proof Hok as [ch T]. destruct o; cbn [run_op] in E;
    try (apply sm_bind_inv in E as (r & s1 & E & Er); apply mret_inv in Er as [_ ->]).
  - by eapply mem_fsop_open_ok.
  - exists ch. by eapply close_ok.
  - exists ch. by eapply seek_ok.
  - exists ch. by eapply read_ok.
  - exists ch. by eapply write_ok.
  - exists ch. by eapply rewinddir_ok.
  - exists ch. by eapply readdir_ok.
  - exists ch. by eapply rename_ok.
  - by eapply remove_ok.
Qed.

Lemma mem_init_ok k : tree_ok (mem_init k) ∅.
Proof.
  split; try done; cbn; intros *; unfold children; rewrite ?lookup_empty; try done.
  - intros Hx. by apply not_elem_of_nil in Hx.
  - by constructor.
Qed.

Lemma fsmem_create_ok s ch fs s' : tree_ok s ch -> fsmem_create true s = Ok (fs, s') -> tree_ok s' ch.
Proof.
  intros T E. unfold fsmem_create in E. cbn [negb] in E.
  apply sm_bind_inv in E as (q & s1 & E1 & E). destruct (alloc_ok _ _ _ _ T E1) as (T1 & _).
  minv1; [minv; done|]. apply sm_bind_inv in E as (root & s2 & E2 & E).
  destruct (alloc_node_spec s1 ch FSNODE_DIR T1) as (root' & s2' & E2' & T2 & _ & Er & _ & Hr).
  rewrite E2' in E2. injection E2 as <- <-. minv1; [minv; done|].
  destruct (avail s1) as [|k]; [by destruct Hr as [-> _]|]. destruct Hr as (-> & _ & Hn & _).
  apply sm_bind_inv in E as (f & s3 & E3 & E). destruct (alloc_ok _ _ _ _ T2 E3) as (T3 & En & _).
  minv1; [minv; done|]. minv. apply (tree_roots _ _ _ _ (empty_node FSNODE_DIR)); try done.
  by rewrite En, Hn, lookup_insert_eq.
Qed.

(** C2. In every reachable state the nodes form a forest: each directory's
    [clist], [next] and [ctail] links make up a list of distinct children that
    name it as parent, no directory is below itself, the size of a file is at most
    the size it has noted for its array - by 12 bytes at most more than the block
    [realloc] left there -, and every open handle points to a node of its type. *)
Theorem memfs_invariant s : mem_reachable s -> memfs_ok s.
Proof.
  induction 1 as [k | s fs s' _ IH E | junk fuel depth o s s' _ IH E].
  - exists ∅. apply mem_init_ok.
  - destruct IH as [ch T]. exists ch. by eapply fsmem_create_ok.
  - by eapply run_op_ok.
Qed.

(** ** A file system with a file *)

Definition run_state {A} (m : SM mfs A) (s : mfs) : mfs := match m s with Ok (_, s) => s | _ => s end.
Definition no_junk (_ : Z) : Z := 0.

(** A memory file system (3, with root directory 2) and nothing in it. *)
Definition demo_empty : mfs := run_state (fsmem_create true) (mem_init 100).
(** Then the file /a, with handle 5 on node 4. *)
Definition demo_file : mfs := run_state (mem_fsop_open 9 9 3 [SEP; 97] FSO_CREATE) demo_empty.

Lemma demo_empty_ok : tree_ok demo_empty ∅.
Proof. apply (fsmem_create_ok (mem_init 100) ∅ 3); [apply mem_init_ok|reflexivity]. Qed.

Lemma demo_file_reachable : mem_reachable demo_file.
Proof.
  apply (reach_op no_junk 9 9 (MOpen 3 [SEP; 97] FSO_CREATE) demo_empty); [|reflexivity].
  apply (reach_create (mem_init 100) 3); [apply reach_init|reflexivity].
Qed.

Lemma memfs_invariant_witness : memfs_ok demo_file.
Proof. apply memfs_invariant, demo_file_reachable. Defined.
