(* ===== verification/FsFile.v ===== *)
(** * Memory file system: files (src/fsmem.c)

    Specification: an open file is a list of bytes with a position ([afile])
    and the size of its block ([ablock]), which decides where the code, through
    [realloc], writes behind it; the operations on a handle refine it. *)
From S2P Require Import Prelude Str FsPath FsMem FsTree.

Record afile := mk_afile { abytes : list Z; apos : Z }.

Inductive fop :=
| FRead (sz : Z)
| FWrite (buf : list Z)
| FSeek (offs whence : Z)
| FTell
| FSize.
Inductive fout :=
| OData (sz : Z) (bytes : list Z)
| OInt (v : Z).

Section files.
Variable junk : Z -> Z.

(** Uninitialised bytes [a, a+1, ..., a+n-1] of an array. *)
Definition junk_bytes (a n : Z) : list Z := junk <$> zseq a (Z.to_nat n).

(** The operation on the bytes alone. [None]: the code has no right to do this
    (reading with the position behind the end) or counts overflow. *)
Definition afile_step (o : fop) (a : afile) : option (fout * afile) :=
  let len := Z.of_nat (length (abytes a)) in
  let seek_to p := Some (OInt 0, mk_afile (abytes a) (Z.max 0 p)) in
  match o with
  | FRead sz =>
      if sz <? 0 then Some (OData (-1) [], a) else
      if len <? apos a then None else
      let k := Z.min sz (len - apos a) in
      Some (OData k (take (Z.to_nat k) (drop (Z.to_nat (apos a)) (abytes a))), mk_afile (abytes a) (apos a + k))
  | FWrite buf =>
      let stop := apos a + Z.of_nat (length buf) in
      if 2147483648 <=? stop then None else
      Some (OInt (Z.of_nat (length buf)),
            mk_afile (take (Z.to_nat (apos a)) (abytes a ++ junk_bytes len (apos a - len)) ++ buf
                      ++ drop (Z.to_nat stop) (abytes a)) stop)
  | FSeek offs whence =>
      if whence =? FSSEEK_SET then seek_to (s32 offs)
      else if whence =? FSSEEK_CUR then seek_to (s32 (apos a + offs))
      else if whence =? FSSEEK_END then seek_to (s32 (len + offs))
      else Some (OInt (-1), a)
  | FTell => Some (OInt (apos a), a)
  | FSize => Some (OInt len, a)
  end.
(** The bytes of the block behind [data], 0 for none, and [max_size]. *)
Record ablock := mk_ablock { bcap : Z; bmax : Z }.

(** What [write] makes of it when it ends at [stop]: [max_size] is doubled, and
    [realloc] leaves a block alone that has room when its descriptor counts. *)
Definition grow (b : ablock) (stop : Z) : ablock :=
  if bmax b <? stop then
    let m := if stop <? s32 (bmax b * 2) then s32 (bmax b * 2) else stop in
    if (0 <? bcap b) && (m <=? bcap b + 12) then mk_ablock (bcap b) m else mk_ablock (block_bytes m) m
  else b.
Definition block_step (o : fop) (a : afile) (b : ablock) : ablock :=
  match o with FWrite buf => grow b (apos a + Z.of_nat (length buf)) | _ => b end.

(** A write whose end is behind the block it gets. *)
Definition overruns (o : fop) (a : afile) (b : ablock) : bool :=
  match o with
  | FWrite buf => bcap (block_step o a b) <? apos a + Z.of_nat (length buf)
  | _ => false
  end.
(** One that writes no byte there only sets the size too large. *)
Definition writes_nothing (o : fop) : bool := match o with FWrite [] => true | _ => false end.

(** The specification: results and contents; an access outside of the block; or
    a size outside of the block, where it ends. *)
Inductive verdict (A : Type) := Done (x : A) | Overrun | Oversized.
Arguments Done {A}. Arguments Overrun {A}. Arguments Oversized {A}.

Fixpoint afile_run (l : list fop) (a : afile) (b : ablock) : verdict (list fout * afile * ablock) :=
  match l with
  | [] => Done ([], a, b)
  | o :: l =>
      match afile_step o a with
      | None => Overrun
      | Some (x, a') =>
          if overruns o a b then if writes_nothing o then Oversized else Overrun else
          match afile_run l a' (block_step o a b) with
          | Done (xs, a'', b'') => Done (x :: xs, a'', b'')
          | v => v
          end
      end
  end.

(** The bytes alone, while no write goes beyond 1 GB. *)
Definition below_giga (o : fop) (a : afile) : bool :=
  match o with FWrite buf => apos a + Z.of_nat (length buf) <=? 1073741824 | _ => true end.
Fixpoint bytes_run (l : list fop) (a : afile) : option (list fout * afile) :=
  match l with
  | [] => Some ([], a)
  | o :: l =>
      if below_giga o a then
        match afile_step o a with
        | None => None
        | Some (x, a) => match bytes_run l a with None => None | Some (xs, a) => Some (x :: xs, a) end
        end
      else None
  end.

(** A block that every growth replaces: its file has more than 12 bytes and
    fills at least half of it. *)
Definition roomy (b : ablock) : Prop := bmax b <= bcap b /\ bcap b + 12 < 2 * bmax b.

(** The same on a handle. *)
Definition file_step (p : Z) (o : fop) : SM mfs fout :=
  match o with
  | FRead sz => '(k, b) ← read p sz; mret (OData k b)
  | FWrite buf => r ← write junk p buf; mret (OInt r)
  | FSeek offs whence => r ← seek p offs whence; mret (OInt r)
  | FTell => r ← tell p; mret (OInt r)
  | FSize => r ← fsize p; mret (OInt r)
  end.
Fixpoint file_run (p : Z) (l : list fop) : SM mfs (list fout) :=
  match l with
  | [] => mret []
  | o :: l => x ← file_step p o; xs ← file_run p l; mret (x :: xs)
  end.

(** Handle [p] is open on file [a] with block [b]: beyond the size the block
    holds what [malloc] left there. *)
Definition file_rel (s : mfs) (p : Z) (a : afile) (b : ablock) : Prop :=
  p <> 0 /\ 0 < nexta s /\ 0 <= apos a < 2147483648 /\
  exists h f n, handles s !! p = Some h /\ fsn_data h = OFile f (apos a) /\ nodes s !! f = Some n /\
    let len := Z.of_nat (length (abytes a)) in
    nbody_of n = NFile (Some (abytes a ++ junk_bytes len (bcap b - len))) len (bmax b) /\
    len <= bcap b /\ len <= bmax b < 2147483648.

Lemma length_junk a n : 0 <= n -> length (junk_bytes a n) = Z.to_nat n.
Proof. intros. unfold junk_bytes. by rewrite length_fmap, length_zseq. Qed.
Lemma junk_app a n m : 0 <= n -> 0 <= m -> junk_bytes a n ++ junk_bytes (a + n) m = junk_bytes a (n + m).
Proof.
  intros. unfold junk_bytes. rewrite <- fmap_app. f_equal.
  replace (Z.to_nat (n + m)) with (Z.to_nat n + Z.to_nat m)%nat by lia. rewrite zseq_app. do 2 f_equal. lia.
Qed.
Lemma junk_neg a n : n <= 0 -> junk_bytes a n = [].
Proof. intros. unfold junk_bytes. by replace (Z.to_nat n) with O by lia. Qed.
Lemma drop_junk a n k : 0 <= k <= n -> drop (Z.to_nat k) (junk_bytes a n) = junk_bytes (a + k) (n - k).
Proof.
  intros. replace n with (k + (n - k)) at 1 by lia. rewrite <- junk_app by lia.
  apply drop_app_length'. by rewrite length_junk by lia.
Qed.
Lemma take_junk a n k : 0 <= k <= n -> take (Z.to_nat k) (junk_bytes a n) = junk_bytes a k.
Proof.
  intros. replace n with (k + (n - k)) at 1 by lia. rewrite <- junk_app by lia.
  apply take_app_length'. by rewrite length_junk by lia.
Qed.

Lemma resize_junk b mx n :
  Z.of_nat (length b) <= mx -> mx <= n ->
  let len := Z.of_nat (length b) in
  resize junk (b ++ junk_bytes len (mx - len)) n = b ++ junk_bytes len (n - len).
Proof.
  intros Hb Hn len. unfold resize. rewrite length_app, length_junk by lia.
  rewrite take_ge by (rewrite length_app, length_junk by lia; lia). rewrite <- app_assoc. f_equal.
  transitivity (junk_bytes len (mx - len) ++ junk_bytes (len + (mx - len)) (n - mx)).
  - f_equal. unfold junk_bytes. do 2 f_equal; lia.
  - rewrite junk_app by lia. f_equal. lia.
Qed.

(** Writing into the array is writing into the bytes. *)
Lemma splice_junk b pos buf mx :
  let len := Z.of_nat (length b) in let stop := pos + Z.of_nat (length buf) in
  0 <= pos -> len <= mx -> stop <= mx ->
  let b' := take (Z.to_nat pos) (b ++ junk_bytes len (pos - len)) ++ buf ++ drop (Z.to_nat stop) b in
  splice (b ++ junk_bytes len (mx - len)) pos buf
  = b' ++ junk_bytes (Z.of_nat (length b')) (mx - Z.of_nat (length b')) /\
  Z.of_nat (length b') = Z.max len stop.
Proof.
  intros len stop Hp Hl Hs b'.
  assert (length (take (Z.to_nat pos) (b ++ junk_bytes len (pos - len))) = Z.to_nat pos) as Htk.
  { rewrite length_take, length_app. destruct (decide (pos <= len)).
    - unfold len in *. lia.
    - rewrite length_junk by lia. unfold len in *. lia. }
  assert (Z.of_nat (length b') = Z.max len stop) as Hb'.
  { unfold b'. rewrite !length_app, Htk, length_drop. unfold len, stop in *. lia. }
  split; [|done]. rewrite Hb'. unfold splice, b'. rewrite <- !app_assoc. f_equal; [|f_equal].
  - destruct (decide (pos <= len)).
    + rewrite !take_app_le by (unfold len in *; lia). done.
    + rewrite !take_app, !(take_ge b) by (unfold len in *; lia). f_equal.
      replace (Z.to_nat pos - length b)%nat with (Z.to_nat (pos - len)) by (unfold len; lia).
      rewrite take_junk by lia. rewrite take_ge by (rewrite length_junk; lia). done.
  - replace (Z.to_nat pos + length buf)%nat with (Z.to_nat stop) by (unfold stop; lia).
    destruct (decide (stop <= len)).
    + rewrite drop_app_le by (unfold len in *; lia). do 2 f_equal; lia.
    + rewrite drop_app, (drop_ge b) by (unfold len in *; lia). cbn [app].
      replace (Z.to_nat stop - length b)%nat with (Z.to_nat (stop - len)) by (unfold len; lia).
      rewrite drop_junk by lia. f_equal; lia.
Qed.

Lemma file_read s p a b sz :
  file_rel s p a b -> 0 <= sz -> apos a <= Z.of_nat (length (abytes a)) ->
  let k := Z.min sz (Z.of_nat (length (abytes a)) - apos a) in
  exists s', read p sz s = Ok ((k, take (Z.to_nat k) (drop (Z.to_nat (apos a)) (abytes a))), s') /\
    file_rel s' p (mk_afile (abytes a) (apos a + k)) b /\ avail s' = avail s.
Proof.
  intros (Hp & Hx & Hpos & h & f & n & Hh & Hd & Hn & Hb & Hcap & Hmx) Hsz Hin k. unfold read.
  destruct (Z.eqb_spec p 0); [done|]. destruct (Z.ltb_spec sz 0); [lia|]. cbn [orb]. sm.
  rewrite Hh. sm. rewrite Hd. rewrite Hn. sm. rewrite Hb. rewrite s32_small by lia.
  assert ((if Z.of_nat (length (abytes a)) - apos a <? sz then Z.of_nat (length (abytes a)) - apos a else sz) = k) as ->
    by (unfold k; zcases).
  destruct (Z.ltb_spec k 0); [lia|]. destruct (Z.eqb_spec k 0) as [Ek|Ek].
  - exists s. rewrite Ek. split; [by rewrite Z.add_0_r || done|]. split; [|done]. rewrite Z.add_0_r. destruct a.
    split; [done|]. split; [done|]. split; [done|]. by exists h, f, n.
  - cbn [of_option]. rewrite length_app, length_junk by lia. zcases. eexists. split; [|split].
    + f_equal. f_equal. f_equal. rewrite drop_app_le, take_app_le by (rewrite ?length_drop; lia). done.
    + split; [done|]. split; [done|]. cbn [apos abytes]. split; [lia|]. eexists _, f, n. cbn [handles nodes set_handles].
      rewrite lookup_insert_eq. split; [done|]. by cbn.
    + done.
Qed.

Lemma read_behind_end_fault s p a b sz :
  file_rel s p a b -> 0 <= sz -> Z.of_nat (length (abytes a)) < apos a -> read p sz s = Fault.
Proof.
  intros (Hp & Hx & Hpos & h & f & n & Hh & Hd & Hn & Hb & Hcap & Hmx) Hsz Hin. unfold read.
  destruct (Z.eqb_spec p 0); [done|]. destruct (Z.ltb_spec sz 0); [lia|]. cbn [orb]. sm.
  rewrite Hh. sm. rewrite Hd. rewrite Hn. sm. rewrite Hb. rewrite s32_small by lia.
  destruct (Z.ltb_spec (Z.of_nat (length (abytes a)) - apos a) sz); [|lia]. zcases.
Qed.

(** Reading with the position behind the end runs [memcpy] with a negative
    count. *)
Theorem read_behind_end s p a b sz :
  file_rel s p a b -> 0 <= sz -> Z.of_nat (length (abytes a)) < apos a -> read p sz s = Fault.
Proof. apply read_behind_end_fault. Qed.

Lemma file_seek s p a b offs whence :
  file_rel s p a b ->
  match afile_step (FSeek offs whence) a with
  | Some (OInt r, a') => exists s', seek p offs whence s = Ok (r, s') /\ file_rel s' p a' b /\ avail s' = avail s
  | _ => False
  end.
Proof.
  intros (Hp & Hx & Hpos & h & f & n & Hh & Hd & Hn & Hb & Hcap & Hmx).
  assert (forall q, -2147483648 <= q < 2147483648 ->
    file_rel (set_handles (<[p := mk_fsn (fsn_fs h) (OFile f (if q <? 0 then 0 else q)) (mnt h)]> (handles s)) s) p
      (mk_afile (abytes a) (Z.max 0 q)) b) as Hto.
  { intros q Hq. split; [done|]. split; [done|]. cbn [apos abytes]. split; [lia|]. eexists _, f, n.
    cbn [handles nodes set_handles]. rewrite lookup_insert_eq. split; [done|]. cbn. split; [f_equal; zcases|done]. }
  unfold seek. destruct (Z.eqb_spec p 0); [done|]. sm. rewrite Hh. sm. rewrite Hd, Hn. sm.
  unfold file_size. rewrite Hb. cbn [afile_step].
  destruct (whence =? FSSEEK_SET); [eexists; split; [reflexivity|]; split; [apply Hto, s32_range|done]|].
  destruct (whence =? FSSEEK_CUR); [eexists; split; [reflexivity|]; split; [apply Hto, s32_range|done]|].
  destruct (whence =? FSSEEK_END); [eexists; split; [reflexivity|]; split; [apply Hto, s32_range|done]|].
  exists s. split; [done|]. split; [|done]. split; [done|]. split; [done|]. split; [done|]. by exists h, f, n.
Qed.
Lemma grow_spec b stop : 0 <= bcap b -> 0 <= bmax b < 2147483648 -> stop < 2147483648 ->
  let b' := grow b stop in bcap b <= bcap b' /\ bmax b <= bmax b' < 2147483648 /\ stop <= bmax b'.
Proof.
  intros Hc Hm Hs. unfold grow. pose proof (write_max (bmax b) stop Hm Hs) as Hw. cbv zeta in *.
  destruct (Z.ltb_spec (bmax b) stop); [|cbn; lia]. set (m := if stop <? s32 (bmax b * 2) then _ else _) in *.
  pose proof (block_bytes_spec m ltac:(lia)). zcases; cbn [bcap bmax andb]; lia.
Qed.

(** [write] up to the copy: the array has the size of the grown block. *)
Lemma grow_realloc s a b stop :
  let len := Z.of_nat (length (abytes a)) in let b' := grow b stop in
  len <= bcap b -> 0 <= bmax b < 2147483648 -> stop < 2147483648 -> 0 < nexta s -> (0 < avail s)%nat ->
  exists s', (if bmax b <? stop
              then realloc junk (abytes a ++ junk_bytes len (bcap b - len))
                     (if bmax b <? stop then if stop <? s32 (bmax b * 2) then s32 (bmax b * 2) else stop else bmax b)
              else mret (Some (abytes a ++ junk_bytes len (bcap b - len)))) s
             = Ok (Some (abytes a ++ junk_bytes len (bcap b' - len)), s') /\
    nexta s <= nexta s' /\ nodes s' = nodes s /\ handles s' = handles s /\ (avail s <= S (avail s'))%nat.
Proof.
  intros len b' Hl Hm Hs Hx Hav. unfold b', grow. pose proof (write_max (bmax b) stop Hm Hs) as Hw. cbv zeta in *.
  destruct (Z.ltb_spec (bmax b) stop) as [Hlt|]; [|exists s; split_and!; done || lia].
  set (m := if stop <? s32 (bmax b * 2) then _ else _) in *. pose proof (block_bytes_spec m ltac:(lia)) as Hbm.
  assert (Z.of_nat (length (abytes a ++ junk_bytes len (bcap b - len))) = bcap b) as El.
  { rewrite length_app, length_junk by lia. unfold len in *. lia. }
  set (d := abytes a ++ junk_bytes len (bcap b - len)) in *.
  assert (forall x, exists s', (p ← alloc; mret (if p =? 0 then None else Some x)) s = Ok (Some x : option (list Z), s') /\
    nexta s <= nexta s' /\ nodes s' = nodes s /\ handles s' = handles s /\ (avail s <= S (avail s'))%nat) as Ha.
  { intros x. unfold mbind, sm_mbind, alloc. destruct (avail s) as [|k] eqn:Ek; [lia|]. destruct (Z.eqb_spec (nexta s) 0); [lia|].
    eexists. split; [done|]. cbn. split_and!; done || lia. }
  assert (bcap b <= block_bytes m -> resize junk d (block_bytes m) = abytes a ++ junk_bytes len (block_bytes m - len)) as Er
    by (intros ?; apply resize_junk; unfold len in *; lia).
  unfold realloc, Malloc.DESC_SIZE. destruct d as [|x0 d0] eqn:Ed.
  - cbn [length] in El. rewrite (proj2 (Z.ltb_ge 0 (bcap b))) by lia. cbn [andb bcap]. rewrite <- Er by lia. apply Ha.
  - rewrite El. assert (0 < bcap b) as Hb by (cbn [length] in El; lia). rewrite (proj2 (Z.ltb_lt _ _) Hb). cbn [andb].
    destruct (Z.leb_spec m (bcap b + 12)); cbn [bcap]; [|rewrite <- Er by lia; apply Ha].
    exists s. rewrite <- Ed. split_and!; done || lia.
Qed.

Lemma file_write s p a b buf : file_rel s p a b -> (0 < avail s)%nat ->
  match afile_step (FWrite buf) a with
  | None => write junk p buf s = Fault
  | Some (_, a') =>
      if overruns (FWrite buf) a b then buf = [] \/ write junk p buf s = Fault else
      exists s', write junk p buf s = Ok (Z.of_nat (length buf), s') /\ file_rel s' p a' (block_step (FWrite buf) a b) /\
        (avail s <= S (avail s'))%nat
  end.
Proof.
  intros (Hp & Hx & Hpos & h & f & n & Hh & Hd & Hn & Hb & Hcap & Hmx) Hav. cbn [afile_step overruns block_step].
  set (pos := apos a) in *. set (stop := pos + Z.of_nat (length buf)) in *. set (len := Z.of_nat (length (abytes a))) in *.
  unfold write. destruct (Z.eqb_spec p 0); [done|]. sm. rewrite Hh. sm. rewrite Hd, Hn. sm. rewrite Hb. fold stop.
  destruct (Z.leb_spec 2147483648 stop) as [|Hstop]; [done|]. cbn [of_option]. sm.
  destruct (grow_realloc s a b stop Hcap ltac:(lia) Hstop Hx Hav) as (sa & E & Hxa & En & Eh & Ea).
  destruct (grow_spec b stop ltac:(lia) ltac:(lia) Hstop) as (Hg1 & Hg2 & Hg3).
  fold len in E. unfold mret, sm_mret in E. rewrite E. clear E. set (b' := grow b stop) in *.
  assert ((if bmax b <? stop then if stop <? s32 (bmax b * 2) then s32 (bmax b * 2) else stop else bmax b) = bmax b') as ->
    by (unfold b', grow; destruct (bmax b <? stop); [|done]; by destruct (_ && _)).
  rewrite length_app, length_junk by lia. replace (Z.of_nat (length (abytes a) + Z.to_nat (bcap b' - len))) with (bcap b') by lia.
  destruct (Z.ltb_spec (bcap b') stop) as [Hov|Hfit].
  { destruct buf; [by left|]. right. by rewrite andb_true_r. }
  rewrite andb_false_r.
  destruct (splice_junk (abytes a) pos buf (bcap b')) as [Es El]; [lia|unfold len in *; lia|unfold stop in *; lia|].
  fold len in Es, El. fold stop in Es, El. rewrite Es.
  set (c := take (Z.to_nat pos) (abytes a ++ junk_bytes len (pos - len)) ++ buf ++ drop (Z.to_nat stop) (abytes a)) in *.
  sm. eexists. split; [reflexivity|]. split; [|done].
  split; [done|]. cbn [nexta set_nodes set_handles apos abytes]. split; [lia|]. split; [lia|].
  eexists _, f, _. cbn [handles nodes set_handles set_nodes]. rewrite !lookup_insert_eq. split; [done|].
  split; [done|]. split; [done|]. cbn [nbody_of set_body]. rewrite El. split; [|lia].
  f_equal. zcases.
Qed.

Lemma file_step_ok o p s a b : file_rel s p a b -> (0 < avail s)%nat ->
  match afile_step o a with
  | None => file_step p o s = Fault
  | Some (x, a') =>
      if overruns o a b then writes_nothing o = true \/ file_step p o s = Fault else
      exists s', file_step p o s = Ok (x, s') /\ file_rel s' p a' (block_step o a b) /\ (avail s <= S (avail s'))%nat
  end.
Proof.
  intros Hr Hav. unfold file_step. destruct o as [sz|buf|offs whence| |].
  - cbn [afile_step overruns block_step]. destruct (Z.ltb_spec sz 0).
    + exists s. unfold read. destruct (Z.ltb_spec sz 0); [|lia]. rewrite orb_true_r. by split_and!; [| |lia].
    + destruct (Z.ltb_spec (Z.of_nat (length (abytes a))) (apos a)) as [Hlt|].
      * unfold mbind, sm_mbind. by rewrite (read_behind_end_fault s p a b sz Hr ltac:(lia) Hlt).
      * destruct (file_read s p a b sz Hr) as (s1 & E & H1 & Ha); [lia|lia|]. exists s1.
        rewrite (sm_bind_ok _ _ _ _ _ E). split; [done|]. split; [done|lia].
  - pose proof (file_write s p a b buf Hr Hav) as Hw. cbn [afile_step] in *.
    destruct (Z.leb_spec 2147483648 (apos a + Z.of_nat (length buf))); [unfold mbind, sm_mbind; by rewrite Hw|].
    destruct (overruns (FWrite buf) a b).
    + destruct Hw as [->|Hw]; [by left|]. right. unfold mbind, sm_mbind. by rewrite Hw.
    + destruct Hw as (s1 & E & H1 & Ha). exists s1. by rewrite (sm_bind_ok _ _ _ _ _ E).
  - pose proof (file_seek s p a b offs whence Hr) as Hs. destruct (afile_step (FSeek offs whence) a) as [[[|r] a1]|]; try done.
    destruct Hs as (s1 & E & H1 & Ha). exists s1. rewrite (sm_bind_ok _ _ _ _ _ E). split; [done|]. split; [done|lia].
  - exists s. split; [|split; [done|lia]]. destruct Hr as (Hp & _ & _ & h & f & n & Hh & Hd & _).
    unfold tell. destruct (Z.eqb_spec p 0); [done|]. sm. rewrite Hh. sm. by rewrite Hd.
  - exists s. split; [|split; [done|lia]]. destruct Hr as (Hp & _ & _ & h & f & n & Hh & Hd & Hn & Hb & _).
    unfold fsize. destruct (Z.eqb_spec p 0); [done|]. sm. rewrite Hh. sm. rewrite Hd, Hn. sm. unfold file_size. by rewrite Hb.
Qed.

Lemma file_run_ok ops p s a b : file_rel s p a b -> (length ops <= avail s)%nat ->
  match afile_run ops a b with
  | Done (outs, a', b') => exists s', file_run p ops s = Ok (outs, s') /\ file_rel s' p a' b'
  | Overrun => file_run p ops s = Fault
  | Oversized => True
  end.
Proof.
  revert s a b. induction ops as [|o ops IH]; intros s a b Hr Hav; cbn [afile_run file_run length] in *; [by exists s|].
  pose proof (file_step_ok o p s a b Hr ltac:(lia)) as Hs. destruct (afile_step o a) as [[x a1]|].
  - destruct (overruns o a b).
    + destruct (writes_nothing o); [done|]. destruct Hs as [?|Hs]; [done|]. unfold mbind, sm_mbind. by rewrite Hs.
    + destruct Hs as (s1 & E1 & H1 & Ha). rewrite (sm_bind_ok _ _ _ _ _ E1). specialize (IH s1 a1 _ H1 ltac:(lia)).
      destruct (afile_run ops a1 (block_step o a b)) as [[[outs a2] b2]| |]; [|unfold mbind, sm_mbind; by rewrite IH|done].
      destruct IH as (s2 & E2 & H2). exists s2. by rewrite (sm_bind_ok _ _ _ _ _ E2).
  - unfold mbind, sm_mbind. by rewrite Hs.
Qed.

(** A roomy block stays roomy, and no write below 1 GB is behind it. *)
Lemma roomy_grow b stop : roomy b -> 0 <= bmax b -> stop <= 1073741824 -> stop <= bcap (grow b stop) /\ roomy (grow b stop).
Proof.
  unfold roomy, grow. intros [H1 H2] Hb Hs. destruct (Z.ltb_spec (bmax b) stop) as [Hlt|]; [|cbn; lia].
  rewrite s32_small by lia. set (m := if stop <? bmax b * 2 then bmax b * 2 else stop).
  assert (2 * bmax b <= m /\ stop <= m < 2147483648) as [Hm1 Hm2] by (unfold m; zcases).
  pose proof (block_bytes_spec m ltac:(lia)). rewrite (proj2 (Z.leb_gt m (bcap b + 12))) by lia. rewrite andb_false_r. cbn [bcap bmax]. lia.
Qed.
(** So is that of a file whose first write has 16 bytes. *)
Lemma first_write_roomy stop : 16 <= stop < 2147483648 -> roomy (grow (mk_ablock 0 0) stop).
Proof.
  intros Hs. unfold roomy, grow. cbn [bmax bcap]. rewrite (proj2 (Z.ltb_lt 0 stop)) by lia. change (s32 (0 * 2)) with 0.
  rewrite (proj2 (Z.ltb_ge stop 0)) by lia. cbn. pose proof (block_bytes_spec stop ltac:(lia)). lia.
Qed.
(** Every write to a file with such a block fits. *)
Definition always_fits (b : ablock) : Prop := forall stop, stop < 2147483648 -> stop <= bcap (grow b stop).
Lemma roomy_fits b : roomy b -> 0 <= bmax b < 1073741824 -> always_fits b.
Proof.
  intros [H1 H2] Hb stop Hs. unfold grow. destruct (Z.ltb_spec (bmax b) stop) as [Hlt|]; [|lia].
  rewrite s32_small by lia. set (m := if stop <? bmax b * 2 then bmax b * 2 else stop).
  assert (2 * bmax b <= m /\ stop <= m < 2147483648) as [Hm1 Hm2] by (unfold m; zcases).
  pose proof (block_bytes_spec m ltac:(lia)). rewrite (proj2 (Z.leb_gt m (bcap b + 12))) by lia. rewrite andb_false_r. cbn [bcap]. lia.
Qed.
Lemma no_block_fits : always_fits (mk_ablock 0 0).
Proof.
  intros stop Hs. unfold grow. cbn [bmax bcap]. change (s32 (0 * 2)) with 0. destruct (Z.ltb_spec 0 stop); [|cbn; lia].
  rewrite (proj2 (Z.ltb_ge stop 0)) by lia. cbn. pose proof (block_bytes_spec stop ltac:(lia)). lia.
Qed.
Lemma roomy_run ops a b outs a' : roomy b -> 0 <= bmax b -> bytes_run ops a = Some (outs, a') ->
  exists b', afile_run ops a b = Done (outs, a', b') /\ roomy b'.
Proof.
  revert a b outs. induction ops as [|o ops IH]; intros a b outs Hb H0 E; cbn [afile_run bytes_run] in *.
  { injection E as <- <-. by exists b. }
  destruct (below_giga o a) eqn:Eg; [|done]. destruct (afile_step o a) as [[x a1]|]; [|done].
  destruct (bytes_run ops a1) as [[xs a2]|] eqn:Er; [|done]. injection E as <- <-.
  assert (overruns o a b = false /\ roomy (block_step o a b)) as [Ho Hb1].
  { destruct o as [|buf| | |]; try done. cbn [below_giga] in Eg. apply Z.leb_le in Eg. cbn [overruns block_step].
    destruct (roomy_grow b _ Hb H0 Eg). split; [|done]. apply Z.ltb_ge. lia. }
  rewrite Ho. destruct (IH a1 _ xs Hb1 ltac:(unfold roomy in Hb1; lia) Er) as (b' & E' & Hb'). exists b'. by rewrite E'.
Qed.

(** C8. Every sequence of operations on an open file gives the results, and
    leaves the contents, of the same operations on its list of bytes, up to the
    first that touches memory outside of the file's block, which faults: a read
    with the position behind the end, or a write that ends behind a block that
    [realloc] took for large enough (a write of no bytes there sets a wrong size;
    nothing is said of what follows). Memory has to last. Such writes do not
    occur below 1 GB once a file has more than 12 bytes and fills half of its
    block, as after a first write of 16 bytes ([first_write_roomy]). *)
Theorem file_refines ops p s a b :
  file_rel s p a b -> (length ops <= avail s)%nat ->
  match afile_run ops a b with
  | Done (outs, a', b') => exists s', file_run p ops s = Ok (outs, s') /\ file_rel s' p a' b'
  | Overrun => file_run p ops s = Fault
  | Oversized => True
  end /\
  (roomy b -> forall outs a', bytes_run ops a = Some (outs, a') ->
   exists s' b', file_run p ops s = Ok (outs, s') /\ file_rel s' p a' b' /\ roomy b').
Proof.
  intros Hr Hav. pose proof (file_run_ok ops p s a b Hr Hav) as H. split; [exact H|]. intros Hb outs a' E.
  assert (0 <= bmax b) by (destruct Hr as (_ & _ & _ & h & f & n & _ & _ & _ & _ & _ & ?); lia).
  destruct (roomy_run ops a b outs a' Hb) as (b' & E' & Hb'); [done|done|]. rewrite E' in H.
  destruct H as (s' & H1 & H2). by exists s', b'.
Qed.
End files.
Arguments Done {A}. Arguments Overrun {A}. Arguments Oversized {A}.

(** The handle 5 of [demo_file] is open on an empty file, which has no block. *)
Lemma demo_file_rel : file_rel no_junk demo_file 5 (mk_afile [] 0) (mk_ablock 0 0).
Proof.
  split; [done|]. split; [by vm_compute|]. split; [cbn; lia|].
  exists (mk_fsn 3 (OFile 4 0) 0), 4, (mk_node (NFile (Some []) 0 0) [97] 2 0 5). by split_and!.
Qed.

(** The same file with 16 bytes. *)
Definition demo_full : mfs := run_state (write no_junk 5 (replicate 16 7)) demo_file.
Lemma demo_full_rel : file_rel no_junk demo_full 5 (mk_afile (replicate 16 7) 16) (mk_ablock 16 16).
Proof.
  split; [done|]. split; [by vm_compute|]. split; [cbn; lia|].
  exists (mk_fsn 3 (OFile 4 16) 0), 4, (mk_node (NFile (Some (replicate 16 7)) 16 16) [97] 2 0 5).
  split_and!; try done; by vm_compute.
Qed.

Lemma file_refines_witness :
  (exists s', file_run no_junk 5 [FWrite [1; 2; 3]; FSeek 1 FSSEEK_SET; FRead 9; FSeek 4 FSSEEK_SET; FWrite []; FSize]
      demo_file = Ok ([OInt 3; OInt 0; OData 2 [2; 3]; OInt 0; OInt 0; OInt 4], s') /\
    file_rel no_junk s' 5 (mk_afile [1; 2; 3; 0] 4) (mk_ablock 4 6)) /\
  file_run no_junk 5 [FWrite [1; 2; 3]; FWrite [4; 5]] demo_file = Fault /\
  exists s' b', file_run no_junk 5 [FWrite [8]; FWrite [9]; FSeek 14 FSSEEK_SET; FRead 9] demo_full =
      Ok ([OInt 1; OInt 1; OInt 0; OData 4 [7; 7; 8; 9]], s') /\
    file_rel no_junk s' 5 (mk_afile (replicate 16 7 ++ [8; 9]) 18) b' /\ roomy b'.
Proof.
  split; [|split].
  - apply (file_refines no_junk [FWrite [1; 2; 3]; FSeek 1 FSSEEK_SET; FRead 9; FSeek 4 FSSEEK_SET; FWrite []; FSize]
      5 demo_file (mk_afile [] 0) (mk_ablock 0 0) demo_file_rel). by vm_compute; lia.
  - apply (file_refines no_junk [FWrite [1; 2; 3]; FWrite [4; 5]] 5 demo_file (mk_afile [] 0) (mk_ablock 0 0) demo_file_rel). vm_compute. lia.
  - apply (file_refines no_junk [FWrite [8]; FWrite [9]; FSeek 14 FSSEEK_SET; FRead 9] 5 demo_full (mk_afile (replicate 16 7) 16)
      (mk_ablock 16 16) demo_full_rel); [vm_compute; lia|unfold roomy; cbn; lia|by vm_compute].
Defined.

(** A file written one byte after the other overruns its block with the fifth. *)
Theorem small_writes_overrun : file_run no_junk 5 (replicate 4 (FWrite [7])) demo_file <> Fault /\
  file_run no_junk 5 (replicate 5 (FWrite [7])) demo_file = Fault.
Proof. by vm_compute. Qed.

Lemma read_behind_end_witness : read 5 1 (run_state (seek 5 9 FSSEEK_SET) demo_file) = Fault.
Proof.
  apply (read_behind_end no_junk _ 5 (mk_afile [] 9) (mk_ablock 0 0)); [|lia|done].
  split; [done|]. split; [by vm_compute|]. split; [cbn; lia|].
  exists (mk_fsn 3 (OFile 4 9) 0), 4, (mk_node (NFile (Some []) 0 0) [97] 2 0 5). by split_and!.
Defined.
