(* ===== verification/FsDir.v ===== *)
(** * Memory file system: paths and directories (src/fsmem.c)

    What [open] does on every path, as a function [walk] of the tree; creating,
    removing and listing entries. *)
From S2P Require Import Prelude Str FsPath FsMem FsTree.

Definition matches (s : mfs) (name : list Z) (p : Z) : bool :=
  match nodes s !! p with Some n => strcasecmp (nname n) name =? 0 | None => false end.

(** The entry [name] of directory [d], 0 if there is none. *)
Definition entry (s : mfs) (ch : gmap Z (list Z)) (d : Z) (n : mnode) (name : list Z) : Z :=
  if strcmp name [46] =? 0 then d
  else if strcmp name [46; 46] =? 0 then parent n
  else default 0 (List.find (matches s name) (children ch d)).

(** Names are cut to [MAX_NAME] characters. *)
Definition cut (c : list Z) : list Z := take (Z.to_nat MAX_NAME) c.

Inductive outcome :=
| Found (p : Z)
| Missing (d : Z) (name : list Z)
| NoEntry
| NotDir.

(** Where the components [l] lead from [node]: to a node, to a last component
    that directory [d] does not have, or nowhere. *)
Fixpoint walk (s : mfs) (ch : gmap Z (list Z)) (node : Z) (l : list (list Z)) : outcome :=
  match l with
  | [] => Found node
  | c :: l =>
      match nodes s !! node with
      | None => NoEntry
      | Some n =>
          if decide (ntype n = FSNODE_DIR) then
            let e := entry s ch node n (cut c) in
            if e =? 0 then match l with [] => Missing node (cut c) | _ => NoEntry end
            else walk s ch e l
          else NotDir
      end
  end.

(** No file system is mounted on a node, and every node's handle is open. *)
Definition unmounted (s : mfs) : Prop := forall p n, nodes s !! p = Some n ->
  nfsnode n = 0 \/ exists h, handles s !! nfsnode n = Some h /\ mnt h = 0.

(** No file system is mounted; the first handle of a node may be closed. *)
Definition no_mount (s : mfs) : Prop := forall p n h, nodes s !! p = Some n ->
  nfsnode n <> 0 -> handles s !! nfsnode n = Some h -> mnt h = 0.

(** The first handle of [p] was closed: the node keeps a pointer to it. *)
Definition stale (s : mfs) (n : mnode) : bool := negb (nfsnode n =? 0) && bool_decide (handles s !! nfsnode n = None).
(** [open] looks at such a node on the way: at a directory it goes through or at
    the end. *)
Fixpoint stale_on (s : mfs) (ch : gmap Z (list Z)) (node : Z) (l : list (list Z)) : bool :=
  match nodes s !! node with
  | None => false
  | Some n =>
      match l with
      | [] => stale s n
      | c :: l =>
          if decide (ntype n = FSNODE_DIR) then
            stale s n || (let e := entry s ch node n (cut c) in if e =? 0 then false else stale_on s ch e l)
          else false
      end
  end.

Lemma unmounted_no_mount s : unmounted s -> no_mount s.
Proof. intros Hu p n h Hn Hf Hh. destruct (Hu p n Hn) as [?|(h' & Hh' & Hm)]; [done|congruence]. Qed.
Lemma unmounted_not_stale s p n : unmounted s -> nodes s !! p = Some n -> stale s n = false.
Proof.
  intros Hu Hn. unfold stale. destruct (Hu p n Hn) as [->|(h & Hh & _)]; [done|]. rewrite Hh. apply andb_false_r.
Qed.
Lemma unmounted_stale_on s ch l node : unmounted s -> stale_on s ch node l = false.
Proof.
  intros Hu. revert node. induction l as [|c l IH]; intros node; cbn [stale_on]; destruct (nodes s !! node) as [n|] eqn:Hn; try done.
  - by eapply unmounted_not_stale.
  - rewrite (unmounted_not_stale s node n Hu Hn). destruct (decide _); [|done]. cbn [orb]. destruct (_ =? 0); [done|apply IH].
Qed.
Lemma node_mnt_stale s p n : no_mount s -> nodes s !! p = Some n ->
  node_mnt n s = if stale s n then Fault else Ok (0, s).
Proof.
  intros Hu Hn. unfold node_mnt, stale. destruct (Z.eqb_spec (nfsnode n) 0) as [|Hf]; [done|]. cbn [negb andb]. sm.
  destruct (handles s !! nfsnode n) as [h|] eqn:Hh; [|done]. sm. by rewrite (Hu p n h Hn Hf Hh).
Qed.

Lemma find_child_spec s l p name fuel :
  (forall x, x ∈ l -> x <> 0) -> seg (nodes s) p l 0 -> (length l < fuel)%nat ->
  find_child fuel name p s = Ok (default 0 (List.find (matches s name) l), s).
Proof.
  revert p fuel. induction l as [|x l IH]; intros p [|fuel] Hl Hs Hf; cbn [length seg] in *; try lia.
  - subst p. done.
  - destruct Hs as (-> & n & Hn & Hs). cbn [find_child List.find].
    destruct (Z.eqb_spec x 0) as [->|_]; [by destruct (Hl 0); [set_solver|]|].
    assert (matches s name x = (strcasecmp (nname n) name =? 0)) as -> by (unfold matches; by rewrite Hn).
    sm. rewrite Hn. sm. destruct (strcasecmp (nname n) name =? 0); [done|].
    apply IH; [set_solver|done|lia].
Qed.

Lemma find_entry_spec s ch d n name fuel :
  tree_ok s ch -> nodes s !! d = Some n -> ntype n = FSNODE_DIR -> (length (children ch d) < fuel)%nat ->
  find_entry fuel d name s = Ok (entry s ch d n name, s).
Proof.
  intros T Hd Hty Hf. unfold find_entry, entry. destruct (strcmp name [46] =? 0); [done|].
  sm. rewrite Hd. sm. destruct (strcmp name [46; 46] =? 0); [done|].
  destruct (dir_links s ch d n T Hd Hty) as (c & t & Eb & Hs & _). unfold clist_of. rewrite Eb.
  apply find_child_spec; [|done|done]. intros x Hx. pose proof (child_bound _ _ _ _ T Hx). lia.
Qed.

Lemma node_mnt_unmounted s p n : unmounted s -> nodes s !! p = Some n -> node_mnt n s = Ok (0, s).
Proof.
  intros Hu Hn. unfold node_mnt. destruct (Z.eqb_spec (nfsnode n) 0); [done|].
  destruct (Hu p n Hn) as [?|(h & Hh & Hm)]; [done|]. sm. rewrite Hh. sm. by rewrite Hm.
Qed.

(** An entry that was found is a node. *)
Lemma entry_node s ch d n name :
  tree_ok s ch -> nodes s !! d = Some n -> entry s ch d n name <> 0 -> is_Some (nodes s !! entry s ch d n name).
Proof.
  intros T Hd. unfold entry. destruct (strcmp name [46] =? 0); [by eexists|].
  destruct (strcmp name [46; 46] =? 0).
  - intros Hp. destruct (t_parent _ _ T d n Hd) as [?|(q & Hq & _)]; [done|by exists q].
  - destruct (List.find (matches s name) (children ch d)) as [x|] eqn:Ef; [|done]. intros _. cbn.
    apply find_Some_elem in Ef as [Hx _]. apply (t_child _ _ T) in Hx as (_ & m & Hm & _). by exists m.
Qed.

(** Creating [name] in directory [d]: the steps of [open]. *)
Definition create_in (fs d : Z) (name : list Z) (flags : Z) : SM mfs Z :=
  p ← alloc_node (if has_flag flags FSO_DIR then FSNODE_DIR else FSNODE_FILE);
  if p =? 0 then fail ENOMEM 0 else
  n ← get_node p; put_node p (set_name name n);; add_child d p;; create_fsnode fs p.

Section open.
Variable fsop_open : Z -> list Z -> Z -> SM mfs Z.

(** One step of the walk, from a directory nothing is mounted on. *)
Lemma open_walk_step s ch fs flags c l node n fuel :
  tree_ok s ch -> Forall component (c :: l) -> nodes s !! node = Some n -> ntype n = FSNODE_DIR ->
  node_mnt n s = Ok (0, s) -> (length (children ch node) < S fuel)%nat ->
  open_walk fsop_open (S fuel) fs node (join_path (c :: l)) flags s =
  if entry s ch node n (cut c) =? 0
  then match l with
       | [] => if has_flag flags FSO_CREATE then create_in fs node (cut c) flags s else fail ENOENT 0 s
       | _ => fail ENOENT 0 s
       end
  else open_walk fsop_open fuel fs (entry s ch node n (cut c)) (join_path l) flags s.
Proof.
  intros T Hl Hn Hty Hm Hf. pose proof Hl as [Hc Hl']%Forall_cons. cbn [open_walk].
  rewrite (sm_bind_ok _ _ _ _ _ (get_node_ok _ _ _ Hn)).
  destruct (join_path (c :: l)) as [|x0 rest] eqn:Ej.
  { destruct Hc as [Hc _]. destruct l; [done|]. rewrite join_path_cons in Ej by done. by destruct c. }
  rewrite <- Ej. clear x0 rest Ej. rewrite decide_True by done.
  rewrite (sm_bind_ok _ _ _ _ _ Hm). cbn [Z.eqb negb].
  rewrite path_next_join by done. change (Z.to_nat (MAX_NAME + 1 - 1)) with (Z.to_nat MAX_NAME). fold (cut c).
  cbv beta iota. rewrite (sm_bind_ok _ _ _ _ _ (find_entry_spec s ch node n (cut c) (S fuel) T Hn Hty Hf)).
  destruct (Z.eqb_spec (entry s ch node n (cut c)) 0) as [E|E]; [|done].
  assert ((strlen (join_path l) =? 0) = match l with [] => true | _ => false end) as ->.
  { destruct l as [|c' l]; [done|]. apply Forall_cons in Hl' as [[Hc' _] _]. unfold strlen. apply Z.eqb_neq.
    destruct l; cbn [join_path]; rewrite ?length_app; destruct c'; try done; cbn [length]; lia. }
  destruct l as [|c' l]; cbn [negb orb]; [|done]. by destruct (has_flag flags FSO_CREATE).
Qed.

Lemma open_walk_file s fs flags c l node n fuel :
  Forall component (c :: l) -> nodes s !! node = Some n -> ntype n <> FSNODE_DIR ->
  open_walk fsop_open (S fuel) fs node (join_path (c :: l)) flags s = fail ENOTDIR 0 s.
Proof.
  intros [[Hc _] _]%Forall_cons Hn Hty. cbn [open_walk]. rewrite (sm_bind_ok _ _ _ _ _ (get_node_ok _ _ _ Hn)).
  destruct (join_path (c :: l)) as [|x0 rest] eqn:Ej.
  { destruct l; [done|]. rewrite join_path_cons in Ej by done. by destruct c. }
  by rewrite decide_False by done.
Qed.

(** What [open] does where the walk ends. *)
Definition open_outcome (fs flags : Z) (o : outcome) : SM mfs Z :=
  match o with
  | Found p => if has_flag flags FSO_EXCL then fail EEXIST 0 else create_fsnode fs p
  | Missing d name => if has_flag flags FSO_CREATE then create_in fs d name flags else fail ENOENT 0
  | NoEntry => fail ENOENT 0
  | NotDir => fail ENOTDIR 0
  end.

(** A stale node is found out before anything else happens at it. *)
Lemma open_walk_stale_dir s fs flags c l node n fuel :
  Forall component (c :: l) -> nodes s !! node = Some n -> ntype n = FSNODE_DIR -> node_mnt n s = Fault ->
  open_walk fsop_open (S fuel) fs node (join_path (c :: l)) flags s = Fault.
Proof.
  intros [[Hc _] _]%Forall_cons Hn Hty Hm. cbn [open_walk]. rewrite (sm_bind_ok _ _ _ _ _ (get_node_ok _ _ _ Hn)).
  destruct (join_path (c :: l)) as [|x0 rest] eqn:Ej.
  { destruct l; [done|]. rewrite join_path_cons in Ej by done. by destruct c. }
  rewrite decide_True by done. unfold mbind, sm_mbind. by rewrite Hm.
Qed.

Lemma open_walk_any s ch fs flags l node fuel :
  tree_ok s ch -> no_mount s -> Forall component l -> is_Some (nodes s !! node) ->
  (forall d, (length (children ch d) + length l < fuel)%nat) ->
  open_walk fsop_open fuel fs node (join_path l) flags s =
  if stale_on s ch node l then Fault else open_outcome fs flags (walk s ch node l) s.
Proof.
  intros T Hu. revert node fuel. induction l as [|c l IH]; intros node [|fuel] Hl [n Hn] Hf;
    try (specialize (Hf 0); lia).
  - cbn [open_walk join_path walk stale_on open_outcome]. rewrite Hn.
    rewrite (sm_bind_ok _ _ _ _ _ (get_node_ok _ _ _ Hn)). pose proof (node_mnt_stale s node n Hu Hn) as Hm.
    destruct (stale s n); [unfold mbind, sm_mbind; by rewrite Hm|].
    rewrite (sm_bind_ok _ _ _ _ _ Hm). cbn [Z.eqb negb]. by destruct (has_flag flags FSO_EXCL).
  - cbn [walk stale_on]. rewrite Hn. destruct (decide (ntype n = FSNODE_DIR)) as [Hty|Hty]; [|by eapply open_walk_file].
    pose proof (Hf node) as Hfn. cbn [length] in Hfn. pose proof (node_mnt_stale s node n Hu Hn) as Hm.
    destruct (stale s n); [by eapply open_walk_stale_dir|]. cbn [orb].
    rewrite (open_walk_step s ch fs flags c l node n fuel) by (done || lia).
    cbv zeta. destruct (Z.eqb_spec (entry s ch node n (cut c)) 0) as [E|E].
    + destruct l; cbn [open_outcome]; [by destruct (has_flag flags FSO_CREATE)|done].
    + apply Forall_cons in Hl as [_ Hl]. apply IH; [done|by eapply entry_node|].
      intros d. specialize (Hf d). cbn [length] in Hf. lia.
Qed.

(** A walk that leads to [p], where only [p] may be a mount point, takes [open]
    to [p]. *)
Lemma open_walk_reach s ch fs flags l l2 node fuel p :
  tree_ok s ch -> (forall x n, x <> p -> nodes s !! x = Some n -> node_mnt n s = Ok (0, s)) ->
  Forall component (l ++ l2) -> is_Some (nodes s !! node) ->
  (forall d, (length (children ch d) + length l < fuel)%nat) -> walk s ch node l = Found p ->
  exists la lb fuel', l = la ++ lb /\ (0 < fuel')%nat /\ walk s ch node la = Found p /\ walk s ch p lb = Found p /\
    open_walk fsop_open fuel fs node (join_path (l ++ l2)) flags s =
    open_walk fsop_open fuel' fs p (join_path (lb ++ l2)) flags s.
Proof.
  intros T Hu. revert node fuel. induction l as [|c l IH]; intros node fuel Hl [n Hn] Hf Hw.
  - injection Hw as ->. exists [], [], fuel. specialize (Hf 0). by split_and!; [|lia| | |].
  - destruct (decide (node = p)) as [->|Hne].
    { exists [], (c :: l), fuel. specialize (Hf 0). cbn [length] in Hf. by split_and!; [|lia| | |]. }
    pose proof Hw as Hw'. cbn [walk] in Hw'. rewrite Hn in Hw'. destruct (decide (ntype n = FSNODE_DIR)) as [Hty|]; [|done].
    destruct (Z.eqb_spec (entry s ch node n (cut c)) 0) as [E|E]; [by destruct l|].
    destruct fuel as [|fuel]; [specialize (Hf 0); lia|]. pose proof (Hf node) as Hfn. cbn [length] in Hfn.
    destruct (IH (entry s ch node n (cut c)) fuel) as (la & lb & fuel' & -> & Hf' & Ha & Hb & Eo).
    + by apply Forall_cons in Hl as [_ Hl].
    + by eapply entry_node.
    + intros d. specialize (Hf d). cbn [length] in Hf. lia.
    + done.
    + exists (c :: la), lb, fuel'. split; [done|]. split; [done|]. split.
      { cbn [walk]. rewrite Hn, decide_True by done. by apply Z.eqb_neq in E as ->. }
      split; [done|]. rewrite <- Eo. cbn [app].
      rewrite (open_walk_step s ch fs flags c _ node n fuel) by (done || lia || by eapply Hu).
      by apply Z.eqb_neq in E as ->.
Qed.

Lemma open_any s ch fs root flags l fuel :
  tree_ok s ch -> no_mount s -> rootdirs s !! fs = Some root -> Forall component l ->
  (forall d, (length (children ch d) + length l < fuel)%nat) ->
  open fsop_open fuel fs (SEP :: join_path l) flags s =
  if stale_on s ch root l then Fault else open_outcome fs flags (walk s ch root l) s.
Proof.
  intros T Hu Hroot Hl Hf. destruct (t_root _ _ T fs root Hroot) as (n & Hn & Hty & _).
  unfold open, open_from. change (chr (SEP :: join_path l) =? SEP) with true. cbv iota.
  change (fs_path_skipsep (SEP :: join_path l)) with (fs_path_skipsep (join_path l)).
  rewrite join_path_skipsep by done. rewrite <- (open_walk_any s ch fs flags l root fuel) by (done || by exists n).
  rewrite (sm_bind_ok _ _ s s s eq_refl). rewrite (sm_bind_ok _ _ s root s) by (by rewrite Hroot).
  rewrite (sm_bind_ok _ _ _ _ _ (get_node_ok _ _ _ Hn)). by rewrite decide_True.
Qed.
(** With the first handles open. *)
Lemma open_unmounted s ch fs root flags l fuel :
  tree_ok s ch -> unmounted s -> rootdirs s !! fs = Some root -> Forall component l ->
  (forall d, (length (children ch d) + length l < fuel)%nat) ->
  open fsop_open fuel fs (SEP :: join_path l) flags s = open_outcome fs flags (walk s ch root l) s.
Proof.
  intros T Hu Hroot Hl Hf. rewrite (open_any s ch fs root) by (done || by apply unmounted_no_mount).
  by rewrite unmounted_stale_on.
Qed.

(** C11. [open] on an absolute path of a tree in which nothing is mounted, on
    every branch: it finds the node, creates the last component if that is all
    that is missing and asked for, or fails with the error that tells why. But
    the first handle that was opened on a node is remembered in it also after it
    is closed: a path through or to such a node reads freed memory. *)
Theorem open_spec s ch fs root flags l fuel :
  tree_ok s ch -> no_mount s -> rootdirs s !! fs = Some root -> Forall component l ->
  (forall d, (length (children ch d) + length l < fuel)%nat) ->
  open fsop_open fuel fs (SEP :: join_path l) flags s =
  if stale_on s ch root l then Fault else
  match walk s ch root l with
  | Found p => if has_flag flags FSO_EXCL then fail EEXIST 0 s else create_fsnode fs p s
  | Missing d name => if has_flag flags FSO_CREATE then create_in fs d name flags s else fail ENOENT 0 s
  | NoEntry => fail ENOENT 0 s
  | NotDir => fail ENOTDIR 0 s
  end.
Proof.
  intros T Hu Hroot Hl Hf. rewrite (open_any s ch fs root) by done. destruct (stale_on _ _ _ _); [done|].
  unfold open_outcome. destruct (walk s ch root l); try done; [by destruct (has_flag flags FSO_EXCL)|by destruct (has_flag flags FSO_CREATE)].
Qed.
End open.

Lemma strcasecmp_refl c : strcasecmp c c = 0.
Proof.
  unfold strcasecmp. assert (skip_common Ctype.tolower c c = ([], [])) as ->; [|done].
  induction c as [|x c IH]; [done|]. cbn [skip_common chr tail]. by rewrite Z.eqb_refl.
Qed.

(** [s'] has the nodes of [s], as far as paths go. *)
Definition keeps (s s' : mfs) : Prop := forall x m, nodes s !! x = Some m ->
  exists m', nodes s' !! x = Some m' /\ nname m' = nname m /\ parent m' = parent m /\ ntype m' = ntype m.

Lemma matches_keeps s s' ch d name x : tree_ok s ch -> keeps s s' -> x ∈ children ch d -> matches s' name x = matches s name x.
Proof.
  intros T Hk Hx. apply (t_child _ _ T) in Hx as (_ & m & Hm & _). destruct (Hk x m Hm) as (m' & Hm' & En & _).
  unfold matches. by rewrite Hm, Hm', En.
Qed.

Lemma entry_keeps s s' ch d n n' name :
  tree_ok s ch -> keeps s s' -> parent n' = parent n -> entry s' ch d n' name = entry s ch d n name.
Proof.
  intros T Hk Ep. unfold entry. repeat case_match; try done. f_equal. apply find_ext. intros x Hx. by eapply matches_keeps.
Qed.

Lemma walk_keeps s s' ch l node :
  tree_ok s ch -> keeps s s' -> is_Some (nodes s !! node) -> walk s' ch node l = walk s ch node l.
Proof.
  intros T Hk. revert node. induction l as [|c l IH]; intros node [n Hn]; cbn [walk]; [done|].
  destruct (Hk node n Hn) as (n' & -> & _ & Ep & Et). rewrite Hn, Et. destruct (decide _); [|done].
  rewrite (entry_keeps s s' ch node n n') by done.
  destruct (Z.eqb_spec (entry s ch node n (cut c)) 0); [done|]. apply IH. by eapply entry_node.
Qed.

(** After the missing last component was added, the path leads to it. *)
Lemma walk_created s s' ch d p np name l node :
  tree_ok s ch -> keeps s s' -> nodes s' !! p = Some np -> nname np = name -> p <> 0 ->
  strcmp name [46; 46] <> 0 -> 0 < node ->
  walk s ch node l = Missing d name -> walk s' (<[d := children ch d ++ [p]]> ch) node l = Found p.
Proof.
  intros T Hk Hp Hname Hp0 Hdd. set (ch' := <[d := children ch d ++ [p]]> ch).
  assert (forall x, children ch' x = children ch x ++ if decide (x = d) then [p] else []) as Hc.
  { intros x. unfold ch', children. rewrite lookup_insert. repeat case_decide; subst; try done; rewrite ?app_nil_r; congruence. }
  revert node. induction l as [|c l IH]; intros node Hnode; cbn [walk]; [done|].
  destruct (nodes s !! node) as [n|] eqn:Hn; [|done]. destruct (Hk node n Hn) as (n' & -> & En & Epar & Ety).
  rewrite Ety. destruct (decide (ntype n = FSNODE_DIR)) as [Hty|]; [|done].
  destruct (Z.eqb_spec (entry s ch node n (cut c)) 0) as [E|E].
  - destruct l; [|done]. intros [= -> <-]. unfold entry in *.
    destruct (strcmp (cut c) [46] =? 0); [lia|]. destruct (Z.eqb_spec (strcmp (cut c) [46; 46]) 0); [done|].
    rewrite Hc, decide_True, find_app by done.
    assert (List.find (matches s' (cut c)) (children ch d) = None) as ->.
    { rewrite (find_ext _ (matches s (cut c))) by (intros x Hx; by eapply matches_keeps).
      destruct (List.find _ _) as [x|] eqn:Ef; [|done]. cbn in E. subst x.
      apply find_Some_elem in Ef as [Hx _]. pose proof (child_bound _ _ _ _ T Hx). lia. }
    assert (matches s' (cut c) p = true) as Em by (unfold matches; by rewrite Hp, Hname, strcasecmp_refl).
    cbn [List.find]. rewrite Em. cbn. by apply Z.eqb_neq in Hp0 as ->.
  - intros Hw.
    assert (entry s' ch' node n' (cut c) = entry s ch node n (cut c)) as ->.
    { unfold entry in *. destruct (strcmp (cut c) [46] =? 0); [done|].
      destruct (strcmp (cut c) [46; 46] =? 0); [done|]. rewrite Hc, find_app.
      rewrite (find_ext _ (matches s (cut c))) by (intros x Hx; by eapply matches_keeps).
      by destruct (List.find _ _). }
    destruct (Z.eqb_spec (entry s ch node n (cut c)) 0); [done|]. apply IH; [|done].
    destruct (entry_node s ch node n (cut c) T Hn E) as [m Hm]. apply (t_node _ _ T) in Hm as [? _]. lia.
Qed.

Lemma create_fsnode_spec fs p n s ch :
  tree_ok s ch -> nodes s !! p = Some n -> (2 <= avail s)%nat ->
  exists s', create_fsnode fs p s = Ok (nexta s, s') /\ tree_ok s' ch /\
    handles s' = <[nexta s := mk_fsn fs (match ntype n with
                                         | FSNODE_FILE => OFile p 0
                                         | FSNODE_DIR => ODir p (clist_of n)
                                         end) 0]> (handles s) /\
    nodes s' = (if nfsnode n =? 0 then <[p := set_fsnode (nexta s) n]> (nodes s) else nodes s) /\
    rootdirs s' = rootdirs s /\ (avail s = S (S (avail s')))%nat /\ nexta s' = nexta s + 2.
Proof.
  intros T Hp Hav. pose proof (t_fresh _ _ T) as Hf.
  set (hd := mk_fsn fs (match ntype n with FSNODE_FILE => OFile p 0 | FSNODE_DIR => ODir p (clist_of n) end) 0).
  destruct (avail s) as [|[|k]] eqn:Ea; [lia|lia|].
  set (s1 := set_handles (<[nexta s := hd]> (handles s)) (bump (bump s (S k)) k)).
  set (s2 := if nfsnode n =? 0 then set_nodes (<[p := set_fsnode (nexta s) n]> (nodes s)) s1 else s1).
  assert (create_fsnode fs p s = Ok (nexta s, s2)) as E.
  { unfold create_fsnode. rewrite (sm_bind_ok _ _ s (nexta s) (bump s (S k))) by (unfold alloc; by rewrite Ea).
    assert (nexta s =? 0 = false) as -> by lia.
    rewrite (sm_bind_ok _ _ _ _ _ (get_node_ok p (bump s (S k)) n Hp)).
    rewrite (sm_bind_ok _ _ (bump s (S k)) (nexta s + 1) (bump (bump s (S k)) k)) by done.
    assert (nexta s + 1 =? 0 = false) as -> by lia. sm. unfold s2, s1. by destruct (nfsnode n =? 0). }
  exists s2. split; [done|]. split; [by eapply create_fsnode_ok|].
  unfold s2, s1. destruct (nfsnode n =? 0); cbn; split_and!; done || lia.
Qed.

(** A new handle leaves the tree unmounted. *)
Lemma unmounted_open s s' ch h hd p n nd' :
  tree_ok s ch -> unmounted s -> nodes s !! p = Some n -> mnt hd = 0 -> nexta s <= h ->
  handles s' = <[h := hd]> (handles s) -> nfsnode nd' = h ->
  nodes s' = (if nfsnode n =? 0 then <[p := nd']> (nodes s) else nodes s) -> unmounted s'.
Proof.
  intros T Hu Hp Hm Hh Eh Ef En x m Hx.
  assert (forall f hf, handles s !! f = Some hf -> handles s' !! f = Some hf) as Hl.
  { intros f hf Hf. rewrite Eh, lookup_insert_ne; [done|]. destruct (t_handle _ _ T f hf Hf) as [? _]. lia. }
  assert (nodes s !! x = Some m \/ m = nd') as [Hx'| ->].
  { rewrite En in Hx. destruct (nfsnode n =? 0); [|by left]. rewrite lookup_insert in Hx.
    case_decide; [right; congruence|by left]. }
  - destruct (Hu x m Hx') as [?|(hf & Hf & Hm')]; [by left|right]. exists hf. auto.
  - right. exists hd. split; [|done]. by rewrite Eh, Ef, lookup_insert_eq.
Qed.

(** A path that is missing ends in a directory. *)
Lemma walk_missing_dir s ch node l d name : walk s ch node l = Missing d name ->
  exists nd, nodes s !! d = Some nd /\ ntype nd = FSNODE_DIR.
Proof.
  revert node. induction l as [|c l IH]; intros node; cbn [walk]; [done|].
  destruct (nodes s !! node) as [n|] eqn:Hn; [|done]. destruct (decide (ntype n = FSNODE_DIR)) as [Hty|]; [|done].
  destruct (entry s ch node n (cut c) =? 0); [|apply IH]. destruct l; [|done]. intros [= <- <-]. by exists n.
Qed.

(** What creating an entry [p] of type [ty] in directory [d] leads to. *)
Record created (s s1 : mfs) (ch : gmap Z (list Z)) (fs d p h : Z) (name : list Z) (ty : fsnode_type) (r : SM mfs Z) : Prop := {
  cr_new : nodes s !! p = None;
  cr_run : r s = Ok (h, s1);
  cr_tree : tree_ok s1 (<[d := children ch d ++ [p]]> ch);
  cr_unm : unmounted s1;
  cr_keeps : keeps s s1;
  cr_null : p <> 0;
  cr_node : nodes s1 !! p = Some (mk_node (nbody_of (empty_node ty)) name d 0 h);
  cr_handle : exists hd, handles s1 !! h = Some hd /\ target hd = p;
  cr_roots : rootdirs s1 = rootdirs s;
  cr_avail : (avail s <= avail s1 + 3)%nat;
  cr_next : h < nexta s1 }.
Arguments cr_new {s s1 ch fs d p h name ty r}.
Arguments cr_tree {s s1 ch fs d p h name ty r}.
Arguments cr_unm {s s1 ch fs d p h name ty r}.
Arguments cr_keeps {s s1 ch fs d p h name ty r}.
Arguments cr_null {s s1 ch fs d p h name ty r}.
Arguments cr_node {s s1 ch fs d p h name ty r}.
Arguments cr_handle {s s1 ch fs d p h name ty r}.
Arguments cr_roots {s s1 ch fs d p h name ty r}.
Arguments cr_avail {s s1 ch fs d p h name ty r}.
Arguments cr_next {s s1 ch fs d p h name ty r}.

Lemma create_in_spec s ch fs d nd name flags :
  tree_ok s ch -> unmounted s -> nodes s !! d = Some nd -> ntype nd = FSNODE_DIR -> (3 <= avail s)%nat ->
  exists p h s1, created s s1 ch fs d p h name (if has_flag flags FSO_DIR then FSNODE_DIR else FSNODE_FILE) (create_in fs d name flags).
Proof.
  intros T Hu Hd Hty Hav. unfold create_in. set (ty := if has_flag flags FSO_DIR then FSNODE_DIR else FSNODE_FILE).
  destruct (avail s) as [|k] eqn:Ek; [lia|].
  destruct (create_child s ch d nd name ty k (nexta s) T Hd Hty Ek eq_refl)
    as (sa & nd' & Ea & Hp0 & Er & T1 & Hsame & Hback & Hnp & _).
  set (p := nexta s) in *. set (sb := set_nodes nd' (bump s k)) in *. set (ch' := <[d := children ch d ++ [p]]> ch) in *.
  assert (nodes s !! p = None) as Hnone.
  { destruct (nodes s !! p) eqn:E; [|done]. apply (t_node _ _ T) in E as [? _]. unfold p in *. lia. }
  assert (nodes sb !! p = Some (mk_node (nbody_of (empty_node ty)) name d 0 0)) as Hpb by exact Hnp.
  destruct (create_fsnode_spec fs p _ sb ch' T1 Hpb ltac:(cbn; lia)) as (s1 & E1 & T2 & Eh1 & En1 & Er1 & Ea1 & Ex1).
  assert (unmounted sb) as Hub.
  { intros x m Hx. destruct (decide (x = p)) as [->|]; [rewrite Hpb in Hx; simplify_eq; by left|].
    destruct (nodes s !! x) as [m0|] eqn:Hm0; [|cbn in Hx; by rewrite Hback in Hx].
    destruct (Hsame x m0 Hm0) as (m' & Hm' & (_ & _ & Ef & _)). assert (m' = m) as -> by (cbn in Hx; congruence).
    rewrite Ef. exact (Hu x m0 Hm0). }
  assert (unmounted s1) as Hu1.
  { eapply (unmounted_open sb s1 ch' (nexta sb) _ p _ _ T1 Hub Hpb); [| |exact Eh1| |exact En1]; done || lia. }
  cbn [nfsnode Z.eqb] in En1. cbv iota in En1. assert (nexta s1 = nexta sb + 2) as Ex by exact Ex1.
  exists p, (nexta sb), s1. split; [done| |done|done| |done|by rewrite En1, lookup_insert_eq| |exact Er1|cbn in Ea1; lia|lia].
  - rewrite (sm_bind_ok _ _ _ _ _ Ea). destruct (Z.eqb_spec p 0); [done|].
    apply sm_bind_inv in Er as (n1 & q1 & Eq1 & Er). rewrite (sm_bind_ok _ _ _ _ _ Eq1).
    apply sm_bind_inv in Er as (u & q2 & Eq2 & Er). rewrite (sm_bind_ok _ _ _ _ _ Eq2).
    by rewrite (sm_bind_ok _ _ _ _ _ Er).
  - intros x m Hx. assert (x <> p) by congruence. destruct (Hsame x m Hx) as (m' & Hm' & (E & E2 & _ & E3 & _)). exists m'.
    split; [|done]. rewrite En1, lookup_insert_ne by done. exact Hm'.
  - eexists. rewrite Eh1, lookup_insert_eq. split; [done|]. unfold target. cbn. by destruct ty.
Qed.

Section create.
Variable fsop_open : Z -> list Z -> Z -> SM mfs Z.

(** C19. Creating what is missing makes one new, empty file or directory, last in
    its directory; the same path then opens it. *)
Theorem create_then_open s ch fs root flags flags2 l fuel d name :
  tree_ok s ch -> unmounted s -> rootdirs s !! fs = Some root -> Forall component l ->
  (forall d, (length (children ch d) + length l + 1 < fuel)%nat) -> (5 <= avail s)%nat ->
  walk s ch root l = Missing d name -> strcmp name [46; 46] <> 0 ->
  has_flag flags FSO_CREATE = true -> has_flag flags2 FSO_EXCL = false ->
  exists p h s1 h2 s2, nodes s !! p = None /\
    open fsop_open fuel fs (SEP :: join_path l) flags s = Ok (h, s1) /\
    tree_ok s1 (<[d := children ch d ++ [p]]> ch) /\
    (exists n, nodes s1 !! p = Some n /\ nname n = name /\ parent n = d /\
       nbody_of n = nbody_of (empty_node (if has_flag flags FSO_DIR then FSNODE_DIR else FSNODE_FILE))) /\
    open fsop_open fuel fs (SEP :: join_path l) flags2 s1 = Ok (h2, s2) /\ h <> h2 /\
    (exists a b, handles s2 !! h = Some a /\ handles s2 !! h2 = Some b /\ target a = p /\ target b = p).
Proof.
  intros T Hu Hroot Hl Hf Hav Hw Hdd Hcr Hex. rewrite (open_unmounted _ s ch fs root) by (done || (intros x; specialize (Hf x); lia)). unfold open_outcome at 1.
  rewrite Hw, Hcr. set (ty := if has_flag flags FSO_DIR then FSNODE_DIR else FSNODE_FILE).
  destruct (walk_missing_dir s ch root l d name Hw) as (nd & Hd & Hty).
  destruct (create_in_spec s ch fs d nd name flags T Hu Hd Hty ltac:(lia)) as (p & h & s1 & C). fold ty in C.
  pose proof (t_root _ _ T fs root Hroot) as (nr & Hnr & _). apply (t_node _ _ T) in Hnr as [Hr0 _].
  pose proof (walk_created s s1 ch d p _ name l root T (cr_keeps C) (cr_node C) eq_refl (cr_null C) Hdd ltac:(lia) Hw) as Hw1.
  destruct (create_fsnode_spec fs p _ s1 _ (cr_tree C) (cr_node C) ltac:(pose proof (cr_avail C); lia)) as (s2 & E2 & _ & Eh2 & _).
  exists p, h, s1, (nexta s1), s2. split; [apply C|]. pose proof (cr_next C) as Hh.
  split; [apply C|split; [apply C|split; [|split; [|split; [lia|]]]]].
  - eexists. split; [apply C|]. done.
  - assert (forall x, (length (children (<[d := children ch d ++ [p]]> ch) x) + length l < fuel)%nat) as Hf'.
    { intros x. specialize (Hf x). unfold children in *. rewrite lookup_insert.
      case_decide; [subst; cbn; rewrite length_app; cbn; lia|lia]. }
    rewrite (open_unmounted _ s1 _ fs root) by first [done | apply C | by rewrite (cr_roots C)]. unfold open_outcome.
    by rewrite Hw1, Hex.
  - destruct (cr_handle C) as (hd & Ehd & Et). rewrite Eh2. eexists _, _. rewrite lookup_insert_eq, lookup_insert_ne by lia.
    split; [exact Ehd|]. split; [done|]. split; [done|]. unfold target. cbn. by destruct ty.
Qed.
End create.

(** ** Handles, removal, listing *)

Section stale.
Variable fsop_open : Z -> list Z -> Z -> SM mfs Z.

(** A path through a node whose handle was freed reads the freed memory. *)
Lemma open_walk_stale s ch fs flags l node fuel p np :
  tree_ok s ch -> (forall x n, x <> p -> nodes s !! x = Some n -> node_mnt n s = Ok (0, s)) ->
  nodes s !! p = Some np -> nfsnode np <> 0 -> handles s !! nfsnode np = None ->
  Forall component l -> is_Some (nodes s !! node) ->
  (forall d, (length (children ch d) + length l < fuel)%nat) ->
  walk s ch node l = Found p -> open_walk fsop_open fuel fs node (join_path l) flags s = Fault.
Proof.
  intros T Hu Hp Hnf Hgone Hl Hn Hf Hw.
  destruct (open_walk_reach fsop_open s ch fs flags l [] node fuel p) as (la & lb & f & -> & Hf' & _ & Hb & E);
    [done|done|by rewrite app_nil_r|done|done|done|].
  rewrite !app_nil_r in E. rewrite E. destruct f as [|f]; [lia|].
  assert (forall B (f : Z -> SM mfs B), (m ← node_mnt np; f m) s = Fault) as Hst.
  { intros B g. unfold node_mnt. destruct (Z.eqb_spec (nfsnode np) 0); [done|]. sm. by rewrite Hgone. }
  cbn [open_walk]. rewrite (sm_bind_ok _ _ _ _ _ (get_node_ok _ _ _ Hp)).
  destruct lb as [|c lb]; [apply Hst|]. cbn [walk] in Hb. rewrite Hp in Hb.
  destruct (join_path (c :: lb)); [apply Hst|]. destruct (decide _); [apply Hst|done].
Qed.

(** The first handle of a node is remembered in it and not forgotten when it
    is closed: opening the path a second time reads freed memory. *)
Theorem reopen_after_close s ch fs root l fuel p n :
  tree_ok s ch -> unmounted s -> rootdirs s !! fs = Some root -> Forall component l ->
  (forall d, (length (children ch d) + length l < fuel)%nat) -> (2 <= avail s)%nat ->
  walk s ch root l = Found p -> nodes s !! p = Some n -> nfsnode n = 0 ->
  exists h s1 s2, open fsop_open fuel fs (SEP :: join_path l) 0 s = Ok (h, s1) /\
    close h s1 = Ok (tt, s2) /\ open fsop_open fuel fs (SEP :: join_path l) 0 s2 = Fault.
Proof.
  intros T Hu Hroot Hl Hf Hav Hw Hp Hnf. rewrite (open_unmounted _ s ch fs root) by done. rewrite Hw. unfold open_outcome.
  change (has_flag 0 FSO_EXCL) with false. cbv iota.
  destruct (create_fsnode_spec fs p n s ch T Hp Hav) as (s1 & E1 & T1 & Eh & En & Er & _).
  rewrite Hnf in En. cbn [Z.eqb] in En. pose proof (t_fresh _ _ T) as Hfr.
  exists (nexta s), s1. set (s2 := set_handles (delete (nexta s) (handles s1)) s1). exists s2.
  split; [done|]. split.
  { unfold close. destruct (Z.eqb_spec (nexta s) 0); [lia|].
    rewrite (sm_bind_ok _ _ s1 (mk_fsn fs (match ntype n with FSNODE_FILE => OFile p 0 | FSNODE_DIR => ODir p (clist_of n) end) 0) s1);
      [done|]. apply get_handle_ok. by rewrite Eh, lookup_insert_eq. }
  assert (tree_ok s2 ch) as T2 by (by apply tree_delete_handle).
  assert (nodes s2 = <[p := set_fsnode (nexta s) n]> (nodes s)) as En2 by exact En.
  assert (nodes s2 !! p = Some (set_fsnode (nexta s) n)) as Hp2 by (by rewrite En2, lookup_insert_eq).
  assert (handles s2 !! nexta s = None) as Hgone by (unfold s2; cbn; by rewrite lookup_delete_eq).
  assert (forall x m, x <> p -> nodes s2 !! x = Some m -> node_mnt m s2 = Ok (0, s2)) as Hu2.
  { intros x m Hx Hm. rewrite En2, lookup_insert_ne in Hm by done. unfold node_mnt.
    destruct (Z.eqb_spec (nfsnode m) 0); [done|]. destruct (Hu x m Hm) as [?|(hd & Hh & Hz)]; [done|].
    assert (nfsnode m <> nexta s) by (destruct (t_handle _ _ T _ hd Hh) as [? _]; lia).
    rewrite (sm_bind_ok _ _ s2 hd s2); [by rewrite Hz|]. apply get_handle_ok. unfold s2. cbn.
    by rewrite lookup_delete_ne, Eh, lookup_insert_ne. }
  assert (keeps s s2) as Hk.
  { intros x m Hx. rewrite En2, lookup_insert. case_decide; [|by exists m]. subst.
    exists (set_fsnode (nexta s) n). assert (m = n) as -> by congruence. done. }
  destruct (t_root _ _ T2 fs root) as (nr & Hnr & Hty & _); [by unfold s2; cbn; rewrite Er|].
  unfold open, open_from. change (chr (SEP :: join_path l) =? SEP) with true. cbv iota.
  change (fs_path_skipsep (SEP :: join_path l)) with (fs_path_skipsep (join_path l)).
  rewrite join_path_skipsep by done.
  rewrite (sm_bind_ok _ _ s2 s2 s2 eq_refl). rewrite (sm_bind_ok _ _ s2 root s2) by (unfold s2; cbn; by rewrite Er, Hroot).
  rewrite (sm_bind_ok _ _ _ _ _ (get_node_ok _ _ _ Hnr)). rewrite decide_True by done.
  apply (open_walk_stale s2 ch fs 0 l root fuel p _ T2 Hu2 Hp2); [cbn; lia | exact Hgone | done | by exists nr | done |].
  rewrite (walk_keeps s) by (done || destruct (t_root _ _ T fs root Hroot) as (m & ? & _); by exists m). done.
Qed.
End stale.

(** Freeing a node without entries: the data of a file goes, a directory is
    left alone. *)
Lemma free_node_empty fuel t n s : (0 < fuel)%nat -> t <> 0 -> nodes s !! t = Some n ->
  (ntype n = FSNODE_DIR -> clist_of n = 0) ->
  exists s', free_node fuel t s = Ok (tt, s') /\
    (forall x, x <> t -> nodes s' !! x = nodes s !! x) /\
    (ntype n = FSNODE_FILE -> exists n' sz mx, nodes s' !! t = Some n' /\ nbody_of n' = NFile None sz mx).
Proof.
  intros Hf Ht Hn Hc. destruct fuel as [|fuel]; [lia|]. cbn [free_node].
  destruct (Z.eqb_spec t 0); [done|]. rewrite (sm_bind_ok _ _ s n s) by (by apply get_node_ok).
  unfold ntype, clist_of in *. destruct (nbody_of n) as [dt sz mx|c tl].
  - eexists. split; [reflexivity|]. split; [intros x Hx; by apply lookup_insert_ne|].
    intros _. eexists _, sz, mx. split; [apply lookup_insert_eq|done].
  - rewrite (Hc eq_refl). cbn [Z.eqb]. by exists s.
Qed.

(** C23. [remove] takes exactly this entry out of its directory and frees the data
    of a file. *)
Theorem remove_correct s ch h hd n fuel :
  tree_ok s ch -> handles s !! h = Some hd -> nodes s !! target hd = Some n -> parent n <> 0 ->
  target hd ∈ children ch (parent n) -> (ntype n = FSNODE_DIR -> children ch (target hd) = []) ->
  (length (children ch (parent n)) < fuel)%nat ->
  exists s' la lb, remove fuel h s = Ok (0, s') /\ children ch (parent n) = la ++ target hd :: lb /\
    tree_ok s' (<[parent n := la ++ lb]> ch) /\
    (forall x m, x <> target hd -> nodes s !! x = Some m -> exists m', nodes s' !! x = Some m' /\ same_node m m') /\
    (ntype n = FSNODE_FILE -> exists n' sz mx, nodes s' !! target hd = Some n' /\ nbody_of n' = NFile None sz mx).
Proof.
  intros T Hh Hn Hpar Hin Hempty Hf. set (t := target hd) in *. set (d := parent n) in *.
  destruct (t_handle _ _ T h hd Hh) as (_ & (n0 & Hn0 & Ety) & _). fold t in Hn0. assert (n0 = n) as -> by congruence.
  destruct (t_parent _ _ T t n Hn) as [?|(nd & Hd & Hdty)]; [done|]. fold d in Hd.
  pose proof (unlink_spec s ch d t [] (children ch d) nd fuel T eq_refl Hd Hdty Hf) as Hu.
  rewrite decide_True in Hu by done. cbn [last default from_option id app] in Hu.
  destruct Hu as (la & lb & nd' & El & Er & T1 & Hsame & Hback).
  destruct (Hsame t n Hn) as (n' & Hn' & Hs). pose proof (child_ne _ _ _ _ T Hin) as Hne.
  assert (clist_of nd = default 0 (head (children ch d))) as Ec.
  { destruct (dir_links s ch d nd T Hd Hdty) as (c & tl & Eb & _ & Ec & _). unfold clist_of. by rewrite Eb. }
  set (s1 := set_nodes nd' s) in *.
  destruct (free_node_empty fuel t n' s1 ltac:(lia) ltac:(by destruct (t_node _ _ T t n Hn); lia) Hn') as (s2 & Ef & Hx2 & Hf2).
  { intros Etn'. apply (clist_zero _ _ t n' T1 Hn' Etn'). unfold children. rewrite lookup_insert_ne by congruence.
    apply Hempty. destruct Hs as (_ & _ & _ & Et & _). by rewrite <- Et. }
  exists s2, la, lb. split_and!.
  - unfold remove. rewrite (sm_bind_ok _ _ _ _ _ (get_handle_ok _ _ _ Hh)). cbv zeta. fold t.
    rewrite (sm_bind_ok _ _ _ _ _ (get_node_ok _ _ _ Hn)). fold d.
    assert (forall (a : SM mfs Z), (if decide (handle_type hd = FSNODE_DIR)
      then if negb (clist_of n =? 0) then fail EEXIST (-1) else a else a) s = a s) as Hif.
    { intros a. destruct (decide (handle_type hd = FSNODE_DIR)) as [E|E]; [|done].
      assert (clist_of n = 0) as ->; [|done]. apply (clist_zero s ch t n T Hn); [congruence|]. apply Hempty. congruence. }
    rewrite Hif. destruct (Z.eqb_spec d 0); [done|].
    rewrite (sm_bind_ok _ _ _ _ _ (get_node_ok _ _ _ Hd)), Ec, (sm_bind_ok _ _ _ _ _ Er).
    by rewrite (sm_bind_ok _ _ _ _ _ Ef).
  - done.
  - eapply (free_node_leaf fuel t n' s1); [exact T1 | exact Hn' | | exact Ef].
    destruct Hs as (_ & _ & _ & Et & _). unfold ntype in *.
    destruct (nbody_of n') as [|c' t'] eqn:Eb'; [unfold clist_of; by rewrite Eb'|].
    apply (clist_zero _ _ t n' T1 Hn'); [unfold ntype; by rewrite Eb'|].
    unfold children. rewrite lookup_insert_ne by congruence. apply Hempty. by rewrite <- Et.
  - intros x m Hx Hm. destruct (Hsame x m Hm) as (m' & Hm' & Hsm). exists m'. rewrite Hx2 by done. done.
  - intros Ety'. apply Hf2. destruct Hs as (_ & _ & _ & Et & _). by rewrite Et.
Qed.

Definition dirent_of (s : mfs) (x : Z) : option dirent :=
  (fun n => mk_dirent (nname n) (ntype n) (file_size n)) <$> nodes s !! x.

(** [readdir] until it returns null. *)
Fixpoint read_all (fuel : nat) (h : Z) : SM mfs (list dirent) :=
  match fuel with
  | O => sm_lift NoFuel
  | S fuel => o ← readdir h;
      match o with
      | None => mret []
      | Some e => es ← read_all fuel h; mret (e :: es)
      end
  end.

Lemma read_all_spec s h hd d cur l fuel :
  h <> 0 -> handles s !! h = Some hd -> fsn_data hd = ODir d cur -> seg (nodes s) cur l 0 -> (forall x, x ∈ l -> x <> 0) ->
  (length l < fuel)%nat ->
  exists es s', read_all fuel h s = Ok (es, s') /\ Some <$> es = dirent_of s <$> l /\ nodes s' = nodes s.
Proof.
  intros Hh0. revert s hd cur fuel. induction l as [|x l IH]; intros s hd cur [|fuel] Hh Hd Hs Hl Hf; cbn [length seg] in *; try lia.
  - subst cur. exists [], s. split; [|done]. cbn [read_all]. unfold readdir.
    destruct (Z.eqb_spec h 0); [done|]. sm. rewrite Hh. sm. by rewrite Hd.
  - destruct Hs as (-> & n & Hn & Hs). cbn [read_all].
    set (s1 := set_handles (<[h := mk_fsn (fsn_fs hd) (ODir d (next n)) (mnt hd)]> (handles s)) s).
    assert (readdir h s = Ok (Some (mk_dirent (nname n) (ntype n) (file_size n)), s1)) as E.
    { unfold readdir. destruct (Z.eqb_spec h 0); [done|]. sm. rewrite Hh. sm. rewrite Hd.
      destruct (Z.eqb_spec x 0) as [->|]; [by destruct (Hl 0); [set_solver|]|]. by rewrite Hn. }
    rewrite (sm_bind_ok _ _ _ _ _ E).
    destruct (IH s1 (mk_fsn (fsn_fs hd) (ODir d (next n)) (mnt hd)) (next n) fuel) as (es & s' & Er & Hes & Hn');
      [by unfold s1; cbn; rewrite lookup_insert_eq|done|done|set_solver|lia|].
    exists (mk_dirent (nname n) (ntype n) (file_size n) :: es), s'. rewrite (sm_bind_ok _ _ _ _ _ Er). split; [done|].
    split; [|by rewrite Hn']. cbn [fmap list_fmap]. f_equal; [|done]. unfold dirent_of. by rewrite Hn.
Qed.

(** [rewinddir] and [readdir] list the children of the directory, each once,
    in the order they were created. *)
Theorem list_dir s ch h hd d cur fuel :
  tree_ok s ch -> handles s !! h = Some hd -> fsn_data hd = ODir d cur -> (length (children ch d) < fuel)%nat ->
  exists es s', (rewinddir h;; read_all fuel h) s = Ok (es, s') /\
    Some <$> es = dirent_of s <$> children ch d /\ NoDup (children ch d).
Proof.
  intros T Hh Hd Hf. destruct (t_handle _ _ T h hd Hh) as (Hr & (n & Hn & Ety) & _).
  unfold target, handle_type in *. rewrite Hd in *.
  destruct (dir_links s ch d n T Hn Ety) as (c & t & Eb & Hs & Ec & _).
  set (s1 := set_handles (<[h := mk_fsn (fsn_fs hd) (ODir d (clist_of n)) (mnt hd)]> (handles s)) s).
  assert (rewinddir h s = Ok (0, s1)) as E.
  { unfold rewinddir. destruct (Z.eqb_spec h 0); [lia|]. sm. rewrite Hh. sm. rewrite Hd, Hn. done. }
  rewrite (sm_bind_ok _ _ _ _ _ E).
  destruct (read_all_spec s1 h (mk_fsn (fsn_fs hd) (ODir d (clist_of n)) (mnt hd)) d (clist_of n) (children ch d) fuel)
    as (es & s' & Er & Hes & _); [lia|by unfold s1; cbn; rewrite lookup_insert_eq|done| | |done|].
  - unfold clist_of. by rewrite Eb.
  - intros x Hx. pose proof (child_bound _ _ _ _ T Hx). lia.
  - exists es, s'. split; [done|]. split; [done|apply (t_nodup _ _ T)].
Qed.

(** ** A file system with a file *)

Definition no_mounts (fs : Z) (path : list Z) (flags : Z) : SM mfs Z := mret 0.
Definition path_a : list (list Z) := [[97]].

Lemma path_a_component : Forall component path_a.
Proof. repeat constructor; done. Qed.

Lemma demo_no_children d : length (children ∅ d) = 0%nat.
Proof. unfold children. by rewrite lookup_empty. Qed.

Lemma demo_empty_unmounted : unmounted demo_empty.
Proof.
  intros p n Hp. left. revert Hp. change (nodes demo_empty) with ({[2 := empty_node FSNODE_DIR]} : gmap Z mnode).
  intros [<- <-]%lookup_singleton_Some. done.
Qed.

Lemma create_then_open_witness :
  exists p h s1 h2 s2, nodes demo_empty !! p = None /\
    open no_mounts 4 3 (SEP :: join_path path_a) FSO_CREATE demo_empty = Ok (h, s1) /\
    tree_ok s1 (<[2 := children ∅ 2 ++ [p]]> ∅) /\
    (exists n, nodes s1 !! p = Some n /\ nname n = [97] /\ parent n = 2 /\
       nbody_of n = nbody_of (empty_node FSNODE_FILE)) /\
    open no_mounts 4 3 (SEP :: join_path path_a) 0 s1 = Ok (h2, s2) /\ h <> h2 /\
    (exists a b, handles s2 !! h = Some a /\ handles s2 !! h2 = Some b /\ target a = p /\ target b = p).
Proof.
  apply (create_then_open no_mounts demo_empty ∅ 3 2 FSO_CREATE 0 path_a 4 2 [97]); try done.
  - exact demo_empty_ok.
  - exact demo_empty_unmounted.
  - exact path_a_component.
  - intros d. rewrite demo_no_children. cbn. lia.
  - vm_compute. lia.
Defined.

Lemma reopen_after_close_witness :
  exists h s1 s2, open no_mounts 3 3 (SEP :: join_path []) 0 demo_empty = Ok (h, s1) /\
    close h s1 = Ok (tt, s2) /\ open no_mounts 3 3 (SEP :: join_path []) 0 s2 = Fault.
Proof.
  apply (reopen_after_close no_mounts demo_empty ∅ 3 2 [] 3 2 (empty_node FSNODE_DIR)); try done.
  - exact demo_empty_ok.
  - exact demo_empty_unmounted.
  - intros d. rewrite demo_no_children. cbn. lia.
  - vm_compute. lia.
Defined.

(** The tree of [demo_file]: the root directory 2 has the child 4. *)
Lemma demo_file_ok : tree_ok demo_file {[2 := [4]]}.
Proof.
  destruct (create_child demo_empty ∅ 2 (empty_node FSNODE_DIR) [97] FSNODE_FILE 96 4 demo_empty_ok)
    as (s1 & nd' & Ea & _ & Er & T & _); try done.
  assert (s1 = run_state (alloc_node FSNODE_FILE) demo_empty) as -> by (unfold run_state; by rewrite Ea).
  assert (set_nodes nd' (bump demo_empty 96) = run_state (n ← get_node 4; put_node 4 (set_name [97] n);; add_child 2 4)
    (run_state (alloc_node FSNODE_FILE) demo_empty)) as E by (unfold run_state at 1; by rewrite Er).
  rewrite E in T. clear Ea Er E.
  refine (create_fsnode_ok 3 4 _ _ 5 demo_file T _). reflexivity.
Qed.

(** The file's only handle is closed: the node still points to it. *)
Definition demo_closed : mfs := run_state (close 5) demo_file.

Lemma demo_closed_ok : tree_ok demo_closed {[2 := [4]]}.
Proof. refine (close_ok 5 demo_file _ tt demo_closed demo_file_ok _). reflexivity. Qed.

Lemma demo_closed_children d : (length (children ({[2%Z := [4%Z]]} : gmap Z (list Z)) d) <= 1)%nat.
Proof. unfold children. rewrite lookup_singleton. case_decide; cbn; lia. Qed.

Lemma open_spec_witness :
  open no_mounts 3 3 (SEP :: join_path path_a) 0 demo_empty = fail ENOENT 0 demo_empty /\
  open no_mounts 3 3 (SEP :: join_path [[98]]) 0 demo_closed = fail ENOENT 0 demo_closed /\
  open no_mounts 3 3 (SEP :: join_path path_a) 0 demo_closed = Fault.
Proof.
  split; [|split].
  - rewrite (open_spec no_mounts demo_empty ∅ 3 2 0 path_a 3); try done.
    + exact demo_empty_ok.
    + exact path_a_component.
    + intros d. rewrite demo_no_children. cbn. lia.
  - rewrite (open_spec no_mounts demo_closed {[2 := [4]]} 3 2 0 [[98]] 3); try done.
    + exact demo_closed_ok.
    + repeat constructor; done.
    + intros d. pose proof (demo_closed_children d). cbn. lia.
  - rewrite (open_spec no_mounts demo_closed {[2 := [4]]} 3 2 0 path_a 3); try done.
    + exact demo_closed_ok.
    + exact path_a_component.
    + intros d. pose proof (demo_closed_children d). cbn. lia.
Defined.

Lemma remove_correct_witness :
  exists s' la lb, remove 3 5 demo_file = Ok (0, s') /\ children {[2 := [4]]} 2 = la ++ 4 :: lb /\
    tree_ok s' (<[2 := la ++ lb]> {[2 := [4]]}) /\
    (forall x m, x <> 4 -> nodes demo_file !! x = Some m -> exists m', nodes s' !! x = Some m' /\ same_node m m') /\
    (FSNODE_FILE = FSNODE_FILE -> exists n' sz mx, nodes s' !! 4 = Some n' /\ nbody_of n' = NFile None sz mx).
Proof.
  apply (remove_correct demo_file {[2 := [4]]} 5 (mk_fsn 3 (OFile 4 0) 0) (mk_node (NFile (Some []) 0 0) [97] 2 0 5) 3
    demo_file_ok); try done.
  - cbn. set_solver.
  - vm_compute. lia.
Defined.

Definition demo_dir : mfs := run_state (mem_fsop_open 9 9 3 [SEP] 0) demo_file.

Lemma demo_dir_ok : tree_ok demo_dir {[2 := [4]]}.
Proof. refine (create_fsnode_ok 3 2 demo_file _ 7 demo_dir demo_file_ok _). reflexivity. Qed.

Lemma list_dir_witness :
  exists es s', (rewinddir 7;; read_all 3 7) demo_dir = Ok (es, s') /\
    Some <$> es = dirent_of demo_dir <$> [4] /\ NoDup [4].
Proof.
  apply (list_dir demo_dir {[2 := [4]]} 7 (mk_fsn 3 (ODir 2 4) 0) 2 4 3 demo_dir_ok); try done. vm_compute. lia.
Defined.
