(* ===== verification/Mtab.v ===== *)
(** * Mount table (src/mtab.c)

    A linked list of [struct mount] with a tail pointer. [mtab_remove_node]
    leaves the tail pointer at the entry it freed, which the specification
    [mt_spec] tracks: the table refines it on every sequence of calls. *)
From S2P Require Import Prelude.

Record mount := mk_mount { mpt : Z; m_fs : Z; m_next : Z }.

(** The entries in memory and the globals of mtab.h; 0 is null. *)
Record mtab := mk_mtab { mounts : gmap Z mount; mnt_list : Z; mnt_tail : Z; mnt_count : Z }.

Definition mtab0 : mtab := mk_mtab ∅ 0 0 0.

Definition get_mount (p : Z) : SM mtab mount := t ← sm_get; sm_lift (of_option (mounts t !! p)).
Definition put_mount (p : Z) (m : mount) : SM mtab unit :=
  sm_upd (fun t => mk_mtab (<[p := m]> (mounts t)) (mnt_list t) (mnt_tail t) (mnt_count t)).

(** [m] is what [malloc] returned. *)
Definition mtab_add (m node fs : Z) : SM mtab Z :=
  if m =? 0 then mret (-1) else
  put_mount m (mk_mount node fs 0);;
  t ← sm_get;
  (if negb (mnt_list t =? 0) then
     tl ← get_mount (mnt_tail t);
     put_mount (mnt_tail t) (mk_mount (mpt tl) (m_fs tl) m);;
     sm_upd (fun t => mk_mtab (mounts t) (mnt_list t) m (mnt_count t))
   else sm_upd (fun t => mk_mtab (mounts t) m m (mnt_count t)));;
  sm_upd (fun t => mk_mtab (mounts t) (mnt_list t) (mnt_tail t) (s32 (mnt_count t + 1)));;
  mret 0.

(** The loop of [mtab_remove_node]: [prev] is 0 for the dummy head. *)
Fixpoint remove_scan (fuel : nat) (node prev pnext : Z) : SM mtab Z :=
  match fuel with
  | O => sm_lift NoFuel
  | S fuel =>
      if pnext =? 0 then mret (-1) else
      m ← get_mount pnext;
      if mpt m =? node then
        (if prev =? 0 then sm_upd (fun t => mk_mtab (mounts t) (m_next m) (mnt_tail t) (mnt_count t))
         else pm ← get_mount prev; put_mount prev (mk_mount (mpt pm) (m_fs pm) (m_next m)));;
        sm_upd (fun t => mk_mtab (delete pnext (mounts t)) (mnt_list t) (mnt_tail t) (mnt_count t));;
        mret 0
      else remove_scan fuel node pnext (m_next m)
  end.
Definition mtab_remove_node (fuel : nat) (node : Z) : SM mtab Z :=
  t ← sm_get; remove_scan fuel node 0 (mnt_list t).

(** ** Specification *)

(** The mounted file systems in order, as (mount point, file system), and
    whether the tail pointer still points to the last one. *)
Record mt_spec := mk_spec { entries : list (Z * Z); tail_ok : bool }.

Definition spec_add (e : Z * Z) (a : mt_spec) : option mt_spec :=
  match entries a with
  | [] => Some (mk_spec [e] true)
  | l => if tail_ok a then Some (mk_spec (l ++ [e]) true) else None
  end.

(** The list without the first entry of [node], and whether that was the last. *)
Fixpoint drop_entry (node : Z) (l : list (Z * Z)) : option (list (Z * Z) * bool) :=
  match l with
  | [] => None
  | e :: l =>
      if e.1 =? node then Some (l, match l with [] => true | _ => false end)
      else '(l', b) ← drop_entry node l; Some (e :: l', b)
  end.
Definition spec_remove (node : Z) (a : mt_spec) : Z * mt_spec :=
  match drop_entry node (entries a) with
  | Some (l, was_last) => (0, mk_spec l (tail_ok a && negb was_last))
  | None => (-1, a)
  end.

Inductive mt_op :=
| MtAdd (m node fs : Z)
| MtRemove (node : Z).

Definition mt_step (fuel : nat) (o : mt_op) : SM mtab Z :=
  match o with MtAdd m node fs => mtab_add m node fs | MtRemove node => mtab_remove_node fuel node end.
Definition spec_step (o : mt_op) (a : mt_spec) : option (Z * mt_spec) :=
  match o with
  | MtAdd m node fs => if m =? 0 then Some (-1, a) else (fun a' => (0, a')) <$> spec_add (node, fs) a
  | MtRemove node => Some (spec_remove node a)
  end.
Fixpoint mt_run (fuel : nat) (ops : list mt_op) : SM mtab (list Z) :=
  match ops with
  | [] => mret []
  | o :: ops => r ← mt_step fuel o; rs ← mt_run fuel ops; mret (r :: rs)
  end.
Fixpoint spec_run (ops : list mt_op) (a : mt_spec) : option (list Z * mt_spec) :=
  match ops with
  | [] => Some ([], a)
  | o :: ops => '(r, a) ← spec_step o a; '(rs, a) ← spec_run ops a; Some (r :: rs, a)
  end.

(** The entries [l], with their addresses, linked from [p]. *)
Fixpoint mchain (ms : gmap Z mount) (p : Z) (l : list (Z * (Z * Z))) : Prop :=
  match l with
  | [] => p = 0
  | (x, e) :: l => p = x /\ x <> 0 /\ exists nx, ms !! x = Some (mk_mount e.1 e.2 nx) /\ mchain ms nx l
  end.

Record mt_rel (t : mtab) (a : mt_spec) (l : list (Z * (Z * Z))) : Prop := {
  mr_entries : l.*2 = entries a;
  mr_chain : mchain (mounts t) (mnt_list t) l;
  mr_nodup : NoDup l.*1;
  mr_live x : is_Some (mounts t !! x) -> x ∈ l.*1;
  mr_tail : if tail_ok a then l = [] \/ last l.*1 = Some (mnt_tail t) else mounts t !! mnt_tail t = None }.

Lemma mchain_frame ms ms' p l :
  (forall x, x ∈ l.*1 -> ms' !! x = ms !! x) -> mchain ms p l -> mchain ms' p l.
Proof.
  revert p. induction l as [|[x e] l IH]; intros p H; cbn [mchain]; [done|].
  intros (-> & Hx & nx & Hm & Hc). split; [done|]. split; [done|]. exists nx.
  rewrite H by (cbn; set_solver). split; [done|]. apply IH; [|done]. intros y Hy. apply H. cbn. set_solver.
Qed.

Lemma mchain_live ms p l x : mchain ms p l -> x ∈ l.*1 -> is_Some (ms !! x).
Proof.
  revert p. induction l as [|[y e] l IH]; intros p; cbn [mchain]; [set_solver|].
  intros (-> & _ & nx & Hm & Hc) [->|Hx]%elem_of_cons; [by eexists|by eapply IH].
Qed.

(** A new last entry, linked from the old one. *)
Lemma mchain_snoc ms p l y x e e0 :
  mchain ms p (l ++ [(y, e0)]) -> NoDup (l ++ [(y, e0)]).*1 -> x ∉ (l ++ [(y, e0)]).*1 -> x <> 0 ->
  mchain (<[y := mk_mount e0.1 e0.2 x]> (<[x := mk_mount e.1 e.2 0]> ms)) p (l ++ [(y, e0); (x, e)]).
Proof.
  revert p. induction l as [|[z ez] l IH]; intros p; cbn [app mchain fmap list_fmap fst].
  - intros (-> & Hy & nx & Hm & _) _ Hx Hx0. split; [done|]. split; [done|]. exists x.
    rewrite lookup_insert_eq. split; [done|]. split; [done|]. split; [done|]. exists 0.
    rewrite lookup_insert_ne by set_solver. by rewrite lookup_insert_eq.
  - intros (-> & Hz & nx & Hm & Hc) [Hnz Hnd]%NoDup_cons Hx Hx0. split; [done|]. split; [done|]. exists nx.
    rewrite !lookup_insert_ne.
    + split; [done|]. apply IH; [done|done| |done]. intros Hin. apply Hx. by right.
    + intros <-. apply Hx. left.
    + intros <-. apply Hnz. rewrite fmap_app. set_solver.
Qed.

Lemma last_fst_snoc {A B} (l : list (A * B)) p : last (l ++ [p]).*1 = Some p.1.
Proof. rewrite fmap_app. apply last_snoc. Qed.

(** Steps the monad. *)
Ltac mt :=
  cbv [mbind mret sm_mbind sm_mret sm_get sm_upd sm_lift get_mount put_mount res_mbind res_bind];
  cbn [of_option mounts mnt_list mnt_tail mnt_count].

Lemma mt_add_ok t a l m node fs :
  mt_rel t a l -> m <> 0 -> m ∉ l.*1 -> m <> mnt_tail t ->
  match spec_add (node, fs) a with
  | Some a' => exists t', mtab_add m node fs t = Ok (0, t') /\ mt_rel t' a' (l ++ [(m, (node, fs))]) /\ mnt_tail t' = m
  | None => mtab_add m node fs t = Fault
  end.
Proof.
  intros [He Hc Hn Hl Ht] Hm Hf Hmt. unfold mtab_add, spec_add. destruct (Z.eqb_spec m 0); [done|].
  destruct l as [|e0 l0] eqn:El.
  - rewrite <- He. cbn [fmap list_fmap mchain] in *. mt. rewrite Hc. mt.
    eexists. split; [done|]. split; [|done]. split; cbn; try done.
    + split; [done|]. split; [done|]. exists 0. by rewrite lookup_insert_eq.
    + apply NoDup_singleton.
    + intros x [<-|[_ [y Hx]]]%lookup_insert_is_Some; [set_solver|]. exfalso. pose proof (Hl x ltac:(by eexists)). set_solver.
    + by right.
  - rewrite <- El in *. assert (mnt_list t <> 0) as Hne by (rewrite El in Hc; destruct e0; cbn in Hc; lia).
    destruct (entries a) as [|ea la] eqn:Ea; [by rewrite El in He|]. rewrite <- Ea in *.
    mt. apply Z.eqb_neq in Hne as ->. cbn [negb]. mt. rewrite lookup_insert_ne by done.
    destruct (tail_ok a).
    + destruct Ht as [->|Ht]; [done|].
      destruct (exists_last (l := l)) as (l1 & [y e1] & El1); [by rewrite El|]. rewrite El1 in *.
      rewrite last_fst_snoc in Ht. injection Ht as Ht. cbn in Ht. rewrite <- Ht in *.
      assert (exists nx, mounts t !! y = Some (mk_mount e1.1 e1.2 nx)) as [nx Hy].
      { clear -Hc. revert Hc. generalize (mnt_list t). induction l1 as [|[z ez] l1 IH]; intros p; cbn [app mchain].
        - intros (_ & _ & nx & H & _). by exists nx.
        - intros (_ & _ & nx & _ & H). by eapply IH. }
      rewrite Hy. mt. eexists. split; [done|]. split; [|done]. split; cbn.
      * rewrite fmap_app, He. done.
      * rewrite <- app_assoc. cbn. by apply (mchain_snoc _ _ _ _ _ (node, fs)).
      * rewrite fmap_app. apply NoDup_app. split; [done|]. split; [set_solver|]. apply NoDup_singleton.
      * intros x. rewrite fmap_app. intros [<-|[_ Hx]]%lookup_insert_is_Some.
        { rewrite fmap_app. set_solver. }
        apply lookup_insert_is_Some in Hx as [<-|[_ Hx]]; [set_solver|]. apply Hl in Hx. set_solver.
      * right. by rewrite last_fst_snoc.
    + by rewrite Ht.
Qed.

(** Unlinking [x] behind its predecessor [y]. *)
Lemma mchain_unlink ms p l0 y ey x e l2 nx :
  mchain ms p (l0 ++ (y, ey) :: (x, e) :: l2) -> NoDup (l0 ++ (y, ey) :: (x, e) :: l2).*1 ->
  ms !! x = Some (mk_mount e.1 e.2 nx) ->
  mchain (delete x (<[y := mk_mount ey.1 ey.2 nx]> ms)) p (l0 ++ (y, ey) :: l2).
Proof.
  revert p. induction l0 as [|[z ez] l0 IH]; intros p; cbn [app mchain fmap list_fmap fst].
  - intros (-> & Hy & n1 & Hm & -> & Hx & n2 & Hm2 & Hc) Hnd Hx2. rewrite Hm2 in Hx2. injection Hx2 as ->.
    apply NoDup_cons in Hnd as [Hy2 [Hx2 Hnd]%NoDup_cons].
    split; [done|]. split; [done|]. exists nx. rewrite lookup_delete_ne by set_solver.
    rewrite lookup_insert_eq. split; [done|]. eapply mchain_frame; [|exact Hc].
    intros q Hq. rewrite lookup_delete_ne by set_solver. by rewrite lookup_insert_ne by set_solver.
  - intros (-> & Hz & n1 & Hm & Hc) [Hz2 Hnd]%NoDup_cons Hx2. rewrite fmap_app in Hz2. cbn in Hz2.
    split; [done|]. split; [done|]. exists n1. rewrite lookup_delete_ne by set_solver.
    rewrite lookup_insert_ne by set_solver. split; [done|]. by apply IH.
Qed.

Definition is_nil {A} (l : list A) : bool := match l with [] => true | _ => false end.

Lemma remove_scan_spec t node fuel l l1 p :
  mchain (mounts t) (mnt_list t) (l1 ++ l) -> NoDup (l1 ++ l).*1 -> mchain (mounts t) p l -> (length l < fuel)%nat ->
  match drop_entry node l.*2 with
  | None => remove_scan fuel node (default 0 (last l1.*1)) p t = Ok (-1, t)
  | Some (l', b) => exists la x e lb t', l = la ++ (x, e) :: lb /\ l' = (la ++ lb).*2 /\ b = is_nil lb /\
      remove_scan fuel node (default 0 (last l1.*1)) p t = Ok (0, t') /\ mnt_tail t' = mnt_tail t /\
      mchain (mounts t') (mnt_list t') (l1 ++ la ++ lb) /\
      (forall q, is_Some (mounts t' !! q) -> q <> x /\ is_Some (mounts t !! q)) /\ mounts t' !! x = None
  end.
Proof.
  revert l1 p fuel. induction l as [|[x e] l IH]; intros l1 p [|fuel] Hc Hnd Hp Hf; cbn [length] in Hf; try lia;
    cbn [mchain] in Hp; cbn [fmap list_fmap snd drop_entry].
  - subst p. done.
  - destruct Hp as (-> & Hx & nx & Hm & Hp). cbn [remove_scan]. destruct (Z.eqb_spec x 0); [done|].
    mt. rewrite Hm. mt. cbn [mpt m_fs m_next]. destruct (Z.eqb_spec e.1 node) as [E|E].
    + exists [], x, e, l. cbn [app].
      destruct l1 as [|ey l0 _] using rev_ind.
      * eexists. split; [done|]. split; [done|]. split; [by destruct l|]. split; [done|]. cbn. split; [done|]. split.
        { apply NoDup_cons in Hnd as [Hx2 Hnd]. eapply mchain_frame; [|exact Hp].
          intros q Hq. apply lookup_delete_ne. set_solver. }
        split; [|apply lookup_delete_eq]. intros q. rewrite lookup_delete_is_Some. naive_solver.
      * destruct ey as [y ey]. rewrite last_fst_snoc. cbn [default from_option id fst].
        rewrite <- app_assoc in Hc, Hnd. cbn [app] in Hc, Hnd.
        assert (y <> 0 /\ exists ny, mounts t !! y = Some (mk_mount ey.1 ey.2 ny)) as (Hy & ny & Hmy).
        { clear -Hc. revert Hc. generalize (mnt_list t). induction l0 as [|[z ez] l0 IH]; intros p; cbn [app mchain].
          - intros (_ & Hy & ny & H & _). split; [done|]. by exists ny.
          - intros (_ & _ & ny & _ & H). by eapply IH. }
        apply Z.eqb_neq in Hy as ->. rewrite Hmy. mt. cbn [mpt m_fs].
        eexists. split; [done|]. split; [done|]. split; [by destruct l|]. split; [done|]. cbn.
        split; [done|]. rewrite <- app_assoc. cbn [app]. split.
        { by apply (mchain_unlink _ _ _ _ _ _ e). }
        split; [|apply lookup_delete_eq]. intros q. rewrite lookup_delete_is_Some.
        intros [Hq [<-|[_ Hq2]]%lookup_insert_is_Some]; split; try done; by rewrite Hmy.
    + specialize (IH (l1 ++ [(x, e)]) nx fuel). rewrite <- app_assoc, last_fst_snoc in IH. cbn [app default from_option id fst] in IH.
      specialize (IH Hc Hnd Hp ltac:(lia)). destruct (drop_entry node l.*2) as [[l' b]|]; cbn.
      * destruct IH as (la & z & ez & lb & t' & -> & -> & -> & E1 & E2 & Hc' & Hl & Hz).
        exists ((x, e) :: la), z, ez, lb, t'. rewrite <- app_assoc in Hc'. by split_and!.
      * done.
Qed.

Lemma mt_remove_ok t a l node fuel :
  mt_rel t a l -> (length l < fuel)%nat ->
  exists t' l', mtab_remove_node fuel node t = Ok ((spec_remove node a).1, t') /\
    mt_rel t' (spec_remove node a).2 l' /\ (length l' <= length l)%nat /\ (forall x, x ∈ l'.*1 -> x ∈ l.*1) /\
    mnt_tail t' = mnt_tail t.
Proof.
  intros [He Hc Hn Hl Ht] Hf. unfold mtab_remove_node, spec_remove. mt.
  pose proof (remove_scan_spec t node fuel l [] (mnt_list t) Hc Hn Hc Hf) as H. rewrite He in H. cbn [fmap list_fmap last default from_option] in H.
  destruct (drop_entry node (entries a)) as [[l' b]|]; cbn [fst snd app] in *.
  - destruct H as (la & x & e & lb & t' & -> & -> & -> & E & Et & Hc' & Hl' & Hx). exists t', (la ++ lb).
    rewrite fmap_app in Hn, Hl, Ht. cbn in Hn, Hl, Ht.
    apply NoDup_app in Hn as (Hna & Hnx & [Hnx2 Hnb]%NoDup_cons).
    assert (x ∉ (la ++ lb).*1) as Hxn by (rewrite fmap_app; set_solver).
    split; [exact E|]. split; [|split; [rewrite !length_app; cbn; lia|split; [|done]]].
    2:{ intros q. rewrite !fmap_app. cbn. set_solver. }
    split; cbn; [done|done| | |].
    + rewrite fmap_app. apply NoDup_app. split; [done|]. split; [set_solver|done].
    + intros q Hq. apply Hl' in Hq as [Hqx Hq]. apply Hl in Hq. rewrite fmap_app. set_solver.
    + destruct (tail_ok a); cbn.
      * destruct Ht as [Ht|Ht]; [by destruct la|]. destruct lb as [|lb0 lb]; cbn.
        { cbn in Ht. rewrite last_snoc in Ht. injection Ht as Ht. by rewrite Et, <- Ht. }
        right. rewrite Et, <- Ht, fmap_app, !last_app. done.
      * rewrite Et. destruct (mounts t' !! mnt_tail t) eqn:Eq; [|done].
        destruct (Hl' (mnt_tail t)) as [_ [? Hq]]; [by eexists|]. congruence.
  - exists t, l. split; [exact H|]. split; [by split|]. by split_and!.
Qed.

(** The addresses of the entries a sequence of calls adds. *)
Definition adds (ops : list mt_op) : list Z :=
  omap (fun o => match o with MtAdd m _ _ => if m =? 0 then None else Some m | MtRemove _ => None end) ops.

Lemma mt_run_spec fuel ops t a l :
  mt_rel t a l -> NoDup (adds ops) -> (forall m, m ∈ adds ops -> m ∉ l.*1 /\ m <> mnt_tail t) ->
  (length l + length ops < fuel)%nat ->
  match spec_run ops a with
  | Some (rs, a') => exists t' l', mt_run fuel ops t = Ok (rs, t') /\ mt_rel t' a' l'
  | None => mt_run fuel ops t = Fault
  end.
Proof.
  revert t a l. induction ops as [|o ops IH]; intros t a l Hr Hnd Hfr Hf; [by exists t, l|].
  cbn [length] in Hf. cbn [mt_run spec_run].
  destruct o as [m node fs|node]; cbn [mt_step spec_step adds omap list_omap] in *.
  - destruct (Z.eqb_spec m 0) as [->|Hm]; cbn [mbind option_bind].
    + rewrite (sm_bind_ok _ _ _ (-1) t) by done. specialize (IH t a l Hr Hnd Hfr ltac:(lia)).
      destruct (spec_run ops a) as [[rs a']|].
      * destruct IH as (t' & l' & E & H). exists t', l'. by rewrite (sm_bind_ok _ _ _ _ _ E).
      * mt. by rewrite IH.
    + apply NoDup_cons in Hnd as [Hm2 Hnd]. destruct (Hfr m) as [Hml Hmt]; [left|].
      pose proof (mt_add_ok t a l m node fs Hr Hm Hml Hmt) as Ha.
      destruct (spec_add (node, fs) a) as [a1|]; cbn [fmap option_fmap option_map mbind option_bind].
      * destruct Ha as (t1 & E & Hr1 & Et). rewrite (sm_bind_ok _ _ _ _ _ E).
        specialize (IH t1 a1 _ Hr1 Hnd). rewrite length_app, Et in IH. cbn [length] in IH.
        specialize (IH ltac:(intros q Hq; split; [rewrite fmap_app; cbn; specialize (Hfr q ltac:(by right)); set_solver
          |intros ->; done]) ltac:(lia)).
        destruct (spec_run ops a1) as [[rs a']|].
        { destruct IH as (t' & l' & E' & H). exists t', l'. by rewrite (sm_bind_ok _ _ _ _ _ E'). }
        mt. by rewrite IH.
      * mt. by rewrite Ha.
  - destruct (mt_remove_ok t a l node fuel Hr) as (t1 & l1 & E & Hr1 & Hlen & Hsub & Et); [lia|].
    rewrite (sm_bind_ok _ _ _ _ _ E). destruct (spec_remove node a) as [r a1]. cbn [fst snd mbind option_bind] in *.
    specialize (IH t1 a1 l1 Hr1 Hnd ltac:(intros q Hq; rewrite Et; destruct (Hfr q Hq); split; [auto|done]) ltac:(lia)).
    destruct (spec_run ops a1) as [[rs a']|].
    + destruct IH as (t' & l' & E' & H). exists t', l'. by rewrite (sm_bind_ok _ _ _ _ _ E').
    + mt. by rewrite IH.
Qed.

(** C31. From the empty table on, every sequence of calls gives the results of the
    list of mounts, and goes wrong exactly when a file system is mounted after
    the last of several mounts was removed. *)
Theorem mtab_refines fuel ops :
  NoDup (adds ops) -> (length ops < fuel)%nat ->
  match spec_run ops (mk_spec [] true) with
  | Some (rs, a) => exists t l, mt_run fuel ops mtab0 = Ok (rs, t) /\ mt_rel t a l
  | None => mt_run fuel ops mtab0 = Fault
  end.
Proof.
  intros Hnd Hf. apply (mt_run_spec fuel ops mtab0 (mk_spec [] true) []); [|done| |done].
  - split; cbn; [done|done|constructor|intros x [y Hx]; done|by left].
  - intros m Hm. split; [set_solver|]. cbn. unfold adds in Hm. apply list_elem_of_omap in Hm as (o & _ & Eo).
    destruct o as [m' ? ?|]; [|done]. destruct (Z.eqb_spec m' 0); [done|]. by injection Eo as <-.
Qed.

Lemma mtab_refines_witness :
  (exists t l, mt_run 9 [MtAdd 1 10 20; MtAdd 2 11 21; MtRemove 10; MtRemove 10; MtAdd 3 12 22] mtab0 = Ok ([0; 0; 0; -1; 0], t) /\
    mt_rel t (mk_spec [(11, 21); (12, 22)] true) l) /\
  mt_run 9 [MtAdd 1 10 20; MtAdd 2 11 21; MtRemove 11; MtAdd 3 12 22] mtab0 = Fault.
Proof.
  assert (NoDup [1; 2; 3]) as H by (apply NoDup_ListNoDup; repeat constructor; cbn; lia).
  split.
  - apply (mtab_refines 9 [MtAdd 1 10 20; MtAdd 2 11 21; MtRemove 10; MtRemove 10; MtAdd 3 12 22] H). cbn. lia.
  - apply (mtab_refines 9 [MtAdd 1 10 20; MtAdd 2 11 21; MtRemove 11; MtAdd 3 12 22] H). cbn. lia.
Defined.
