(* ===== verification/Fs.v ===== *)
(** * File system calls, working directory and mounting (src/fs.c)

    fs.c works on any file system through its table of operations. What it needs
    of the file systems and of the nodes they hand out is the class [FsWorld];
    the memory file system implements it in FsMount.v. *)
From S2P Require Import Prelude Str FsPath FsMem Mtab.

Definition DEV_MEMDISK : Z := 65536.

Record fs_operations (W : Type) := mk_fsop {
  fop_destroy : Z -> SM W unit;
  fop_open : Z -> list Z -> Z -> SM W Z;
  fop_close : Z -> SM W unit;
  fop_fsize : Z -> SM W Z;
  fop_seek : Z -> Z -> Z -> SM W Z;
  fop_tell : Z -> SM W Z;
  fop_read : Z -> Z -> SM W (Z * list Z);
  fop_write : Z -> list Z -> SM W Z;
  fop_rewinddir : Z -> SM W Z;
  fop_readdir : Z -> SM W (option dirent);
  fop_rename : Z -> list Z -> SM W Z;
  fop_remove : Z -> SM W Z }.
Arguments mk_fsop {W}.
Arguments fop_destroy {W}. Arguments fop_open {W}. Arguments fop_close {W}. Arguments fop_fsize {W}.
Arguments fop_seek {W}. Arguments fop_tell {W}. Arguments fop_read {W}. Arguments fop_write {W}.
Arguments fop_rewinddir {W}. Arguments fop_readdir {W}. Arguments fop_rename {W}. Arguments fop_remove {W}.

(** The fields of [struct filesys] and [struct fs_node] in the world [W], the
    global [cwdnode], [malloc], and the table [createfs]. *)
Class FsWorld (W : Type) := {
  fsop : W -> Z -> option (fs_operations W);
  node_fs : W -> Z -> option Z;
  node_type : W -> Z -> option fsnode_type;
  set_mnt : Z -> Z -> SM W unit;
  cwd : W -> Z;
  set_cwd : Z -> W -> W;
  walloc : SM W Z;
  createfs : list (Z -> Z -> Z -> SM W Z) }.

(** The globals of fs.c and mtab.h. [cwdpath] are the characters up to
    [cwdpath_end], where the terminator is. *)
Record fss (W : Type) := mk_fss { world : W; rootfs : Z; cwdpath : list Z; mounted : mtab }.
Arguments mk_fss {W}. Arguments world {W}. Arguments rootfs {W}. Arguments cwdpath {W}. Arguments mounted {W}.

(** Size of the array [cwdpath]. *)
Definition CWDPATH_SIZE : Z := 1024.

Section fs.
Context {W : Type} `{FsWorld W}.

Definition in_world {A} (m : SM W A) : SM (fss W) A := fun s =>
  '(a, w) ← m (world s); Ok (a, mk_fss w (rootfs s) (cwdpath s) (mounted s)).
Definition in_mtab {A} (m : SM mtab A) : SM (fss W) A := fun s =>
  '(a, t) ← m (mounted s); Ok (a, mk_fss (world s) (rootfs s) (cwdpath s) t).
Definition set_rootfs (fs : Z) : SM (fss W) unit :=
  sm_upd (fun s => mk_fss (world s) fs (cwdpath s) (mounted s)).
(** Stores a path with its terminator to the array. *)
Definition set_cwdpath (p : list Z) : SM (fss W) unit :=
  if CWDPATH_SIZE <? strlen p + 1 then sm_lift Fault
  else sm_upd (fun s => mk_fss (world s) (rootfs s) p (mounted s)).

(** [fs->fsop]. *)
Definition ops_of (fs : Z) : SM (fss W) (fs_operations W) :=
  s ← sm_get; sm_lift (of_option (fsop (world s) fs)).
(** [node->fs->fsop] and [node->type]. *)
Definition node_ops (p : Z) : SM (fss W) (fs_operations W) :=
  s ← sm_get; fs ← sm_lift (of_option (node_fs (world s) p)); ops_of fs.
Definition type_of (p : Z) : SM (fss W) fsnode_type :=
  s ← sm_get; sm_lift (of_option (node_type (world s) p)).

Definition fs_open (path : list Z) (flags : Z) : SM (fss W) Z :=
  match path with
  | [] => mret 0
  | c :: _ =>
      s ← sm_get;
      if c =? SEP then ops ← ops_of (rootfs s); in_world (fop_open ops (rootfs s) path flags)
      else if cwd (world s) =? 0 then mret 0
      else
        fs ← sm_lift (of_option (node_fs (world s) (cwd (world s))));
        ops ← ops_of fs; in_world (fop_open ops fs path flags)
  end.

Definition fs_close (p : Z) : SM (fss W) Z :=
  if p =? 0 then mret (-1) else ops ← node_ops p; in_world (fop_close ops p);; mret 0.

Definition fs_rename (p : Z) (name : list Z) : SM (fss W) Z :=
  ops ← node_ops p; in_world (fop_rename ops p name).
Definition fs_remove (p : Z) : SM (fss W) Z := ops ← node_ops p; in_world (fop_remove ops p).

(** The calls that need a node of type [ty] and return [bad] for the other. *)
Definition typed {A} (ty : fsnode_type) (bad : A) (p : Z) (f : fs_operations W -> SM W A) : SM (fss W) A :=
  ops ← node_ops p; t ← type_of p; if decide (t = ty) then in_world (f ops) else mret bad.

Definition fs_filesize (p : Z) : SM (fss W) Z := typed FSNODE_FILE (-1) p (fun o => fop_fsize o p).
Definition fs_seek (p offs whence : Z) : SM (fss W) Z :=
  typed FSNODE_FILE (-1) p (fun o => fop_seek o p offs whence).
Definition fs_tell (p : Z) : SM (fss W) Z := typed FSNODE_FILE (-1) p (fun o => fop_tell o p).
Definition fs_read (p sz : Z) : SM (fss W) (Z * list Z) :=
  typed FSNODE_FILE (-1, []) p (fun o => fop_read o p sz).
Definition fs_write (p : Z) (buf : list Z) : SM (fss W) Z :=
  typed FSNODE_FILE (-1) p (fun o => fop_write o p buf).
Definition fs_rewinddir (p : Z) : SM (fss W) Z := typed FSNODE_DIR (-1) p (fun o => fop_rewinddir o p).
Definition fs_readdir (p : Z) : SM (fss W) (option dirent) :=
  typed FSNODE_DIR None p (fun o => fop_readdir o p).

(** The backward scan for a separator from position [e]. *)
Fixpoint scan_up (p : list Z) (e : nat) : nat :=
  match e with
  | O => O
  | S k => match p !! k with
           | Some c => if c =? SEP then k else scan_up p k
           | None => scan_up p k
           end
  end.
(** The path one directory up. *)
Definition parent_path (p : list Z) : list Z :=
  let e := scan_up p (length p) in take (if decide (e = O) then 1%nat else e) p.

Definition fs_chdir (path : list Z) : SM (fss W) Z :=
  match path with
  | [] => mret (-1)
  | c :: _ =>
      if strcmp path [46] =? 0 then mret 0 else
      s ← sm_get;
      let up := strcmp path [46; 46] =? 0 in
      if up && (strlen (cwdpath s) <=? 1) then mret (-1) else
      let path := if up then parent_path (cwdpath s) else path in
      node ← fs_open path 0;
      if node =? 0 then mret (-1) else
      t ← type_of node;
      if decide (t = FSNODE_DIR) then
        (if up then set_cwdpath path
         else if CWDPATH_SIZE <? strlen (cwdpath s) + strlen path then sm_lift Panic
         else if c =? SEP then set_cwdpath path
         else set_cwdpath (cwdpath s ++ (if 1 <? strlen (cwdpath s) then [SEP] else []) ++ path));;
        s ← sm_get;
        fs_close (cwd (world s));;
        sm_upd (fun s => mk_fss (set_cwd node (world s)) (rootfs s) (cwdpath s) (mounted s));;
        mret 0
      else fs_close node;; mret (-1)
  end.

Definition fs_getcwd : SM (fss W) (list Z) := s ← sm_get; mret (cwdpath s).

(** Tries the file system types in turn. *)
Fixpoint try_mount (types : list (Z -> Z -> Z -> SM W Z)) (dev start size par : Z) : SM (fss W) Z :=
  match types with
  | [] => mret 0
  | create :: types =>
      fs ← in_world (create dev start size);
      if fs =? 0 then try_mount types dev start size par else
      (if par =? 0 then set_rootfs fs;; fs_chdir [SEP];; mret tt
       else in_world (set_mnt par fs);; m ← in_world walloc; in_mtab (mtab_add m par fs);; mret tt);;
      mret fs
  end.
Definition fs_mount (dev start size par : Z) : SM (fss W) Z :=
  s ← sm_get;
  if (par =? 0) && negb (rootfs s =? 0) then mret 0
  else try_mount createfs dev start size par.
End fs.

(** ** The path of the working directory *)

(** The path [fs_chdir path] leaves when it was [old]. *)
Definition chdir_path (old path : list Z) : list Z :=
  if strcmp path [46; 46] =? 0 then parent_path old
  else if chr path =? SEP then path
  else old ++ (if 1 <? strlen old then [SEP] else []) ++ path.

Lemma scan_up_app p q e : (e <= length p)%nat -> scan_up (p ++ q) e = scan_up p e.
Proof.
  induction e as [|e IH]; intros He; [done|]. cbn [scan_up]. rewrite lookup_app_l by lia.
  by rewrite IH by lia.
Qed.

Lemma scan_up_component p c : Forall (fun x => x <> SEP) c -> scan_up (p ++ SEP :: c) (length (p ++ SEP :: c)) = length p.
Proof.
  intros Hc. induction c as [|x c IH] using rev_ind.
  - rewrite length_app. cbn [length]. replace (length p + 1)%nat with (S (length p)) by lia. cbn [scan_up].
    by rewrite list_lookup_middle.
  - apply Forall_app in Hc as [Hc Hx]. rewrite Forall_singleton in Hx.
    replace (p ++ SEP :: c ++ [x]) with ((p ++ SEP :: c) ++ [x]) by by rewrite <- app_assoc.
    rewrite length_app. cbn [length]. replace (length (p ++ SEP :: c) + 1)%nat with (S (length (p ++ SEP :: c))) by lia.
    cbn [scan_up]. rewrite list_lookup_middle by done. apply Z.eqb_neq in Hx as ->.
    rewrite scan_up_app by done. by apply IH.
Qed.

Lemma join_path_snoc l c : l <> [] -> join_path (l ++ [c]) = join_path l ++ SEP :: c.
Proof.
  induction l as [|x l IH]; intros Hl; [done|]. cbn [app]. destruct l as [|y l]; [done|].
  rewrite !join_path_cons by done. rewrite IH by done. by rewrite <- app_assoc.
Qed.

(** Up from a subdirectory is where one was. *)
Lemma parent_path_child l c : component c -> parent_path (SEP :: join_path (l ++ [c])) = SEP :: join_path l.
Proof.
  intros [_ Hc]. unfold parent_path. destruct l as [|x l].
  - pose proof (scan_up_component [] c Hc) as E. cbn [app] in E. cbn [app join_path]. by rewrite E.
  - rewrite join_path_snoc by done.
    pose proof (scan_up_component (SEP :: join_path (x :: l)) c Hc) as E. cbn [app] in E. rewrite E.
    destruct (decide _) as [E'|_]; [done|]. change (SEP :: join_path (x :: l) ++ SEP :: c) with ((SEP :: join_path (x :: l)) ++ SEP :: c).
    by rewrite take_app_length.
Qed.

Lemma chdir_path_child l c :
  component c -> strcmp c [46; 46] <> 0 -> Forall component l ->
  chdir_path (SEP :: join_path l) c = SEP :: join_path (l ++ [c]).
Proof.
  intros [Hne Hc] Hup Hl. unfold chdir_path. apply Z.eqb_neq in Hup as ->.
  destruct c as [|x c]; [done|]. apply Forall_cons in Hc as [Hx Hc]. cbn [chr]. apply Z.eqb_neq in Hx as ->. destruct l as [|y l]; [done|].
  rewrite join_path_snoc by done. apply Forall_cons in Hl as [[Hy _] _].
  assert (1 <? strlen (SEP :: join_path (y :: l)) = true) as ->; [|done].
  apply Z.ltb_lt. unfold strlen. destruct l as [|z l]; [cbn [join_path]|rewrite join_path_cons by done; rewrite ?length_app];
    destruct y; try done; cbn [length app]; rewrite ?length_app; cbn [length]; lia.
Qed.

Section fs_facts.
Context {W : Type} `{FsWorld W}.
Implicit Types s : fss W.

(** What a call on the file systems leaves of the state of fs.c. *)
Definition same_fs s s' : Prop := rootfs s' = rootfs s /\ cwdpath s' = cwdpath s /\ mounted s' = mounted s.

Lemma in_world_inv {A} (m : SM W A) s a s' :
  in_world m s = Ok (a, s') -> m (world s) = Ok (a, world s') /\ same_fs s s'.
Proof. unfold in_world. destruct (m (world s)) as [[a' w]| | |]; [|done..]. cbn. by intros [= <- <-]. Qed.

Lemma in_world_ok {A} (m : SM W A) s a w :
  m (world s) = Ok (a, w) -> in_world m s = Ok (a, mk_fss w (rootfs s) (cwdpath s) (mounted s)).
Proof. intros E. unfold in_world. by rewrite E. Qed.

Lemma ops_of_inv fs s o s' : ops_of fs s = Ok (o, s') -> fsop (world s) fs = Some o /\ s' = s.
Proof.
  unfold ops_of. intros (x & s1 & [-> ->]%sm_get_inv & [E ->]%sm_lift_inv)%sm_bind_inv.
  destruct (fsop (world s) fs); [|done]. by injection E as ->.
Qed.
Lemma node_ops_inv p s o s' :
  node_ops p s = Ok (o, s') -> exists fs, node_fs (world s) p = Some fs /\ fsop (world s) fs = Some o /\ s' = s.
Proof.
  unfold node_ops. intros (x & s1 & [-> ->]%sm_get_inv & (fs & s2 & [E ->]%sm_lift_inv & [Eo ->]%ops_of_inv)%sm_bind_inv)%sm_bind_inv.
  exists fs. destruct (node_fs (world s) p); [|done]. by injection E as ->.
Qed.
Lemma type_of_inv p s t s' : type_of p s = Ok (t, s') -> node_type (world s) p = Some t /\ s' = s.
Proof.
  unfold type_of. intros (x & s1 & [-> ->]%sm_get_inv & [E ->]%sm_lift_inv)%sm_bind_inv.
  destruct (node_type (world s) p); [|done]. by injection E as ->.
Qed.
Lemma set_cwdpath_inv p s u s' :
  set_cwdpath p s = Ok (u, s') -> strlen p < CWDPATH_SIZE /\ s' = mk_fss (world s) (rootfs s) p (mounted s).
Proof.
  unfold set_cwdpath. destruct (Z.ltb_spec CWDPATH_SIZE (strlen p + 1)); [done|]. intros ->%sm_upd_inv. split; [lia|done].
Qed.

Lemma fs_open_inv path flags s r s' :
  fs_open path flags s = Ok (r, s') ->
  same_fs s s' /\ (r = 0 /\ s' = s \/ exists fs o, path <> [] /\ fsop (world s) fs = Some o /\
    (if chr path =? SEP then fs = rootfs s else cwd (world s) <> 0 /\ node_fs (world s) (cwd (world s)) = Some fs) /\
    fop_open o fs path flags (world s) = Ok (r, world s')).
Proof.
  unfold fs_open. destruct path as [|c path]; [by intros [= <- <-]; split; [|left]|].
  intros (x & s1 & [-> ->]%sm_get_inv & E)%sm_bind_inv. cbn [chr]. destruct (c =? SEP).
  - apply sm_bind_inv in E as (o & s1 & [Eo ->]%ops_of_inv & [E Hs]%in_world_inv). split; [done|]. right. by exists (rootfs s), o.
  - destruct (Z.eqb_spec (cwd (world s)) 0); [by injection E as <- <-; split; [|left]|].
    apply sm_bind_inv in E as (fs & s1 & [Ef ->]%sm_lift_inv & E).
    apply sm_bind_inv in E as (o & s1 & [Eo ->]%ops_of_inv & [E Hs]%in_world_inv). split; [done|]. right. exists fs, o.
    destruct (node_fs (world s) (cwd (world s))); [|done]. by injection Ef as ->.
Qed.

Lemma fs_close_inv p s r s' :
  fs_close p s = Ok (r, s') -> same_fs s s' /\
  (p = 0 /\ s' = s \/ p <> 0 /\ exists fs o, node_fs (world s) p = Some fs /\ fsop (world s) fs = Some o /\
    fop_close o p (world s) = Ok (tt, world s')).
Proof.
  unfold fs_close. destruct (Z.eqb_spec p 0); [by intros [= <- <-]; split; [|left]|].
  intros (o & s1 & (fs & Ef & Eo & ->)%node_ops_inv & (u & s2 & [E Hs]%in_world_inv & [= _ <-])%sm_bind_inv)%sm_bind_inv.
  split; [done|]. right. split; [done|]. exists fs, o. by destruct u.
Qed.

(** A [fs_chdir] that ends, well or not. *)
Lemma fs_chdir_inv path s r s' :
  fs_chdir path s = Ok (r, s') ->
  s' = s /\ r = -1 \/ s' = s /\ r = 0 /\ strcmp path [46] = 0 \/
  exists node s1, let target := if strcmp path [46; 46] =? 0 then parent_path (cwdpath s) else path in
    path <> [] /\ fs_open target 0 s = Ok (node, s1) /\
    (node = 0 /\ r = -1 /\ s' = s1 \/ node <> 0 /\ exists t, node_type (world s1) node = Some t /\
      ((exists x, t <> FSNODE_DIR /\ r = -1 /\ fs_close node s1 = Ok (x, s')) \/
       exists x s2, t = FSNODE_DIR /\ r = 0 /\ strlen (chdir_path (cwdpath s) path) < CWDPATH_SIZE /\
        fs_close (cwd (world s1)) (mk_fss (world s1) (rootfs s1) (chdir_path (cwdpath s) path) (mounted s1)) = Ok (x, s2) /\
        s' = mk_fss (set_cwd node (world s2)) (rootfs s2) (cwdpath s2) (mounted s2))).
Proof.
  unfold fs_chdir. destruct path as [|c path]; [intros [= <- <-]; by left|].
  destruct (Z.eqb_spec (strcmp (c :: path) [46]) 0) as [Ed|Ed]; [intros [= <- <-]; right; by left|].
  intros (x & s0 & [-> ->]%sm_get_inv & E)%sm_bind_inv.
  destruct ((strcmp (c :: path) [46; 46] =? 0) && (strlen (cwdpath s) <=? 1)); [injection E as <- <-; by left|].
  apply sm_bind_inv in E as (node & s1 & Eo & E). right. right. exists node, s1. cbv zeta.
  split; [done|]. split; [exact Eo|].
  destruct (Z.eqb_spec node 0); [injection E as <- <-; by left|]. right. split; [done|].
  apply sm_bind_inv in E as (t & s1' & [Et ->]%type_of_inv & E). exists t. split; [done|].
  destruct (decide (t = FSNODE_DIR)) as [->|Ht].
  2:{ apply sm_bind_inv in E as (y & s2 & Ec & [= <- <-]). left. by exists y. }
  right. apply sm_bind_inv in E as (u & s2 & Ep & E).
  assert (strlen (chdir_path (cwdpath s) (c :: path)) < CWDPATH_SIZE /\
    s2 = mk_fss (world s1) (rootfs s1) (chdir_path (cwdpath s) (c :: path)) (mounted s1)) as [Hl ->].
  { unfold chdir_path. cbn [chr]. destruct (strcmp (c :: path) [46; 46] =? 0); [by apply set_cwdpath_inv in Ep|].
    destruct (CWDPATH_SIZE <? _); [done|]. destruct (c =? SEP); by apply set_cwdpath_inv in Ep. }
  apply sm_bind_inv in E as (y & s3 & [-> ->]%sm_get_inv & E). cbn [world] in E.
  apply sm_bind_inv in E as (y & s4 & Ec & E). apply sm_bind_inv in E as (v & s5 & ->%sm_upd_inv & [= <- <-]).
  by exists y, s4.
Qed.

Lemma fs_chdir_path path s s' :
  fs_chdir path s = Ok (0, s') -> strcmp path [46] <> 0 -> cwdpath s' = chdir_path (cwdpath s) path.
Proof.
  intros E Hd. apply fs_chdir_inv in E as [[_ ?]|[(_ & _ & ?)|(node & s1 & _ & Eo & E)]]; [lia|done|].
  destruct E as [(_ & ? & _)|(_ & t & _ & [(x & _ & ? & _)|(x & s2 & _ & _ & _ & Ec & ->)])]; [lia..|].
  apply fs_close_inv in Ec as [(_ & Ep & _) _]. cbn in *. done.
Qed.
End fs_facts.

(** C32. Changing to a subdirectory and up again restores the path of the working
    directory, whatever the file systems are, if both calls succeed. On the memory
    file system the second faults when the way down started at the root right
    after mounting, [chdir_breaks_root]. *)
Theorem chdir_up_down {W} `{FsWorld W} (s s1 s2 : fss W) l c :
  cwdpath s = SEP :: join_path l -> Forall component l -> component c ->
  strcmp c [46] <> 0 -> strcmp c [46; 46] <> 0 ->
  fs_chdir c s = Ok (0, s1) -> fs_chdir [46; 46] s1 = Ok (0, s2) ->
  cwdpath s1 = SEP :: join_path (l ++ [c]) /\ cwdpath s2 = cwdpath s.
Proof.
  intros Ep Hl Hc Hd Hu E1 E2. apply fs_chdir_path in E1; [|done]. apply fs_chdir_path in E2; [|done].
  rewrite Ep, chdir_path_child in E1 by done. split; [done|]. rewrite E2, E1, Ep. unfold chdir_path.
  change (strcmp [46; 46] [46; 46] =? 0) with true. cbv iota. by apply parent_path_child.
Qed.

(** The check of the length of the path leaves out the separator and the
    terminator: two lengths of a relative path pass it and are written behind the
    array. *)
Theorem chdir_overflow {W} `{FsWorld W} (s s1 : fss W) path node :
  chr path <> SEP -> strcmp path [46] <> 0 -> strcmp path [46; 46] <> 0 -> path <> [] ->
  fs_open path 0 s = Ok (node, s1) -> node <> 0 -> node_type (world s1) node = Some FSNODE_DIR ->
  1 < strlen (cwdpath s) -> CWDPATH_SIZE - 2 < strlen (cwdpath s) + strlen path <= CWDPATH_SIZE ->
  fs_chdir path s = Fault.
Proof.
  intros Hs Hd Hu Hp E Hn Ht Hc Hlen. unfold fs_chdir. destruct path as [|c path]; [done|]. cbn [chr] in Hs.
  apply Z.eqb_neq in Hd as ->, Hu as ->, Hn as Hn'. cbn [andb].
  rewrite (sm_bind_ok _ _ _ s s) by done. rewrite (sm_bind_ok _ _ _ _ _ E). rewrite Hn'.
  rewrite (sm_bind_ok _ _ s1 FSNODE_DIR s1); [|unfold type_of, mbind, sm_mbind, sm_get, sm_lift; by rewrite Ht].
  destruct (decide (FSNODE_DIR = FSNODE_DIR)); [|done].
  apply Z.ltb_lt in Hc as ->. apply Z.eqb_neq in Hs as ->. cbn [app].
  destruct (Z.ltb_spec CWDPATH_SIZE (strlen (cwdpath s) + strlen (c :: path))); [lia|].
  unfold set_cwdpath. unfold strlen in *. rewrite length_app. cbn [length] in *.
  destruct (Z.ltb_spec CWDPATH_SIZE (Z.of_nat (length (cwdpath s) + S (S (length path))) + 1)); [done|lia].
Qed.

(** ** A file system in which every path is the same directory *)

Definition flat_ops : fs_operations Z :=
  mk_fsop (fun _ => mret tt) (fun _ _ _ => mret 1) (fun _ => mret tt) (fun _ => mret (-1)) (fun _ _ _ => mret (-1))
    (fun _ => mret (-1)) (fun _ _ => mret (-1, [])) (fun _ _ => mret (-1)) (fun _ => mret 0) (fun _ => mret None)
    (fun _ _ => mret (-1)) (fun _ => mret (-1)).
(** The state is [cwdnode]. *)
#[local] Instance flat_world : FsWorld Z := {|
  fsop _ fs := if fs =? 1 then Some flat_ops else None;
  node_fs _ p := if p =? 1 then Some 1 else None;
  node_type _ p := if p =? 1 then Some FSNODE_DIR else None;
  set_mnt _ _ := mret tt;
  cwd w := w;
  set_cwd p _ := p;
  walloc := mret 0;
  createfs := [fun _ _ _ => mret 1] |}.
Definition run_fs (m : SM (fss Z) Z) (s : fss Z) : fss Z := match m s with Ok (_, s) => s | _ => s end.
Definition flat_root : fss Z := run_fs (fs_mount 0 0 0 0) (mk_fss 0 0 [] mtab0).
Definition flat_a : fss Z := run_fs (fs_chdir [97]) flat_root.

Lemma chdir_up_down_witness : cwdpath flat_a = [SEP; 97] /\ cwdpath (run_fs (fs_chdir [46; 46]) flat_a) = [SEP].
Proof.
  apply (chdir_up_down flat_root flat_a _ [] [97]); try done. split; [done|by repeat constructor].
Defined.

Lemma chdir_overflow_witness : fs_chdir (replicate 1021 98) flat_a = Fault.
Proof. apply (chdir_overflow flat_a flat_a _ 1); done. Defined.
