(* ===== verification/FsMount.v ===== *)
(** * Mounts and working directory of memory file systems (src/fs.c, src/fsmem.c)

    The memory file system as an implementation of the interface [FsWorld], and
    the calls of fs.c on it: what they keep, how paths cross mounts, and what
    changing the working directory breaks. *)
From S2P Require Import Prelude Str FsPath FsMem FsTree FsDir Mtab Fs.

Section mem_world.
Variable junk : Z -> Z.
Variable fuel depth : nat.
Variable fsfat_create : Z -> Z -> Z -> SM mfs Z.

(** The table [fs_mem_ops]. *)
Definition fs_mem_ops : fs_operations mfs :=
  mk_fsop (destroy fuel) (mem_fsop_open fuel depth) close fsize seek tell read (write junk) rewinddir readdir
    rename (remove fuel).

Definition mem_world : FsWorld mfs := {|
  fsop w fs := (fun _ => fs_mem_ops) <$> rootdirs w !! fs;
  node_fs w p := fsn_fs <$> handles w !! p;
  node_type w p := handle_type <$> handles w !! p;
  set_mnt p fs := h ← get_handle p; put_handle p (mk_fsn (fsn_fs h) (fsn_data h) fs);
  cwd := cwdnode;
  set_cwd p w := mk_mfs (nodes w) (handles w) (rootdirs w) p (nexta w) (avail w) (errno w);
  walloc := alloc;
  createfs := [fun dev _ _ => fsmem_create (dev =? DEV_MEMDISK); fsfat_create] |}.
End mem_world.

(** ** What [open] changes *)

(** Nothing but nodes, and their first handles stay. *)
Record quiet (s s' : mfs) : Prop := {
  q_handles : handles s' = handles s;
  q_roots : rootdirs s' = rootdirs s;
  q_cwd : cwdnode s' = cwdnode s;
  q_next : nexta s <= nexta s';
  q_nodes p n : nodes s !! p = Some n -> exists n', nodes s' !! p = Some n' /\ nfsnode n' = nfsnode n }.

Lemma quiet_refl s : quiet s s.
Proof. split; try done. intros p n Hn. by exists n. Qed.
Lemma quiet_trans s1 s2 s3 : quiet s1 s2 -> quiet s2 s3 -> quiet s1 s3.
Proof.
  intros [] []. split; [congruence..|lia|]. intros p n Hn.
  destruct (q_nodes0 p n Hn) as (n1 & H1 & E1). destruct (q_nodes1 p n1 H1) as (n2 & H2 & E2). exists n2. by rewrite E2.
Qed.

Lemma quiet_errno s e : quiet s (set_errno e s).
Proof. split; try done. intros p n Hn. by exists n. Qed.

Lemma quiet_alloc s r s' : alloc s = Ok (r, s') -> quiet s s'.
Proof.
  intros [[_ ->]|(_ & k & _ & ->)]%alloc_inv; [apply quiet_refl|]. split; try done; cbn; [lia|]. intros p n Hn. by exists n.
Qed.

Definition handles_below (s : mfs) : Prop := 0 < nexta s /\ forall p h, handles s !! p = Some h -> p < nexta s.

Lemma quiet_below s s' : quiet s s' -> handles_below s -> handles_below s'.
Proof. intros [] [H0 H]. split; [lia|]. intros p h Hp. rewrite q_handles0 in Hp. apply H in Hp. lia. Qed.

Lemma memfs_below s : memfs_ok s -> handles_below s.
Proof. intros [ch T]. split; [apply (t_fresh _ _ T)|]. intros p h Hp. apply (t_handle _ _ T) in Hp as [? _]. lia. Qed.

(** [open] returns null or a new handle. *)
Record opened (s : mfs) (r : Z) (s' : mfs) : Prop := {
  o_roots : rootdirs s' = rootdirs s;
  o_cwd : cwdnode s' = cwdnode s;
  o_nodes p n : nodes s !! p = Some n -> exists n', nodes s' !! p = Some n' /\ (nfsnode n <> 0 -> nfsnode n' = nfsnode n);
  o_handle : r = 0 /\ handles s' = handles s \/
    r <> 0 /\ handles s !! r = None /\ exists h, handles s' = <[r := h]> (handles s) /\ mnt h = 0 }.

Lemma quiet_opened s1 s2 r s3 : quiet s1 s2 -> opened s2 r s3 -> opened s1 r s3.
Proof.
  intros [] []. split; [congruence..| |].
  - intros p n Hn. destruct (q_nodes0 p n Hn) as (n1 & H1 & E1). destruct (o_nodes0 p n1 H1) as (n2 & H2 & E2).
    exists n2. split; [done|]. rewrite <- E1. done.
  - by rewrite <- q_handles0.
Qed.
Lemma quiet_null s s' : quiet s s' -> opened s 0 s'.
Proof.
  intros []. split; [done..| |by left]. intros p n Hn. destruct (q_nodes0 p n Hn) as (n' & H & E). by exists n'.
Qed.

Lemma create_fsnode_opened fs p s r s' : handles_below s -> create_fsnode fs p s = Ok (r, s') -> opened s r s'.
Proof.
  intros [Hx0 Hb] E. unfold create_fsnode in E. apply sm_bind_inv in E as (a & s1 & Ea & E).
  pose proof (quiet_alloc _ _ _ Ea) as Q1. apply alloc_inv in Ea as Ha.
  minv1; [minv; eapply quiet_null, quiet_trans; [exact Q1|apply quiet_errno]|].
  destruct Ha as [[-> _]|(-> & _)]; [done|].
  apply sm_bind_inv in E as (n & s1' & [Hn ->]%get_node_inv & E).
  apply sm_bind_inv in E as (b & s2 & Eb & E). pose proof (quiet_trans _ _ _ Q1 (quiet_alloc _ _ _ Eb)) as Q2.
  minv1; [minv; eapply quiet_null, quiet_trans; [exact Q2|apply quiet_errno]|].
  assert (nodes s2 !! p = Some n) as Hn2.
  { apply alloc_inv in Eb as [[_ ->]|(_ & k & _ & ->)]; done. }
  apply (quiet_opened _ s2); [done|]. destruct Q2.
  assert (handles s2 !! nexta s = None) as Hnone.
  { rewrite q_handles0. destruct (handles s !! nexta s) eqn:Eh; [|done]. apply Hb in Eh. lia. }
  apply sm_bind_inv in E as (u & s3 & ->%put_handle_inv & E). apply sm_bind_inv in E as (u' & s4 & E4 & E).
  minv.
  - split; try done; cbn; [|right; split; [lia|split; [done|by eexists]]].
    intros q m Hq. destruct (decide (q = p)) as [->|].
    + rewrite lookup_insert_eq. eexists. split; [done|]. intros H. exfalso. apply H, Z.eqb_eq. congruence.
    + rewrite lookup_insert_ne by done. by exists m.
  - split; try done; cbn; [intros q m Hq; by exists m|]. right. split; [lia|]. split; [done|]. by eexists.
Qed.

Section opened.
Variable fsop_open : Z -> list Z -> Z -> SM mfs Z.
Hypothesis fsop_opened : forall fs path flags s r s',
  memfs_ok s -> fsop_open fs path flags s = Ok (r, s') -> opened s r s'.

Lemma open_walk_opened fuel fs node path flags s r s' :
  memfs_ok s -> open_walk fsop_open fuel fs node path flags s = Ok (r, s') -> opened s r s'.
Proof.
  revert node path s. induction fuel as [|fuel IH]; intros node path s Hb E; [done|]. cbn [open_walk] in E.
  apply sm_bind_inv in E as (n & s0 & [Hn ->]%get_node_inv & E).
  assert (forall m s1, node_mnt n s = Ok (m, s1) -> s1 = s) as Hmnt by (intros m s1 Em; unfold node_mnt in Em; by minv).
  destruct path as [|c path].
  - apply sm_bind_inv in E as (m & s1 & ->%Hmnt & E). minv1; [by eapply fsop_opened|].
    minv1; [minv; apply quiet_null, quiet_errno|eapply create_fsnode_opened; [by apply memfs_below|done]].
  - destruct (decide (ntype n = FSNODE_DIR)); [|minv; apply quiet_null, quiet_errno].
    apply sm_bind_inv in E as (m & s1 & ->%Hmnt & E). minv1; [by eapply fsop_opened|].
    destruct (fs_path_next _ _) as [name rest].
    apply sm_bind_inv in E as (p & s1 & ->%find_entry_inv & E). minv1; [|by eapply IH].
    minv1; [minv; apply quiet_null, quiet_errno|].
    apply sm_bind_inv in E as (q & s1 & Ea & E). destruct (Z.eqb_spec q 0) as [->|Hq].
    { apply alloc_node_null in Ea as ->; [|done]. minv. apply quiet_null, quiet_errno. }
    destruct Hb as [ch T].
    destruct (create_steps_inv s ch node n name _ q s1 fs r s' T Hn ltac:(done) Ea Hq E) as (nd' & k & T1 & Hsame & E').
    apply (quiet_opened _ (set_nodes nd' (bump s k))).
    + split; try done; cbn; [lia|]. intros y a Hy. destruct (Hsame y a Hy) as (b & Hb & Es). exists b. split; [done|]. apply Es.
    + eapply create_fsnode_opened; [|exact E']. apply memfs_below. by eexists.
Qed.

Lemma open_opened fuel fs path flags s r s' :
  memfs_ok s -> open fsop_open fuel fs path flags s = Ok (r, s') -> opened s r s'.
Proof.
  intros Hok E. unfold open, open_from in E.
  minv; solve [by eapply open_walk_opened | apply quiet_null, quiet_refl].
Qed.
End opened.

Lemma mem_fsop_opened fuel depth fs path flags s r s' :
  memfs_ok s -> mem_fsop_open fuel depth fs path flags s = Ok (r, s') -> opened s r s'.
Proof.
  revert fs path flags s r s'. induction depth as [|depth IH]; intros fs path flags s r s' Hok E; [done|].
  eapply open_opened; [|done|exact E]. exact IH.
Qed.

(** ** The handles the other operations leave *)

(** Every handle stays open, on a node of the same type. *)
Definition keeps_open (s s' : mfs) : Prop :=
  cwdnode s' = cwdnode s /\ forall p h, handles s !! p = Some h ->
    exists h', handles s' !! p = Some h' /\ handle_type h' = handle_type h.

Lemma keeps_open_refl s : keeps_open s s.
Proof. split; [done|]. intros p h Hp. by exists h. Qed.
Lemma keeps_open_trans s1 s2 s3 : keeps_open s1 s2 -> keeps_open s2 s3 -> keeps_open s1 s3.
Proof.
  intros [E1 H1] [E2 H2]. split; [congruence|]. intros p h Hp. destruct (H1 p h Hp) as (h' & Hp' & E).
  destruct (H2 p h' Hp') as (h'' & ? & ?). exists h''. split; [done|]. congruence.
Qed.
Lemma keeps_open_same s s' : handles s' = handles s -> cwdnode s' = cwdnode s -> keeps_open s s'.
Proof. intros E1 E2. split; [done|]. intros p h Hp. exists h. by rewrite E1. Qed.
Lemma keeps_open_put s p h h' :
  handles s !! p = Some h -> handle_type h' = handle_type h -> keeps_open s (set_handles (<[p := h']> (handles s)) s).
Proof.
  intros Hp E. split; [done|]. intros q m Hq. cbn. destruct (decide (q = p)) as [->|].
  - rewrite lookup_insert_eq. exists h'. split; [done|]. congruence.
  - rewrite lookup_insert_ne by done. by exists m.
Qed.
Lemma opened_keeps s r s' : opened s r s' -> keeps_open s s'.
Proof.
  intros [_ Ec _ Hh]. split; [done|]. intros p h Hp. destruct Hh as [[_ ->]|(_ & Hr & x & -> & _)]; [by exists h|].
  exists h. by rewrite lookup_insert_ne by congruence.
Qed.

Lemma free_node_handles fuel p s u s' : free_node fuel p s = Ok (u, s') -> keeps_open s s'.
Proof.
  revert p s u s'. induction fuel as [|fuel IH]; intros p s u s' E; [done|]. cbn [free_node] in E.
  destruct (p =? 0); [minv; apply keeps_open_refl|].
  apply sm_bind_inv in E as (n & s1 & [_ ->]%get_node_inv & E). destruct (nbody_of n) as [dd sz mx|c t].
  - apply put_node_inv in E as ->. by apply keeps_open_same.
  - destruct (c =? 0); [minv; apply keeps_open_refl|].
    apply sm_bind_inv in E as (cn & s1 & [_ ->]%get_node_inv & E). apply sm_bind_inv in E as (v & s1 & ->%put_node_inv & E).
    apply sm_bind_inv in E as (w & s1 & E1%IH & E%IH). by eapply keeps_open_trans.
Qed.
Lemma unlink_handles fuel d p prev q s r s' : unlink fuel d p prev q s = Ok (r, s') -> keeps_open s s'.
Proof.
  revert prev q. induction fuel as [|fuel IH]; intros prev q E; [done|]. cbn [unlink] in E.
  destruct (q =? 0); [minv; apply keeps_open_refl|]. destruct (q =? p); [minv; by apply keeps_open_same|].
  apply sm_bind_inv in E as (c & s1 & [_ ->]%get_node_inv & E). by eapply IH.
Qed.

Lemma remove_handles fuel p s r s' : remove fuel p s = Ok (r, s') -> keeps_open s s'.
Proof.
  intros E. unfold remove in E. apply sm_bind_inv in E as (h & s0 & [_ ->]%get_handle_inv & E). cbv zeta in E.
  apply sm_bind_inv in E as (n & s0 & [_ ->]%get_node_inv & E).
  assert (forall e, keeps_open s (set_errno e s)) as He by (intros e; by apply keeps_open_same).
  assert (forall q d, (found ← unlink fuel (parent n) (target h) q d;
     if (found : bool) then (free_node fuel (target h);; mret 0) else mret (-1)) s = Ok (r, s') -> keeps_open s s') as Ht.
  { intros q d Et. apply sm_bind_inv in Et as (found & s1 & Eu%unlink_handles & Et). destruct found; [|by minv].
    apply sm_bind_inv in Et as (u & s2 & Ef%free_node_handles & [_ ->]%mret_inv). by eapply keeps_open_trans. }
  destruct (decide _); [destruct (negb _); [apply fail_inv in E as [_ ->]; apply He|]|];
    (destruct (parent n =? 0); [apply fail_inv in E as [_ ->]; apply He|]);
    apply sm_bind_inv in E as (d & s1 & [_ ->]%get_node_inv & E); by eapply Ht.
Qed.

Ltac kept := minv; first [apply keeps_open_refl | by apply keeps_open_same | by eapply keeps_open_put | idtac].

Lemma write_handles junk p buf s r s' : write junk p buf s = Ok (r, s') -> keeps_open s s'.
Proof.
  intros E. unfold write in E. destruct (p =? 0); [kept|].
  apply sm_bind_inv in E as (h & s0 & [Hh ->]%get_handle_inv & E). destruct (fsn_data h) as [f pos|] eqn:Ed; [|kept].
  apply sm_bind_inv in E as (n & s0 & [_ ->]%get_node_inv & E). destruct (nbody_of n); [|kept].
  destruct (_ <=? _); [by minv|].
  apply sm_bind_inv in E as (d & s0 & [_ ->]%sm_lift_inv & E).
  apply sm_bind_inv in E as (tmp & s1 & Et & E).
  assert (handles s1 = handles s /\ cwdnode s1 = cwdnode s) as [Eh Ec].
  { clear E. destruct (_ <? _); [|by apply mret_inv in Et as [_ ->]].
    apply realloc_inv in Et as [(_ & _ & _ & ->)|(_ & [q Ea] & _)]; [done|]. by apply alloc_inv in Ea as [[_ ->]|(_ & k & _ & ->)]. }
  apply (keeps_open_trans _ s1); [by apply keeps_open_same|]. rewrite <- Eh in Hh.
  destruct tmp; [|apply fail_inv in E as [_ ->]; by apply keeps_open_same]. destruct (_ && _); [done|].
  apply sm_bind_inv in E as (u & s2 & ->%put_handle_inv & E). apply sm_bind_inv in E as (v & s3 & ->%put_node_inv & [_ ->]%mret_inv).
  eapply keeps_open_trans; [|by apply keeps_open_same]. apply (keeps_open_put s1 p h); [done|]. unfold handle_type. by rewrite Ed.
Qed.
Lemma seek_handles p offs whence s r s' : seek p offs whence s = Ok (r, s') -> keeps_open s s'.
Proof.
  intros E. unfold seek in E. minv; try apply keeps_open_refl; (eapply keeps_open_put; [done|]);
    unfold handle_type; match goal with H : fsn_data _ = _ |- _ => by rewrite H end.
Qed.
Lemma read_handles p sz s r s' : read p sz s = Ok (r, s') -> keeps_open s s'.
Proof.
  intros E. unfold read in E. minv; try apply keeps_open_refl; (eapply keeps_open_put; [done|]);
    unfold handle_type; match goal with H : fsn_data _ = _ |- _ => by rewrite H end.
Qed.
Lemma rewinddir_handles p s r s' : rewinddir p s = Ok (r, s') -> keeps_open s s'.
Proof.
  intros E. unfold rewinddir in E. minv; try apply keeps_open_refl; (eapply keeps_open_put; [done|]);
    unfold handle_type; match goal with H : fsn_data _ = _ |- _ => by rewrite H end.
Qed.
Lemma readdir_handles p s r s' : readdir p s = Ok (r, s') -> keeps_open s s'.
Proof.
  intros E. unfold readdir in E. minv; try apply keeps_open_refl; (eapply keeps_open_put; [done|]);
    unfold handle_type; match goal with H : fsn_data _ = _ |- _ => by rewrite H end.
Qed.

(** A root directory whose first handle is gone. *)
Lemma root_stale fuel depth (w : mfs) fs root n p flags :
  rootdirs w !! fs = Some root -> nodes w !! root = Some n -> ntype n = FSNODE_DIR -> node_mnt n w = Fault ->
  (0 < fuel)%nat -> (0 < depth)%nat -> mem_fsop_open fuel depth fs (SEP :: p) flags w = Fault.
Proof.
  intros Hr Hn Hty Hm Hf Hd. destruct depth as [|k]; [lia|]. cbn [mem_fsop_open]. unfold open.
  cbn [chr]. rewrite Z.eqb_refl. rewrite (sm_bind_ok _ _ _ w w) by done. rewrite Hr. rewrite (sm_bind_ok _ _ _ root w) by done.
  unfold open_from. rewrite (sm_bind_ok _ _ _ _ _ (get_node_ok _ _ _ Hn)).
  destruct (decide _); [|done]. destruct fuel as [|f]; [lia|]. cbn [open_walk].
  rewrite (sm_bind_ok _ _ _ _ _ (get_node_ok _ _ _ Hn)). unfold mbind at 1, sm_mbind.
  destruct (fs_path_skipsep _); [by rewrite Hm|]. destruct (decide _); [|done]. unfold mbind, sm_mbind. by rewrite Hm.
Qed.


Lemma fsmem_create_inv s ch fs w :
  tree_ok s ch -> fsmem_create true s = Ok (fs, w) ->
  tree_ok w ch /\ handles w = handles s /\ cwdnode w = cwdnode s /\ fs <> 0 /\ nexta s < fs /\
  exists r, nodes s !! r = None /\ nodes w = <[r := empty_node FSNODE_DIR]> (nodes s) /\
    rootdirs w = <[fs := r]> (rootdirs s).
Proof.
  intros T E. split; [by eapply fsmem_create_ok|]. unfold fsmem_create in E. cbn [negb] in E.
  apply sm_bind_inv in E as (a & s1 & Ea & E). pose proof (alloc_ok _ _ _ _ T Ea) as [T1 _].
  apply alloc_inv in Ea as [[-> _]|(-> & k & _ & ->)]; [done|]. minv1; [done|].
  apply sm_bind_inv in E as (r & s2 & Er & E).
  destruct (alloc_node_spec _ ch FSNODE_DIR T1) as (r' & s2' & Er' & T2 & Eh & Ero & Ecw & Hr).
  rewrite Er' in Er. injection Er as <- <-. minv1; [done|].
  destruct (avail _); [by destruct Hr as [-> _]|]. destruct Hr as (-> & _ & Hn & Hx & _ & Hnone & _).
  apply sm_bind_inv in E as (f & s3 & Ef & E).
  apply alloc_inv in Ef as [[-> _]|(-> & k2 & _ & ->)]; [done|]. minv1; [done|]. minv.
  pose proof (t_fresh _ _ T). cbn in *. split; [done|]. split; [done|]. split; [lia|]. split; [lia|].
  exists (nexta s + 1). split; [done|]. split; [done|]. by rewrite Ero.
Qed.

(** ** The calls *)

(** A call of fs.c by a user of the file systems. *)
Inductive fs_call :=
| COpen (path : list Z) (flags : Z)
| CClose (p : Z)
| CRename (p : Z) (name : list Z)
| CRemove (p : Z)
| CSeek (p offs whence : Z)
| CRead (p sz : Z)
| CWrite (p : Z) (buf : list Z)
| CRewinddir (p : Z)
| CReaddir (p : Z)
| CChdir (path : list Z)
| CMount (dev start size par : Z).

(** Before anything is mounted, with memory for [k] objects. *)
Definition fs_init (k : nat) : fss mfs := mk_fss (mem_init k) 0 [] mtab0.

Section calls.
Variable junk : Z -> Z.
Variable fuel depth : nat.
Variable fsfat_create : Z -> Z -> Z -> SM mfs Z.
#[local] Instance calls_world : FsWorld mfs := mem_world junk fuel depth fsfat_create.
Implicit Types s : fss mfs.

Definition run_call (c : fs_call) : SM (fss mfs) unit :=
  match c with
  | COpen path flags => fs_open path flags;; mret tt
  | CClose p => fs_close p;; mret tt
  | CRename p name => fs_rename p name;; mret tt
  | CRemove p => fs_remove p;; mret tt
  | CSeek p offs whence => fs_seek p offs whence;; mret tt
  | CRead p sz => fs_read p sz;; mret tt
  | CWrite p buf => fs_write p buf;; mret tt
  | CRewinddir p => fs_rewinddir p;; mret tt
  | CReaddir p => fs_readdir p;; mret tt
  | CChdir path => fs_chdir path;; mret tt
  | CMount dev start size par => fs_mount dev start size par;; mret tt
  end.

(** The tree, and the working directory with its path. *)
Record vfs_ok s : Prop := {
  v_tree : memfs_ok (world s);
  v_cwd : cwdnode (world s) = 0 /\ cwdpath s = [] \/
    exists t h, cwdpath s = SEP :: t /\ handles (world s) !! cwdnode (world s) = Some h /\ handle_type h = FSNODE_DIR;
  v_path : strlen (cwdpath s) < CWDPATH_SIZE }.

Definition kept_world s s' : Prop :=
  same_fs s s' /\ (memfs_ok (world s) -> memfs_ok (world s')) /\ keeps_open (world s) (world s').

Lemma kept_vfs s s' : kept_world s s' -> vfs_ok s -> vfs_ok s'.
Proof.
  intros [(_ & Ep & _) [Hok [Ec Hk]]] [Ht Hc Hp]. split; [auto| |by rewrite Ep]. rewrite Ec, Ep.
  destruct Hc as [?|(t & h & E & Hh & Ety)]; [by left|]. right.
  destruct (Hk _ _ Hh) as (h' & Hh' & E'). exists t, h'. split_and!; congruence.
Qed.

Lemma mem_fsop_inv w fs o : fsop w fs = Some o -> o = fs_mem_ops junk fuel depth.
Proof. cbn. destruct (rootdirs w !! fs); [|done]. by intros [= <-]. Qed.

Lemma kept_in_world {A} (m : SM mfs A) s a s' :
  in_world m s = Ok (a, s') ->
  (forall ch w, tree_ok (world s) ch -> m (world s) = Ok (a, w) -> memfs_ok w) ->
  (forall w, m (world s) = Ok (a, w) -> keeps_open (world s) w) -> kept_world s s'.
Proof. intros [E Hs]%in_world_inv Hok Hk. split; [done|]. split; [|by apply Hk]. intros [ch T]. by eapply Hok. Qed.

Lemma typed_inv {A} ty (bad : A) p f s r s' :
  typed ty bad p f s = Ok (r, s') ->
  s' = s \/ in_world (f (fs_mem_ops junk fuel depth)) s = Ok (r, s').
Proof.
  unfold typed. intros (o & s1 & (fs & _ & Eo & ->)%node_ops_inv & E)%sm_bind_inv. apply mem_fsop_inv in Eo as ->.
  apply sm_bind_inv in E as (t & s1 & [_ ->]%type_of_inv & E). destruct (decide (t = ty)); [by right|].
  apply mret_inv in E as [_ ->]. by left.
Qed.

Lemma kept_refl s : kept_world s s.
Proof. split; [done|]. split; [done|apply keeps_open_refl]. Qed.

Lemma kept_open path flags s r s' :
  memfs_ok (world s) -> fs_open path flags s = Ok (r, s') ->
  kept_world s s' /\ opened (world s) r (world s').
Proof.
  intros Hok [Hs [[-> ->]|(fs & o & _ & ->%mem_fsop_inv & _ & E)]]%fs_open_inv.
  - split; [apply kept_refl|apply quiet_null, quiet_refl].
  - cbn in E. pose proof (mem_fsop_opened _ _ _ _ _ _ _ _ Hok E) as Ho. split; [|done]. split; [done|].
    split; [|by eapply opened_keeps]. intros _. by eapply mem_fsop_open_ok.
Qed.

Lemma close_vfs p s r s' : p <> cwdnode (world s) -> fs_close p s = Ok (r, s') -> vfs_ok s -> vfs_ok s'.
Proof.
  intros Hp [(_ & Ep & _) [[-> ->]|(Hp0 & fs & o & _ & ->%mem_fsop_inv & E)]]%fs_close_inv [Ht Hc Hl]; [done|].
  cbn in E. pose proof Ht as [ch T]. split; [exists ch; by eapply close_ok| |by rewrite Ep].
  unfold close in E. destruct (p =? 0) eqn:Ez; [lia|]. apply sm_bind_inv in E as (h & w & [_ ->]%get_handle_inv & ->%free_handle_inv).
  rewrite Ep. cbn. destruct Hc as [?|(t & h' & E' & Hh & Ety)]; [by left|]. right. exists t, h'.
  by rewrite lookup_delete_ne by done.
Qed.

Lemma chdir_path_abs old path t :
  old = SEP :: t -> path <> [] -> exists t', chdir_path old path = SEP :: t'.
Proof.
  intros -> Hp. unfold chdir_path. destruct (strcmp path [46; 46] =? 0).
  - unfold parent_path. destruct (scan_up _ _) as [|e]; cbn; [by exists []|by eexists].
  - destruct path as [|c path]; [done|]. cbn [chr]. destruct (Z.eqb_spec c SEP) as [->|]; [by eexists|by eexists].
Qed.

Lemma chdir_vfs path s r s' : fs_chdir path s = Ok (r, s') -> vfs_ok s -> vfs_ok s'.
Proof.
  intros E Hok. pose proof Hok as [Ht Hc Hp].
  apply fs_chdir_inv in E as [[-> _]|[(-> & _)|(node & s1 & Hne & Eo & E)]]; [done..|].
  pose proof (fs_open_inv _ _ _ _ _ Eo) as [(Er & Ep & Em) Hfs].
  destruct (kept_open _ _ _ _ _ Ht Eo) as [Hk Ho]. pose proof (kept_vfs _ _ Hk Hok) as Hok1.
  destruct E as [(_ & _ & ->)|(Hn & t & Ety & E)]; [done|].
  assert (node <> cwdnode (world s1)) as Hnc.
  { rewrite (o_cwd _ _ _ Ho). intros ->. destruct Hc as [[? _]|(? & h & _ & Hh & _)]; [done|].
    destruct (o_handle _ _ _ Ho) as [[? _]|(_ & ? & _)]; congruence. }
  destruct E as [(x & _ & _ & Ec)|(x & s2 & -> & _ & Hl & Ec & ->)]; [by eapply close_vfs|].
  assert (exists t, chdir_path (cwdpath s) path = SEP :: t) as [t Et].
  { destruct Hfs as [[? _]|(fs & o & Hne' & _ & Hfs & _)]; [done|]. destruct Hc as [[Hc0 E0]|(t & h & E0 & _)]; [|by eapply chdir_path_abs].
    rewrite E0 in *. unfold chdir_path in *. destruct (strcmp path [46; 46] =? 0); [done|].
    destruct path as [|c path]; [done|]. cbn [chr] in *. destruct (Z.eqb_spec c SEP) as [->|]; [by eexists|].
    by destruct Hfs. }
  apply fs_close_inv in Ec as [(_ & Ep2 & _) Ec]. cbn [cwdpath world rootfs mounted] in *.
  assert (exists h, handles (world s2) !! node = Some h /\ handle_type h = FSNODE_DIR /\ memfs_ok (world s2)) as (h & Hh & Hty & Hok2).
  { cbn in Ety. destruct (handles (world s1) !! node) as [h|] eqn:Eh; [|done]. injection Ety as Ety.
    destruct Ec as [(_ & ->)|(Hc0 & fs & o & _ & ->%mem_fsop_inv & Ec)]; [by exists h; destruct Hok1|].
    destruct Hok1 as [[ch T] _ _]. cbn in Ec. pose proof (close_ok _ _ _ _ _ T Ec) as T2. unfold close in Ec.
    destruct (cwdnode (world s1) =? 0); [apply mret_inv in Ec as [_ ->]; exists h; repeat split; try done; by exists ch|].
    apply sm_bind_inv in Ec as (h' & w & [_ ->]%get_handle_inv & Ew%free_handle_inv). exists h.
    split; [rewrite Ew; cbn; by rewrite lookup_delete_ne by done|]. split; [done|by exists ch]. }
  split; cbn.
  - destruct Hok2 as [ch T]. exists ch. by destruct T.
  - right. exists t, h. by rewrite Ep2.
  - by rewrite Ep2.
Qed.

Lemma fsmem_create_keeps b (s0 : mfs) fs w : fsmem_create b s0 = Ok (fs, w) -> keeps_open s0 w.
Proof.
  intros E. unfold fsmem_create in E. destruct (negb b); [minv; apply keeps_open_refl|].
  apply sm_bind_inv in E as (a & s1 & Ea%quiet_alloc & E). minv1; [done|].
  apply sm_bind_inv in E as (root & s2 & Er & E). minv1; [done|].
  apply sm_bind_inv in E as (f & s3 & Ef%quiet_alloc & E). minv1; [done|]. minv.
  unfold alloc_node in Er. apply sm_bind_inv in Er as (q & s4 & Eq%quiet_alloc & Er).
  destruct Ea, Ef, Eq. apply keeps_open_same; cbn.
  - minv; cbn in *; congruence.
  - minv; cbn in *; congruence.
Qed.

(** The first type of file system takes the device: the others are not asked. *)
Lemma mount_vfs create types dev start size par s r s' :
  (forall w fs w', memfs_ok w -> create dev start size w = Ok (fs, w') -> fs <> 0 /\ memfs_ok w' /\ keeps_open w w') ->
  try_mount (create :: types) dev start size par s = Ok (r, s') -> vfs_ok s -> vfs_ok s'.
Proof.
  intros Hf E Hok. cbn [try_mount] in E. apply sm_bind_inv in E as (fs & s1 & Ef & E).
  assert (fs <> 0 /\ memfs_ok (world s1) /\ keeps_open (world s) (world s1)) as (Hfs & Ht1 & Hk1).
  { apply in_world_inv in Ef as [Ef _]. by apply (Hf _ _ _ (v_tree _ Hok)). }
  assert (vfs_ok s1) as Hok1.
  { apply in_world_inv in Ef as [_ Hs]. apply (kept_vfs s); [|done]. by repeat split; try apply Hs; try apply Hk1. }
  apply Z.eqb_neq in Hfs as Hfs0. rewrite Hfs0 in E.
  apply sm_bind_inv in E as (u & s2 & E2 & [_ ->]%mret_inv). destruct (par =? 0).
  - apply sm_bind_inv in E2 as (v & s3 & ->%sm_upd_inv & E2). apply sm_bind_inv in E2 as (x & s3 & Ec & [_ ->]%mret_inv).
    eapply chdir_vfs; [done|]. by destruct Hok1.
  - apply sm_bind_inv in E2 as (v & s3 & Em & E2). apply sm_bind_inv in E2 as (m & s4 & Ea & E2).
    assert (vfs_ok s4) as Hok4.
    { apply in_world_inv in Em as [Em Hs]. apply in_world_inv in Ea as [Ea Hs4]. cbn in Em, Ea.
      apply sm_bind_inv in Em as (h & w & [Hh ->]%get_handle_inv & Em%put_handle_inv).
      assert (kept_world s1 s3) as Hk.
      { split; [done|]. rewrite Em. split; [|by eapply keeps_open_put]. intros [ch T]. exists ch.
        destruct (t_handle _ _ T par h Hh) as (H1 & H2 & H3). by apply tree_handle. }
      apply (kept_vfs s3); [|by eapply kept_vfs]. split; [done|]. pose proof (quiet_alloc _ _ _ Ea) as [].
      split; [|by apply keeps_open_same]. intros [ch T]. exists ch. by destruct (alloc_ok _ _ _ _ T Ea). }
    apply sm_bind_inv in E2 as (x & s5 & Et & [_ ->]%mret_inv). unfold in_mtab in Et.
    destruct (mtab_add m par fs (mounted s4)) as [[y t]| | |]; [|done..]. cbn in Et. injection Et as _ <-.
    by destruct Hok4.
Qed.

Lemma typed_vfs {A} ty (bad : A) p f s r s' :
  typed ty bad p f s = Ok (r, s') ->
  (forall ch x w, tree_ok (world s) ch -> f (fs_mem_ops junk fuel depth) (world s) = Ok (x, w) -> memfs_ok w) ->
  (forall x w, f (fs_mem_ops junk fuel depth) (world s) = Ok (x, w) -> keeps_open (world s) w) ->
  vfs_ok s -> vfs_ok s'.
Proof.
  intros [->|E]%typed_inv Hok Hk Hv; [done|]. apply (kept_vfs s); [|done].
  eapply kept_in_world; [done|intros ch w T Ew; by eapply Hok|intros w Ew; by eapply Hk].
Qed.

(** The calls that are made: any of them, but the handle fs.c keeps for the
    working directory is not closed, and what is mounted is a memory disk. *)
Definition may_call (c : fs_call) (s : fss mfs) : Prop :=
  match c with CClose p => p <> cwdnode (world s) | CMount dev _ _ _ => dev = DEV_MEMDISK | _ => True end.

(** The states such calls lead to. A call that faults or panics ends the run. *)
Inductive vfs_reachable : fss mfs -> Prop :=
| vfs_start k : vfs_reachable (fs_init k)
| vfs_call c s s' : vfs_reachable s -> may_call c s -> run_call c s = Ok (tt, s') -> vfs_reachable s'.

Lemma run_call_vfs c s s' :
  may_call c s -> run_call c s = Ok (tt, s') -> vfs_ok s -> vfs_ok s'.
Proof.
  intros Hc E Hok. pose proof Hok as [Ht _ _].
  destruct c; cbn [run_call] in E; apply sm_bind_inv in E as (r & s1 & E & [_ ->]%mret_inv).
  - eapply kept_vfs; [by eapply kept_open|done].
  - eapply close_vfs; [by apply Hc|done|done].
  - unfold fs_rename in E. apply sm_bind_inv in E as (o & s2 & (fs & _ & ->%mem_fsop_inv & ->)%node_ops_inv & E).
    eapply kept_vfs; [eapply kept_in_world; [done|..]|done].
    + intros ch w T Ew. exists ch. by eapply rename_ok.
    + cbn. intros w Ew. unfold rename in Ew. minv. by apply keeps_open_same.
  - unfold fs_remove in E. apply sm_bind_inv in E as (o & s2 & (fs & _ & ->%mem_fsop_inv & ->)%node_ops_inv & E).
    eapply kept_vfs; [eapply kept_in_world; [done|..]|done].
    + intros ch w T Ew. cbn in Ew. by eapply remove_ok.
    + intros w. apply remove_handles.
  - eapply typed_vfs; [done|intros ch x w T Ew; cbn in Ew; exists ch; by eapply seek_ok|intros x w; apply seek_handles|done].
  - eapply typed_vfs; [done|intros ch x w T Ew; cbn in Ew; exists ch; by eapply read_ok|intros x w; apply read_handles|done].
  - eapply typed_vfs; [done|intros ch x w T Ew; cbn in Ew; exists ch; by eapply write_ok|intros x w; apply write_handles|done].
  - eapply typed_vfs; [done|intros ch x w T Ew; cbn in Ew; exists ch; by eapply rewinddir_ok|intros x w; apply rewinddir_handles|done].
  - eapply typed_vfs; [done|intros ch x w T Ew; cbn in Ew; exists ch; by eapply readdir_ok|intros x w; apply readdir_handles|done].
  - by eapply chdir_vfs.
  - unfold fs_mount in E. apply sm_bind_inv in E as (x & s2 & [-> ->]%sm_get_inv & E).
    destruct (_ && _); [by apply mret_inv in E as [_ ->]|]. eapply mount_vfs; [|exact E|done].
    cbn in Hc. subst dev. intros w fs w' [ch T] Ef. rewrite Z.eqb_refl in Ef.
    pose proof (fsmem_create_keeps _ _ _ _ Ef). apply (fsmem_create_inv _ ch) in Ef as (Tw & _ & _ & Hfs & _); [|done].
    split; [done|]. split; [by exists ch|done].
Qed.

Lemma fs_init_ok k : vfs_ok (fs_init k).
Proof. split; [|by left|done]. exists ∅. apply mem_init_ok. Qed.

(** C6. Whatever calls of fs.c are made in what order on memory file systems, the
    nodes stay a forest, and there is either no working directory and no path, or
    an absolute path and an open handle on a directory. Only memory disks are
    mounted, and the handle of the working directory is not closed from outside.
    The states are those after calls that return: a call that would write behind
    the array of the path, [chdir_overflow], or panics ends the run before. *)
Theorem vfs_invariant s : vfs_reachable s -> vfs_ok s.
Proof.
  induction 1 as [k|c s s' _ IH Hc E]; [apply fs_init_ok|by eapply run_call_vfs].
Qed.

Lemma fs_open_abs s path flags :
  chr path = SEP -> is_Some (rootdirs (world s) !! rootfs s) ->
  fs_open path flags s = in_world (mem_fsop_open fuel depth (rootfs s) path flags) s.
Proof.
  destruct path as [|c path]; [done|]. cbn [chr]. intros -> [root Hr].
  unfold fs_open, ops_of. cbv [mbind sm_mbind sm_get]. rewrite Z.eqb_refl. cbn. by rewrite Hr.
Qed.

(** [fs_chdir] closes the handle of the directory it leaves. When that handle
    was the first on the root directory, as after mounting, every later open of an
    absolute path follows the stale pointer the root node keeps to it. *)
Theorem chdir_breaks_root s s1 path root n flags p :
  memfs_ok (world s) -> rootdirs (world s) !! rootfs s = Some root -> nodes (world s) !! root = Some n ->
  nfsnode n = cwdnode (world s) -> cwdnode (world s) <> 0 -> strcmp path [46] <> 0 ->
  fs_chdir path s = Ok (0, s1) -> (0 < fuel)%nat -> (0 < depth)%nat ->
  fs_open (SEP :: p) flags s1 = Fault.
Proof.
  intros Hok Hr Hn Hnf Hc Hp E Hfuel Hdepth.
  apply fs_chdir_inv in E as [[_ ?]|[(_ & _ & ?)|(node & s2 & _ & Eo & E)]]; [lia|done|].
  destruct E as [(_ & ? & _)|(Hnode & t & _ & [(x & _ & ? & _)|(x & s3 & _ & _ & _ & Ec & ->)])]; [lia..|].
  pose proof (fs_open_inv _ _ _ _ _ Eo) as [(Er & _ & _) _].
  destruct (kept_open _ _ _ _ _ Hok Eo) as [(_ & Hok2 & _) [Er2 Ecwd Hnodes _]]. specialize (Hok2 Hok).
  apply fs_close_inv in Ec as [(Er3 & _ & _) Ec]. cbn [world rootfs] in *. cbn in Ec.
  destruct Ec as [[Ec _]|(_ & fs & o & _ & ->%mem_fsop_inv & Ec)]; [congruence|]. cbn in Ec. unfold close in Ec.
  destruct (Z.eqb_spec (cwdnode (world s2)) 0); [congruence|].
  apply sm_bind_inv in Ec as (h & w & [_ ->]%get_handle_inv & Ew%free_handle_inv).
  destruct (Hnodes root n Hn) as (n2 & Hn2 & E2). rewrite Hnf in E2. specialize (E2 Hc).
  assert (node_mnt n2 (set_cwd node (world s3)) = Fault) as Hm.
  { unfold node_mnt. rewrite E2. apply Z.eqb_neq in Hc as ->. sm. rewrite Ew. cbn. by rewrite Ecwd, lookup_delete_eq. }
  destruct Hok2 as [ch T]. assert (rootdirs (world s2) !! rootfs s2 = Some root) as Hr2 by (by rewrite Er2, Er).
  destruct (t_root _ _ T _ _ Hr2) as (n' & Hn' & Hty & _). assert (n' = n2) as -> by congruence.
  rewrite fs_open_abs; [|done|cbn; rewrite Ew, Er3; cbn; by rewrite Hr2].
  unfold in_world. cbn [world rootfs]. rewrite (root_stale fuel depth _ (rootfs s3) root n2); try done.
  - cbn. rewrite Ew, Er3. done.
  - cbn. rewrite Ew. done.
Qed.


End calls.

(** ** A mounted system *)

Definition no_fat (dev start size : Z) : SM mfs Z := mret 0.

(** Runs calls with the parameters 9 and 9. *)
Fixpoint demo_calls (cs : list fs_call) (s : fss mfs) : fss mfs :=
  match cs with
  | [] => s
  | c :: cs => match run_call no_junk 9 9 no_fat c s with Ok (_, s) => demo_calls cs s | _ => s end
  end.
(** After the memory disk was mounted at the root, and with a directory /a, open. *)
Definition demo_root : fss mfs := demo_calls [CMount DEV_MEMDISK 0 0 0] (fs_init 100).
Definition demo_sub : fss mfs := demo_calls [COpen [SEP; 97] 3] demo_root.

Lemma demo_sub_reachable : vfs_reachable no_junk 9 9 no_fat demo_sub.
Proof.
  apply (vfs_call _ _ _ _ (COpen [SEP; 97] 3) demo_root); [|done|by vm_compute].
  apply (vfs_call _ _ _ _ (CMount DEV_MEMDISK 0 0 0) (fs_init 100)); [apply vfs_start|done|by vm_compute].
Qed.

Lemma demo_sub_ok : memfs_ok (world demo_sub).
Proof.
  apply v_tree. apply (run_call_vfs no_junk 9 9 no_fat (COpen [SEP; 97] 3) demo_root); [done|by vm_compute|].
  apply (run_call_vfs no_junk 9 9 no_fat (CMount DEV_MEMDISK 0 0 0) (fs_init 100)); [done|by vm_compute|].
  apply fs_init_ok.
Qed.

Lemma vfs_invariant_witness : vfs_ok demo_sub.
Proof. apply (vfs_invariant no_junk 9 9 no_fat). apply demo_sub_reachable. Defined.

Definition demo_in_sub : fss mfs := demo_calls [CChdir [97]] demo_sub.

Lemma chdir_breaks_root_witness :
  @fs_chdir _ (calls_world no_junk 9 9 no_fat) [97] demo_sub = Ok (0, demo_in_sub) /\
  @fs_open _ (calls_world no_junk 9 9 no_fat) [SEP] 0 demo_in_sub = Fault.
Proof.
  assert (@fs_chdir _ (calls_world no_junk 9 9 no_fat) [97] demo_sub = Ok (0, demo_in_sub)) as E by by vm_compute.
  split; [exact E|].
  apply (chdir_breaks_root no_junk 9 9 no_fat demo_sub demo_in_sub [97] 2 (mk_node (NDir 6 6) [] 0 0 4) 0 [] demo_sub_ok);
    [by vm_compute..|exact E|lia|lia].
Defined.


