(* ===== verification/File.v ===== *)
(** * Streams, directory streams and path functions (src/libc/file.c, src/libc/dirent.c, src/libc/unistd.c)

    The C library's view of the file system calls of fs.c. [FILE] and [DIR]
    objects live in stores addressed by the pointer [malloc] returned; [seterr]
    assigns [errno], which the library shares with the file systems. Buffers
    that are filled are results: the bytes stored from their start on. *)
From S2P Require Import Prelude Str Io Contty Stdio FsPath FsMem Mtab Fs.

Definition MODE_READ : Z := 1.
Definition MODE_WRITE : Z := 2.
Definition MODE_APPEND : Z := 4.
Definition MODE_CREATE : Z := 8.
Definition MODE_TRUNCATE : Z := 16.
Definition STATUS_EOF : Z := 1.
Definition STATUS_ERR : Z := 2.
Definition EINVAL : Z := 3.
Definition ERANGE : Z := 34.
Definition DT_DIR : Z := 4.
Definition DT_REG : Z := 8.

Record FILE := mk_FILE { mode : Z; status : Z; fsn : Z }.
(** [struct dirent] of the library. *)
Record ldirent := mk_ldirent { l_name : list Z; l_type : Z; l_fsize : Z }.
Record DIR := mk_DIR { dfsn : Z; dent : option ldirent }.

(** The globals of the library: the file systems and the objects allocated. *)
Record libc (W : Type) := mk_libc { fsys : fss W; files : gmap Z FILE; dirs : gmap Z DIR }.
Arguments mk_libc {W}. Arguments fsys {W}. Arguments files {W}. Arguments dirs {W}.

(** What a mode letter sets, alone and followed by ['+']; [None] after a
    letter that is followed by no ['+']. *)
Definition mode_bits (c : Z) : option (Z * option Z) :=
  if c =? 114 then Some (MODE_READ, Some MODE_WRITE)
  else if c =? 119 then Some (Z.lor MODE_WRITE MODE_TRUNCATE, Some (Z.lor MODE_READ MODE_CREATE))
  else if c =? 97 then Some (Z.lor MODE_WRITE MODE_APPEND, Some (Z.lor MODE_READ MODE_CREATE))
  else if c =? 98 then Some (0, None)
  else None.
(** [while( *mode)] of [fopen]; [None]: a letter it does not know. *)
Fixpoint parse_mode (m : list Z) (mflags : Z) : option Z :=
  match m with
  | [] => Some mflags
  | c :: rest =>
      match mode_bits c with
      | None => None
      | Some (bits, plus) =>
          match plus, rest with
          | Some more, p :: rest' =>
              if p =? 43 then parse_mode rest' (Z.lor mflags (Z.lor bits more)) else parse_mode rest (Z.lor mflags bits)
          | _, _ => parse_mode rest (Z.lor mflags bits)
          end
      end
  end.

Section file.
Context {W : Type} `{FsWorld W} (seterr : Z -> W -> W).

Definition in_fs {A} (m : SM (fss W) A) : SM (libc W) A := fun s =>
  '(a, f) ← m (fsys s); Ok (a, mk_libc f (files s) (dirs s)).
Definition fail {A} (e : Z) (v : A) : SM (libc W) A := in_fs (in_world (sm_upd (seterr e)));; mret v.

Definition get_file (fp : Z) : SM (libc W) FILE := s ← sm_get; sm_lift (of_option (files s !! fp)).
Definition put_file (fp : Z) (f : FILE) : SM (libc W) unit :=
  sm_upd (fun s => mk_libc (fsys s) (<[fp := f]> (files s)) (dirs s)).
Definition free_file (fp : Z) : SM (libc W) unit :=
  get_file fp;; sm_upd (fun s => mk_libc (fsys s) (delete fp (files s)) (dirs s)).
Definition set_status (v : Z) (f : FILE) : FILE := mk_FILE (mode f) v (fsn f).

Definition fopen (path m : list Z) : SM (libc W) Z :=
  match parse_mode m 0 with
  | None => fail EINVAL 0
  | Some mflags =>
      node ← in_fs (fs_open path 0);
      if node =? 0 then fail ENOENT 0 else
      t ← in_fs (type_of node);
      if decide (t = FSNODE_FILE) then
        fp ← in_fs (in_world walloc);
        if fp =? 0 then fail ENOMEM 0 else
        put_file fp (mk_FILE mflags 0 node);; mret fp
      else fail EISDIR 0
  end.

Definition fclose (fp : Z) : SM (libc W) Z :=
  if fp =? 0 then fail EINVAL (-1) else
  f ← get_file fp; in_fs (fs_close (fsn f));; free_file fp;; mret 0.

Definition filesize (fp : Z) : SM (libc W) Z := f ← get_file fp; in_fs (fs_filesize (fsn f)).

Definition fseek (fp offset from : Z) : SM (libc W) Z :=
  if fp =? 0 then fail EINVAL (-1) else
  if (from <? 0) || (2 <? from) then fail EINVAL (-1) else
  f ← get_file fp;
  in_fs (fs_seek (fsn f) offset from);;
  put_file fp (set_status (Z.ldiff (status f) STATUS_EOF) f);; mret 0.
Definition rewind (fp : Z) : SM (libc W) unit := fseek fp 0 FSSEEK_SET;; mret tt.

Definition ftell (fp : Z) : SM (libc W) Z :=
  if fp =? 0 then fail EINVAL (-1) else f ← get_file fp; in_fs (fs_tell (fsn f)).

(** The number of elements and the bytes read; dividing by a size of 0 is a
    [Fault]. *)
Definition fread (size count fp : Z) : SM (libc W) (Z * list Z) :=
  if fp =? 0 then mret (0, []) else
  f ← get_file fp;
  '(r, bytes) ← in_fs (fs_read (fsn f) (s32 (size * count)));
  if r =? -1 then put_file fp (set_status (Z.lor (status f) STATUS_EOF) f);; mret (0, []) else
  if size =? 0 then sm_lift Fault else mret (u32 r / size, bytes).

(** [buf] are the [size * count] bytes of the caller's buffer. *)
Definition fwrite (buf : list Z) (size fp : Z) : SM (libc W) Z :=
  if fp =? 0 then mret 0 else
  f ← get_file fp;
  if Z.land (mode f) MODE_WRITE =? 0 then
    put_file fp (set_status (Z.lor (status f) STATUS_ERR) f);; mret 0
  else
    r ← in_fs (fs_write (fsn f) buf);
    if r =? -1 then mret 0 else
    if size =? 0 then sm_lift Fault else mret (u32 r / size).

Definition fgetc (fp : Z) : SM (libc W) Z :=
  '(n, bytes) ← fread 1 1 fp;
  if n <? 1 then mret (-1) else
  c ← sm_lift (of_option (head bytes)); mret (u8 c).

(** The loop of [fgets], [n] more characters fit. *)
Fixpoint fgets_loop (n : nat) (fp : Z) : SM (libc W) (list Z) :=
  match n with
  | O => mret []
  | S n =>
      c ← fgetc fp;
      if 0 <=? c then
        if c =? 10 then mret [c] else l ← fgets_loop n fp; mret (c :: l)
      else mret []
  end.
(** Whether the result is not null, and what is stored. *)
Definition fgets (size fp : Z) : SM (libc W) (bool * list Z) :=
  l ← fgets_loop (Z.to_nat (size - 1)) fp;
  mret (bool_decide (l <> []), l ++ [0]).

Definition feof (fp : Z) : SM (libc W) bool := f ← get_file fp; mret (negb (Z.land (status f) STATUS_EOF =? 0)).
Definition ferror (fp : Z) : SM (libc W) bool := f ← get_file fp; mret (negb (Z.land (status f) STATUS_ERR =? 0)).
Definition clearerr (fp : Z) : SM (libc W) unit := f ← get_file fp; put_file fp (set_status 0 f).

(** ** Directory streams *)

Definition get_dir (d : Z) : SM (libc W) DIR := s ← sm_get; sm_lift (of_option (dirs s !! d)).
Definition put_dir (d : Z) (x : DIR) : SM (libc W) unit :=
  sm_upd (fun s => mk_libc (fsys s) (files s) (<[d := x]> (dirs s))).

(** [path] is [None] for a null pointer. *)
Definition opendir (path : option (list Z)) : SM (libc W) Z :=
  match path with
  | None => fail EINVAL 0
  | Some path =>
      node ← in_fs (fs_open path 0);
      if node =? 0 then fail ENOENT 0 else
      t ← in_fs (type_of node);
      if decide (t = FSNODE_DIR) then
        d ← in_fs (in_world walloc);
        if d =? 0 then fail ENOMEM 0;; in_fs (fs_close node);; mret 0 else
        put_dir d (mk_DIR node None);; mret d
      else fail ENOTDIR 0;; in_fs (fs_close node);; mret 0
  end.

Definition closedir (d : Z) : SM (libc W) Z :=
  if d =? 0 then fail EINVAL (-1) else
  x ← get_dir d; in_fs (fs_close (dfsn x));;
  sm_upd (fun s => mk_libc (fsys s) (files s) (delete d (dirs s)));; mret 0.

Definition rewinddir (d : Z) : SM (libc W) unit :=
  if d =? 0 then fail EINVAL tt else x ← get_dir d; in_fs (fs_rewinddir (dfsn x));; mret tt.

(** [d_name] has 256 bytes. *)
Definition readdir (d : Z) : SM (libc W) (option ldirent) :=
  if d =? 0 then fail EINVAL None else
  x ← get_dir d;
  e ← in_fs (fs_readdir (dfsn x));
  match e with
  | None => mret None
  | Some e =>
      if 256 <? strlen (d_name e) + 1 then sm_lift Fault else
      let r := mk_ldirent (d_name e) (if decide (d_type e = FSNODE_DIR) then DT_DIR else DT_REG) (d_fsize e) in
      put_dir d (mk_DIR (dfsn x) (Some r));; mret (Some r)
  end.

(** ** Paths *)

Definition chdir (path : list Z) : SM (libc W) Z := in_fs (fs_chdir path).

(** Whether the result is not null, and what is stored to the buffer of [sz] bytes. *)
Definition getcwd (sz : Z) : SM (libc W) (bool * list Z) :=
  cwd ← in_fs fs_getcwd;
  if sz <? strlen cwd + 1 then fail ERANGE (false, []) else mret (true, cwd ++ [0]).

Definition mkdir (path : list Z) : SM (libc W) Z :=
  n ← in_fs (fs_open path (Z.lor (Z.lor FSO_CREATE FSO_DIR) FSO_EXCL));
  if n =? 0 then mret (-1) else in_fs (fs_close n);; mret 0.
Definition rmdir (path : list Z) : SM (libc W) Z :=
  n ← in_fs (fs_open path FSO_DIR);
  if n =? 0 then mret (-1) else in_fs (fs_remove n);; in_fs (fs_close n);; mret 0.
End file.

(** ** Standard output *)

Definition fputc (ser_putchar : Z -> IO unit) (c fp : Z) (t : contty) : IO (Z * contty) :=
  if (fp =? stdout) || (fp =? stderr) then t ← con_putchar ser_putchar t c; mret (c, t) else lift Panic.
Definition fflush (fp : Z) : res Z := if (fp =? stdout) || (fp =? stderr) then Ok 0 else Panic.

(** ** What streams need of a file system

    [view s p d pos]: the node [p] is open on a file with the bytes [d] at
    position [pos]. [room s]: memory is left. *)
Class FileView (W : Type) `{FsWorld W} := {
  view : fss W -> Z -> list Z -> Z -> Prop;
  room : fss W -> Prop;
  view_type s p d pos : view s p d pos -> node_type (world s) p = Some FSNODE_FILE;
  view_range s p d pos : view s p d pos -> 0 <= pos <= Z.of_nat (length d) /\ Z.of_nat (length d) < 2147483648;
  view_read s p d pos sz : view s p d pos -> 0 <= sz ->
    let k := Z.min sz (Z.of_nat (length d) - pos) in
    exists s', fs_read p sz s = Ok ((k, take (Z.to_nat k) (drop (Z.to_nat pos) d)), s') /\ view s' p d (pos + k);
  view_seek s p d pos offs : view s p d pos -> 0 <= offs <= Z.of_nat (length d) ->
    exists s', fs_seek p offs FSSEEK_SET s = Ok (0, s') /\ view s' p d offs;
  view_write s p d pos buf : view s p d pos -> room s -> pos + Z.of_nat (length buf) < 2147483648 ->
    exists s', fs_write p buf s = Ok (Z.of_nat (length buf), s') /\
      view s' p (take (Z.to_nat pos) d ++ buf ++ drop (Z.to_nat pos + length buf) d) (pos + Z.of_nat (length buf));
  view_alloc s p d pos : view s p d pos -> room s ->
    exists q s', in_world walloc s = Ok (q, s') /\ q <> 0 /\ view s' p d pos }.

(** The first line of [l], its newline included, at most [n] characters. *)
Fixpoint first_line (n : nat) (l : list Z) : list Z :=
  match n, l with
  | S n, c :: l => if c =? 10 then [c] else c :: first_line n l
  | _, _ => []
  end.

Lemma first_line_prefix n l : first_line n l = take (length (first_line n l)) l.
Proof.
  revert l. induction n as [|n IH]; intros [|c l]; try done. cbn [first_line].
  destruct (c =? 10); [done|]. cbn [length take]. by rewrite <- IH.
Qed.
Lemma first_line_nil n l : (0 < n)%nat -> first_line n l = [] -> l = [].
Proof. destruct n, l; cbn [first_line]; try lia; try done. by destruct (_ =? _). Qed.
Lemma length_first_line n l : (length (first_line n l) <= n)%nat.
Proof. revert l. induction n as [|n IH]; intros [|c l]; cbn; try lia. destruct (c =? 10); cbn; [lia|]. specialize (IH l). lia. Qed.
(** A newline only comes last. *)
Lemma first_line_newline n l a b : first_line n l = a ++ 10 :: b -> b = [].
Proof.
  revert l a. induction n as [|n IH]; intros [|c l] a E; cbn [first_line] in E; [by destruct a..|].
  destruct (Z.eqb_spec c 10).
  - destruct a as [|x [|y a]]; cbn in E; congruence.
  - destruct a as [|x a]; cbn in E; injection E as Ec E; [done|by eapply IH].
Qed.

Section streams.
Context {W : Type} `{FileView W} (seterr : Z -> W -> W).

(** The stream [fp] is open on [d] at position [pos]. *)
Definition open_on (s : libc W) (fp : Z) (m : Z) (d : list Z) (pos : Z) : Prop :=
  fp <> 0 /\ exists f, files s !! fp = Some f /\ mode f = m /\ view (fsys s) (fsn f) d pos.

Lemma in_fs_ok {A} (m : SM (fss W) A) s a f : m (fsys s) = Ok (a, f) -> in_fs m s = Ok (a, mk_libc f (files s) (dirs s)).
Proof. unfold in_fs. by intros ->. Qed.

Lemma get_file_ok (s : libc W) fp f : files s !! fp = Some f -> get_file fp s = Ok (f, s).
Proof. intros Hf. unfold get_file, mbind, sm_mbind, sm_get, sm_lift. cbn. by rewrite Hf. Qed.

Lemma fread_bytes s fp m d pos n :
  open_on s fp m d pos -> 0 <= n < 2147483648 ->
  let k := Z.min n (Z.of_nat (length d) - pos) in
  exists s', fread 1 n fp s = Ok ((k, take (Z.to_nat k) (drop (Z.to_nat pos) d)), s') /\ open_on s' fp m d (pos + k).
Proof.
  intros (Hfp & f & Hf & Hm & Hv) Hn k. pose proof (view_range _ _ _ _ Hv).
  unfold fread. destruct (Z.eqb_spec fp 0); [done|]. rewrite (sm_bind_ok _ _ _ _ _ (get_file_ok _ _ _ Hf)).
  rewrite Z.mul_1_l, s32_small by lia. destruct (view_read _ _ _ _ n Hv) as (f' & E & Hv'); [lia|]. fold k in E, Hv'.
  rewrite (sm_bind_ok _ _ _ _ _ (in_fs_ok _ _ _ _ E)). destruct (Z.eqb_spec k (-1)); [lia|]. change (1 =? 0) with false. cbv iota.
  rewrite u32_small, Z.div_1_r by lia. eexists. split; [done|]. split; [done|]. by exists f.
Qed.

Lemma fgetc_spec s fp m d pos :
  open_on s fp m d pos -> Forall (fun c => 0 <= c < 256) d ->
  exists s', match drop (Z.to_nat pos) d with
    | c :: _ => fgetc fp s = Ok (c, s') /\ open_on s' fp m d (pos + 1) /\ 0 <= c < 256
    | [] => fgetc fp s = Ok (-1, s') /\ open_on s' fp m d pos
    end.
Proof.
  intros Ho Hd. pose proof Ho as (_ & f & _ & _ & Hv). apply view_range in Hv as Hr.
  destruct (fread_bytes s fp m d pos 1 Ho) as (s' & E & Ho'); [lia|]. exists s'. unfold fgetc. rewrite (sm_bind_ok _ _ _ _ _ E).
  pose proof (length_drop d (Z.to_nat pos)) as Hl. destruct (drop (Z.to_nat pos) d) as [|c rest] eqn:Ed; cbn [length] in Hl.
  - replace (Z.min 1 (Z.of_nat (length d) - pos)) with 0 in * by lia. rewrite Z.add_0_r in Ho'. by split.
  - replace (Z.min 1 (Z.of_nat (length d) - pos)) with 1 in * by lia. change (Z.to_nat 1) with 1%nat. cbn [take].
    assert (0 <= c < 256) as Hc.
    { apply (Forall_drop _ (Z.to_nat pos)) in Hd. rewrite Ed in Hd. by apply Forall_inv in Hd. }
    split; [|by split]. change (1 <? 1) with false. cbv iota. unfold sm_lift, mbind, sm_mbind. cbn. by rewrite u8_small.
Qed.

Lemma fgets_loop_spec n s fp m d pos :
  open_on s fp m d pos -> Forall (fun c => 0 <= c < 256) d ->
  let l := first_line n (drop (Z.to_nat pos) d) in
  exists s', fgets_loop n fp s = Ok (l, s') /\ open_on s' fp m d (pos + Z.of_nat (length l)).
Proof.
  revert s pos. induction n as [|n IH]; intros s pos Ho Hd; cbn [fgets_loop first_line].
  { exists s. split; [done|]. by rewrite Z.add_0_r. }
  pose proof Ho as (_ & f & _ & _ & Hv). apply view_range in Hv as Hr.
  destruct (fgetc_spec s fp m d pos Ho Hd) as (s1 & H1). destruct (drop (Z.to_nat pos) d) as [|c rest] eqn:Ed.
  - destruct H1 as [E Ho1]. exists s1. rewrite (sm_bind_ok _ _ _ _ _ E). cbn [length]. rewrite Z.add_0_r. by split.
  - destruct H1 as (E & Ho1 & Hc). rewrite (sm_bind_ok _ _ _ _ _ E). destruct (Z.leb_spec 0 c); [|lia].
    destruct (c =? 10); [by exists s1|].
    assert (drop (Z.to_nat (pos + 1)) d = rest) as Ed'.
    { replace (Z.to_nat (pos + 1)) with (Z.to_nat pos + 1)%nat by lia. by rewrite <- drop_drop, Ed. }
    destruct (IH s1 (pos + 1) Ho1 Hd) as (s2 & E2 & Ho2). rewrite Ed' in E2, Ho2. exists s2.
    rewrite (sm_bind_ok _ _ _ _ _ E2). split; [done|]. cbn [length].
    replace (pos + Z.of_nat (S (length (first_line n rest)))) with (pos + 1 + Z.of_nat (length (first_line n rest))) by lia. done.
Qed.

(** Reads lines into a buffer of [size] bytes until [fgets] returns null. *)
Fixpoint read_lines (fuel : nat) (size fp : Z) : SM (libc W) (list (list Z)) :=
  match fuel with
  | O => sm_lift NoFuel
  | S fuel =>
      '(more, buf) ← fgets size fp;
      if more : bool then ls ← read_lines fuel size fp; mret (buf :: ls) else mret []
  end.

(** A buffer [fgets] filled: a line or a piece of one, terminated. *)
Definition line_buffer (size : Z) (buf : list Z) : Prop := exists l, buf = l ++ [0] /\ l <> [] /\
  Z.of_nat (length l) < size /\ (forall a b, l = a ++ 10 :: b -> b = []).

(** C22. Reading lines with [fgets] until it returns null ends, gives buffers
    that hold a line or, if it does not fit, a piece of a line, and the
    buffers joined are the rest of the file: for every file system that
    satisfies [FileView], every file and every buffer of two bytes or more. *)
Theorem fgets_lines s fp m d pos size fuel :
  open_on s fp m d pos -> Forall (fun c => 0 <= c < 256) d -> 2 <= size -> (length d - Z.to_nat pos < fuel)%nat ->
  exists bufs s', read_lines fuel size fp s = Ok (bufs, s') /\ Forall (line_buffer size) bufs /\
    concat (@removelast Z <$> bufs) = drop (Z.to_nat pos) d /\ open_on s' fp m d (Z.of_nat (length d)).
Proof.
  revert s pos. induction fuel as [|fuel IH]; intros s pos Ho Hd Hsz Hf; [lia|]. cbn [read_lines].
  pose proof Ho as (_ & f & _ & _ & Hv). apply view_range in Hv as Hr.
  destruct (fgets_loop_spec (Z.to_nat (size - 1)) s fp m d pos Ho Hd) as (s1 & E1 & Ho1).
  set (l := first_line (Z.to_nat (size - 1)) (drop (Z.to_nat pos) d)) in *.
  pose proof (length_first_line (Z.to_nat (size - 1)) (drop (Z.to_nat pos) d)) as Hll. fold l in Hll.
  assert (fgets size fp s = Ok ((bool_decide (l <> []), l ++ [0]), s1)) as E.
  { unfold fgets. by rewrite (sm_bind_ok _ _ _ _ _ E1). }
  rewrite (sm_bind_ok _ _ _ _ _ E). case_bool_decide as Hne.
  - assert (l = take (length l) (drop (Z.to_nat pos) d)) as El by apply first_line_prefix.
    assert (0 < length l)%nat by (destruct l; [done|cbn; lia]).
    assert (length l <= length d - Z.to_nat pos)%nat.
    { rewrite El, length_take, length_drop. lia. }
    destruct (IH s1 (pos + Z.of_nat (length l)) Ho1 Hd Hsz) as (bufs & s2 & E2 & Hb & Ec & Ho2); [lia|].
    exists ((l ++ [0]) :: bufs), s2. rewrite (sm_bind_ok _ _ _ _ _ E2). split; [done|]. split; [|split; [|done]].
    + constructor; [|done]. exists l. split_and!; try done; [lia|]. intros a b Eab. by eapply first_line_newline.
    + cbn [fmap list_fmap concat]. rewrite removelast_last, Ec.
      replace (Z.to_nat (pos + Z.of_nat (length l))) with (Z.to_nat pos + length l)%nat by lia.
      rewrite <- drop_drop. rewrite El at 1. apply take_drop.
  - assert (drop (Z.to_nat pos) d = []) as Ed by (eapply first_line_nil; [|exact Hne]; lia).
    exists [], s1. split; [done|]. split; [done|]. split; [done|]. rewrite Hne in Ho1. cbn [length] in Ho1.
    assert (length (drop (Z.to_nat pos) d) = O) as El by (by rewrite Ed). rewrite length_drop in El.
    by replace (Z.of_nat (length d)) with (pos + Z.of_nat 0) by lia.
Qed.

(** C27. What is written to a stream is read back after seeking to where it was
    written. *)
Theorem fwrite_fread s fp m d pos buf :
  open_on s fp m d pos -> Z.land m MODE_WRITE <> 0 -> room (fsys s) -> pos + Z.of_nat (length buf) < 2147483648 ->
  exists s', (n ← fwrite buf 1 fp; r ← fseek seterr fp pos FSSEEK_SET; '(k, bytes) ← fread 1 (Z.of_nat (length buf)) fp;
              mret (n, r, k, bytes)) s = Ok ((Z.of_nat (length buf), 0, Z.of_nat (length buf), buf), s') /\
    open_on s' fp m (take (Z.to_nat pos) d ++ buf ++ drop (Z.to_nat pos + length buf) d) (pos + Z.of_nat (length buf)).
Proof.
  intros (Hfp & f & Hf & Hm & Hv) Hw Hroom Hlen. apply view_range in Hv as Hr.
  destruct (view_write _ _ _ _ buf Hv Hroom Hlen) as (f1 & E1 & Hv1).
  set (d1 := take _ d ++ _) in *. assert (length d1 = Nat.max (length d) (Z.to_nat pos + length buf)) as Hd1.
  { unfold d1. rewrite !length_app, length_take, length_drop. lia. }
  destruct (view_seek _ _ _ _ pos Hv1) as (f2 & E2 & Hv2); [lia|].
  assert (fwrite buf 1 fp s = Ok (Z.of_nat (length buf), mk_libc f1 (files s) (dirs s))) as F1.
  { unfold fwrite. destruct (Z.eqb_spec fp 0); [done|]. rewrite (sm_bind_ok _ _ _ _ _ (get_file_ok _ _ _ Hf)), Hm.
    destruct (Z.eqb_spec (Z.land m MODE_WRITE) 0); [done|].
    rewrite (sm_bind_ok _ _ _ _ _ (in_fs_ok _ _ _ _ E1)). destruct (Z.eqb_spec (Z.of_nat (length buf)) (-1)); [lia|]. change (1 =? 0) with false. cbv iota.
    rewrite u32_small, Z.div_1_r by lia. done. }
  rewrite (sm_bind_ok _ _ _ _ _ F1).
  set (fx := set_status (Z.ldiff (status f) STATUS_EOF) f).
  assert (fseek seterr fp pos FSSEEK_SET (mk_libc f1 (files s) (dirs s)) = Ok (0, mk_libc f2 (<[fp := fx]> (files s)) (dirs s))) as F2.
  { unfold fseek. destruct (Z.eqb_spec fp 0); [done|]. change ((FSSEEK_SET <? 0) || (2 <? FSSEEK_SET)) with false. cbv iota.
    rewrite (sm_bind_ok _ _ _ _ _ (get_file_ok (mk_libc f1 (files s) (dirs s)) fp f Hf)).
    by rewrite (sm_bind_ok _ _ _ _ _ (in_fs_ok _ (mk_libc f1 (files s) (dirs s)) _ _ E2)). }
  rewrite (sm_bind_ok _ _ _ _ _ F2).
  destruct (fread_bytes (mk_libc f2 (<[fp := fx]> (files s)) (dirs s)) fp m d1 pos (Z.of_nat (length buf))) as (s3 & E3 & Ho3).
  { split; [done|]. exists fx. cbn [files]. by rewrite lookup_insert_eq. }
  { lia. }
  replace (Z.min (Z.of_nat (length buf)) (Z.of_nat (length d1) - pos)) with (Z.of_nat (length buf)) in * by lia.
  exists s3. rewrite (sm_bind_ok _ _ _ _ _ E3). split; [|done]. unfold mret, sm_mret. do 4 f_equal.
  rewrite Nat2Z.id. unfold d1. rewrite drop_app_length' by (rewrite length_take; lia). by rewrite take_app_length.
Qed.

(** No read sets the end-of-file status: the file systems answer 0 at the end
    of a file, and [fread] waits for -1. *)
Theorem feof_never s fp m d pos n :
  open_on s fp m d pos -> 0 <= n < 2147483648 ->
  exists r s', fread 1 n fp s = Ok (r, s') /\ files s' = files s.
Proof.
  intros (Hfp & f & Hf & Hm & Hv) Hn. pose proof (view_range _ _ _ _ Hv).
  unfold fread. destruct (Z.eqb_spec fp 0); [done|]. rewrite (sm_bind_ok _ _ _ _ _ (get_file_ok _ _ _ Hf)).
  rewrite Z.mul_1_l, s32_small by lia. destruct (view_read _ _ _ _ n Hv) as (f' & E & _); [lia|].
  rewrite (sm_bind_ok _ _ _ _ _ (in_fs_ok _ _ _ _ E)).
  destruct (Z.eqb_spec (Z.min n (Z.of_nat (length d) - pos)) (-1)); [lia|]. change (1 =? 0) with false. by eexists _, _.
Qed.

(** [fopen] of a path on which [fs_open] opens a file gives a stream at the
    start of the file. *)
Theorem fopen_file s path m mflags node f1 d :
  parse_mode m 0 = Some mflags -> fs_open path 0 (fsys s) = Ok (node, f1) -> node <> 0 -> view f1 node d 0 -> room f1 ->
  exists fp s', fopen seterr path m s = Ok (fp, s') /\ open_on s' fp mflags d 0.
Proof.
  intros Hm E1 Hn Hv Hr. destruct (view_alloc _ _ _ _ Hv Hr) as (q & f2 & E2 & Hq & Hv2).
  exists q, (mk_libc f2 (<[q := mk_FILE mflags 0 node]> (files s)) (dirs s)). split.
  - unfold fopen. rewrite Hm. rewrite (sm_bind_ok _ _ _ _ _ (in_fs_ok _ _ _ _ E1)). destruct (Z.eqb_spec node 0); [done|].
    assert (type_of node f1 = Ok (FSNODE_FILE, f1)) as Et.
    { unfold type_of, mbind, sm_mbind, sm_get, sm_lift. cbn. by rewrite (view_type _ _ _ _ Hv). }
    rewrite (sm_bind_ok _ _ _ _ _ (in_fs_ok _ (mk_libc f1 (files s) (dirs s)) _ _ Et)). rewrite decide_True by done.
    rewrite (sm_bind_ok _ _ _ _ _ (in_fs_ok _ (mk_libc f1 (files s) (dirs s)) _ _ E2)). by destruct (Z.eqb_spec q 0).
  - split; [done|]. exists (mk_FILE mflags 0 node). cbn [files]. by rewrite lookup_insert_eq.
Qed.
End streams.
