(* ===== verification/FileMem.v ===== *)
(** * Streams on memory files (src/libc/file.c, src/fs.c, src/fsmem.c)

    The memory file system satisfies what streams need ([FileView]), so that
    their theorems hold for its files; and what the library functions do with
    the file system's answers. *)
From S2P Require Import Prelude Str Io Contty Stdio FsPath FsMem FsTree FsFile FsDir Mtab Fs FsMount File.

(** ** What an operation on a handle keeps *)

(** Root directories, and the file system of every handle. *)
Definition keeps_fs (w w' : mfs) : Prop :=
  rootdirs w' = rootdirs w /\ forall p h, handles w !! p = Some h ->
    exists h', handles w' !! p = Some h' /\ fsn_fs h' = fsn_fs h.

Lemma keeps_fs_same w w' : rootdirs w' = rootdirs w -> handles w' = handles w -> keeps_fs w w'.
Proof. intros E1 E2. split; [done|]. intros p h Hp. exists h. by rewrite E2. Qed.
Lemma keeps_fs_put w p h h' : handles w !! p = Some h -> fsn_fs h' = fsn_fs h ->
  keeps_fs w (set_handles (<[p := h']> (handles w)) w).
Proof.
  intros Hp E. split; [done|]. intros q m Hq. cbn. destruct (decide (q = p)) as [->|].
  - rewrite lookup_insert_eq. exists h'. split; [done|]. congruence.
  - rewrite lookup_insert_ne by done. by exists m.
Qed.
Lemma keeps_fs_trans w1 w2 w3 : keeps_fs w1 w2 -> keeps_fs w2 w3 -> keeps_fs w1 w3.
Proof.
  intros [E1 H1] [E2 H2]. split; [congruence|]. intros p h Hp. destruct (H1 p h Hp) as (h' & Hp' & E).
  destruct (H2 p h' Hp') as (h'' & ? & ?). exists h''. split; [done|congruence].
Qed.

Lemma read_keeps p sz w r w' : read p sz w = Ok (r, w') -> keeps_fs w w'.
Proof. intros E. unfold read in E. minv; first [by apply keeps_fs_same | by eapply keeps_fs_put]. Qed.
Lemma seek_keeps p offs whence w r w' : seek p offs whence w = Ok (r, w') -> keeps_fs w w'.
Proof. intros E. unfold seek in E. minv; first [by apply keeps_fs_same | by eapply keeps_fs_put]. Qed.
Lemma write_keeps junk p buf w r w' : write junk p buf w = Ok (r, w') -> keeps_fs w w'.
Proof.
  intros E. unfold write in E. destruct (p =? 0); [minv; by apply keeps_fs_same|].
  apply sm_bind_inv in E as (h & s0 & [Hh ->]%get_handle_inv & E). destruct (fsn_data h) as [f pos|] eqn:Ed; [|minv; by apply keeps_fs_same].
  apply sm_bind_inv in E as (n & s0 & [_ ->]%get_node_inv & E). destruct (nbody_of n); [|minv; by apply keeps_fs_same].
  destruct (_ <=? _); [by minv|].
  apply sm_bind_inv in E as (d & s0 & [_ ->]%sm_lift_inv & E). apply sm_bind_inv in E as (tmp & s1 & Et & E).
  assert (rootdirs s1 = rootdirs w /\ handles s1 = handles w) as [E1 E2].
  { clear E. destruct (_ <? _); [|by apply mret_inv in Et as [_ ->]].
    apply realloc_inv in Et as [(_ & _ & _ & ->)|(_ & [q Ea] & _)]; [done|]. by apply alloc_inv in Ea as [[_ ->]|(_ & k & _ & ->)]. }
  apply (keeps_fs_trans _ s1); [by apply keeps_fs_same|]. rewrite <- E2 in Hh.
  destruct tmp; [|apply fail_inv in E as [_ ->]; by apply keeps_fs_same]. destruct (_ && _); [done|].
  apply sm_bind_inv in E as (u & s2 & ->%put_handle_inv & E). apply sm_bind_inv in E as (v & s3 & ->%put_node_inv & [_ ->]%mret_inv).
  match goal with |- keeps_fs _ (set_nodes _ ?w2) => apply (keeps_fs_trans _ w2) end; [by apply (keeps_fs_put s1 p h)|by apply keeps_fs_same].
Qed.

Section mem_streams.
Variable junk : Z -> Z.
Variable fuel depth : nat.
Variable fsfat_create : Z -> Z -> Z -> SM mfs Z.
Local Instance stream_world : FsWorld mfs := mem_world junk fuel depth fsfat_create.

(** Node [p] is open on a file of a mounted memory file system. *)
Definition mem_view (s : fss mfs) (p : Z) (d : list Z) (pos : Z) : Prop :=
  (exists b, file_rel junk (world s) p (mk_afile d pos) b) /\ pos <= Z.of_nat (length d) /\
  exists h, handles (world s) !! p = Some h /\ is_Some (rootdirs (world s) !! fsn_fs h).

(** Memory is left, and every file has a block that it may grow out of. *)
Definition mem_room (s : fss mfs) : Prop := (0 < avail (world s))%nat /\
  forall f n d sz mx, nodes (world s) !! f = Some n -> nbody_of n = NFile (Some d) sz mx ->
    always_fits (mk_ablock (Z.of_nat (length d)) mx).

Lemma mem_view_kept s p d pos w d' pos' b' :
  mem_view s p d pos -> file_rel junk w p (mk_afile d' pos') b' -> pos' <= Z.of_nat (length d') -> keeps_fs (world s) w ->
  mem_view (mk_fss w (rootfs s) (cwdpath s) (mounted s)) p d' pos'.
Proof.
  intros (_ & _ & h & Hh & Hr) Hw Hp [Er Hk]. split; [by exists b'|]. split; [done|].
  destruct (Hk p h Hh) as (h' & Hh' & Ef). exists h'. cbn [world]. by rewrite Er, Ef.
Qed.

Lemma mem_view_type s p d pos : mem_view s p d pos -> node_type (world s) p = Some FSNODE_FILE.
Proof.
  intros ((b & _ & _ & _ & h & f & n & Hh & Hd & _) & _). cbn. rewrite Hh. cbn. unfold handle_type. by rewrite Hd.
Qed.

(** The calls of fs.c reach the operation of the memory file system. *)
Lemma typed_mem {A} s p d pos (bad : A) f a w :
  mem_view s p d pos -> f (fs_mem_ops junk fuel depth) (world s) = Ok (a, w) ->
  typed FSNODE_FILE bad p f s = Ok (a, mk_fss w (rootfs s) (cwdpath s) (mounted s)).
Proof.
  intros Hv E. pose proof (mem_view_type _ _ _ _ Hv) as Ht. destruct Hv as (_ & _ & h & Hh & root & Hr).
  assert (node_ops p s = Ok (fs_mem_ops junk fuel depth, s)) as En.
  { unfold node_ops, ops_of, mbind, sm_mbind, sm_get, sm_lift. cbn. rewrite Hh. cbn. by rewrite Hr. }
  assert (type_of p s = Ok (FSNODE_FILE, s)) as Et.
  { unfold type_of, mbind, sm_mbind, sm_get, sm_lift. cbn [res_mbind res_bind]. by rewrite Ht. }
  unfold typed. rewrite (sm_bind_ok _ _ _ _ _ En), (sm_bind_ok _ _ _ _ _ Et), decide_True by done.
  unfold in_world. by rewrite E.
Qed.

Lemma mem_view_read s p d pos sz : mem_view s p d pos -> 0 <= sz ->
  let k := Z.min sz (Z.of_nat (length d) - pos) in
  exists s', fs_read p sz s = Ok ((k, take (Z.to_nat k) (drop (Z.to_nat pos) d)), s') /\ mem_view s' p d (pos + k).
Proof.
  intros Hv Hsz k. pose proof Hv as ([b Hf] & Hp & _). destruct (file_read junk (world s) p _ b sz Hf Hsz Hp) as (w & E & Hf' & _).
  cbn [apos abytes] in E, Hf'. fold k in E, Hf'. eexists. split; [by eapply typed_mem|].
  eapply mem_view_kept; [done|done|lia|by eapply read_keeps].
Qed.
Lemma mem_view_seek s p d pos offs : mem_view s p d pos -> 0 <= offs <= Z.of_nat (length d) ->
  exists s', fs_seek p offs FSSEEK_SET s = Ok (0, s') /\ mem_view s' p d offs.
Proof.
  intros Hv Ho. pose proof Hv as ([b Hf] & Hp & _). pose proof (file_seek junk (world s) p _ b offs FSSEEK_SET Hf) as Hs.
  cbn [afile_step] in Hs. rewrite Z.eqb_refl in Hs. destruct Hs as (w & E & Hf' & _). cbn [abytes] in Hf'.
  assert (Z.of_nat (length d) < 2147483648) as Hlen.
  { destruct Hf as (_ & _ & _ & h & f & n & _ & _ & _ & _ & _ & Hmx). cbn [abytes] in Hmx. lia. }
  rewrite s32_small, Z.max_r in Hf' by lia. eexists. split; [by eapply typed_mem|].
  eapply mem_view_kept; [done|done|lia|by eapply seek_keeps].
Qed.
Lemma mem_view_write s p d pos buf :
  mem_view s p d pos -> mem_room s -> pos + Z.of_nat (length buf) < 2147483648 ->
  exists s', fs_write p buf s = Ok (Z.of_nat (length buf), s') /\
    mem_view s' p (take (Z.to_nat pos) d ++ buf ++ drop (Z.to_nat pos + length buf) d) (pos + Z.of_nat (length buf)).
Proof.
  intros Hv [Hav Hroom] Hlt. pose proof Hv as ([b Hf] & Hp & _). pose proof Hf as (_ & _ & Hpos & h & f & n & _ & _ & Hn & Hb & Hcap & _).
  cbn [apos abytes] in *.
  assert (always_fits b) as Hfit.
  { pose proof (Hroom f n _ _ _ Hn Hb) as H. rewrite length_app, length_junk in H by lia.
    replace (Z.of_nat (length d + Z.to_nat (bcap b - Z.of_nat (length d)))) with (bcap b) in H by lia. by destruct b. }
  pose proof (file_write junk (world s) p _ b buf Hf Hav) as Hw. cbn [afile_step apos abytes overruns block_step] in Hw.
  destruct (Z.leb_spec 2147483648 (pos + Z.of_nat (length buf))); [lia|].
  rewrite (proj2 (Z.ltb_ge _ _) (Hfit _ Hlt)) in Hw. destruct Hw as (w & E & Hf' & _).
  rewrite junk_neg, app_nil_r in Hf' by lia.
  replace (Z.to_nat (pos + Z.of_nat (length buf))) with (Z.to_nat pos + length buf)%nat in Hf' by lia.
  eexists. split; [by eapply typed_mem|]. eapply mem_view_kept; [done|done| |by eapply write_keeps].
  rewrite !length_app, length_take, length_drop. lia.
Qed.
Lemma mem_view_alloc s p d pos : mem_view s p d pos -> mem_room s ->
  exists q s', in_world alloc s = Ok (q, s') /\ q <> 0 /\ mem_view s' p d pos.
Proof.
  intros Hv [Hav _]. pose proof Hv as ([b Hf] & Hp & Hh). destruct Hf as (H1 & H2 & H3 & H4).
  unfold in_world, alloc. destruct (avail (world s)) as [|k]; [lia|]. eexists _, _. split; [done|]. split; [lia|].
  split; [|done]. exists b. split; [done|]. split; [cbn; lia|]. by split.
Qed.

(** Memory files are files a stream can be open on. *)
#[global, refine] Instance mem_file_view : FileView mfs := {|
  view := mem_view;
  room := mem_room |}.
Proof.
  - exact mem_view_type.
  - intros s p d pos ((b & _ & _ & Hpos & h & f & n & _ & _ & _ & _ & _ & Hmx) & Hp & _). cbn [apos abytes] in *. lia.
  - exact mem_view_read.
  - exact mem_view_seek.
  - exact mem_view_write.
  - exact mem_view_alloc.
Defined.
End mem_streams.

(** ** Witnesses *)

#[local] Instance demo_world : FsWorld mfs := stream_world no_junk 9 9 no_fat.
#[local] Instance demo_view : FileView mfs := mem_file_view no_junk 9 9 no_fat.

(** The file /a with two lines, opened at its start as the node 7. *)
Definition demo_text : list Z := codes "ab" ++ [10] ++ codes "cdefghijklmnopqrst".
Definition demo_fss : fss mfs :=
  demo_calls [COpen (codes "/a") FSO_CREATE; CWrite 7 demo_text; CSeek 7 0 FSSEEK_SET] demo_root.
Definition demo_libc : libc mfs := mk_libc demo_fss {[20 := mk_FILE (Z.lor MODE_READ MODE_WRITE) 0 7]} ∅.

(** Its block has 24 bytes. *)
Definition demo_data : list Z := demo_text ++ replicate 3 0.
Definition demo_block : ablock := mk_ablock 24 21.

Lemma demo_text_view : view demo_fss 7 demo_text 0.
Proof.
  split; [|split; [by vm_compute|]].
  - exists demo_block. split; [done|]. split; [by vm_compute|]. split; [cbn; lia|].
    exists (mk_fsn 3 (OFile 6 0) 0), 6, (mk_node (NFile (Some demo_data) 21 21) [97] 2 0 7).
    split; [by vm_compute|]. split; [done|]. split; [by vm_compute|]. split; [done|]. cbn. lia.
  - exists (mk_fsn 3 (OFile 6 0) 0). split; [by vm_compute|]. exists 2. by vm_compute.
Qed.
Lemma demo_open_on : open_on demo_libc 20 3 demo_text 0.
Proof. split; [done|]. exists (mk_FILE 3 0 7). split; [by vm_compute|]. split; [done|]. exact demo_text_view. Qed.

Lemma demo_room (s : fss mfs) : (0 < avail (world s))%nat ->
  map_Forall (fun _ n => (match nbody_of n with NFile (Some d) _ mx => (Z.of_nat (length d) =? 24) && (mx =? 21) | _ => true end) = true)
    (nodes (world s)) -> mem_room s.
Proof.
  intros Ha Hall. split; [done|]. intros f n d sz mx Hf Hb. specialize (Hall f n Hf). cbv beta in Hall. rewrite Hb in Hall.
  apply andb_true_iff in Hall as [->%Z.eqb_eq ->%Z.eqb_eq]. apply roomy_fits; [unfold roomy|]; cbn; lia.
Qed.

Lemma fgets_lines_witness : exists bufs s', read_lines 30 3 20 demo_libc = Ok (bufs, s') /\ Forall (line_buffer 3) bufs /\
  concat (@removelast Z <$> bufs) = demo_text /\ open_on s' 20 3 demo_text 21.
Proof.
  apply (fgets_lines demo_libc 20 3 demo_text 0 3 30 demo_open_on); [repeat constructor; by vm_compute|lia|].
  vm_compute. lia.
Defined.

Definition seterr : Z -> mfs -> mfs := set_errno.

Lemma fwrite_fread_witness : exists s',
  (n ← fwrite [120; 121] 1 20; r ← fseek seterr 20 0 FSSEEK_SET; '(k, bytes) ← fread 1 2 20; mret (n, r, k, bytes)) demo_libc
    = Ok ((2, 0, 2, [120; 121]), s') /\ open_on s' 20 3 ([120; 121] ++ [10] ++ codes "cdefghijklmnopqrst") 2.
Proof. by apply (fwrite_fread seterr demo_libc 20 3 demo_text 0 [120; 121] demo_open_on); [|apply demo_room; [vm_compute; lia|by apply (bool_decide_unpack _); vm_compute]|]. Defined.

Lemma feof_never_witness : exists r s', fread 1 9 20 demo_libc = Ok (r, s') /\ files s' = files demo_libc.
Proof. apply (feof_never demo_libc 20 3 demo_text 0 9 demo_open_on). lia. Defined.

(** /a opened again, as the node 10. *)
Definition demo_reopened : fss mfs := match fs_open (codes "/a") 0 demo_fss with Ok (_, s) => s | _ => demo_fss end.
Lemma fopen_file_witness : exists fp s',
  fopen seterr (codes "/a") (codes "r") (mk_libc demo_fss ∅ ∅) = Ok (fp, s') /\ open_on s' fp 1 demo_text 0.
Proof.
  apply (fopen_file seterr (mk_libc demo_fss ∅ ∅) (codes "/a") (codes "r") 1 10 demo_reopened demo_text);
    [done|by vm_compute|done| |apply demo_room; [vm_compute; lia|by apply (bool_decide_unpack _); vm_compute]].
  split; [|split; [by vm_compute|]].
  - exists demo_block. split; [done|]. split; [by vm_compute|]. split; [cbn; lia|].
    exists (mk_fsn 3 (OFile 6 0) 0), 6, (mk_node (NFile (Some demo_data) 21 21) [97] 2 0 7).
    split; [by vm_compute|]. split; [done|]. split; [by vm_compute|]. split; [done|]. cbn. lia.
  - exists (mk_fsn 3 (OFile 6 0) 0). split; [by vm_compute|]. exists 2. by vm_compute.
Defined.

(** ** Where the library does not do what its functions are for *)

(** The results of two calls, run after each other. *)
Definition after {A B} (m1 : SM (libc mfs) A) (m2 : SM (libc mfs) B) : option (A * B) :=
  match m1 (mk_libc demo_fss ∅ ∅) with
  | Ok (a, s) => match m2 s with Ok (b, _) => Some (a, b) | _ => None end
  | _ => None
  end.

(** [rmdir] removes a file and reports success. *)
Lemma rmdir_removes_file : after (rmdir (codes "/a")) (fopen seterr (codes "/a") (codes "r")) = Some (0, 0).
Proof. by vm_compute. Qed.
(** No mode creates or truncates a file; ["rb+"] is no mode. *)
Lemma fopen_never_creates : after (fopen seterr (codes "/new") (codes "w+")) (fopen seterr (codes "/a") (codes "rb+")) = Some (0, 0).
Proof. by vm_compute. Qed.
Lemma fopen_never_truncates : after (fopen seterr (codes "/a") (codes "w")) (fread 1 30 12) = Some (12, (21, demo_text)).
Proof. by vm_compute. Qed.
(** [fopen] of a directory leaves its node open. *)
Lemma fopen_leaks : match fopen seterr (codes "/") (codes "r") (mk_libc demo_fss ∅ ∅) with
  | Ok (r, s) => r = 0 /\ handles (world (fsys s)) !! 10 = Some (mk_fsn 3 (ODir 2 6) 0)
  | _ => False
  end.
Proof. by vm_compute. Qed.
