(* ===== verification/Fat.v ===== *)
(** * FAT volumes: mounting, clusters (src/fsfat.c)

    The boot sector of the volume, the FAT read into memory and the chains of
    clusters in it. Reading sectors of the boot drive ([None]: the read failed)
    and the address [low_mem_buffer] are parameters, as is what uninitialised
    memory holds; memory itself does not run out (every failed allocation
    panics). The messages are not modelled. *)
From S2P Require Import Prelude Ctype.

Definition ATTR_RO : Z := 0x01.
Definition ATTR_HIDDEN : Z := 0x02.
Definition ATTR_SYSTEM : Z := 0x04.
Definition ATTR_VOLID : Z := 0x08.
Definition ATTR_DIR : Z := 0x10.
Definition ATTR_ARCHIVE : Z := 0x20.
Definition ATTR_LFN : Z := 0xf.

Inductive fat_type := FAT12 | FAT16 | FAT32 | EXFAT.
#[export] Instance fat_type_eq_dec : EqDecision fat_type.
Proof. solve_decision. Defined.

(** [struct fatfs], without the root directory. *)
Record fatfs := mk_fatfs {
  ftype : fat_type; fdev : Z; start_sect : Z; fs_size : Z; cluster_size : Z; fat_size : Z; fat_sect : Z;
  root_sect : Z; root_size : Z; first_data_sect : Z; num_data_sect : Z; num_clusters : Z; label : list Z;
  fat : list Z; clust_mask : Z; clust_shift : Z }.

(** [struct bparam], [struct bparam_ext16] and [struct bparam_ext32] at the
    start of a sector. *)
Record bparam := mk_bparam {
  jmp0 : Z; jmp2 : Z; sect_bytes : Z; bp_cluster_size : Z; reserved_sect : Z; num_fats : Z; num_dirent : Z;
  num_sectors : Z; bp_fat_size : Z; num_sectors32 : Z; label16 : list Z; fat_size32 : Z; root_clust : Z;
  label32 : list Z }.
Definition parse_bparam (s : list Z) : bparam :=
  mk_bparam (sb s 0) (sb s 2) (sw s 11) (sb s 13) (sw s 14) (sb s 16) (sw s 17) (sw s 19) (sw s 22) (sl s 32)
    (sb s <$> zseq 43 11) (sl s 36) (sl s 44) (sb s <$> zseq 71 11).

(** The label up to its terminator, without trailing blanks: the loop goes down
    from the last character. [l] is the label reversed. *)
Fixpoint strip_rev (l : list Z) : list Z :=
  match l with
  | c :: l' => if isspace c then strip_rev l' else l
  | [] => []
  end.
Definition strip_label (l : list Z) : list Z := reverse (strip_rev (reverse l)).

(** [clust_shift] from [shift] on. *)
Fixpoint find_shift (fuel : nat) (bytes shift : Z) : option Z :=
  match fuel with
  | O => None
  | S fuel => if Z.shiftl 1 shift <? bytes then find_shift fuel bytes (shift + 1) else Some shift
  end.

Section volume.
Variable boot_drive_number : Z.
Variable bdev_read_range : Z -> Z -> option (list Z).
Variable low_mem_buffer : Z.
Variable junk : Z -> Z.

Definition max_sect_once : Z := let n := s32 ((0xa0000 - low_mem_buffer) ÷ 512) in if 127 <? n then 127 else n.

Definition read_sectors (dev sidx count : Z) : option (list Z) :=
  if (dev =? -1) || (dev =? boot_drive_number) then bdev_read_range sidx count else None.

(** The loop that fills a new buffer from sector [sect] on, [num_read] of
    [total] sectors read. A failed read leaves what was there. *)
Fixpoint read_chunks (fuel : nat) (dev sect total num_read : Z) : res (list Z) :=
  match fuel with
  | O => NoFuel
  | S fuel =>
      if num_read <? total then
        let count := if max_sect_once <? total - num_read then max_sect_once else total - num_read in
        let data := match read_sectors dev (u64 (sect + num_read)) count with
                    | Some d => d
                    | None => junk <$> zseq (num_read * 512) (Z.to_nat (count * 512))
                    end in
        rest ← read_chunks fuel dev sect total (num_read + count); Ok (data ++ rest)
      else Ok []
  end.

Definition fat_type_of (num_clusters : Z) : fat_type :=
  if num_clusters <? 4085 then FAT12
  else if num_clusters <? 65525 then FAT16
  else if num_clusters <? 268435445 then FAT32
  else EXFAT.

(** [fsfat_create] up to the root directory: the volume, null if the sector is
    not a boot sector. A cluster size of zero traps at the division. *)
Definition open_volume (fuel : nat) (dev start : Z) : res (option (bparam * fatfs)) :=
  match read_sectors dev start 1 with
  | None => Ok None
  | Some s =>
      let b := parse_bparam s in
      if negb (jmp0 b =? 0xeb) || negb (jmp2 b =? 0x90) then Ok None else
      if negb (sect_bytes b =? 512) then Ok None else
      let dev' := if dev <? 0 then boot_drive_number else dev in
      let size := if num_sectors b =? 0 then num_sectors32 b else num_sectors b in
      let fsize := s32 (if bp_fat_size b =? 0 then fat_size32 b else bp_fat_size b) in
      let root_sect := u32 (reserved_sect b + fsize * num_fats b) in
      let root_size := (num_dirent b * 32 + 511) / 512 in
      let first_data := u32 (reserved_sect b + num_fats b * fsize + root_size) in
      let ndata := u32 (size - (reserved_sect b + num_fats b * fsize + root_size)) in
      if bp_cluster_size b =? 0 then Fault else
      let nclust := ndata / bp_cluster_size b in
      let ty := fat_type_of nclust in
      let '(root_sect, root_size, lbl) :=
        match ty with
        | FAT12 => (root_sect, root_size, [])
        | FAT16 => (root_sect, root_size, label16 b)
        | FAT32 | EXFAT => (root_clust b / bp_cluster_size b, 0, label32 b)
        end in
      table ← read_chunks fuel dev (start + reserved_sect b) fsize 0;
      let bytes := bp_cluster_size b * 512 in
      shift ← of_option (find_shift 18 bytes 0);
      Ok (Some (b, mk_fatfs ty dev' start size (bp_cluster_size b) fsize (reserved_sect b) root_sect root_size
        first_data ndata nclust (strip_label lbl) table (bytes - 1) shift))
  end.

(** ** The FAT *)

(** Entries of the table read at a width of 2 or 4 bytes; an index behind it
    is an access out of bounds. *)
Definition fat_word (f : fatfs) (i : Z) : res Z :=
  if Z.of_nat (length (fat f)) <? 2 * i + 2 then Fault else Ok (sw (fat f) (2 * i)).
Definition fat_long (f : fatfs) (i : Z) : res Z :=
  if Z.of_nat (length (fat f)) <? 4 * i + 4 then Fault else Ok (sl (fat f) (4 * i)).

Definition read_fat (f : fatfs) (addr : Z) : res Z :=
  match ftype f with
  | FAT12 =>
      let idx := u32 (addr + addr / 2) in
      w ← fat_word f idx;
      Ok (if Z.land idx 1 =? 0 then Z.land w 0xfff else Z.shiftr w 4)
  | FAT16 => fat_word f addr
  | FAT32 | EXFAT => fat_long f addr
  end.

Definition fat_end (ty : fat_type) : Z :=
  match ty with FAT12 => 0xff8 | FAT16 => 0xfff8 | FAT32 | EXFAT => 0xffffff8 end.

Definition next_cluster (f : fatfs) (addr : Z) : res Z :=
  fatval ← read_fat f (u32 addr);
  if fatval =? 0 then Ok (-1) else
  if fat_end (ftype f) <=? fatval then Ok (-1) else Ok (s32 fatval).

(** The loop of [find_cluster], [n] times at most. *)
Fixpoint find_cluster_n (f : fatfs) (n : nat) (clust : Z) : res Z :=
  match n with
  | O => Ok clust
  | S n => c ← next_cluster f clust; if 0 <=? c then find_cluster_n f n c else Ok c
  end.
Definition find_cluster (f : fatfs) (count clust : Z) : res Z := find_cluster_n f (Z.to_nat count) clust.

Definition read_cluster (f : fatfs) (addr : Z) : option (list Z) :=
  let saddr := u64 (u64 (u32 (addr - 2) * cluster_size f) + first_data_sect f + start_sect f) in
  read_sectors (fdev f) saddr (cluster_size f).
End volume.

(** ** Chains *)

(** [l] are the clusters of a file in order, [c] the first. *)
Fixpoint chain (f : fatfs) (c : Z) (l : list Z) : Prop :=
  match l with
  | [] => False
  | x :: l => c = x /\ 0 <= x /\
      match l with
      | [] => next_cluster f x = Ok (-1)
      | y :: _ => next_cluster f x = Ok y /\ chain f y l
      end
  end.

Lemma chain_nonneg f c l x : chain f c l -> x ∈ l -> 0 <= x.
Proof.
  revert c. induction l as [|y l IH]; intros c; cbn [chain]; [done|].
  intros (-> & Hy & Hl) [->|Hx]%elem_of_cons; [done|]. destruct l as [|z l]; [set_solver|].
  destruct Hl as [_ Hl]. by eapply IH.
Qed.

Lemma chain_drop f c l n x : chain f c l -> l !! n = Some x -> chain f x (drop n l).
Proof.
  revert c n. induction l as [|y l IH]; intros c n Hc Hx; [done|]. destruct n as [|n].
  - injection Hx as <-. cbn [drop]. cbn [chain] in Hc. by destruct Hc as (-> & ?).
  - destruct l as [|z l]; [done|]. destruct Hc as (_ & _ & _ & Hc). by apply (IH z n).
Qed.

Lemma find_cluster_n_chain f c l k : chain f c l -> find_cluster_n f k c = Ok (default (-1) (l !! k)).
Proof.
  revert c k. induction l as [|x l IH]; intros c k Hc; [done|]. pose proof Hc as (-> & Hx & Hl).
  destruct k as [|k]; [done|]. cbn [find_cluster_n lookup list_lookup]. destruct l as [|y l].
  - rewrite Hl. by destruct k.
  - destruct Hl as [E Hl]. rewrite E. cbn [mbind res_mbind res_bind].
    assert (0 <= y) by (by destruct Hl as (_ & ? & _)). destruct (Z.leb_spec 0 y); [|lia]. by apply IH.
Qed.

Lemma chain_next f c l i x : chain f c l -> l !! i = Some x -> next_cluster f x = Ok (default (-1) (l !! S i)).
Proof.
  intros Hc Hx. pose proof (chain_drop f c l i x Hc Hx) as Hd.
  rewrite <- Nat.add_1_r, <- lookup_drop. destruct (drop i l) as [|y [|z l']]; [done| |].
  - by destruct Hd as (-> & _ & ->).
  - by destruct Hd as (-> & _ & -> & _).
Qed.

(** [find_cluster] counts along the chain, to -1 behind its end. *)
Theorem find_cluster_chain f c l n : chain f c l -> find_cluster f n c = Ok (default (-1) (l !! Z.to_nat n)).
Proof. apply find_cluster_n_chain. Qed.

(** ** The entries of a FAT12 table *)

(** Entry [n], 12 bits from byte [n + n / 2] on. *)
Definition fat12_entry (t : list Z) (n : Z) : Z :=
  if Z.even n then Z.land (sw t (n + n / 2)) 0xfff else Z.shiftr (sw t (n + n / 2)) 4.

(** The byte offset of a FAT12 entry is used as an index of words: [read_fat]
    gives the entry of twice the number for every fourth cluster, and reads
    behind the table for the clusters of its last third. *)
Theorem fat12_wrong_entry f n :
  ftype f = FAT12 -> 0 <= n < 4096 ->
  (n mod 4 = 0 -> 3 * n + 2 <= Z.of_nat (length (fat f)) -> read_fat f n = Ok (fat12_entry (fat f) (2 * n))) /\
  (Z.of_nat (length (fat f)) < 2 * (n + n / 2) + 2 -> read_fat f n = Fault).
Proof.
  intros Ht Hn. unfold read_fat, fat_word. rewrite Ht. assert (u32 (n + n / 2) = n + n / 2) as -> by (apply u32_small; mlia).
  split.
  - intros Hm Hl. assert (2 * (n + n / 2) = 3 * n) as -> by mlia.
    destruct (Z.ltb_spec (Z.of_nat (length (fat f))) (3 * n + 2)); [lia|]. cbn [mbind res_mbind res_bind].
    assert (Z.land (n + n / 2) 1 = 0) as -> by (change 1 with (Z.ones 1); rewrite Z.land_ones by lia; change (2 ^ 1) with 2; mlia).
    unfold fat12_entry. assert (Z.even (2 * n) = true) as -> by (rewrite Z.even_mul; done).
    cbn [Z.eqb]. do 4 f_equal. mlia.
  - intros Hl. by destruct (Z.ltb_spec (Z.of_nat (length (fat f))) (2 * (n + n / 2) + 2)); [|lia].
Qed.

(** ** Disks *)

(** Reading [count] sectors, [cmax] at most, gives them, on a disk of [nsect]
    sectors. *)
Class DiskRange (bdev_read_range : Z -> Z -> option (list Z)) (disk : Z -> list Z) (nsect cmax : Z) := {
  disk_sector i : length (disk i) = 512%nat;
  disk_small : nsect <= 18446744073709551616;
  disk_max : 127 <= cmax;
  disk_read s c : 0 <= s -> 0 < c <= cmax -> s + c <= nsect ->
    bdev_read_range s c = Some (mjoin (disk <$> zseq s (Z.to_nat c))) }.

Section disk.
Context (boot : Z) (bdev : Z -> Z -> option (list Z)) (lmb : Z) (junk : Z -> Z) (disk : Z -> list Z) (nsect cmax : Z).
Context `{!DiskRange bdev disk nsect cmax}.
Hypothesis Hlow : 1 <= max_sect_once lmb.

Definition sectors (s : Z) (n : Z) : list Z := mjoin (disk <$> zseq s (Z.to_nat n)).

Lemma sectors_app s n k : 0 <= n -> 0 <= k -> sectors s (n + k) = sectors s n ++ sectors (s + n) k.
Proof.
  intros. unfold sectors. rewrite Z2Nat.inj_add, zseq_app, fmap_app, join_app by lia. by rewrite Z2Nat.id by lia.
Qed.
Lemma length_sectors s n : 0 <= n -> Z.of_nat (length (sectors s n)) = 512 * n.
Proof.
  intros Hn. unfold sectors. rewrite <- (Z2Nat.id n) at 2 by done. generalize (Z.to_nat n) as k. clear n Hn. intros k.
  revert s. induction k as [|k IH]; intros s; [done|]. cbn [zseq].
  change (mjoin (disk <$> s :: zseq (s + 1) k)) with (disk s ++ mjoin (disk <$> zseq (s + 1) k)).
  rewrite length_app, disk_sector. specialize (IH (s + 1)). lia.
Qed.

Lemma max_sect_once_le : max_sect_once lmb <= 127.
Proof. unfold max_sect_once. destruct (Z.ltb_spec 127 (s32 ((655360 - lmb) ÷ 512))); lia. Qed.

Lemma read_sectors_ok dev s c : dev = -1 \/ dev = boot -> 0 <= s -> 0 < c <= cmax -> s + c <= nsect ->
  read_sectors boot bdev dev s c = Some (sectors s c).
Proof.
  intros Hdev Hs Hc Hn. unfold read_sectors.
  assert ((dev =? -1) || (dev =? boot) = true) as -> by (destruct Hdev as [->| ->]; [done|by rewrite Z.eqb_refl, orb_true_r]).
  by apply disk_read.
Qed.

(** The table is read whole, whatever number of sectors fits at once. *)
Lemma read_chunks_ok fuel dev s total n :
  dev = -1 \/ dev = boot -> 0 <= s -> 0 <= n <= total -> s + total <= nsect -> (Z.to_nat (total - n) < fuel)%nat ->
  read_chunks boot bdev lmb junk fuel dev s total n = Ok (sectors (s + n) (total - n)).
Proof.
  intros Hdev Hs. pose proof max_sect_once_le as Hmax. pose proof disk_small as Hsm. pose proof disk_max as Hcm.
  revert n. induction fuel as [|fuel IH]; intros n Hn Ht Hf; [lia|]. cbn [read_chunks].
  destruct (Z.ltb_spec n total) as [Hlt|]; [|by replace (total - n) with 0 by lia].
  set (c := if max_sect_once lmb <? total - n then max_sect_once lmb else total - n).
  assert (1 <= c <= 127 /\ c <= total - n) as [Hc1 Hc2] by (unfold c; destruct (Z.ltb_spec (max_sect_once lmb) (total - n)); lia).
  cbv zeta. assert (u64 (s + n) = s + n) as -> by (unfold u64; apply Z.mod_small; lia).
  rewrite read_sectors_ok by (done || lia). rewrite IH by lia. cbn [mbind res_mbind res_bind].
  replace (s + (n + c)) with (s + n + c) by lia. rewrite <- sectors_app by lia. do 2 f_equal. lia.
Qed.

(** Sizes in sectors a boot sector gives: the volume, one table, all before the
    first cluster. *)
Definition bp_size (b : bparam) : Z := if num_sectors b =? 0 then num_sectors32 b else num_sectors b.
Definition bp_fsize (b : bparam) : Z := if bp_fat_size b =? 0 then fat_size32 b else bp_fat_size b.
Definition bp_meta (b : bparam) : Z :=
  reserved_sect b + num_fats b * bp_fsize b + (num_dirent b * 32 + 511) / 512.

(** A boot sector of a volume that is not larger than it says. *)
Record boot_ok (b : bparam) (k : Z) : Prop := {
  bo_jmp : jmp0 b = 0xeb /\ jmp2 b = 0x90;
  bo_bytes : sect_bytes b = 512;
  bo_cluster : 0 <= k <= 7 /\ bp_cluster_size b = 2 ^ k;
  bo_fats : 1 <= num_fats b;
  bo_fsize : 0 < bp_fsize b < 2147483648;
  bo_size : bp_meta b <= bp_size b }.

Lemma parse_range s0 : let b := parse_bparam s0 in
  0 <= reserved_sect b < 65536 /\ 0 <= num_fats b < 256 /\ 0 <= num_dirent b < 65536 /\ 0 <= bp_size b < 4294967296.
Proof.
  cbn. unfold bp_size. cbn. pose proof (sw_range s0 14). pose proof (sb_range s0 16). pose proof (sw_range s0 17).
  pose proof (sw_range s0 19). pose proof (sl_range s0 32). destruct (_ =? 0); lia.
Qed.

Lemma find_shift_pow2 k : 0 <= k <= 7 -> find_shift 18 (2 ^ k * 512) 0 = Some (k + 9).
Proof.
  intros Hk. assert (k = 0 \/ k = 1 \/ k = 2 \/ k = 3 \/ k = 4 \/ k = 5 \/ k = 6 \/ k = 7) as H by lia.
  repeat destruct H as [->|H]; [by vm_compute..|]. by rewrite H; vm_compute.
Qed.

(** A cluster of the volume. *)
Lemma read_cluster_ok f c :
  fdev f = boot -> 0 <= start_sect f -> 0 <= first_data_sect f < 4294967296 -> 1 <= cluster_size f <= cmax ->
  2 <= c -> start_sect f + first_data_sect f + (c - 2) * cluster_size f + cluster_size f <= nsect ->
  c < 4294967296 ->
  read_cluster boot bdev f c =
    Some (sectors (start_sect f + first_data_sect f + (c - 2) * cluster_size f) (cluster_size f)).
Proof.
  intros Hd Hs Hf Hc H2 Hn Hc4. pose proof disk_small as Hsm. unfold read_cluster.
  rewrite (u32_small (c - 2)) by lia. assert (0 <= (c - 2) * cluster_size f) by nia.
  assert (u64 ((c - 2) * cluster_size f) = (c - 2) * cluster_size f) as -> by (unfold u64; apply Z.mod_small; lia).
  assert (u64 ((c - 2) * cluster_size f + first_data_sect f + start_sect f) =
    start_sect f + first_data_sect f + (c - 2) * cluster_size f) as -> by (unfold u64; rewrite Z.mod_small; lia).
  apply read_sectors_ok; lia || auto.
Qed.

Lemma open_volume_ok dev start k fuel :
  let b := parse_bparam (disk start) in
  dev = -1 \/ dev = boot -> 0 <= boot -> 0 <= start -> start + bp_size b <= nsect -> boot_ok b k ->
  bp_cluster_size b <= cmax -> bp_fsize b < Z.of_nat fuel ->
  exists f, open_volume boot bdev lmb junk fuel dev start = Ok (Some (b, f)) /\
    start_sect f = start /\ fdev f = boot /\ cluster_size f = bp_cluster_size b /\ first_data_sect f = bp_meta b /\ 0 <= clust_shift f /\
    (ftype f = FAT16 -> root_sect f = reserved_sect b + num_fats b * bp_fsize b /\ root_size f = (num_dirent b * 32 + 511) / 512) /\
    fat f = sectors (start + reserved_sect b) (bp_fsize b) /\
    num_clusters f = (bp_size b - bp_meta b) / bp_cluster_size b /\ ftype f = fat_type_of (num_clusters f) /\
    2 ^ clust_shift f = cluster_size f * 512 /\ clust_mask f = 2 ^ clust_shift f - 1 /\
    forall c, 2 <= c < 2 + num_clusters f ->
      let first := start + bp_meta b + (c - 2) * cluster_size f in
      read_cluster boot bdev f c = Some (sectors first (cluster_size f)) /\ first + cluster_size f <= start + bp_size b.
Proof.
  intros b Hdev Hboot Hstart Hn [[J0 J2] Hb [Hk Hcs] Hf1 Hfs Hsz] Hcmax Hfuel.
  pose proof disk_max as Hcm.
  destruct (parse_range (disk start)) as (Hr & Hnf & Hnd & Hbs). fold b in Hr, Hnf, Hnd, Hbs.
  assert (0 < 2 ^ k <= 128) as Hcs0 by (split; [lia|]; change 128 with (2 ^ 7); apply Z.pow_le_mono_r; lia).
  assert (0 <= (num_dirent b * 32 + 511) / 512) by (apply Z.div_pos; lia).
  assert (bp_fsize b <= num_fats b * bp_fsize b) as Hff by nia.
  assert (1 <= bp_meta b < 4294967296) as Hm by (unfold bp_meta in *; lia).
  assert (read_chunks boot bdev lmb junk fuel dev (start + reserved_sect b) (bp_fsize b) 0 =
    Ok (sectors (start + reserved_sect b) (bp_fsize b))) as Et.
  { rewrite read_chunks_ok by (done || lia || unfold bp_meta in *; lia). by rewrite Z.add_0_r, Z.sub_0_r. }
  unfold open_volume. rewrite read_sectors_ok by (done || lia || unfold bp_meta in *; lia).
  assert (sectors start 1 = disk start) as -> by (unfold sectors; apply app_nil_r). fold b. cbv zeta.
  rewrite J0, J2, Hb. cbn [Z.eqb Pos.eqb negb orb].
  fold (bp_fsize b) (bp_size b). rewrite (s32_small (bp_fsize b)) by lia. fold (bp_meta b). rewrite Hcs.
  destruct (Z.eqb_spec (2 ^ k) 0); [lia|]. rewrite find_shift_pow2 by done. rewrite (u32_small (bp_meta b)) by lia.
  rewrite (u32_small (bp_size b - bp_meta b)) by lia. rewrite Et. cbn [mbind res_mbind res_bind of_option].
  set (ncl := (bp_size b - bp_meta b) / 2 ^ k).
  assert (ncl * 2 ^ k <= bp_size b - bp_meta b) as Hcl by (unfold ncl; rewrite Z.mul_comm; apply Z.mul_div_le; lia).
  assert (u32 (reserved_sect b + bp_fsize b * num_fats b) = reserved_sect b + num_fats b * bp_fsize b) as Hroot
    by (rewrite Z.mul_comm; apply u32_small; unfold bp_meta in *; lia).
  destruct (match fat_type_of ncl with FAT12 => _ | FAT16 => _ | _ => _ end) as [[rs rz] lbl] eqn:Er.
  eexists. split; [done|]. cbn [fat num_clusters ftype clust_shift clust_mask cluster_size fdev start_sect first_data_sect root_sect root_size].
  assert ((if dev <? 0 then boot else dev) = boot) as Ed.
  { destruct Hdev as [-> | ->]; [done|]. by destruct (Z.ltb_spec boot 0); [lia|]. }
  do 4 (split; [done|]). split; [lia|].
  split; [intros Ety; rewrite Ety, Hroot in Er; by injection Er as <- <- _|].
  split; [done|]. split; [done|]. split; [done|]. split; [rewrite Z.pow_add_r by lia; lia|].
  split; [rewrite Z.pow_add_r by lia; lia|]. intros c Hc. assert ((c - 2) * 2 ^ k + 2 ^ k <= ncl * 2 ^ k) by nia.
  split; [|lia]. rewrite read_cluster_ok; cbn [fdev start_sect first_data_sect cluster_size]; try lia; try done.
  nia.
Qed.
(** C15. A valid boot sector is accepted: the table is read whole, the type is the
    one the number of clusters gives, the shift and mask are those of the
    cluster size, and each of the clusters is read from its own sectors of the
    volume. *)
Theorem open_volume_correct dev start k fuel :
  let b := parse_bparam (disk start) in
  dev = -1 \/ dev = boot -> 0 <= boot -> 0 <= start -> start + bp_size b <= nsect -> boot_ok b k ->
  bp_cluster_size b <= cmax -> bp_fsize b < Z.of_nat fuel ->
  exists f, open_volume boot bdev lmb junk fuel dev start = Ok (Some (b, f)) /\
    fat f = sectors (start + reserved_sect b) (bp_fsize b) /\
    num_clusters f = (bp_size b - bp_meta b) / bp_cluster_size b /\ ftype f = fat_type_of (num_clusters f) /\
    2 ^ clust_shift f = cluster_size f * 512 /\ clust_mask f = 2 ^ clust_shift f - 1 /\
    forall c, 2 <= c < 2 + num_clusters f ->
      let first := start + bp_meta b + (c - 2) * cluster_size f in
      read_cluster boot bdev f c = Some (sectors first (cluster_size f)) /\ first + cluster_size f <= start + bp_size b.
Proof.
  intros b Hdev Hboot Hstart Hn Hok Hc Hfuel.
  destruct (open_volume_ok dev start k fuel Hdev Hboot Hstart Hn Hok Hc Hfuel) as (f & E & _ & _ & _ & _ & _ & _ & H).
  by exists f.
Qed.
End disk.

(** ** A FAT16 volume of 5000 sectors *)

Definition demo_boot : list Z :=
  [0xeb; 0; 0x90] ++ replicate 8 32 ++ [0; 2; 1; 1; 0; 1; 16; 0; 0x88; 0x13; 0xf8; 20; 0] ++ replicate 488 0.
Definition demo_disk (i : Z) : list Z := if i =? 0 then demo_boot else replicate 512 0.
Definition demo_read (s c : Z) : option (list Z) := Some (mjoin (demo_disk <$> zseq s (Z.to_nat c))).

#[export] Instance demo_range : DiskRange demo_read demo_disk 5000 255.
Proof. split; [|done|done|done]. intros i. unfold demo_disk. by destruct (i =? 0). Qed.

Lemma open_volume_correct_witness :
  exists f, open_volume 0x80 demo_read 0x10000 (fun _ => 0) 30 (-1) 0 = Ok (Some (parse_bparam demo_boot, f)) /\
    ftype f = fat_type_of (num_clusters f) /\ num_clusters f = 4978 /\
    read_cluster 0x80 demo_read f 2 = Some (sectors demo_disk 22 (cluster_size f)).
Proof.
  destruct (open_volume_correct 0x80 demo_read 0x10000 (fun _ => 0) demo_disk 5000 255 ltac:(by vm_compute) (-1) 0 0 30)
    as (f & E & _ & En & Et & _ & _ & Hc); [by left|done|done|by vm_compute|by split; vm_compute|by vm_compute|by vm_compute|].
  exists f. split; [exact E|]. split; [done|]. split; [done|]. apply (Hc 2). rewrite En. by vm_compute.
Defined.

Definition demo_table : fatfs :=
  mk_fatfs FAT16 0x80 0 100 1 1 1 2 1 10 90 90 [] [0xf8; 0xff; 0xff; 0xff; 3; 0; 0xff; 0xff] 511 9.

Lemma find_cluster_chain_witness : find_cluster demo_table 1 2 = Ok 3 /\ find_cluster demo_table 2 2 = Ok (-1).
Proof.
  assert (chain demo_table 2 [2; 3]) as H by by vm_compute.
  split; [exact (find_cluster_chain demo_table 2 [2; 3] 1 H)|exact (find_cluster_chain demo_table 2 [2; 3] 2 H)].
Defined.

Definition demo_table12 : fatfs := mk_fatfs FAT12 0x80 0 100 1 1 1 2 1 10 90 90 [] (zseq 0 16) 511 9.

Lemma fat12_wrong_entry_witness :
  read_fat demo_table12 4 = Ok (fat12_entry (zseq 0 16) 8) /\ fat12_entry (zseq 0 16) 8 <> fat12_entry (zseq 0 16) 4 /\
  read_fat demo_table12 6 = Fault.
Proof.
  split; [|split; [by vm_compute|]].
  - apply (fat12_wrong_entry demo_table12 4); by vm_compute.
  - apply (fat12_wrong_entry demo_table12 6); by vm_compute.
Defined.
