(* ===== verification/FatFile.v ===== *)
(** * Files of FAT volumes (src/fsfat.c)

    [seek], [read], [tell] and [fsize] on an open file: its position, the cluster
    the position is in, and the buffer that holds that cluster. *)
From S2P Require Import Prelude FsPath Fat.

(** [struct fat_file]; of the directory entry only the size matters here. *)
Record fat_file := mk_file {
  size_bytes : Z; first_clust : Z; cur_pos : Z; cur_clust : Z; clustbuf : list Z; buf_valid : bool }.

Section file.
Variable f : fatfs.
Variable boot_drive_number : Z.
Variable bdev_read_range : Z -> Z -> option (list Z).
Variable junk : Z -> Z.

(** [first] combines the two halves of the first cluster's number. *)
Definition init_file (size first_low first_high : Z) : fat_file :=
  let first := s32 (Z.lor first_low (Z.shiftl first_high 16)) in
  mk_file size first 0 first (junk <$> zseq 0 (Z.to_nat (cluster_size f * 512))) false.

Definition fsize (file : fat_file) : Z := s32 (size_bytes file).
Definition tell (file : fat_file) : Z := s32 (cur_pos file).

(** [seek] to the position it computed. *)
Definition seek_to (file : fat_file) (new_pos : Z) : res (Z * fat_file) :=
  let new_pos := if new_pos <? 0 then 0 else new_pos in
  let cur_clust_idx := u32 (Z.shiftr (cur_pos file) (clust_shift f)) in
  let new_clust_idx := u32 (Z.shiftr new_pos (clust_shift f)) in
  if new_clust_idx =? cur_clust_idx then
    Ok (0, mk_file (size_bytes file) (first_clust file) new_pos (cur_clust file) (clustbuf file) (buf_valid file))
  else
    c ← (if new_clust_idx <? cur_clust_idx then find_cluster f (s32 new_clust_idx) (first_clust file)
         else find_cluster f (s32 (new_clust_idx - cur_clust_idx)) (cur_clust file));
    Ok (0, mk_file (size_bytes file) (first_clust file) new_pos c (clustbuf file) false).

Definition seek (file : fat_file) (offs whence : Z) : res (Z * fat_file) :=
  if whence =? FSSEEK_SET then seek_to file offs
  else if whence =? FSSEEK_CUR then seek_to file (cur_pos file + offs)
  else if whence =? FSSEEK_END then seek_to file (u32 (size_bytes file + offs))
  else Ok (-1, file).

(** The loop of [read], [left] bytes still wanted: the bytes copied. *)
Fixpoint read_loop (fuel : nat) (left : Z) (cur_clust_idx : Z) (file : fat_file) : res (list Z * fat_file) :=
  match fuel with
  | O => NoFuel
  | S fuel =>
      if left <=? 0 then Ok ([], file) else
      let buf := if buf_valid file then clustbuf file else
        match read_cluster boot_drive_number bdev_read_range f (u32 (cur_clust file)) with
        | Some d => d
        | None => clustbuf file
        end in
      let offs := Z.land (cur_pos file) (clust_mask f) in
      let buf_left := cluster_size f * 512 - offs in
      let len := if buf_left <? left then buf_left else left in
      let len := if size_bytes file <? cur_pos file + len then s32 (size_bytes file - cur_pos file) else len in
      if len <? 0 then Fault else
      let data := take (Z.to_nat len) (drop (Z.to_nat offs) buf) in
      let pos := cur_pos file + len in
      if size_bytes file <=? pos then
        Ok (data, mk_file (size_bytes file) (first_clust file) pos (-1) buf false)
      else
        let new_clust_idx := u32 (Z.shiftr pos (clust_shift f)) in
        if new_clust_idx =? cur_clust_idx then
          '(rest, file) ← read_loop fuel (left - len) cur_clust_idx
            (mk_file (size_bytes file) (first_clust file) pos (cur_clust file) buf true);
          Ok (data ++ rest, file)
        else
          c ← next_cluster f (cur_clust file);
          let file := mk_file (size_bytes file) (first_clust file) pos c buf false in
          if c <? 0 then Ok (data, file) else
          '(rest, file) ← read_loop fuel (left - len) new_clust_idx file;
          Ok (data ++ rest, file)
  end.

Definition read (fuel : nat) (file : fat_file) (sz : Z) : res (Z * list Z * fat_file) :=
  if sz <? 0 then Ok (-1, [], file) else
  if cur_clust file <? 0 then Ok (0, [], file) else
  '(data, file) ← read_loop fuel sz (u32 (Z.shiftr (cur_pos file) (clust_shift f))) file;
  Ok (Z.of_nat (length data), data, file).

(** ** Specification

    The contents of the file with a position, and whether a read has met the end;
    only moving back to an earlier cluster takes that back. Nothing is said of
    positions of 4 GB and more, of reads behind the end of the file within its last
    cluster, and of moving on from the end. *)
Record fat_spec := mk_spec { contents : list Z; pos : Z; at_end : bool }.

Inductive fat_op := RRead (sz : Z) | RSeek (offs whence : Z) | RTell | RSize.
Inductive fat_out := RInt (v : Z) | RData (v : Z) (l : list Z).

(** Bytes of a cluster, and how many clusters the file has. *)
Variable csz ncl : Z.

Definition spec_seek (a : fat_spec) (new : Z) : option fat_spec :=
  let new := if new <? 0 then 0 else new in
  if 4294967296 <=? new then None else
  if new / csz =? pos a / csz then Some (mk_spec (contents a) new (at_end a))
  else if (pos a / csz <? new / csz) && at_end a then None
  else Some (mk_spec (contents a) new (ncl <=? new / csz)).

Definition spec_step (o : fat_op) (a : fat_spec) : option (fat_out * fat_spec) :=
  let size := Z.of_nat (length (contents a)) in
  match o with
  | RRead sz =>
      if sz <? 0 then Some (RData (-1) [], a)
      else if at_end a || (sz =? 0) then Some (RData 0 [], a)
      else if size <? pos a then None
      else let n := Z.min sz (size - pos a) in
        Some (RData n (take (Z.to_nat n) (drop (Z.to_nat (pos a)) (contents a))),
              mk_spec (contents a) (pos a + n) (size <=? pos a + n))
  | RSeek offs whence =>
      let to new := a ← spec_seek a new; Some (RInt 0, a) in
      if whence =? FSSEEK_SET then to offs
      else if whence =? FSSEEK_CUR then to (pos a + offs)
      else if whence =? FSSEEK_END then to (u32 (size + offs))
      else Some (RInt (-1), a)
  | RTell => Some (RInt (s32 (pos a)), a)
  | RSize => Some (RInt size, a)
  end.

Fixpoint spec_run (ops : list fat_op) (a : fat_spec) : option (list fat_out * fat_spec) :=
  match ops with
  | [] => Some ([], a)
  | o :: ops => '(x, a) ← spec_step o a; '(xs, a) ← spec_run ops a; Some (x :: xs, a)
  end.

Definition step (fuel : nat) (o : fat_op) (file : fat_file) : res (fat_out * fat_file) :=
  match o with
  | RRead sz => '(n, data, file) ← read fuel file sz; Ok (RData n data, file)
  | RSeek offs whence => '(r, file) ← seek file offs whence; Ok (RInt r, file)
  | RTell => Ok (RInt (tell file), file)
  | RSize => Ok (RInt (fsize file), file)
  end.
Fixpoint run (fuel : nat) (ops : list fat_op) (file : fat_file) : res (list fat_out * fat_file) :=
  match ops with
  | [] => Ok ([], file)
  | o :: ops => '(x, file) ← step fuel o file; '(xs, file) ← run fuel ops file; Ok (x :: xs, file)
  end.
End file.

Section refine.
Variable f : fatfs.
Variable boot_drive_number : Z.
Variable bdev_read_range : Z -> Z -> option (list Z).
Variable csz : Z.
Variable first : Z.
Variable l : list Z.
Variable data : Z -> list Z.
Variable body : list Z.
Notation ncl := (Z.of_nat (length l)).

(** The volume, and a file of size [length body] in the clusters [l]. *)
Record file_ok : Prop := {
  k_csz : csz = cluster_size f * 512 /\ 512 <= csz;
  k_shift : 0 <= clust_shift f /\ csz = 2 ^ clust_shift f /\ clust_mask f = csz - 1;
  k_chain : chain f first l;
  k_range x : x ∈ l -> x < 4294967296;
  k_data x : x ∈ l -> read_cluster boot_drive_number bdev_read_range f x = Some (data x) /\ Z.of_nat (length (data x)) = csz;
  k_size : Z.of_nat (length body) <= ncl * csz /\ Z.of_nat (length body) < 2147483648;
  k_body : body = take (length body) (mjoin (data <$> l)) }.
Hypothesis Hok : file_ok.

Record file_rel (file : fat_file) (a : fat_spec) : Prop := {
  r_body : contents a = body;
  r_size : size_bytes file = Z.of_nat (length body);
  r_first : first_clust file = first;
  r_pos : cur_pos file = pos a /\ 0 <= pos a < 4294967296;
  r_clust : if at_end a then cur_clust file = -1 /\ buf_valid file = false
            else l !! Z.to_nat (pos a / csz) = Some (cur_clust file) /\
                 (buf_valid file = true -> clustbuf file = data (cur_clust file)) }.

Lemma shift_div p : 0 <= p < 4294967296 -> u32 (Z.shiftr p (clust_shift f)) = p / csz.
Proof.
  intros Hp. destruct (k_shift Hok) as (Hs & E & _), (k_csz Hok) as [_ Hc]. rewrite Z.shiftr_div_pow2, <- E by done.
  apply u32_small. split; [apply Z.div_pos; lia|]. apply Z.div_lt_upper_bound; nia.
Qed.
Lemma mask_mod p : 0 <= p -> Z.land p (clust_mask f) = p mod csz.
Proof.
  intros Hp. destruct (k_shift Hok) as (Hs & E & ->). rewrite E.
  replace (2 ^ clust_shift f - 1) with (Z.ones (clust_shift f)) by (rewrite Z.ones_equiv; lia).
  by rewrite Z.land_ones.
Qed.

Lemma data_lengths : Forall (fun b => length b = Z.to_nat csz) (data <$> l).
Proof. apply Forall_fmap, Forall_forall. intros x Hx. destruct (k_data Hok x Hx) as [_ H]. cbn. lia. Qed.

(** What the buffer holds of the file. *)
Lemma body_block i x o n :
  l !! i = Some x -> 0 <= o -> 0 <= n -> o + n <= csz -> Z.of_nat i * csz + o + n <= Z.of_nat (length body) ->
  take (Z.to_nat n) (drop (Z.to_nat o) (data x)) = take (Z.to_nat n) (drop (Z.to_nat (Z.of_nat i * csz + o)) body).
Proof.
  intros Hx Ho Hn Hc Hb. destruct (k_csz Hok) as [_ Hcsz].
  assert (forall m k, (m + k <= length body)%nat -> take k (drop m body) = take k (drop m (mjoin (data <$> l)))) as E.
  { intros m k Hm. rewrite (k_body Hok) at 1. rewrite take_drop_commute, take_take, Nat.min_l by lia.
    by rewrite <- take_drop_commute. }
  rewrite E by lia. replace (Z.to_nat (Z.of_nat i * csz + o)) with (i * Z.to_nat csz + Z.to_nat o)%nat by nia.
  symmetry. apply take_drop_block; [apply data_lengths|by rewrite list_lookup_fmap, Hx|lia].
Qed.

Lemma read_block i x : l !! i = Some x ->
  read_cluster boot_drive_number bdev_read_range f (u32 x) = Some (data x) /\ 0 <= x.
Proof.
  intros Hx. apply list_elem_of_lookup_2 in Hx. pose proof (chain_nonneg _ _ _ _ (k_chain Hok) Hx).
  rewrite u32_small; [|pose proof (k_range Hok x Hx); lia]. by split; [apply (k_data Hok)|].
Qed.

(** A piece of [len] bytes that ends with the request or with the cluster. *)
Lemma piece_index p len left : 0 <= p -> 0 < len -> len <= csz - p mod csz -> 0 < csz ->
  len = left \/ len = csz - p mod csz ->
  (p + len) / csz = p / csz /\ len = left \/ (p + len) / csz = p / csz + 1 /\ len = csz - p mod csz.
Proof.
  intros Hp H1 H2 Hc H. pose proof (Z.div_mod p csz ltac:(lia)) as Hdiv.
  pose proof (Z.mod_pos_bound p csz ltac:(lia)) as Hmod. destruct (decide (len = csz - p mod csz)); [right|left].
  - split; [|lia]. symmetry. apply (Z.div_unique _ _ _ 0); lia.
  - split; [|lia]. symmetry. apply (Z.div_unique _ _ _ (p mod csz + len)); lia.
Qed.

(** The buffer the loop copies from: the cluster of the position. *)
Lemma read_buffer file p : file_rel file (mk_spec body p false) -> p <= Z.of_nat (length body) ->
  (if buf_valid file then clustbuf file else
    match read_cluster boot_drive_number bdev_read_range f (u32 (cur_clust file)) with Some d => d | None => clustbuf file end)
  = data (cur_clust file).
Proof.
  intros [_ _ _ _ [Hl Hbuf]] Hp. destruct (read_block _ _ Hl) as [Erd _]. rewrite Erd. destruct (buf_valid file); auto.
Qed.

(** The loop of [read] from a position before the end of the file, or at it with
    bytes still wanted. *)
Lemma read_loop_spec fuel left file p :
  file_rel file (mk_spec body p false) -> p <= Z.of_nat (length body) -> 0 <= left ->
  0 < left \/ p < Z.of_nat (length body) -> left < Z.of_nat fuel ->
  let n := Z.min left (Z.of_nat (length body) - p) in
  exists file', read_loop f boot_drive_number bdev_read_range fuel left (p / csz) file =
      Ok (take (Z.to_nat n) (drop (Z.to_nat p) body), file') /\
    file_rel file' (mk_spec body (p + n) (Z.of_nat (length body) <=? p + n)).
Proof.
  revert left file p. induction fuel as [|fuel IH]; intros left file p Hr Hp Hleft Hlt Hf; [lia|].
  pose proof (read_buffer file p Hr Hp) as Ebuf. destruct Hr as [_ Hsize Hfirst [Epos Hpos] [Hl Hbuf]].
  cbn [contents pos at_end] in *. cbn zeta. destruct (k_csz Hok) as [Ecsz Hcsz]. cbn [read_loop]. destruct (Z.leb_spec left 0) as [Hz|Hz].
  { assert (left = 0) as -> by lia. exists file. rewrite Z.min_l by lia. split; [done|]. rewrite Z.add_0_r.
    destruct (Z.leb_spec (Z.of_nat (length body)) p); [lia|]. by split. }
  rewrite Ebuf, Epos, mask_mod, Hsize, <- Ecsz by lia. pose proof (Z.mod_pos_bound p csz ltac:(lia)) as Hmod.
  pose proof (Z.div_mod p csz ltac:(lia)) as Hdiv. assert (0 <= p / csz) as Hd0 by (apply Z.div_pos; lia).
  set (len0 := if csz - p mod csz <? left then csz - p mod csz else left).
  assert (0 < len0 /\ len0 <= left /\ len0 <= csz - p mod csz /\ (len0 = left \/ len0 = csz - p mod csz)) as (H1 & H2 & H3 & H4)
    by (unfold len0; destruct (Z.ltb_spec (csz - p mod csz) left); lia).
  set (len := if Z.of_nat (length body) <? p + len0 then s32 (Z.of_nat (length body) - p) else len0).
  assert (len = Z.min len0 (Z.of_nat (length body) - p)) as Elen.
  { unfold len. destruct (k_size Hok). destruct (Z.ltb_spec (Z.of_nat (length body)) (p + len0)); [rewrite s32_small by lia|]; lia. }
  cbv zeta. destruct (Z.ltb_spec len 0); [lia|].
  assert (take (Z.to_nat len) (drop (Z.to_nat (p mod csz)) (data (cur_clust file))) =
    take (Z.to_nat len) (drop (Z.to_nat p) body)) as Edata.
  { rewrite (body_block (Z.to_nat (p / csz)) (cur_clust file)) by (done || lia). do 3 f_equal. lia. }
  rewrite Edata. destruct (Z.leb_spec (Z.of_nat (length body)) (p + len)) as [He|He].
  - eexists. assert (Z.min left (Z.of_nat (length body) - p) = len) as -> by lia. split; [done|].
    destruct (Z.leb_spec (Z.of_nat (length body)) (p + len)); [|lia].
    destruct (k_size Hok). split; cbn; try done; lia.
  - assert (len = len0) as El0 by lia. destruct (k_size Hok) as [Hs1 Hs2].
    rewrite shift_div by lia.
    pose proof (piece_index p len left ltac:(lia) ltac:(lia) ltac:(lia) ltac:(lia) ltac:(lia)) as Hidx.
    set (n' := Z.min (left - len) (Z.of_nat (length body) - (p + len))).
    assert (Z.min left (Z.of_nat (length body) - p) = len + n') as En by lia.
    assert (take (Z.to_nat (len + n')) (drop (Z.to_nat p) body) =
      take (Z.to_nat len) (drop (Z.to_nat p) body) ++ take (Z.to_nat n') (drop (Z.to_nat (p + len)) body)) as Esplit.
    { rewrite !Z2Nat.inj_add, <- drop_drop by lia. by rewrite take_take_drop. }
    cbv zeta in IH. rewrite En, Esplit, Z.add_assoc. destruct (Z.eqb_spec ((p + len) / csz) (p / csz)) as [Ei|Ei].
    + destruct Hidx as [[_ Eleft]|[? _]]; [|lia].
      destruct (IH (left - len) (mk_file (Z.of_nat (length body)) (first_clust file) (p + len) (cur_clust file) (data (cur_clust file)) true) (p + len))
        as (file' & E & Hr'); try lia.
      { split; cbn; try done; try lia. by rewrite Ei. }
      rewrite <- Ei, E. cbn [mbind res_mbind res_bind]. exists file'. by split.
    + destruct Hidx as [[? _]|[Hi Hlen]]; [lia|].
      rewrite (chain_next _ _ _ _ _ (k_chain Hok) Hl). cbn [mbind res_mbind res_bind].
      assert (exists y, l !! S (Z.to_nat (p / csz)) = Some y) as [y Hy].
      { apply lookup_lt_is_Some. assert (p + len = (p / csz + 1) * csz) by lia. assert (p / csz + 1 < ncl) by (apply (Z.mul_lt_mono_pos_r csz); lia). lia. }
      rewrite Hy. cbn [default from_option id]. destruct (read_block _ _ Hy) as [_ Hy0].
      destruct (Z.ltb_spec y 0); [lia|].
      destruct (IH (left - len) (mk_file (Z.of_nat (length body)) (first_clust file) (p + len) y (data (cur_clust file)) false) (p + len))
        as (file' & E & Hr'); try lia.
      { split; cbn; try done; try lia. rewrite Hi. by replace (Z.to_nat (p / csz + 1)) with (S (Z.to_nat (p / csz))) by lia. }
      rewrite E. cbn [mbind res_mbind res_bind]. exists file'. by split.
Qed.

Lemma read_spec fuel file a sz : file_rel file a -> sz < Z.of_nat fuel ->
  match spec_step csz ncl (RRead sz) a with
  | Some (RData v d, a') => exists file', read f boot_drive_number bdev_read_range fuel file sz = Ok (v, d, file') /\ file_rel file' a'
  | Some (RInt _, _) => False
  | None => True
  end.
Proof.
  intros Hr Hf. pose proof Hr as [Hb Hsize Hfirst [Epos Hpos] Hc]. cbn [spec_step]. unfold read.
  destruct (Z.ltb_spec sz 0); [by exists file|]. destruct (at_end a) eqn:Ea; cbn [orb].
  { destruct Hc as [-> _]. by exists file. }
  destruct Hc as [Hl Hbuf]. destruct (read_block _ _ Hl) as [_ Hc0]. destruct (Z.ltb_spec (cur_clust file) 0); [lia|].
  destruct (Z.eqb_spec sz 0) as [->|Hz].
  { exists file. destruct fuel as [|fuel]; [lia|]. done. }
  rewrite Hb. destruct (Z.ltb_spec (Z.of_nat (length body)) (pos a)); [done|].
  destruct a as [b p e]. cbn [contents pos at_end] in *. subst b e.
  destruct (read_loop_spec fuel sz file p) as (file' & E & Hr'); try lia; [by split|].
  cbv zeta in E, Hr'. rewrite Epos, shift_div by lia. rewrite E. cbn [mbind res_mbind res_bind]. exists file'.
  split; [|done]. do 3 f_equal. rewrite length_take, length_drop. lia.
Qed.

Lemma clust_at i : 0 <= i -> (ncl <=? i) = match l !! Z.to_nat i with Some _ => false | None => true end.
Proof.
  intros Hi. destruct (l !! Z.to_nat i) eqn:E; [apply lookup_lt_Some in E|apply lookup_ge_None in E]; lia.
Qed.

(** The cluster [seek] moves to. *)
Lemma seek_rel file a p c :
  file_rel file a -> 0 <= p < 4294967296 -> c = default (-1) (l !! Z.to_nat (p / csz)) ->
  file_rel (mk_file (size_bytes file) (first_clust file) p c (clustbuf file) false)
    (mk_spec (contents a) p (ncl <=? p / csz)).
Proof.
  intros [Hb Hs Hfi _ _] Hp ->. split; cbn; try done. rewrite clust_at; [|apply Z.div_pos; [lia|]].
  - destruct (l !! Z.to_nat (p / csz)) as [x|]; done.
  - destruct (k_csz Hok). lia.
Qed.

Lemma seek_to_spec file a p :
  file_rel file a ->
  match spec_seek csz ncl a p with
  | Some a' => exists file', seek_to f file p = Ok (0, file') /\ file_rel file' a'
  | None => True
  end.
Proof.
  intros Hr. pose proof Hr as [Hb Hsize Hfirst [Epos Hpos] Hc]. unfold spec_seek, seek_to.
  set (q := if p <? 0 then 0 else p). assert (0 <= q) as Hq by (unfold q; destruct (Z.ltb_spec p 0); lia).
  destruct (Z.leb_spec 4294967296 q); [done|]. cbv zeta. rewrite Epos, !shift_div by lia.
  destruct (k_csz Hok) as [_ Hcsz]. assert (0 <= q / csz < 8388609) as Hi.
  { split; [apply Z.div_pos; lia|]. apply Z.div_lt_upper_bound; nia. }
  assert (0 <= pos a / csz < 8388609) as Hj by (split; [apply Z.div_pos; lia|apply Z.div_lt_upper_bound; nia]).
  destruct (Z.eqb_spec (q / csz) (pos a / csz)) as [E|E].
  { eexists. split; [done|]. split; cbn; try done. by rewrite E. }
  rewrite (s32_small (q / csz)) by lia. unfold find_cluster.
  destruct (Z.ltb_spec (q / csz) (pos a / csz)) as [Hlt|Hge].
  - destruct (Z.ltb_spec (pos a / csz) (q / csz)); [lia|]. cbn [andb].
    rewrite Hfirst, (find_cluster_n_chain f first l) by apply (k_chain Hok). eexists. split; [done|]. rewrite <- Hfirst.
    by apply seek_rel.
  - destruct (Z.ltb_spec (pos a / csz) (q / csz)); [|lia]. destruct (at_end a); [done|]. cbn [andb].
    destruct Hc as [Hl _]. rewrite s32_small by lia.
    rewrite (find_cluster_n_chain f _ _ _ (chain_drop _ _ _ _ _ (k_chain Hok) Hl)). eexists. split; [done|].
    apply seek_rel; [done|lia|]. rewrite lookup_drop. do 2 f_equal. lia.
Qed.

Lemma run_spec fuel ops file a outs a' :
  file_rel file a -> (forall sz, RRead sz ∈ ops -> sz < Z.of_nat fuel) ->
  spec_run csz ncl ops a = Some (outs, a') ->
  exists file', run f boot_drive_number bdev_read_range fuel ops file = Ok (outs, file') /\ file_rel file' a'.
Proof.
  revert file a outs. induction ops as [|o ops IH]; intros file a outs Hr Hf E.
  { injection E as <- <-. by exists file. }
  cbn [spec_run run] in *. destruct (spec_step csz ncl o a) as [[x a1]|] eqn:Eo; [|done]. cbn [mbind option_bind] in E.
  destruct (spec_run csz ncl ops a1) as [[xs a2]|] eqn:Er; [|done]. injection E as <- <-.
  assert (exists file1, step f boot_drive_number bdev_read_range fuel o file = Ok (x, file1) /\ file_rel file1 a1) as (file1 & E1 & Hr1).
  { destruct o as [sz|offs whence| |]; cbn [step].
    - pose proof (read_spec fuel file a sz Hr ltac:(apply Hf; left)) as H. rewrite Eo in H.
      destruct x as [|v d]; [done|]. destruct H as (file1 & -> & H). by exists file1.
    - pose proof Hr as [Hb Hsize _ [Epos _] _]. cbn [spec_step] in Eo. unfold seek. rewrite <- Epos in Eo. rewrite Hb in Eo. rewrite <- Hsize in Eo.
      assert (forall p, (a ← spec_seek csz ncl a p; Some (RInt 0, a)) = Some (x, a1) ->
        exists file1, seek_to f file p = Ok (0, file1) /\ file_rel file1 a1 /\ x = RInt 0) as Hto.
      { intros p. pose proof (seek_to_spec file a p Hr) as H. destruct (spec_seek csz ncl a p) as [a3|]; [|done].
        cbn. intros [= <- <-]. destruct H as (file1 & E1 & H). by exists file1. }
      destruct (whence =? FSSEEK_SET); [|destruct (whence =? FSSEEK_CUR); [|destruct (whence =? FSSEEK_END)]].
      1-3: apply Hto in Eo as (file1 & -> & H & ->); by exists file1.
      injection Eo as <- <-. by exists file.
    - injection Eo as <- <-. exists file. split; [|done]. unfold tell. by rewrite (proj1 (r_pos _ _ Hr)).
    - injection Eo as <- <-. exists file. split; [|done]. unfold fsize. rewrite (r_size _ _ Hr), (r_body _ _ Hr).
      destruct (k_size Hok). by rewrite s32_small by lia. }
  rewrite E1. cbn [mbind res_mbind res_bind].
  destruct (IH file1 a1 xs Hr1) as (file2 & E2 & H2); [intros sz Hsz; apply Hf; by right|done|].
  exists file2. by rewrite E2.
Qed.

(** C9. Whatever is read and sought in what order, an open file of a FAT volume
    gives the bytes of its clusters up to its size, as a sequence with a position;
    enough fuel is one more than the longest read. *)
Theorem fat_file_refines fuel ops file a outs a' :
  file_rel file a -> (forall sz, RRead sz ∈ ops -> sz < Z.of_nat fuel) ->
  spec_run csz ncl ops a = Some (outs, a') ->
  exists file', run f boot_drive_number bdev_read_range fuel ops file = Ok (outs, file') /\ file_rel file' a'.
Proof. apply run_spec. Qed.

(** A file shorter than a cluster that was read to its end cannot be read again:
    [seek] to its start succeeds, but as the cluster is the same it does not take
    back the end, and every [read] then gives nothing. *)
Theorem rewind_at_end fuel file a sz :
  file_rel file a -> at_end a = true -> pos a < csz -> 0 <= sz ->
  exists file', seek f file 0 FSSEEK_SET = Ok (0, file') /\ tell file' = 0 /\
    read f boot_drive_number bdev_read_range fuel file' sz = Ok (0, [], file').
Proof.
  intros Hr Ha Hp Hsz. destruct (k_csz Hok) as [_ Hcsz]. pose proof (r_pos _ _ Hr) as [_ Hp0].
  pose proof (seek_to_spec file a 0 Hr) as H. unfold spec_seek in H. cbn [Z.ltb Z.compare Z.leb] in H.
  rewrite (Z.div_small (pos a)), (Z.div_small 0) in H by lia. destruct H as (file' & E & [_ _ _ [Epos _] Hc]).
  exists file'. split; [exact E|]. cbn [at_end pos] in *. rewrite Ha in Hc. destruct Hc as [Hc _].
  split; [unfold tell; by rewrite Epos|]. unfold read. rewrite Hc. by destruct (Z.ltb_spec sz 0); [lia|].
Qed.
End refine.

(** ** A file of 600 bytes in the clusters 2 and 3 *)

(** A disk whose sector [i] is filled with the byte [i]. *)
Definition demo_bdev (s c : Z) : option (list Z) := Some (mjoin ((fun i => replicate 512 (u8 i)) <$> zseq s (Z.to_nat c))).
Definition demo_volume : fatfs :=
  mk_fatfs FAT16 0x80 0 100 1 1 1 2 1 10 90 90 [] [0xf8; 0xff; 0xff; 0xff; 3; 0; 0xff; 0xff] 511 9.
Definition demo_data (c : Z) : list Z := replicate 512 (c + 8).
Definition demo_body (n : nat) : list Z := take n (mjoin (demo_data <$> [2; 3])).
Definition demo_file (n : Z) : fat_file := init_file demo_volume (fun _ => 0) n 2 0.

Lemma fat_demo_file_ok n : (n <= 600)%nat -> file_ok demo_volume 0x80 demo_bdev 512 2 [2; 3] demo_data (demo_body n).
Proof.
  intros Hn. assert (length (demo_body n) = n) as El by (unfold demo_body; rewrite length_take; cbn [length]; vm_compute length; lia).
  split; rewrite ?El; try done.
  - intros x Hx. apply list_elem_of_In in Hx. destruct Hx as [<-|[<-|[]]]; done.
  - intros x Hx. apply list_elem_of_In in Hx. destruct Hx as [<-|[<-|[]]]; by vm_compute.
  - cbn. lia.
Qed.
Lemma fat_demo_file_rel (n : nat) : (n <= 600)%nat ->
  file_rel 512 2 [2; 3] demo_data (demo_body n) (demo_file (Z.of_nat n)) (mk_spec (demo_body n) 0 false).
Proof.
  intros Hn. assert (length (demo_body n) = n) as El by (unfold demo_body; rewrite length_take; vm_compute length; lia).
  split; rewrite ?El; done.
Qed.

Lemma fat_file_refines_witness :
  exists file', run demo_volume 0x80 demo_bdev 10
      [RRead 3; RSeek 510 FSSEEK_SET; RRead 4; RTell; RSeek (-2) FSSEEK_END; RRead 9; RRead 1; RSeek 0 FSSEEK_SET; RRead 1; RSize]
      (demo_file (Z.of_nat 600)) =
    Ok ([RData 3 [10; 10; 10]; RInt 0; RData 4 [10; 10; 11; 11]; RInt 514; RInt 0; RData 2 [11; 11]; RData 0 []; RInt 0;
         RData 1 [10]; RInt 600], file') /\
    file_rel 512 2 [2; 3] demo_data (demo_body 600) file' (mk_spec (demo_body 600) 1 false).
Proof.
  apply (fat_file_refines demo_volume 0x80 demo_bdev 512 2 [2; 3] demo_data (demo_body 600) (fat_demo_file_ok 600 ltac:(lia)) 10 _ _ _ _ _
    (fat_demo_file_rel 600 ltac:(lia))); [|by vm_compute].
  intros sz Hsz. apply list_elem_of_In in Hsz. cbn in Hsz. naive_solver lia.
Defined.

Lemma rewind_at_end_witness :
  exists file file', run demo_volume 0x80 demo_bdev 10 [RRead 9] (demo_file (Z.of_nat 5)) = Ok ([RData 5 [10; 10; 10; 10; 10]], file) /\
    seek demo_volume file 0 FSSEEK_SET = Ok (0, file') /\ tell file' = 0 /\
    read demo_volume 0x80 demo_bdev 10 file' 5 = Ok (0, [], file').
Proof.
  eexists. destruct (rewind_at_end demo_volume 0x80 demo_bdev 512 2 [2; 3] demo_data (demo_body 5) (fat_demo_file_ok 5 ltac:(lia)) 10
    (mk_file 5 2 5 (-1) (demo_data 2) false) (mk_spec (demo_body 5) 5 true) 5) as (file' & H); [by split|done..|].
  exists file'. split; [by vm_compute|exact H].
Defined.
