(* ===== verification/FatName.v ===== *)
(** * Directory entries of FAT volumes (src/fsfat.c)

    A directory is a block of 32-byte entries; [parse_dir_entries] makes the list
    of its files and subdirectories, with long names put together from the
    entries before them. Indices count entries; a name that does not fit the
    buffer of [MAX_NAME] bytes is written behind it. *)
From S2P Require Import Prelude Ctype Str FsPath Fat.

Definition MAX_NAME : Z := 195.
Definition DIRENT_UNUSED : Z := 0xe5.

(** Fields of [struct fat_dirent] at index [i] of directory [b]. *)
Definition dent_byte (b : list Z) (i k : Z) : Z := sb b (32 * i + k).
Definition dent_attr (b : list Z) (i : Z) : Z := dent_byte b i 11.
Definition first_cluster_high (b : list Z) (i : Z) : Z := sw b (32 * i + 20).
Definition first_cluster_low (b : list Z) (i : Z) : Z := sw b (32 * i + 26).
Definition dent_size (b : list Z) (i : Z) : Z := sl b (32 * i + 28).
Definition DENT_IS_NULL (b : list Z) (i : Z) : bool := dent_byte b i 0 =? 0.
Definition DENT_IS_UNUSED (b : list Z) (i : Z) : bool := dent_byte b i 0 =? DIRENT_UNUSED.

(** The 13 characters of [struct fat_lfnent] and its sequence byte. *)
Definition lfn_seq (b : list Z) (i : Z) : Z := dent_byte b i 0.
Definition lfn_chars (b : list Z) (i : Z) : list Z :=
  (fun k => sw b (32 * i + k)) <$> [1; 3; 5; 7; 9; 14; 16; 18; 20; 22; 24; 28; 30].

(** Characters up to a zero. *)
Fixpoint upto_nul (l : list Z) : list Z :=
  match l with c :: l => if c =? 0 then [] else c :: upto_nul l | [] => [] end.
Definition clean_trailws (s : list Z) : list Z := strip_label s.

(** The loop over the long name entries from [i] down to [prev], the low bytes of
    the characters appended to [name]. *)
Fixpoint lfn_loop (fuel : nat) (b : list Z) (prev i : Z) (name : list Z) : res (list Z) :=
  match fuel with
  | O => NoFuel
  | S fuel =>
      let s := upto_nul (lfn_chars b i) in
      let name := name ++ (u8 <$> s) in
      if MAX_NAME <=? strlen name then Fault else
      if (strlen s <? 13) || (Z.land (lfn_seq b i) 0xf0 =? 0x40) then Ok name else
      if (prev <? i - 1) && (dent_attr b (i - 1) =? ATTR_LFN) then lfn_loop fuel b prev (i - 1) name else Ok name
  end.

(** The name of entry [i]; [prev] is the last entry before it that is not part of
    a long name. *)
Definition dent_filename (b : list Z) (i prev : Z) : res (list Z) :=
  if (prev <? i - 1) && (dent_attr b (i - 1) =? ATTR_LFN) then
    lfn_loop (S (Z.to_nat (i - prev))) b prev (i - 1) []
  else
    let base := clean_trailws (upto_nul (dent_byte b i <$> zseq 0 8)) in
    if strlen base =? 0 then Ok [] else
    let c := dent_byte b i 8 in
    if (c =? 0) || (c =? 32) then Ok base
    else Ok (base ++ 46 :: clean_trailws (upto_nul (dent_byte b i <$> zseq 8 3))).

(** [struct fs_dirent]: [e_index] is the entry it was made from. *)
Record fsent := mk_fsent { e_name : list Z; e_index : Z; e_type : fsnode_type; e_fsize : Z }.

Definition is_dir (b : list Z) (i : Z) : bool := negb (Z.land (dent_attr b i) ATTR_DIR =? 0).

(** The loop of [parse_dir_entries] over the [n] entries from [i] on. *)
Fixpoint parse_entries (n : nat) (b : list Z) (i prev : Z) : res (list fsent) :=
  match n with
  | O => Ok []
  | S n =>
      if DENT_IS_NULL b i then Ok [] else
      let prev' := if dent_attr b i =? ATTR_LFN then prev else i in
      if negb (DENT_IS_UNUSED b i) && negb (dent_attr b i =? ATTR_VOLID) && negb (dent_attr b i =? ATTR_LFN) then
        name ← dent_filename b i prev;
        rest ← parse_entries n b (i + 1) prev';
        Ok (if strlen name =? 0 then rest
            else mk_fsent name i (if is_dir b i then FSNODE_DIR else FSNODE_FILE) (s32 (dent_size b i)) :: rest)
      else parse_entries n b (i + 1) prev'
  end.
Definition parse_dir_entries (b : list Z) : res (list fsent) := parse_entries (length b / 32) b 0 (-1).

Definition find_entry (l : list fsent) (name : list Z) : option fsent :=
  List.find (fun e => strcasecmp (e_name e) name =? 0) l.

(** ** Long names as they are written *)

(** The 32 bytes of a long name entry with the characters [l], 13 of them. *)
Definition lfn_entry (seq csum : Z) (l : list Z) : list Z :=
  let w := mjoin ((fun c => [c mod 256; c / 256]) <$> l) in
  [seq] ++ take 10 w ++ [ATTR_LFN; 0; csum] ++ take 12 (drop 10 w) ++ [0; 0] ++ drop 22 w.
(** A chunk of fewer characters ends with a zero and is filled up. *)
Definition lfn_pad (l : list Z) : list Z :=
  if decide (length l = 13%nat) then l else l ++ 0 :: replicate (12 - length l) 0xffff.

Fixpoint chunks (fuel : nat) (l : list Z) : list (list Z) :=
  match fuel with
  | O => []
  | S fuel => if decide (length l <= 13)%nat then [l] else take 13 l :: chunks fuel (drop 13 l)
  end.

(** The entries of the chunks [cs], number [n] first: the last part of the name
    comes first in the directory and is marked in its number. *)
Fixpoint lfn_entries (csum n : Z) (cs : list (list Z)) : list Z :=
  match cs with
  | [] => []
  | c :: cs => lfn_entries csum (n + 1) cs ++
      lfn_entry (if cs is [] then Z.lor 0x40 n else n) csum (lfn_pad c)
  end.
Definition long_name (csum : Z) (name : list Z) : list Z := lfn_entries csum 1 (chunks (length name) name).

(** ** Reading long names *)

Lemma sb_app_r a l k : 0 <= k -> sb (a ++ l) (Z.of_nat (length a) + k) = sb l k.
Proof.
  intros Hk. unfold sb, zlookup. destruct (Z.ltb_spec (Z.of_nat (length a) + k) 0), (Z.ltb_spec k 0); try lia.
  rewrite lookup_app_r by lia. do 3 f_equal. lia.
Qed.
Lemma sb_app_l l c k : 0 <= k < Z.of_nat (length l) -> sb (l ++ c) k = sb l k.
Proof.
  intros Hk. unfold sb, zlookup. destruct (Z.ltb_spec k 0); [lia|]. by rewrite lookup_app_l by lia.
Qed.

(** The directory [b] has the 32 bytes [e] as entry [i]. *)
Definition entry_at (b : list Z) (i : Z) (e : list Z) : Prop :=
  exists pre post, b = pre ++ e ++ post /\ Z.of_nat (length pre) = 32 * i /\ length e = 32%nat.

Lemma entry_at_byte b i e k : entry_at b i e -> 0 <= k < 32 -> sb b (32 * i + k) = sb e k.
Proof. intros (pre & post & -> & <- & He) Hk. by rewrite sb_app_r, sb_app_l by lia. Qed.
Lemma entry_at_word b i e k : entry_at b i e -> 0 <= k < 31 -> sw b (32 * i + k) = sw e k.
Proof.
  intros H Hk. unfold sw. rewrite (entry_at_byte b i e k) by (done || lia).
  replace (32 * i + k + 1) with (32 * i + (k + 1)) by lia. by rewrite (entry_at_byte b i e (k + 1)) by (done || lia).
Qed.

Lemma length_lfn_entry seq csum l : length l = 13%nat -> length (lfn_entry seq csum l) = 32%nat.
Proof. intros Hl. do 14 (destruct l as [|? l]; try done). Qed.

Lemma word_split x : 0 <= x < 65536 -> u8 (x mod 256) + 256 * u8 (x / 256) = x.
Proof. intros Hx. unfold u8. mlia. Qed.

(** The fields of a long name entry. *)
Lemma lfn_entry_fields b i seq csum l :
  entry_at b i (lfn_entry seq csum l) -> length l = 13%nat -> Forall (fun x => 0 <= x < 65536) l ->
  lfn_chars b i = l /\ dent_attr b i = ATTR_LFN /\ lfn_seq b i = u8 seq.
Proof.
  intros He Hl Hx. unfold lfn_chars, dent_attr, lfn_seq, dent_byte. rewrite !(entry_at_byte b i _ _ He) by lia.
  cbn [fmap list_fmap]. rewrite !(entry_at_word b i _ _ He) by lia.
  do 14 (destruct l as [|? l]; try done). split; [|done].
  repeat (apply Forall_cons in Hx as [? Hx]).
  repeat match goal with |- _ :: _ = ?x :: _ => apply f_equal2; [refine (word_split x _); assumption|] end. done.
Qed.

Lemma upto_nul_pad l :
  Forall (fun x => 0 < x) l -> (length l <= 13)%nat -> upto_nul (lfn_pad l) = l /\ length (lfn_pad l) = 13%nat.
Proof.
  intros Hx Hl. unfold lfn_pad.
  assert (forall r, upto_nul (l ++ r) = l ++ upto_nul r) as Ha.
  { induction Hx as [|x l Hx _ IH]; [done|]. intros r. cbn [app upto_nul length] in *. destruct (Z.eqb_spec x 0); [lia|].
    f_equal. apply IH. lia. }
  destruct (decide _) as [E|E].
  - split; [|done]. rewrite <- (app_nil_r l) at 1. rewrite Ha. cbn. by rewrite app_nil_r.
  - split; [rewrite Ha; cbn; by rewrite app_nil_r|]. rewrite length_app. cbn [length]. rewrite length_replicate. lia.
Qed.

(** Parts of a name: all but the last have 13 characters. *)
Fixpoint parts_ok (cs : list (list Z)) : Prop :=
  match cs with
  | [] => False
  | [c] => (1 <= length c <= 13)%nat
  | c :: cs => length c = 13%nat /\ parts_ok cs
  end.

Lemma chunks_ok fuel l : (1 <= length l <= fuel)%nat -> parts_ok (chunks fuel l) /\ mjoin (chunks fuel l) = l /\
  Z.of_nat (length (chunks fuel l)) = (Z.of_nat (length l) + 12) / 13.
Proof.
  revert l. induction fuel as [|fuel IH]; intros l Hl; [lia|]. cbn [chunks]. destruct (decide _) as [H|H].
  - split; [cbn; lia|]. split; [apply app_nil_r|]. cbn [length]. apply (Z.div_unique _ _ _ (Z.of_nat (length l) - 1)); lia.
  - destruct (IH (drop 13 l)) as (Hp & Hj & Hn); [rewrite length_drop; lia|]. split; [|split].
    + assert (length (take 13 l) = 13%nat) by (rewrite length_take; lia). destruct (chunks fuel (drop 13 l)); [done|by split].
    + change (mjoin (?a :: ?r)) with (a ++ mjoin r). rewrite Hj. apply take_drop.
    + cbn [length]. rewrite Nat2Z.inj_succ, Hn, length_drop. rewrite Nat2Z.inj_sub by lia.
      replace (Z.of_nat (length l) + 12) with (Z.of_nat (length l) - Z.of_nat 13 + 12 + 1 * 13) by lia.
      rewrite Z.div_add by lia. lia.
Qed.

Lemma seq_bits n : 1 <= n < 16 -> Z.land (u8 n) 0xf0 =? 0x40 = false /\ Z.land (u8 (Z.lor 0x40 n)) 0xf0 =? 0x40 = true.
Proof.
  intros Hn. assert (forallb (fun n => negb (Z.land (u8 n) 0xf0 =? 0x40) && (Z.land (u8 (Z.lor 0x40 n)) 0xf0 =? 0x40)) (zseq 1 15) = true) as H
    by by vm_compute.
  rewrite forallb_forall in H. specialize (H n). rewrite <- list_elem_of_In, elem_of_zseq in H. specialize (H ltac:(lia)).
  apply andb_true_iff in H as [H1 H2]. split; [by apply negb_true_iff|done].
Qed.

Definition good_part (c : list Z) : Prop := (length c <= 13)%nat /\ Forall (fun x => 0 < x < 256) c.

Lemma length_lfn_entries csum n cs :
  Forall good_part cs ->
  length (lfn_entries csum n cs) = (32 * length cs)%nat.
Proof.
  revert n. induction cs as [|c cs IH]; intros n Hc; [done|]. apply Forall_cons in Hc as [[Hl Hx] Hc].
  cbn [lfn_entries]. rewrite length_app, IH by done. rewrite length_lfn_entry; [cbn [length]; lia|].
  apply upto_nul_pad; [|done]. eapply Forall_impl; [exact Hx|]. cbn. lia.
Qed.

Lemma good_part_pad c : good_part c ->
  upto_nul (lfn_pad c) = c /\ length (lfn_pad c) = 13%nat /\ Forall (fun x => 0 <= x < 65536) (lfn_pad c) /\ u8 <$> c = c.
Proof.
  intros [Hl Hx]. destruct (upto_nul_pad c) as [H1 H2]; [eapply Forall_impl; [exact Hx|]; cbn; lia|done|].
  split; [done|]. split; [done|]. split.
  - unfold lfn_pad. destruct (decide _); [eapply Forall_impl; [exact Hx|]; cbn; lia|].
    apply Forall_app. split; [eapply Forall_impl; [exact Hx|]; cbn; lia|]. constructor; [lia|]. apply Forall_replicate. lia.
  - clear -Hx. induction Hx as [|x c Hx _ IH]; [done|]. cbn. rewrite u8_small by lia. by f_equal.
Qed.

(** The entry of the first of the parts [c :: cs] is the last one. *)
Lemma lfn_entries_last b csum n c cs pre post j :
  b = pre ++ lfn_entries csum n (c :: cs) ++ post -> Z.of_nat (length pre) = 32 * (j + 1) -> Forall good_part (c :: cs) ->
  lfn_chars b (j + Z.of_nat (length (c :: cs))) = lfn_pad c /\ dent_attr b (j + Z.of_nat (length (c :: cs))) = ATTR_LFN /\
  lfn_seq b (j + Z.of_nat (length (c :: cs))) = u8 (if cs is [] then Z.lor 0x40 n else n).
Proof.
  intros Hb Hpre [Hc Hcs]%Forall_cons. destruct (good_part_pad c Hc) as (_ & Hl & Hx & _).
  apply (lfn_entry_fields _ _ _ csum); [|done|done]. exists (pre ++ lfn_entries csum (n + 1) cs), post.
  split; [|split; [|by apply length_lfn_entry]].
  - rewrite Hb. cbn [lfn_entries]. by rewrite <- !app_assoc.
  - rewrite length_app, length_lfn_entries by done. cbn [length]. lia.
Qed.

Lemma lfn_loop_spec csum cs : forall fuel b prev pre post n name,
  b = pre ++ lfn_entries csum n cs ++ post -> Z.of_nat (length pre) = 32 * (prev + 1) ->
  Forall good_part cs -> parts_ok cs ->
  1 <= n -> n + Z.of_nat (length cs) <= 16 -> strlen name + strlen (mjoin cs) < MAX_NAME -> (length cs <= fuel)%nat ->
  lfn_loop fuel b prev (prev + Z.of_nat (length cs)) name = Ok (name ++ mjoin cs).
Proof.
  induction cs as [|c cs IH]; intros fuel b prev pre post n name Hb Hpre Hcs Hp Hn Hn2 Hlen Hf; [done|].
  destruct fuel as [|fuel]; [cbn in Hf; lia|].
  destruct (lfn_entries_last b csum n c cs pre post prev Hb Hpre Hcs) as (Hch & _ & Hseq).
  apply Forall_cons in Hcs as [Hc Hcs]. destruct (good_part_pad c Hc) as (Hpad & _ & _ & Hu8).
  change (mjoin (c :: cs)) with (c ++ mjoin cs) in *. unfold strlen in *. rewrite length_app in Hlen.
  cbn [lfn_loop]. rewrite Hch, Hpad, Hu8, Hseq. unfold strlen. rewrite length_app.
  destruct (Z.leb_spec MAX_NAME (Z.of_nat (length name + length c))); [lia|].
  cbn [length] in Hn2, Hf. destruct (seq_bits n) as [Hs1 Hs2]; [lia|]. destruct cs as [|c2 cs].
  - rewrite Hs2, orb_true_r. cbn. by rewrite app_nil_r.
  - destruct Hp as [Hc13 Hp]. rewrite Hs1, Hc13. change (Z.of_nat 13 <? 13) with false. cbn [orb].
    assert (b = pre ++ lfn_entries csum (n + 1) (c2 :: cs) ++ lfn_entry n csum (lfn_pad c) ++ post) as Hb'.
    { rewrite Hb. cbn [lfn_entries]. by rewrite <- !app_assoc. }
    replace (prev + Z.of_nat (length (c :: c2 :: cs)) - 1) with (prev + Z.of_nat (length (c2 :: cs))) by (cbn [length]; lia).
    destruct (lfn_entries_last b csum (n + 1) c2 cs pre _ prev Hb' Hpre Hcs) as (_ & -> & _).
    destruct (Z.ltb_spec prev (prev + Z.of_nat (length (c2 :: cs)))); [|cbn [length] in *; lia]. cbn [andb Z.eqb].
    change (ATTR_LFN =? ATTR_LFN) with true. cbv iota.
    rewrite (IH fuel b prev pre (lfn_entry n csum (lfn_pad c) ++ post) (n + 1)) by
      (done || lia || (unfold strlen; rewrite length_app; lia)).
    by rewrite <- app_assoc.
Qed.

(** A name that is too long is written behind the buffer. *)
Lemma lfn_loop_overflow csum cs : forall fuel b prev pre post n name,
  b = pre ++ lfn_entries csum n cs ++ post -> Z.of_nat (length pre) = 32 * (prev + 1) ->
  Forall good_part cs -> parts_ok cs -> 1 <= n -> strlen name = 13 * (n - 1) -> strlen name < MAX_NAME ->
  MAX_NAME <= strlen name + strlen (mjoin cs) -> (length cs <= fuel)%nat ->
  lfn_loop fuel b prev (prev + Z.of_nat (length cs)) name = Fault.
Proof.
  induction cs as [|c cs IH]; intros fuel b prev pre post n name Hb Hpre Hcs Hp Hn Hname Hlt Hlen Hf; [done|].
  destruct fuel as [|fuel]; [cbn in Hf; lia|].
  destruct (lfn_entries_last b csum n c cs pre post prev Hb Hpre Hcs) as (Hch & _ & Hseq).
  apply Forall_cons in Hcs as [Hc Hcs]. destruct (good_part_pad c Hc) as (Hpad & _ & _ & Hu8).
  change (mjoin (c :: cs)) with (c ++ mjoin cs) in *. unfold strlen, MAX_NAME in *. rewrite length_app in Hlen.
  cbn [lfn_loop]. rewrite Hch, Hpad, Hu8, Hseq. unfold strlen, MAX_NAME. rewrite length_app.
  destruct (Z.leb_spec 195 (Z.of_nat (length name + length c))); [done|].
  cbn [length] in Hf. destruct cs as [|c2 cs]; [change (mjoin []) with (@nil Z) in Hlen; cbn [length] in Hlen; lia|].
  destruct Hp as [Hc13 Hp]. destruct (seq_bits n) as [Hs1 _]; [lia|]. rewrite Hs1, Hc13. change (Z.of_nat 13 <? 13) with false. cbn [orb].
  assert (b = pre ++ lfn_entries csum (n + 1) (c2 :: cs) ++ lfn_entry n csum (lfn_pad c) ++ post) as Hb'.
  { rewrite Hb. cbn [lfn_entries]. by rewrite <- !app_assoc. }
  replace (prev + Z.of_nat (length (c :: c2 :: cs)) - 1) with (prev + Z.of_nat (length (c2 :: cs))) by (cbn [length]; lia).
  destruct (lfn_entries_last b csum (n + 1) c2 cs pre _ prev Hb' Hpre Hcs) as (_ & -> & _).
  destruct (Z.ltb_spec prev (prev + Z.of_nat (length (c2 :: cs)))); [|cbn [length] in *; lia].
  change (ATTR_LFN =? ATTR_LFN) with true. cbn [andb].
  apply (IH fuel b prev pre (lfn_entry n csum (lfn_pad c) ++ post) (n + 1)); try done; unfold strlen; rewrite ?length_app; lia.
Qed.

(** The entries of a long name are long name entries, and not null. *)
Lemma lfn_entries_skip csum cs b pre post n prev j :
  b = pre ++ lfn_entries csum n cs ++ post -> Z.of_nat (length pre) = 32 * (prev + 1) -> Forall good_part cs ->
  1 <= n -> n + Z.of_nat (length cs) <= 64 -> prev < j <= prev + Z.of_nat (length cs) ->
  dent_attr b j = ATTR_LFN /\ DENT_IS_NULL b j = false.
Proof.
  revert post n. induction cs as [|c cs IH]; intros post n Hb Hpre Hcs Hn Hn2 Hj; cbn [length] in *; [lia|].
  destruct (decide (j = prev + Z.of_nat (S (length cs)))) as [->|Hne].
  - destruct (lfn_entries_last b csum n c cs pre post prev Hb Hpre Hcs) as (_ & Ha & Hs). cbn [length] in *. split; [done|].
    unfold DENT_IS_NULL. change (dent_byte b ?i 0) with (lfn_seq b i). rewrite Hs. apply Z.eqb_neq.
    assert (forallb (fun n => negb (u8 n =? 0) && negb (u8 (Z.lor 64 n) =? 0)) (zseq 1 63) = true) as H by by vm_compute.
    rewrite forallb_forall in H. specialize (H n). rewrite <- list_elem_of_In, elem_of_zseq in H. specialize (H ltac:(lia)).
    apply andb_true_iff in H as [H1 H2]. apply negb_true_iff, Z.eqb_neq in H1. apply negb_true_iff, Z.eqb_neq in H2. by destruct cs.
  - apply Forall_cons in Hcs as [_ Hcs]. apply (IH (lfn_entry (if cs is [] then Z.lor 64 n else n) csum (lfn_pad c) ++ post) (n + 1)); try done; try lia.
    rewrite Hb. cbn [lfn_entries]. by rewrite <- !app_assoc.
Qed.

Lemma chunks_good fuel l : Forall (fun x => 0 < x < 256) l -> Forall good_part (chunks fuel l).
Proof.
  revert l. induction fuel as [|fuel IH]; intros l Hl; [constructor|]. cbn [chunks]. destruct (decide _).
  - by constructor.
  - constructor; [split; [rewrite length_take; lia|by apply Forall_take]|]. apply IH. by apply Forall_drop.
Qed.

(** A name written as long name entries. *)
Definition long_ok (name : list Z) : Prop := name <> [] /\ Forall (fun x => 0 < x < 256) name.
Definition parts (name : list Z) : Z := (strlen name + 12) / 13.

Lemma long_name_parts name : long_ok name ->
  parts_ok (chunks (length name) name) /\ mjoin (chunks (length name) name) = name /\
  Z.of_nat (length (chunks (length name) name)) = parts name /\ Forall good_part (chunks (length name) name) /\ 1 <= parts name.
Proof.
  intros [Hne Hx]. assert (1 <= length name)%nat by (destruct name; cbn in *; [done|lia]).
  destruct (chunks_ok (length name) name) as (H1 & H2 & H3); [lia|]. split; [done|]. split; [done|]. split; [done|].
  split; [by apply chunks_good|]. unfold parts, strlen. apply Z.div_le_lower_bound; lia.
Qed.

(** [dent_filename] on the entry behind a long name, short enough or not. *)
Lemma dent_filename_long b pre csum name post prev :
  b = pre ++ long_name csum name ++ post -> Z.of_nat (length pre) = 32 * (prev + 1) -> long_ok name ->
  dent_filename b (prev + parts name + 1) prev = if MAX_NAME <=? strlen name then Fault else Ok name.
Proof.
  intros Hb Hpre Hok. destruct (long_name_parts name Hok) as (Hp & Hj & Hn & Hg & H1).
  unfold dent_filename. replace (prev + parts name + 1 - 1) with (prev + Z.of_nat (length (chunks (length name) name))) by lia.
  destruct (Z.ltb_spec prev (prev + Z.of_nat (length (chunks (length name) name)))); [|lia]. cbn [andb].
  destruct (chunks (length name) name) as [|c cs] eqn:Ec; [done|].
  destruct (lfn_entries_last b csum 1 c cs pre post prev) as (_ & -> & _); [by rewrite <- Ec|done|done|].
  change (ATTR_LFN =? ATTR_LFN) with true. cbv iota. destruct (Z.leb_spec MAX_NAME (strlen name)).
  - apply (lfn_loop_overflow csum (c :: cs) _ b prev pre post 1 []); try done; [by rewrite <- Ec|by rewrite Hj|cbn [length] in *; lia].
  - rewrite (lfn_loop_spec csum (c :: cs) _ b prev pre post 1 []); try done; [by rewrite Hj|by rewrite <- Ec| |by rewrite Hj|cbn [length] in *; lia].
    rewrite Hn. unfold parts, MAX_NAME in *. assert ((strlen name + 12) / 13 < 16) by (apply Z.div_lt_upper_bound; lia). lia.
Qed.

Lemma parse_skip k b i prev n :
  (forall j, i <= j < i + Z.of_nat n -> dent_attr b j = ATTR_LFN /\ DENT_IS_NULL b j = false) ->
  parse_entries (n + k) b i prev = parse_entries k b (i + Z.of_nat n) prev.
Proof.
  revert i. induction n as [|n IH]; intros i Hj; [by rewrite Z.add_0_r|]. cbn [Nat.add parse_entries].
  destruct (Hj i) as [Ha Hz]; [lia|]. rewrite Ha, Hz. change (ATTR_LFN =? ATTR_LFN) with true. cbn [negb].
  rewrite andb_false_r, IH; [f_equal; lia|]. intros j Hj'. apply Hj. lia.
Qed.

(** C24. Long names of up to 194 characters come back as they were written: the
    entries of the name and the one they belong to are listed as one entry with
    exactly that name, and parsing goes on behind them. *)
Theorem long_name_listed b pre csum name short post prev k :
  b = pre ++ long_name csum name ++ short ++ post -> Z.of_nat (length pre) = 32 * (prev + 1) ->
  long_ok name -> strlen name < MAX_NAME -> length short = 32%nat ->
  sb short 0 <> 0 -> sb short 0 <> DIRENT_UNUSED -> sb short 11 <> ATTR_VOLID -> sb short 11 <> ATTR_LFN ->
  parse_entries (Z.to_nat (parts name) + S k) b (prev + 1) prev =
    rest ← parse_entries k b (prev + parts name + 2) (prev + parts name + 1);
    Ok (mk_fsent name (prev + parts name + 1) (if is_dir b (prev + parts name + 1) then FSNODE_DIR else FSNODE_FILE)
          (s32 (sl short 28)) :: rest).
Proof.
  intros Hb Hpre Hok Hlen Hs H0 Hu Hv Hl. destruct (long_name_parts name Hok) as (Hp & Hj & Hn & Hg & H1).
  assert (parts name < 16) as Hp16 by (unfold parts, MAX_NAME in *; apply Z.div_lt_upper_bound; lia).
  rewrite parse_skip.
  2:{ intros j Hj2. eapply (lfn_entries_skip csum _ b pre (short ++ post) 1 prev); [done|done|done|done|lia|]. rewrite Hn. lia. }
  rewrite Z2Nat.id by lia. replace (prev + 1 + parts name) with (prev + parts name + 1) by lia.
  assert (entry_at b (prev + parts name + 1) short) as He.
  { exists (pre ++ long_name csum name), post. split; [by rewrite Hb, <- app_assoc|]. split; [|done].
    unfold long_name. rewrite length_app, length_lfn_entries by done. lia. }
  cbn [parse_entries]. unfold DENT_IS_NULL, DENT_IS_UNUSED. unfold dent_byte at 1 2. rewrite !(entry_at_byte _ _ _ _ He) by lia.
  assert (dent_attr b (prev + parts name + 1) = sb short 11) as Ha by (unfold dent_attr, dent_byte; by rewrite (entry_at_byte _ _ _ _ He) by lia).
  rewrite Ha. apply Z.eqb_neq in H0 as ->, Hu as ->, Hv as ->, Hl as ->. cbn [negb andb].
  rewrite (dent_filename_long b pre csum name (short ++ post) prev) by done.
  destruct (Z.leb_spec MAX_NAME (strlen name)); [lia|]. cbn [mbind res_mbind res_bind].
  replace (prev + parts name + 1 + 1) with (prev + parts name + 2) by lia.
  destruct (parse_entries k b _ _) as [rest| | |]; [|done..]. cbn [mbind res_mbind res_bind].
  destruct (Z.eqb_spec (strlen name) 0) as [E|_]; [destruct Hok as [Hne _]; by destruct name|]. do 3 f_equal.
  unfold dent_size, sl. rewrite (entry_at_word _ _ _ _ He) by lia.
  replace (32 * (prev + parts name + 1) + 28 + 2) with (32 * (prev + parts name + 1) + 30) by lia.
  by rewrite (entry_at_word _ _ _ _ He) by lia.
Qed.

(** A longer name, which FAT allows up to 255 characters, is written behind the
    buffer on the stack. *)
Theorem long_name_overflow b pre csum name post prev :
  b = pre ++ long_name csum name ++ post -> Z.of_nat (length pre) = 32 * (prev + 1) -> long_ok name ->
  MAX_NAME <= strlen name -> dent_filename b (prev + parts name + 1) prev = Fault.
Proof.
  intros Hb Hpre Hok Hlen. rewrite (dent_filename_long b pre csum name post prev) by done.
  by destruct (Z.leb_spec MAX_NAME (strlen name)); [|lia].
Qed.

Definition demo_short : list Z := [65; 65] ++ replicate 9 32 ++ [0x20] ++ replicate 14 0 ++ [2; 0; 5; 0; 0; 0].
Definition demo_name : list Z := replicate 20 97.
Definition demo_dir : list Z := long_name 7 demo_name ++ demo_short ++ replicate 32 0.

Lemma long_name_listed_witness :
  parse_dir_entries demo_dir = Ok [mk_fsent demo_name 2 FSNODE_FILE 5].
Proof.
  transitivity (parse_entries (Z.to_nat (parts demo_name) + 2) demo_dir (-1 + 1) (-1)); [by vm_compute|].
  rewrite (long_name_listed demo_dir [] 7 demo_name demo_short (replicate 32 0) (-1) 1); [by vm_compute|..];
    [by vm_compute|done|split; [done|by repeat constructor]|by vm_compute..].
Defined.

Lemma long_name_overflow_witness : dent_filename (long_name 7 (replicate 195 97) ++ demo_short) 15 (-1) = Fault.
Proof.
  apply (long_name_overflow _ [] 7 (replicate 195 97) demo_short (-1)); [done|done| |by vm_compute].
  split; [done|]. by repeat constructor.
Defined.
