(* ===== verification/FatDir.v ===== *)
(** * Directories and open nodes of FAT volumes (src/fsfat.c)

    [open] follows a path through directories it loads on the way. Loaded
    directories, their arrays of entries and the nodes handed out live in stores
    addressed by pointers, 0 is null, so that use after free is a [Fault]. The
    volume, its sectors and memory are as in Fat.v. *)
From S2P Require Import Prelude Str FsPath Fat FatFile FatName.

(** [struct fat_dir]: [d_ent] and [d_fsent] point to the block of entries and to
    the list made from it, which belong together. *)
Record fat_dir := mk_dir { d_ent : Z; d_fsent : Z; cur_ent : Z; d_ref : Z }.

(** [struct fs_node]: the file itself, or a pointer to its directory. *)
Inductive fat_node := NFile (file : fat_file) | NDir (dir : Z).

Record fat_mem := mk_mem {
  dirs : gmap Z fat_dir;
  ents : gmap Z (list Z);
  fsents : gmap Z (list fsent);
  fnodes : gmap Z fat_node;
  rootdir : Z;
  cwdnode : Z;
  nexta : Z;
  errno : Z }.

Definition set_dirs (d : gmap Z fat_dir) (s : fat_mem) : fat_mem :=
  mk_mem d (ents s) (fsents s) (fnodes s) (rootdir s) (cwdnode s) (nexta s) (errno s).
Definition set_ents (e : gmap Z (list Z)) (l : gmap Z (list fsent)) (s : fat_mem) : fat_mem :=
  mk_mem (dirs s) e l (fnodes s) (rootdir s) (cwdnode s) (nexta s) (errno s).
Definition set_fnodes (n : gmap Z fat_node) (s : fat_mem) : fat_mem :=
  mk_mem (dirs s) (ents s) (fsents s) n (rootdir s) (cwdnode s) (nexta s) (errno s).

Definition get_dir (p : Z) : SM fat_mem fat_dir := s ← sm_get; sm_lift (of_option (dirs s !! p)).
Definition get_ents (p : Z) : SM fat_mem (list Z) := s ← sm_get; sm_lift (of_option (ents s !! p)).
Definition get_fsents (p : Z) : SM fat_mem (list fsent) := s ← sm_get; sm_lift (of_option (fsents s !! p)).
Definition put_dir (p : Z) (d : fat_dir) : SM fat_mem unit := sm_upd (fun s => set_dirs (<[p := d]> (dirs s)) s).
Definition alloc : SM fat_mem Z := fun s =>
  Ok (nexta s, mk_mem (dirs s) (ents s) (fsents s) (fnodes s) (rootdir s) (cwdnode s) (nexta s + 1) (errno s)).
Definition fail (e : Z) : SM fat_mem Z :=
  sm_upd (fun s => mk_mem (dirs s) (ents s) (fsents s) (fnodes s) (rootdir s) (cwdnode s) (nexta s) e);; mret 0.

Section dir.
Variable f : fatfs.
Variable boot_drive_number : Z.
Variable bdev_read_range : Z -> Z -> option (list Z).
Variable junk : Z -> Z.

(** The clusters of a directory from [addr] on; [None]: one cannot be read. *)
Fixpoint load_clusters (fuel : nat) (addr : Z) : res (option (list Z)) :=
  match fuel with
  | O => NoFuel
  | S fuel =>
      match read_cluster boot_drive_number bdev_read_range f (u32 addr) with
      | None => Ok None
      | Some d =>
          c ← next_cluster f addr;
          if 0 <=? c then rest ← load_clusters fuel c; Ok (option_map (app d) rest) else Ok (Some d)
      end
  end.

(** The address of the first cluster of entry [i] of [b]. *)
Definition dir_cluster (b : list Z) (i : Z) : Z :=
  s32 (if bool_decide (ftype f = FAT32 \/ ftype f = EXFAT)
       then Z.lor (first_cluster_low b i) (u32 (Z.shiftl (first_cluster_high b i) 16))
       else first_cluster_low b i).

(** The directory with the entries [b]. *)
Definition new_dir (b : list Z) : SM fat_mem Z :=
  l ← sm_lift (parse_dir_entries b);
  e ← alloc; fe ← alloc; d ← alloc;
  sm_upd (fun s => set_ents (<[e := b]> (ents s)) (<[fe := l]> (fsents s)) s);;
  put_dir d (mk_dir e fe 0 0);; mret d.

Definition load_dir (fuel : nat) (b : list Z) (i : Z) : SM fat_mem Z :=
  if negb (is_dir b i) then mret 0 else
  r ← sm_lift (load_clusters fuel (dir_cluster b i));
  match r with None => mret 0 | Some data => new_dir data end.

Definition free_dir (p : Z) : SM fat_mem unit :=
  d ← get_dir p; s ← sm_get; root ← get_dir (rootdir s);
  let ref := d_ref d - 1 in
  if 0 <? ref then put_dir p (mk_dir (d_ent d) (d_fsent d) (cur_ent d) ref) else
  (if d_ent d =? d_ent root then mret tt
   else sm_upd (fun s => set_ents (delete (d_ent d) (ents s)) (delete (d_fsent d) (fsents s)) s));;
  sm_upd (fun s => set_dirs (delete p (dirs s)) s).

(** [cwdnode->data]; [None]: the node is of another file system. *)
Definition cwd_data : SM fat_mem (option Z) :=
  s ← sm_get;
  if cwdnode s =? 0 then sm_lift Fault else
  match fnodes s !! cwdnode s with
  | Some (NDir d) => mret (Some d)
  | Some (NFile _) => sm_lift Fault
  | None => mret None
  end.

(** Done with a directory on the way: only a loaded one is freed. *)
Definition leave_dir (dir : Z) : SM fat_mem unit :=
  s ← sm_get;
  if dir =? rootdir s then mret tt else c ← cwd_data; if decide (c = Some dir) then mret tt else free_dir dir.

(** What [open] does at the end of the path; [fatdent] is the entry it last went
    through: its block and index. *)
Definition open_end (dir : Z) (fatdent : Z * Z) : SM fat_mem Z :=
  s ← sm_get;
  p ← alloc;
  if negb (dir =? 0) then
    dir ← (if dir =? rootdir s then
             d ← get_dir dir; c ← alloc; put_dir c (mk_dir (d_ent d) (d_fsent d) (cur_ent d) 0);; mret c
           else mret dir);
    d ← get_dir dir;
    put_dir dir (mk_dir (d_ent d) (d_fsent d) 0 (d_ref d + 1));;
    sm_upd (fun s => set_fnodes (<[p := NDir dir]> (fnodes s)) s);; mret p
  else
    b ← get_ents fatdent.1;
    let i := fatdent.2 in
    sm_upd (fun s => set_fnodes
      (<[p := NFile (init_file f junk (dent_size b i) (first_cluster_low b i) (first_cluster_high b i))]> (fnodes s)) s);;
    mret p.

(** The loop of [open]. *)
Fixpoint open_walk (fuel : nat) (path : list Z) (dir : Z) (fatdent : Z * Z) : SM fat_mem Z :=
  match fuel with
  | O => sm_lift NoFuel
  | S fuel' =>
      match path with
      | [] => open_end dir fatdent
      | _ =>
          if dir =? 0 then fail ENOTDIR else
          let '(name, path) := fs_path_next path MAX_NAME in
          if decide (name = [46]) then open_walk fuel' path dir fatdent else
          d ← get_dir dir;
          l ← get_fsents (d_fsent d);
          match find_entry l name with
          | None => fail ENOENT
          | Some e =>
              b ← get_ents (d_ent d);
              s ← sm_get;
              let i := e_index e in
              if Z.lor (first_cluster_low b i) (first_cluster_high b i) =? 0 then
                if is_dir b i then
                  leave_dir dir;;
                  open_walk fuel' path (rootdir s) (d_ent d, i)
                else mret 0
              else
                newdir ← load_dir fuel b i;
                leave_dir dir;;
                open_walk fuel' path newdir (d_ent d, i)
          end
      end
  end.

Definition open (fuel : nat) (path : list Z) : SM fat_mem Z :=
  s ← sm_get;
  if chr path =? SEP then open_walk fuel (fs_path_skipsep path) (rootdir s) (0, 0)
  else c ← cwd_data; match c with Some d => open_walk fuel path d (0, 0) | None => mret 0 end.

Definition close (p : Z) : SM fat_mem unit :=
  s ← sm_get; n ← sm_lift (of_option (fnodes s !! p));
  match n with NFile _ => mret tt | NDir d => free_dir d end;;
  sm_upd (fun s => set_fnodes (delete p (fnodes s)) s).

Definition rewinddir (p : Z) : SM fat_mem Z :=
  s ← sm_get; n ← sm_lift (of_option (fnodes s !! p));
  match n with
  | NFile _ => mret (-1)
  | NDir dp => d ← get_dir dp; put_dir dp (mk_dir (d_ent d) (d_fsent d) 0 (d_ref d));; mret 0
  end.
Definition readdir (p : Z) : SM fat_mem (option fsent) :=
  s ← sm_get; n ← sm_lift (of_option (fnodes s !! p));
  match n with
  | NFile _ => mret None
  | NDir dp =>
      d ← get_dir dp; l ← get_fsents (d_fsent d);
      if Z.of_nat (length l) <=? cur_ent d then mret None else
      put_dir dp (mk_dir (d_ent d) (d_fsent d) (cur_ent d + 1) (d_ref d));; mret (zlookup l (cur_ent d))
  end.

(** Not supported on these volumes. *)
Definition write (p : Z) (buf : list Z) : SM fat_mem Z := mret (-1).
Definition rename (p : Z) (name : list Z) : SM fat_mem Z := mret (-1).
Definition remove (p : Z) : SM fat_mem Z := fail EPERM;; mret (-1).
End dir.

(** [fsfat_create]: the volume with its root directory; null if the sector is no
    boot sector of one. *)
Definition fsfat_create (boot_drive_number : Z) (bdev_read_range : Z -> Z -> option (list Z)) (low_mem_buffer : Z)
    (junk : Z -> Z) (fuel : nat) (dev start : Z) : SM fat_mem (option fatfs) :=
  v ← sm_lift (open_volume boot_drive_number bdev_read_range low_mem_buffer junk fuel dev start);
  match v with
  | None => mret None
  | Some (b, f) =>
      data ← (if decide (ftype f = FAT32) then
                r ← sm_lift (load_clusters f boot_drive_number bdev_read_range fuel (s32 (root_clust b)));
                sm_lift (match r with Some d => Ok d | None => Panic end)
              else sm_lift (read_chunks boot_drive_number bdev_read_range low_mem_buffer junk fuel dev
                              (start_sect f + root_sect f) (root_size f) 0));
      p ← new_dir data;
      d ← get_dir p;
      put_dir p (mk_dir (d_ent d) (d_fsent d) (cur_ent d) 1);;
      sm_upd (fun s => mk_mem (dirs s) (ents s) (fsents s) (fnodes s) p (cwdnode s) (nexta s) (errno s));;
      mret (Some f)
  end.

(** ** Where a path leads *)

Inductive target :=
| TDir (b : list Z)
| TFile (in_root : bool) (b : list Z) (i : Z)
| TNull
| TError (e : Z).

Section walk.
Variable f : fatfs.
Variable boot_drive_number : Z.
Variable bdev_read_range : Z -> Z -> option (list Z).
Variable junk : Z -> Z.
(** Clusters a directory may have. *)
Variable n : nat.
(** The entries of the root directory. *)
Variable root : list Z.

Definition subdir (b : list Z) (i : Z) : option (list Z) :=
  match load_clusters f boot_drive_number bdev_read_range n (dir_cluster f b i) with Ok o => o | _ => None end.

(** The path with components [l] from the directory with the entries [b], on the
    disk alone. [None]: a directory on the way cannot be read. *)
Fixpoint disk_walk (l : list (list Z)) (at_root : bool) (b : list Z) : option target :=
  match parse_dir_entries b with
  | Ok es =>
      match l with
      | [] => Some (TDir b)
      | c :: l =>
          let name := take (Z.to_nat (MAX_NAME - 1)) c in
          if decide (name = [46]) then disk_walk l at_root b else
          match find_entry es name with
          | None => Some (TError ENOENT)
          | Some e =>
              let i := e_index e in
              if Z.lor (first_cluster_low b i) (first_cluster_high b i) =? 0 then
                if is_dir b i then disk_walk l true root else Some TNull
              else if is_dir b i then b' ← subdir b i; disk_walk l false b'
              else Some (match l with [] => TFile at_root b i | _ => TError ENOTDIR end)
          end
      end
  | _ => None
  end.

(** ** Memory *)

(** Everything allocated in [s] is there in [s'] as it was. *)
Record extends (s s' : fat_mem) : Prop := {
  x_dirs p d : dirs s !! p = Some d -> dirs s' !! p = Some d;
  x_ents p b : ents s !! p = Some b -> ents s' !! p = Some b;
  x_fsents p l : fsents s !! p = Some l -> fsents s' !! p = Some l;
  x_fnodes p x : fnodes s !! p = Some x -> fnodes s' !! p = Some x;
  x_root : rootdir s' = rootdir s;
  x_cwd : cwdnode s' = cwdnode s;
  x_next : nexta s <= nexta s' }.

Lemma extends_refl s : extends s s.
Proof. by split. Qed.
Lemma extends_trans s1 s2 s3 : extends s1 s2 -> extends s2 s3 -> extends s1 s3.
Proof. intros [] []. split; try congruence; try lia; eauto. Qed.

(** The stores are below [nexta]. *)
Record below (s : fat_mem) : Prop := {
  m_next : 0 < nexta s;
  m_dirs p d : dirs s !! p = Some d -> 0 < p < nexta s;
  m_ents p b : ents s !! p = Some b -> 0 < p < nexta s;
  m_fsents p l : fsents s !! p = Some l -> 0 < p < nexta s;
  m_fnodes p x : fnodes s !! p = Some x -> 0 < p < nexta s }.
(** The node of the working directory is a directory of this or of another file
    system. *)
Definition cwd_ok (s : fat_mem) : Prop :=
  0 < cwdnode s < nexta s /\
  match fnodes s !! cwdnode s with
  | Some (NDir d) => is_Some (dirs s !! d)
  | Some (NFile _) => False
  | None => True
  end.
(** The root directory is loaded, and there is a working directory. *)
Definition root_loaded (s : fat_mem) : Prop :=
  exists rd es, dirs s !! rootdir s = Some rd /\ ents s !! d_ent rd = Some root /\
    fsents s !! d_fsent rd = Some es /\ parse_dir_entries root = Ok es.
Record mem_ok (s : fat_mem) : Prop := { m_below : below s; m_root : root_loaded s; m_cwd : cwd_ok s }.

Lemma mem_ok_grow s s' : mem_ok s -> extends s s' -> fnodes s' = fnodes s -> below s' -> mem_ok s'.
Proof.
  intros [_ (rd & es & R1 & R2 & R3 & R4) [C1 C2]] [X1 X2 X3 _ Xr Xc Xn] Ef Hb. split; [done| |].
  - exists rd, es. rewrite Xr. split; [by apply X1|]. split; [by apply X2|]. split; [by apply X3|done].
  - unfold cwd_ok. rewrite Xc, Ef. split; [lia|]. revert C2. destruct (fnodes s !! cwdnode s) as [[|d]|]; [done| |done].
    intros [x Hx]. exists x. by apply X1.
Qed.

(** The directory [open] is in: the root, or one it loaded since [s0]. *)
Definition at_dir (s0 s : fat_mem) (dir : Z) (at_root : bool) (b : list Z) : Prop :=
  extends s0 s /\ below s /\ fnodes s = fnodes s0 /\
  if at_root then dir = rootdir s /\ b = root
  else nexta s0 <= dir /\ exists e fe es, dirs s !! dir = Some (mk_dir e fe 0 0) /\ nexta s0 <= e /\ nexta s0 <= fe /\
    ents s !! e = Some b /\ fsents s !! fe = Some es /\ parse_dir_entries b = Ok es.

Ltac fm :=
  cbv [mbind mret sm_mbind sm_mret sm_get sm_upd sm_lift get_dir get_ents get_fsents put_dir res_mbind res_bind];
  cbn [of_option dirs ents fsents fnodes rootdir cwdnode nexta errno set_dirs set_ents set_fnodes].

Lemma at_dir_data s0 s dir ar b :
  mem_ok s0 -> at_dir s0 s dir ar b ->
  exists d es, dirs s !! dir = Some d /\ ents s !! d_ent d = Some b /\ fsents s !! d_fsent d = Some es /\
    parse_dir_entries b = Ok es /\ 0 < dir.
Proof.
  intros Hm0 (Hx & Hb & Ef & H). destruct ar.
  - destruct H as [-> ->]. pose proof (mem_ok_grow s0 s Hm0 Hx Ef Hb) as Hm.
    destruct (m_root _ Hm) as (rd & es & R1 & R2 & R3 & R4). exists rd, es. pose proof (m_dirs _ Hb _ _ R1). split_and!; done || lia.
  - destruct H as (_ & e & fe & es & Hd & _ & _ & ? & ? & ?). exists (mk_dir e fe 0 0), es. apply (m_dirs _ Hb) in Hd as Hd2. split_and!; done || lia.
Qed.

(** Loading a directory beside [s0]'s. *)
Lemma new_dir_ok s0 s b es :
  extends s0 s -> below s -> fnodes s = fnodes s0 -> parse_dir_entries b = Ok es ->
  exists s' d, new_dir b s = Ok (d, s') /\ extends s s' /\ at_dir s0 s' d false b /\ nexta s <= d.
Proof.
  intros Hx Hm Ef Hp. unfold new_dir. rewrite (sm_bind_ok _ _ s es s) by (unfold sm_lift; by rewrite Hp).
  unfold alloc. fm. eexists _, _. split; [done|]. pose proof (m_next _ Hm). pose proof (x_next _ _ Hx) as Hn.
  assert (forall p, nexta s <= p -> dirs s !! p = None /\ ents s !! p = None /\ fsents s !! p = None) as Hfree.
  { intros p Hle. split_and!; [destruct (dirs s !! p) eqn:E; [apply (m_dirs _ Hm) in E; lia|done]
      |destruct (ents s !! p) eqn:E; [apply (m_ents _ Hm) in E; lia|done]|destruct (fsents s !! p) eqn:E; [apply (m_fsents _ Hm) in E; lia|done]]. }
  match goal with |- extends s ?s' /\ _ => assert (extends s s') as Hx' end.
  { split; cbn; try done; try lia; intros p x Hlk; rewrite lookup_insert_ne; try done; intros <-.
    - destruct (Hfree (nexta s + 1 + 1)) as (? & _ & _); [lia|congruence].
    - destruct (Hfree (nexta s)) as (_ & ? & _); [lia|congruence].
    - destruct (Hfree (nexta s + 1)) as (_ & _ & ?); [lia|congruence]. }
  split; [done|]. split; [|lia]. split; [by eapply extends_trans|]. split.
  - destruct Hm as [H1 H2 H3 H4 H5]. split; cbn.
    + lia.
    + intros p d [[<- _]|[_ Hl]]%lookup_insert_Some; [lia|]. apply H2 in Hl. lia.
    + intros p d [[<- _]|[_ Hl]]%lookup_insert_Some; [lia|]. apply H3 in Hl. lia.
    + intros p d [[<- _]|[_ Hl]]%lookup_insert_Some; [lia|]. apply H4 in Hl. lia.
    + intros p x Hl. apply H5 in Hl. lia.
  - split; [done|]. cbn. split; [lia|]. exists (nexta s), (nexta s + 1), es. rewrite !lookup_insert_eq. split_and!; try done; lia.
Qed.

(** Leaving a directory frees it, if it was loaded, and nothing else. *)
Lemma leave_dir_ok s0 s s1 dir ar b :
  mem_ok s0 -> at_dir s0 s dir ar b -> extends s s1 -> below s1 -> fnodes s1 = fnodes s0 ->
  exists s2, leave_dir dir s1 = Ok (tt, s2) /\ extends s0 s2 /\ below s2 /\ fnodes s2 = fnodes s0 /\
    nexta s2 = nexta s1 /\
    (forall p, nexta s <= p -> dirs s2 !! p = dirs s1 !! p /\ ents s2 !! p = ents s1 !! p /\ fsents s2 !! p = fsents s1 !! p) /\
    (ar = true -> s2 = s1) /\
    (ar = false -> forall d, dirs s !! dir = Some d -> ents s2 !! d_ent d = None).
Proof.
  intros Hm0 Hat Hx1 Hb1 Ef1. pose proof Hat as (Hx & Hb & Ef & H). pose proof (extends_trans _ _ _ Hx Hx1) as Hx01.
  pose proof (mem_ok_grow s0 s1 Hm0 Hx01 Ef1 Hb1) as Hm1. unfold leave_dir. rewrite (sm_bind_ok _ _ s1 s1 s1) by done.
  destruct ar.
  { destruct H as [-> ->]. rewrite (x_root _ _ Hx1), Z.eqb_refl. exists s1. by split_and!. }
  destruct H as (Hdir & e & fe & es & Hd & He & Hfe & Hents & Hfs & _).
  destruct (m_root _ Hm0) as (rd & res & R1 & R2 & R3 & _). pose proof (m_dirs _ (m_below _ Hm0) _ _ R1) as Hr0.
  pose proof (m_ents _ (m_below _ Hm0) _ _ R2) as Hre.
  rewrite (x_root _ _ Hx01). destruct (Z.eqb_spec dir (rootdir s0)); [lia|].
  destruct (m_cwd _ Hm0) as [C1 C2].
  assert (exists c, cwd_data s1 = Ok (c, s1) /\ c <> Some dir) as (c & Ec & Hc).
  { unfold cwd_data. rewrite (sm_bind_ok _ _ s1 s1 s1) by done. rewrite (x_cwd _ _ Hx01), Ef1.
    destruct (Z.eqb_spec (cwdnode s0) 0); [lia|]. destruct (fnodes s0 !! cwdnode s0) as [[|d]|]; [done| |by exists None].
    exists (Some d). split; [done|]. intros [= ->]. destruct C2 as [x Hxd]. apply (m_dirs _ (m_below _ Hm0)) in Hxd. lia. }
  rewrite (sm_bind_ok _ _ _ _ _ Ec). destruct (decide (c = Some dir)); [done|].
  pose proof (x_dirs _ _ Hx1 _ _ Hd) as Hd1. unfold free_dir.
  assert (rootdir s1 = rootdir s0) as Er by apply Hx01.
  fm. rewrite Hd1. fm. rewrite Er, (x_dirs _ _ Hx01 _ _ R1). fm. cbn [d_ref d_ent d_fsent].
  change (0 <? 0 - 1) with false. cbv iota. destruct (Z.eqb_spec e (d_ent rd)); [lia|]. fm.
  eexists. split; [done|]. pose proof (m_dirs _ Hb _ _ Hd). pose proof (m_ents _ Hb _ _ Hents). pose proof (m_fsents _ Hb _ _ Hfs).
  pose proof (x_next _ _ Hx01). split; [|split; [|split; [done|split; [done|split; [|split; [done|]]]]]].
  - pose proof (m_below _ Hm0) as Hb0. split; cbn; try apply Hx01.
    + intros p d Hp. pose proof (m_dirs _ Hb0 _ _ Hp). rewrite lookup_delete_ne by lia. by apply Hx01.
    + intros p d Hp. pose proof (m_ents _ Hb0 _ _ Hp). rewrite lookup_delete_ne by lia. by apply Hx01.
    + intros p d Hp. pose proof (m_fsents _ Hb0 _ _ Hp). rewrite lookup_delete_ne by lia. by apply Hx01.
  - destruct Hb1. split; cbn; try done; intros p x [_ Hp]%lookup_delete_Some; eauto.
  - cbn. intros p Hp. by rewrite !lookup_delete_ne by lia.
  - cbn. intros _ d Hd'. assert (d = mk_dir e fe 0 0) as -> by congruence. apply lookup_delete_eq.
Qed.

Notation load_dir := (load_dir f boot_drive_number bdev_read_range).
Notation open_walk := (open_walk f boot_drive_number bdev_read_range junk).

(** The node [p], new since [s0], is an open directory with the entries [b]. *)
Definition opened_dir (s0 s : fat_mem) (p : Z) (b : list Z) : Prop :=
  exists d dd es, fnodes s !! p = Some (NDir d) /\ dirs s0 !! d = None /\ dirs s !! d = Some dd /\
    d_ref dd = 1 /\ cur_ent dd = 0 /\ ents s !! d_ent dd = Some b /\ fsents s !! d_fsent dd = Some es /\
    parse_dir_entries b = Ok es.
Definition grown (s0 s : fat_mem) : Prop := extends s0 s /\ mem_ok s.

Lemma fresh_dirs s0 p : below s0 -> nexta s0 <= p -> dirs s0 !! p = None /\ fnodes s0 !! p = None.
Proof.
  intros Hb Hp. split; [destruct (dirs s0 !! p) eqn:E; [apply (m_dirs _ Hb) in E; lia|done]
    |destruct (fnodes s0 !! p) eqn:E; [apply (m_fnodes _ Hb) in E; lia|done]].
Qed.

(** A state of [open] with a new node. *)
Lemma grown_node s0 s p x :
  mem_ok s0 -> extends s0 s -> fnodes s = <[p := x]> (fnodes s0) -> nexta s0 <= p < nexta s ->
  (forall q d, dirs s !! q = Some d -> 0 < q < nexta s) -> (forall q b, ents s !! q = Some b -> 0 < q < nexta s) ->
  (forall q l, fsents s !! q = Some l -> 0 < q < nexta s) -> grown s0 s.
Proof.
  intros Hm Hx Ef Hp H1 H2 H3. split; [done|]. destruct Hm as [Hb (rd & es & R1 & R2 & R3 & R4) [C1 C2]].
  pose proof (m_next _ Hb). destruct Hx as [X1 X2 X3 _ Xr Xc Xn]. split.
  - split; try done; [lia|]. rewrite Ef. intros q y [[<- _]|[_ Hq]]%lookup_insert_Some; [lia|]. apply (m_fnodes _ Hb) in Hq. lia.
  - exists rd, es. rewrite Xr. split; [by apply X1|]. split; [by apply X2|]. split; [by apply X3|done].
  - unfold cwd_ok. rewrite Xc, Ef, lookup_insert_ne by lia. split; [lia|]. revert C2. destruct (fnodes s0 !! cwdnode s0) as [[|d]|]; [done| |done].
    intros [y Hy]. exists y. by apply X1.
Qed.

Lemma open_end_dir s0 s dir ar b ent :
  mem_ok s0 -> at_dir s0 s dir ar b ->
  exists p s', open_end f junk dir ent s = Ok (p, s') /\ p <> 0 /\ fnodes s0 !! p = None /\ grown s0 s' /\ opened_dir s0 s' p b.
Proof.
  intros Hm0 Hat. destruct (at_dir_data _ _ _ _ _ Hm0 Hat) as (d & es & Hd & He & Hfe & Hp & Hdir0).
  destruct Hat as (Hx & Hb & Ef & H). pose proof (x_next _ _ Hx). pose proof (m_next _ Hb). pose proof (m_below _ Hm0) as Hb0.
  unfold open_end, alloc. fm. apply Z.lt_neq, not_eq_sym, Z.eqb_neq in Hdir0 as Hdn. rewrite Hdn. cbn [negb].
  destruct ar.
  - destruct H as [-> ->]. rewrite Z.eqb_refl. fm. rewrite Hd. fm. rewrite lookup_insert_eq. fm. cbn [d_ent d_fsent d_ref].
    destruct (fresh_dirs s0 (nexta s) Hb0) as [_ Hfn]; [lia|]. destruct (fresh_dirs s0 (nexta s + 1) Hb0) as [Hfd _]; [lia|].
    eexists _, _. split; [done|]. split; [lia|]. split; [done|]. split.
    + eapply (grown_node s0 _ (nexta s)); [done| |by cbn; rewrite Ef|cbn; lia|..]; cbn.
      * split; cbn; try apply Hx; try lia.
        -- intros p x Hpx. pose proof (m_dirs _ Hb0 _ _ Hpx). rewrite !lookup_insert_ne by lia. by apply Hx.
        -- intros p x Hpx. pose proof (m_fnodes _ Hb0 _ _ Hpx). rewrite lookup_insert_ne by lia. by rewrite Ef.
      * intros q x. rewrite !lookup_insert_Some. intros [[<- _]|[_ [[<- _]|[_ Hq]]]]; [lia..|]. apply (m_dirs _ Hb) in Hq. lia.
      * intros q x Hq. apply (m_ents _ Hb) in Hq. lia.
      * intros q x Hq. apply (m_fsents _ Hb) in Hq. lia.
    + exists (nexta s + 1), (mk_dir (d_ent d) (d_fsent d) 0 1), es. cbn. rewrite !lookup_insert_eq. by split_and!.
  - destruct H as (Hdn0 & e & fe & es' & Hd' & He0 & Hfe0 & He' & Hfe' & _).
    pose proof (m_dirs _ Hb _ _ Hd) as Hdb.
    assert (rootdir s = rootdir s0) as Er by apply Hx. destruct (m_root _ Hm0) as (rd & res & R1 & _).
    pose proof (m_dirs _ Hb0 _ _ R1). rewrite Er. destruct (Z.eqb_spec dir (rootdir s0)); [lia|]. fm. rewrite Hd. fm.
    destruct (fresh_dirs s0 (nexta s) Hb0) as [_ Hfn]; [lia|]. destruct (fresh_dirs s0 dir Hb0) as [Hfd _]; [lia|].
    eexists _, _. split; [done|]. split; [lia|]. split; [done|]. split.
    + eapply (grown_node s0 _ (nexta s)); [done| |by cbn; rewrite Ef|cbn; lia|..]; cbn.
      * split; cbn; try apply Hx; try lia.
        -- intros p x Hpx. pose proof (m_dirs _ Hb0 _ _ Hpx). rewrite !lookup_insert_ne by lia. by apply Hx.
        -- intros p x Hpx. pose proof (m_fnodes _ Hb0 _ _ Hpx). rewrite lookup_insert_ne by lia. by rewrite Ef.
      * intros q x. rewrite !lookup_insert_Some. intros [[<- _]|[_ Hq]]; [lia|]. apply (m_dirs _ Hb) in Hq. lia.
      * intros q x Hq. apply (m_ents _ Hb) in Hq. lia.
      * intros q x Hq. apply (m_fsents _ Hb) in Hq. lia.
    + assert (d = mk_dir e fe 0 0) as -> by congruence. cbn in *.
      exists dir, (mk_dir e fe 0 1), es. cbn. rewrite !lookup_insert_eq. by split_and!.
Qed.

Lemma open_end_file s0 s a i :
  mem_ok s0 -> extends s0 s -> below s -> fnodes s = fnodes s0 ->
  match ents s !! a with
  | Some b => exists p s', open_end f junk 0 (a, i) s = Ok (p, s') /\ p <> 0 /\ fnodes s0 !! p = None /\ grown s0 s' /\
      fnodes s' !! p = Some (NFile (init_file f junk (dent_size b i) (first_cluster_low b i) (first_cluster_high b i)))
  | None => open_end f junk 0 (a, i) s = Fault
  end.
Proof.
  intros Hm0 Hx Hb Ef. pose proof (x_next _ _ Hx). pose proof (m_next _ Hb). pose proof (m_below _ Hm0) as Hb0.
  unfold open_end, alloc. fm. cbn [Z.eqb negb fst snd].
  destruct (ents s !! a) as [b|] eqn:E; fm; rewrite E; fm; [|done].
  destruct (fresh_dirs s0 (nexta s) Hb0) as [_ Hfn]; [lia|].
  eexists _, _. split; [done|]. split; [lia|]. split; [done|]. split; [|by cbn; rewrite lookup_insert_eq].
  eapply (grown_node s0 _ (nexta s)); [done| |by cbn; rewrite Ef|cbn; lia|..]; cbn.
  - split; cbn; try apply Hx; try lia.
    intros p x Hpx. pose proof (m_fnodes _ Hb0 _ _ Hpx). rewrite lookup_insert_ne by lia. by rewrite Ef.
  - intros q x Hq. apply (m_dirs _ Hb) in Hq. lia.
  - intros q x Hq. apply (m_ents _ Hb) in Hq. lia.
  - intros q x Hq. apply (m_fsents _ Hb) in Hq. lia.
Qed.

Lemma load_mono k m a r : load_clusters f boot_drive_number bdev_read_range k a = Ok r -> (k <= m)%nat ->
  load_clusters f boot_drive_number bdev_read_range m a = Ok r.
Proof.
  revert m a r. induction k as [|k IH]; intros m a r; [done|]. destruct m as [|m]; [lia|]. cbn [load_clusters].
  intros E Hm. destruct (read_cluster _ _ _ _); [|done]. destruct (next_cluster f a) as [c| | |]; [|done..].
  cbn [mbind res_mbind res_bind] in *. destruct (0 <=? c); [|done].
  destruct (load_clusters _ _ _ k c) as [r'| | |] eqn:E'; [|done..]. rewrite (IH m c r') by (done || lia). done.
Qed.

(** [load_dir] on a subdirectory that can be read. *)
Lemma load_dir_ok s b i b' es fuel :
  below s -> is_dir b i = true -> subdir b i = Some b' -> parse_dir_entries b' = Ok es -> (n <= fuel)%nat ->
  exists s1 d, load_dir fuel b i s = Ok (d, s1) /\ extends s s1 /\ at_dir s s1 d false b'.
Proof.
  intros Hb Hd Hs Hp Hf. unfold subdir in Hs.
  destruct (load_clusters f boot_drive_number bdev_read_range n (dir_cluster f b i)) as [r| | |] eqn:E; [|done..]. subst r.
  destruct (new_dir_ok s s b' es (extends_refl s) Hb eq_refl Hp) as (s1 & d & En & Hx & Hat & _).
  exists s1, d. split; [|done]. unfold FatDir.load_dir. rewrite Hd. cbn [negb].
  rewrite (sm_bind_ok _ _ s (Some b') s); [done|]. unfold sm_lift. by rewrite (load_mono _ _ _ _ E Hf).
Qed.

(** The outcome of [open] for a target. *)
Definition open_result (s0 : fat_mem) (t : target) (r : res (Z * fat_mem)) : Prop :=
  match t with
  | TDir b => exists p s', r = Ok (p, s') /\ p <> 0 /\ fnodes s0 !! p = None /\ grown s0 s' /\ opened_dir s0 s' p b
  | TFile true b i => exists p s', r = Ok (p, s') /\ p <> 0 /\ fnodes s0 !! p = None /\ grown s0 s' /\
      fnodes s' !! p = Some (NFile (init_file f junk (dent_size b i) (first_cluster_low b i) (first_cluster_high b i)))
  | TFile false _ _ => r = Fault
  | TNull => exists s', r = Ok (0, s') /\ grown s0 s' /\ fnodes s' = fnodes s0
  | TError e => exists s', r = Ok (0, s') /\ grown s0 s' /\ fnodes s' = fnodes s0 /\ errno s' = e
  end.

Lemma fail_result s0 s e : mem_ok s0 -> extends s0 s -> below s -> fnodes s = fnodes s0 ->
  open_result s0 (TError e) (fail e s).
Proof.
  intros Hm Hx Hb Ef. unfold fail. fm. eexists. split; [done|]. cbn. split; [|done].
  assert (extends s0 (mk_mem (dirs s) (ents s) (fsents s) (fnodes s) (rootdir s) (cwdnode s) (nexta s) e)) as Hx' by (by destruct Hx).
  split; [done|]. apply (mem_ok_grow s0); try done. by destruct Hb.
Qed.

Lemma fat_open_walk_spec s0 l : mem_ok s0 -> Forall component l -> forall t s dir ar b ent fuel,
  at_dir s0 s dir ar b -> disk_walk l ar b = Some t -> (n + length l < fuel)%nat ->
  open_result s0 t (open_walk fuel (join_path l) dir ent s).
Proof.
  intros Hm0. induction l as [|c l IH]; intros Hl t s dir ar b ent [|fuel] Hat Hw Hf; try lia.
  - destruct (at_dir_data _ _ _ _ _ Hm0 Hat) as (d & es & _ & _ & _ & Hp & _). cbn [disk_walk] in Hw. rewrite Hp in Hw.
    injection Hw as <-. by apply (open_end_dir _ _ _ ar).
  - pose proof Hl as [Hc Hl']%Forall_cons. cbn [FatDir.open_walk].
    destruct (join_path (c :: l)) as [|x0 rest] eqn:Ej.
    { destruct Hc as [Hc _]. destruct l; [done|]. rewrite join_path_cons in Ej by done. by destruct c. }
    rewrite <- Ej. clear x0 rest Ej.
    destruct (at_dir_data _ _ _ _ _ Hm0 Hat) as (d & es & Hd & He & Hfe & Hp & Hdir0).
    cbn [disk_walk] in Hw. rewrite Hp in Hw. destruct (Z.eqb_spec dir 0); [lia|].
    rewrite path_next_join by done. cbv beta iota zeta.
    destruct (decide (take (Z.to_nat (MAX_NAME - 1)) c = [46])); [apply (IH Hl' t s dir ar b); [done|done|cbn in Hf; lia]|].
    rewrite (sm_bind_ok _ _ s d s) by (fm; by rewrite Hd). rewrite (sm_bind_ok _ _ s es s) by (fm; by rewrite Hfe).
    pose proof Hat as (Hx & Hb & Ef & Har).
    destruct (find_entry es _) as [e|]; [|injection Hw as <-; by apply fail_result].
    rewrite (sm_bind_ok _ _ s b s) by (fm; by rewrite He). rewrite (sm_bind_ok _ _ s s s) by done.
    set (i := e_index e) in *. destruct (Z.lor _ _ =? 0).
    + destruct (is_dir b i) eqn:Ei.
      * destruct (leave_dir_ok s0 s s dir ar b Hm0 Hat (extends_refl s) Hb Ef) as (s2 & E2 & Hx2 & Hb2 & Ef2 & _).
        rewrite (sm_bind_ok _ _ _ _ _ E2). apply (IH Hl' t s2 _ true root); [|done|cbn in Hf; lia].
        split_and!; try done. rewrite (x_root _ _ Hx2). apply Hx.
      * injection Hw as <-. exists s. split; [done|]. split; [|done]. split; [done|]. by apply (mem_ok_grow s0).
    + destruct (is_dir b i) eqn:Ei.
      * destruct (subdir b i) as [b'|] eqn:Es; [|done]. cbn [mbind option_bind] in Hw.
        assert (exists es', parse_dir_entries b' = Ok es') as [es' Hp'].
        { destruct l; cbn [disk_walk] in Hw; destruct (parse_dir_entries b') as [es'| | |]; try done; by exists es'. }
        destruct (load_dir_ok s b i b' es' (S fuel) Hb Ei Es Hp' ltac:(cbn in Hf; lia)) as (s1 & d' & E1 & Hx1 & (_ & Hb1 & Ef1 & Hat1)).
        rewrite (sm_bind_ok _ _ _ _ _ E1).
        destruct (leave_dir_ok s0 s s1 dir ar b Hm0 Hat Hx1 Hb1 ltac:(congruence)) as (s2 & E2 & Hx2 & Hb2 & Ef2 & _ & Hk & _).
        rewrite (sm_bind_ok _ _ _ _ _ E2). apply (IH Hl' t s2 _ false b'); [|done|cbn in Hf; lia].
        destruct Hat1 as (Hd1 & e1 & fe1 & es1 & K1 & K2 & K3 & K4 & K5 & K6). pose proof (x_next _ _ Hx).
        split_and!; try done; [lia|]. exists e1, fe1, es1. split_and!; try done; try lia.
        -- by rewrite (proj1 (Hk d' Hd1)).
        -- by rewrite (proj1 (proj2 (Hk e1 K2))).
        -- by rewrite (proj2 (proj2 (Hk fe1 K3))).
      * injection Hw as <-.
        rewrite (sm_bind_ok _ _ s 0 s) by (unfold FatDir.load_dir; by rewrite Ei).
        destruct (leave_dir_ok s0 s s dir ar b Hm0 Hat (extends_refl s) Hb Ef) as (s2 & E2 & Hx2 & Hb2 & Ef2 & _ & _ & Hsame & Hgone).
        rewrite (sm_bind_ok _ _ _ _ _ E2). destruct fuel as [|fuel]; [cbn in Hf; lia|]. cbn [FatDir.open_walk].
        destruct l as [|c2 l].
        -- cbn [join_path]. pose proof (open_end_file s0 s2 (d_ent d) i Hm0 Hx2 Hb2 Ef2) as Ho. destruct ar.
           ++ rewrite (Hsame eq_refl) in *. by rewrite He in Ho.
           ++ by rewrite (Hgone eq_refl d Hd) in Ho.
        -- destruct (join_path (c2 :: l)) as [|x0 rest] eqn:Ej; [|by apply fail_result].
           apply Forall_cons in Hl' as [[Hc2 _] _]. destruct l; [done|]. rewrite join_path_cons in Ej by done. by destruct c2.
Qed.

Lemma open_absolute s l t fuel :
  mem_ok s -> Forall component l -> disk_walk l true root = Some t -> (n + length l < fuel)%nat ->
  open_result s t (open f boot_drive_number bdev_read_range junk fuel (SEP :: join_path l) s).
Proof.
  intros Hm Hl Hw Hf. unfold open. rewrite (sm_bind_ok _ _ s s s) by done. cbn [chr]. rewrite Z.eqb_refl.
  change (fs_path_skipsep (SEP :: join_path l)) with (fs_path_skipsep (join_path l)). rewrite join_path_skipsep by done.
  apply (fat_open_walk_spec s l Hm Hl t s _ true root); [|done|done].
  split; [apply extends_refl|]. split; [apply (m_below _ Hm)|done].
Qed.

(** C12. [open] on an absolute path: a directory is opened with the entries it has
    on the disk, a file of the root directory with the size and first cluster of
    its entry, and what is missing is reported; what was open before stays as it
    was. A file of any other directory is not opened: that directory is freed
    before its entry for the file is read. *)
Theorem fat_open_spec s l t fuel :
  mem_ok s -> Forall component l -> disk_walk l true root = Some t -> (n + length l < fuel)%nat ->
  open_result s t (open f boot_drive_number bdev_read_range junk fuel (SEP :: join_path l) s).
Proof. apply open_absolute. Qed.
End walk.

(** ** Mounting *)

Section mount.
Context (boot : Z) (bdev : Z -> Z -> option (list Z)) (lmb : Z) (junk : Z -> Z) (disk : Z -> list Z) (nsect cmax : Z).
Context `{!DiskRange bdev disk nsect cmax}.

(** The clusters of a chain, one after the other. *)
Lemma load_clusters_chain f c l (data : Z -> list Z) fuel :
  chain f c l -> Forall (fun x => read_cluster boot bdev f (u32 x) = Some (data x)) l -> (length l <= fuel)%nat ->
  load_clusters f boot bdev fuel c = Ok (Some (mjoin (data <$> l))).
Proof.
  revert c fuel. induction l as [|x l IH]; intros c fuel Hc Hl Hf; [done|]. destruct fuel as [|fuel]; [cbn in Hf; lia|].
  apply Forall_cons in Hl as [Hx Hl]. destruct Hc as (-> & _ & Hn). cbn [load_clusters]. rewrite Hx. destruct l as [|y l].
  - rewrite Hn. cbn. by rewrite app_nil_r.
  - destruct Hn as [-> Hn]. cbn [mbind res_mbind res_bind]. pose proof (chain_nonneg _ _ _ y Hn ltac:(left)).
    destruct (Z.leb_spec 0 y); [|lia]. by rewrite (IH y fuel Hn Hl ltac:(cbn in *; lia)).
Qed.

(** The device of a volume that was opened. *)
Lemma open_volume_dev fuel dev start b f :
  dev = -1 \/ dev = boot -> open_volume boot bdev lmb junk fuel dev start = Ok (Some (b, f)) -> fdev f = boot.
Proof.
  intros Hdev E. unfold open_volume in E. destruct (read_sectors _ _ _ _ _); [|done]. destruct (_ || _); [done|].
  destruct (negb _); [done|]. destruct (_ =? 0) in E; [done|]. cbv zeta in E.
  match type of E with context [let '(_, _) := ?x in _] => destruct x as [[x1 x2] x3] end.
  destruct (read_chunks _ _ _ _ _ _ _ _ _); [|done..]. cbn [mbind res_mbind res_bind] in E.
  destruct (find_shift _ _ _); [|done]. cbn in E. injection E as _ <-. cbn.
  destruct Hdev as [->| ->]; [done|]. by destruct (_ <? 0).
Qed.

(** The first sector of a cluster, and the sectors of its data. *)
Definition cluster_sect (f : fatfs) (c : Z) : Z := start_sect f + first_data_sect f + (c - 2) * cluster_size f.
Definition cluster_data (f : fatfs) (c : Z) : list Z := sectors disk (cluster_sect f c) (cluster_size f).

(** The bytes of the root directory on the disk: the clusters from [root_clust]
    on of a FAT32 volume, and an area of its own of the others. *)
Definition root_on_disk (fuel : nat) (b : bparam) (f : fatfs) (root : list Z) : Prop :=
  if decide (ftype f = FAT32) then
    0 <= start_sect f /\ 0 <= first_data_sect f < 4294967296 /\ 1 <= cluster_size f <= cmax /\
    exists l, chain f (s32 (root_clust b)) l /\ (length l <= fuel)%nat /\
      Forall (fun c => 2 <= c < 4294967296 /\ cluster_sect f c + cluster_size f <= nsect) l /\
      root = mjoin (cluster_data f <$> l)
  else
    0 <= start_sect f + root_sect f /\ 0 <= root_size f < Z.of_nat fuel /\
    start_sect f + root_sect f + root_size f <= nsect /\ root = sectors disk (start_sect f + root_sect f) (root_size f).

Lemma load_root_ok fuel b f root : fdev f = boot -> root_on_disk fuel b f root -> ftype f = FAT32 ->
  load_clusters f boot bdev fuel (s32 (root_clust b)) = Ok (Some root).
Proof.
  intros Hdev Hr Ht. unfold root_on_disk in Hr. rewrite decide_True in Hr by done.
  destruct Hr as (Hs & Hd & Hc & l & Hch & Hf & Hl & ->). apply load_clusters_chain; [done| |done].
  eapply Forall_impl; [exact Hl|]. intros c [Hc2 Hn]. unfold cluster_sect, cluster_data in *. rewrite u32_small by lia.
  apply (read_cluster_ok boot bdev disk nsect cmax); lia || done.
Qed.

Lemma mount_root_spec fuel dev start b f s root es :
  1 <= max_sect_once lmb -> dev = -1 \/ dev = boot ->
  open_volume boot bdev lmb junk fuel dev start = Ok (Some (b, f)) -> root_on_disk fuel b f root ->
  parse_dir_entries root = Ok es -> below s ->
  exists s', fsfat_create boot bdev lmb junk fuel dev start s = Ok (Some f, s') /\ below s' /\ root_loaded root s' /\
    fnodes s' = fnodes s /\ cwdnode s' = cwdnode s /\ (cwd_ok s -> mem_ok root s').
Proof.
  intros Hlow Hdev Ev Hroot Hp Hb. unfold fsfat_create.
  rewrite (sm_bind_ok _ _ s (Some (b, f)) s) by (unfold sm_lift; by rewrite Ev).
  rewrite (sm_bind_ok _ _ s root s).
  2:{ destruct (decide (ftype f = FAT32)) as [Ht|Ht].
      - rewrite (sm_bind_ok _ _ s (Some root) s); [done|]. unfold sm_lift.
        rewrite (load_root_ok fuel b f root); [done|by eapply open_volume_dev|done|done].
      - unfold root_on_disk in Hroot. rewrite decide_False in Hroot by done. destruct Hroot as (H0 & Hsz & Hn & ->).
        unfold sm_lift. rewrite (read_chunks_ok boot bdev lmb junk disk nsect cmax) by (done || lia). cbn. by rewrite Z.add_0_r, Z.sub_0_r. }
  destruct (new_dir_ok root s s root es (extends_refl s) Hb eq_refl Hp) as (s1 & d & En & Hx & (_ & Hb1 & Ef1 & Hd) & _).
  destruct Hd as (Hd0 & e & fe & es1 & K1 & K2 & K3 & K4 & K5 & K6). rewrite (sm_bind_ok _ _ _ _ _ En).
  pose proof (m_dirs _ Hb1 _ _ K1) as Hdb.
  cbv [mbind sm_mbind mret sm_mret get_dir put_dir sm_get sm_upd sm_lift]. cbn. rewrite K1. cbn.
  eexists. split; [done|]. match goal with |- below ?s' /\ _ => set (s2 := s') end.
  assert (below s2) as Hb2.
  { destruct Hb1. split; cbn; try done. intros q x [[<- _]|[_ Hq]]%lookup_insert_Some; [lia|eauto]. }
  assert (root_loaded root s2) as Hl by (exists (mk_dir e fe 0 1), es1; cbn; rewrite lookup_insert_eq; by split_and!).
  split; [done|]. split; [done|]. split; [done|]. split; [apply (x_cwd _ _ Hx)|]. intros [C1 C2]. split; [done|done|].
  unfold cwd_ok. cbn. rewrite (x_cwd _ _ Hx), Ef1. pose proof (x_next _ _ Hx). split; [lia|].
  destruct (fnodes s !! cwdnode s) as [[|q]|]; [done| |done]. destruct C2 as [x Hq]. apply (x_dirs _ _ Hx) in Hq.
  destruct (decide (q = d)) as [->|]; [by rewrite lookup_insert_eq|by rewrite lookup_insert_ne].
Qed.

(** C38. Mounting a FAT12, FAT16 or FAT32 volume loads its root directory, and
    leaves the nodes and the working directory as they were. If the latter is a
    directory, of whatever file system - there is none before the first mount,
    which makes it afterwards - the memory is as [fat_open_spec] needs it. *)
Theorem mount_root_ok fuel dev start b f s root es :
  1 <= max_sect_once lmb -> dev = -1 \/ dev = boot ->
  open_volume boot bdev lmb junk fuel dev start = Ok (Some (b, f)) -> root_on_disk fuel b f root ->
  parse_dir_entries root = Ok es -> below s ->
  exists s', fsfat_create boot bdev lmb junk fuel dev start s = Ok (Some f, s') /\ below s' /\ root_loaded root s' /\
    fnodes s' = fnodes s /\ cwdnode s' = cwdnode s /\ (cwd_ok s -> mem_ok root s').
Proof. apply mount_root_spec. Qed.
End mount.

(** ** A volume with the files /F and /D/G *)

Definition demo_dent (c attr clust size : Z) : list Z :=
  [c] ++ replicate 10 32 ++ [attr] ++ replicate 14 0 ++ [clust; 0; size; 0; 0; 0].
Definition demo_root : list Z := demo_dent 68 ATTR_DIR 2 0 ++ demo_dent 70 ATTR_ARCHIVE 3 5 ++ replicate 32 0.
Definition demo_sub : list Z := demo_dent 71 ATTR_ARCHIVE 3 7 ++ replicate 480 0.
Definition demo_sectors (s c : Z) : option (list Z) := Some (if s =? 10 then demo_sub else replicate 512 0).
Definition demo_fat : fatfs :=
  mk_fatfs FAT16 0x80 0 100 1 1 1 2 1 10 90 90 [] [0xf8; 0xff; 0xff; 0xff; 0xff; 0xff; 0xff; 0xff] 511 9.
Definition demo_list : list fsent := [mk_fsent [68] 0 FSNODE_DIR 0; mk_fsent [70] 1 FSNODE_FILE 5].
Definition demo_mem : fat_mem := mk_mem {[1 := mk_dir 2 3 0 1]} {[2 := demo_root]} {[3 := demo_list]} ∅ 1 5 10 0.

Lemma demo_mem_ok : mem_ok demo_root demo_mem.
Proof.
  split.
  - split; cbn; try done.
    + intros p d [<- _]%lookup_singleton_Some. lia.
    + intros p d [<- _]%lookup_singleton_Some. lia.
    + intros p d [<- _]%lookup_singleton_Some. lia.
  - exists (mk_dir 2 3 0 1), demo_list. by split_and!; vm_compute.
  - split; cbn; [lia|done].
Qed.

Notation demo_open := (open demo_fat 0x80 demo_sectors (fun _ => 0) 9).

Lemma fat_open_spec_witness :
  (exists p s', demo_open (SEP :: join_path [[68]]) demo_mem = Ok (p, s') /\ p <> 0 /\
    fnodes demo_mem !! p = None /\ grown demo_root demo_mem s' /\ opened_dir demo_mem s' p demo_sub) /\
  (exists s', demo_open (SEP :: join_path [[69]]) demo_mem = Ok (0, s') /\ grown demo_root demo_mem s' /\
    fnodes s' = fnodes demo_mem /\ errno s' = ENOENT) /\
  demo_open (SEP :: join_path [[68]; [71]]) demo_mem = Fault.
Proof.
  assert (forall c, c <> 47 -> component [c]) as Hc by (intros c H; split; [done|by repeat constructor]).
  split_and!.
  - apply (fat_open_spec demo_fat 0x80 demo_sectors (fun _ => 0) 3 demo_root demo_mem [[68]] (TDir demo_sub) 9);
      [exact demo_mem_ok|by repeat (constructor; [by apply Hc|])|by vm_compute|cbn; lia].
  - apply (fat_open_spec demo_fat 0x80 demo_sectors (fun _ => 0) 3 demo_root demo_mem [[69]] (TError ENOENT) 9);
      [exact demo_mem_ok|by repeat (constructor; [by apply Hc|])|by vm_compute|cbn; lia].
  - apply (fat_open_spec demo_fat 0x80 demo_sectors (fun _ => 0) 3 demo_root demo_mem [[68]; [71]] (TFile false demo_sub 0) 9);
      [exact demo_mem_ok|by repeat (constructor; [by apply Hc|])|by vm_compute|cbn; lia].
Defined.

(** A FAT32 volume of 70000 sectors, whose root directory is in the clusters 2
    and 3 and has the directory /D. *)
Definition demo_boot32 : list Z :=
  [0xeb; 0; 0x90] ++ replicate 8 32 ++ [0; 2; 1; 1; 0; 1; 0; 0; 0; 0; 0xf8; 0; 0] ++ replicate 8 0 ++
  [0x70; 0x11; 1; 0; 1; 0; 0; 0] ++ replicate 4 0 ++ [2; 0; 0; 0] ++ replicate 464 0.
Definition demo_disk32 (i : Z) : list Z :=
  if i =? 0 then demo_boot32
  else if i =? 1 then replicate 8 0xff ++ [3; 0; 0; 0; 0xff; 0xff; 0xff; 0x0f] ++ replicate 496 0
  else if i =? 2 then demo_dent 68 ATTR_DIR 9 0 ++ replicate 480 0
  else replicate 512 0.
Definition demo_read32 (s c : Z) : option (list Z) := Some (mjoin (demo_disk32 <$> zseq s (Z.to_nat c))).
Definition demo_root32 : list Z := demo_dent 68 ATTR_DIR 9 0 ++ replicate 992 0.

#[export] Instance demo_range32 : DiskRange demo_read32 demo_disk32 70000 255.
Proof. split; [|done|done|done]. intros i. unfold demo_disk32. by repeat case_match. Qed.

(** Without a working directory, and with one of another file system. *)
Definition fresh_mem (cwd : Z) : fat_mem := mk_mem ∅ ∅ ∅ ∅ 0 cwd 2 0.
Lemma fresh_below cwd : below (fresh_mem cwd).
Proof. by split. Qed.

Definition demo_opened (read : Z -> Z -> option (list Z)) : option (bparam * fatfs) :=
  match open_volume 0x80 read 0x10000 (fun _ => 0) 30 (-1) 0 with Ok v => v | _ => None end.

Lemma demo_root16_on_disk : exists b f, demo_opened demo_read = Some (b, f) /\ ftype f = FAT16 /\
  root_on_disk demo_disk 5000 255 30 b f (replicate 512 0).
Proof.
  destruct (demo_opened demo_read) as [[b f]|] eqn:E; [|by vm_compute in E]. exists b, f. split; [done|].
  assert (match demo_opened demo_read with
    | Some (_, f) => ftype f = FAT16 /\ start_sect f = 0 /\ root_sect f = 21 /\ root_size f = 1 | None => False end) as H by by vm_compute.
  rewrite E in H. destruct H as (Ht & Es & Er & Ez). split; [done|]. unfold root_on_disk. rewrite Ht, Es, Er, Ez.
  rewrite decide_False by done. split_and!; try lia. by vm_compute.
Qed.

Lemma demo_root32_on_disk : exists b f, demo_opened demo_read32 = Some (b, f) /\ ftype f = FAT32 /\
  root_on_disk demo_disk32 70000 255 30 b f demo_root32.
Proof.
  destruct (demo_opened demo_read32) as [[b f]|] eqn:E; [|by vm_compute in E]. exists b, f. split; [done|].
  assert (match demo_opened demo_read32 with
    | Some (b, f) => ftype f = FAT32 /\ start_sect f = 0 /\ first_data_sect f = 2 /\ cluster_size f = 1 /\
        s32 (root_clust b) = 2 /\ next_cluster f 2 = Ok 3 /\ next_cluster f 3 = Ok (-1)
    | None => False end) as H by by vm_compute.
  rewrite E in H. destruct H as (Ht & Es & Ed & Ec & Er & E2 & E3). split; [done|]. unfold root_on_disk.
  rewrite decide_True by done. rewrite Es, Ed, Ec, Er. split_and!; try lia. exists [2; 3]. split_and!.
  - by repeat split.
  - cbn. lia.
  - unfold cluster_sect. rewrite Es, Ed, Ec. repeat constructor; lia.
  - unfold cluster_data, cluster_sect. rewrite fmap_cons, fmap_cons, Es, Ed, Ec. by vm_compute.
Qed.

Lemma demo_opened_volume read b f : demo_opened read = Some (b, f) ->
  open_volume 0x80 read 0x10000 (fun _ => 0) 30 (-1) 0 = Ok (Some (b, f)).
Proof. unfold demo_opened. by destruct (open_volume _ _ _ _ _ _ _) as [[v|]| | |]; intros [= ->]. Qed.

Lemma mount_root_ok_witness :
  (exists f s', fsfat_create 0x80 demo_read 0x10000 (fun _ => 0) 30 (-1) 0 (fresh_mem 1) = Ok (Some f, s') /\
    ftype f = FAT16 /\ mem_ok (replicate 512 0) s') /\
  (exists f s', fsfat_create 0x80 demo_read32 0x10000 (fun _ => 0) 30 (-1) 0 (fresh_mem 0) = Ok (Some f, s') /\
    ftype f = FAT32 /\ root_loaded demo_root32 s').
Proof.
  split.
  - destruct demo_root16_on_disk as (b & f & E & Ht & Hr).
    destruct (mount_root_ok 0x80 demo_read 0x10000 (fun _ => 0) demo_disk 5000 255 30 (-1) 0 b f (fresh_mem 1) (replicate 512 0) [])
      as (s' & H1 & _ & _ & _ & _ & H2);
      [by vm_compute|by left|by apply demo_opened_volume|exact Hr|by vm_compute|apply fresh_below|].
    exists f, s'. split; [exact H1|]. split; [exact Ht|]. apply H2. split; cbn; [lia|done].
  - destruct demo_root32_on_disk as (b & f & E & Ht & Hr).
    destruct (mount_root_ok 0x80 demo_read32 0x10000 (fun _ => 0) demo_disk32 70000 255 30 (-1) 0 b f (fresh_mem 0) demo_root32
      [mk_fsent [68] 0 FSNODE_DIR 0]) as (s' & H1 & _ & H2 & _);
      [by vm_compute|by left|by apply demo_opened_volume|exact Hr|by vm_compute|apply fresh_below|].
    exists f, s'. split; [exact H1|]. split; [exact Ht|exact H2].
Defined.
