(* ===== verification/BootFat.v ===== *)
(** * A FAT volume on the boot drive (src/fsfat.c on src/bootdev.c)

    The file system of Fat.v, FatFile.v and FatDir.v reads sectors through a
    function that depends on the sectors alone. Here that function is
    [bdev_read_range] of Bootdev.v on a drive behind a BIOS with the extended
    functions: successive reads give what the function says, it satisfies
    [DiskRange], and the files of a mounted volume are the drive's sectors. *)
From S2P Require Import Prelude Memory Io Int86 Timer Bootdev FsPath FsMem Fat FatFile FatName FatDir.

(** ** A file of an opened volume *)

Section volume.
Context (boot : Z) (bdev : Z -> Z -> option (list Z)) (lmb : Z) (junk : Z -> Z) (disk : Z -> list Z) (nsect cmax : Z).
Context `{!DiskRange bdev disk nsect cmax}.
Hypothesis Hlow : 1 <= max_sect_once lmb.

(** Cluster [c] of the volume with the boot sector [b] that starts at [start]. *)
Definition cluster_sectors (b : bparam) (start c : Z) : list Z :=
  sectors disk (start + bp_meta b + (c - 2) * bp_cluster_size b) (bp_cluster_size b).

(** The clusters [l] are of the volume. *)
Definition in_volume (b : bparam) (l : list Z) : Prop :=
  Forall (fun c => 2 <= c < 2 + (bp_size b - bp_meta b) / bp_cluster_size b) l.

(** The bytes of a file of [size] bytes in the clusters [l]. *)
Definition file_body (b : bparam) (start size : Z) (l : list Z) : list Z :=
  take (Z.to_nat size) (mjoin (cluster_sectors b start <$> l)).

(** The volume as [open_volume] leaves it. *)
Record opened (b : bparam) (start : Z) (f : fatfs) : Prop := {
  o_start : start_sect f = start;
  o_size : cluster_size f = bp_cluster_size b;
  o_pos : 1 <= bp_cluster_size b;
  o_shift : 0 <= clust_shift f /\ 2 ^ clust_shift f = bp_cluster_size b * 512 /\ clust_mask f = 2 ^ clust_shift f - 1;
  o_count : 2 + (bp_size b - bp_meta b) / bp_cluster_size b <= 4294967296;
  o_table : fat f = sectors disk (start + reserved_sect b) (bp_fsize b);
  o_type : ftype f = fat_type_of ((bp_size b - bp_meta b) / bp_cluster_size b);
  o_root : ftype f = FAT16 -> root_sect f = reserved_sect b + num_fats b * bp_fsize b /\
    root_size f = (num_dirent b * 32 + 511) / 512;
  o_read c : 2 <= c < 2 + (bp_size b - bp_meta b) / bp_cluster_size b ->
    read_cluster boot bdev f c = Some (cluster_sectors b start c) }.

Lemma volume_opened dev start k fuel :
  let b := parse_bparam (disk start) in
  dev = -1 \/ dev = boot -> 0 <= boot -> 0 <= start -> start + bp_size b <= nsect -> boot_ok b k ->
  bp_cluster_size b <= cmax -> bp_fsize b < Z.of_nat fuel ->
  exists f, open_volume boot bdev lmb junk fuel dev start = Ok (Some (b, f)) /\ opened b start f.
Proof.
  intros b Hdev Hboot Hstart Hn Hok Hc Hf.
  destruct (open_volume_ok boot bdev lmb junk disk nsect cmax Hlow dev start k fuel Hdev Hboot Hstart Hn Hok Hc Hf)
    as (f & E & E1 & E2 & E3 & E4 & E5 & E6 & E7 & E8 & E9 & E10 & E11 & E12). fold b in E, E3, E4, E6, E7, E8, E12.
  exists f. split; [done|]. destruct Hok as [_ _ [Hk Hcs] Hnf Hfs Hsz].
  destruct (parse_range (disk start)) as (Hr & _ & Hnd & Hbs). fold b in Hr, Hnd, Hbs.
  assert (1 <= bp_cluster_size b) as Hpos by (pose proof (Z.pow_pos_nonneg 2 k); lia).
  assert (1 <= bp_meta b) as Hm.
  { unfold bp_meta. assert (0 <= (num_dirent b * 32 + 511) / 512) by (apply Z.div_pos; lia). nia. }
  assert ((bp_size b - bp_meta b) / bp_cluster_size b <= bp_size b - bp_meta b) by (apply Z.div_le_upper_bound; nia).
  split; try done; try lia.
  - by rewrite E9, E8.
  - intros c Hcl. unfold cluster_sectors. rewrite <- E8 in Hcl. rewrite <- E3. by apply E12.
Qed.

Lemma length_clusters b start l :
  0 <= bp_cluster_size b -> Z.of_nat (length (mjoin (cluster_sectors b start <$> l))) = Z.of_nat (length l) * (bp_cluster_size b * 512).
Proof.
  intros Hb. induction l as [|c l IH]; [done|].
  change (mjoin (cluster_sectors b start <$> c :: l)) with (cluster_sectors b start c ++ mjoin (cluster_sectors b start <$> l)).
  rewrite length_app. unfold cluster_sectors at 1. rewrite Nat2Z.inj_add, (length_sectors bdev disk nsect cmax) by done.
  rewrite IH. cbn [length]. lia.
Qed.

(** Its files are as FatFile.v needs them, and an entry of a directory opens
    one at its start. *)
Lemma volume_file b start f c l size low high :
  opened b start f -> chain f c l -> in_volume b l -> 0 <= size < 2147483648 ->
  size <= Z.of_nat (length l) * (bp_cluster_size b * 512) -> s32 (Z.lor low (Z.shiftl high 16)) = c ->
  file_ok f boot bdev (bp_cluster_size b * 512) c l (cluster_sectors b start) (file_body b start size l) /\
  file_rel (bp_cluster_size b * 512) c l (cluster_sectors b start) (file_body b start size l)
    (init_file f junk size low high) (mk_spec (file_body b start size l) 0 false).
Proof.
  intros Ho Hch Hl Hs Hsz Hc. pose proof (o_pos _ _ _ Ho) as Hpos. unfold in_volume in Hl. rewrite Forall_forall in Hl.
  assert (Z.of_nat (length (file_body b start size l)) = size) as El.
  { unfold file_body. rewrite length_take. pose proof (length_clusters b start l ltac:(lia)). lia. }
  split; split; rewrite ?El; try done; cbn.
  - rewrite (o_size _ _ _ Ho). lia.
  - destruct (o_shift _ _ _ Ho) as (? & <- & ->). done.
  - intros x Hx. apply Hl in Hx. pose proof (o_count _ _ _ Ho). lia.
  - intros x Hx. split; [apply (o_read _ _ _ Ho); auto|]. unfold cluster_sectors.
    rewrite (length_sectors bdev disk nsect cmax) by lia. lia.
  - lia.
  - unfold file_body at 1. f_equal. lia.
  - rewrite Z.div_0_l by lia. rewrite Hc. split; [|done]. destruct l; [done|]. by destruct Hch as [-> _].
Qed.
End volume.

(** ** The boot drive *)

Section drive.
Context {B F : Type} `{EqDecision F}.
Context {int86 : Z -> int86regs -> gmap Z Z -> B -> int86regs * gmap Z Z * B} {boot : Z}.
Context `{BIOS : !BiosDrive int86 boot}.
Context (L : Z) (motors_off : F) (d : bootdev).
Implicit Types s : sys B F.

(** [bdev_read_range] into [buf] as its client sees it: the bytes it leaves
    there, [None] when it returns -1; with the state and world after it. *)
Definition boot_read (buf lba n : Z) s (w : Io.world) : option (list Z * sys B F * Io.world) :=
  match read_range (int86 := int86) (dev := boot) L motors_off d lba n buf s w with
  | Ok ((r, s), w) => if r =? -1 then None else Some (bytes_at (smem s) buf (Z.to_nat (n * 512)), s, w)
  | _ => None
  end.

(** Reads one after the other, each with its first sector, number of sectors
    and buffer. *)
Fixpoint boot_reads (rs : list (Z * Z * Z)) s (w : Io.world) : option (list (list Z)) :=
  match rs with
  | [] => Some []
  | (lba, n, buf) :: rs =>
      '(data, s, w) ← boot_read buf lba n s w; rest ← boot_reads rs s w; Some (data :: rest)
  end.

(** The file system's view: what a read gives in the state [s]. *)
Definition sector_reader (buf : Z) s (w : Io.world) (lba n : Z) : option (list Z) :=
  '(data, _, _) ← boot_read buf lba n s w; Some data.

Hypothesis boot_byte : 0 <= boot < 256.
(** What one read can be asked for: sectors within reach, and a buffer apart from
    the transfer buffer. *)
Definition read_ok (lba n buf : Z) : Prop := buffers_ok L buf n /\ reachable d lba n.
(** The attempts that fail, if any, are fewer than a read makes. *)
Definition works s : Prop := (pending (sbios s) < attempts d)%nat.

Section reads.
Hypothesis Hdev : dev_ok d.

Lemma works_at_once s : pending (sbios s) = O -> works s.
Proof. unfold works, attempts, NRETRIES. intros ->. destruct (have_bios_ext d); lia. Qed.

Lemma boot_read_ok lba n buf s w :
  read_ok lba n buf -> works s ->
  exists s' w', boot_read buf lba n s w = Some (Bootdev.sect_bytes (Bootdev.sectors (sbios s)) lba n, s', w') /\
    Bootdev.sectors (sbios s') = Bootdev.sectors (sbios s) /\ works s'.
Proof.
  intros (Hb & Hr) Hp. pose proof Hb as (_ & _ & Hn & _).
  destruct (read_range_ok L boot_byte motors_off d lba n buf s w Hdev Hb Hr) as (r & s' & w' & E & Ho).
  exists s', w'. unfold boot_read. rewrite E. unfold read_outcome, success in Ho. rewrite decide_True in Ho by done.
  destruct Ho as (-> & E1 & _ & E2 & _ & E3). rewrite E1. split; [|split; [done|by apply works_at_once]].
  destruct (Z.eqb_spec (if have_bios_ext d then n else 0) (-1)); [|done]. destruct (have_bios_ext d); lia.
Qed.

Lemma sector_reader_ok lba n buf s w :
  read_ok lba n buf -> works s ->
  sector_reader buf s w lba n = Some (Bootdev.sect_bytes (Bootdev.sectors (sbios s)) lba n).
Proof. intros Hr Hp. unfold sector_reader. by destruct (boot_read_ok lba n buf s w Hr Hp) as (s' & w' & -> & _). Qed.

(** C30. Reads of the boot drive do not disturb each other: whatever was read
    before and into which buffers, a read gives what it would have given at
    first, so that the file system may take it as a function of the sectors. This
    is of reads as [bdev_read_range_correct] has them: at most 127 sectors into a
    buffer apart from the transfer buffer, below 2^64 with the extended functions
    and without them within a track below cylinder 256; and of a drive on which no
    more attempts in a row fail than [bdev_read_range] repeats. *)
Theorem boot_reads_pure rs s w buf :
  works s -> (forall lba n b, (lba, n, b) ∈ rs -> read_ok lba n b /\ read_ok lba n buf) ->
  boot_reads rs s w = mapM (fun '(lba, n, _) => sector_reader buf s w lba n) rs.
Proof.
  revert s w. assert (forall s w s0 w0, works s -> works s0 ->
    Bootdev.sectors (sbios s) = Bootdev.sectors (sbios s0) ->
    (forall lba n b, (lba, n, b) ∈ rs -> read_ok lba n b /\ read_ok lba n buf) ->
    boot_reads rs s w = mapM (fun '(lba, n, _) => sector_reader buf s0 w0 lba n) rs) as H; [|eauto].
  induction rs as [|[[lba n] b] rs IH]; intros s w s0 w0 Hp Hp0 Es Hr; [done|].
  destruct (Hr lba n b) as [H1 H2]; [left|]. destruct (boot_read_ok lba n b s w H1 Hp) as (s' & w' & E & Es' & Hp').
  cbn [boot_reads mapM]. rewrite E, (sector_reader_ok lba n buf s0 w0 H2 Hp0). cbn [mbind option_bind].
  rewrite (IH s' w' s0 w0), Es; [done|done|done|congruence|]. intros l' n' b' Hin. apply Hr. by right.
Qed.
End reads.

Lemma concat_mjoin (l : list (list Z)) : concat l = mjoin l.
Proof. induction l as [|x l IH]; [done|]. change (mjoin (x :: l)) with (x ++ mjoin l). cbn [concat]. by rewrite IH. Qed.

(** The drive's contents, and how many of its sectors have 64-bit numbers. *)
Definition drive_data s : Z -> list Z := Bootdev.sectors (sbios s).
Definition drive_sectors : Z := Z.min drive_size 18446744073709551616.

Hypothesis Hext : have_bios_ext d = true.

(** The transfer buffer takes the 127 sectors a transfer has at most. *)
Lemma boot_disk buf s w : buffers_ok L buf 127 -> pending (sbios s) = O ->
  DiskRange (sector_reader buf s w) (drive_data s) drive_sectors 127.
Proof.
  intros (H1 & H2 & _ & H3 & H4) Hp. split; [|unfold drive_sectors; lia|done|].
  - intros i. apply sector_ok.
  - intros lba n Hl Hn Hsz. unfold drive_sectors in Hsz.
    rewrite sector_reader_ok; [by rewrite <- concat_mjoin|by intros ?; congruence| |by apply works_at_once].
    unfold read_ok, buffers_ok, reachable. rewrite Hext. lia.
Qed.

Section mounted.
Context (buf : Z) (junk : Z -> Z) (s : sys B F) (w : Io.world) (start k : Z).
Hypothesis Hbuf : buffers_ok L buf 127.
Hypothesis Hpending : pending (sbios s) = O.
Hypothesis Hlow : 1 <= max_sect_once L.
Notation b := (parse_bparam (drive_data s start)).
Notation bdev := (sector_reader buf s w).

(** A FAT16 volume of the drive, its root directory and the first cluster of an
    entry of it. *)
Definition root_start : Z := start + reserved_sect b + num_fats b * bp_fsize b.
Definition root_dir : list Z := Fat.sectors (drive_data s) root_start ((num_dirent b * 32 + 511) / 512).

Record fat16_volume : Prop := {
  v_start : 0 <= start /\ start + bp_size b <= drive_sectors;
  v_boot : boot_ok b k /\ k <= 6;
  v_type : fat_type_of ((bp_size b - bp_meta b) / bp_cluster_size b) = FAT16 }.

Lemma boot_mount fuel (m : fat_mem) es :
  fat16_volume -> bp_fsize b + 4096 < Z.of_nat fuel -> parse_dir_entries root_dir = Ok es ->
  below m -> 0 < cwdnode m < nexta m -> fnodes m !! cwdnode m = None ->
  exists f m', fsfat_create boot bdev L junk fuel (-1) start m = Ok (Some f, m') /\
    opened boot bdev (drive_data s) b start f /\ mem_ok root_dir m' /\ ftype f = FAT16.
Proof.
  intros [[Hs Hsz] [Hok Hk] Ht] Hf Hp Hb Hc Hn. pose proof (boot_disk buf s w Hbuf Hpending) as Hd.
  destruct (volume_opened boot bdev L junk (drive_data s) drive_sectors 127 Hlow (-1) start k fuel) as (f & E & Ho);
    [by left|lia|done|done|done| |lia|].
  { destruct Hok as [_ _ [Hk0 ->] _ _ _]. pose proof (Z.pow_le_mono_r 2 k 6). lia. }
  pose proof (o_type _ _ _ _ _ _ Ho) as Hty. rewrite Ht in Hty. destruct (o_root _ _ _ _ _ _ Ho Hty) as [Er Ez].
  destruct (parse_range (drive_data s start)) as (Hr & Hnf & Hnd & Hbs). destruct Hok as [_ _ _ H1 Hfs Hm].
  assert (start_sect f + root_sect f = root_start) as Ers by (rewrite (o_start _ _ _ _ _ _ Ho), Er; unfold root_start; lia).
  assert (0 <= (num_dirent b * 32 + 511) / 512 <= 4096) as Hrz by mlia.
  assert (root_start + (num_dirent b * 32 + 511) / 512 = start + bp_meta b) as Hend by (unfold root_start, bp_meta; lia).
  assert (0 <= num_fats b * bp_fsize b) by nia.
  destruct (mount_root_spec boot bdev L junk (drive_data s) drive_sectors 127 fuel (-1) start b f m root_dir es)
    as (m' & Em & _ & _ & _ & _ & Hm'); try done; try lia.
  - unfold root_on_disk. rewrite Hty, Ers, Ez, decide_False by done. split_and!; try lia; [unfold root_start; lia|done].
  - exists f, m'. split; [done|]. split; [done|]. split; [|done]. apply Hm'. unfold cwd_ok. by rewrite Hn.
Qed.

(** C16. From the drive to the file: on a drive behind a BIOS with the extended
    functions, mounting a FAT16 volume and opening a file of its root directory
    gives a file whose reads and seeks see the bytes of the drive's sectors its
    clusters are, up to its size, as a sequence with a position. *)
Theorem boot_file_reads fuel (m : fat_mem) es name e l :
  let i := e_index e in
  let size := dent_size root_dir i in
  let csz := bp_cluster_size b * 512 in
  let body := file_body (drive_data s) b start size l in
  fat16_volume -> bp_fsize b + 4096 < Z.of_nat fuel -> parse_dir_entries root_dir = Ok es ->
  below m -> 0 < cwdnode m < nexta m -> fnodes m !! cwdnode m = None ->
  component name -> take (Z.to_nat (MAX_NAME - 1)) name <> [46] ->
  find_entry es (take (Z.to_nat (MAX_NAME - 1)) name) = Some e -> is_dir root_dir i = false ->
  first_cluster_low root_dir i <> 0 -> first_cluster_high root_dir i = 0 ->
  size < 2147483648 -> size <= Z.of_nat (length l) * csz -> in_volume b l ->
  exists f m1, fsfat_create boot bdev L junk fuel (-1) start m = Ok (Some f, m1) /\
    (chain f (first_cluster_low root_dir i) l ->
     exists p m2 file, open f boot bdev junk fuel (SEP :: name) m1 = Ok (p, m2) /\
       fnodes m2 !! p = Some (NFile file) /\
       forall ops outs a, (forall sz, RRead sz ∈ ops -> sz < Z.of_nat fuel) ->
         spec_run csz (Z.of_nat (length l)) ops (mk_spec body 0 false) = Some (outs, a) ->
         exists file', run f boot bdev fuel ops file = Ok (outs, file')).
Proof.
  intros i size csz body Hv Hf Hp Hb Hc Hn Hname Hdot He Hdir Hlo Hhi Hsz' Hlen Hl.
  pose proof (sw_range root_dir (32 * i + 26)) as Hlr. fold (first_cluster_low root_dir i) in Hlr.
  assert (0 <= size < 2147483648) as Hsz by (split; [apply sl_range|done]).
  destruct (boot_mount fuel m es Hv Hf Hp Hb Hc Hn) as (f & m1 & E & Ho & Hm & Ht). exists f, m1. split; [done|].
  intros Hch. pose proof (boot_disk buf s w Hbuf Hpending) as Hd.
  destruct (volume_file boot bdev junk (drive_data s) drive_sectors 127 b start f (first_cluster_low root_dir i) l size
    (first_cluster_low root_dir i) (first_cluster_high root_dir i) Ho Hch Hl Hsz Hlen) as [Hok Hrel].
  { rewrite Hhi. change (Z.shiftl 0 16) with 0. rewrite Z.lor_0_r. apply s32_small. lia. }
  assert (disk_walk f boot bdev O root_dir [name] true root_dir = Some (TFile true root_dir i)) as Hw.
  { cbn [disk_walk]. rewrite Hp. rewrite decide_False by done. rewrite He. fold i. rewrite Hhi, Z.lor_0_r, Hdir.
    by destruct (Z.eqb_spec (first_cluster_low root_dir i) 0). }
  pose proof (open_absolute f boot bdev junk O root_dir m1 [name] _ fuel Hm (proj2 (Forall_singleton _ _) Hname) Hw) as Hopen.
  cbn [open_result] in Hopen. destruct Hopen as (p & m2 & Eo & _ & _ & _ & Hnode);
    [pose proof (bo_fsize _ _ (proj1 (v_boot Hv))); cbn [length]; lia|].
  exists p, m2. eexists. split; [exact Eo|]. split; [exact Hnode|]. intros ops outs a Hops Hrun.
  destruct (run_spec f boot bdev csz _ l _ body Hok fuel ops _ _ _ _ Hrel Hops Hrun) as (file' & Er & _). by exists file'.
Qed.
End mounted.
End drive.

(** ** A FAT16 volume with the file /F on the drive of Bootdev.v *)
(** A file of 516 bytes in the clusters 2 and 3. *)
Definition image_dent : list Z := [70] ++ replicate 10 32 ++ [ATTR_ARCHIVE] ++ replicate 14 0 ++ [2; 0; 4; 2; 0; 0].
Definition demo_image (k : Z) : list Z :=
  if k =? 0 then demo_boot
  else if k =? 1 then [0xf8; 0xff; 0xff; 0xff; 3; 0; 0xff; 0xff]
  else if k =? 21 then image_dent
  else if k =? 22 then [104; 101; 108; 108; 111]
  else if k =? 23 then [119; 111; 114; 108; 100]
  else [].
Definition image_bios : demo_bios := mk_demo (fun k i => default 0 (demo_image k !! Z.to_nat i)) O.
Definition image_sys : sys demo_bios Z := mk_sys ∅ image_bios (mk_timer 0 []).
Definition empty_mem : fat_mem := mk_mem ∅ ∅ ∅ ∅ 0 1 2 0.

Lemma image_name : component [70].
Proof. split; [discriminate|]. apply Forall_singleton. discriminate. Qed.
Lemma empty_below : below empty_mem.
Proof. split; [done|..]; intros p x Hx; unfold empty_mem in Hx; cbn in Hx; by apply lookup_empty_Some in Hx. Qed.

Notation image_reader :=
  (sector_reader (int86 := demo_int86) (boot := 0x80) 0x8000 7 (demo_dev true) 0x100000 image_sys demo_world).

(** Without the extended functions and with two failing attempts, it is the same. *)
Definition shaky_sys : sys demo_bios Z :=
  mk_sys ∅ (mk_demo (fun k i => default 0 (demo_image k !! Z.to_nat i)) 2%nat) (mk_timer 0 []).
Notation shaky_reader :=
  (sector_reader (int86 := demo_int86) (boot := 0x80) 0x8000 7 (demo_dev false) 0x100000 shaky_sys demo_world).

Lemma demo_reads ext lba n b :
  (lba, n, b) ∈ [(22, 1, 0x200000); (0, 2, 0x200100)] ->
  read_ok (int86 := demo_int86) (boot := 0x80) 0x8000 (demo_dev ext) lba n b /\
  read_ok (int86 := demo_int86) (boot := 0x80) 0x8000 (demo_dev ext) lba n 0x100000.
Proof.
  unfold read_ok, buffers_ok, reachable. change (have_bios_ext (demo_dev ext)) with ext.
  change drive_size with 1000000. change drive_spt with 63. change drive_heads with 16.
  intros [[= -> -> ->]|[[= -> -> ->]|[]%not_elem_of_nil]%elem_of_cons]%elem_of_cons; destruct ext;
    change (0x8000 mod 16) with 0; repeat split; done || lia.
Qed.

Lemma boot_reads_pure_witness :
  boot_reads (int86 := demo_int86) (boot := 0x80) 0x8000 7 (demo_dev true) [(22, 1, 0x200000); (0, 2, 0x200100)] image_sys demo_world =
    mapM (fun '(lba, n, _) => image_reader lba n) [(22, 1, 0x200000); (0, 2, 0x200100)] /\
  boot_reads (int86 := demo_int86) (boot := 0x80) 0x8000 7 (demo_dev false) [(22, 1, 0x200000); (0, 2, 0x200100)] shaky_sys demo_world =
    mapM (fun '(lba, n, _) => shaky_reader lba n) [(22, 1, 0x200000); (0, 2, 0x200100)].
Proof.
  split.
  - apply (boot_reads_pure (int86 := demo_int86) (boot := 0x80) 0x8000 7 (demo_dev true) demo_byte).
    + apply demo_dev_ok.
    + change (0 < 1)%nat. lia.
    + apply (demo_reads true).
  - apply (boot_reads_pure (int86 := demo_int86) (boot := 0x80) 0x8000 7 (demo_dev false) demo_byte).
    + apply demo_dev_ok.
    + change (2 < 3)%nat. lia.
    + apply (demo_reads false).
Defined.

Lemma image_root : root_dir (int86 := demo_int86) (boot := 0x80) image_sys 0 = image_dent ++ replicate 480 0.
Proof. by vm_compute. Qed.
Lemma image_ready : pending (int86 := demo_int86) (dev := 0x80) (sbios image_sys) = O.
Proof. done. Qed.
Lemma image_low : 1 <= max_sect_once 0x8000.
Proof. by vm_compute. Qed.
Lemma image_volume : fat16_volume (int86 := demo_int86) (boot := 0x80) image_sys 0 0.
Proof. split; [split; by vm_compute|split; [|done]; split; by vm_compute|by vm_compute]. Qed.

(** Its table, as mounting leaves it. *)
Lemma image_chain :
  match fsfat_create 0x80 image_reader 0x8000 (fun _ => 0) 4200 (-1) 0 empty_mem with
  | Ok (Some f, _) => chain f 2 [2; 3]
  | _ => False
  end.
Proof. vm_compute. split_and!; done. Qed.

Lemma boot_file_reads_witness :
  exists f m1 p m2 file file',
    fsfat_create 0x80 image_reader 0x8000 (fun _ => 0) 4200 (-1) 0 empty_mem = Ok (Some f, m1) /\
    open f 0x80 image_reader (fun _ => 0) 4200 [47; 70] m1 = Ok (p, m2) /\ fnodes m2 !! p = Some (NFile file) /\
    run f 0x80 image_reader 4200 [RRead 3; RSeek 510 FSSEEK_SET; RRead 100; RTell; RRead 1] file =
      Ok ([RData 3 [104; 101; 108]; RInt 0; RData 6 [0; 0; 119; 111; 114; 108]; RInt 516; RData 0 []], file').
Proof.
  pose proof (boot_file_reads (int86 := demo_int86) (boot := 0x80) 0x8000 7 (demo_dev true) demo_byte eq_refl 0x100000
    (fun _ => 0) image_sys demo_world 0 0 (demo_buffers 0x100000 127 ltac:(lia) ltac:(lia))) as H.
  specialize (H image_ready image_low 4200%nat empty_mem [mk_fsent [70] 0 FSNODE_FILE 516] [70]
    (mk_fsent [70] 0 FSNODE_FILE 516) [2; 3]).
  destruct H as (f & m1 & E & H).
  - exact image_volume.
  - by vm_compute.
  - rewrite image_root. by vm_compute.
  - exact empty_below.
  - cbn. lia.
  - done.
  - exact image_name.
  - by vm_compute.
  - by vm_compute.
  - rewrite image_root. by vm_compute.
  - rewrite image_root. by vm_compute.
  - rewrite image_root. by vm_compute.
  - rewrite image_root. by vm_compute.
  - rewrite image_root. by vm_compute.
  - repeat constructor; by vm_compute.
  - pose proof image_chain as Hch. rewrite E in Hch. rewrite image_root in H. destruct (H Hch) as (p & m2 & file & Eo & Hn & Hr).
    destruct (Hr [RRead 3; RSeek 510 FSSEEK_SET; RRead 100; RTell; RRead 1]
      [RData 3 [104; 101; 108]; RInt 0; RData 6 [0; 0; 119; 111; 114; 108]; RInt 516; RData 0 []]
      (mk_spec (file_body (drive_data image_sys) (parse_bparam (drive_data image_sys 0)) 0 516 [2; 3]) 516 true))
      as [file' Er].
    + clear. intros sz Hsz. apply list_elem_of_In in Hsz. cbn in Hsz. naive_solver lia.
    + clear. by vm_compute.
    + exists f, m1, p, m2, file, file'. exact (conj E (conj Eo (conj Hn Er))).
Defined.
