(* ===== verification/Kernel.v ===== *)
(** * The running kernel (src/kmain.c with the interrupts of all drivers)

    After [pcboot_main] has set the drivers up (Init.v) interrupts arrive while
    its loop runs. An interrupt goes through the gate of its number to
    [dispatch_intr] and from there to the driver; here it may come while the
    processor sleeps, between two keys the loop shows and before it draws the
    clock. The drivers' variables are those of Init.v's [kernel].

    The theorems hold for every schedule of interrupts: the drivers stay well
    formed and nothing gets stuck, each IRQ is acknowledged once, and the keys
    shown are the keys pressed, in their order. The demonstrations behind F1 and
    F2 (src/test) end the part of a run they speak about. *)
From S2P Require Import Prelude Ctype Convert Mem Int86 AuSb Pci Bootdev Io Ring Intr Timer Serial Keyb Psaux Contty Stdio Kmain Init.

Definition with_intr (K : kernel) (st : intr handler) : kernel :=
  mk_kernel (k_gdt K) st (k_con K) (k_serial K) (k_keyb K) (k_mouse K) (k_timer K) (k_mem K) (k_pci K) (k_audio K) (k_sb K).
Definition with_con (K : kernel) (t : contty) : kernel :=
  mk_kernel (k_gdt K) (k_intr K) t (k_serial K) (k_keyb K) (k_mouse K) (k_timer K) (k_mem K) (k_pci K) (k_audio K) (k_sb K).
Definition with_serial (K : kernel) (s : serial) : kernel :=
  mk_kernel (k_gdt K) (k_intr K) (k_con K) s (k_keyb K) (k_mouse K) (k_timer K) (k_mem K) (k_pci K) (k_audio K) (k_sb K).
Definition with_keyb (K : kernel) (k : keyb) : kernel :=
  mk_kernel (k_gdt K) (k_intr K) (k_con K) (k_serial K) k (k_mouse K) (k_timer K) (k_mem K) (k_pci K) (k_audio K) (k_sb K).
Definition with_mouse (K : kernel) (m : mouse) : kernel :=
  mk_kernel (k_gdt K) (k_intr K) (k_con K) (k_serial K) (k_keyb K) m (k_timer K) (k_mem K) (k_pci K) (k_audio K) (k_sb K).
Definition with_timer (K : kernel) (t : timer alarm) : kernel :=
  mk_kernel (k_gdt K) (k_intr K) (k_con K) (k_serial K) (k_keyb K) (k_mouse K) t (k_mem K) (k_pci K) (k_audio K) (k_sb K).

(** Where [pcboot_main] is once interrupts are enabled: before its message,
    asleep, at the test of [while((c = kb_getkey()) >= 0)], at the clock. *)
Inductive pos := AtStart | AtHalt | AtKeys | AtClock.
#[export] Instance pos_eq_dec : EqDecision pos.
Proof. solve_decision. Defined.

(** An interrupt ends the sleep. *)
Definition woken (p : pos) : pos := match p with AtHalt => AtKeys | _ => p end.

Section kernel.
Context `{Device} (ser_putchar : Z -> IO unit) (demo : Z -> contty -> IO contty) (fuel : nat).

(** What an alarm does. *)
Definition alarm_call (f : alarm) (t : timer alarm) : IO (timer alarm) :=
  match f with AMotors => _ ← floppy_motors_off; mret t end.

(** [intr_func[inum](inum)] *)
Definition kernel_call (h : handler) (inum : Z) (st : intr handler) (K : kernel) : IO (intr handler * kernel) :=
  match h with
  | HKeyb => k ← kbintr (k_keyb K); mret (st, with_keyb K k)
  | HMouse => m ← psaux_intr (k_mouse K); mret (st, with_mouse K m)
  | HTimer => t ← timer_handler (length (evlist (k_timer K))) alarm_call (k_timer K); mret (st, with_timer K t)
  | HSerial => s ← recv_intr 1 fuel (k_serial K); mret (st, with_serial K s)
  end.

Definition unhandled (inum : Z) (K : kernel) : IO kernel :=
  t ← print ser_putchar "unhandled interrupt %d
" [inum] (k_con K); mret (with_con K t).

(** The entry points of intr_asm.S call [dispatch_intr]; those of IRQ 7 and
    IRQ 15 first ask the PIC whether it is in service. *)
Definition intr_entry_common (inum : Z) (K : kernel) : IO kernel :=
  '(st, K) ← dispatch_intr kernel_call unhandled (k_intr K) K inum; mret (with_intr K st).

Definition OCW3_ISR : Z := 0x0b.

Definition irq7_entry_check_spurious (K : kernel) : IO kernel :=
  _ ← outb OCW3_ISR PIC1_CMD;
  v ← inb PIC1_CMD;
  if negb (Z.land v 0x80 =? 0) then intr_entry_common (IRQ_TO_INTR 7) K else mret K.

Definition irq15_entry_check_spurious (K : kernel) : IO kernel :=
  _ ← outb OCW3_ISR PIC2_CMD;
  v ← inb PIC2_CMD;
  if negb (Z.land v 0x80 =? 0) then intr_entry_common (IRQ_TO_INTR 15) K else _ ← outb OCW2_EOI PIC1_CMD; mret K.

(** The gate disables interrupts, [iret] restores the flag. *)
Definition irq_arrives (irq : Z) (K : kernel) : IO kernel :=
  iflag ← get_intr_flag;
  _ ← disable_intr;
  K ← (if irq =? 7 then irq7_entry_check_spurious K
       else if irq =? 15 then irq15_entry_check_spurious K
       else intr_entry_common (IRQ_TO_INTR irq) K);
  _ ← set_intr_flag iflag;
  mret K.

(** The next piece of [pcboot_main], with the key it shows. *)
Definition main_step (p : pos) (K : kernel) : IO (pos * list Z * kernel) :=
  match p with
  | AtStart =>
      t ← print ser_putchar "PCBoot kernel initialized
" [] (k_con K);
      mret (AtHalt, [], with_con K t)
  | AtHalt => mret (AtHalt, [], K)
  | AtKeys =>
      '(c, k) ← lift (kb_getkey (k_keyb K));
      if c <? 0 then mret (AtClock, [], with_keyb K k) else
      t ← show_key ser_putchar demo c (k_con K);
      mret (AtKeys, [c], with_con (with_keyb K k) t)
  | AtClock =>
      t ← lift (show_ticks (nticks (k_timer K)) (k_con K));
      mret (AtHalt, [], with_con K t)
  end.

(** The next key starts a demonstration. *)
Definition demo_next (p : pos) (K : kernel) : bool :=
  match p, queue (k_keyb K) with AtKeys, c :: _ => (c =? KB_F1) || (c =? KB_F2) | _, _ => false end.

(** The key an interrupt delivers. *)
Definition irq_keys (irq : Z) (K : kernel) (w : world) : list Z :=
  if (irq =? 1) && (port_code w <? 128) then [key_of (ext (k_keyb K)) (port_code w)] else [].

(** A step: an interrupt, if they are enabled, or a piece of [pcboot_main];
    with the keys that come in and those that are shown. *)
Record machine := mk_machine { at_pos : pos; krn : kernel; wld : world }.

Inductive kstep : machine -> list Z -> list Z -> machine -> Prop :=
| kstep_irq irq p K w K' w' :
    0 <= irq < 16 -> intr_on w = true -> irq_arrives irq K w = Ok (K', w') ->
    kstep (mk_machine p K w) (irq_keys irq K w) [] (mk_machine (woken p) K' w')
| kstep_main p K w p' l K' w' :
    p <> AtHalt -> demo_next p K = false -> main_step p K w = Ok ((p', l, K'), w') ->
    kstep (mk_machine p K w) [] l (mk_machine p' K' w').

Inductive krun : machine -> list (list Z * list Z) -> machine -> Prop :=
| krun_nil M : krun M [] M
| krun_cons M ki ko M1 L M2 : kstep M ki ko M1 -> krun M1 L M2 -> krun M ((ki, ko) :: L) M2.

(** All keys that come in and all that are shown. *)
Definition keys_in (L : list (list Z * list Z)) : list Z := concat (fst <$> L).
Definition keys_out (L : list (list Z * list Z)) : list Z := concat (snd <$> L).

(** ** What holds while the kernel runs *)

Definition byte_list (l : list Z) : Prop := Forall (fun c => 0 <= c < 256) l.

Record mouse_ok (m : mouse) : Prop := {
  mouse_data : length (data m) = 3%nat /\ byte_list (data m) /\ 0 <= idx m < 3;
  mouse_bounds : bounds m = [0; 0; 319; 199];
  mouse_inside : inside m }.

Record kernel_inv (K : kernel) : Prop := {
  inv_pending : eoi_pending (k_intr K) = 0;
  inv_slots n : 0 <= n < 256 -> zlookup (intr_func (k_intr K)) n = Some (handler_of n);
  inv_keyb : keyb_ok (k_keyb K);
  inv_queue : byte_list (queue (k_keyb K));
  inv_mouse : mouse_ok (k_mouse K);
  inv_serial : exists p0 p1, ports (k_serial K) = [p0; p1] /\ ring_ok 256 (inbuf p0) /\ ring_ok 256 (inbuf p1);
  inv_ticks : 0 <= nticks (k_timer K) < 4294967296 }.

(** It holds at the start. *)
Lemma kernel_started entry def s7 s15 mem_start map size K : kernel_ok entry def s7 s15 mem_start map size K ->
  kernel_inv K /\ queue (k_keyb K) = [].
Proof.
  intros [_ Hp Hs Hser [Hk Hq] [p Hm] Ht _ _]. split; [|exact Hq]. split; [exact Hp| |exact Hk|rewrite Hq; constructor| | |rewrite Ht; cbn; lia].
  - intros n Hn. apply Hs, Hn.
  - rewrite Hm. split; [|done|split; cbn; lia]. split; [done|]. split; [by repeat constructor|cbn; lia].
  - exists com1, port0. rewrite Hser. split; [done|]. split; split; cbn; lia.
Qed.

(** *** The drivers *)

Lemma byte_list_insert l i b d : byte_list l -> 0 <= b < 256 -> zinsert l i b = Some d -> byte_list d.
Proof. unfold zinsert. destruct (_ || _); [done|]. intros Hl Hb [= <-]. by apply Forall_insert. Qed.

Lemma psaux_intr_ok m w : mouse_ok m -> exists m' w', psaux_intr m w = Ok (m', w') /\ mouse_ok m'.
Proof.
  intros Hm. pose proof Hm as [(Hl & Hd & Hi) Hb Hin]. unfold psaux_intr. rewrite (bind_ok (inb _) _ w _ _ eq_refl).
  destruct (_ =? 0); [by exists m; eexists|].
  match goal with |- context [(kb_read_data ≫= _) ?w] => destruct (kb_read_data_ok w) as (b & w1 & E & Hr) end.
  rewrite (bind_ok _ _ _ _ _ E). clear E. destruct (zinsert_ok (data m) (idx m) b) as (d & Ed & Hld); [rewrite Hl; lia|].
  rewrite Ed. pose proof (byte_list_insert _ _ _ _ Hd Hr Ed) as Hbd. clear Ed. rewrite Hl in Hld.
  rewrite (bind_ok (lift (of_option (Some d))) _ w1 d w1 eq_refl). destruct (Z.leb_spec 3 (idx m + 1)).
  - destruct d as [|b0 [|b1 [|b2 [|]]]]; try done. pose proof Hbd as Hall. apply Forall_cons in Hbd as [_ Hbd], Hbd as [Hb1 Hbd], Hbd as [Hb2 _].
    unfold inside in Hin. rewrite Hb in Hin. cbn [nth] in Hin.
    eexists _, w1. split; [reflexivity|]. rewrite proc_mouse_data_spec; unfold bounds_ok; cbn [set_data bounds mx my]; rewrite ?Hb; cbn [nth]; try done; try lia.
    pose proof (clamped_range (mx m + delta (Z.testbit b0 4) b1) 0 319 ltac:(lia)).
    pose proof (clamped_range (my m - delta (Z.testbit b0 5) b2) 0 199 ltac:(lia)).
    destruct (_ || _); (split; unfold inside; cbn [set_pos set_data data idx bounds mx my]; rewrite ?Hb; [by split_and!|done|done]).
  - eexists _, w1. split; [reflexivity|]. split; [split; [done|]; split; [done|cbn; lia]|done|done].
Qed.

(** The alarms that are due all run. *)
Lemma run_alarms_ends n t w : (length (evlist t) <= n)%nat ->
  exists t' w', run_alarms n alarm_call t w = Ok (t', w') /\ nticks t' = nticks t.
Proof.
  revert t w. induction n as [|n IH]; intros t w Hn; cbn [run_alarms]; destruct (evlist t) as [|ev rest] eqn:Et;
    try (by exists t, w); [simpl in Hn; lia|].
  destruct (_ <=? 0); [|by exists t, w]. destruct (func ev). cbn [alarm_call].
  rewrite (bind_ok (_ ← floppy_motors_off; mret (mk_timer (nticks t) rest)) _ w _ _ eq_refl).
  match goal with |- context [run_alarms n alarm_call ?t1 ?w1] => destruct (IH t1 w1) as (t' & w' & E & Ht) end; [simpl in *; lia|].
  by exists t', w'.
Qed.

Lemma timer_handler_ends t w :
  exists t' w', timer_handler (length (evlist t)) alarm_call t w = Ok (t', w') /\ nticks t' = u32 (nticks t + 1).
Proof.
  unfold timer_handler. cbn [evlist]. destruct (evlist t) as [|ev rest]; [by eexists _, w|]. by apply run_alarms_ends.
Qed.

Lemma recv_port_ends n bs l r w : 0 <= bs < 60000 -> uart_at bs l -> ring_ok 256 r -> (length l <= fuel)%nat -> (0 < n)%nat ->
  exists r' w', recv_port n fuel bs r w = Ok (r', w') /\ ring_ok 256 r'.
Proof.
  intros Hbs Hu Hr Hf Hn. destruct (Nat.leb_spec (reads bs (trace w)) (length l)).
  - destruct (recv_port_uart n fuel bs l r w 65000) as (r' & w' & E & Hr' & _); try done; try lia. by exists r', w'.
  - destruct n as [|n]; [lia|]. cbn [recv_port]. unfold UART_IID. rewrite (bind_ok _ _ _ _ _ (inb_ok (bs + 2) w ltac:(lia))).
    destruct Hu as [_ Hd]. destruct (Hd (trace w)) as (_ & -> & _). destruct (Nat.ltb_spec (reads bs (trace w)) (length l)); [lia|].
    by exists r; eexists.
Qed.

Lemma recv_one_ends s i bs p l w : zlookup uart_base i = Some bs -> zlookup (ports s) i = Some p ->
  0 <= bs < 60000 -> uart_at bs l -> (length l <= fuel)%nat -> ring_ok 256 (inbuf p) ->
  exists r' w', recv_one 1 fuel s i w = (s ← lift (set_port s i (set_inbuf p r')); mret s) w' /\ ring_ok 256 r'.
Proof.
  intros Ebs Ep Hbs Hu Hf Hr. destruct (recv_port_ends 1 bs l (inbuf p) w) as (r' & w' & E & Hr'); [done..|lia|].
  exists r', w'. split; [|done]. unfold recv_one, port_of. rewrite Ebs, Ep. unfold mbind, io_mbind. cbn [lift of_option].
  rewrite E. by destruct (lift _ _) as [[]| | |].
Qed.

Lemma recv_intr_ends s l0 l1 p0 p1 w : uart_at 0x3f8 l0 -> uart_at 0x2f8 l1 -> (length l0 <= fuel)%nat -> (length l1 <= fuel)%nat ->
  ports s = [p0; p1] -> ring_ok 256 (inbuf p0) -> ring_ok 256 (inbuf p1) ->
  exists s' w', recv_intr 1 fuel s w = Ok (s', w') /\
    exists p0' p1', ports s' = [p0'; p1'] /\ ring_ok 256 (inbuf p0') /\ ring_ok 256 (inbuf p1').
Proof.
  intros Hu0 Hu1 Hf0 Hf1 Hp Hr0 Hr1. unfold recv_intr.
  destruct (recv_one_ends s 0 0x3f8 p0 l0 w) as (r0 & w0 & E0 & Hr0'); try done; [by rewrite Hp|].
  unfold set_port in E0. rewrite Hp in E0. rewrite (bind_ok _ _ _ _ _ E0). clear E0.
  destruct (recv_one_ends (mk_serial [set_inbuf p0 r0; p1] (num_open s) (linebuf s) (line_widx s)) 1 0x2f8 p1 l1 w0)
    as (r1 & w1 & E1 & Hr1'); try done.
  exists (mk_serial [set_inbuf p0 r0; set_inbuf p1 r1] (num_open s) (linebuf s) (line_widx s)), w1.
  split; [exact E1|by exists (set_inbuf p0 r0), (set_inbuf p1 r1)].
Qed.

(** *** One interrupt *)

(** The keyboard interrupt of control-alt-delete. *)
Definition resets (irq : Z) (K : kernel) (w : world) : bool :=
  (irq =? 1) && (port_code w <? 128) && reboots (k_keyb K) (key_of (ext (k_keyb K)) (port_code w)).

(** The text for an interrupt without handler. *)
Definition unhandled_line (inum : Z) : list Z := codes "unhandled interrupt " ++ number 10 inum ++ [10].

Lemma unhandled_text inum : 0 <= inum < 256 -> exists st, text_of no_str (codes "unhandled interrupt %d
") [inum] = Ok (Z.of_nat (length (unhandled_line inum)), st) /\ out st = unhandled_line inum.
Proof.
  intros Hc. pose proof (byte_cases (fun inum => match text_of no_str (codes "unhandled interrupt %d
") [inum] with Ok (n, st) => (n =? Z.of_nat (length (unhandled_line inum))) && bool_decide (out st = unhandled_line inum) | _ => false end)
    ltac:(by vm_compute) inum Hc) as Hk. cbv beta in Hk.
  destruct (text_of _ _ _) as [[n st]| | |]; [|done..]. apply andb_true_iff in Hk as [->%Z.eqb_eq Hk%bool_decide_eq_true].
  by exists st.
Qed.

(** The PIC's answer to the check of IRQ 7 and IRQ 15. *)
Definition in_service (cmd : Z) (w : world) : Z := wrap 8 (dev (EOut 8 cmd 0x0b :: trace w) 8 cmd).
Definition spurious (irq : Z) (w : world) : bool :=
  ((irq =? 7) && (Z.land (in_service 0x20 w) 0x80 =? 0)) || ((irq =? 15) && (Z.land (in_service 0xa0 w) 0x80 =? 0)).

(** How the PICs are told that interrupt [irq] is over: not at all when IRQ 7 is
    spurious, the master only when IRQ 15 is. *)
Definition acknowledged (irq : Z) (w : world) : list io_event :=
  if spurious irq w then if irq =? 15 then outs [(0x20, 0x20)] else [] else eoi_writes (irq + 32).

(** What interrupt [irq] does to the drivers: each changes its own state only. *)
Definition served (irq : Z) (K : kernel) (w : world) (K' : kernel) : Prop :=
  if spurious irq w then K' = K
  else if irq =? 0 then exists t, K' = with_timer K t /\ nticks t = u32 (nticks (k_timer K) + 1)
  else if irq =? 1 then exists k, K' = with_keyb K k /\ kbintr (k_keyb K) w = Ok (k, after_code w)
  else if irq =? 4 then exists s, K' = with_serial K s
  else if irq =? 12 then exists m, K' = with_mouse K m
  else exists t, K' = with_con K t.

(** The serial line keeps the flag, the UARTs receive a finite number of bytes. *)
Context (l0 l1 : list Z).
Hypothesis ser_tame : forall c, tame (ser_putchar c).
Hypothesis uart0 : uart_at 0x3f8 l0 /\ (length l0 <= fuel)%nat.
Hypothesis uart1 : uart_at 0x2f8 l1 /\ (length l1 <= fuel)%nat.

Lemma ser_total c w : exists w', ser_putchar c w = Ok (tt, w').
Proof. destruct (ser_tame c w) as ([] & w' & E & _). by exists w'. Qed.

Lemma unhandled_ok inum K w : 0 <= inum < 256 -> exists t w', unhandled inum K w = Ok (with_con K t, w') /\
  put_all ser_putchar (unhandled_line inum) (k_con K) w = Ok (t, w').
Proof.
  intros Hi. unfold unhandled. destruct (unhandled_text inum Hi) as (st & E & Ho).
  destruct (put_all_total ser_putchar ser_total (unhandled_line inum) (k_con K) w) as [[t w'] Ep].
  exists t, w'. split; [|done]. rewrite (bind_ok _ _ w t w'); [done|].
  rewrite (print_text ser_putchar ser_total _ _ _ _ _ _ E). by rewrite Ho.
Qed.

Lemma queue_kept k : keyb_ok k -> keep_last 64 (queue k ++ []) = queue k.
Proof.
  intros [Hr _]. rewrite app_nil_r. unfold keep_last, queue. rewrite length_contents by done. pose proof (count_range 64 _ Hr).
  destruct (Z.ltb_spec (count 64 (kring k)) 64); [done|lia].
Qed.

Lemma keep_last_bytes l : byte_list l -> byte_list (keep_last 64 l).
Proof. unfold keep_last, byte_list. destruct (_ <? _); [done|]. intros Hl. destruct l; [done|]. by apply Forall_cons in Hl as [_ Hl]. Qed.

Lemma port_code_byte w : 0 <= port_code w < 256.
Proof. apply (wrap_range 8). lia. Qed.

Lemma irq_keys_bytes irq K w : byte_list (irq_keys irq K w).
Proof.
  unfold irq_keys. pose proof (port_code_byte w). destruct (irq =? 1); [|constructor]. destruct (Z.ltb_spec (port_code w) 128); [|constructor].
  cbn [andb]. repeat constructor; apply key_of_range; lia.
Qed.

Lemma kbintr_step K w : kernel_inv K -> resets 1 K w = false ->
  exists k, kbintr (k_keyb K) w = Ok (k, after_code w) /\ keyb_ok k /\ queue k = keep_last 64 (queue (k_keyb K) ++ irq_keys 1 K w).
Proof.
  intros HK Hre. destruct (kbintr_spec (k_keyb K) w (inv_keyb _ HK)) as (k & E & Hk & Hcase).
  { intros Hlt. unfold resets in Hre. destruct (Z.ltb_spec (port_code w) 128); [exact Hre|lia]. }
  exists k. split; [exact E|]. split; [exact Hk|]. pose proof (queue_kept _ (inv_keyb _ HK)) as Hkept. unfold irq_keys. cbn [Z.eqb Pos.eqb andb].
  destruct (Z.eqb_spec (port_code w) 0xe0) as [Ec|_].
  - rewrite Ec. change (0xe0 <? 128) with false. cbv iota. rewrite Hkept. by subst k.
  - destruct Hcase as (_ & Hq & _). rewrite Hq. by destruct (port_code w <? 128).
Qed.

(** The handlers, when they are called. *)
Lemma handler_ok irq K w : 0 <= irq < 16 -> kernel_inv K -> resets irq K w = false ->
  exists K' w', (forall w0, (irq = 1 -> w0 = w) -> spurious irq w0 = false -> served irq K w0 K') /\ kernel_inv K' /\ queue (k_keyb K') = keep_last 64 (queue (k_keyb K) ++ irq_keys irq K w) /\
  match handler_of (irq + 32) with
  | Some f => forall st, kernel_call f (irq + 32) st K w = Ok ((st, K'), w')
  | None => unhandled (irq + 32) K w = Ok (K', w')
  end.
Proof.
  intros Hi HK Hre. pose proof HK as [Hp Hs Hk Hq Hm (p0 & p1 & Hpo & Hr0 & Hr1) Ht]. 
  assert (irq <> 1 -> keep_last 64 (queue (k_keyb K) ++ irq_keys irq K w) = queue (k_keyb K)) as Hkept.
  { intros Hne. unfold irq_keys. destruct (Z.eqb_spec irq 1); [done|]. exact (queue_kept _ Hk). }
  assert (forall w0 K', spurious irq w0 = false -> (if irq =? 0 then exists t, K' = with_timer K t /\ nticks t = u32 (nticks (k_timer K) + 1)
    else if irq =? 1 then exists k, K' = with_keyb K k /\ kbintr (k_keyb K) w0 = Ok (k, after_code w0)
    else if irq =? 4 then exists s, K' = with_serial K s else if irq =? 12 then exists m, K' = with_mouse K m
    else exists t, K' = with_con K t) -> served irq K w0 K') as Hserved by (intros w0 K' Hsp HKs; unfold served; by rewrite Hsp).
  destruct (Z.eqb_spec irq 0) as [->|H0]; [|destruct (Z.eqb_spec irq 1) as [->|H1]; [|destruct (Z.eqb_spec irq 4) as [->|H4];
    [|destruct (Z.eqb_spec irq 12) as [->|H12]]]].
  - destruct (timer_handler_ends (k_timer K) w) as (t & w' & E & Hn). exists (with_timer K t), w'. rewrite Hkept by lia.
    split; [intros; apply Hserved; [done|by exists t]|]. split; [|split; [done|intros st; cbn [Z.add Pos.add handler_of Z.eqb Pos.eqb kernel_call]; by rewrite (bind_ok _ _ _ _ _ E)]].
    split; try done; cbn [k_timer with_timer k_serial]; [by exists p0, p1|]. rewrite Hn. apply u32_range.
  - destruct (kbintr_step K w HK Hre) as (k & E & Hk' & Hq'). exists (with_keyb K k), (after_code w).
    split; [intros w0 Hw0 Hsp; apply Hserved; [done|]; rewrite (Hw0 eq_refl); by exists k|]. split; [|split; [exact Hq'|intros st; cbn [Z.add Pos.add handler_of Z.eqb Pos.eqb kernel_call]; by rewrite (bind_ok _ _ _ _ _ E)]].
    split; try done; cbn [k_keyb with_keyb k_serial]; [|by exists p0, p1]. rewrite Hq'. apply keep_last_bytes, Forall_app. split; [done|apply irq_keys_bytes].
  - destruct uart0 as [Hu0 Hf0], uart1 as [Hu1 Hf1].
    destruct (recv_intr_ends (k_serial K) l0 l1 p0 p1 w Hu0 Hu1 Hf0 Hf1 Hpo Hr0 Hr1) as (s & w' & E & Hs'). exists (with_serial K s), w'.
    rewrite Hkept by lia. split; [intros; apply Hserved; [done|by exists s]|]. split; [by split|]. split; [done|].
    intros st; cbn [Z.add Pos.add handler_of Z.eqb Pos.eqb kernel_call]; by rewrite (bind_ok _ _ _ _ _ E).
  - destruct (psaux_intr_ok (k_mouse K) w Hm) as (m & w' & E & Hm'). exists (with_mouse K m), w'. rewrite Hkept by lia.
    split; [intros; apply Hserved; [done|by exists m]|]. split; [split; try done; by exists p0, p1|]. split; [done|].
    intros st; cbn [Z.add Pos.add handler_of Z.eqb Pos.eqb kernel_call]; by rewrite (bind_ok _ _ _ _ _ E).
  - destruct (unhandled_ok (irq + 32) K w ltac:(lia)) as (t & w' & E & _). exists (with_con K t), w'.
    rewrite Hkept by lia.
    split; [intros; apply Hserved; [done|by exists t]|]. split; [split; try done; by exists p0, p1|]. split; [done|].
    assert (handler_of (irq + 32) = None) as ->; [|exact E]. unfold handler_of.
    destruct (Z.eqb_spec (irq + 32) 32), (Z.eqb_spec (irq + 32) 33), (Z.eqb_spec (irq + 32) 36), (Z.eqb_spec (irq + 32) 44); lia || done.
Qed.

(** Every interrupt that is dispatched comes to its end, with its driver served
    and one end of interrupt sent. *)
Lemma dispatched_ok irq K w : 0 <= irq < 16 -> kernel_inv K -> resets irq K w = false ->
  exists K' w' st, intr_entry_common (IRQ_TO_INTR irq) K w = Ok (with_intr K' st, mk_world (eoi_writes (irq + 32) ++ trace w') false) /\
    (forall w0, (irq = 1 -> w0 = w) -> spurious irq w0 = false -> served irq K w0 K') /\ kernel_inv (with_intr K' st) /\
    queue (k_keyb K') = keep_last 64 (queue (k_keyb K) ++ irq_keys irq K w) /\ idt st = idt (k_intr K).
Proof.
  intros Hi HK Hre. destruct (handler_ok irq K w Hi HK Hre) as (K' & w' & Hserved & HK' & Hq & Hcall).
  destruct (dispatch_tail kernel_call unhandled (k_intr K) K (irq + 32) w (entered (k_intr K) (irq + 32)) K' w'
    (handler_of (irq + 32))) as (st & E & Hp & Hidt & Hf).
  - apply (inv_slots _ HK). lia.
  - destruct (handler_of (irq + 32)); [apply Hcall|]. destruct (Z.ltb_spec (irq + 32) 32); [lia|]. by rewrite (bind_ok _ _ _ _ _ Hcall).
  - assert (eoi_pending (entered (k_intr K) (irq + 32)) = irq + 32) as He.
    { unfold entered, IS_IRQ, IRQ_OFFSET. cbn [eoi_pending]. destruct (Z.leb_spec 32 (irq + 32)), (Z.ltb_spec (irq + 32) (32 + 16)); lia || done. }
    rewrite He in E. destruct (Z.eqb_spec (irq + 32) 0); [lia|].
    exists K', w', st. split; [|split; [exact Hserved|split; [|by split]]].
    + unfold intr_entry_common, IRQ_TO_INTR, IRQ_OFFSET. by rewrite (bind_ok _ _ _ _ _ E).
    + destruct HK' as [_ Hs Hk Hqb Hm Hser Ht]. split; try done. intros i Hn. cbn [k_intr with_intr]. rewrite Hf.
      cbn [entered intr_func]. by apply (inv_slots _ HK).
Qed.

(** The check leads to [dispatch_intr], or to nothing but its answer. *)
Lemma check_ok irq cmd K w : irq = 7 /\ cmd = 0x20 \/ irq = 15 /\ cmd = 0xa0 ->
  (if irq =? 7 then irq7_entry_check_spurious K else if irq =? 15 then irq15_entry_check_spurious K else intr_entry_common (IRQ_TO_INTR irq) K) w
  = let w1 := mk_world (EIn 8 cmd (in_service cmd w) :: EOut 8 cmd 0x0b :: trace w) (intr_on w) in
    if spurious irq w then Ok (K, mk_world (acknowledged irq w ++ trace w1) (intr_on w)) else intr_entry_common (IRQ_TO_INTR irq) K w1.
Proof.
  intros [[-> ->]|[-> ->]]; cbn [Z.eqb Pos.eqb].
  - unfold irq7_entry_check_spurious, acknowledged, spurious. cbn [Z.eqb Pos.eqb andb orb]. rewrite orb_false_r.
    rewrite (bind_ok (outb _ _) _ w _ _ eq_refl). rewrite (bind_ok (inb _) _ _ _ _ eq_refl).
    change (wrap 8 (dev _ 8 (u16 PIC1_CMD))) with (in_service 0x20 w). by destruct (_ =? 0).
  - unfold irq15_entry_check_spurious, acknowledged, spurious. cbn [Z.eqb Pos.eqb andb orb].
    rewrite (bind_ok (outb _ _) _ w _ _ eq_refl). rewrite (bind_ok (inb _) _ _ _ _ eq_refl).
    change (wrap 8 (dev _ 8 (u16 PIC2_CMD))) with (in_service 0xa0 w). by destruct (_ =? 0).
Qed.

Lemma irq_ok irq K w : 0 <= irq < 16 -> kernel_inv K -> resets irq K w = false ->
  exists K' w' st, irq_arrives irq K w = Ok (with_intr K' st, mk_world (acknowledged irq w ++ trace w') (intr_on w)) /\
    served irq K (mk_world (trace w) false) K' /\ kernel_inv (with_intr K' st) /\
    queue (k_keyb K') = keep_last 64 (queue (k_keyb K) ++ irq_keys irq K w) /\ idt st = idt (k_intr K).
Proof.
  intros Hi HK Hre. set (w0 := mk_world (trace w) false).
  assert (exists K' w' st, (if irq =? 7 then irq7_entry_check_spurious K else if irq =? 15 then irq15_entry_check_spurious K
      else intr_entry_common (IRQ_TO_INTR irq) K) w0 = Ok (with_intr K' st, mk_world (acknowledged irq w ++ trace w') false) /\
    served irq K w0 K' /\ kernel_inv (with_intr K' st) /\
    queue (k_keyb K') = keep_last 64 (queue (k_keyb K) ++ irq_keys irq K w) /\ idt st = idt (k_intr K)) as (K' & w' & st & E & H').
  2: { exists K', w', st. split; [|exact H']. unfold irq_arrives. rewrite (bind_ok get_intr_flag _ w (intr_on w) w eq_refl).
       rewrite (bind_ok disable_intr _ w tt w0 eq_refl), (bind_ok _ _ _ _ _ E). reflexivity. }
  destruct (decide (irq = 7 \/ irq = 15)) as [Hc|Hc].
  - destruct (ex_intro (fun cmd => irq = 7 /\ cmd = 0x20 \/ irq = 15 /\ cmd = 0xa0) (if irq =? 7 then 0x20 else 0xa0)) as [cmd Hcmd];
      [destruct (Z.eqb_spec irq 7); lia|].
    assert (forall w, irq_keys irq K w = [] /\ resets irq K w = false) as Hno.
    { intros w2. unfold irq_keys, resets. destruct (Z.eqb_spec irq 1); [lia|done]. }
    rewrite (check_ok irq cmd K w0 Hcmd). cbv zeta. change (spurious irq w0) with (spurious irq w).
    change (acknowledged irq w0) with (acknowledged irq w). destruct (spurious irq w) eqn:Esp.
    + eexists K, _, (k_intr K). assert (with_intr K (k_intr K) = K) as -> by by destruct K. split; [reflexivity|].
      unfold served. change (spurious irq w0) with (spurious irq w). rewrite Esp. rewrite (proj1 (Hno w)), queue_kept by apply HK. done.
    + match goal with |- context [intr_entry_common _ _ ?w1] =>
        destruct (dispatched_ok irq K w1 Hi HK (proj2 (Hno w1))) as (K' & w' & st & E & Hs & HK' & Hq & Hidt) end.
      exists K', w', st. rewrite E. unfold acknowledged. rewrite Esp. split; [done|]. split; [apply Hs; [lia|exact Esp]|].
      split; [exact HK'|]. split; [|exact Hidt]. rewrite Hq. by rewrite !(fun w => proj1 (Hno w)).
  - destruct (dispatched_ok irq K w0 Hi HK Hre) as (K' & w' & st & E & Hs & HK' & Hq & Hidt). exists K', w', st.
    assert (spurious irq w = false) as Esp by (unfold spurious; destruct (Z.eqb_spec irq 7), (Z.eqb_spec irq 15); try done; lia).
    unfold acknowledged. rewrite Esp. destruct (Z.eqb_spec irq 7), (Z.eqb_spec irq 15); try lia.
    split; [exact E|]. split; [apply Hs; [done|exact Esp]|]. split; [exact HK'|]. by split.
Qed.

(** Control-alt-delete does not come back. *)
Lemma reboot_panics w : reboot w = Panic.
Proof.
  assert (tame (kb_send_cmd KB_CMD_PULSE_RESET)) as H1.
  { unfold kb_send_cmd, kb_wait_write. pose proof kb_poll_tame. tame. }
  destruct (H1 w) as (? & w1 & E1 & _). destruct (delays_tame (Z.to_nat 32768) w1) as (? & w2 & E2 & _).
  unfold reboot. rewrite (bind_ok _ _ _ _ _ E1), (bind_ok _ _ _ _ _ E2). reflexivity.
Qed.

Lemma irq_reset irq K w : kernel_inv K -> resets irq K w = true -> irq_arrives irq K w = Panic.
Proof.
  intros HK Hre. unfold resets in Hre. apply andb_true_iff in Hre as [Hre Hr], Hre as [->%Z.eqb_eq Hlt%Z.ltb_lt].
  unfold irq_arrives. rewrite (bind_ok get_intr_flag _ w (intr_on w) w eq_refl).
  rewrite (bind_ok disable_intr _ w tt (mk_world (trace w) false) eq_refl). apply bind_panic.
  cbn [Z.eqb Pos.eqb]. apply bind_panic. unfold dispatch_intr. change (IS_IRQ (IRQ_TO_INTR 1)) with true. cbv beta iota zeta. cbn [intr_func].
  rewrite (inv_slots _ HK (IRQ_TO_INTR 1)) by (unfold IRQ_TO_INTR, IRQ_OFFSET; lia). change (handler_of (IRQ_TO_INTR 1)) with (Some HKeyb). cbn [of_option].
  rewrite (bind_ok (lift (Ok (Some HKeyb))) _ (mk_world (trace w) false) (Some HKeyb) (mk_world (trace w) false) eq_refl).
  apply bind_panic, bind_panic. unfold kbintr. rewrite (bind_ok (inb KB_DATA_PORT) _ _ _ _ eq_refl).
  change (wrap 8 (dev (trace (mk_world (trace w) false)) 8 (u16 KB_DATA_PORT))) with (port_code w).
  destruct (Z.eqb_spec (port_code w) 0xe0); [lia|]. cbv zeta. destruct (press_code (port_code w) (port_code_byte w)) as [Ep Ec].
  rewrite Ec, Ep. destruct (Z.ltb_spec (port_code w) 128); [|lia]. pose proof (port_code_byte w).
  destruct (scan_keys (ext (k_keyb K)) (port_code w mod 128)) as (key & Ek & _); [rewrite Z.mod_small; lia|].
  assert (key_of (ext (k_keyb K)) (port_code w) = key) as Hkey by (unfold key_of; by rewrite Ek).
  rewrite Hkey in Hr. rewrite Ek. cbn [of_option].
  rewrite (bind_ok (lift (Ok key)) _ _ key _ eq_refl). apply bind_panic. rewrite reboot_keys_spec by apply HK. rewrite Hr.
  rewrite (bind_ok (lift (Ok true)) _ _ true _ eq_refl). apply bind_panic, reboot_panics.
Qed.

(** *** The loop *)

Lemma put_all_tame str t : tame (put_all ser_putchar str t).
Proof.
  revert t. induction str as [|c str IH]; intros t; cbn [put_all]; [tame|]. apply tame_bind; [|exact IH].
  pose proof (ser_tame c). unfold con_putchar, wrap_line, linefeed, scroll, crtc_setstart, crtc_cursor, crtc_write. cbv zeta. tame.
Qed.

(** The clock's format; [l] changes nothing. *)
Definition clock_format : list item := [Lit 91; Dir (mk_dir false false false false [] KDec); Lit 93].
Lemma clock_text n : text_of no_str (codes "[%ld]") [n] = text_of no_str (print_format clock_format) [n].
Proof. reflexivity. Qed.

(** The clock can always be drawn: 2^31 ticks, whose negation overflows, are no
    multiple of 250. *)
Lemma show_ticks_total n t : 0 <= n < 4294967296 -> exists t', show_ticks n t = Ok t'.
Proof.
  intros Hn. unfold show_ticks. destruct (Z.eqb_spec (n mod 250) 0) as [E|]; [|by exists t].
  assert (exists o, text_of no_str (codes "[%ld]") [n] = Ok o) as [[m st] ->]; [|by eexists].
  assert (s32 n <> -2147483648) as Hne.
  { intros Hs. assert (n = 2147483648) as -> by (unfold s32 in Hs; mlia). discriminate E. }
  destruct (text_of_format no_str clock_format [n]) as (st & E1 & _).
  - repeat constructor; done.
  - cbn -[s32]. pose proof (s32_range n). destruct (Z.ltb_spec (-2147483648) (s32 n)); [|lia]. by destruct (0 <=? s32 n).
  - rewrite clock_text, E1. by eexists.
Qed.

Definition start_message : list Z := codes "PCBoot kernel initialized" ++ [10].
Lemma start_text : text_of no_str (codes "PCBoot kernel initialized
") [] = Ok (26, mk_pf 26 [] [] start_message).
Proof. by vm_compute. Qed.

Lemma main_step_ok p K w : kernel_inv K -> demo_next p K = false ->
  exists p' l K' w', main_step p K w = Ok ((p', l, K'), w') /\ intr_on w' = intr_on w /\ kernel_inv K' /\
    queue (k_keyb K) = l ++ queue (k_keyb K') /\
    match p with
    | AtStart => p' = AtHalt /\ put_all ser_putchar start_message (k_con K) w = Ok (k_con K', w')
    | AtHalt => p' = AtHalt /\ K' = K /\ w' = w
    | AtKeys => put_all ser_putchar (concat (key_line <$> l)) (k_con K) w = Ok (k_con K', w') /\
        p' = (if bool_decide (queue (k_keyb K) = []) then AtClock else AtKeys) /\ l = take 1 (queue (k_keyb K))
    | AtClock => p' = AtHalt /\ w' = w /\ show_ticks (nticks (k_timer K)) (k_con K) = Ok (k_con K')
    end.
Proof.
  intros HK Hd. pose proof HK as [Hp Hs Hk Hq Hm Hser Ht]. destruct p; cbn [main_step].
  - destruct (put_all_tame start_message (k_con K) w) as (t & w' & E & I). exists AtHalt, [], (with_con K t), w'.
    split; [|split; [exact I|]; split; [by split|done]]. rewrite (bind_ok _ _ w t w'); [done|].
    by rewrite (print_text ser_putchar ser_total _ _ _ _ _ _ start_text).
  - by exists AtHalt, [], K, w.
  - unfold demo_next in Hd. destruct (queue (k_keyb K)) as [|c q] eqn:Eq.
    + rewrite (bind_ok _ _ w (-1, k_keyb K) w) by (unfold lift; by rewrite kb_getkey_nil). exists AtClock, [], (with_keyb K (k_keyb K)), w.
      split; [done|]. split; [done|]. split; [by destruct K|]. cbn [k_keyb with_keyb]; by rewrite Eq.
    + destruct (kb_getkey_cons _ c q Hk Eq) as (k & E & Hk' & Hq'). rewrite (bind_ok _ _ w (c, k) w) by (unfold lift; by rewrite E).
      apply Forall_cons in Hq as [Hc Hq]. destruct (Z.ltb_spec c 0); [lia|]. apply orb_false_iff in Hd as [H1%Z.eqb_neq H2%Z.eqb_neq].
      destruct (put_all_tame (key_line c) (k_con K) w) as (t & w' & Et & I).
      assert (show_key ser_putchar demo c (k_con K) w = Ok (t, w')) as Es by (by rewrite (show_key_ok ser_putchar demo ser_total c _ w Hc H1 H2)).
      rewrite (bind_ok _ _ _ _ _ Es). exists AtKeys, [c], (with_con (with_keyb K k) t), w'.
      cbn [fmap list_fmap concat]. rewrite app_nil_r, bool_decide_eq_false_2 by done.
      split; [done|]. split; [exact I|]. split; [|cbn [k_keyb k_con with_con with_keyb]; by rewrite Hq']. split; try done. cbn [k_keyb with_con with_keyb]. by rewrite Hq'.
  - destruct (show_ticks_total (nticks (k_timer K)) (k_con K) Ht) as [t E].
    rewrite (bind_ok _ _ w t w) by (unfold lift; by rewrite E). exists AtHalt, [], (with_con K t), w. split; [done|].
    split; [done|]. split; [by split|]. done.
Qed.

(** *** Runs *)

Lemma krun_app M L M1 L1 M2 : krun M L M1 -> krun M1 L1 M2 -> krun M (L ++ L1) M2.
Proof. induction 1; [done|]. intros. cbn [app]. econstructor; eauto. Qed.

Record running (M : machine) : Prop := {
  run_inv : kernel_inv (krn M);
  run_enabled : intr_on (wld M) = true }.

Definition waiting_keys (M : machine) : list Z := queue (k_keyb (krn M)).

(** A step keeps the invariant and moves the keys. *)
Lemma kstep_running M ki ko M' : running M -> kstep M ki ko M' -> running M' /\
  ((ko = [] /\ waiting_keys M' = keep_last 64 (waiting_keys M ++ ki)) \/ (ki = [] /\ waiting_keys M = ko ++ waiting_keys M')).
Proof.
  intros [HK Hon] Hstep. destruct Hstep as [irq p K w K' w' Hi Hw E|p K w p' l K' w' Hp Hd E]; cbn [krn wld] in HK, Hon.
  - destruct (resets irq K w) eqn:Hre; [rewrite (irq_reset irq K w HK Hre) in E; discriminate|].
    destruct (irq_ok irq K w Hi HK Hre) as (K1 & w1 & st & E1 & _ & HK1 & Hq & _). rewrite E1 in E. injection E as <- <-.
    split; [by split|left; by split].
  - destruct (main_step_ok p K w HK Hd) as (p1 & l1' & K1 & w1 & E1 & I1 & HK1 & Hq & _). rewrite E1 in E. injection E as <- <- <- <-.
    split; [split; [done|by rewrite <- Hon]|right; by split].
Qed.

Lemma krun_running M L M' : running M -> krun M L M' -> running M'.
Proof. intros HM Hrun. induction Hrun as [|M ki ko M1 L M2 Hs Hr IH]; [done|]. apply IH. by destruct (kstep_running _ _ _ _ HM Hs). Qed.

Lemma keep_last_sublist l : keep_last 64 l `sublist_of` l.
Proof. unfold keep_last. destruct (_ <? _); [done|]. destruct l as [|c l]; [done|]. by apply sublist_cons. Qed.

(** Keys are not reordered nor made up; none is lost while fewer than 64 wait. *)
Lemma krun_keys M L M' : running M -> krun M L M' ->
  keys_out L ++ waiting_keys M' `sublist_of` waiting_keys M ++ keys_in L /\
  ((forall L1 L2, L = L1 ++ L2 -> (length (waiting_keys M ++ keys_in L1) < length (keys_out L1) + 64)%nat) ->
   keys_out L ++ waiting_keys M' = waiting_keys M ++ keys_in L).
Proof.
  intros HM Hrun. induction Hrun as [M|M ki ko M1 L M2 Hs Hr IH]; [by rewrite app_nil_r|].
  destruct (kstep_running _ _ _ _ HM Hs) as [HM1 Hmove]. destruct (IH HM1) as [IH1 IH2]. clear IH. unfold keys_in, keys_out in *.
  cbn [fmap list_fmap concat fst snd]. destruct Hmove as [[-> Hq]|[-> Hq]]; cbn [app].
  - split.
    + etrans; [exact IH1|]. rewrite Hq, (assoc_L (++)). apply sublist_app; [apply keep_last_sublist|done].
    + intros Hroom. assert (waiting_keys M1 = waiting_keys M ++ ki) as Hq1.
      { rewrite Hq. unfold keep_last. specialize (Hroom [(ki, [])] L eq_refl). cbn in Hroom. rewrite app_nil_r in Hroom.
        destruct (Z.ltb_spec (Z.of_nat (length (waiting_keys M ++ ki))) 64); [done|lia]. }
      rewrite IH2; [by rewrite Hq1, (assoc_L (++))|]. intros L1 L2 ->. specialize (Hroom ((ki, []) :: L1) L2 eq_refl).
      cbn in Hroom. by rewrite Hq1, <- (assoc_L (++)).
  - split.
    + rewrite Hq, <- !(assoc_L (++)). by apply sublist_app.
    + intros Hroom. rewrite Hq, <- !(assoc_L (++)). f_equal. apply IH2. intros L1 L2 ->.
      specialize (Hroom (([], ko) :: L1) L2 eq_refl). cbn in Hroom. rewrite Hq, !length_app in Hroom. rewrite length_app. lia.
Qed.

(** The loop shows what waits, draws the clock and sleeps. *)
Lemma loop_settles q K w : running (mk_machine AtKeys K w) -> queue (k_keyb K) = q -> KB_F1 ∉ q -> KB_F2 ∉ q ->
  exists L K' t w', krun (mk_machine AtKeys K w) L (mk_machine AtHalt K' w') /\ keys_in L = [] /\ keys_out L = q /\
    queue (k_keyb K') = [] /\ put_all ser_putchar (concat (key_line <$> q)) (k_con K) w = Ok (t, w') /\
    show_ticks (nticks (k_timer K')) t = Ok (k_con K').
Proof.
  revert K w. induction q as [|c q IH]; intros K w HM Hq H1 H2; pose proof (run_inv _ HM) as HK; cbn [krn] in HK.
  - destruct (main_step_ok AtKeys K w HK) as (p1 & l & K1 & w1 & E1 & I1 & HK1 & Hq1 & Ho & Hp1 & Hl); [by unfold demo_next; rewrite Hq|].
    rewrite Hq in Hp1, Hl. cbn in Hp1, Hl. subst p1 l. injection Ho as Ho Hw. subst w1.
    destruct (main_step_ok AtClock K1 w HK1 eq_refl) as (p2 & l & K2 & w2 & E2 & I2 & HK2 & Hq2 & -> & -> & Hc).
    cbn [app] in Hq1. rewrite <- Hq1, Hq in Hq2. symmetry in Hq2. apply app_eq_nil in Hq2 as [-> Hq2].
    exists [([], []); ([], [])], K2, (k_con K), w. split.
    { eapply krun_cons; [eapply kstep_main; [done| |exact E1]; by unfold demo_next; rewrite Hq|].
      eapply krun_cons; [by eapply kstep_main; [| |exact E2]|constructor]. }
    split; [done|]. split; [done|]. split; [exact Hq2|]. split; [done|]. rewrite Ho.
    cbn [main_step] in E2. apply bind_inv in E2 as (t & w2 & E3 & E4). injection E4 as <- _. exact Hc.
  - destruct (main_step_ok AtKeys K w HK) as (p1 & l & K1 & w1 & E1 & I1 & HK1 & Hq1 & Ho & Hp1 & Hl).
    { unfold demo_next. rewrite Hq. apply orb_false_iff. split; apply Z.eqb_neq; intros ->; [apply H1|apply H2]; by left. }
    rewrite Hq in Hp1, Hl, Hq1. rewrite bool_decide_eq_false_2 in Hp1 by done. change (take 1 (c :: q)) with [c] in Hl. subst p1 l. injection Hq1 as Hq1.
    assert (running (mk_machine AtKeys K1 w1)) as HM1 by (split; [exact HK1|cbn [wld]; rewrite I1; apply HM]).
    destruct (IH K1 w1 HM1 (eq_sym Hq1)) as (L & K' & t & w' & Hrun & Hin & Hout & Hq' & Hput & Hc).
    { intros Hx. apply H1. by right. } { intros Hx. apply H2. by right. }
    exists (([], [c]) :: L), K', t, w'. split; [|split; [exact Hin|split; [unfold keys_out in *; cbn; by rewrite Hout|split; [exact Hq'|split; [|exact Hc]]]]].
    + eapply krun_cons; [eapply kstep_main; [done| |exact E1]|exact Hrun].
      unfold demo_next. rewrite Hq. apply orb_false_iff. split; apply Z.eqb_neq; intros ->; [apply H1|apply H2]; by left.
    + cbn [fmap list_fmap concat] in *. rewrite app_nil_r in Ho. rewrite put_all_app. unfold mbind, io_mbind. by rewrite Ho.
Qed.

(** ** From the start on *)
Context (entry : Z -> Z) (entry_default irq7_spurious irq15_spurious mem_start : Z).
Context (boot_mem_map : list mem_range) (boot_mem_map_size : Z).
Context (int86 : Z -> int86regs -> IO int86regs) (polls : nat).
Hypothesis Hbios : pci_bios int86.
Hypothesis Hcards : cards_ok polls.

(** A machine that a run reaches after the initialisations. *)
Definition reached (w0 : world) (L : list (list Z * list Z)) (M : machine) : Prop := exists K w,
  pcboot_init entry entry_default irq7_spurious irq15_spurious mem_start boot_mem_map boot_mem_map_size int86 polls w0 = Ok (K, w) /\
  krun (mk_machine AtStart K w) L M.

Lemma reached_running w0 L M : reached w0 L M -> running M /\ exists M0, running M0 /\ waiting_keys M0 = [] /\ krun M0 L M.
Proof.
  intros (K & w & E & Hrun). apply pcboot_started in E as [HK Hon]; [|exact Hbios|exact Hcards].
  apply kernel_started in HK as [HK Hq]. assert (running (mk_machine AtStart K w)) as HM by by split.
  split; [exact (krun_running _ _ _ HM Hrun)|]. by exists (mk_machine AtStart K w).
Qed.

(** C3. Whatever interrupts arrive, and wherever in the loop, the running
    kernel stays well formed with interrupts enabled, and it cannot get stuck:
    each IRQ comes to its end, whether or not it has a handler, having changed
    the state of its own driver only and having told the PICs once, as the last
    thing, that it is over (a spurious IRQ 7 or 15 changes nothing and is no
    concern of its PIC); the loop can go on unless a demonstration is asked for. The
    exception is control-alt-delete, which does not come back. *)
Theorem kernel_safe w0 L p K w :
  reached w0 L (mk_machine p K w) ->
  kernel_inv K /\ intr_on w = true /\
  (forall irq, 0 <= irq < 16 ->
    if resets irq K w then irq_arrives irq K w = Panic else
    exists K' w' st, irq_arrives irq K w = Ok (with_intr K' st, mk_world (acknowledged irq w ++ trace w') true) /\
      served irq K (mk_world (trace w) false) K' /\ idt st = idt (k_intr K)) /\
  (demo_next p K = false -> exists r, main_step p K w = Ok r).
Proof.
  intros Hr. apply reached_running in Hr as [[HK Hon] _]. cbn [krn wld] in HK, Hon. split; [exact HK|]. split; [exact Hon|]. split.
  - intros irq Hi. destruct (resets irq K w) eqn:Hre; [exact (irq_reset irq K w HK Hre)|].
    destruct (irq_ok irq K w Hi HK Hre) as (K' & w' & st & E & Hs & _ & _ & Hidt). exists K', w', st. by rewrite E, Hon.
  - intros Hd. destruct (main_step_ok p K w HK Hd) as (p' & l & K' & w' & E & _). by exists ((p', l, K'), w').
Qed.

(** C4. The keys shown, followed by those that wait, are keys that were pressed
    since the start, in their order, whatever the schedule of interrupts; and
    they are all of them if at no time 64 keys waited to be shown. *)
Theorem kernel_keys w0 L M :
  reached w0 L M ->
  keys_out L ++ waiting_keys M `sublist_of` keys_in L /\
  ((forall L1 L2, L = L1 ++ L2 -> (length (keys_in L1) < length (keys_out L1) + 64)%nat) ->
   keys_out L ++ waiting_keys M = keys_in L).
Proof.
  intros Hr. apply reached_running in Hr as (_ & M0 & HM & Hq & Hrun). pose proof (krun_keys _ _ _ HM Hrun) as Hk.
  by rewrite Hq in Hk.
Qed.

(** C7. When an interrupt wakes the sleeping kernel and no other follows, the
    loop shows every key that waits, one line each in the order in which they
    were pressed, draws the clock at its time and sleeps again with the queue
    empty. *)
Theorem kernel_settles w0 L K w irq :
  reached w0 L (mk_machine AtHalt K w) -> 0 <= irq < 16 -> resets irq K w = false ->
  let keys := keep_last 64 (queue (k_keyb K) ++ irq_keys irq K w) in
  KB_F1 ∉ keys -> KB_F2 ∉ keys ->
  exists K1 w1 L' K' t w', irq_arrives irq K w = Ok (K1, w1) /\
    krun (mk_machine AtHalt K w) ((irq_keys irq K w, []) :: L') (mk_machine AtHalt K' w') /\
    keys_in L' = [] /\ keys_out L' = keys /\ queue (k_keyb K') = [] /\
    put_all ser_putchar (concat (key_line <$> keys)) (k_con K1) w1 = Ok (t, w') /\
    show_ticks (nticks (k_timer K')) t = Ok (k_con K').
Proof.
  intros Hr Hi Hre keys H1 H2. apply reached_running in Hr as [HM _].
  destruct (irq_ok irq K w Hi (run_inv _ HM) Hre) as (K1 & w1 & st & E & _ & HK1 & Hq & _).
  pose proof (kstep_irq irq AtHalt K w _ _ Hi (run_enabled _ HM) E) as Hstep. destruct (kstep_running _ _ _ _ HM Hstep) as [HM1 _].
  destruct (loop_settles keys _ _ HM1 Hq H1 H2) as (L' & K' & t & w' & Hrun & Hin & Hout & Hq' & Hput & Hc).
  eexists _, _, L', K', t, w'. split; [exact E|]. split; [exact (krun_cons _ _ _ _ _ _ Hstep Hrun)|]. by split_and!.
Qed.
End kernel.

(** ** A machine with a keyboard on which ['a'] is held down *)
Definition desk : Device := fun _ _ port => if (port =? 0x3fa) || (port =? 0x2fa) then 1 else if port =? 0x60 then 0x1e else 0.
Notation desk_reached := (@reached desk no_serial no_demo 0 (fun n => 0x1000 + 16 * n) 1 2 3 0x200000 one_range 1 Pci.demo_bios 0).
Notation desk_run := (@krun desk no_serial no_demo 0).

Lemma desk_uart0 : @uart_at desk 0x3f8 [] /\ (length (@nil Z) <= 0)%nat.
Proof. split; [|done]. split; [constructor|]. intros tr. split_and!; try done. by destruct (reads _ tr). Qed.
Lemma desk_uart1 : @uart_at desk 0x2f8 [] /\ (length (@nil Z) <= 0)%nat.
Proof. split; [|done]. split; [constructor|]. intros tr. split_and!; try done. by destruct (reads _ tr). Qed.
Lemma desk_cards : @cards_ok desk 0.
Proof.
  intros st i Hi Hb. left. intros tr. unfold REG_RDATA. rewrite Hb.
  assert (i = 0 \/ i = 1 \/ i = 2 \/ i = 3 \/ i = 4 \/ i = 5) as Hc by lia. by destruct Hc as [->|[->|[->|[->|[->| ->]]]]].
Qed.
Lemma no_serial_tame c : tame (no_serial c).
Proof. intros w. by exists tt, w. Qed.

Lemma start_awake : AtStart <> AtHalt.
Proof. discriminate. Qed.

(** It starts and falls asleep. *)
Lemma desk_sleeps : exists K w, desk_reached (mk_world [] false) [([], [])] (mk_machine AtHalt K w) /\ queue (k_keyb K) = [].
Proof.
  destruct (@pcboot_setup_ok desk (fun n => 0x1000 + 16 * n) 1 2 3 0x200000 one_range 1 Pci.demo_bios 0 quiet_bios desk_cards
    (mk_world [] false) ltac:(lia)) as (K & w1 & E & _ & Hk).
  apply kernel_started in Hk as [HK Hq]. set (w := mk_world (trace w1) true).
  destruct (@main_step_ok desk no_serial no_demo 0 [] [] no_serial_tame desk_uart0 desk_uart1 AtStart K w HK eq_refl)
    as (p & l & K' & w' & Em & _ & _ & Hq' & -> & _).
  rewrite Hq in Hq'. symmetry in Hq'. apply app_eq_nil in Hq' as [-> Hq'].
  exists K', w'. split; [|exact Hq']. exists K, w. split.
  - unfold pcboot_init. rewrite (bind_ok _ _ _ _ _ E). reflexivity.
  - eapply krun_cons; [|constructor]. exact (kstep_main _ _ _ AtStart K w AtHalt [] K' w' start_awake eq_refl Em).
Qed.

(** The code read is that of ['a'], whatever prefix came before. *)
Lemma desk_key K w : @resets desk 1 K w = false /\ exists c, @irq_keys desk 1 K w = [c] /\ c <> KB_F1 /\ c <> KB_F2.
Proof.
  unfold resets, irq_keys, reboots. change (@port_code desk w) with 0x1e. cbn [Z.eqb Pos.eqb andb].
  change (0x1e <? 128) with true. destruct (ext (k_keyb K)); (split; [done|]); by eexists.
Qed.

Lemma kernel_safe_witness : exists K w K' w' st,
  desk_reached (mk_world [] false) [([], [])] (mk_machine AtHalt K w) /\ kernel_inv K /\
  @irq_arrives desk no_serial 0 14 K w = Ok (with_intr K' st, mk_world (eoi_writes 46 ++ trace w') true) /\
  @served desk 14 K (mk_world (trace w) false) K'.
Proof.
  destruct desk_sleeps as (K & w & Hr & _).
  destruct (@kernel_safe desk no_serial no_demo 0 [] [] no_serial_tame desk_uart0 desk_uart1
    (fun n => 0x1000 + 16 * n) 1 2 3 0x200000 one_range 1 Pci.demo_bios 0 quiet_bios desk_cards (mk_world [] false) _ _ K w Hr)
    as (HK & _ & Hirq & _).
  destruct (Hirq 14 ltac:(lia)) as (K' & w' & st & E & Hs & _). exists K, w, K', w', st. split; [exact Hr|]. split; [exact HK|]. split; [exact E|exact Hs].
Defined.

(** Fewer than 64 keys in all never overflow. *)
Lemma few_keys L : (length (keys_in L) < 64)%nat ->
  forall L1 L2, L = L1 ++ L2 -> (length (keys_in L1) < length (keys_out L1) + 64)%nat.
Proof. intros Hl L1 L2 ->. unfold keys_in in *. rewrite fmap_app, concat_app, length_app in Hl. lia. Qed.

(** The key waits when its interrupt has come. *)
Lemma kernel_keys_witness : exists K w c,
  desk_reached (mk_world [] false) [([], []); ([c], [])] (mk_machine AtKeys K w) /\ [] ++ queue (k_keyb K) = [c].
Proof.
  destruct desk_sleeps as (K & w & (K0 & w0 & E & Hrun) & _). destruct (desk_key K w) as (Hre & c & Hc & _).
  destruct (@reached_running desk no_serial no_demo 0 [] [] no_serial_tame desk_uart0 desk_uart1
    (fun n => 0x1000 + 16 * n) 1 2 3 0x200000 one_range 1 Pci.demo_bios 0 quiet_bios desk_cards (mk_world [] false) _ _
    (ex_intro _ K0 (ex_intro _ w0 (conj E Hrun)))) as [HM _].
  destruct (@irq_ok desk no_serial 0 [] [] no_serial_tame desk_uart0 desk_uart1 1 K w ltac:(lia) (run_inv _ HM) Hre)
    as (K1 & w1 & st & E1 & _).
  pose proof (kstep_irq no_serial no_demo 0 1 AtHalt K w _ _ ltac:(lia) (run_enabled _ HM) E1) as Hs. rewrite Hc in Hs.
  assert (desk_reached (mk_world [] false) [([], []); ([c], [])] (mk_machine AtKeys (with_intr K1 st) (mk_world (@acknowledged desk 1 w ++ trace w1) (intr_on w)))) as Hr.
  { exists K0, w0. split; [exact E|]. exact (krun_app _ _ _ _ _ _ _ _ Hrun (krun_cons _ _ _ _ _ _ _ _ _ Hs (krun_nil _ _ _ _))). }
  eexists _, _, c. split; [exact Hr|].
  exact (proj2 (@kernel_keys desk no_serial no_demo 0 [] [] no_serial_tame desk_uart0 desk_uart1
    (fun n => 0x1000 + 16 * n) 1 2 3 0x200000 one_range 1 Pci.demo_bios 0 quiet_bios desk_cards (mk_world [] false) _ _ Hr)
    (few_keys [([], []); ([c], [])] (le_n_S _ _ (le_S_n 1 63 (leb_complete 2 64 eq_refl))))).
Defined.

Lemma kernel_settles_witness : exists K w c L' K' w',
  desk_reached (mk_world [] false) [([], [])] (mk_machine AtHalt K w) /\
  desk_run (mk_machine AtHalt K w) (([c], []) :: L') (mk_machine AtHalt K' w') /\ keys_out L' = [c] /\ queue (k_keyb K') = [].
Proof.
  destruct desk_sleeps as (K & w & Hr & Hq). destruct (desk_key K w) as (Hre & c & Hc & H1 & H2).
  destruct (@kernel_settles desk no_serial no_demo 0 [] [] no_serial_tame desk_uart0 desk_uart1
    (fun n => 0x1000 + 16 * n) 1 2 3 0x200000 one_range 1 Pci.demo_bios 0 quiet_bios desk_cards (mk_world [] false) _ K w 1 Hr ltac:(lia) Hre)
    as (K1 & w1 & L' & K' & t & w' & _ & Hrun & _ & Hout & Hq' & _).
  - rewrite Hq, Hc. intros Hn. exact (H1 (eq_sym (proj1 (list_elem_of_singleton _ _) Hn))).
  - rewrite Hq, Hc. intros Hn. exact (H2 (eq_sym (proj1 (list_elem_of_singleton _ _) Hn))).
  - rewrite Hq, Hc in Hout. rewrite Hc in Hrun. exists K, w, c, L', K', w'. split; [exact Hr|]. split; [exact Hrun|]. split; [exact Hout|exact Hq'].
Defined.
