(* ===== verification/Vbetest.v ===== *)
(** * The graphics demonstration (src/test/vbetest.c)

    F2 in the main loop shows a picture in a 640x480 video mode and moves a
    mouse cursor over it until a key is pressed. The frame buffer is memory of
    its own, one number per pixel; an access outside of its 640 * 480 pixels is
    a [Fault]. [draw_cursor] keeps what it covers and puts it back before it
    draws the next time: the theorem shows that the picture under the cursor is
    never lost. *)
From S2P Require Import Prelude Memory Int86 Dma AuSb Video Mem Ctype Io Ring Intr Keyb Psaux Contty Stdio Kmain Init.

Definition CURSOR_XSZ : Z := 12.
Definition CURSOR_YSZ : Z := 16.
Definition cursor : list Z := [
  0xffff; 0x0000; 0x0000; 0x0000; 0x0000; 0x0000; 0x0000; 0x0000; 0x0000; 0x0000; 0x0000; 0x0000;
  0xffff; 0xffff; 0x0000; 0x0000; 0x0000; 0x0000; 0x0000; 0x0000; 0x0000; 0x0000; 0x0000; 0x0000;
  0xffff; 0x0001; 0xffff; 0x0000; 0x0000; 0x0000; 0x0000; 0x0000; 0x0000; 0x0000; 0x0000; 0x0000;
  0xffff; 0x0001; 0x0001; 0xffff; 0x0000; 0x0000; 0x0000; 0x0000; 0x0000; 0x0000; 0x0000; 0x0000;
  0xffff; 0x0001; 0x0001; 0x0001; 0xffff; 0x0000; 0x0000; 0x0000; 0x0000; 0x0000; 0x0000; 0x0000;
  0xffff; 0x0001; 0x0001; 0x0001; 0x0001; 0xffff; 0x0000; 0x0000; 0x0000; 0x0000; 0x0000; 0x0000;
  0xffff; 0x0001; 0x0001; 0x0001; 0x0001; 0x0001; 0xffff; 0x0000; 0x0000; 0x0000; 0x0000; 0x0000;
  0xffff; 0x0001; 0x0001; 0x0001; 0x0001; 0x0001; 0x0001; 0xffff; 0x0000; 0x0000; 0x0000; 0x0000;
  0xffff; 0x0001; 0x0001; 0x0001; 0x0001; 0x0001; 0x0001; 0x0001; 0xffff; 0x0000; 0x0000; 0x0000;
  0xffff; 0x0001; 0x0001; 0x0001; 0x0001; 0x0001; 0xffff; 0xffff; 0xffff; 0xffff; 0x0000; 0x0000;
  0xffff; 0x0001; 0x0001; 0x0001; 0x0001; 0xffff; 0x0000; 0x0000; 0x0000; 0x0000; 0x0000; 0x0000;
  0xffff; 0x0001; 0x0001; 0xffff; 0x0001; 0x0001; 0xffff; 0x0000; 0x0000; 0x0000; 0x0000; 0x0000;
  0xffff; 0x0001; 0xffff; 0xffff; 0x0001; 0x0001; 0xffff; 0x0000; 0x0000; 0x0000; 0x0000; 0x0000;
  0xffff; 0xffff; 0x0000; 0x0000; 0xffff; 0x0001; 0x0001; 0xffff; 0x0000; 0x0000; 0x0000; 0x0000;
  0xffff; 0x0000; 0x0000; 0x0000; 0xffff; 0x0001; 0x0001; 0xffff; 0x0000; 0x0000; 0x0000; 0x0000;
  0x0000; 0x0000; 0x0000; 0x0000; 0x0000; 0xffff; 0xffff; 0x0000; 0x0000; 0x0000; 0x0000; 0x0000].

(** ** The frame buffer *)
Definition NPIXELS : Z := 307200.
Definition in_fb (i : Z) : bool := (0 <=? i) && (i <? NPIXELS).
Definition pixel (fb : gmap Z Z) (i : Z) : Z := default 0 (fb !! i).
Definition get_pixel (fb : gmap Z Z) (i : Z) : res Z := if in_fb i then Ok (pixel fb i) else Fault.
Definition put_pixel (fb : gmap Z Z) (i v : Z) : res (gmap Z Z) := if in_fb i then Ok (<[i := v]> fb) else Fault.

(** The static variables of [draw_cursor]. *)
Record saved := mk_saved { pixels : list Z; saved_x : Z; saved_y : Z; saved_w : Z; saved_h : Z }.

(** [for(j=0; j<saved_w; j++)] of the restoring loop, and the loop around it. *)
Fixpoint restore_row (n : nat) (dest src : Z) (sv : list Z) (fb : gmap Z Z) : res (gmap Z Z) :=
  match n with
  | O => Ok fb
  | S n =>
      v ← of_option (zlookup sv src);
      fb ← put_pixel fb dest v;
      restore_row n (dest + 1) (src + 1) sv fb
  end.
Fixpoint restore_rows (n : nat) (w dest src : Z) (sv : list Z) (fb : gmap Z Z) : res (gmap Z Z) :=
  match n with
  | O => Ok fb
  | S n =>
      fb ← restore_row (Z.to_nat w) dest src sv fb;
      restore_rows n w (dest + w + (640 - w)) (src + w + (CURSOR_XSZ - w)) sv fb
  end.

(** The same for drawing; [src] and [savp] advance together. *)
Fixpoint draw_row (n : nat) (dest src col : Z) (sv : list Z) (fb : gmap Z Z) : res (list Z * gmap Z Z) :=
  match n with
  | O => Ok (sv, fb)
  | S n =>
      c ← of_option (zlookup cursor src);
      v ← get_pixel fb dest;
      sv ← of_option (zinsert sv src v);
      fb ← (if negb (c =? 0) then put_pixel fb dest (if c =? 1 then col else c) else Ok fb);
      draw_row n (dest + 1) (src + 1) col sv fb
  end.
Fixpoint draw_rows (n : nat) (w dest src col : Z) (sv : list Z) (fb : gmap Z Z) : res (list Z * gmap Z Z) :=
  match n with
  | O => Ok (sv, fb)
  | S n =>
      '(sv, fb) ← draw_row (Z.to_nat w) dest src col sv fb;
      draw_rows n w (dest + w + (640 - w)) (src + w + (CURSOR_XSZ - w)) col sv fb
  end.

Definition draw_cursor (x y col : Z) (s : saved) (fb : gmap Z Z) : res (saved * gmap Z Z) :=
  fb ← (if 0 <=? saved_x s
        then restore_rows (Z.to_nat (saved_h s)) (saved_w s) (saved_y s * 640 + saved_x s) 0 (pixels s) fb
        else Ok fb);
  let w := 640 - x in
  let w := if CURSOR_XSZ <? w then CURSOR_XSZ else w in
  let h := 480 - y in
  let h := if CURSOR_YSZ <? h then CURSOR_YSZ else h in
  '(sv, fb) ← draw_rows (Z.to_nat h) w (y * 640 + x) 0 col (pixels s) fb;
  Ok (mk_saved sv x y w h, fb).

(** ** Rectangles *)

(** Pixel [k] as row and column from the pixel [d] on, in a rectangle of [n]
    rows of [w]. *)
Definition inside_rect (d w n k : Z) : bool := (d <=? k) && ((k - d) mod 640 <? w) && ((k - d) / 640 <? n).
(** Where it is in the arrays with rows of 12. *)
Definition rect_index (d k : Z) : Z := CURSOR_XSZ * ((k - d) / 640) + (k - d) mod 640.

Lemma next_row d k : (k - (d + 640)) mod 640 = (k - d) mod 640 /\ (k - (d + 640)) / 640 = (k - d) / 640 - 1.
Proof. mlia. Qed.
Lemma inside_rect_step d w n k : 0 <= w <= 640 -> 0 <= n ->
  inside_rect d w (n + 1) k = ((d <=? k) && (k <? d + w)) || inside_rect (d + 640) w n k.
Proof.
  intros Hw Hn. unfold inside_rect.
  destruct (next_row d k) as [-> ->].
  assert (d <= k -> (k - d) / 640 = 0 -> (k - d) mod 640 = k - d) by mlia. assert (d <= k -> k < d + w -> (k - d) / 640 = 0) by mlia.
  assert (d <= k -> k < d + 640 -> (k - d) / 640 = 0) by mlia. assert (d + 640 <= k -> 1 <= (k - d) / 640) by mlia.
  destruct (Z.leb_spec d k), (Z.leb_spec (d + 640) k), (Z.ltb_spec k (d + w)), (Z.ltb_spec ((k - d) mod 640) w), (Z.ltb_spec ((k - d) / 640) (n + 1)),
    (Z.ltb_spec ((k - d) / 640 - 1) n); cbn; try lia; try done.
Qed.

Lemma inside_rect_none d w k : inside_rect d w 0 k = false.
Proof.
  unfold inside_rect. destruct (Z.leb_spec d k); [|done]. assert (0 <= (k - d) / 640) by mlia.
  destruct (Z.ltb_spec ((k - d) / 640) 0); [lia|]. apply andb_false_r.
Qed.
Lemma rect_index_step d k : rect_index (d + 640) k + CURSOR_XSZ = rect_index d k.
Proof. unfold rect_index, CURSOR_XSZ. destruct (next_row d k) as [-> ->]. lia. Qed.
Lemma rect_index_row d k : d <= k < d + 640 -> rect_index d k = k - d.
Proof. intros Hk. unfold rect_index. rewrite Z.div_small, Z.mod_small by lia. lia. Qed.
Lemma rect_index_range d w n k : 0 <= w <= 12 -> inside_rect d w n k = true -> 0 <= rect_index d k < CURSOR_XSZ * n.
Proof.
  unfold inside_rect, rect_index, CURSOR_XSZ. intros Hw Hk. apply andb_true_iff in Hk as [Hk H3%Z.ltb_lt], Hk as [H1%Z.leb_le H2%Z.ltb_lt]. mlia.
Qed.

(** A number of a list of pixels, 0 behind its end. *)
Definition nth_pixel (l : list Z) (i : Z) : Z := default 0 (zlookup l i).

Lemma nth_pixel_ok l i : 0 <= i < Z.of_nat (length l) -> zlookup l i = Some (nth_pixel l i).
Proof. intros Hi. unfold nth_pixel. by destruct (zlookup_is_Some l i Hi) as [v ->]. Qed.
Lemma put_pixel_ok fb i v : 0 <= i < NPIXELS -> exists fb', put_pixel fb i v = Ok fb' /\
  forall k, pixel fb' k = if decide (k = i) then v else pixel fb k.
Proof.
  intros Hi. unfold put_pixel, in_fb. destruct (Z.leb_spec 0 i), (Z.ltb_spec i NPIXELS); try lia. eexists. split; [reflexivity|].
  intros k. unfold pixel. rewrite lookup_insert. by repeat case_decide; subst.
Qed.

Lemma restore_row_ok n dest src sv fb : 0 <= dest -> dest + Z.of_nat n <= NPIXELS -> 0 <= src -> src + Z.of_nat n <= Z.of_nat (length sv) ->
  exists fb', restore_row n dest src sv fb = Ok fb' /\
    forall k, pixel fb' k = if (dest <=? k) && (k <? dest + Z.of_nat n) then nth_pixel sv (src + (k - dest)) else pixel fb k.
Proof.
  revert dest src fb. induction n as [|n IH]; intros dest src fb H1 H2 H3 H4; cbn [restore_row].
  - exists fb. split; [done|]. intros k. zcases.
  - rewrite nth_pixel_ok by lia. cbn [of_option mbind res_mbind res_bind].
    destruct (put_pixel_ok fb dest (nth_pixel sv src)) as (fb1 & -> & Hf1); [lia|]. cbn [mbind res_mbind res_bind].
    destruct (IH (dest + 1) (src + 1) fb1) as (fb' & E & Hf); [lia..|]. exists fb'. split; [exact E|].
    intros k. rewrite Hf, Hf1. case_decide.
    + subst k. replace (src + (dest - dest)) with src by lia. zcases.
    + replace (src + 1 + (k - (dest + 1))) with (src + (k - dest)) by lia. zcases.
Qed.

Lemma restore_rows_ok n w d src sv fb : 0 <= w <= 12 -> 0 <= d ->
  (forall i, 0 <= i < Z.of_nat n -> d + 640 * i + w <= NPIXELS) -> 0 <= src -> src + 12 * Z.of_nat n <= Z.of_nat (length sv) ->
  exists fb', restore_rows n w d src sv fb = Ok fb' /\
    forall k, pixel fb' k = if inside_rect d w (Z.of_nat n) k then nth_pixel sv (src + rect_index d k) else pixel fb k.
Proof.
  intros Hw. revert d src fb. induction n as [|n IH]; intros d src fb Hd Hn Hs Hl; cbn [restore_rows].
  - exists fb. split; [done|]. intros k. by rewrite inside_rect_none.
  - destruct (restore_row_ok (Z.to_nat w) d src sv fb) as (fb1 & -> & Hf1); [done|specialize (Hn 0); lia|done|lia|].
    cbn [mbind res_mbind res_bind]. replace (d + w + (640 - w)) with (d + 640) by lia.
    replace (src + w + (CURSOR_XSZ - w)) with (src + 12) by (unfold CURSOR_XSZ; lia).
    destruct (IH (d + 640) (src + 12) fb1) as (fb' & -> & Hf); [lia|intros i Hi; specialize (Hn (i + 1)); lia|lia|lia|].
    exists fb'. split; [done|]. intros k. rewrite Hf, Hf1, Nat2Z.inj_succ, Z2Nat.id by lia. rewrite <- Z.add_1_r, inside_rect_step by lia.
    destruct (inside_rect (d + 640) w (Z.of_nat n) k).
    + rewrite orb_true_r. f_equal. rewrite <- (rect_index_step d). unfold CURSOR_XSZ. lia.
    + rewrite orb_false_r. destruct (Z.leb_spec d k), (Z.ltb_spec k (d + w)); cbn [andb]; try done. by rewrite rect_index_row by lia.
Qed.

(** What a pixel of the cursor makes of one of the picture. *)
Definition paint (col c p : Z) : Z := if c =? 0 then p else if c =? 1 then col else c.

Lemma length_cursor : length cursor = 192%nat.
Proof. reflexivity. Qed.

Lemma draw_row_ok n dest src col sv fb : 0 <= dest -> dest + Z.of_nat n <= NPIXELS -> 0 <= src -> src + Z.of_nat n <= 192 -> length sv = 192%nat ->
  exists sv' fb', draw_row n dest src col sv fb = Ok (sv', fb') /\ length sv' = 192%nat /\
    (forall i, nth_pixel sv' i = if (src <=? i) && (i <? src + Z.of_nat n) then pixel fb (dest + (i - src)) else nth_pixel sv i) /\
    forall k, pixel fb' k = if (dest <=? k) && (k <? dest + Z.of_nat n) then paint col (nth_pixel cursor (src + (k - dest))) (pixel fb k) else pixel fb k.
Proof.
  revert dest src sv fb. induction n as [|n IH]; intros dest src sv fb H1 H2 H3 H4 Hl; cbn [draw_row].
  - exists sv, fb. split; [done|]. split; [done|]. split; intros; zcases.
  - rewrite nth_pixel_ok by (rewrite length_cursor; lia). cbn [of_option mbind res_mbind res_bind].
    unfold get_pixel, in_fb. destruct (Z.leb_spec 0 dest), (Z.ltb_spec dest NPIXELS); try lia. cbn [andb mbind res_mbind res_bind].
    destruct (zinsert_ok sv src (pixel fb dest)) as (sv1 & Es & Hl1); [lia|]. rewrite Es. cbn [of_option mbind res_mbind res_bind].
    assert (exists fb1, (if negb (nth_pixel cursor src =? 0) then put_pixel fb dest (if nth_pixel cursor src =? 1 then col else nth_pixel cursor src) else Ok fb) = Ok fb1 /\
      forall k, pixel fb1 k = if decide (k = dest) then paint col (nth_pixel cursor src) (pixel fb k) else pixel fb k) as (fb1 & -> & Hf1).
    { unfold paint. destruct (nth_pixel cursor src =? 0); cbn [negb].
      - exists fb. split; [done|]. intros k. by case_decide.
      - destruct (put_pixel_ok fb dest (if nth_pixel cursor src =? 1 then col else nth_pixel cursor src)) as (fb1 & E1 & Hf1); [done|]. by exists fb1. }
    cbn [mbind res_mbind res_bind]. destruct (IH (dest + 1) (src + 1) sv1 fb1) as (sv' & fb' & -> & Hl' & Hs & Hf); [lia..|].
    exists sv', fb'. split; [done|]. split; [done|]. split.
    + intros i. rewrite Hs, Hf1. unfold nth_pixel. rewrite (zlookup_zinsert _ _ _ _ _ Es). destruct (decide (i = src)) as [->|Hne].
      * destruct (Z.leb_spec (src + 1) src), (Z.leb_spec src src), (Z.ltb_spec src (src + Z.of_nat (S n))); try lia. cbn [andb default].
        by replace (dest + (src - src)) with dest by lia.
      * replace (dest + 1 + (i - (src + 1))) with (dest + (i - src)) by lia. rewrite decide_False by lia. zcases.
    + intros k. rewrite Hf, Hf1. replace (src + 1 + (k - (dest + 1))) with (src + (k - dest)) by lia. case_decide.
      * subst k. replace (src + (dest - dest)) with src by lia. zcases.
      * zcases.
Qed.

Lemma inside_rect_below d w n k : inside_rect d w n k = true -> d <= k.
Proof. unfold inside_rect. by destruct (Z.leb_spec d k). Qed.

Lemma draw_rows_ok n w d src col sv fb : 0 <= w <= 12 -> 0 <= d ->
  (forall i, 0 <= i < Z.of_nat n -> d + 640 * i + w <= NPIXELS) -> 0 <= src -> src + 12 * Z.of_nat n <= 192 -> length sv = 192%nat ->
  exists sv' fb', draw_rows n w d src col sv fb = Ok (sv', fb') /\ length sv' = 192%nat /\
    (forall k, inside_rect d w (Z.of_nat n) k = true -> nth_pixel sv' (src + rect_index d k) = pixel fb k) /\
    (forall i, i < src -> nth_pixel sv' i = nth_pixel sv i) /\
    forall k, pixel fb' k = if inside_rect d w (Z.of_nat n) k then paint col (nth_pixel cursor (src + rect_index d k)) (pixel fb k) else pixel fb k.
Proof.
  intros Hw. revert d src sv fb. induction n as [|n IH]; intros d src sv fb Hd Hn Hs Hs2 Hl; cbn [draw_rows].
  - exists sv, fb. split; [done|]. split; [done|]. split; [intros k; by rewrite inside_rect_none|]. split; [done|]. intros k. by rewrite inside_rect_none.
  - destruct (draw_row_ok (Z.to_nat w) d src col sv fb) as (sv1 & fb1 & -> & Hl1 & Hs1 & Hf1); [done|specialize (Hn 0); lia|done|lia|done|].
    cbn [mbind res_mbind res_bind]. replace (d + w + (640 - w)) with (d + 640) by lia.
    replace (src + w + (CURSOR_XSZ - w)) with (src + 12) by (unfold CURSOR_XSZ; lia). rewrite Z2Nat.id in Hs1, Hf1 by lia.
    destruct (IH (d + 640) (src + 12) sv1 fb1) as (sv' & fb' & -> & Hl' & Hin & Hout & Hf); [lia|intros i Hi; specialize (Hn (i + 1)); lia|lia|lia|done|].
    exists sv', fb'. split; [done|]. split; [done|]. rewrite Nat2Z.inj_succ, <- Z.add_1_r.
    assert (forall k, inside_rect (d + 640) w (Z.of_nat n) k = true -> pixel fb1 k = pixel fb k /\ src + 12 + rect_index (d + 640) k = src + rect_index d k) as Hlow.
    { intros k Hk. pose proof (inside_rect_below _ _ _ _ Hk). rewrite Hf1, <- (rect_index_step d). unfold CURSOR_XSZ. split; [zcases|lia]. }
    split; [|split].
    + intros k. rewrite inside_rect_step by lia. destruct (inside_rect (d + 640) w (Z.of_nat n) k) eqn:Ek.
      * destruct (Hlow k Ek) as [<- <-]. intros _. by apply Hin.
      * rewrite orb_false_r. intros Hk. apply andb_true_iff in Hk as [H1%Z.leb_le H2%Z.ltb_lt]. rewrite rect_index_row by lia.
        rewrite Hout, Hs1 by lia. replace (d + (src + (k - d) - src)) with k by lia. zcases.
    + intros i Hi. rewrite Hout, Hs1 by lia. zcases.
    + intros k. rewrite Hf, inside_rect_step by lia. destruct (inside_rect (d + 640) w (Z.of_nat n) k) eqn:Ek.
      * destruct (Hlow k Ek) as [-> ->]. by rewrite orb_true_r.
      * rewrite orb_false_r, Hf1. destruct (Z.leb_spec d k), (Z.ltb_spec k (d + w)); cbn [andb]; try done. by rewrite rect_index_row by lia.
Qed.

(** ** The cursor over a picture *)

(** Pixel [k] of the picture [P] with the cursor at column [x] and row [y]. *)
Definition over (P : Z -> Z) (x y col k : Z) : Z :=
  let '(px, py) := (k mod 640, k / 640) in
  if (x <=? px) && (px <? x + CURSOR_XSZ) && (y <=? py) && (py <? y + CURSOR_YSZ)
  then paint col (nth_pixel cursor (CURSOR_XSZ * (py - y) + (px - x))) (P k) else P k.

(** The frame buffer shows the picture, but for what is kept in [pixels]. *)
Definition shown (P : Z -> Z) (s : saved) (fb : gmap Z Z) : Prop :=
  length (pixels s) = 192%nat /\
  if saved_x s <? 0 then forall k, 0 <= k < NPIXELS -> pixel fb k = P k else
  saved_x s < 640 /\ 0 <= saved_y s < 480 /\
  saved_w s = Z.min 12 (640 - saved_x s) /\ saved_h s = Z.min 16 (480 - saved_y s) /\
  forall k, 0 <= k < NPIXELS ->
    (if inside_rect (saved_y s * 640 + saved_x s) (saved_w s) (saved_h s) k then nth_pixel (pixels s) (rect_index (saved_y s * 640 + saved_x s) k)
     else pixel fb k) = P k.

Lemma cursor_rows x y : 0 <= x < 640 -> 0 <= y < 480 -> forall i, 0 <= i < Z.of_nat (Z.to_nat (Z.min 16 (480 - y))) ->
  y * 640 + x + 640 * i + Z.min 12 (640 - x) <= NPIXELS.
Proof. unfold NPIXELS. lia. Qed.

Lemma inside_over x y k : 0 <= x < 640 -> 0 <= y < 480 -> 0 <= k < NPIXELS ->
  inside_rect (y * 640 + x) (Z.min 12 (640 - x)) (Z.min 16 (480 - y)) k =
    ((x <=? k mod 640) && (k mod 640 <? x + CURSOR_XSZ) && (y <=? k / 640) && (k / 640 <? y + CURSOR_YSZ)) /\
  (x <= k mod 640 -> rect_index (y * 640 + x) k = CURSOR_XSZ * (k / 640 - y) + (k mod 640 - x)).
Proof.
  intros Hx Hy Hk. unfold inside_rect, rect_index, CURSOR_XSZ, CURSOR_YSZ, NPIXELS in *.
  assert (k = 640 * (k / 640) + k mod 640 /\ 0 <= k mod 640 < 640 /\ 0 <= k / 640 < 480) as (Ek & Hm & Hd) by mlia.
  set (px := k mod 640) in *. set (py := k / 640) in *.
  assert (x <= px -> (k - (y * 640 + x)) / 640 = py - y /\ (k - (y * 640 + x)) mod 640 = px - x) as Hge by (intros; mlia).
  assert (px < x -> (k - (y * 640 + x)) mod 640 = px - x + 640) as Hlt by (intros; mlia). clearbody px py. split.
  - destruct (Z.leb_spec x px) as [Hp|Hp].
    + destruct (Hge Hp) as [-> ->]. zcases.
    + rewrite (Hlt Hp). destruct (Z.ltb_spec (px - x + 640) (Z.min 12 (640 - x))); [lia|]. by rewrite andb_false_r.
  - intros Hp. destruct (Hge Hp) as [-> ->]. lia.
Qed.

Lemma draw_cursor_ok P x y col s fb : shown P s fb -> 0 <= x < 640 -> 0 <= y < 480 ->
  exists s' fb', draw_cursor x y col s fb = Ok (s', fb') /\ shown P s' fb' /\
    forall k, 0 <= k < NPIXELS -> pixel fb' k = over P x y col k.
Proof.
  intros [Hl Hs] Hx Hy. unfold draw_cursor.
  assert (exists fb1, (if 0 <=? saved_x s then restore_rows (Z.to_nat (saved_h s)) (saved_w s) (saved_y s * 640 + saved_x s) 0 (pixels s) fb
    else Ok fb) = Ok fb1 /\ forall k, 0 <= k < NPIXELS -> pixel fb1 k = P k) as (fb1 & -> & HP).
  { destruct (Z.ltb_spec (saved_x s) 0), (Z.leb_spec 0 (saved_x s)); try lia; [by exists fb|]. destruct Hs as (Hx1 & Hy1 & Hw & Hh & Hk).
    destruct (restore_rows_ok (Z.to_nat (saved_h s)) (saved_w s) (saved_y s * 640 + saved_x s) 0 (pixels s) fb) as (fb1 & E & Hf1); [lia|lia| |lia|lia|].
    { rewrite Hw, Hh. by apply cursor_rows. }
    exists fb1. split; [exact E|]. intros k Hr. rewrite Hf1, <- Hk by done. by rewrite Z2Nat.id by lia. }
  cbn [mbind res_mbind res_bind].
  assert ((if CURSOR_XSZ <? 640 - x then CURSOR_XSZ else 640 - x) = Z.min 12 (640 - x)) as -> by (unfold CURSOR_XSZ; zcases).
  assert ((if CURSOR_YSZ <? 480 - y then CURSOR_YSZ else 480 - y) = Z.min 16 (480 - y)) as -> by (unfold CURSOR_YSZ; zcases).
  destruct (draw_rows_ok (Z.to_nat (Z.min 16 (480 - y))) (Z.min 12 (640 - x)) (y * 640 + x) 0 col (pixels s) fb1) as (sv & fb' & E & Hl' & Hin & _ & Hf);
    [lia|lia|by apply cursor_rows|lia|lia|done|]. rewrite Z2Nat.id in Hin, Hf by lia.
  rewrite E. cbn [mbind res_mbind res_bind]. eexists _, fb'. split; [reflexivity|]. split.
  - split; [exact Hl'|]. cbn [saved_x saved_y saved_w saved_h pixels]. destruct (Z.ltb_spec x 0); [lia|]. split_and!; try lia.
    intros k Hk. destruct (inside_rect _ _ _ k) eqn:Ek; [|rewrite Hf, Ek; by apply HP]. specialize (Hin k Ek). rewrite Z.add_0_l in Hin. rewrite Hin. by apply HP.
  - intros k Hk. rewrite Hf, HP by done. unfold over. destruct (inside_over x y k Hx Hy Hk) as [<- Hi].
    destruct (inside_rect _ _ _ k) eqn:Ek; [|done]. rewrite Z.add_0_l, Hi; [done|].
    destruct (inside_over x y k Hx Hy Hk) as [E2 _]. rewrite Ek in E2. by destruct (Z.leb_spec x (k mod 640)).
Qed.

(** C36. [draw_cursor] never loses the picture: from a frame buffer that shows a
    picture, with the cursor somewhere or nowhere, it leads to one that shows
    the same picture with the cursor at its new place, cut off at the right and
    lower edge, and it touches no memory outside of the frame buffer and its own
    array. *)
Theorem draw_cursor_keeps P x y col s fb : shown P s fb -> 0 <= x < 640 -> 0 <= y < 480 ->
  exists s' fb', draw_cursor x y col s fb = Ok (s', fb') /\ shown P s' fb' /\
    forall k, 0 <= k < NPIXELS -> pixel fb' k = over P x y col k.
Proof. apply draw_cursor_ok. Qed.

(** ** The picture *)

(** [xor]-ed coordinates as a colour of the mode. *)
Definition pattern (md : video_mode) (i j : Z) : Z :=
  let xor := Z.lxor i j in
  let r := Z.shiftr (u16 (Z.land xor 0xff)) (8 - rbits md) in
  let g := Z.shiftr (u16 (Z.land (Z.shiftl xor 1) 0xff)) (8 - gbits md) in
  let b := Z.shiftr (u16 (Z.land (Z.shiftl xor 2) 0xff)) (8 - bbits md) in
  u16 (Z.lor (Z.lor (Z.land (Z.shiftl r (rshift md)) (rmask md)) (Z.land (Z.shiftl g (gshift md)) (gmask md)))
    (Z.land (Z.shiftl b (bshift md)) (bmask md))).

Fixpoint fill_row (n : nat) (md : video_mode) (i j ptr : Z) (fb : gmap Z Z) : res (gmap Z Z) :=
  match n with
  | O => Ok fb
  | S n => fb ← put_pixel fb ptr (pattern md i j); fill_row n md i (j + 1) (ptr + 1) fb
  end.
Fixpoint fill_rows (n : nat) (md : video_mode) (i ptr : Z) (fb : gmap Z Z) : res (gmap Z Z) :=
  match n with
  | O => Ok fb
  | S n => fb ← fill_row (Z.to_nat 640) md i 0 ptr fb; fill_rows n md (i + 1) (ptr + 640) fb
  end.

Lemma fill_row_ok n md i j ptr fb : 0 <= ptr -> ptr + Z.of_nat n <= NPIXELS ->
  exists fb', fill_row n md i j ptr fb = Ok fb' /\
    forall k, pixel fb' k = if (ptr <=? k) && (k <? ptr + Z.of_nat n) then pattern md i (j + (k - ptr)) else pixel fb k.
Proof.
  revert j ptr fb. induction n as [|n IH]; intros j ptr fb H1 H2; cbn [fill_row].
  - exists fb. split; [done|]. intros k. zcases.
  - destruct (put_pixel_ok fb ptr (pattern md i j)) as (fb1 & -> & Hf1); [lia|]. cbn [mbind res_mbind res_bind].
    destruct (IH (j + 1) (ptr + 1) fb1) as (fb' & -> & Hf); [lia..|]. exists fb'. split; [done|]. intros k. rewrite Hf, Hf1. case_decide.
    + subst k. replace (j + (ptr - ptr)) with j by lia. zcases.
    + replace (j + 1 + (k - (ptr + 1))) with (j + (k - ptr)) by lia. zcases.
Qed.

Lemma fill_rows_ok n md i fb : 0 <= i -> i + Z.of_nat n <= 480 ->
  exists fb', fill_rows n md i (640 * i) fb = Ok fb' /\
    forall k, pixel fb' k = if (640 * i <=? k) && (k <? 640 * (i + Z.of_nat n)) then pattern md (k / 640) (k mod 640) else pixel fb k.
Proof.
  revert i fb. induction n as [|n IH]; intros i fb H1 H2; cbn [fill_rows].
  - exists fb. split; [done|]. intros k. zcases.
  - destruct (fill_row_ok (Z.to_nat 640) md i 0 (640 * i) fb) as (fb1 & -> & Hf1); [lia|unfold NPIXELS; lia|]. cbn [mbind res_mbind res_bind].
    replace (640 * i + 640) with (640 * (i + 1)) by lia. destruct (IH (i + 1) fb1) as (fb' & -> & Hf); [lia..|]. exists fb'. split; [done|].
    intros k. rewrite Hf, Hf1, Z2Nat.id by lia. replace (i + 1 + Z.of_nat n) with (i + Z.of_nat (S n)) by lia.
    destruct (Z.leb_spec (640 * i) k), (Z.ltb_spec k (640 * i + 640)), (Z.leb_spec (640 * (i + 1)) k), (Z.ltb_spec k (640 * (i + Z.of_nat (S n))));
      cbn [andb]; try lia; try done. f_equal; mlia.
Qed.

(** The picture is drawn whole; what [draw_cursor] keeps of it from an earlier
    demonstration is still right. *)
Lemma picture_drawn md s fb : let P k := pattern md (k / 640) (k mod 640) in
  length (pixels s) = 192%nat /\ saved_x s < 0 \/ shown P s fb ->
  exists fb', fill_rows (Z.to_nat 480) md 0 0 fb = Ok fb' /\ shown P s fb' /\ forall k, 0 <= k < NPIXELS -> pixel fb' k = P k.
Proof.
  intros P Hs. destruct (fill_rows_ok (Z.to_nat 480) md 0 fb) as (fb' & E & Hf); [lia|lia|]. exists fb'. split; [exact E|].
  assert (forall k, 0 <= k < NPIXELS -> pixel fb' k = P k) as HP.
  { intros k Hk. rewrite Hf, Z2Nat.id by lia. unfold NPIXELS in Hk.
    rewrite (proj2 (Z.leb_le _ _)), (proj2 (Z.ltb_lt _ _)) by lia. reflexivity. }
  clear E Hf. split; [|exact HP]. unfold shown in *. destruct Hs as [[Hl Hx]|[Hl Hs]]; (split; [exact Hl|]); destruct (Z.ltb_spec (saved_x s) 0); try lia; try exact HP.
  destruct Hs as (H1 & H2 & H3 & H4 & H5). split_and!; try lia; try done. intros k Hk. specialize (H5 k Hk). destruct (inside_rect _ _ _ k); [exact H5|by apply HP].
Qed.

(** ** The demonstration *)
Section vbetest.
Context `{Device} {B F : Type} (int86 : Z -> int86regs -> mem -> B -> int86regs * mem * B) (low_mem_buffer : Z).
(** Serial output, the handler of the sound card, the polls it may take, the
    sound of a click, and the interrupts of a [halt_cpu]. *)
Context (ser_putchar : Z -> IO unit) (handler : F) (polls : nat) (snd_click : list Z).
Context (halt_cpu : keyb * mouse -> IO (keyb * mouse)).

Record vtest := mk_vt {
  t_video : video (B:=B); t_con : contty; t_keyb : keyb; t_mouse : mouse;
  t_audio : audio; t_intr : intr F; t_sb : sb;
  framebuf : gmap Z Z; cur : saved; click : bool; t_world : world }.

Definition put_video (s : vtest) (v : video) : vtest :=
  mk_vt v (t_con s) (t_keyb s) (t_mouse s) (t_audio s) (t_intr s) (t_sb s) (framebuf s) (cur s) (click s) (t_world s).
Definition put_con (s : vtest) (t : contty) (w : world) : vtest :=
  mk_vt (t_video s) t (t_keyb s) (t_mouse s) (t_audio s) (t_intr s) (t_sb s) (framebuf s) (cur s) (click s) w.
Definition put_input (s : vtest) (k : keyb) (m : mouse) (w : world) : vtest :=
  mk_vt (t_video s) (t_con s) k m (t_audio s) (t_intr s) (t_sb s) (framebuf s) (cur s) (click s) w.
Definition put_sound (s : vtest) (v : video) (a : audio) (ist : intr F) (d : sb) (c : bool) (w : world) : vtest :=
  mk_vt v (t_con s) (t_keyb s) (t_mouse s) a ist d (framebuf s) (cur s) c w.
Definition put_fb (s : vtest) (cs : saved) (fb : gmap Z Z) : vtest :=
  mk_vt (t_video s) (t_con s) (t_keyb s) (t_mouse s) (t_audio s) (t_intr s) (t_sb s) fb cs (click s) (t_world s).

(** Calls of the drivers. *)
Definition video_op {A} (m : SM video A) : SM vtest A := fun s => '(a, v) ← m (t_video s); Ok (a, put_video s v).
Definition con_op (m : contty -> IO contty) : SM vtest unit := fun s => '(t, w) ← m (t_con s) (t_world s); Ok (tt, put_con s t w).

(** The list of modes; [vi] is what the last query left. *)
Fixpoint list_modes (n : nat) (i : Z) (vi : option video_mode) : SM vtest (option video_mode) :=
  match n with
  | O => mret vi
  | S n =>
      '(r, v) ← video_op (video_mode_info int86 low_mem_buffer i);
      if r =? -1 then list_modes n (i + 1) vi else
      md ← sm_lift (of_option v);
      _ ← con_op (print ser_putchar " %04x: %dx%d %d bpp" [md_mode md; width md; height md; md_bpp md]);
      _ ← (if 8 <? md_bpp md then con_op (print ser_putchar " (%d%d%d)
" [rbits md; gbits md; bbits md])
           else con_op (fun t => con_putchar ser_putchar t 10));
      list_modes n (i + 1) (Some md)
  end.

(** The colours of [vi] as the driver gives them for the mode that is set; a
    query that fails leaves them. *)
Definition set_colors (md : video_mode) (bits shifts masks : list Z) : video_mode :=
  let at_ (l : list Z) (i : nat) (d : Z) := nth i l d in
  mk_mode (md_mode md) (width md) (height md) (md_bpp md)
    (at_ bits 0%nat (rbits md)) (at_ bits 1%nat (gbits md)) (at_ bits 2%nat (bbits md))
    (at_ shifts 0%nat (rshift md)) (at_ shifts 1%nat (gshift md)) (at_ shifts 2%nat (bshift md))
    (at_ masks 0%nat (rmask md)) (at_ masks 1%nat (gmask md)) (at_ masks 2%nat (bmask md)).

(** [while(kb_getkey() != -1);] *)
Fixpoint drain_keys (fuel : nat) (k : keyb) : res keyb :=
  '(key, k) ← kb_getkey k;
  if key =? -1 then Ok k else
  match fuel with O => NoFuel | S fuel => drain_keys fuel k end.

(** The callback's answer while [click] is [c]. *)
Definition click_sound_callback (c : bool) (buf size cls : Z) : IO Z :=
  mret (if c then Z.of_nat (length snd_click) else 0).

(** [audio_play(22050, 1)]: the callback copies the sound and clears [click]. *)
Definition play_click : SM vtest unit := fun s =>
  let a := audio_set_callback (Some (click_sound_callback (click s))) 0 (t_audio s) in
  '(ist, d, w) ← audio_play polls low_mem_buffer handler a (t_intr s) (t_sb s) 22050 1 (t_world s);
  let v := if click s then set_mem (store_list (vmem (t_video s)) (buffer d) snd_click) (t_video s) else t_video s in
  Ok (tt, put_sound s v a ist d false w).

(** A button that is down and was not. *)
Definition pressed_now (st prev_st : Z) : bool :=
  existsb (fun i => let bit := Z.shiftl 1 i in
    negb (Z.land (Z.lxor (Z.land st bit) (Z.land prev_st bit)) (Z.land st bit) =? 0)) [0; 1; 2].

Definition cursor_color (st : Z) : Z :=
  if negb (Z.land st 1 =? 0) then 0xf800 else if negb (Z.land st 2 =? 0) then 0x7e0
  else if negb (Z.land st 4 =? 0) then 0xff else 0.

(** One round of [for(;;)]: [None] when a key ends it, else the buttons. *)
Definition vbetest_round (prev_st : Z) : SM vtest (option Z) := fun s =>
  '(key, k) ← kb_getkey (t_keyb s);
  let s := put_input s k (t_mouse s) (t_world s) in
  if negb (key =? -1) then Ok (None, s) else
  '(mx, my, st, m, w) ← mouse_state (t_mouse s) (t_world s);
  let s := put_input s k m w in
  let c := click s || pressed_now st prev_st in
  let s := put_sound s (t_video s) (t_audio s) (t_intr s) (t_sb s) c w in
  '(_, s) ← (if c then play_click s else Ok (tt, s));
  '(cs, fb) ← draw_cursor mx my (cursor_color st) (cur s) (framebuf s);
  let s := put_fb s cs fb in
  '(k, m, w) ← halt_cpu (t_keyb s, t_mouse s) (t_world s);
  Ok (Some st, put_input s k m w).

Fixpoint vbetest_loop (fuel : nat) (prev_st : Z) : SM vtest unit :=
  r ← vbetest_round prev_st;
  match r with
  | None => mret tt
  | Some st => match fuel with O => sm_lift NoFuel | S fuel => vbetest_loop fuel st end
  end.

Definition vbetest (fuel : nat) : SM vtest Z :=
  nmodes ← video_op (video_mode_count int86 low_mem_buffer);
  _ ← con_op (print ser_putchar "%d video modes found:
" [nmodes]);
  vi ← list_modes (Z.to_nat nmodes) 0 None;
  idx ← video_op (find_video_mode_idx int86 low_mem_buffer 640 480 16);
  if idx =? -1 then mret (-1) else
  '(_, v) ← video_op (video_mode_info int86 low_mem_buffer idx);
  vi ← sm_lift (of_option (match v with Some _ => v | None => vi end));
  fbp ← video_op (set_video_mode int86 low_mem_buffer (md_mode vi));
  if fbp =? 0 then mret (-1) else
  '(_, bits) ← video_op get_color_bits;
  '(_, shifts) ← video_op get_color_shift;
  '(_, masks) ← video_op get_color_mask;
  s ← sm_get;
  fb ← sm_lift (fill_rows (Z.to_nat 480) (set_colors vi bits shifts masks) 0 0 (framebuf s));
  k ← sm_lift (drain_keys 63 (t_keyb s));
  _ ← sm_upd (fun s => put_input (put_fb s (cur s) fb) k (set_mouse_bounds (t_mouse s) 0 0 639 479) (t_world s));
  _ ← vbetest_loop fuel 0;
  _ ← video_op (set_vga_mode int86 3);
  _ ← con_op con_clear;
  mret 0.

(** *** The sound card *)

(** A card was found, its DSP takes bytes, and handlers can be installed. *)
Record sound_ok (s : vtest) : Prop := {
  snd_drv : have_drv (t_audio s) = true;
  snd_dsp : dsp_ready polls (t_sb s);
  snd_card : sb_ok (t_sb s);
  snd_slots : length (intr_func (t_intr s)) = 256%nat }.

Lemma write_dsp_ready st v w : dsp_ready polls st -> exists w', write_dsp polls st v w = Ok (tt, w').
Proof. intros Hr. destruct (write_dsp_tame polls st v Hr w) as ([] & w' & E & _). by exists w'. Qed.

Lemma start_dma_ready st addr size : dsp_ready polls st -> sb_ok st -> tame (start_dma_transfer polls st addr size).
Proof.
  intros Hr [_ _ Hc _]. pose proof (fun v => write_dsp_tame polls st v Hr). unfold start_dma_transfer, dma_out, dma_io, mask, unmask. cbv zeta.
  assert (tame (lift (of_option (zlookup page_port (dma_chan st))) : IO Z)).
  { intros w. destruct Hc as [->|[->| ->]]; by eexists _, w. }
  tame.
Qed.

Lemma play_click_ok s : sound_ok s -> exists s', play_click s = Ok (tt, s') /\ sound_ok s' /\ click s' = false /\
  t_keyb s' = t_keyb s /\ t_mouse s' = t_mouse s /\ framebuf s' = framebuf s /\ cur s' = cur s.
Proof.
  intros [Hd Hr Hk Hl]. unfold play_click, audio_play, drv. change (have_drv (audio_set_callback _ _ _)) with (have_drv (t_audio s)). rewrite Hd.
  set (a := audio_set_callback _ _ _).
  assert (exists ist d w, sb_start (AuSb.audio_callback a) polls low_mem_buffer handler (t_intr s) (t_sb s) 22050 1 (t_world s) = Ok ((ist, d), w) /\
    length (intr_func ist) = 256%nat /\ dsp_ready polls d /\ sb_ok d) as (ist & d & w & E & Hl' & Hr' & Hk').
  2: { rewrite E. cbn [mbind res_mbind res_bind]. eexists. split; [reflexivity|]. split; [by split|done]. }
  unfold sb_start. cbv zeta. match goal with |- context [set_buffer ?x ?y (t_sb s)] => set (st := set_buffer x y (t_sb s)) end.
  assert (dsp_ready polls st) as Hr' by exact Hr. assert (sb_ok st) as Hk' by (destruct Hk; by split).
  rewrite (bind_ok (AuSb.audio_callback a _ _) _ (t_world s) (if click s then Z.of_nat (length snd_click) else 0) (t_world s) eq_refl).
  destruct (_ =? 0); [by exists (t_intr s), st, (t_world s)|].
  destruct (interrupt_spec (t_intr s) (IRQ_TO_INTR (irq st)) (Some handler) (t_world s) Hl) as (ist & E1 & _ & _ & Hl1 & _).
  { destruct Hk as [_ Hirq _ _]. unfold IRQ_TO_INTR, IRQ_OFFSET. change (irq st) with (irq (t_sb s)).
    repeat (apply elem_of_cons in Hirq as [->|Hirq]; [lia|]). by apply elem_of_nil in Hirq. }
  rewrite (bind_ok _ _ _ _ _ E1). destruct (write_dsp_ready st CMD_ENABLE_OUTPUT (t_world s) Hr') as [w1 Ew1]. rewrite (bind_ok _ _ _ _ _ Ew1).
  assert (tame (sb_set_output_rate polls st 22050)) as Hrate.
  { pose proof (fun v => write_dsp_tame polls st v Hr'). unfold sb_set_output_rate. change (22050 =? 0) with false. cbv beta iota.
    assert (tame (lift (Ok (256 - Z.quot 1000000 22050)) : IO Z)) by (intros w; by eexists _, w). tame. }
  destruct (Hrate w1) as (? & w2 & Ew2 & _). rewrite (bind_ok _ _ _ _ _ Ew2).
  destruct (start_dma_ready st (buffer_addr low_mem_buffer) (if click s then Z.of_nat (length snd_click) else 0) Hr' Hk' w2) as (? & w3 & Ew3 & _).
  rewrite (bind_ok _ _ _ _ _ Ew3). by eexists ist, st, w3.
Qed.

(** *** One round *)

(** The keys are bytes; the mouse reports by interrupts and stays on the screen. *)
Definition keys_ok (k : keyb) : Prop := keyb_ok k /\ Forall (fun c => 0 <= c < 256) (queue k).
Definition pointer_ok (m : mouse) : Prop := intr_mode m = true /\ 0 <= mx m < 640 /\ 0 <= my m < 480.

Hypothesis halt_ok : forall k m w, keys_ok k -> pointer_ok m ->
  exists k' m' w', halt_cpu (k, m) w = Ok ((k', m'), w') /\ keys_ok k' /\ pointer_ok m'.

Record demo_inv (P : Z -> Z) (s : vtest) : Prop := {
  demo_keyb : keys_ok (t_keyb s);
  demo_mouse : pointer_ok (t_mouse s);
  demo_sound : sound_ok s;
  demo_shown : shown P (cur s) (framebuf s) }.

(** A round with a sound card always comes to its end: a key ends the
    demonstration, else the picture shows the cursor where the mouse is, in the
    colour of the button that is down. *)
Theorem vbetest_round_ok P prev s : demo_inv P s ->
  (exists c q s', queue (t_keyb s) = c :: q /\ vbetest_round prev s = Ok (None, s') /\ demo_inv P s' /\ queue (t_keyb s') = q) \/
  (queue (t_keyb s) = [] /\ exists s', vbetest_round prev s = Ok (Some (bnstate (t_mouse s)), s') /\ demo_inv P s' /\
    forall k, 0 <= k < NPIXELS -> pixel (framebuf s') k = over P (mx (t_mouse s)) (my (t_mouse s)) (cursor_color (bnstate (t_mouse s))) k).
Proof.
  intros [[Hk Hb] (Hi & Hx & Hy) Hsnd Hs]. unfold vbetest_round. destruct (queue (t_keyb s)) as [|c q] eqn:Eq.
  - right. split; [done|]. rewrite (kb_getkey_nil _ Hk Eq). cbn [mbind res_mbind res_bind]. change (negb (-1 =? -1)) with false. cbv beta iota.
    cbn [t_mouse put_input t_world].
    assert (mouse_state (t_mouse s) (t_world s) = Ok (mx (t_mouse s), my (t_mouse s), bnstate (t_mouse s), t_mouse s, t_world s)) as ->
      by (unfold mouse_state; by rewrite Hi).
    cbn [mbind res_mbind res_bind]. match goal with |- context [if ?b then play_click ?t else _] => set (s1 := t); set (c := b) end.
    assert (sound_ok s1) as Hsnd1 by (destruct Hsnd; by split).
    assert (exists s2, (if c then play_click s1 else Ok (tt, s1)) = Ok (tt, s2) /\ sound_ok s2 /\
      t_keyb s2 = t_keyb s /\ t_mouse s2 = t_mouse s /\ framebuf s2 = framebuf s /\ cur s2 = cur s) as (s2 & -> & Hsnd2 & Ek & Em & Ef & Ec).
    { destruct c; [|by exists s1]. destruct (play_click_ok s1 Hsnd1) as (s2 & E & H2 & _ & H3). exists s2. split; [exact E|]. split; [exact H2|exact H3]. }
    cbn [mbind res_mbind res_bind]. rewrite Ef, Ec.
    destruct (draw_cursor_ok P (mx (t_mouse s)) (my (t_mouse s)) (cursor_color (bnstate (t_mouse s))) _ _ Hs Hx Hy) as (cs & fb & -> & Hs' & Hp).
    cbn [mbind res_mbind res_bind]. cbn [t_keyb t_mouse t_world put_fb]. rewrite Ek, Em.
    destruct (halt_ok (t_keyb s) (t_mouse s) (t_world s2) (conj Hk (eq_ind_r (Forall _) Hb Eq)) (conj Hi (conj Hx Hy))) as (k' & m' & w' & -> & Hk' & Hm').
    cbn [mbind res_mbind res_bind]. eexists. split; [reflexivity|]. split; [|exact Hp]. split; [exact Hk'|exact Hm'| |exact Hs']. destruct Hsnd2; by split.
  - apply Forall_cons in Hb as [Hc Hb]. left. destruct (kb_getkey_cons _ c q Hk Eq) as (k & E & Hk' & Hq'). rewrite E.
    cbn [mbind res_mbind res_bind]. destruct (Z.eqb_spec c (-1)); [lia|]. cbn [negb]. eexists c, q, _. split; [done|]. split; [reflexivity|].
    split; [|exact Hq']. split; [split; [exact Hk'|cbn [t_keyb put_input]; by rewrite Hq']|exact (conj Hi (conj Hx Hy))| |exact Hs]. destruct Hsnd; by split.
Qed.

(** Without a sound card a click calls the null pointer of the driver table. *)
Lemma click_without_card s : have_drv (t_audio s) = false -> play_click s = Fault.
Proof. intros Hd. unfold play_click, audio_play, drv. change (have_drv (audio_set_callback _ _ _)) with (have_drv (t_audio s)). by rewrite Hd. Qed.
End vbetest.

(** ** Witness *)
Definition saved0 : saved := mk_saved (replicate 192 0) (-1) 0 0 0.

(** At the right edge of a black screen. *)
Lemma draw_cursor_keeps_witness : shown (fun _ => 0) saved0 ∅ /\
  exists s' fb', draw_cursor 635 470 0xf800 saved0 ∅ = Ok (s', fb') /\
    shown (fun _ => 0) s' fb' /\ pixel fb' (635 + 640 * 470) = 0xffff /\ pixel fb' (636 + 640 * 472) = 0xf800 /\ pixel fb' (636 + 640 * 470) = 0.
Proof.
  assert (shown (fun _ => 0) saved0 ∅) as Hs by (split; [reflexivity|intros k Hk; reflexivity]). split; [exact Hs|].
  destruct (draw_cursor_keeps (fun _ => 0) 635 470 0xf800 saved0 ∅ Hs ltac:(lia) ltac:(lia)) as (s' & fb' & E & Hs' & Hp).
  exists s', fb'. split; [exact E|]. split; [exact Hs'|]. rewrite !Hp by (unfold NPIXELS; lia). split; [|split]; reflexivity.
Defined.
