(* ===== verification/Report.v ===== *)
(** * Functions that print (src/panic.c and parts of the other files)

    What [panic] shows before it halts, the tables that part.c, pci.c, vbe.c
    and mem.c print, the names au_sb.c gives to sound cards, and the calendar
    time as text of time.c. A string argument is its place in the list of
    strings of the call. The theorems give the text, from the meaning of
    formats in Stdio.v. *)
From S2P Require Import Prelude Memory Ctype Str Convert Int86 Pci Part AuSb Video Mem Time Io Contty Stdio.

(** ** Printing *)

(** The string at an address: the addresses of a call's strings are their
    places in [l]. *)
Definition strings (l : list (list Z)) (a : Z) : list Z := default [] (zlookup l a).

(** Formats as lists of items. *)
Definition lits (s : string) : list item := Lit <$> codes s.
Definition conv (k : kind) : item := Dir (mk_dir false false false false [] k).
Definition zeros (w : string) (k : kind) : item := Dir (mk_dir false false false true (codes w) k).
Definition right (w : string) (k : kind) : item := Dir (mk_dir false false false false (codes w) k).
Definition left (w : string) (k : kind) : item := Dir (mk_dir true false false false (codes w) k).

(** The items are formatted as C prescribes, giving [txt]; [sp] as in Stdio.v. *)
Definition renders (f : Z -> list Z) (sp : spec) (l : list item) (args txt : list Z) : Prop :=
  Forall item_ok l /\ regular_format f sp l args = true /\ std_text f l args = txt.

Lemma renders_nil f sp args : renders f sp [] args [].
Proof. split; [constructor|]. split; [|by destruct args]. by destruct args. Qed.
Lemma renders_lits f sp s l args txt : forallb (fun c => negb (c =? 37)) (codes s) = true -> renders f sp l args txt ->
  renders f sp (lits s ++ l) args (codes s ++ txt).
Proof.
  unfold lits. generalize (codes s). intros cs Hc (Hi & Hr & Ht). induction cs as [|c cs IH]; [by split_and!|].
  cbn [forallb] in Hc. apply andb_true_iff in Hc as [Hc Hcs]. destruct (IH Hcs) as (Hi' & Hr' & Ht'). split_and!.
  - constructor; [by destruct (Z.eqb_spec c 37)|done].
  - exact Hr'.
  - cbn [fmap list_fmap app std_text]. by rewrite Ht'.
Qed.
Lemma renders_dir f sp d l w args t1 txt : item_ok (Dir d) -> regular f sp d w = true -> std_dir f d w = t1 ->
  renders f (leave sp d) l args txt -> renders f sp (Dir d :: l) (w :: args) (t1 ++ txt).
Proof. intros H1 H2 H3 (Hi & Hr & Ht). split; [by constructor|]. cbn [regular_format std_text]. by rewrite H2, Hr, H3, Ht. Qed.

Lemma renders_text f l args txt : renders f spec0 l args txt -> exists n st, text_of f (print_format l) args = Ok (n, st) /\ out st = txt.
Proof. intros (Hi & Hr & <-). destruct (text_of_format f l args Hi Hr) as (st & E & Ho & _). by exists (s32 (strlen (std_text f l args))), st. Qed.

Section print.
Context (ser_putchar : Z -> IO unit).

(** [printf] on the console. *)
Definition print_at (str_at : Z -> list Z) (fmt args : list Z) (t : contty) : IO contty := fun w =>
  match printf ser_putchar str_at fmt args (t, w) with
  | Ok (_, st) => Ok (out st)
  | Panic => Panic
  | Fault => Fault
  | NoFuel => NoFuel
  end.
Definition print_s (l : list (list Z)) (fmt : string) (args : list Z) : contty -> IO contty :=
  print_at (strings l) (codes fmt) args.

(** [m] shows the text [txt]. *)
Definition shows_text (m : contty -> IO contty) (txt : list Z) : Prop := forall t w, m t w = put_all ser_putchar txt t w.

Hypothesis ser_total : forall c w, exists w', ser_putchar c w = Ok (tt, w').

Lemma print_at_shows str_at fmt args n st : text_of str_at fmt args = Ok (n, st) -> shows_text (print_at str_at fmt args) (out st).
Proof.
  intros E t w. unfold print_at. destruct (printf_shows ser_putchar ser_total _ _ _ _ _ t w E) as (st' & -> & -> & _). done.
Qed.
Lemma print_items_shows str_at fmt args items txt :
  text_of str_at fmt args = text_of str_at (print_format items) args ->
  renders str_at spec0 items args txt -> shows_text (print_at str_at fmt args) txt.
Proof.
  intros Hf Hr. destruct (renders_text _ _ _ _ Hr) as (n & st & E & <-). rewrite <- Hf in E. by apply (print_at_shows _ _ _ n).
Qed.
Lemma print_s_shows l fmt args items txt :
  text_of (strings l) (codes fmt) args = text_of (strings l) (print_format items) args ->
  renders (strings l) spec0 items args txt -> shows_text (print_s l fmt args) txt.
Proof. apply print_items_shows. Qed.

Lemma shows_seq m1 m2 t1 t2 : shows_text m1 t1 -> shows_text m2 t2 -> shows_text (fun t => t ← m1 t; m2 t) (t1 ++ t2).
Proof.
  intros H1 H2 t w. rewrite put_all_app. unfold mbind, io_mbind. rewrite H1. destruct (put_all ser_putchar t1 t w) as [[t' w']| | |]; [apply H2|done..].
Qed.
End print.

(** ** Calendar time *)
Definition wday : list string := ["Sun"; "Mon"; "Tue"; "Wed"; "Thu"; "Fri"; "Sat"]%string.
Definition mon : list string := ["Jan"; "Feb"; "Mar"; "Apr"; "May"; "Jun"; "Jul"; "Aug"; "Sep"; "Oct"; "Nov"; "Dec"]%string.

Definition asctime_r (t : tm) (buf : Z) (m : mem) : res mem :=
  wd ← of_option (zlookup wday (tm_wday t));
  mo ← of_option (zlookup mon (tm_mon t));
  '(_, st) ← sprintf (strings [codes wd; codes mo]) buf (codes "%s %s %d %02d:%02d:%02d %d
") [0; 1; tm_mday t; tm_hour t; tm_min t; tm_sec t; s32 (tm_year t + 1900)] m;
  Ok (out st).
(** The static buffer of [asctime], of 64 bytes, is at [buf]. *)
Definition asctime (t : tm) (buf : Z) (m : mem) : res (Z * mem) := m ← asctime_r t buf m; Ok (buf, m).

Definition asctime_format : list item :=
  [conv KStr] ++ lits " " ++ [conv KStr] ++ lits " " ++ [conv KDec] ++ lits " " ++ [zeros "2" KDec] ++ lits ":" ++
  [zeros "2" KDec] ++ lits ":" ++ [zeros "2" KDec] ++ lits " " ++ [conv KDec] ++ [Lit 10].

(** Two digits. *)
Definition two_digits (n : Z) : list Z := [48 + n / 10; 48 + n mod 10].
(** ["Www Mmm d hh:mm:ss yyyy\n"] *)
Definition asctime_text (t : tm) : list Z :=
  codes (nth (Z.to_nat (tm_wday t)) wday ""%string) ++ [32] ++ codes (nth (Z.to_nat (tm_mon t)) mon ""%string) ++ [32] ++
  number 10 (tm_mday t) ++ [32] ++ two_digits (tm_hour t) ++ [58] ++ two_digits (tm_min t) ++ [58] ++ two_digits (tm_sec t) ++ [32] ++
  number 10 (tm_year t + 1900) ++ [10].

(** The common conversions. *)
Lemma renders_two f l n args txt : 0 <= n < 100 -> renders f spec0 l args txt ->
  renders f spec0 (zeros "2" KDec :: l) (n :: args) (two_digits n ++ txt).
Proof.
  intros Hn. assert (n ∈ zseq 0 100) as Hin by (apply elem_of_zseq; lia).
  assert (forallb (fun n => regular f spec0 (mk_dir false false false true (codes "2") KDec) n &&
    bool_decide (std_dir f (mk_dir false false false true (codes "2") KDec) n = two_digits n)) (zseq 0 100) = true) as Hall by by vm_compute.
  rewrite forallb_forall in Hall. specialize (Hall n (proj1 (list_elem_of_In _ _) Hin)).
  apply andb_true_iff in Hall as [H1 H2%bool_decide_eq_true]. apply (renders_dir f spec0 (mk_dir false false false true (codes "2") KDec)); [|done..].
  split; [by repeat constructor|]. by vm_compute.
Qed.
Lemma renders_dec f l n args txt : 0 <= n < 2147483648 -> renders f spec0 l args txt ->
  renders f spec0 (conv KDec :: l) (n :: args) (number 10 n ++ txt).
Proof.
  intros Hn. apply (renders_dir f spec0 (mk_dir false false false false [] KDec)).
  - split; [constructor|]. by vm_compute.
  - unfold regular. cbn -[s32]. rewrite s32_small by lia. destruct (Z.ltb_spec (-2147483648) n); [|lia]. by destruct (0 <=? n).
  - unfold std_dir, std_parts. cbn [d_kind d_plus flag]. rewrite s32_small by lia. destruct (Z.ltb_spec n 0); [lia|].
    rewrite std_field_nil by done. by rewrite Z.abs_eq by lia.
Qed.
Lemma renders_str f l a args t1 txt : f a = t1 -> renders f spec0 l args txt -> renders f spec0 (conv KStr :: l) (a :: args) (t1 ++ txt).
Proof.
  intros <-.
  apply (renders_dir f spec0 (mk_dir false false false false [] KStr)); [split; [constructor|by vm_compute]|done|]. unfold std_dir, std_parts. cbn [d_kind]. by rewrite std_field_nil.
Qed.

(** What [asctime] needs of the structure. *)
Definition tm_printable (t : tm) : Prop := tm_fields_ok t /\ 0 <= tm_wday t < 7.

Lemma mday_range t : tm_fields_ok t -> 1 <= tm_mday t <= 31.
Proof.
  intros (_ & Hm & Hd & _). split; [lia|]. etrans; [apply Hd|]. assert (tm_mon t ∈ zseq 0 12) as Hin by (apply elem_of_zseq; lia).
  assert (forallb (fun m => (month_len true m <=? 31) && (month_len false m <=? 31)) (zseq 0 12) = true) as Hall by by vm_compute.
  rewrite forallb_forall in Hall. specialize (Hall _ (proj1 (list_elem_of_In _ _) Hin)). apply andb_true_iff in Hall as [H1%Z.leb_le H2%Z.leb_le].
  by destruct (is_leap_year _).
Qed.

Lemma asctime_renders wd mo t : tm_printable t ->
  renders (strings [wd; mo]) spec0 asctime_format [0; 1; tm_mday t; tm_hour t; tm_min t; tm_sec t; s32 (tm_year t + 1900)]
    (wd ++ [32] ++ mo ++ [32] ++ number 10 (tm_mday t) ++ [32] ++ two_digits (tm_hour t) ++ [58] ++
     two_digits (tm_min t) ++ [58] ++ two_digits (tm_sec t) ++ [32] ++ number 10 (tm_year t + 1900) ++ [10]).
Proof.
  intros [Ht Hw]. pose proof (mday_range t Ht) as Hd. destruct Ht as (Hy & Hm & _ & Hh & Hmi & Hs). rewrite s32_small by lia.
  unfold asctime_format. cbn [app].
  apply (renders_str _ _ _ _ wd); [done|]. apply (renders_lits _ _ " "); [done|]. apply (renders_str _ _ _ _ mo); [done|].
  apply (renders_lits _ _ " "); [done|]. apply renders_dec; [lia|]. apply (renders_lits _ _ " "); [done|].
  apply renders_two; [lia|]. apply (renders_lits _ _ ":"); [done|]. apply renders_two; [lia|]. apply (renders_lits _ _ ":"); [done|].
  apply renders_two; [lia|]. apply (renders_lits _ _ " "); [done|]. apply renders_dec; [lia|]. split; [by repeat constructor|done].
Qed.

Lemma length_number base n : strlen (number base n) <= 11.
Proof. unfold strlen, number. pose proof (length_positional 11 base n). lia. Qed.

Lemma name_length (l : list string) i s : zlookup l i = Some s -> Forall (fun s => strlen (codes s) = 3) l -> strlen (codes s) = 3.
Proof. unfold zlookup. destruct (i <? 0); [done|]. intros Hs Hl. by apply (Forall_lookup_1 _ _ _ _ Hl Hs). Qed.

(** [asctime] of every date and time from 1970 on writes the day, the month, the
    day of the month, the time with two digits each and the year, and ends the
    string; its buffer of 64 bytes is large enough. *)
Theorem asctime_correct t buf m : tm_printable t -> 0 < buf -> buf + 64 <= 4294967296 ->
  exists m', asctime t buf m = Ok (buf, m') /\ text_at m buf (asctime_text t) m' /\ strlen (asctime_text t) < 64.
Proof.
  intros Ht Hb1 Hb2. pose proof Ht as [(_ & Hm & _) Hw].
  destruct (zlookup_is_Some wday (tm_wday t)) as [wd Ewd]; [cbn; lia|]. destruct (zlookup_is_Some mon (tm_mon t)) as [mo Emo]; [cbn; lia|].
  assert (asctime_text t = codes wd ++ [32] ++ codes mo ++ [32] ++ number 10 (tm_mday t) ++ [32] ++ two_digits (tm_hour t) ++ [58] ++
     two_digits (tm_min t) ++ [58] ++ two_digits (tm_sec t) ++ [32] ++ number 10 (tm_year t + 1900) ++ [10]) as ->.
  { unfold asctime_text, zlookup in *. destruct (Z.ltb_spec (tm_wday t) 0), (Z.ltb_spec (tm_mon t) 0); try lia.
    by rewrite (nth_lookup_Some _ _ _ _ Ewd), (nth_lookup_Some _ _ _ _ Emo). }
  destruct (renders_text _ _ _ _ (asctime_renders (codes wd) (codes mo) t Ht)) as (n & st & E & Ho).
  pose proof (name_length wday _ _ Ewd ltac:(by repeat constructor)) as Lw. pose proof (name_length mon _ _ Emo ltac:(by repeat constructor)) as Lm.
  assert (strlen (out st) < 64) as Hlen.
  { rewrite Ho. rewrite !strlen_app. pose proof (length_number 10 (tm_mday t)). pose proof (length_number 10 (tm_year t + 1900)).
    unfold two_digits. unfold strlen at 2 4 6 7 8 9 10 11 12 14. cbn [length]. lia. }
  destruct (snprintf_text (strings [codes wd; codes mo]) buf 0 _ _ m n st E) as (st' & E' & Ht'); [lia|lia|lia|by left|].
  rewrite Ho in *. exists (out st'). split; [|done]. unfold asctime, asctime_r. rewrite Ewd, Emo. cbn [of_option mbind res_mbind res_bind].
  change (sprintf (strings [codes wd; codes mo]) buf (codes "%s %s %d %02d:%02d:%02d %d
")) with (snprintf (strings [codes wd; codes mo]) buf 0 (print_format asctime_format)). by rewrite E'.
Qed.

(** ** Partition tables *)
Definition partypes : list (Z * string) := [
  (0, "empty"); (0x01, "fat12"); (0x02, "xenix root"); (0x03, "xenix usr"); (0x04, "fat16 (small)");
  (0x05, "extended"); (0x06, "fat16"); (0x07, "hpfs/ntfs"); (0x08, "aix"); (0x09, "aix bootable");
  (0x0a, "os/2 boot manager"); (0x0b, "fat32 (chs)"); (0x0c, "fat32 (lba)"); (0x0e, "fat16 (lba)");
  (0x0f, "extended (lba)"); (0x11, "hidden fat12"); (0x12, "compaq diagnostics"); (0x14, "hidden fat16 (small)");
  (0x16, "hidden fat16"); (0x17, "hidden hpfs/ntfs"); (0x1b, "hidden fat32"); (0x1c, "hidden fat32 (lba)");
  (0x1d, "hidden fat16 (lba)"); (0x24, "nec dos"); (0x27, "windows recovery"); (0x39, "plan 9");
  (0x3c, "partition magic"); (0x4d, "qnx"); (0x4e, "qnx 2nd"); (0x4f, "qnx 3rd"); (0x52, "cp/m"); (0x63, "hurd/sysv");
  (0x64, "netware 286"); (0x65, "netware 386"); (0x80, "minix (old)"); (0x81, "minix"); (0x82, "linux swap/solaris");
  (0x83, "linux"); (0x84, "windows suspend"); (0x85, "linux extended"); (0x86, "ntfs volume?"); (0x87, "ntfs volume?");
  (0x88, "linux plaintext"); (0x8e, "linux lvm"); (0x9f, "bsd/os"); (0xa0, "laptop diagnostic");
  (0xa5, "freebsd slice"); (0xa6, "openbsd slice"); (0xa7, "nextstep"); (0xa8, "darwin ufs"); (0xa9, "netbsd slice");
  (0xab, "darwin boot"); (0xaf, "hfs/hfs+"); (0xb7, "bsdi"); (0xb8, "bsdi swap"); (0xbe, "solaris boot");
  (0xbf, "solaris"); (0xde, "dell diagnostic"); (0xeb, "beos"); (0xee, "gpt"); (0xef, "efi (fat)");
  (0xf0, "linux/pa-risc boot"); (0xf2, "dos secondary"); (0xfb, "vmware vmfs"); (0xfc, "vmware vmkcore");
  (0xfd, "linux raid auto")]%string.

Fixpoint find_ptype (type : Z) (l : list (Z * string)) : string :=
  match l with
  | [] => "unknown"
  | (ty, name) :: l => if ty =? type then name else find_ptype type l
  end.
Definition ptype_name (type : Z) : string := find_ptype type partypes.

Section partitions.
Context (ser_putchar : Z -> IO unit).

(** The line of partition [i]; of the two words of [%llu] the first is shown. *)
Definition print_partition (i : Z) (p : partition) (t : contty) : IO contty :=
  t ← print_s ser_putchar [] "%d%c " [i; if PART_IS_ACT (attr p) then 42 else 32] t;
  t ← print_s ser_putchar [codes (if PART_IS_PRIM (attr p) then "pri" else "log"); codes (ptype_name (PART_TYPE (attr p)))]
        "(%s) %-20s " [0; 1] t;
  t ← print_s ser_putchar [] "start: %-10llu " [start_sect p; 0] t;
  print_s ser_putchar [] "size: %-10llu
" [size_sect p; 0] t.

Fixpoint print_partitions (i : Z) (l : list partition) (t : contty) : IO contty :=
  match l with
  | [] => mret t
  | p :: l => t ← print_partition i p t; print_partitions (i + 1) l t
  end.

(** [npart] entries of the table. *)
Definition print_partition_table (ptab : list partition) (t : contty) : IO contty :=
  t ← print_s ser_putchar [] "Found %d partitions
" [Z.of_nat (length ptab)] t;
  print_partitions 0 ptab t.
End partitions.

(** Every type of the table has its name, and no name hides another. *)
Lemma ptype_name_table : Forall (fun e => ptype_name (fst e) = snd e) partypes.
Proof. apply (bool_decide_unpack _). by vm_compute. Qed.

Lemma renders_end f sp l args : regular_format f sp (lits l) args = true -> forallb (fun c => negb (c =? 37)) (codes l) = true ->
  renders f sp (lits l) args (codes l).
Proof.
  intros _ Hc. rewrite <- (app_nil_r (lits l)), <- (app_nil_r (codes l)). apply renders_lits; [done|apply renders_nil].
Qed.
Lemma renders_char f l c args txt : 0 <= c < 128 -> renders f spec0 l args txt -> renders f spec0 (conv KChar :: l) (c :: args) (c :: txt).
Proof.
  intros Hc. apply (renders_dir f spec0 (mk_dir false false false false [] KChar) l c args [c]); [split; [constructor|by vm_compute]|done|].
  unfold std_dir, std_parts. cbn [d_kind]. rewrite std_field_nil by done. unfold s8. rewrite Z.mod_small by lia. cbn [app]. f_equal. lia.
Qed.

(** Padded on the right. *)
Definition pad_right (w : Z) (t : list Z) : list Z := t ++ replicate (Z.to_nat (w - strlen t)) 32.

Lemma renders_left f w k l a args t1 txt : item_ok (left w k) -> regular f spec0 (mk_dir true false false false (codes w) k) a = true ->
  std_parts f (mk_dir true false false false (codes w) k) a = ([], t1) ->
  renders f (leave spec0 (mk_dir true false false false (codes w) k)) l args txt ->
  renders f spec0 (left w k :: l) (a :: args) (pad_right (atoi (codes w)) t1 ++ txt).
Proof.
  intros Hi Hr Hp. apply (renders_dir f spec0 (mk_dir true false false false (codes w) k)); [done..|].
  unfold std_dir. rewrite Hp. unfold std_field, pad_right. cbn [d_left d_width app]. done.
Qed.

(** The letter [l] before a conversion is skipped. *)
Lemma text_of_start f a b : text_of f (codes "start: %-10llu ") [a; b] = text_of f (print_format (lits "start: " ++ [left "10" KUns] ++ lits " ")) [a; b].
Proof. reflexivity. Qed.
Lemma text_of_size f a b : text_of f (codes "size: %-10llu
") [a; b] = text_of f (print_format (lits "size: " ++ [left "10" KUns] ++ [Lit 10])) [a; b].
Proof. reflexivity. Qed.

Definition u32_ok (n : Z) : Prop := 0 <= n < 4294967296.

Lemma renders_left_uns f w n l args txt :
  item_ok (left w KUns) -> u32_ok n -> renders f (leave spec0 (mk_dir true false false false (codes w) KUns)) l args txt ->
  renders f spec0 (left w KUns :: l) (n :: args) (pad_right (atoi (codes w)) (number 10 n) ++ txt).
Proof.
  intros Hi Hn. apply renders_left; [done|done|]. unfold std_parts. cbn [d_kind]. by rewrite u32_small.
Qed.

(** The line of a partition. *)
Definition partition_text (i : Z) (p : partition) : list Z :=
  number 10 i ++ [if PART_IS_ACT (attr p) then 42 else 32] ++ codes " (" ++
  codes (if PART_IS_PRIM (attr p) then "pri" else "log") ++ codes ") " ++
  pad_right 20 (codes (ptype_name (PART_TYPE (attr p)))) ++ codes " start: " ++ pad_right 10 (number 10 (start_sect p)) ++
  codes " size: " ++ pad_right 10 (number 10 (size_sect p)) ++ [10].
Definition partition_lines (i : Z) (l : list partition) : list Z :=
  concat (zip_with partition_text (zseq i (length l)) l).

Definition sectors_ok (p : partition) : Prop := u32_ok (start_sect p) /\ u32_ok (size_sect p).


Section shown.
Context (ser_putchar : Z -> IO unit).
Hypothesis ser_total : forall c w, exists w', ser_putchar c w = Ok (tt, w').

Lemma print_partition_shows i p : 0 <= i < 2147483648 -> sectors_ok p ->
  shows_text ser_putchar (print_partition ser_putchar i p) (partition_text i p).
Proof.
  intros Hi [Hs Hz]. unfold print_partition, partition_text.
  replace (number 10 i ++ _) with ((number 10 i ++ [if PART_IS_ACT (attr p) then 42 else 32] ++ codes " ") ++
    (codes "(" ++ codes (if PART_IS_PRIM (attr p) then "pri" else "log") ++ codes ") " ++
     pad_right 20 (codes (ptype_name (PART_TYPE (attr p)))) ++ codes " ") ++
    (codes "start: " ++ pad_right 10 (number 10 (start_sect p)) ++ codes " ") ++
    (codes "size: " ++ pad_right 10 (number 10 (size_sect p)) ++ [10])) by by rewrite <- !app_assoc.
  apply shows_seq; [|apply shows_seq; [|apply shows_seq]].
  - apply (print_s_shows _ ser_total _ _ _ ([conv KDec] ++ [conv KChar] ++ lits " ")); [reflexivity|].
    apply renders_dec; [done|]. apply renders_char; [by destruct (PART_IS_ACT _)|]. by apply renders_end.
  - apply (print_s_shows _ ser_total _ _ _ (lits "(" ++ [conv KStr] ++ lits ") " ++ [left "20" KStr] ++ lits " ")); [reflexivity|].
    apply renders_lits; [done|]. apply renders_str; [done|]. apply renders_lits; [done|].
    apply (renders_left _ "20"); [|done|done|]. 2: by apply renders_end.
    split; [by repeat constructor|by vm_compute].
  - apply (print_s_shows _ ser_total _ _ _ (lits "start: " ++ [left "10" KUns] ++ lits " ")); [apply text_of_start|].
    apply renders_lits; [done|]. apply (renders_left_uns _ "10"); [|done|]. 2: by apply renders_end.
    split; [by repeat constructor|by vm_compute].
  - apply (print_s_shows _ ser_total _ _ _ (lits "size: " ++ [left "10" KUns] ++ [Lit 10])); [apply text_of_size|].
    apply renders_lits; [done|]. apply (renders_left_uns _ "10"); [|done|]. 2: by split; [repeat constructor|].
    split; [by repeat constructor|by vm_compute].
Qed.

Lemma print_partitions_shows i l : 0 <= i -> i + Z.of_nat (length l) <= 2147483648 -> Forall sectors_ok l ->
  shows_text ser_putchar (print_partitions ser_putchar i l) (partition_lines i l).
Proof.
  intros Hi Hl Hok. revert i Hi Hl. induction Hok as [|p l Hp Hok IH]; intros i Hi Hl; [done|]. cbn [length] in Hl.
  unfold partition_lines. cbn [length zseq zip_with concat print_partitions]. apply shows_seq.
  - apply print_partition_shows; [lia|done].
  - apply IH; lia.
Qed.

(** [print_partition_table] shows the number of partitions and then a line for
    each one, with its number, a star when it is active, primary or logical,
    the name of its type, its first sector and its size. *)
Theorem print_partition_table_shows l : Z.of_nat (length l) < 2147483648 -> Forall sectors_ok l ->
  shows_text ser_putchar (print_partition_table ser_putchar l)
    (codes "Found " ++ number 10 (Z.of_nat (length l)) ++ codes " partitions
" ++ partition_lines 0 l).
Proof.
  intros Hl Hok. unfold print_partition_table.
  replace (codes "Found " ++ _) with ((codes "Found " ++ number 10 (Z.of_nat (length l)) ++ codes " partitions
") ++ partition_lines 0 l) by by rewrite <- !app_assoc.
  apply shows_seq; [|apply print_partitions_shows; [lia..|done]].
  apply (print_s_shows _ ser_total _ _ _ (lits "Found " ++ [conv KDec] ++ lits " partitions
")); [reflexivity|]. apply renders_lits; [done|]. apply renders_dec; [lia|]. by apply renders_end.
Qed.
End shown.

(** ** Names of sound cards *)
Definition sbname (ver : Z) : string :=
  let major := VER_MAJOR ver in
  let minor := VER_MINOR ver in
  let other := "Unknown Sound Blaster"%string in
  if major =? 1 then if minor =? 5 then "Sound Blaster 1.5" else "Sound Blaster 1.0" else
  if major =? 2 then if (minor =? 1) || (minor =? 2) then "Sound Blaster 2.0" else other else
  if major =? 3 then
    if minor =? 0 then "Sound Blaster Pro" else if (minor =? 1) || (minor =? 2) then "Sound Blaster Pro 2" else
    if minor =? 5 then "Gallant SC-6000" else other else
  if major =? 4 then
    if (minor =? 4) || (minor =? 5) then "Sound Blaster 16" else if minor =? 11 then "Sound Blaster 16 SCSI-2" else
    if minor =? 12 then "Sound Blaster AWE 32" else if minor =? 13 then "Sound Blaster ViBRA16C" else
    if minor =? 16 then "Sound Blaster AWE 64" else other else
  other.

(** ** panic.c *)
(** [cr0] and so on; selectors have 16 bits. *)
Record all_registers := mk_all {
  r_eax : Z; r_ebx : Z; r_ecx : Z; r_edx : Z; r_esp : Z; r_ebp : Z; r_esi : Z; r_edi : Z; r_eflags : Z;
  r_cs : Z; r_ss : Z; r_ds : Z; r_es : Z; r_fs : Z; r_gs : Z; r_cr0 : Z; r_cr1 : Z; r_cr2 : Z; r_cr3 : Z }.

(** regs.s: [cpu] are the registers of the CPU; there is no [cr1] to read, so
    the zero of [memset] stays. *)
Definition get_regs (cpu : all_registers) : all_registers :=
  mk_all (u32 (r_eax cpu)) (u32 (r_ebx cpu)) (u32 (r_ecx cpu)) (u32 (r_edx cpu)) (u32 (r_esp cpu)) (u32 (r_ebp cpu))
    (u32 (r_esi cpu)) (u32 (r_edi cpu)) (u32 (r_eflags cpu)) (u16 (r_cs cpu)) (u16 (r_ss cpu)) (u16 (r_ds cpu)) (u16 (r_es cpu))
    (u16 (r_fs cpu)) (u16 (r_gs cpu)) (u32 (r_cr0 cpu)) 0 (u32 (r_cr2 cpu)) (u32 (r_cr3 cpu)).

Section panic.
Context (ser_putchar : Z -> IO unit).
(** The BIOS; its effect on the picture is outside. *)
Context (int86 : Z -> int86regs -> IO int86regs).

Definition print_selector (fmt : string) (v : Z) : contty -> IO contty :=
  print_s ser_putchar [] fmt [v; Z.shiftr v 3; Z.land v 3].

(** The registers as [panic] prints them. *)
Definition print_registers (regs : all_registers) (eip : Z) (t : contty) : IO contty :=
  let pr := print_s ser_putchar [] in
  t ← pr "
Registers:
" [] t;
  t ← pr "eax: %x, ebx: %x, ecx: %x, edx: %x
" [r_eax regs; r_ebx regs; r_ecx regs; r_edx regs] t;
  t ← pr "esp: %x, ebp: %x, esi: %x, edi: %x
" [r_esp regs; r_ebp regs; r_esi regs; r_edi regs] t;
  t ← pr "eip: %x, eflags: %x
" [eip; r_eflags regs] t;
  t ← pr "cr0: %x, cr1: %x, cr2: %x, cr3: %x
" [r_cr0 regs; r_cr1 regs; r_cr2 regs; r_cr3 regs] t;
  t ← print_selector "cs: %x (%d|%d)
" (r_cs regs) t;
  t ← print_selector "ss: %x (%d|%d)
" (r_ss regs) t;
  t ← print_selector "ds: %x (%d|%d)
" (r_ds regs) t;
  t ← print_selector "es: %x (%d|%d)
" (r_es regs) t;
  t ← print_selector "fs: %x (%d|%d)
" (r_fs regs) t;
  print_selector "gs: %x (%d|%d)
" (r_gs regs) t.

(** Everything before [for(;;) halt_cpu()]; [eip] is what [CALLER_EIP] finds. *)
Definition panic_report (str_at : Z -> list Z) (fmt args : list Z) (cpu : all_registers) (eip : Z) (t : contty) : IO contty :=
  _ ← int86 0x10 (regs_in 3 0 0 0 0 0);
  _ ← disable_intr;
  let regs := get_regs cpu in
  t ← print_s ser_putchar [] "~~~~~ pcboot panic ~~~~~
" [] t;
  t ← print_at ser_putchar str_at fmt args t;
  print_registers regs eip t.
Definition panic (str_at : Z -> list Z) (fmt args : list Z) (cpu : all_registers) (eip : Z) (t : contty) : IO unit :=
  _ ← panic_report str_at fmt args cpu eip t;
  lift Panic.
End panic.

(** Conversions without width in any state that earlier ones leave. *)
Lemma renders_hex f sp n l args txt : u32_ok n -> renders f (leave sp (mk_dir false false false false [] (KHex false))) l args txt ->
  renders f sp (conv (KHex false) :: l) (n :: args) (number 16 n ++ txt).
Proof.
  intros Hn. apply (renders_dir f sp (mk_dir false false false false [] (KHex false))).
  - split; [constructor|]. by vm_compute.
  - unfold regular. cbn. by rewrite orb_true_r.
  - unfold std_dir, std_parts. cbn [d_kind d_alt andb]. rewrite std_field_nil by done. rewrite u32_small by done. cbn [app].
    by rewrite list_fmap_id.
Qed.
Lemma renders_decimal f sp n l args txt : sign sp = false -> 0 <= n < 2147483648 ->
  renders f (leave sp (mk_dir false false false false [] KDec)) l args txt -> renders f sp (conv KDec :: l) (n :: args) (number 10 n ++ txt).
Proof.
  intros Hsp Hn. apply (renders_dir f sp (mk_dir false false false false [] KDec)).
  - split; [constructor|]. by vm_compute.
  - unfold regular. cbn -[s32]. rewrite s32_small by lia. rewrite Hsp, orb_true_r. destruct (Z.ltb_spec (-2147483648) n); [|lia].
    destruct (Z.leb_spec 0 n); [|lia]. by destruct (unsig sp).
  - unfold std_dir, std_parts. cbn [d_kind d_plus flag]. rewrite s32_small by lia. destruct (Z.ltb_spec n 0); [lia|].
    rewrite std_field_nil by done. by rewrite Z.abs_eq by lia.
Qed.

Lemma renders_lit f sp c l args txt : c <> 37 -> renders f sp l args txt -> renders f sp ([Lit c] ++ l) args ([c] ++ txt).
Proof. intros Hc (Hi & Hr & Ht). split; [by constructor|]. split; [exact Hr|]. cbn [app std_text]. by rewrite Ht. Qed.

(** Goes through the items of a format. *)
Ltac render := repeat first
  [ apply renders_end; reflexivity
  | apply renders_lits; [reflexivity|]
  | apply renders_hex; [done|]
  | apply renders_decimal; [reflexivity|done|]
  | apply renders_str; [reflexivity|] ].

Section panicked.
Context (ser_putchar : Z -> IO unit).
Hypothesis ser_total : forall c w, exists w', ser_putchar c w = Ok (tt, w').

(** ["name: hex"] *)
Definition reg_text (name : string) (v : Z) : list Z := codes name ++ number 16 v.
Definition selector_text (name : string) (v : Z) : list Z :=
  codes name ++ number 16 v ++ codes " (" ++ number 10 (v / 8) ++ codes "|" ++ number 10 (v mod 4) ++ codes ")
".
Definition registers_text (r : all_registers) (eip : Z) : list Z :=
  codes "
Registers:
" ++ (reg_text "eax: " (r_eax r) ++ reg_text ", ebx: " (r_ebx r) ++ reg_text ", ecx: " (r_ecx r) ++ reg_text ", edx: " (r_edx r) ++ codes "
") ++ (reg_text "esp: " (r_esp r) ++ reg_text ", ebp: " (r_ebp r) ++ reg_text ", esi: " (r_esi r) ++ reg_text ", edi: " (r_edi r) ++ codes "
") ++ (reg_text "eip: " eip ++ reg_text ", eflags: " (r_eflags r) ++ codes "
") ++ (reg_text "cr0: " (r_cr0 r) ++ reg_text ", cr1: " (r_cr1 r) ++ reg_text ", cr2: " (r_cr2 r) ++ reg_text ", cr3: " (r_cr3 r) ++ codes "
") ++ selector_text "cs: " (r_cs r) ++ selector_text "ss: " (r_ss r) ++ selector_text "ds: " (r_ds r) ++ selector_text "es: " (r_es r) ++
  selector_text "fs: " (r_fs r) ++ selector_text "gs: " (r_gs r).

Lemma four_shown fmt a b c d na nb nc nd : 
  text_of (strings []) (codes fmt) [a; b; c; d] = text_of (strings []) (print_format (lits na ++ conv (KHex false) :: lits nb ++
    conv (KHex false) :: lits nc ++ conv (KHex false) :: lits nd ++ conv (KHex false) :: lits "
")) [a; b; c; d] -> Forall (fun s => forallb (fun c => negb (c =? 37)) (codes s) = true) [na; nb; nc; nd] ->
  u32_ok a -> u32_ok b -> u32_ok c -> u32_ok d ->
  shows_text ser_putchar (print_s ser_putchar [] fmt [a; b; c; d])
    (reg_text na a ++ reg_text nb b ++ reg_text nc c ++ reg_text nd d ++ codes "
").
Proof.
  intros Hf Hn Ha Hb Hc Hd. apply (print_s_shows _ ser_total _ _ _ _ _ Hf). unfold reg_text. rewrite <- !app_assoc.
  inversion_clear Hn as [|?? H1 Hn2]. inversion_clear Hn2 as [|?? H2 Hn3]. inversion_clear Hn3 as [|?? H3 Hn4]. inversion_clear Hn4 as [|?? H4 _].
  do 4 (apply renders_lits; [assumption|]; apply renders_hex; [assumption|]). apply renders_end; reflexivity.
Qed.

Lemma selector_shown fmt name v :
  (forall a b c, text_of (strings []) (codes fmt) [a; b; c] = text_of (strings []) (print_format (lits name ++ conv (KHex false) :: lits " (" ++
    conv KDec :: lits "|" ++ conv KDec :: lits ")
")) [a; b; c]) -> forallb (fun c => negb (c =? 37)) (codes name) = true -> 0 <= v < 65536 ->
  shows_text ser_putchar (print_selector ser_putchar fmt v) (selector_text name v).
Proof.
  intros Hf Hn Hv. apply (print_s_shows _ ser_total _ _ _ _ _ (Hf _ _ _)). unfold selector_text.
  rewrite Z.shiftr_div_pow2 by lia. change (2 ^ 3) with 8. change 3 with (Z.ones 2). rewrite Z.land_ones by lia. change (2 ^ 2) with 4.
  assert (u32_ok v) by (unfold u32_ok; lia). assert (0 <= v / 8 < 2147483648) by mlia. assert (0 <= v mod 4 < 2147483648) by mlia.
  apply renders_lits; [done|]. render.
Qed.

(** Registers of 32 bits, selectors of 16. *)
Definition registers_ok (r : all_registers) : Prop :=
  Forall u32_ok [r_eax r; r_ebx r; r_ecx r; r_edx r; r_esp r; r_ebp r; r_esi r; r_edi r; r_eflags r; r_cr0 r; r_cr1 r; r_cr2 r; r_cr3 r] /\
  Forall (fun v => 0 <= v < 65536) [r_cs r; r_ss r; r_ds r; r_es r; r_fs r; r_gs r].
Lemma get_regs_ok cpu : registers_ok (get_regs cpu).
Proof. split; repeat (constructor; [solve [apply u32_range|apply u16_range|done]|]); constructor. Qed.

Lemma print_registers_shows r eip : registers_ok r -> u32_ok eip ->
  shows_text ser_putchar (print_registers ser_putchar r eip) (registers_text r eip).
Proof.
  intros [H1 H2] He. do 13 apply Forall_cons in H1 as [? H1]. do 6 apply Forall_cons in H2 as [? H2].
  unfold print_registers, registers_text. apply shows_seq.
  { apply (print_s_shows _ ser_total _ _ _ (lits "
Registers:
")); [reflexivity|]. by apply renders_end. }
  do 2 (apply shows_seq; [apply four_shown; [reflexivity|by repeat constructor|assumption..]|]).
  apply shows_seq.
  { apply (print_s_shows _ ser_total _ _ _ (lits "eip: " ++ conv (KHex false) :: lits ", eflags: " ++ conv (KHex false) :: lits "
")); [reflexivity|]. unfold reg_text. rewrite <- !app_assoc. render. }
  apply shows_seq; [apply four_shown; [reflexivity|by repeat constructor|assumption..]|].
  do 5 (apply shows_seq; [apply selector_shown; [reflexivity|done|assumption]|]). apply selector_shown; [reflexivity|done|assumption].
Qed.

(** [panic] turns interrupts off, shows its message and all registers, and does
    not return. *)
Theorem panic_shows int86 str_at fmt args cpu eip t w n st r w1 : 
  int86 0x10 (regs_in 3 0 0 0 0 0) w = Ok (r, w1) -> text_of str_at fmt args = Ok (n, st) -> u32_ok eip ->
  panic_report ser_putchar int86 str_at fmt args cpu eip t w =
    put_all ser_putchar (codes "~~~~~ pcboot panic ~~~~~
" ++ out st ++ registers_text (get_regs cpu) eip) t (mk_world (trace w1) false) /\
  panic ser_putchar int86 str_at fmt args cpu eip t w = Panic.
Proof.
  intros Eb Et He. assert (panic_report ser_putchar int86 str_at fmt args cpu eip t w =
    put_all ser_putchar (codes "~~~~~ pcboot panic ~~~~~
" ++ out st ++ registers_text (get_regs cpu) eip) t (mk_world (trace w1) false)) as E.
  { unfold panic_report. rewrite (bind_ok _ _ _ _ _ Eb). rewrite (bind_ok _ _ _ tt (mk_world (trace w1) false)) by done.
    refine (shows_seq ser_putchar _ (fun t => t ← print_at ser_putchar str_at fmt args t; print_registers ser_putchar (get_regs cpu) eip t) _ _ _ _ t _).
    - apply (print_s_shows _ ser_total _ _ _ (lits "~~~~~ pcboot panic ~~~~~
")); [reflexivity|]. by apply renders_end.
    - apply shows_seq; [by apply (print_at_shows _ ser_total _ _ _ n)|]. apply print_registers_shows; [apply get_regs_ok|done]. }
  split; [exact E|]. unfold panic, mbind, io_mbind. rewrite E. clear - ser_total.
  destruct (put_all_total ser_putchar ser_total (codes "~~~~~ pcboot panic ~~~~~
" ++ out st ++ registers_text (get_regs cpu) eip) t (mk_world (trace w1) false)) as [[t' w'] Ep]. by rewrite Ep.
Qed.
End panicked.

(** ** Video modes and monitors *)

(** The string in an array of characters. *)
Fixpoint c_string (l : list Z) : list Z :=
  match l with [] => [] | c :: l => if c =? 0 then [] else c :: c_string l end.

(** [edid->vendor], and its three letters of five bits. *)
Definition edid_vendor (edid : list Z) : Z := sw edid 8.
Definition vendor_letters (v : Z) : list Z := [Z.land (Z.shiftr v 10) 0x1f; Z.land (Z.shiftr v 5) 0x1f; Z.land v 0x1f; 0].

Section modes.
Context (ser_putchar : Z -> IO unit).

Definition print_edid (edid : list Z) (t : contty) : IO contty :=
  match edid_preferred_resolution edid with
  | (_, None) => print_s ser_putchar [] "invalid EDID magic
" [] t
  | (_, Some (xres, yres)) =>
      t ← print_s ser_putchar [c_string (vendor_letters (edid_vendor edid))] "Manufacturer: %s
" [0] t;
      print_s ser_putchar [] "Preferred resolution: %dx%d
" [xres; yres] t
  end.

(** Fields of [struct vbe_mode_info] that are only printed. *)
Definition mi_mode_attr (m : mem) (a : Z) : Z := ld16 m a.
Definition mi_scanline_bytes (m : mem) (a : Z) : Z := ld16 m (a + 16).
Definition mi_num_planes (m : mem) (a : Z) : Z := ld8 m (a + 24).
Definition mi_num_banks (m : mem) (a : Z) : Z := ld8 m (a + 26).
Definition mi_mem_model (m : mem) (a : Z) : Z := ld8 m (a + 27).

Definition print_color (fmt : string) (size pos : Z) (t : contty) : IO contty :=
  mask ← lift (color_mask size pos);
  print_s ser_putchar [] fmt [size; mask] t.

Definition print_mode_info (m : mem) (mi : Z) (t : contty) : IO contty :=
  let pr := print_s ser_putchar [] in
  t ← pr "resolution: %dx%d
" [mi_xres m mi; mi_yres m mi] t;
  t ← pr "color depth: %d
" [mi_bpp m mi] t;
  t ← pr "mode attributes: %x
" [mi_mode_attr m mi] t;
  t ← pr "bytes per scanline: %d
" [mi_scanline_bytes m mi] t;
  t ← pr "number of planes: %d
" [mi_num_planes m mi] t;
  t ← pr "number of banks: %d
" [mi_num_banks m mi] t;
  t ← pr "mem model: %d
" [mi_mem_model m mi] t;
  t ← print_color "red bits: %d (mask: %x)
" (mi_rmask_size m mi) (mi_rpos m mi) t;
  t ← print_color "green bits: %d (mask: %x)
" (mi_gmask_size m mi) (mi_gpos m mi) t;
  t ← print_color "blue bits: %d (mask: %x)
" (mi_bmask_size m mi) (mi_bpos m mi) t;
  pr "framebuffer address: %x
" [mi_fb_addr m mi] t.
End modes.

(** ** PCI devices *)
Definition cd_device (c : config_data) : Z := Z.shiftr (default 0 (zlookup c 0)) 16.
Definition cd_iface (c : config_data) : Z := Z.land (Z.shiftr (default 0 (zlookup c 2)) 8) 0xff.
Definition cd_subclass (c : config_data) : Z := Z.land (Z.shiftr (default 0 (zlookup c 2)) 16) 0xff.
Definition cd_class (c : config_data) : Z := Z.shiftr (default 0 (zlookup c 2)) 24.

Section devices.
Context (ser_putchar : Z -> IO unit).

(** Formats with quotes, 34. *)
Definition print_dev_info (info : config_data) (bus dv func : Z) (t : contty) : IO contty :=
  t ← print_s ser_putchar [] "- (%d:%d,%d) Device %04x:%04x: " [bus; dv; func; cd_vendor info; cd_device info] t;
  class ← lift (class_str (cd_class info));
  let multi := if negb (Z.land (cd_hdr_type info) TYPE_MULTIFUNC =? 0) then "multi"%string else "single"%string in
  t ← print_at ser_putchar (strings [codes class; codes multi]) ([34] ++ codes "%s" ++ [34] ++ codes " (%d) - %s-func
") [0; cd_class info; 1] t;
  subclass ← lift (subclass_str (cd_class info) (cd_subclass info));
  print_at ser_putchar (strings [codes subclass]) (codes "    subclass: " ++ [34] ++ codes "%s" ++ [34] ++ codes " (%d), iface: %d
") [0; cd_subclass info; cd_iface info] t.
End devices.

(** ** The page bitmap *)
Section pages.
Context (ser_putchar : Z -> IO unit).

Definition print_bitmap_word (i word : Z) (t : contty) : IO contty :=
  t ← (if Z.land i 3 =? 0 then
         let pg := u32 (i * 32) in
         print_s ser_putchar [] "
%5d [%08x]:" [pg; PAGE_TO_ADDR pg] t
       else mret t);
  print_s ser_putchar [] " %08x" [word] t.
Fixpoint print_bitmap_words (st : pmem) (i : Z) (n : nat) (t : contty) : IO contty :=
  match n with
  | O => mret t
  | S n => t ← print_bitmap_word i (bmword st i) t; print_bitmap_words st (i + 1) n t
  end.
Definition print_page_bitmap (st : pmem) (t : contty) : IO contty :=
  t ← print_bitmap_words st 0 (Z.to_nat (Z.quot (bmsize st) 4)) t;
  print_s ser_putchar [] "
" [] t.
End pages.

(** Padded on the left with [c]. *)
Definition pad_left (w c : Z) (t : list Z) : list Z := replicate (Z.to_nat (w - strlen t)) c ++ t.
Definition hex8 (n : Z) : list Z := pad_left 8 48 (number 16 n).

Lemma renders_hexw f sp w n l args txt : left_align sp = false -> item_ok (zeros w (KHex false)) -> u32_ok n ->
  renders f (leave sp (mk_dir false false false true (codes w) (KHex false))) l args txt ->
  renders f sp (zeros w (KHex false) :: l) (n :: args) (pad_left (atoi (codes w)) 48 (number 16 n) ++ txt).
Proof.
  intros Hsp Hi Hn. apply (renders_dir f sp (mk_dir false false false true (codes w) (KHex false))); [done| |].
  - unfold regular. cbn. by rewrite Hsp.
  - unfold std_dir, std_parts. cbn [d_kind d_alt andb]. rewrite list_fmap_id, u32_small by done. reflexivity.
Qed.
Lemma renders_hex8 f sp n l args txt : left_align sp = false -> u32_ok n ->
  renders f (leave sp (mk_dir false false false true (codes "8") (KHex false))) l args txt ->
  renders f sp (zeros "8" (KHex false) :: l) (n :: args) (hex8 n ++ txt).
Proof. intros Hsp. apply (renders_hexw f sp "8"); [done|]. split; [by repeat constructor|by vm_compute]. Qed.
Lemma renders_right f sp w n l args txt : left_align sp = false -> sign sp = false -> item_ok (right w KDec) -> 0 <= n < 2147483648 ->
  renders f (leave sp (mk_dir false false false false (codes w) KDec)) l args txt ->
  renders f sp (right w KDec :: l) (n :: args) (pad_left (atoi (codes w)) 32 (number 10 n) ++ txt).
Proof.
  intros Hl Hsp Hi Hn. apply (renders_dir f sp (mk_dir false false false false (codes w) KDec)); [done| |].
  - unfold regular. cbn -[s32]. rewrite s32_small by lia. rewrite Hsp, Hl. destruct (Z.ltb_spec (-2147483648) n); [|lia].
    destruct (Z.leb_spec 0 n); [|lia]. by destruct (unsig sp).
  - unfold std_dir, std_parts. cbn [d_kind d_plus flag]. rewrite s32_small by lia. destruct (Z.ltb_spec n 0); [lia|].
    by rewrite Z.abs_eq by lia.
Qed.

(** The words of the bitmap, four to a line, each line with its first page and
    address. *)
Definition bitmap_line (i : Z) : list Z :=
  codes "
" ++ pad_left 5 32 (number 10 (i * 32)) ++ codes " [" ++ hex8 (i * 131072) ++ codes "]:".
Definition bitmap_text (st : pmem) (l : list Z) : list Z :=
  concat ((fun i => (if i mod 4 =? 0 then bitmap_line i else []) ++ codes " " ++ hex8 (bmword st i)) <$> l).

Lemma edid_bits a b : 0 <= a < 256 -> 0 <= b < 256 -> 0 <= Z.lor a (Z.shiftl (Z.land b 0xf0) 4) < 2147483648.
Proof.
  intros Ha Hb. pose proof (byte_cases (fun c => (0 <=? Z.shiftl (Z.land c 0xf0) 4) && (Z.shiftl (Z.land c 0xf0) 4 <? 4096)) eq_refl _ Hb) as Hc.
  cbv beta in Hc. apply andb_true_iff in Hc as [H1%Z.leb_le H2%Z.ltb_lt]. revert H1 H2. generalize (Z.shiftl (Z.land b 0xf0) 4). intros c H1 H2.
  pose proof (Z.add_lor_land a c). assert (0 <= Z.land a c) by (apply Z.land_nonneg; lia). assert (0 <= Z.lor a c) by (apply Z.lor_nonneg; lia). lia.
Qed.

Section more_shown.
Context (ser_putchar : Z -> IO unit).
Hypothesis ser_total : forall c w, exists w', ser_putchar c w = Ok (tt, w').

Lemma print_bitmap_word_shows i word : 0 <= i < 32768 -> u32_ok word ->
  shows_text ser_putchar (print_bitmap_word ser_putchar i word) ((if i mod 4 =? 0 then bitmap_line i else []) ++ codes " " ++ hex8 word).
Proof.
  intros Hi Hw. unfold print_bitmap_word. change 3 with (Z.ones 2). rewrite Z.land_ones by lia. change (2 ^ 2) with 4. apply shows_seq.
  - destruct (_ =? 0); [|done]. cbv zeta. rewrite u32_small by lia. unfold PAGE_TO_ADDR. rewrite (u32_small (i * 32)), Z.shiftl_mul_pow2, u32_small by lia.
    replace (i * 32 * 2 ^ 12) with (i * 131072) by lia. unfold bitmap_line.
    apply (print_s_shows _ ser_total _ _ _ (lits "
" ++ right "5" KDec :: lits " [" ++ zeros "8" (KHex false) :: lits "]:")); [reflexivity|].
    apply renders_lits; [done|]. apply (renders_right _ _ "5"); [done|done| |lia|]. { split; [by repeat constructor|by vm_compute]. }
    apply renders_lits; [done|]. apply renders_hex8; [done|unfold u32_ok; lia|]. by apply renders_end.
  - apply (print_s_shows _ ser_total _ _ _ (lits " " ++ zeros "8" (KHex false) :: [])); [reflexivity|].
    apply renders_lits; [done|]. rewrite <- (app_nil_r (hex8 word)). apply renders_hex8; [done|done|apply renders_nil].
Qed.

Lemma print_bitmap_words_shows st i n : 0 <= i -> i + Z.of_nat n <= 32768 -> (forall j, u32_ok (bmword st j)) ->
  shows_text ser_putchar (fun t => print_bitmap_words ser_putchar st i n t) (bitmap_text st (zseq i n)).
Proof.
  revert i. induction n as [|n IH]; intros i Hi Hn Hw; [done|]. unfold bitmap_text. cbn [zseq fmap list_fmap concat print_bitmap_words].
  apply shows_seq; [apply print_bitmap_word_shows; [lia|done]|]. apply IH; [lia..|done].
Qed.

(** [print_page_bitmap] shows every word of the bitmap, if it is not larger
    than the array of 32768 words that covers 4 GB. *)
Theorem print_page_bitmap_shows st : 0 <= bmsize st <= 131072 -> (forall j, u32_ok (bmword st j)) ->
  shows_text ser_putchar (print_page_bitmap ser_putchar st) (bitmap_text st (zseq 0 (Z.to_nat (bmsize st / 4))) ++ codes "
").
Proof.
  intros Hs Hw. unfold print_page_bitmap. rewrite Z.quot_div_nonneg by lia. apply shows_seq.
  - apply print_bitmap_words_shows; [done|mlia|done].
  - apply (print_s_shows _ ser_total _ _ _ (lits "
")); [reflexivity|]. by apply renders_end.
Qed.

(** [print_edid] shows the five-bit values of the vendor, up to the first zero,
    as characters, and the preferred resolution. *)
Theorem print_edid_shows edid xres yres : edid_preferred_resolution edid = (0, Some (xres, yres)) ->
  shows_text ser_putchar (print_edid ser_putchar edid) ((codes "Manufacturer: " ++ c_string (vendor_letters (edid_vendor edid)) ++ codes "
") ++ codes "Preferred resolution: " ++ number 10 xres ++ codes "x" ++ number 10 yres ++ codes "
").
Proof.
  intros E. unfold print_edid. rewrite E. assert (0 <= xres < 2147483648 /\ 0 <= yres < 2147483648) as [Hx Hy].
  { unfold edid_preferred_resolution in E. destruct (negb _); [done|]. injection E as <- <-. split; apply edid_bits; apply sb_range. }
  apply shows_seq.
  - apply (print_s_shows _ ser_total _ _ _ (lits "Manufacturer: " ++ conv KStr :: lits "
")); [reflexivity|]. render.
  - apply (print_s_shows _ ser_total _ _ _ (lits "Preferred resolution: " ++ conv KDec :: lits "x" ++ conv KDec :: lits "
")); [reflexivity|]. render.
Qed.
End more_shown.

(** The characters of the vendor are control characters: the code does not add
    the letter before A. *)
Theorem edid_vendor_not_letters edid : Forall (fun c => 0 < c < 32) (c_string (vendor_letters (edid_vendor edid))).
Proof.
  assert (forall l, Forall (fun c => 0 <= c < 32) l -> Forall (fun c => 0 < c < 32) (c_string l)) as Hs.
  { induction 1 as [|c l Hc Hl IH]; [constructor|]. cbn [c_string]. destruct (Z.eqb_spec c 0); constructor; [lia|done]. }
  apply Hs. unfold vendor_letters. change 0x1f with (Z.ones 5). rewrite !Z.land_ones by lia. change (2 ^ 5) with 32.
  repeat constructor; try apply Z.mod_pos_bound; lia.
Qed.

(** Of the vendor "DEL", stored by a monitor as the bytes 0x10 and 0xac, it
    shows one character, 11: the word is also read in the wrong byte order. *)
Example edid_dell : c_string (vendor_letters (edid_vendor (VBE_EDID_MAGIC ++ [0x10; 0xac]))) = [11].
Proof. reflexivity. Qed.

Lemma ld16_range m a : 0 <= ld16 m a < 65536.
Proof. unfold ld16. pose proof (ld8_range m a). pose proof (ld8_range m (a + 1)). lia. Qed.

Section modes_shown.
Context (ser_putchar : Z -> IO unit).
Hypothesis ser_total : forall c w, exists w', ser_putchar c w = Ok (tt, w').

Definition number_line (name : string) (n : Z) : list Z := codes name ++ number 10 n ++ codes "
".
Definition color_line (name : string) (size mask : Z) : list Z :=
  codes name ++ number 10 size ++ codes " (mask: " ++ number 16 mask ++ codes ")
".
Definition mode_text (m : mem) (mi rm gm bm : Z) : list Z :=
  (codes "resolution: " ++ number 10 (mi_xres m mi) ++ codes "x" ++ number 10 (mi_yres m mi) ++ codes "
") ++ number_line "color depth: " (mi_bpp m mi) ++ (codes "mode attributes: " ++ number 16 (mi_mode_attr m mi) ++ codes "
") ++ number_line "bytes per scanline: " (mi_scanline_bytes m mi) ++ number_line "number of planes: " (mi_num_planes m mi) ++
  number_line "number of banks: " (mi_num_banks m mi) ++ number_line "mem model: " (mi_mem_model m mi) ++
  color_line "red bits: " (mi_rmask_size m mi) rm ++ color_line "green bits: " (mi_gmask_size m mi) gm ++
  color_line "blue bits: " (mi_bmask_size m mi) bm ++ (codes "framebuffer address: " ++ number 16 (mi_fb_addr m mi) ++ codes "
").

Lemma number_shown fmt name n :
  (forall a, text_of (strings []) (codes fmt) [a] = text_of (strings []) (print_format (lits name ++ conv KDec :: lits "
")) [a]) -> forallb (fun c => negb (c =? 37)) (codes name) = true -> 0 <= n < 65536 ->
  shows_text ser_putchar (print_s ser_putchar [] fmt [n]) (number_line name n).
Proof.
  intros Hf Hn Hr. apply (print_s_shows _ ser_total _ _ _ _ _ (Hf _)). assert (0 <= n < 2147483648) by lia.
  apply renders_lits; [done|]. render.
Qed.
Lemma color_shown fmt name size pos mask :
  (forall a b, text_of (strings []) (codes fmt) [a; b] = text_of (strings []) (print_format (lits name ++ conv KDec ::
    lits " (mask: " ++ conv (KHex false) :: lits ")
")) [a; b]) -> forallb (fun c => negb (c =? 37)) (codes name) = true -> 0 <= size < 256 -> 0 <= pos -> color_mask size pos = Ok mask ->
  shows_text ser_putchar (print_color ser_putchar fmt size pos) (color_line name size mask).
Proof.
  intros Hf Hn Hr Hp E t w. unfold print_color. rewrite E. revert t w.
  apply (print_s_shows _ ser_total _ _ _ _ _ (Hf _ _)). assert (0 <= size < 2147483648) by lia.
  assert (u32_ok mask). { pose proof (color_mask_bounds size pos ltac:(lia) Hp) as Hb. destruct (_ && _); [|congruence]. destruct Hb as (v & Ev & Hv & _). rewrite E in Ev. injection Ev as ->. exact Hv. }
  apply renders_lits; [done|]. render.
Qed.

(** [print_mode_info] shows the fields of a mode whose color masks the table
    has. *)
Theorem print_mode_info_shows m mi rm gm bm :
  color_mask (mi_rmask_size m mi) (mi_rpos m mi) = Ok rm -> color_mask (mi_gmask_size m mi) (mi_gpos m mi) = Ok gm ->
  color_mask (mi_bmask_size m mi) (mi_bpos m mi) = Ok bm ->
  shows_text ser_putchar (print_mode_info ser_putchar m mi) (mode_text m mi rm gm bm).
Proof.
  intros Er Eg Eb. unfold print_mode_info, mode_text. cbv zeta.
  assert (forall a, 0 <= ld16 m a < 2147483648) as H16 by (intros a; pose proof (ld16_range m a); lia).
  assert (forall a, 0 <= ld8 m a < 65536) as H8 by (intros a; pose proof (ld8_range m a); lia).
  apply shows_seq.
  { apply (print_s_shows _ ser_total _ _ _ (lits "resolution: " ++ conv KDec :: lits "x" ++ conv KDec :: lits "
")); [reflexivity|]. unfold mi_xres, mi_yres. pose proof (H16 (mi + 18)). pose proof (H16 (mi + 20)). render. }
  apply shows_seq; [apply number_shown; [reflexivity|done|apply H8]|].
  apply shows_seq.
  { apply (print_s_shows _ ser_total _ _ _ (lits "mode attributes: " ++ conv (KHex false) :: lits "
")); [reflexivity|]. assert (u32_ok (mi_mode_attr m mi)) by (pose proof (ld16_range m mi); unfold u32_ok, mi_mode_attr; lia). render. }
  apply shows_seq; [apply number_shown; [reflexivity|done|apply ld16_range]|].
  do 3 (apply shows_seq; [apply number_shown; [reflexivity|done|apply H8]|]).
  do 3 (apply shows_seq; [eapply color_shown; [reflexivity|done|apply ld8_range|apply ld8_range|eassumption]|]).
  apply (print_s_shows _ ser_total _ _ _ (lits "framebuffer address: " ++ conv (KHex false) :: lits "
")); [reflexivity|]. assert (u32_ok (mi_fb_addr m mi)) by apply ld32_range. render.
Qed.
End modes_shown.

Section devices_shown.
Context (ser_putchar : Z -> IO unit).
Hypothesis ser_total : forall c w, exists w', ser_putchar c w = Ok (tt, w').

Definition device_text (info : config_data) (bus dv func : Z) (class subclass : string) : list Z :=
  (codes "- (" ++ number 10 bus ++ codes ":" ++ number 10 dv ++ codes "," ++ number 10 func ++ codes ") Device " ++
   pad_left 4 48 (number 16 (cd_vendor info)) ++ codes ":" ++ pad_left 4 48 (number 16 (cd_device info)) ++ codes ": ") ++
  ([34] ++ codes class ++ [34] ++ codes " (" ++ number 10 (cd_class info) ++ codes ") - " ++
   codes (if Z.testbit (cd_hdr_type info) 7 then "multi" else "single") ++ codes "-func
") ++ (codes "    subclass: " ++ [34] ++ codes subclass ++ [34] ++ codes " (" ++ number 10 (cd_subclass info) ++ codes "), iface: " ++
   number 10 (cd_iface info) ++ codes "
").

Lemma print_class_shows class multi n : 0 <= n < 2147483648 ->
  shows_text ser_putchar (print_at ser_putchar (strings [class; multi]) ([34] ++ codes "%s" ++ [34] ++ codes " (%d) - %s-func
") [0; n; 1]) ([34] ++ class ++ [34] ++ codes " (" ++ number 10 n ++ codes ") - " ++ multi ++ codes "-func
").
Proof.
  intros Hn. apply (print_items_shows _ ser_total _ _ _ ([Lit 34] ++ conv KStr :: [Lit 34] ++ lits " (" ++ conv KDec :: lits ") - " ++ conv KStr :: lits "-func
")); [reflexivity|].
  apply renders_lit; [done|]. apply renders_str; [done|]. apply renders_lit; [done|]. render.
Qed.
Lemma print_subclass_shows subclass n k : 0 <= n < 2147483648 -> 0 <= k < 2147483648 ->
  shows_text ser_putchar (print_at ser_putchar (strings [subclass]) (codes "    subclass: " ++ [34] ++ codes "%s" ++ [34] ++ codes " (%d), iface: %d
") [0; n; k]) (codes "    subclass: " ++ [34] ++ subclass ++ [34] ++ codes " (" ++ number 10 n ++ codes "), iface: " ++ number 10 k ++ codes "
").
Proof.
  intros Hn Hk. apply (print_items_shows _ ser_total _ _ _ (lits "    subclass: " ++ [Lit 34] ++ conv KStr :: [Lit 34] ++ lits " (" ++ conv KDec ::
    lits "), iface: " ++ conv KDec :: lits "
")); [reflexivity|].
  apply renders_lits; [done|]. apply renders_lit; [done|]. apply renders_str; [done|]. apply renders_lit; [done|]. render.
Qed.
Lemma print_ids_shows bus dv func v d : 0 <= bus < 256 -> 0 <= dv < 32 -> 0 <= func < 8 -> 0 <= v < 65536 -> 0 <= d < 65536 ->
  shows_text ser_putchar (print_s ser_putchar [] "- (%d:%d,%d) Device %04x:%04x: " [bus; dv; func; v; d])
    (codes "- (" ++ number 10 bus ++ codes ":" ++ number 10 dv ++ codes "," ++ number 10 func ++ codes ") Device " ++
     pad_left 4 48 (number 16 v) ++ codes ":" ++ pad_left 4 48 (number 16 d) ++ codes ": ").
Proof.
  intros Hb Hdv Hf Hv Hd. apply (print_s_shows _ ser_total _ _ _ (lits "- (" ++ conv KDec :: lits ":" ++ conv KDec :: lits "," ++ conv KDec ::
    lits ") Device " ++ zeros "4" (KHex false) :: lits ":" ++ zeros "4" (KHex false) :: lits ": ")); [reflexivity|].
  assert (0 <= bus < 2147483648) by lia. assert (0 <= dv < 2147483648) by lia. assert (0 <= func < 2147483648) by lia.
  assert (item_ok (zeros "4" (KHex false))) by (split; [by repeat constructor|by vm_compute]).
  assert (u32_ok v) by (unfold u32_ok; lia). assert (u32_ok d) by (unfold u32_ok; lia). render.
  apply (renders_hexw _ _ "4"); [done..|]. render. apply (renders_hexw _ _ "4"); [done..|]. render.
Qed.

Lemma byte_small n : 0 <= n < 256 -> 0 <= n < 2147483648.
Proof. lia. Qed.

(** [print_dev_info] shows what the configuration space of a function says,
    unless its subclass has no name in the tables. *)
Theorem print_dev_info_shows info bus dv func class subclass :
  Forall u32_ok info -> 0 <= bus < 256 -> 0 <= dv < 32 -> 0 <= func < 8 ->
  class_str (cd_class info) = Ok class -> subclass_str (cd_class info) (cd_subclass info) = Ok subclass ->
  shows_text ser_putchar (print_dev_info ser_putchar info bus dv func) (device_text info bus dv func class subclass).
Proof.
  intros Hi Hb Hdv Hf Ec Es. assert (forall i, 0 <= default 0 (zlookup info i) < 4294967296) as Hw.
  { intros i. unfold zlookup. destruct (i <? 0); [done|]. destruct (info !! Z.to_nat i) as [x|] eqn:Ex; [|done]. by apply (Forall_lookup_1 _ _ _ _ Hi Ex). }
  assert (forall x, 0 <= Z.land x 0xff < 256) as H8 by (intros x; change 0xff with (Z.ones 8); rewrite Z.land_ones by lia; by apply Z.mod_pos_bound).
  unfold print_dev_info, device_text. apply shows_seq.
  - apply print_ids_shows; [done..| |].
    + unfold cd_vendor. change 0xffff with (Z.ones 16). rewrite Z.land_ones by lia. by apply Z.mod_pos_bound.
    + unfold cd_device. rewrite Z.shiftr_div_pow2 by lia. pose proof (Hw 0). change (2 ^ 16) with 65536. mlia.
  - assert (0 <= cd_class info < 2147483648) by (unfold cd_class; rewrite Z.shiftr_div_pow2 by lia; pose proof (Hw 2); change (2 ^ 24) with 16777216; mlia).
    intros t w. rewrite Ec. cbv zeta. cbn [lift]. revert t w. apply shows_seq.
    + assert ((if negb (Z.land (cd_hdr_type info) TYPE_MULTIFUNC =? 0) then "multi"%string else "single"%string) =
        (if Z.testbit (cd_hdr_type info) 7 then "multi"%string else "single"%string)) as ->; [|by apply print_class_shows].
      pose proof (byte_cases (fun c => Bool.eqb (negb (Z.land c TYPE_MULTIFUNC =? 0)) (Z.testbit c 7)) eq_refl (cd_hdr_type info) (H8 _)) as Hc.
      cbv beta in Hc. apply Bool.eqb_prop in Hc. by rewrite Hc.
    + intros t w. rewrite Es. revert t w. apply print_subclass_shows; [unfold cd_subclass|unfold cd_iface]; (eapply byte_small, (H8 _)).
Qed.
End devices_shown.
